(* ===== verification/_CoqProject ===== *)
-Q . S2P
Prelude.v
Checksum.v
Addr.v
Support.v
Http.v
Transport.v
TcpOptions.v
Ipv4.v
Tcp.v
Udp.v
TlsRecord.v
TlsHello.v
PacketManager.v
QTunnel.v
Layers.v
SafeReceive.v
Settings.v
Driver.v
Handshake.v
FullPacket.v
PacketView.v
Print.v
NoNet.v
SocketFilter.v
Tables.v
Forward.v
Client.v
Installer.v
Sockets.v
WinSockets.v
Server.v
Dummies.v
Connections.v
Database.v
Filters.v
Startup.v
WinClient.v
