(* ===== verification/Prelude.v ===== *)
(** * QTunnel: packets, fragments, records and the two ends of the tunnel

    QTunnel carries IP packets between a client and a server inside a stream that
    looks like TLS 1.3 application data.  One end takes a packet apart (addresses,
    transport state, payload), splits the payload, puts fragment metadata and
    endpoints in front, and wraps the result in a TLS record; the other end cuts the
    records out of its TCP stream, unwraps them, puts the fragments together and builds
    a new packet with fresh lengths and checksums.  A BPF program on the server lets
    only the packets of tunnelled connections through to its raw sockets.

    All paths below are under src/QVPN/QVPN Lib/, unless they start with another
    directory.

    ** Files

    - [Prelude]: unsigned integers, memory, loops, text; the lemmas and tactics
      every file uses.
    - [Checksum]: the summing loops of src/qvpn_structures.cpp ([sum_words],
      [sum_data], [fold_carries], [complement]) and the one's-complement arithmetic
      that shows when a sum verifies.
    - [Addr]: [IPv4Address], [NetAddr], [QVPNSocketData], [Tools::parse_net_addr]
      (src/qvpn_lib.cpp, include/qvpn_lib.hpp, src/qvpn_tools.cpp).
    - [Support]: the logger and its terminal colours, the generator of ports, the lists of
      adapters (include/qvpn_lib.hpp, src/qvpn_lib.cpp, src/Windows/).
    - [Transport]: [TcpFlagsObject], the pseudo-header, and [QVPNVerboser] with its tables
      of names.
    - [TcpOptions]: the classes of TCP options and the loop that walks them.
    - [Ipv4], [Tcp], [Udp]: the header classes of src/qvpn_structures.cpp.  Each exists
      twice in the code: an object, which owns a vector of its bytes
      (module [...LittleEndian]), and a view, which points into somebody's buffer
      (module [...View]).  [Udp] also holds the payload classes [DataPacket...].
    - [Http]: the lookups of [HttpTools] (src/qvpn_tools.cpp, include/qvpn_tools.hpp) and the
      classes [Http1PacketRequest...], [Http1PacketResponse...].
    - [TlsRecord]: [TLS13_RecordLittleEndian], [TLS13_RecordView] with their stream
      parser [bytes_parse], and the application-data classes.  The class
      [ProtoTemplate] is the concept [is_proto_template].
    - [TlsHello]: the hello messages, their fields and extensions, with the generators
      ([TLS13_ClientHelloPacketLittleEndian], [TLS13_ServerHelloPacketView], ...).  The class
      [Randomness] is the random generator of the standard library.
    - [PacketManager]: [PacketBuilderData], [SplittedPacket], [SplittedPacketView],
      [PacketBuilder], [QVPNPacketManager] (src/qvpn_driver.cpp,
      include/qvpn_driver.hpp).
    - [QTunnel]: [QTunnelTCPViewScheme], [QTunnelUDPViewScheme], [QTunnelProtoData],
      [QTunnelProxy], [QTunnelData], and the generators that write them.
    - [Layers]: [BaseLayer], [LayerWrapper], [QLayer], [DefaultLayersStrategy],
      [QVPNLayersSettings].  The class [LayerLaws] is what a layer promises to the chain.
    - [SafeReceive]: [SafeReceiveData] and the loop of [safe_recv]
      (include/qvpn_lib.hpp, include/Linux/qvpn_net_tools.hpp).
    - [Settings]: the settings of client and server with the parsers of their two files, and the
      whitelists of hosts (include/qvpn_driver.hpp, src/qvpn_driver.cpp, src/qvpn_lib.cpp).
      The class [Json] is the JSON library.
    - [Driver]: what [QVPNClientDriver] and [QVPNServerDriver] do with a packet:
      [encode_data], [decode_data], [encode_and_send], [try_reconnect], and the
      authorization block.  The class [Socket] is the drivers' socket parameter.
    - [Handshake]: the authorization, [init] of the client ([ClientAuth]) and the accepting loop
      [listen_and_connect_socket_] of the server ([ServerAuth]).
    - [FullPacket]: the specialisations of [FullPacket] over objects, [Ipv4TcpFatPacket] and
      [Ipv4UdpFatPacket].  The template specialisations repeat the same text over different
      transport classes; the class [TransportObject] is what that text calls,
      [TransportLaws] what the proofs need of it, and [tcp_object] and [udp_object] are
      the instances.
    - [PacketView]: the specialisations over views, which the program uses:
      [Ipv4TcpPacket_View] and [Ipv4UdpPacket_View] look into a capture buffer,
      [Ipv4TcpPacket] and [Ipv4UdpPacket] own their buffer.  [TransportView] and
      [TransportViewLaws] are the classes.
    - [Print]: the texts that the loops print of every packet.
    - [NoNet]: [NoNetPacket], packets whose addresses are kept elsewhere
      (include/qvpn_structures.hpp).
    - [SocketFilter]: QVPN Socket Filter/src/Linux/bpf/bpf_filter.c,
      [QVPN_SocketFilter] of src/Linux/qvpn_socket_filters.cpp, and
      [socket_filter_wrapper].
    - [Tables]: the hash tables with which the server keys its connections: hashes,
      comparisons, and [std::unordered_map] as an array of buckets (include/qvpn_lib.hpp).
    - [Forward]: the packet the server builds from a decoded one for the raw socket of its
      connection ([generate_sender_packet] of [QVPNServerDriver]).
    - [Client]: [PacketPreParser] (include/qvpn_tools.hpp) and an iteration of each capture
      loop of [WinDivertClientVPNNetDriver_] (include/Windows/windivert_ext.hpp).
    - [Installer]: [ConnectionInstaller] (include/qvpn_driver.hpp) and the repair of the shadow
      socket, [append_socket_to_connection] (src/Linux/qvpn_net_tools.cpp,
      include/Linux/qvpn_net_tools.hpp).  The classes [RawSocketOps] and [RepairSocket] are the
      system calls.
    - [Sockets]: the sockets of the Linux build, [QVPN_Socket], [QVPN_RawSocket],
      [QVPNNetTools] (src/Linux/qvpn_net_tools.cpp).  The class [SysSockets] is the kernel's
      side, one function per system call, and [SysLaws] what is relied on of its descriptor table.
    - [WinSockets]: the sockets of the Windows build and its [QVPN_SocketFilter]
      (src/Windows/).  The class [Winsock] is the library, [WinsockLaws] what is relied on of it.
    - [Server]: the loops of [QVPNServerDriver] over its sockets (include/qvpn_driver.hpp):
      [vpn_request_loop_iteration] and [process_socket_] of a client,
      [vpn_response_loop_iteration] and a pass of [listen_response_sockets_].  What raw sockets
      answer is an argument of a step, what they are given is part of the result.
    - [Dummies]: the dummy specialisations of include/qvpn_structures.hpp, and the object of a
      server's visitor that stands for no packet.
    - [Connections]: the server over the system calls of [Sockets], in place of the answers that
      [Server] leaves open: its raw sockets ([connect_to_server_impl_]), the accepting loop
      ([listen_iteration]), a turn of a client's loop with its end ([process_turn]), and a turn
      of the loop of the responses ([response_turn]).
    - [Database]: [SQLiteDatabase] (QVPN Server App/src/database.cpp) and the statistics of the
      users that it stores.  The class [Sqlite] is the library, [SqliteLaws] its answers to the
      queries the program writes.
    - [Filters]: the texts of the WinDivert filters that the client builds
      (include/Windows/windivert_ext.hpp, src/Windows/windivert_ext.cpp), and the packets they
      let through; the speed meter.  The class [WinDivert] decides which packets match a text.
    - [Startup]: what client and server do from reading their settings to the first socket:
      the printed names of modes and methods, and [main] of the two programs.
    - [WinClient]: the client program of the Windows build: the authorization of [Handshake]
      over the sockets of [WinSockets], the driver's [init], and [main].

    ** How the code is read

    - A byte, [UShort] or [UInt] is a [Z]; [u8], [u16], [u32] are the conversions where the
      code converts, and arithmetic that C++ promotes to [int] is left unbounded up to
      there.
    - A buffer or a vector is the list of its bytes ([mem]); a pointer or an iterator is
      an offset into it.  [load], [store], [range] and [blit] answer [None] outside the
      buffer, so [None] stands for undefined behaviour (or an exception nobody
      catches), and a theorem that a function gives [Some] says that it is defined.
    - A method that changes its object returns the changed one; a view's setters return
      the changed buffer.
    - Loops: a [for] or [while] with a bound known beforehand runs with that bound as
      fuel ([for_loop], [while_loop]; [for_loop_total] and [while_loop_total] show that
      the bound is enough).  [fold_carries] has fuel for two turns, which
      are enough for every 32-bit sum ([fold_carries_spec]).  [SafeReceiveData.parse_loop] takes its fuel
      as an argument and the theorems hold for every positive one; [safe_recv] runs over the
      list of results its [receive] calls give, and answers [Blocked] when the loop asks for
      more of them.
    - The table of the packet manager is an unordered map; its iteration order is a
      function [arrange] of which only that it permutes is known.
    - The loops of the programs are modelled by their iterations; several clients and the
      loop of the responses take turns, one iteration at a time ([system_step] in [Server]; with
      the accepting loop and over the kernel, [serving_step] in [Connections]).
      The accesses that the threads make to the shared tables without a lock inside an
      iteration are data races, which the model does not describe.
    - Printing a packet is part of an iteration because it can fail to end: the texts are
      [None] there ([Print]).
    - Code outside the repository is a parameter: the kernel behind the BPF program is the
      class [KernelOps] with its documented behaviour in [KernelLaws].
      So are the system calls of the sockets ([SysSockets]), the JSON library ([Json]), SQLite
      ([Sqlite]), Winsock ([Winsock]) and WinDivert ([WinDivert]); each has an instance, a small implementation, at
      which the theorems are applied.
    - Two integers that C++ compares as unsigned are compared as such: the loop over the TCP
      options takes the size of its range modulo 2^64 ([u64]).
    - A method of a socket is a computation in the monad [io] of [Sockets]: it threads the
      kernel's state and is [None] where the code is undefined.
    - Code that reads past a local variable is given the bytes that lie there as an argument,
      [behind] in [WinSockets]: the empty list is the view of the language, where the read is
      undefined, and a longer one says what a compiler's stack would answer.
    - The tables of the server are finite maps in [Server] and [Connections]; [Tables] shows
      that a hash table answers as the finite map does, for the keys that the server stores and
      for those it looks for, and [request_history] in [Server] that a request uses no others.
    - A text that is printed is modelled where printing it can be undefined or can fail to end
      ([Print], [Startup]); other log output and [bpf_printk] are left out.

    ** What is shown

    - The program as a whole: [tcp_request_forwarded] in [Server] (from the client's capture
      buffer to the raw socket of the server, over any cutting of the stream) and
      [tcp_response_injected] (from the raw socket back to the packet that the client
      injects, and what of it [WinDivertSend] is told to read).  In both directions a TCP header
      is carried as [carried] of [FullPacket] says: octet for octet besides ports and checksum,
      but without the reserved bits and NS, and with SYN where NS was set.
    - The tunnel: [packet_crosses_tunnel] (encoding, any cutting of the stream,
      decoding), [large_packet_crosses_cut] and [wire_well_formed] (everything sent is made of
      records) in [Driver]; [tcp_view_carried] and
      [udp_view_carried] in [PacketView] (collecting the transport state from one buffer,
      the packet built in the other); [tcp_forwarded] in [Forward] (the packet the server
      sends on), and [udp_forwarded_rejected] (why UDP does not get through); [nonet_tcp_carried]
      in [NoNet] (the same for segments without an IPv4 header).
    - Authorization: [authorization_completes] (client and server together),
      [only_known_users] (an invariant of the accepting loop), [hello_out_of_bounds] (what a
      hostile hello does), [client_hello_roundtrip].
    - Round trips of the parts: [tunnel_wire_roundtrip], [tls_record_roundtrip],
      [single_fragment_roundtrip], [in_order_reassembly], [layers_roundtrip],
      [parse_net_addr_to_string].
    - Checksums: what [recalculate_...] writes makes a receiver's sum verify, and
      nothing else changes ([recalculate_ip_checksum_verifies], [tcp_checksum_verifies],
      [udp_checksum_verifies], [full_checksums_verify]).
    - Views refine objects: on a header embedded anywhere in a buffer, the operations of
      the view that the theorems list do what the object's do, and leave the rest of the
      buffer alone ([ipv4_view_refines_object], [tcp_view_refines_object],
      [udp_view_refines_object]), and a packet with an IPv4 header of 20 bytes in a buffer is
      parsed, read and recomputed like the packet in parts ([packet_view_refines]).
    - Constructors, generators and getters, with the cases where they are undefined or
      lose something ([ipv4_parse_spec], [ipv4_generate_spec], [tcp_generate_spec], and
      others of these files).
    - State: [manager_invariant] (no dangling pointer into the table), [build_packet_total] (safe on any
      input).
    - The server's tables as a state machine ([table_step], [system_step]):
      [tables_consistent] in every reachable state, with descriptors that are used again and
      entries that clients have left behind; [reset_connection_never_answers].
    - Termination: [options_loop_terminates], and what a packet does for which the loop does
      not end, [zero_length_option_stops_responses]; a reversed range, [reversed_range].
    - The stream: [tls_bytes_parse_spec], [safe_recv_reassembles], and where the receiver
      fails: [safe_recv_tail], [safe_recv_never_gives_up], [tls_full_length_wraps].
    - The filter: [connection_filter_exact] (exact for headers of 20 bytes, and what it does
      with others), [other_connection_blocked].
    - The server's own handshake: [handshake_out_of_order] (why no peer completes it),
      [install_outcomes] (the order of its steps), [append_left_in_repair],
      [other_protocols_never_connect].
    - Sockets and descriptors: [reconnect_owns_one_descriptor], [accepting_keeps_descriptors],
      [connect_refines] (opening a raw socket over the kernel is a step of [Server]),
      [objects_bounded_by_descriptors] (what the raw sockets cost a server in its whole
      life, over its loops as [serving_step] runs them), and [ipv6_address_cut].
    - The Windows build: [connect_reads_behind_name] (the address length given to Winsock is that
      of another structure), [windows_client_never_reconnects], and [client_app_undefined], which
      carries the first of them up to [main].
    - The supporting classes: [logger_levels], [adapters_listed], [dummy_visited],
      [tcp_metadata_applied].
    - Who may use the tunnel: [authorized_like_users] and [wildcard_authorized], the
      authorization over the database.
    - What enters the tunnel: [operators_denote] (the operators on filters),
      [outgoing_captured] and [responses_never_captured] (the two handles of the client).
    - The start: [client_starts_without_crypto], [server_settings_parsed],
      [whitelist_roundtrip].
    - The server's tables: [server_table_refines].
    - HTTP messages: [http_header_line] (what a lookup of a header line answers, wherever the
      line stands) and [http_header_never_found] (a name that does not occur).

    Several theorems state behaviour that the code does not seem to intend: bytes of
    a large payload that are not sent, flags that are lost, setters that or their
    value into the old one.  Their comments say so.

    ** What is not modelled

    - The return of a UDP packet through [Client] and [Server]: nothing comes back for a packet
      that is not let through ([udp_forwarded_rejected]).
    - The variant wrappers and the concepts of include/qvpn_structures.hpp: they forward to the
      alternative they hold, or are predicates that the compiler decides.
    - The wrappers of Npcap and Wintun (src/Windows/): calls into drivers outside the repository,
      but for the list of devices, which is in [Support].  The handles of WinDivert are in
      [Client] and [Filters]; its driver is a parameter.
    - What cannot be instantiated: the member template [recv_from] of the sockets, and on Windows
      the client driver's [disconnect] and [stop_capture_traffic].
    - The conversions of 64-bit integers to network order on Windows, which nothing calls, and the
      colours that the logger does not print.
    - Threads: starting and joining them, and the data races between them.
    - The command line of the programs, and the test programs, which do not use the library.
    - Vendored code (src/include/). *)
From stdpp Require Export base tactics option list numbers strings pretty gmap.
From Stdlib Require Export ZArith Lia.

#[global] Set Default Goal Selector "!".
Declare Scope qvpn_scope.
Open Scope Z_scope.

(** * Machine integers *)

(** Conversions to the unsigned types of [QVPN::Core::BaseTypes]: assigning to
    a [UByte], [UShort], [UInt] or [ULong] keeps the value modulo 2^w. *)
Definition u8 (z : Z) : Z := z mod 256.
Definition u16 (z : Z) : Z := z mod 65536.
Definition u32 (z : Z) : Z := z mod 4294967296.
Definition u64 (z : Z) : Z := z mod 18446744073709551616.

(** A value of type [UByte], [UShort], [UInt]. *)
Definition is_u8 (z : Z) : Prop := 0 <= z < 256.
Definition is_u16 (z : Z) : Prop := 0 <= z < 65536.
Definition is_u32 (z : Z) : Prop := 0 <= z < 4294967296.

#[global] Instance is_u8_dec z : Decision (is_u8 z).
Proof. unfold is_u8. apply _. Defined.
#[global] Instance is_u16_dec z : Decision (is_u16 z).
Proof. unfold is_u16. apply _. Defined.
#[global] Instance is_u32_dec z : Decision (is_u32 z).
Proof. unfold is_u32. apply _. Defined.

(** Octets of a big-endian number: [v >> 8*k & 0xFF]. *)
Definition octet (k v : Z) : Z := Z.land (Z.shiftr v (8 * k)) 255.

(** The expressions [a << 8 | b] and [a << 24 | b << 16 | c << 8 | d] on
    promoted bytes, converted to [UShort] and [UInt]. *)
Definition cat16 (a b : Z) : Z := u16 (Z.lor (Z.shiftl a 8) b).
Definition cat32 (a b c d : Z) : Z :=
  u32 (Z.lor (Z.lor (Z.lor (Z.shiftl a 24) (Z.shiftl b 16)) (Z.shiftl c 8)) d).

#[global] Arguments Z.land : simpl never.
#[global] Arguments Z.lor : simpl never.
#[global] Arguments Z.lxor : simpl never.
#[global] Arguments Z.shiftl : simpl never.
#[global] Arguments Z.shiftr : simpl never.
#[global] Arguments u8 : simpl never.
#[global] Arguments u16 : simpl never.
#[global] Arguments u32 : simpl never.
#[global] Arguments u64 : simpl never.
#[global] Arguments octet : simpl never.
#[global] Arguments cat16 : simpl never.
#[global] Arguments cat32 : simpl never.

(** * Memory

    A vector or a raw buffer is the list of its bytes; a pointer into it is an
    offset, a [Z].  Reading or writing outside the buffer is undefined
    behaviour in the source, and [None] here. *)
Abbreviation mem := (list Z).

Definition bytes (m : mem) : Prop := Forall is_u8 m.

#[global] Instance bytes_dec m : Decision (bytes m).
Proof. unfold bytes. apply _. Defined.

Definition msize (m : mem) : Z := Z.of_nat (length m).

Definition load (m : mem) (p : Z) : option Z :=
  if decide (0 <= p) then m !! Z.to_nat p else None.

Definition store (m : mem) (p v : Z) : option mem :=
  if decide (0 <= p < msize m) then Some (<[Z.to_nat p := v]> m) else None.

(** The bytes of [[b, e)], as [std::copy (b, e, ...)] reads them. *)
Definition range (m : mem) (b e : Z) : option mem :=
  if decide (0 <= b <= e /\ e <= msize m)
  then Some (take (Z.to_nat (e - b)) (drop (Z.to_nat b) m)) else None.

(** [std::copy] of [l] onto [m] at [p]. *)
Fixpoint blit (m : mem) (p : Z) (l : list Z) : option mem :=
  match l with
  | [] => Some m
  | v :: l' => m' ← store m p v; blit m' (p + 1) l'
  end.

Definition load16 (m : mem) (p : Z) : option Z :=
  a ← load m p; b ← load m (p + 1); Some (cat16 a b).

Definition load32 (m : mem) (p : Z) : option Z :=
  a ← load m p; b ← load m (p + 1); c ← load m (p + 2); d ← load m (p + 3);
  Some (cat32 a b c d).

(** [m[p] = v >> 8 & 0xFF; m[p+1] = v & 0xFF]. *)
Definition store16 (m : mem) (p v : Z) : option mem :=
  m' ← store m p (octet 1 v); store m' (p + 1) (octet 0 v).

Definition store32 (m : mem) (p v : Z) : option mem :=
  m1 ← store m p (octet 3 v); m2 ← store m1 (p + 1) (octet 2 v);
  m3 ← store m2 (p + 2) (octet 1 v); store m3 (p + 3) (octet 0 v).

(** * Loops

    A source loop is a [while_loop]: [None] when the body is undefined or the
    fuel runs out; each use has a lemma that its fuel is enough. *)
Fixpoint while_loop {S : Type} (fuel : nat) (c : S -> bool) (body : S -> option S)
    (s : S) : option S :=
  if c s then
    match fuel with
    | O => None
    | Datatypes.S f => s' ← body s; while_loop f c body s'
    end
  else Some s.

(** [for (i = i0; i < n; i += step) body]. *)
Definition for_loop {S : Type} (fuel : nat) (i0 n step : Z)
    (body : Z -> S -> option S) (s : S) : option S :=
  snd <$> while_loop fuel (fun x : Z * S => x.1 <? n)
            (fun x : Z * S => s' ← body x.1 x.2; Some (x.1 + step, s')) (i0, s).

(** * Text *)

(** [std::to_string] and [os << n] of an unsigned number. *)
Definition dec (z : Z) : string := pretty (Z.to_N z).

Definition hex_digit (d : Z) : string :=
  String (Ascii.ascii_of_N (Z.to_N (if d <? 10 then 48 + d else 87 + d))) EmptyString.

Fixpoint hex_go (fuel : nat) (z : Z) (acc : string) : string :=
  match fuel with
  | O => acc
  | S f => let acc' := (hex_digit (z mod 16) +:+ acc)%string in
           if z <? 16 then acc' else hex_go f (z / 16) acc'
  end.

(** [os << std::hex << n] of a [UShort]. *)
Definition hex (z : Z) : string := hex_go 4 z EmptyString.

(** [std::endl]. *)
Definition endl : string := String (Ascii.ascii_of_nat 10) EmptyString.

(** [os << c] of a character. *)
Definition chr (z : Z) : string := String (Ascii.ascii_of_N (Z.to_N z)) EmptyString.

(** * Arithmetic of octets *)

Lemma lor_shiftl_add a b n :
  0 <= n -> 0 <= b < 2 ^ n -> Z.lor (Z.shiftl a n) b = a * 2 ^ n + b.
Proof.
  intros Hn Hb. assert (Hz : Z.land (Z.shiftl a n) b = 0).
  { apply Z.bits_inj'. intros i Hi. rewrite Z.land_spec, Z.bits_0.
    destruct (decide (i < n)).
    - by rewrite Z.shiftl_spec_low by lia.
    - rewrite <- (Z.mod_small b (2 ^ n)) by lia.
      rewrite Z.mod_pow2_bits_high by lia. apply andb_false_r. }
  rewrite <- Z.lxor_lor by done. rewrite <- Z.add_nocarry_lxor by done.
  by rewrite Z.shiftl_mul_pow2.
Qed.

Lemma octet_spec k v : 0 <= k -> octet k v = (v / 2 ^ (8 * k)) mod 256.
Proof.
  intros. unfold octet. change 255 with (Z.ones 8).
  rewrite Z.land_ones by lia. by rewrite Z.shiftr_div_pow2 by lia.
Qed.

Lemma octet0 v : octet 0 v = v mod 256.
Proof. rewrite octet_spec by lia. change (2 ^ (8 * 0)) with 1. by rewrite Z.div_1_r. Qed.
Lemma octet1 v : octet 1 v = (v / 256) mod 256.
Proof. by rewrite octet_spec by lia. Qed.
Lemma octet2 v : octet 2 v = (v / 65536) mod 256.
Proof. by rewrite octet_spec by lia. Qed.
Lemma octet3 v : octet 3 v = (v / 16777216) mod 256.
Proof. by rewrite octet_spec by lia. Qed.

Lemma octet_u8 k v : 0 <= k -> is_u8 (octet k v).
Proof. intros. rewrite octet_spec by lia. apply Z.mod_pos_bound. lia. Qed.

Lemma u8_is_u8 v : is_u8 (u8 v).
Proof. apply Z.mod_pos_bound. lia. Qed.
Lemma u16_is_u16 v : is_u16 (u16 v).
Proof. apply Z.mod_pos_bound. lia. Qed.
Lemma u32_is_u32 v : is_u32 (u32 v).
Proof. apply Z.mod_pos_bound. lia. Qed.
Lemma u8_id v : is_u8 v -> u8 v = v.
Proof. apply Z.mod_small. Qed.
Lemma u16_id v : is_u16 v -> u16 v = v.
Proof. apply Z.mod_small. Qed.
Lemma u32_id v : is_u32 v -> u32 v = v.
Proof. apply Z.mod_small. Qed.

Lemma cat16_spec a b : is_u8 a -> is_u8 b -> cat16 a b = a * 256 + b.
Proof.
  unfold is_u8, cat16. intros. rewrite lor_shiftl_add by lia.
  apply Z.mod_small. lia.
Qed.

Lemma cat32_spec a b c d :
  is_u8 a -> is_u8 b -> is_u8 c -> is_u8 d ->
  cat32 a b c d = a * 16777216 + b * 65536 + c * 256 + d.
Proof.
  unfold is_u8, cat32. intros.
  rewrite <- !Z.lor_assoc.
  rewrite (lor_shiftl_add c d 8), (lor_shiftl_add b _ 16), (lor_shiftl_add a _ 24) by lia.
  change (2 ^ 24) with 16777216. change (2 ^ 16) with 65536. change (2 ^ 8) with 256.
  unfold u32. rewrite Z.mod_small; lia.
Qed.

Lemma cat16_is_u16 a b : is_u16 (cat16 a b).
Proof. apply u16_is_u16. Qed.
Lemma cat32_is_u32 a b c d : is_u32 (cat32 a b c d).
Proof. apply u32_is_u32. Qed.

(** Splitting a number into octets and concatenating them is the identity. *)
Lemma cat16_octets v : is_u16 v -> cat16 (octet 1 v) (octet 0 v) = v.
Proof.
  intros Hv. rewrite cat16_spec by (apply octet_u8; lia).
  rewrite octet0, octet1. unfold is_u16 in Hv. Z.div_mod_to_equations. lia.
Qed.

Lemma cat32_octets v :
  is_u32 v -> cat32 (octet 3 v) (octet 2 v) (octet 1 v) (octet 0 v) = v.
Proof.
  intros Hv. rewrite cat32_spec by (apply octet_u8; lia).
  rewrite octet0, octet1, octet2, octet3. unfold is_u32 in Hv.
  Z.div_mod_to_equations. lia.
Qed.

(** And conversely for two bytes. *)
Lemma octets_cat16 a b :
  is_u8 a -> is_u8 b -> octet 1 (cat16 a b) = a /\ octet 0 (cat16 a b) = b.
Proof.
  intros Ha Hb. rewrite cat16_spec by done. rewrite octet0, octet1.
  unfold is_u8 in *. split; Z.div_mod_to_equations; lia.
Qed.

(** A decidable fact about every byte, checked on the 256 of them. *)
Lemma forall_u8 (P : Z -> bool) :
  forallb P (seqZ 0 256) = true -> forall b, is_u8 b -> P b = true.
Proof.
  intros H b Hb. rewrite forallb_forall in H. apply H.
  apply list_elem_of_In, elem_of_seqZ. unfold is_u8 in Hb. lia.
Qed.

(** * Memory lemmas *)

Lemma msize_nonneg m : 0 <= msize m.
Proof. unfold msize. lia. Qed.
Lemma msize_app m1 m2 : msize (m1 ++ m2) = msize m1 + msize m2.
Proof. unfold msize. rewrite length_app. lia. Qed.
Lemma msize_cons a m : msize (a :: m) = 1 + msize m.
Proof. unfold msize. simpl. lia. Qed.

Lemma u64_small z : 0 <= z < 2 ^ 64 -> u64 z = z.
Proof. intros. unfold u64. apply Z.mod_small. lia. Qed.

Lemma load_Some m p a : load m p = Some a -> 0 <= p < msize m.
Proof.
  unfold load, msize. case_decide; [|done]. intros Hl%lookup_lt_Some. lia.
Qed.

Lemma load_is_Some m p : 0 <= p < msize m -> is_Some (load m p).
Proof.
  unfold load, msize. intros. rewrite decide_True by lia.
  apply lookup_lt_is_Some. lia.
Qed.

Lemma load_None m p : ~ (0 <= p < msize m) -> load m p = None.
Proof.
  unfold load, msize. intros. case_decide; [|done]. apply lookup_ge_None. lia.
Qed.

Lemma load_u8 m p a : bytes m -> load m p = Some a -> is_u8 a.
Proof.
  unfold load. intros Hm. case_decide; [|done]. intros Ha.
  by eapply Forall_lookup_1 in Ha.
Qed.

Lemma load_app_l m1 m2 p : p < msize m1 -> load (m1 ++ m2) p = load m1 p.
Proof.
  unfold load, msize. intros. case_decide; [|done]. apply lookup_app_l. lia.
Qed.

Lemma load_app_r m1 m2 p : msize m1 <= p -> load (m1 ++ m2) p = load m2 (p - msize m1).
Proof.
  unfold load, msize. intros. rewrite !decide_True by lia.
  rewrite lookup_app_r by lia. f_equal. lia.
Qed.

Lemma load_cons a m p : 0 < p -> load (a :: m) p = load m (p - 1).
Proof.
  unfold load. intros. rewrite !decide_True by lia.
  by replace (Z.to_nat p) with (S (Z.to_nat (p - 1))) by lia.
Qed.

Lemma load_cons_0 a m : load (a :: m) 0 = Some a.
Proof. done. Qed.

Lemma store_Some m p v m' :
  store m p v = Some m' -> 0 <= p < msize m /\ m' = <[Z.to_nat p := v]> m.
Proof. unfold store. case_decide; [|done]. by intros [= <-]. Qed.

Lemma store_in m p v : 0 <= p < msize m -> store m p v = Some (<[Z.to_nat p := v]> m).
Proof. unfold store. intros. by rewrite decide_True. Qed.

Lemma store_size m p v m' : store m p v = Some m' -> msize m' = msize m.
Proof. intros [_ ->]%store_Some. unfold msize. by rewrite length_insert. Qed.

Lemma store_bytes m p v m' : bytes m -> is_u8 v -> store m p v = Some m' -> bytes m'.
Proof. intros Hm Hv [_ ->]%store_Some. by apply Forall_insert. Qed.

Lemma load_store m p v m' q :
  store m p v = Some m' -> load m' q = if decide (q = p) then Some v else load m q.
Proof.
  intros [Hp ->]%store_Some. unfold load, msize in *.
  case_decide; case_decide; subst; try lia; [|..|done].
  - rewrite list_lookup_insert_eq by lia. done.
  - rewrite list_lookup_insert_ne by lia. done.
Qed.

Lemma mem_ext (m1 m2 : mem) :
  msize m1 = msize m2 -> (forall p, 0 <= p < msize m1 -> load m1 p = load m2 p) -> m1 = m2.
Proof.
  unfold msize. intros Hl H. apply list_eq_same_length with (length m1); [lia|done|].
  intros i x y Hi Hx Hy. specialize (H (Z.of_nat i) ltac:(lia)).
  unfold load in H. rewrite !decide_True, !Nat2Z.id in H by lia. congruence.
Qed.

(** Four bytes are determined by the number they are. *)
Lemma cat32_inj a b c d a' b' c' d' :
  bytes [a; b; c; d] -> bytes [a'; b'; c'; d'] ->
  cat32 a b c d = cat32 a' b' c' d' -> a = a' /\ b = b' /\ c = c' /\ d = d'.
Proof.
  unfold bytes. rewrite !Forall_cons. intros (?&?&?&?&_) (?&?&?&?&_).
  rewrite !cat32_spec by done. unfold is_u8 in *. lia.
Qed.

(** The bytes of a buffer under the numbers that it holds. *)
Lemma load16_octets a b p v :
  bytes a -> bytes b -> load16 a p = Some v -> load16 b p = Some v ->
  forall i, p <= i < p + 2 -> load b i = load a i.
Proof.
  unfold load16. intros Ba Bb (x & Hx & (y & Hy & [= E])%bind_Some)%bind_Some
    (x' & Hx' & (y' & Hy' & [= E'])%bind_Some)%bind_Some i Hi.
  pose proof (load_u8 _ _ _ Ba Hx). pose proof (load_u8 _ _ _ Ba Hy).
  pose proof (load_u8 _ _ _ Bb Hx'). pose proof (load_u8 _ _ _ Bb Hy').
  rewrite cat16_spec in E, E' by done. unfold is_u8 in *.
  assert (x = x' /\ y = y') as [<- <-] by lia.
  assert (i = p \/ i = p + 1) as [-> | ->] by lia; congruence.
Qed.

Lemma load32_octets a b p v :
  bytes a -> bytes b -> load32 a p = Some v -> load32 b p = Some v ->
  forall i, p <= i < p + 4 -> load b i = load a i.
Proof.
  unfold load32.
  intros Ba Bb (x & Hx & (y & Hy & (z & Hz & (w & Hw & [= E])%bind_Some)%bind_Some)%bind_Some)%bind_Some
    (x' & Hx' & (y' & Hy' & (z' & Hz' & (w' & Hw' & [= E'])%bind_Some)%bind_Some)%bind_Some)%bind_Some i Hi.
  destruct (cat32_inj x y z w x' y' z' w') as (<- & <- & <- & <-).
  { repeat apply Forall_cons_2; [..|by apply Forall_nil_2]; by eapply load_u8; [apply Ba|]. }
  { repeat apply Forall_cons_2; [..|by apply Forall_nil_2]; by eapply load_u8; [apply Bb|]. }
  { congruence. }
  assert (i = p \/ i = p + 1 \/ i = p + 2 \/ i = p + 3) as [-> | [-> | [-> | ->]]] by lia; congruence.
Qed.

Lemma bytes_app m1 m2 : bytes (m1 ++ m2) <-> bytes m1 /\ bytes m2.
Proof. apply Forall_app. Qed.

(** ** Ranges *)

Lemma range_Some m b e l :
  range m b e = Some l ->
  0 <= b <= e /\ e <= msize m /\ msize l = e - b /\
  (forall i, 0 <= i < e - b -> load l i = load m (b + i)).
Proof.
  unfold range. case_decide as H; [|done]. intros [= <-]. unfold msize in *.
  split_and!; [lia|lia|lia|rewrite length_take, length_drop; lia|].
  intros i Hi. unfold load. rewrite !decide_True by lia.
  rewrite lookup_take_lt, lookup_drop by lia. f_equal. lia.
Qed.

Lemma range_full m : range m 0 (msize m) = Some m.
Proof.
  unfold range, msize. rewrite decide_True by lia. simpl.
  rewrite drop_0, take_ge; [done|lia].
Qed.

Lemma range_app_l m1 m2 : range (m1 ++ m2) 0 (msize m1) = Some m1.
Proof.
  unfold range. pose proof (msize_nonneg m2). pose proof (msize_nonneg m1).
  rewrite decide_True by (rewrite msize_app; lia).
  unfold msize. rewrite drop_0, Z.sub_0_r, Nat2Z.id. by rewrite take_app_length.
Qed.

Lemma range_app_r m1 m2 b e :
  msize m1 <= b -> range (m1 ++ m2) b e = range m2 (b - msize m1) (e - msize m1).
Proof.
  intros H. unfold range. rewrite msize_app. unfold msize in *.
  case_decide; case_decide; try lia; [|done].
  f_equal. rewrite drop_app_ge by lia. f_equal; [lia|]. f_equal. lia.
Qed.

Lemma range_bytes m b e l : bytes m -> range m b e = Some l -> bytes l.
Proof.
  unfold range. case_decide; [|done]. intros Hm [= <-].
  by apply Forall_take, Forall_drop.
Qed.

Lemma range_in m b e :
  0 <= b <= e -> e <= msize m ->
  range m b e = Some (take (Z.to_nat (e - b)) (drop (Z.to_nat b) m)).
Proof. intros. unfold range. by rewrite decide_True by lia. Qed.

(** Peeling the first byte of a range. *)
Lemma range_cons m b e l :
  range m b e = Some l -> b < e ->
  exists a l', l = a :: l' /\ load m b = Some a /\ range m (b + 1) e = Some l'.
Proof.
  unfold range, load, msize. case_decide as H; [|done]. intros [= <-] Hlt.
  destruct (lookup_lt_is_Some_2 m (Z.to_nat b)) as [a Ha]; [lia|].
  exists a, (take (Z.to_nat (e - (b + 1))) (drop (Z.to_nat (b + 1)) m)).
  rewrite !decide_True by lia. split_and!; [|done|done].
  rewrite (drop_S _ a) by done.
  replace (Z.to_nat (e - b)) with (S (Z.to_nat (e - (b + 1)))) by lia.
  by replace (Z.to_nat (b + 1)) with (S (Z.to_nat b)) by lia.
Qed.

Lemma range_nil m e l : range m e e = Some l -> l = [].
Proof. unfold range. case_decide; [|done]. intros [= <-]. by rewrite Z.sub_diag. Qed.

Lemma range_order m b e l : range m b e = Some l -> 0 <= b <= e /\ e <= msize m.
Proof. intros (? & ? & _)%range_Some. lia. Qed.

Lemma range_app m b c e l1 l2 :
  range m b c = Some l1 -> range m c e = Some l2 -> range m b e = Some (l1 ++ l2).
Proof.
  unfold range. intros H1 H2. case_decide as D1; [|done]. case_decide as D2; [|done].
  rewrite decide_True by lia. injection H1 as <-. injection H2 as <-. f_equal.
  replace (drop (Z.to_nat c) m) with (drop (Z.to_nat (c - b)) (drop (Z.to_nat b) m))
    by (rewrite drop_drop; f_equal; lia).
  rewrite <- (take_drop (Z.to_nat (c - b)) (take (Z.to_nat (e - b)) (drop (Z.to_nat b) m))).
  rewrite take_take, skipn_firstn_comm. f_equal; f_equal; lia.
Qed.

(** A range is determined by the bytes it covers. *)
Lemma range_eq m b e l :
  0 <= b -> e <= msize m -> msize l = e - b ->
  (forall i, 0 <= i < msize l -> load m (b + i) = load l i) -> range m b e = Some l.
Proof.
  intros Hb He Hl H. pose proof (msize_nonneg l).
  rewrite range_in by lia. f_equal.
  assert (range m b e = Some (take (Z.to_nat (e - b)) (drop (Z.to_nat b) m))) as HR
    by (apply range_in; lia).
  destruct (range_Some _ _ _ _ HR) as (_ & _ & Hs & Hi).
  apply mem_ext; [lia|]. intros p Hp. rewrite Hi by lia. apply H. lia.
Qed.

Lemma range_ext m m' b e :
  msize m = msize m' -> (forall i, b <= i < e -> load m i = load m' i) ->
  range m b e = range m' b e.
Proof.
  intros Hs H. destruct (range m b e) as [l|] eqn:Hl.
  - destruct (range_Some _ _ _ _ Hl) as (? & ? & Hsz & Hi). symmetry. apply range_eq; [lia..|].
    intros i Hi'. rewrite <- H by lia. symmetry. apply Hi. lia.
  - unfold range in *. rewrite <- Hs. by case_decide.
Qed.

(** ** Words *)

Lemma store16_Some m p v m' :
  store16 m p v = Some m' ->
  exists m1, store m p (octet 1 v) = Some m1 /\ store m1 (p + 1) (octet 0 v) = Some m'.
Proof. unfold store16. intros (m1 & H1 & H2)%bind_Some. eauto. Qed.

Lemma store16_in m p v :
  0 <= p -> p + 1 < msize m -> exists m', store16 m p v = Some m'.
Proof.
  intros. unfold store16. rewrite store_in by lia. simpl.
  rewrite store_in; [eauto|]. unfold msize in *. rewrite length_insert. lia.
Qed.

Lemma store16_size m p v m' : store16 m p v = Some m' -> msize m' = msize m.
Proof. intros (m1 & H1%store_size & H2%store_size)%store16_Some. congruence. Qed.

Lemma store16_bytes m p v m' : bytes m -> store16 m p v = Some m' -> bytes m'.
Proof.
  intros Hm (m1 & H1 & H2)%store16_Some.
  refine (store_bytes _ _ _ _ _ _ H2); [|apply octet_u8; lia].
  refine (store_bytes _ _ _ _ Hm _ H1). apply octet_u8. lia.
Qed.

Lemma load_store16 m p v m' q :
  store16 m p v = Some m' ->
  load m' q = if decide (q = p) then Some (octet 1 v)
              else if decide (q = p + 1) then Some (octet 0 v) else load m q.
Proof.
  intros (m1 & H1 & H2)%store16_Some.
  rewrite (load_store _ _ _ _ _ H2), (load_store _ _ _ _ _ H1).
  repeat case_decide; done || lia.
Qed.

(** The last store of a word wins. *)
Lemma store16_overwrite m p v w m' : store16 m p v = Some m' -> store16 m' p w = store16 m p w.
Proof.
  intros H. pose proof (store16_size _ _ _ _ H) as Hs.
  assert (0 <= p /\ p + 1 < msize m) as [Hp Hp1].
  { apply store16_Some in H as (m1 & H1 & H2). pose proof (store_size _ _ _ _ H1) as Hs1.
    apply store_Some in H1 as [? _]. apply store_Some in H2 as [? _]. lia. }
  destruct (store16_in m p w) as [m1 H1]; [lia..|].
  destruct (store16_in m' p w) as [m2 H2]; [lia..|]. rewrite H1, H2. f_equal.
  apply mem_ext.
  - by rewrite (store16_size _ _ _ _ H1), (store16_size _ _ _ _ H2).
  - intros q _. rewrite (load_store16 _ _ _ _ _ H1), (load_store16 _ _ _ _ _ H2),
      (load_store16 _ _ _ _ _ H). by repeat case_decide.
Qed.

Lemma store32_Some m p v m' :
  store32 m p v = Some m' ->
  exists m2, store16 m p (v / 65536) = Some m2 /\ store16 m2 (p + 2) v = Some m'.
Proof.
  unfold store32, store16. intros (m1 & H1 & (m2 & H2 & (m3 & H3 & H4)%bind_Some)%bind_Some)%bind_Some.
  assert (octet 1 (v / 65536) = octet 3 v) as ->.
  { rewrite octet1, octet3, Z.div_div by lia. done. }
  assert (octet 0 (v / 65536) = octet 2 v) as ->.
  { rewrite octet0, octet2. done. }
  exists m2. rewrite H1. simpl. split; [done|]. rewrite H3. simpl.
  by replace (p + 2 + 1) with (p + 3) by lia.
Qed.

Lemma store32_in m p v :
  0 <= p -> p + 3 < msize m -> exists m', store32 m p v = Some m'.
Proof.
  intros. unfold store32, msize in *.
  rewrite store_in by (unfold msize; lia). simpl.
  rewrite store_in by (unfold msize; rewrite ?length_insert; lia). simpl.
  rewrite store_in by (unfold msize; rewrite ?length_insert; lia). simpl.
  rewrite store_in by (unfold msize; rewrite ?length_insert; lia). eauto.
Qed.

Lemma store32_size m p v m' : store32 m p v = Some m' -> msize m' = msize m.
Proof. intros (m1 & H1%store16_size & H2%store16_size)%store32_Some. congruence. Qed.

Lemma store32_bytes m p v m' : bytes m -> store32 m p v = Some m' -> bytes m'.
Proof. intros Hm (m1 & H1%store16_bytes & H2%store16_bytes)%store32_Some; auto. Qed.

Lemma load_store32 m p v m' q :
  store32 m p v = Some m' ->
  load m' q = if decide (p <= q < p + 4) then Some (octet (p + 3 - q) v) else load m q.
Proof.
  intros (m2 & H1 & H2)%store32_Some.
  rewrite (load_store16 _ _ _ _ _ H2), (load_store16 _ _ _ _ _ H1).
  assert (Ho : octet 1 (v / 65536) = octet 3 v).
  { rewrite octet1, octet3, Z.div_div by lia. done. }
  assert (Ho' : octet 0 (v / 65536) = octet 2 v).
  { rewrite octet0, octet2. done. }
  repeat case_decide; subst; try lia; rewrite ?Ho, ?Ho'; try done; f_equal; f_equal; lia.
Qed.

Lemma load16_Some m p v : load16 m p = Some v -> 0 <= p /\ p + 1 < msize m.
Proof.
  unfold load16. intros (a & Ha%load_Some & (b & Hb%load_Some & _)%bind_Some)%bind_Some. lia.
Qed.

Lemma load16_in m p : 0 <= p -> p + 1 < msize m -> is_Some (load16 m p).
Proof.
  intros. unfold load16.
  destruct (load_is_Some m p) as [a ->]; [lia|].
  destruct (load_is_Some m (p + 1)) as [b ->]; [lia|]. eauto.
Qed.

Lemma load16_is_u16 m p v : load16 m p = Some v -> is_u16 v.
Proof.
  unfold load16. intros (a & _ & (b & _ & [= <-])%bind_Some)%bind_Some. apply cat16_is_u16.
Qed.

Lemma load16_ext m m' p :
  load m' p = load m p -> load m' (p + 1) = load m (p + 1) -> load16 m' p = load16 m p.
Proof. unfold load16. by intros -> ->. Qed.

Lemma load32_ext m m' p :
  (forall q, p <= q < p + 4 -> load m' q = load m q) -> load32 m' p = load32 m p.
Proof. unfold load32. intros H. by rewrite !H by lia. Qed.

(** Reading back what [store16] and [store32] wrote. *)
Lemma load16_store16 m p v m' :
  is_u16 v -> store16 m p v = Some m' -> load16 m' p = Some v.
Proof.
  intros Hv H. unfold load16. rewrite !(load_store16 _ _ _ _ _ H).
  repeat case_decide; try lia. simpl. by rewrite cat16_octets.
Qed.

Lemma load32_store32 m p v m' :
  is_u32 v -> store32 m p v = Some m' -> load32 m' p = Some v.
Proof.
  intros Hv H. unfold load32. rewrite !(load_store32 _ _ _ _ _ H).
  rewrite !decide_True by lia. simpl.
  replace (p + 3 - p) with 3 by lia. replace (p + 3 - (p + 1)) with 2 by lia.
  replace (p + 3 - (p + 2)) with 1 by lia. replace (p + 3 - (p + 3)) with 0 by lia.
  by rewrite cat32_octets.
Qed.

(** ** Copies *)

Lemma blit_size m p l m' : blit m p l = Some m' -> msize m' = msize m.
Proof.
  revert m p. induction l as [|v l IH]; simpl; intros m p H; [by simplify_eq|].
  apply bind_Some in H as (m1 & H1%store_size & H2%IH). congruence.
Qed.

Lemma blit_in m p l :
  0 <= p -> p + msize l <= msize m -> exists m', blit m p l = Some m'.
Proof.
  revert m p. induction l as [|v l IH]; simpl; intros m p H1 H2; [eauto|].
  rewrite msize_cons in H2. pose proof (msize_nonneg l).
  rewrite store_in by lia. simpl. apply IH; [lia|].
  unfold msize in *. rewrite length_insert. lia.
Qed.

Lemma load_blit m p l m' q :
  blit m p l = Some m' ->
  load m' q = if decide (p <= q < p + msize l) then load l (q - p) else load m q.
Proof.
  revert m p. induction l as [|v l IH]; simpl; intros m p H.
  { simplify_eq. rewrite decide_False; [done|]. unfold msize. simpl. lia. }
  apply bind_Some in H as (m1 & H1 & H2). rewrite (IH _ _ H2), msize_cons.
  rewrite (load_store _ _ _ _ _ H1).
  pose proof (msize_nonneg l). case_decide; [|case_decide].
  - rewrite decide_True by lia. rewrite load_cons by lia. f_equal. lia.
  - subst q. rewrite decide_True by lia. by rewrite Z.sub_diag.
  - rewrite decide_False by lia. done.
Qed.

Lemma blit_bytes m p l m' : bytes m -> bytes l -> blit m p l = Some m' -> bytes m'.
Proof.
  revert m p. induction l as [|v l IH]; simpl; intros m p Hm Hl H; [by simplify_eq|].
  apply Forall_cons in Hl as [Hv Hl].
  apply bind_Some in H as (m1 & H1 & H2). apply (IH m1 (p + 1)); [|done|done].
  exact (store_bytes _ _ _ _ Hm Hv H1).
Qed.

(** The bytes copied are read back. *)
Lemma range_blit m p l m' :
  0 <= p -> blit m p l = Some m' -> p + msize l <= msize m ->
  range m' p (p + msize l) = Some l.
Proof.
  intros Hp H Hs. apply range_eq; [done|by rewrite (blit_size _ _ _ _ H)|lia|].
  intros i Hi. rewrite (load_blit _ _ _ _ _ H), decide_True by lia. f_equal. lia.
Qed.

Lemma range_blit_ne m p l m' b e :
  blit m p l = Some m' -> e <= p \/ p + msize l <= b -> range m' b e = range m b e.
Proof.
  intros H Hd. apply range_ext; [by apply (blit_size _ _ _ _ H)|].
  intros i Hi. rewrite (load_blit _ _ _ _ _ H). by rewrite decide_False by lia.
Qed.

Lemma load16_blit_ne m p l m' q :
  blit m p l = Some m' -> q + 2 <= p \/ p + msize l <= q -> load16 m' q = load16 m q.
Proof.
  intros H Hd. apply load16_ext; rewrite (load_blit _ _ _ _ _ H); by rewrite decide_False by lia.
Qed.

Lemma range_store16_ne m p v m' b e :
  store16 m p v = Some m' -> e <= p \/ p + 2 <= b -> range m' b e = range m b e.
Proof.
  intros H Hd. apply range_ext; [by apply (store16_size _ _ _ _ H)|].
  intros i Hi. rewrite (load_store16 _ _ _ _ _ H). by rewrite !decide_False by lia.
Qed.

Lemma load16_store16_ne m p v m' q :
  store16 m p v = Some m' -> q + 2 <= p \/ p + 2 <= q -> load16 m' q = load16 m q.
Proof.
  intros H Hd. apply load16_ext; rewrite (load_store16 _ _ _ _ _ H); by rewrite !decide_False by lia.
Qed.

(** * Loop rules *)

(** Total correctness: an invariant [P] and a measure [mu] that the fuel bounds. *)
Lemma while_loop_total {S} (P : S -> Prop) (mu : S -> nat) c body fuel s :
  P s -> (mu s <= fuel)%nat ->
  (forall s, P s -> c s = true ->
     exists s', body s = Some s' /\ P s' /\ (mu s' < mu s)%nat) ->
  exists s', while_loop fuel c body s = Some s' /\ P s' /\ c s' = false.
Proof.
  revert s. induction fuel as [|fuel IH]; simpl; intros s HP Hmu Hb;
    destruct (c s) eqn:Hc; eauto.
  - destruct (Hb s HP Hc) as (s' & _ & _ & ?). lia.
  - destruct (Hb s HP Hc) as (s' & -> & HP' & ?). simpl.
    apply IH; [done|lia|done].
Qed.

Lemma for_loop_total {S} (P : Z -> S -> Prop) fuel i n step body s :
  0 < step -> (Z.to_nat (n - i) <= fuel)%nat -> P i s ->
  (forall j s, i <= j < n -> P j s -> exists s', body j s = Some s' /\ P (j + step) s') ->
  exists j s', for_loop fuel i n step body s = Some s' /\ n <= j /\ i <= j /\ P j s'.
Proof.
  intros Hs Hf HP Hb. unfold for_loop.
  destruct (while_loop_total (fun x : Z * S => i <= x.1 /\ P x.1 x.2)
              (fun x : Z * S => Z.to_nat (n - x.1)) (fun x : Z * S => x.1 <? n)
              (fun x : Z * S => s' ← body x.1 x.2; Some (x.1 + step, s')) fuel (i, s))
    as ([j s'] & -> & [Hj HP'] & Hc); simpl in *.
  - split; [lia|done].
  - done.
  - intros [j s'] [Hj HP'] Hc. simpl in *. apply Z.ltb_lt in Hc.
    destruct (Hb j s' ltac:(lia) HP') as (s'' & -> & HP''). simpl.
    eexists. split; [done|]. simpl. split_and!; [lia|done|lia].
  - apply Z.ltb_ge in Hc. eauto 10.
Qed.

(** Decide a closed proposition. *)
Ltac concrete :=
  match goal with |- ?P => refine (@bool_decide_unpack P _ _); vm_compute; exact I end.

(** Split a chain of defined steps [x ← e; k = Some r] in the hypotheses. *)
Ltac undef :=
  repeat match goal with
  | H : Some _ = Some _ |- _ => injection H as H; subst
  | H : None = Some _ |- _ => discriminate H
  | H : (_ ≫= _) = Some _ |- _ =>
      let x := fresh "x" in let Hx := fresh "Hx" in
      apply bind_Some in H as (x & Hx & H); simpl in H
  end.

Lemma for_loop_1 {S} (body : Z -> S -> option S) s : for_loop 1 0 1 1 body s = body 0 s.
Proof. unfold for_loop. cbn. by destruct (body 0 s). Qed.

Lemma for_loop_2 {S} (body : Z -> S -> option S) s :
  for_loop 2 0 2 1 body s = body 0 s ≫= body 1.
Proof.
  unfold for_loop. cbn. destruct (body 0 s) as [s1|]; [|done]. cbn. change (0 + 1) with 1.
  by destruct (body 1 s1).
Qed.

(** Simulation of a loop by another one, turn by turn. *)
Lemma while_loop_sim {S T} (R : S -> T -> Prop) c c' body body' fuel s t s' :
  R s t -> (forall s t, R s t -> c s = c' t) ->
  (forall s t s1, R s t -> body s = Some s1 -> exists t1, body' t = Some t1 /\ R s1 t1) ->
  while_loop fuel c body s = Some s' ->
  exists t', while_loop fuel c' body' t = Some t' /\ R s' t'.
Proof.
  intros HR Hc Hb. revert s t HR. induction fuel as [|fuel IH]; simpl; intros s t HR H;
    rewrite <- (Hc _ _ HR); destruct (c s).
  - done.
  - injection H as <-. eauto.
  - apply bind_Some in H as (s1 & H1 & H2). destruct (Hb _ _ _ HR H1) as (t1 & -> & HR1).
    simpl. eauto.
  - injection H as <-. eauto.
Qed.

Lemma for_loop_sim {S T} (R : S -> T -> Prop) k fuel i n step body body' s t s' :
  R s t ->
  (forall j s t s1, R s t -> body j s = Some s1 ->
     exists t1, body' (k + j) t = Some t1 /\ R s1 t1) ->
  for_loop fuel i n step body s = Some s' ->
  exists t', for_loop fuel (k + i) (k + n) step body' t = Some t' /\ R s' t'.
Proof.
  unfold for_loop. intros HR Hb H. apply fmap_Some in H as ([j s1] & H & ->).
  destruct (while_loop_sim (fun (x : Z * S) (y : Z * T) => y.1 = k + x.1 /\ R x.2 y.2)
    (fun x : Z * S => x.1 <? n) (fun y : Z * T => y.1 <? k + n)
    (fun x : Z * S => s' ← body x.1 x.2; Some (x.1 + step, s'))
    (fun x : Z * T => s' ← body' x.1 x.2; Some (x.1 + step, s'))
    fuel (i, s) (k + i, t) (j, s1))
    as ([j' t'] & -> & Hj & HR'); [done| | |done|simpl in *; eauto].
  - intros [a x] [a' y] [Ha _]. simpl in *. subst a'.
    destruct (Z.ltb_spec a n), (Z.ltb_spec (k + a) (k + n)); lia || done.
  - intros [a x] [a' y] [a1 x1] [Ha Hxy] Hx. simpl in *. subst a'.
    apply bind_Some in Hx as (x' & Hx & [= <- <-]).
    destruct (Hb _ _ _ _ Hxy Hx) as (t1 & -> & HR1). simpl.
    eexists. split; [done|]. simpl. split; [lia|done].
Qed.

(** * An object inside a larger buffer

    A view of [h] in the buffer [pre ++ h ++ post] matches every defined access
    of the object [h]. *)
Section Inside.
Context (pre post : mem).

Definition inside (h : mem) : mem := pre ++ h ++ post.

Lemma load_inside h i a : load h i = Some a -> load (inside h) (msize pre + i) = Some a.
Proof.
  intros H. pose proof (load_Some _ _ _ H). unfold inside.
  rewrite load_app_r by lia. rewrite load_app_l by lia. rewrite <- H. f_equal. lia.
Qed.

Lemma load16_inside h i a : load16 h i = Some a -> load16 (inside h) (msize pre + i) = Some a.
Proof.
  unfold load16. intros (x & Hx & (y & Hy & [= <-])%bind_Some)%bind_Some.
  rewrite (load_inside _ _ _ Hx). simpl. rewrite <- Z.add_assoc.
  by rewrite (load_inside _ _ _ Hy).
Qed.

Lemma load32_inside h i a : load32 h i = Some a -> load32 (inside h) (msize pre + i) = Some a.
Proof.
  unfold load32.
  intros (x & Hx & (y & Hy & (z & Hz & (w & Hw & [= <-])%bind_Some)%bind_Some)%bind_Some)%bind_Some.
  rewrite (load_inside _ _ _ Hx). simpl. rewrite <- !Z.add_assoc.
  rewrite (load_inside _ _ _ Hy). simpl. rewrite (load_inside _ _ _ Hz). simpl.
  by rewrite (load_inside _ _ _ Hw).
Qed.

Lemma store_inside h i v h' :
  store h i v = Some h' -> store (inside h) (msize pre + i) v = Some (inside h').
Proof.
  intros [Hi ->]%store_Some. unfold inside, msize in *.
  rewrite store_in by (unfold msize; rewrite !length_app; lia). f_equal.
  rewrite insert_app_r_alt by lia. f_equal. rewrite insert_app_l by lia.
  do 2 f_equal. lia.
Qed.

Lemma store16_inside h i v h' :
  store16 h i v = Some h' -> store16 (inside h) (msize pre + i) v = Some (inside h').
Proof.
  intros (h1 & H1 & H2)%store16_Some. unfold store16.
  rewrite (store_inside _ _ _ _ H1). simpl. rewrite <- Z.add_assoc. by apply store_inside.
Qed.

Lemma store32_inside h i v h' :
  store32 h i v = Some h' -> store32 (inside h) (msize pre + i) v = Some (inside h').
Proof.
  unfold store32. intros (h1 & H1 & (h2 & H2 & (h3 & H3 & H4)%bind_Some)%bind_Some)%bind_Some.
  rewrite (store_inside _ _ _ _ H1). simpl. rewrite <- !Z.add_assoc.
  rewrite (store_inside _ _ _ _ H2). simpl. rewrite (store_inside _ _ _ _ H3). simpl.
  by apply store_inside.
Qed.

Lemma blit_inside h i l h' :
  blit h i l = Some h' -> blit (inside h) (msize pre + i) l = Some (inside h').
Proof.
  revert h i. induction l as [|v l IH]; simpl; intros h i H; [by injection H as ->|].
  apply bind_Some in H as (h1 & H1 & H2). rewrite (store_inside _ _ _ _ H1). simpl.
  rewrite <- Z.add_assoc. by apply IH.
Qed.

Lemma range_inside h i e l :
  range h i e = Some l -> range (inside h) (msize pre + i) (msize pre + e) = Some l.
Proof.
  intros H. pose proof (range_order _ _ _ _ H). unfold inside.
  rewrite range_app_r by lia.
  replace (msize pre + i - msize pre) with i by lia.
  replace (msize pre + e - msize pre) with e by lia.
  rewrite <- H. unfold range, msize in *.
  rewrite !decide_True by (rewrite ?length_app; lia). f_equal.
  rewrite drop_app_le by lia. rewrite take_app_le; [done|]. rewrite length_drop. lia.
Qed.

Lemma range_inside_all h : range (inside h) (msize pre) (msize pre + msize h) = Some h.
Proof.
  pose proof (range_inside h 0 (msize h) h (range_full h)) as H. by rewrite Z.add_0_r in H.
Qed.

(** Bytes outside the object do not depend on it. *)
Lemma load_inside_out h h' i :
  msize h' = msize h -> i < msize pre \/ msize pre + msize h <= i ->
  load (inside h) i = load (inside h') i.
Proof.
  intros Hs Hi. unfold inside. destruct Hi.
  - by rewrite !load_app_l by lia.
  - pose proof (msize_nonneg h). rewrite !(load_app_r pre) by lia.
    rewrite (load_app_r h), (load_app_r h') by lia. by rewrite Hs.
Qed.

Lemma inside_bytes h : bytes pre -> bytes post -> bytes h -> bytes (inside h).
Proof. intros. unfold inside. by rewrite !bytes_app. Qed.

End Inside.

(** Two indexed families of partial observations: [g'] is defined wherever [g] is. *)
Definition refines {A} (x y : option A) : Prop := forall a, x = Some a -> y = Some a.

Lemma refines_bind {A B} (x y : option A) (f g : A -> option B) :
  refines x y -> (forall a, x = Some a -> refines (f a) (g a)) -> refines (x ≫= f) (y ≫= g).
Proof. intros H Hf b (a & Ha & Hb)%bind_Some. rewrite (H _ Ha). simpl. by eapply Hf. Qed.

Lemma refines_refl {A} (x : option A) : refines x x.
Proof. by intros a. Qed.

Lemma load_refines pre post h i :
  refines (load h i) (load (inside pre post h) (msize pre + i)).
Proof. intros a. apply load_inside. Qed.

Lemma load16_refines pre post h i :
  refines (load16 h i) (load16 (inside pre post h) (msize pre + i)).
Proof. intros a. apply load16_inside. Qed.

Lemma load32_refines pre post h i :
  refines (load32 h i) (load32 (inside pre post h) (msize pre + i)).
Proof. intros a. apply load32_inside. Qed.

Lemma range_refines pre post h i e :
  refines (range h i e) (range (inside pre post h) (msize pre + i) (msize pre + e)).
Proof. intros a. apply range_inside. Qed.

(** An operation on the embedding buffer that does on [h] what [o] does. *)
Definition refines_in (pre post : mem) (o o' : option mem) : Prop :=
  forall h', o = Some h' -> o' = Some (inside pre post h').

Lemma refines_in_bind pre post o o' k k' :
  refines_in pre post o o' ->
  (forall h', o = Some h' -> refines_in pre post (k h') (k' (inside pre post h'))) ->
  refines_in pre post (o ≫= k) (o' ≫= k').
Proof. intros H Hk h' (h1 & H1 & H2)%bind_Some. rewrite (H _ H1). simpl. by eapply Hk. Qed.

Lemma refines_in_value {A} pre post (x y : option A) k k' :
  refines x y -> (forall a, x = Some a -> refines_in pre post (k a) (k' a)) ->
  refines_in pre post (x ≫= k) (y ≫= k').
Proof. intros H Hk h' (a & H1 & H2)%bind_Some. rewrite (H _ H1). simpl. by eapply Hk. Qed.

Lemma store_refines pre post h i v :
  refines_in pre post (store h i v) (store (inside pre post h) (msize pre + i) v).
Proof. intros a. apply store_inside. Qed.

Lemma store16_refines pre post h i v :
  refines_in pre post (store16 h i v) (store16 (inside pre post h) (msize pre + i) v).
Proof. intros a. apply store16_inside. Qed.

Lemma store32_refines pre post h i v :
  refines_in pre post (store32 h i v) (store32 (inside pre post h) (msize pre + i) v).
Proof. intros a. apply store32_inside. Qed.

Lemma blit_refines pre post h i l :
  refines_in pre post (blit h i l) (blit (inside pre post h) (msize pre + i) l).
Proof. intros a. apply blit_inside. Qed.

(** * Automation *)

Create HintDb qvpn.
Create HintDb refine.
Create Rewrite HintDb qvpn.
#[export] Hint Resolve u8_is_u8 u16_is_u16 u32_is_u32 cat16_is_u16 cat32_is_u32 : qvpn.
#[export] Hint Resolve msize_nonneg : qvpn.
#[export] Hint Extern 1 (is_u8 (octet _ _)) => apply octet_u8; lia : qvpn.
#[export] Hint Resolve store_bytes store16_bytes store32_bytes blit_bytes range_bytes : qvpn.
#[export] Hint Resolve refines_bind refines_refl load_refines load16_refines load32_refines
  range_refines refines_in_bind refines_in_value store_refines store16_refines
  store32_refines blit_refines : refine.
#[export] Hint Rewrite msize_app msize_cons : qvpn.

(** Every element of an explicit list is a byte. *)
Ltac byte_list :=
  repeat match goal with
    | |- bytes (_ :: _) => apply Forall_cons_2
    | |- Forall is_u8 (_ :: _) => apply Forall_cons_2
    | |- bytes [] => apply Forall_nil_2
    | |- Forall is_u8 [] => apply Forall_nil_2
    | |- bytes (_ ++ _) => apply bytes_app; split
  end; auto with qvpn; try (unfold is_u8 in *; lia).

(** A getter of a view against the getter of the object: unfold both, then follow
    the chain of loads. *)
Ltac refine_getter :=
  repeat match goal with
  | |- refines (?f _) (?g _ _) => unfold f, g
  end; cbn; eauto 30 with refine.
Ltac refine_fields :=
  repeat (apply Forall2_cons; split); try apply Forall2_nil_2; refine_getter.
(** The same for setters. *)
Ltac refine_setter :=
  intros;
  repeat match goal with
  | |- refines_in _ _ (?f _ _) (?g _ _ _) => unfold f, g
  | |- refines_in _ _ (?f _ _) (?g _ _ _ _) => unfold f, g
  end; cbn; eauto 30 with refine.
Ltac refine_setters :=
  repeat (apply Forall2_cons; split); try apply Forall2_nil_2; refine_setter.
