(* ===== verification/Checksum.v ===== *)
(** The Internet checksum loops of the packet classes
    (src/QVPN/QVPN Lib/src/qvpn_structures.cpp), as shared by
    [recalculate_ip_checksum] and [recalculate_transport_checksum], and their
    specification: one's complement sums, i.e. sums modulo 65535. *)
From S2P Require Import Prelude.

(** * The loops *)

(** [sum += static_cast<UShort>(m[i] << 8 | m[i + 1])]. *)
Definition word_step (m : mem) (i sum : Z) : option Z :=
  temp ← load16 m i; Some (u32 (sum + temp)).

(** [for (i = b; i < e; i += 2)] over a buffer. *)
Definition sum_words (m : mem) (b e sum : Z) : option Z :=
  for_loop (Z.to_nat (e - b)) b e 2 (word_step m) sum.

(** The payload loop: two bytes at a time, a trailing byte is the high half. *)
Definition data_step (m : mem) (e : Z) (x : Z * Z) : option (Z * Z) :=
  let '(i, sum) := x in
  if i + 1 <? e then
    temp ← load16 m i; Some (i + 1 + 1, u32 (sum + temp))
  else
    a ← load m i; Some (i + 1, u32 (sum + u16 (Z.shiftl a 8))).

Definition sum_data (m : mem) (b e sum : Z) : option Z :=
  snd <$> while_loop (Z.to_nat (e - b)) (fun x : Z * Z => x.1 <? e) (data_step m e) (b, sum).

(** [while (sum >> 16) sum = (sum & 0xFFFF) + (sum >> 16)]. *)
Definition fold_carries (sum : Z) : option Z :=
  while_loop 3 (fun s => negb (Z.shiftr s 16 =? 0))
    (fun s => Some (u32 (Z.land s 65535 + Z.shiftr s 16))) sum.

(** [res = ~sum], converted to [UShort]. *)
Definition complement (sum : Z) : Z := u16 (Z.lnot sum).

(** * Specification *)

(** The 16-bit words of a byte string, the last odd byte padded with zero. *)
Fixpoint words (l : list Z) : list Z :=
  match l with
  | a :: b :: l' => a * 256 + b :: words l'
  | [a] => [a * 256]
  | [] => []
  end.

Definition total (l : list Z) : Z := foldr Z.add 0 (words l).

(** The normalised one's complement sum: 0 only for 0, else in [1, 65535]. *)
Definition ones_sum (s : Z) : Z := if s =? 0 then 0 else (s - 1) mod 65535 + 1.

(** A checksummed byte string is accepted when its sum is 0xFFFF. *)
Definition verifies (s : Z) : Prop := ones_sum s = 65535.

(** * The loops meet the specification *)

Lemma list_pair_ind (P : list Z -> Prop) :
  P [] -> (forall a, P [a]) -> (forall a b l, P l -> P (a :: b :: l)) -> forall l, P l.
Proof.
  intros H0 H1 H2 l. enough (P l /\ forall a, P (a :: l)) as [? _] by done.
  induction l as [|a l [IH1 IH2]]; split; auto.
Qed.

Lemma total_cons2 a b l : total (a :: b :: l) = a * 256 + b + total l.
Proof. done. Qed.

Lemma total_nonneg l : bytes l -> 0 <= total l.
Proof.
  induction l as [|a|a b l IH] using list_pair_ind; intros H; [done| |].
  - apply Forall_cons in H as [Ha _]. unfold total, is_u8 in *. simpl. lia.
  - apply Forall_cons in H as [Ha [Hb H]%Forall_cons]. rewrite total_cons2.
    specialize (IH H). unfold is_u8 in *. lia.
Qed.

(** The sum of [n] bytes stays far below 2^32. *)
Lemma total_bound l : bytes l -> 2 * total l <= 65535 * (msize l + 1).
Proof.
  induction l as [|a|a b l IH] using list_pair_ind; intros H.
  - unfold total, msize. simpl. lia.
  - apply Forall_cons in H as [Ha _]. unfold total, is_u8, msize in *. simpl. lia.
  - apply Forall_cons in H as [Ha [Hb H]%Forall_cons]. rewrite total_cons2, !msize_cons.
    specialize (IH H). unfold is_u8 in *. lia.
Qed.

Lemma total_app l1 l2 :
  Z.even (msize l1) = true -> total (l1 ++ l2) = total l1 + total l2.
Proof.
  induction l1 as [|a|a b l IH] using list_pair_ind; intros H; [done|done|].
  rewrite !msize_cons in H. simpl app. rewrite !total_cons2, IH; [lia|].
  replace (1 + (1 + msize l)) with (msize l + 2) in H by lia.
  rewrite Z.even_add in H. by destruct (Z.even (msize l)).
Qed.

Lemma u32_add_l a b : u32 (u32 a + b) = u32 (a + b).
Proof. unfold u32. by rewrite Z.add_mod_idemp_l. Qed.

(** [sum_words] over an even range adds its words, modulo 2^32. *)
Lemma sum_words_spec m b e l s0 :
  bytes m -> range m b e = Some l -> Z.even (msize l) = true -> is_u32 s0 ->
  sum_words m b e s0 = Some (u32 (s0 + total l)).
Proof.
  intros Hm Hl Hev Hs0. unfold sum_words.
  destruct (for_loop_total
    (fun j s => is_u32 s /\ exists l', range m j e = Some l' /\ Z.even (msize l') = true /\
       u32 (s + total l') = u32 (s0 + total l))
    (Z.to_nat (e - b)) b e 2 (word_step m) s0)
    as (j & s' & -> & Hj & _ & Hs' & l' & Hl' & _ & <-); [lia|lia|eauto 6| |].
  - intros j s Hj (Hs & k & Hk & Hkev & Heq).
    destruct (range_cons _ _ _ _ Hk) as (a1 & l1 & -> & Ha1 & Hl1); [lia|].
    destruct (decide (j + 1 = e)) as [<-|Hne].
    { apply range_nil in Hl1 as ->. done. }
    destruct (range_cons _ _ _ _ Hl1) as (a2 & l2 & -> & Ha2 & Hl2); [lia|].
    exists (u32 (s + cat16 a1 a2)). split.
    { unfold word_step, load16. rewrite Ha1. simpl. by rewrite Ha2. }
    split; [auto with qvpn|]. exists l2. replace (j + 2) with (j + 1 + 1) by lia.
    rewrite !msize_cons in Hkev. replace (1 + (1 + msize l2)) with (msize l2 + 2) in Hkev by lia.
    rewrite Z.even_add in Hkev. split_and!; [done|by destruct (Z.even (msize l2))|].
    rewrite <- Heq, u32_add_l, total_cons2, cat16_spec by eauto using load_u8.
    f_equal. lia.
  - pose proof (range_order _ _ _ _ Hl') as ?. assert (j = e) as -> by lia.
    apply range_nil in Hl' as ->. change (total []) with 0. by rewrite Z.add_0_r, u32_id.
Qed.

(** [sum_data] adds the words of any range, an odd trailing byte padded. *)
Lemma sum_data_spec m b e l s0 :
  bytes m -> range m b e = Some l -> is_u32 s0 ->
  sum_data m b e s0 = Some (u32 (s0 + total l)).
Proof.
  intros Hm Hl Hs0. unfold sum_data.
  destruct (while_loop_total
    (fun x : Z * Z => is_u32 x.2 /\ exists l', range m x.1 e = Some l' /\
       u32 (x.2 + total l') = u32 (s0 + total l))
    (fun x : Z * Z => Z.to_nat (e - x.1)) (fun x : Z * Z => x.1 <? e) (data_step m e)
    (Z.to_nat (e - b)) (b, s0))
    as ([j s'] & -> & (Hs' & l' & Hl' & <-) & Hc); [simpl; eauto|simpl; lia| |]; simpl in *.
  - intros [j s] (Hs & k & Hk & Heq) Hc. simpl in *. apply Z.ltb_lt in Hc.
    destruct (range_cons _ _ _ _ Hk) as (a1 & l1 & -> & Ha1 & Hl1); [lia|].
    destruct (j + 1 <? e) eqn:Hj.
    + apply Z.ltb_lt in Hj.
      destruct (range_cons _ _ _ _ Hl1) as (a2 & l2 & -> & Ha2 & Hl2); [lia|].
      eexists. split.
      { unfold load16. rewrite Ha1. simpl. rewrite Ha2. reflexivity. }
      split; [|simpl; lia]. split; [simpl; auto with qvpn|]. exists l2. split; [done|].
      simpl. rewrite <- Heq, u32_add_l, total_cons2, cat16_spec by eauto using load_u8.
      f_equal. lia.
    + apply Z.ltb_ge in Hj. assert (j + 1 = e) as <- by lia. apply range_nil in Hl1 as ->.
      eexists. split; [rewrite Ha1; reflexivity|]. split; [|simpl; lia].
      split; [simpl; auto with qvpn|]. exists []. split.
      { pose proof (range_order _ _ _ _ Hk). simpl. unfold range. rewrite decide_True by lia.
        simpl. by rewrite Z.sub_diag. }
      simpl. rewrite <- Heq, u32_add_l. f_equal. change (total []) with 0.
      pose proof (load_u8 _ _ _ Hm Ha1) as Ha. unfold is_u8 in Ha.
      unfold total. simpl. rewrite Z.shiftl_mul_pow2, u16_id; unfold is_u16; lia.
  - apply Z.ltb_ge in Hc. pose proof (range_order _ _ _ _ Hl') as ?.
    assert (j = e) as -> by lia.
    apply range_nil in Hl' as ->. change (total []) with 0. by rewrite Z.add_0_r, u32_id.
Qed.

(** ** Carries *)

Lemma ones_sum_small s : 0 <= s < 65536 -> ones_sum s = s.
Proof. unfold ones_sum. intros. case_match; Z.div_mod_to_equations; lia. Qed.

(** One turn of the loop keeps the residue modulo 65535 and the sign. *)
Lemma ones_sum_turn t :
  65536 <= t < 4294967296 ->
  let u := t mod 65536 + t / 65536 in
  ones_sum u = ones_sum t /\ 0 < u < 131071.
Proof.
  intros Ht u. subst u. split; [|Z.div_mod_to_equations; lia].
  assert (t - 1 = (t mod 65536 + t / 65536 - 1) + t / 65536 * 65535) as He
    by (Z.div_mod_to_equations; lia).
  unfold ones_sum.
  destruct (Z.eqb_spec (t mod 65536 + t / 65536) 0); [Z.div_mod_to_equations; lia|].
  destruct (Z.eqb_spec t 0); [lia|]. by rewrite He, Z.mod_add by lia.
Qed.

Lemma carries_turn fuel s :
  is_u32 s ->
  while_loop (S fuel) (fun s => negb (Z.shiftr s 16 =? 0))
    (fun s => Some (u32 (Z.land s 65535 + Z.shiftr s 16))) s =
  if decide (s < 65536) then Some s else
  while_loop fuel (fun s => negb (Z.shiftr s 16 =? 0))
    (fun s => Some (u32 (Z.land s 65535 + Z.shiftr s 16))) (s mod 65536 + s / 65536).
Proof.
  unfold is_u32. intros Hs. cbn [while_loop mbind option_bind].
  assert (Z.land s 65535 = s mod 65536) as ->
    by (change 65535 with (Z.ones 16); by rewrite Z.land_ones).
  rewrite !Z.shiftr_div_pow2 by lia. change (2 ^ 16) with 65536. case_decide.
  - rewrite Z.div_small by lia. done.
  - destruct (Z.eqb_spec (s / 65536) 0); [Z.div_mod_to_equations; lia|]. simpl.
    unfold u32. rewrite (Z.mod_small (_ + _)); [done|]. Z.div_mod_to_equations. lia.
Qed.

(** The fuel of [fold_carries] is enough: at most two turns are taken. *)
Lemma fold_carries_spec s : is_u32 s -> fold_carries s = Some (ones_sum s).
Proof.
  intros Hs. unfold fold_carries. rewrite carries_turn by done.
  unfold is_u32 in Hs. case_decide; [rewrite ones_sum_small by lia; done|].
  destruct (ones_sum_turn s) as [<- Hu]; [lia|]. set (u := s mod 65536 + s / 65536) in *.
  rewrite carries_turn by (unfold is_u32; lia).
  case_decide; [rewrite ones_sum_small by lia; done|].
  destruct (ones_sum_turn u) as [<- _]; [lia|].
  assert (0 <= u mod 65536 + u / 65536 < 65536) by (Z.div_mod_to_equations; lia).
  rewrite carries_turn by (unfold is_u32; lia). rewrite decide_True by lia.
  by rewrite ones_sum_small by lia.
Qed.

Lemma ones_sum_range s : 0 <= s -> 0 <= ones_sum s <= 65535.
Proof. unfold ones_sum. intros. case_match; [lia|]. Z.div_mod_to_equations. lia. Qed.

Lemma complement_spec s : 0 <= s <= 65535 -> complement s = 65535 - s.
Proof.
  unfold complement, u16, Z.lnot. intros.
  replace (Z.pred (- s)) with (65535 - s + (-1) * 65536) by lia.
  rewrite Z.mod_add by lia. apply Z.mod_small. lia.
Qed.

Lemma complement_u16 s : is_u16 (complement s).
Proof. apply u16_is_u16. Qed.

(** Adding the stored checksum makes the sum verify. *)
Lemma complement_verifies s : 0 <= s -> verifies (s + complement (ones_sum s)).
Proof.
  intros Hs. rewrite complement_spec by (apply ones_sum_range; done).
  unfold verifies, ones_sum. destruct (Z.eqb_spec s 0) as [->|]; [done|].
  pose proof (Z.mod_pos_bound (s - 1) 65535).
  destruct (Z.eqb_spec (s + (65535 - ((s - 1) mod 65535 + 1))) 0); [lia|].
  pose proof (Z.div_mod (s - 1) 65535).
  replace (s + (65535 - ((s - 1) mod 65535 + 1)) - 1)
    with (65534 + (s - 1) / 65535 * 65535) by lia.
  by rewrite Z.mod_add by lia.
Qed.
#[export] Hint Resolve complement_u16 : qvpn.

(** ** The checksum field *)

Lemma store_cons a m p v :
  0 < p -> store (a :: m) p v = (fun m' => a :: m') <$> store m (p - 1) v.
Proof.
  unfold store. intros Hp. rewrite msize_cons.
  case_decide; case_decide; try lia; [|done]. simpl.
  by replace (Z.to_nat p) with (S (Z.to_nat (p - 1))) by lia.
Qed.

(** Overwriting an aligned word changes the sum by the difference. *)
Lemma total_store16 m p v m' w :
  bytes m -> Z.even p = true -> is_u16 v ->
  load16 m p = Some w -> store16 m p v = Some m' -> total m' = total m - w + v.
Proof.
  intros Hm Hp Hv. revert p m' Hm Hp.
  induction m as [|a|a b l IH] using list_pair_ind; intros p m' Hm Hp Hw Hs.
  - apply load16_Some in Hw. unfold msize in Hw. simpl in Hw. lia.
  - apply load16_Some in Hw. unfold msize in Hw. simpl in Hw. lia.
  - apply Forall_cons in Hm as [Ha [Hb Hl]%Forall_cons].
    destruct (decide (p = 0)) as [->|Hne].
    + unfold load16, store16 in *. simpl in Hw. injection Hw as <-.
      cbn [mbind option_bind] in Hs. rewrite store_in in Hs by (rewrite !msize_cons; pose proof (msize_nonneg l); lia).
      cbn [mbind option_bind] in Hs. apply store_Some in Hs as [_ ->].
      simpl. rewrite !total_cons2, cat16_spec by done.
      pose proof (cat16_octets v Hv) as Hc. rewrite cat16_spec in Hc by (apply octet_u8; lia). lia.
    + pose proof (load16_Some _ _ _ Hw) as Hr.
      assert (2 <= p) by (destruct (decide (p = 1)) as [->|]; [done|lia]).
      unfold load16, store16 in *. rewrite !load_cons in Hw by lia.
      rewrite !store_cons in Hs by lia.
      apply bind_Some in Hs as (m1 & (m2 & (m3 & H3 & ->)%fmap_Some & ->)%fmap_Some & Hs).
      rewrite !store_cons in Hs by lia.
      apply fmap_Some in Hs as (m4 & (m5 & H5 & ->)%fmap_Some & ->).
      rewrite !total_cons2. rewrite (IH (p - 1 - 1) m5); [lia|done| | |].
      * replace p with (p - 1 - 1 + 2) in Hp by lia. rewrite Z.even_add in Hp.
        by destruct (Z.even (p - 1 - 1)).
      * rewrite <- Hw. replace (p - 1 - 1 + 1) with (p + 1 - 1 - 1) by lia. done.
      * rewrite H3. simpl. by replace (p - 1 - 1 + 1) with (p + 1 - 1 - 1) by lia.
Qed.

(** Zeroing an aligned field, summing, and storing the complement back yields a
    header that verifies; [acc] is the sum of whatever else is covered. *)
Lemma checksum_store h p h0 h' acc :
  bytes h -> Z.even p = true -> 0 <= acc ->
  store16 h p 0 = Some h0 ->
  store16 h0 p (complement (ones_sum (acc + total h0))) = Some h' ->
  verifies (acc + total h').
Proof.
  intros Hh Hp Hacc H0 H1.
  pose proof (store16_bytes _ _ _ _ Hh H0) as Hh0.
  rewrite (total_store16 h0 p (complement (ones_sum (acc + total h0))) h' 0);
    [|done|done|apply complement_u16| |done].
  - replace (acc + (total h0 - 0 + complement (ones_sum (acc + total h0))))
      with ((acc + total h0) + complement (ones_sum (acc + total h0))) by lia.
    apply complement_verifies. pose proof (total_nonneg h0 Hh0). lia.
  - apply (load16_store16 h p); [unfold is_u16; lia|done].
Qed.

Lemma sum_words_inside pre post h b e s s' :
  sum_words h b e s = Some s' ->
  sum_words (inside pre post h) (msize pre + b) (msize pre + e) s = Some s'.
Proof.
  unfold sum_words. intros H.
  destruct (for_loop_sim eq (msize pre) (Z.to_nat (e - b)) b e 2 (word_step h)
    (word_step (inside pre post h)) s s s') as (t & Ht & <-); [done| |done|].
  - intros j x y x1 <- Hx. unfold word_step in *.
    apply bind_Some in Hx as (w & Hw & [= <-]).
    rewrite (load16_inside _ _ _ _ _ Hw). simpl. eauto.
  - rewrite <- Ht. f_equal. lia.
Qed.

(** A loop over a header equals the loops over its two parts. *)
Lemma sum_words_parts h c s :
  bytes h -> is_u32 s -> Z.even c = true -> Z.even (msize h) = true -> 0 <= c <= msize h ->
  exists s1 s2, sum_words h 0 c s = Some s1 /\ sum_words h c (msize h) s1 = Some s2 /\
    sum_words h 0 (msize h) s = Some s2.
Proof.
  intros Hh Hs Ec Eh Hc.
  destruct (range h 0 c) as [l1|] eqn:R1; [|by rewrite range_in in R1 by lia].
  destruct (range h c (msize h)) as [l2|] eqn:R2; [|by rewrite range_in in R2 by lia].
  destruct (range_Some _ _ _ _ R1) as (_ & _ & L1 & _).
  destruct (range_Some _ _ _ _ R2) as (_ & _ & L2 & _).
  assert (E1 : Z.even (msize l1) = true) by (by rewrite L1, Z.sub_0_r).
  assert (E2 : Z.even (msize l2) = true) by (by rewrite L2, Z.even_sub, Eh, Ec).
  eexists _, _. split_and!.
  - by apply (sum_words_spec h 0 c l1).
  - apply (sum_words_spec h c (msize h) l2); auto with qvpn.
  - rewrite (sum_words_spec h 0 (msize h) (l1 ++ l2)); [|done| | |done].
    + rewrite total_app by done. rewrite u32_add_l. do 2 f_equal. lia.
    + by apply (range_app _ _ c).
    + by rewrite msize_app, Z.even_add, E1, E2.
Qed.

(** * Extensionality of the payload loop *)

Lemma sum_data_ext m m' b e s s' :
  (forall i, b <= i < e -> load m i = load m' i) ->
  sum_data m b e s = Some s' -> sum_data m' b e s = Some s'.
Proof.
  intros Hi H. unfold sum_data in *. apply fmap_Some in H as ([j x] & H & ->).
  destruct (while_loop_sim (fun x y : Z * Z => x = y /\ b <= x.1)
    (fun x : Z * Z => x.1 <? e) (fun x : Z * Z => x.1 <? e)
    (fun x : Z * Z => if x.1 <? e then data_step m e x else None) (data_step m' e)
    (Z.to_nat (e - b)) (b, s) (b, s) (j, x)) as (t & -> & <- & _).
  - split; [done|simpl; lia].
  - by intros ? ? [-> _].
  - intros [i y] ? [i1 y1] [<- Hb] Hs. simpl in *.
    destruct (Z.ltb_spec i e); [|done].
    destruct (Z.ltb_spec (i + 1) e).
    + unfold load16 in *. rewrite <- !Hi by lia.
      apply bind_Some in Hs as (w & -> & [= <- <-]). simpl.
      eexists. split; [done|]. simpl. split; [done|lia].
    + rewrite <- Hi by lia. apply bind_Some in Hs as (w & -> & [= <- <-]). simpl.
      eexists. split; [done|]. simpl. split; [done|lia].
  - rewrite <- H. generalize (Z.to_nat (e - b)) as f0. intros f0.
    assert (forall f x0, while_loop f (fun x : Z * Z => x.1 <? e)
        (fun x : Z * Z => if x.1 <? e then data_step m e x else None) x0 =
      while_loop f (fun x : Z * Z => x.1 <? e) (data_step m e) x0) as Hw; [|apply Hw].
    induction f as [|f IH]; intros x0; cbn [while_loop]; [done|].
    destruct (x0.1 <? e); [|done]. destruct (data_step m e x0); [apply IH|done].
  - done.
Qed.

(** * The transport checksum

    [recalculate_transport_checksum] of TCP and UDP sums the pseudo-header, the
    header with its checksum field at [p] zeroed, and the payload. *)
Section Transport.
Context (p : Z) (ph h m : mem) (b e : Z) (d : list Z).
Context (Hph : bytes ph) (Hh : bytes h) (Hm : bytes m).
Context (Hphev : Z.even (msize ph) = true) (Hhev : Z.even (msize h) = true).
Context (Hpev : Z.even p = true) (Hp : 0 <= p) (Hp1 : p + 1 < msize h).
Context (Hd : range m b e = Some d).
Context (Hsz : msize ph + msize h + msize d < 131000).

Lemma transport_sum h0 :
  store16 h p 0 = Some h0 ->
  (sum ← sum_words ph 0 (msize ph) 0; sum ← sum_words h0 0 (msize h0) sum;
   sum ← sum_data m b e sum; fold_carries sum) =
  Some (ones_sum (total ph + total d + total h0)) /\
  is_u16 (ones_sum (total ph + total d + total h0)).
Proof.
  intros H0. pose proof (store16_bytes _ _ _ _ Hh H0) as Hb0.
  pose proof (store16_size _ _ _ _ H0) as Hs0.
  pose proof (range_bytes _ _ _ _ Hm Hd) as Hdb.
  pose proof (total_nonneg _ Hph). pose proof (total_bound _ Hph).
  pose proof (total_nonneg _ Hb0). pose proof (total_bound _ Hb0).
  pose proof (total_nonneg _ Hdb). pose proof (total_bound _ Hdb).
  assert (U : forall x, 0 <= x <= total ph + total h0 + total d -> is_u32 x)
    by (unfold is_u32; lia).
  rewrite (sum_words_spec ph 0 (msize ph) ph);
    [|done|apply range_full|done|unfold is_u32; lia].
  cbn [mbind option_bind]. rewrite Z.add_0_l, (u32_id (total ph)) by (apply U; lia).
  rewrite (sum_words_spec h0 0 (msize h0) h0);
    [|done|apply range_full|by rewrite Hs0|apply U; lia].
  cbn [mbind option_bind]. rewrite (u32_id (total ph + total h0)) by (apply U; lia).
  rewrite (sum_data_spec m b e d); [|done|done|apply U; lia].
  cbn [mbind option_bind]. rewrite u32_id by (apply U; lia).
  replace (total ph + total h0 + total d) with (total ph + total d + total h0) by lia.
  rewrite fold_carries_spec by (apply U; lia). split; [done|].
  pose proof (ones_sum_range (total ph + total d + total h0)). unfold is_u16. lia.
Qed.

(** The field stored last makes the whole datagram verify. *)
Lemma transport_checksum_verifies h0 h' :
  store16 h p 0 = Some h0 ->
  store16 h0 p (complement (ones_sum (total ph + total d + total h0))) = Some h' ->
  bytes h' /\ msize h' = msize h /\
  (forall q, q <> p -> q <> p + 1 -> load h' q = load h q) /\
  verifies (total ph + total h' + total d).
Proof.
  intros H0 H1. pose proof (store16_bytes _ _ _ _ Hh H0) as Hb0.
  pose proof (range_bytes _ _ _ _ Hm Hd) as Hdb.
  split_and!.
  - by apply (store16_bytes _ _ _ _ Hb0 H1).
  - by rewrite (store16_size _ _ _ _ H1), (store16_size _ _ _ _ H0).
  - intros q Hq Hq1. rewrite (load_store16 _ _ _ _ _ H1), (load_store16 _ _ _ _ _ H0).
    by rewrite !decide_False by lia.
  - replace (total ph + total h' + total d) with ((total ph + total d) + total h') by lia.
    apply (checksum_store h p h0 h'); [done|done| |done|done].
    pose proof (total_nonneg _ Hph). pose proof (total_nonneg _ Hdb). lia.
Qed.

End Transport.
