(* ===== verification/Addr.v ===== *)
(** Addresses: [IPv4Address], [IPv6Address], [NetAddr] and the socket keys of
    src/QVPN/QVPN Lib/src/qvpn_lib.cpp, with [Tools::parse_net_addr]
    (qvpn_tools.cpp).  An address is the array or vector of its bytes.  [None]
    is an exception of [std::stoi] or an access outside the array. *)
From S2P Require Import Prelude.

(** * Text to numbers *)

(** [std::stoi]: blanks, a sign, then the longest run of decimal digits. *)
Definition char_code (c : Ascii.ascii) : Z := Z.of_N (Ascii.N_of_ascii c).

Definition is_space (c : Ascii.ascii) : bool :=
  let n := char_code c in (n =? 32) || ((9 <=? n) && (n <=? 13)).

Definition is_digit (c : Ascii.ascii) : bool :=
  let n := char_code c in (48 <=? n) && (n <=? 57).

Fixpoint skip_space (s : string) : string :=
  match s with
  | String c s' => if is_space c then skip_space s' else s
  | EmptyString => s
  end.

Fixpoint digits (s : string) (acc : option Z) : option Z :=
  match s with
  | String c s' =>
      if is_digit c then digits s' (Some (default 0 acc * 10 + (char_code c - 48))) else acc
  | EmptyString => acc
  end.

Definition stoi (s : string) : option Z :=
  v ← match skip_space s with
      | String c s' =>
          if char_code c =? 45 then Z.opp <$> digits s' None
          else if char_code c =? 43 then digits s' None else digits (String c s') None
      | EmptyString => None
      end;
  if decide (-2147483648 <= v < 2147483648) then Some v else None.

Module Tools.

(** The loop of [parse_net_addr]; [end == npos] is [None]. *)
Fixpoint parse_loop (n : nat) (addr delim : string) (start : nat) (ip_ : list Z) :
    option (list Z) :=
  match n with
  | O => Some ip_
  | S n' =>
      let end_ := String.index start delim addr in
      let count := (from_option id (String.length addr) end_ - start)%nat in
      let elem := String.substring start count addr in
      v ← stoi elem;
      match end_ with
      | Some e => parse_loop n' addr delim (e + 1) (ip_ ++ [u8 v])
      | None => Some (ip_ ++ [u8 v])
      end
  end.

Definition parse_net_addr (addr : string) : option (list Z) :=
  let delim := match String.index 0 "." addr with None => "::" | Some _ => "." end in
  parse_loop 16 addr delim 0 [].

End Tools.

(** The protocol numbers [NetProtocol] and [TransportProtocol]. *)
Definition IPv4 : Z := 4.
Definition IPv6 : Z := 6.
Definition NET_UNDEFINED : Z := 255.
Definition TCP : Z := 6.
Definition UDP : Z := 17.
Definition TRANSPORT_UNDEFINED : Z := 255.

Module IPv4Address.

Definition default : list Z := [0; 0; 0; 0].
Definition of_bytes (data : list Z) : option (list Z) :=
  a ← load data 0; b ← load data 1; c ← load data 2; d ← load data 3; Some [a; b; c; d].
Definition of_string (data : string) : option (list Z) :=
  vec ← Tools.parse_net_addr data; blit default 0 vec.
Definition of_list (l : list Z) : option (list Z) := blit default 0 l.
Definition of_uint (data : Z) : list Z := [octet 3 data; octet 2 data; octet 1 data; octet 0 data].
Definition make (first second third four : Z) : list Z := [first; second; third; four].
Definition index (ip_ : list Z) (elem : Z) : option Z := load ip_ elem.
Definition to_bytes (ip_ : list Z) : list Z := ip_.
Definition to_uint (ip_ : list Z) : option Z := load32 ip_ 0.
Definition eqb (ip_ other : list Z) : option bool :=
  a ← to_uint ip_; b ← to_uint other; Some (a =? b).
Definition get_addr_family (ip_ : list Z) : Z := IPv4.
Definition get_addr_size (ip_ : list Z) : Z := 4.
Definition to_string (ip_ : list Z) : option string :=
  a ← load ip_ 0; b ← load ip_ 1; c ← load ip_ 2; d ← load ip_ 3;
  Some (dec a +:+ "." +:+ dec b +:+ "." +:+ dec c +:+ "." +:+ dec d)%string.

End IPv4Address.

(** [ip << static_cast<int>(ip_[i]) << "."] for every byte. *)
Fixpoint dotted (l : list Z) : string :=
  match l with
  | [] => EmptyString
  | b :: l' => (dec b +:+ "." +:+ dotted l')%string
  end.

(** [temp.substr(0, temp.size() - n)]; the difference wraps to a huge count. *)
Definition drop_last (n : nat) (s : string) : string :=
  if Nat.ltb (String.length s) n then s else String.substring 0 (String.length s - n) s.

Module IPv6Address.

Definition default : list Z := [0; 0; 0; 0; 0; 0; 0; 0; 0; 0; 0; 0; 0; 0; 0; 0].
Definition of_bytes (data : list Z) : option (list Z) := blit default 0 data.
Definition of_list (l : list Z) : option (list Z) := blit default 0 l.
Definition of_pointer (m : mem) (data : Z) : option (list Z) :=
  l ← range m data (data + 16); blit default 0 l.
Definition of_string (data : string) : option (list Z) :=
  vec ← Tools.parse_net_addr data; blit default 0 vec.
Definition get_addr_family (ip_ : list Z) : Z := IPv6.
Definition get_addr_size (ip_ : list Z) : Z := 6.
Definition to_bytes (ip_ : list Z) : list Z := ip_.
Definition to_string (ip_ : list Z) : string := drop_last 2 (dotted ip_).
Definition to_uint (ip_ : list Z) : list Z := ip_.

End IPv6Address.

Module NetAddr.

Definition default : list Z := [0; 0; 0; 0; 0; 0; 0; 0; 0; 0; 0; 0; 0; 0; 0; 0].
Definition of_bytes (data : list Z) : list Z := data.
Definition of_list (l : list Z) : list Z := l.
Definition of_uint (data : Z) : list Z := [octet 3 data; octet 2 data; octet 1 data; octet 0 data].
Definition of_ipv4 (data : list Z) : list Z := IPv4Address.to_bytes data.
Definition of_ipv6 (data : list Z) : list Z := IPv6Address.to_bytes data.
Definition of_string (data : string) : option (list Z) := Tools.parse_net_addr data.
(** [NetAddr(begin, end)] for a range of a buffer. *)
Definition of_range (m : mem) (b e : Z) : option (list Z) := range m b e.
Definition get_addr_size (ip_ : list Z) : Z := msize ip_.
Definition get_addr_family (ip_ : list Z) : Z :=
  if msize ip_ =? 4 then IPv4 else if msize ip_ =? 16 then IPv6 else NET_UNDEFINED.
Definition to_ipv4 (ip_ : list Z) : option (list Z) :=
  a ← load ip_ 0; b ← load ip_ 1; c ← load ip_ 2; d ← load ip_ 3;
  IPv4Address.of_bytes [a; b; c; d].
Definition to_ipv6 (ip_ : list Z) : option (list Z) :=
  data ← range ip_ 0 16; IPv6Address.of_bytes data.
Definition index (ip_ : list Z) (elem : Z) : option Z := load ip_ elem.
Definition to_bytes (ip_ : list Z) : list Z := ip_.
Definition to_string (ip_ : list Z) : string := drop_last 1 (dotted ip_).
Definition to_uint (ip_ : list Z) : option Z :=
  if get_addr_family ip_ =? IPv4 then load32 ip_ 0 else Some 0.

(** [operator==]: the loop runs over the bytes of the left operand and reads the
    same index of the right one. *)
Fixpoint eqb (ip_ other : list Z) : option bool :=
  match ip_ with
  | [] => Some true
  | x :: ip_' =>
      match other with
      | [] => None
      | y :: other' => if x =? y then eqb ip_' other' else Some false
      end
  end.

End NetAddr.

(** [QVPNSocketData], the key of a connection. *)
Module QVPNSocketData.

Record t := mk {
  net_proto : Z; transport_proto : Z;
  local_addr : list Z; local_port : Z;
  remote_addr : list Z; remote_port : Z }.

Definition to_string (d : t) : string :=
  ("(" +:+ dec (net_proto d) +:+ "," +:+ dec (transport_proto d) +:+ ") " +:+
   NetAddr.to_string (local_addr d) +:+ ":" +:+ dec (local_port d) +:+ "-" +:+
   NetAddr.to_string (remote_addr d) +:+ ":" +:+ dec (remote_port d))%string.

(** The [&&] chain of [operator==]. *)
Definition eqb (d other : t) : option bool :=
  if negb (net_proto d =? net_proto other) then Some false
  else if negb (transport_proto d =? transport_proto other) then Some false
  else
    l ← NetAddr.eqb (local_addr d) (local_addr other);
    if negb l then Some false
    else if negb (local_port d =? local_port other) then Some false
    else
      r ← NetAddr.eqb (remote_addr d) (remote_addr other);
      if negb r then Some false
      else Some (remote_port d =? remote_port other).

(** Both addresses have the size their protocol prescribes. *)
Definition wf (d : t) : Prop :=
  msize (local_addr d) = (if net_proto d =? IPv4 then 4 else 16) /\
  msize (remote_addr d) = (if net_proto d =? IPv4 then 4 else 16).

End QVPNSocketData.

(** * Decimal text *)

#[local] Arguments String.append !_ _ /.

Lemma dec_stoi b : is_u8 b -> stoi (dec b) = Some b.
Proof.
  intros Hb. enough (bool_decide (stoi (dec b) = Some b) = true)
    by (by eapply bool_decide_eq_true).
  revert b Hb. apply forall_u8. by vm_compute.
Qed.

(** The character of ["."]. *)
Definition dot : Ascii.ascii := Ascii.ascii_of_nat 46.

(** No character of [s] is the character [c]. *)
Fixpoint avoids (c : Ascii.ascii) (s : string) : bool :=
  match s with
  | EmptyString => true
  | String a s' => negb (Ascii.eqb a c) && avoids c s'
  end.

Lemma dec_avoids b : is_u8 b -> avoids dot (dec b) = true.
Proof. revert b. apply forall_u8. by vm_compute. Qed.

Lemma dec_not_empty b : is_u8 b -> Nat.ltb 0 (String.length (dec b)) = true.
Proof. revert b. apply forall_u8. by vm_compute. Qed.

Lemma index_app_shift p d s :
  String.index (String.length p) d (p +:+ s) =
  (fun e => (String.length p + e)%nat) <$> String.index 0 d s.
Proof.
  induction p as [|c p IH]; simpl.
  - by destruct (String.index 0 d s).
  - rewrite IH. by destruct (String.index 0 d s).
Qed.

Lemma substring_app_shift p n s :
  String.substring (String.length p) n (p +:+ s) = String.substring 0 n s.
Proof. induction p as [|c p IH]; simpl; [done|]. destruct p; exact IH. Qed.

Lemma substring_prefix s r : String.substring 0 (String.length s) (s +:+ r) = s.
Proof. induction s as [|c s IH]; simpl; [by destruct r|]. by rewrite IH. Qed.

Lemma substring_app_add s n r :
  String.substring 0 (String.length s + n) (s +:+ r) = (s +:+ String.substring 0 n r)%string.
Proof. induction s as [|c s IH]; simpl; [done|]. by rewrite IH. Qed.

Lemma length_app_string s r : String.length (s +:+ r) = (String.length s + String.length r)%nat.
Proof. induction s as [|c s IH]; simpl; [done|]. by rewrite IH. Qed.

Lemma app_assoc_string s r t : ((s +:+ r) +:+ t = s +:+ (r +:+ t))%string.
Proof. induction s as [|c s IH]; simpl; [done|]. by rewrite IH. Qed.

Lemma app_nil_string s : (s +:+ "" = s)%string.
Proof. induction s as [|c s IH]; simpl; [done|]. by rewrite IH. Qed.

Lemma index_char c s r :
  avoids c s = true -> String.index 0 (String c "") (s +:+ String c r)%string = Some (String.length s).
Proof.
  induction s as [|a s IH]; intros Ha.
  - simpl. destruct (Ascii.ascii_dec c c) as [_|]; [|done]. by destruct r.
  - simpl in Ha. apply andb_true_iff in Ha as [Hc Ha].
    apply negb_true_iff, Ascii.eqb_neq in Hc. simpl.
    destruct (Ascii.ascii_dec c a) as [<-|]; [done|]. by rewrite IH.
Qed.

Lemma index_no_char c s : avoids c s = true -> String.index 0 (String c "") s = None.
Proof.
  induction s as [|a s IH]; intros Ha; [done|].
  simpl in Ha. apply andb_true_iff in Ha as [Hc Ha].
  apply negb_true_iff, Ascii.eqb_neq in Hc. simpl.
  destruct (Ascii.ascii_dec c a) as [<-|]; [done|]. by rewrite IH.
Qed.

Lemma index_dot s r :
  avoids dot s = true -> String.index 0 "." (s +:+ String dot r)%string = Some (String.length s).
Proof. apply (index_char dot). Qed.

Lemma index_no_dot s : avoids dot s = true -> String.index 0 "." s = None.
Proof. apply (index_no_char dot). Qed.

(** One turn of [parse_loop] on a component followed by a dot, and the last one. *)
Lemma parse_loop_dot n p b r ip_ :
  is_u8 b ->
  Tools.parse_loop (S n) (p +:+ dec b +:+ String dot r)%string "." (String.length p) ip_ =
  Tools.parse_loop n ((p +:+ dec b +:+ ".") +:+ r)%string "."
    (String.length (p +:+ dec b +:+ ".")%string) (ip_ ++ [b]).
Proof.
  intros Hb. cbn [Tools.parse_loop].
  rewrite index_app_shift, index_dot by (by apply dec_avoids). simpl fmap. cbn [from_option id].
  replace (String.length p + String.length (dec b) - String.length p)%nat
    with (String.length (dec b)) by lia.
  rewrite substring_app_shift, substring_prefix, dec_stoi by done. cbn [mbind option_bind].
  rewrite u8_id by done. change (String dot r) with ("." +:+ r)%string.
  rewrite !app_assoc_string, !length_app_string. cbn [String.length].
  by rewrite <- Nat.add_assoc.
Qed.

Lemma parse_loop_last n p b ip_ :
  is_u8 b ->
  Tools.parse_loop (S n) (p +:+ dec b)%string "." (String.length p) ip_ = Some (ip_ ++ [b]).
Proof.
  intros Hb. cbn [Tools.parse_loop].
  rewrite index_app_shift, index_no_dot by (by apply dec_avoids). cbn [fmap option_fmap option_map from_option id].
  replace (String.length (p +:+ dec b)%string - String.length p)%nat
    with (String.length (dec b)) by (rewrite length_app_string; lia).
  rewrite substring_app_shift. rewrite <- (app_nil_string (dec b)) at 2.
  rewrite substring_prefix, dec_stoi by done. cbn [mbind option_bind].
  by rewrite u8_id by done.
Qed.

(** Dotted text of [b] and [l] is parsed back, for at most [n] components. *)
Lemma parse_loop_dotted n p b l ip_ :
  is_u8 b -> bytes l -> (length l < n)%nat ->
  Tools.parse_loop n (p +:+ drop_last 1 (dotted (b :: l)))%string "." (String.length p) ip_ =
  Some (ip_ ++ b :: l).
Proof.
  revert n p b ip_. induction l as [|c l IH]; intros n p b ip_ Hb Hl Hn.
  - destruct n as [|n]; [simpl in Hn; lia|].
    assert (drop_last 1 (dotted [b]) = dec b) as ->.
    { unfold drop_last. cbn [dotted]. rewrite !length_app_string. cbn [String.length].
      destruct (Nat.ltb_spec (String.length (dec b) + (1 + 0)) 1); [lia|].
      rewrite Nat.add_sub. apply substring_prefix. }
    by rewrite parse_loop_last.
  - destruct n as [|n]; [simpl in Hn; lia|]. apply Forall_cons in Hl as [Hc Hl].
    assert (drop_last 1 (dotted (b :: c :: l)) =
            dec b +:+ String dot (drop_last 1 (dotted (c :: l))))%string as ->.
    { pose proof (dec_not_empty c Hc) as Hne%Nat.ltb_lt. unfold drop_last.
      cbn [dotted]. rewrite !length_app_string. cbn [String.length].
      destruct (Nat.ltb_spec (String.length (dec b) + (1 + (String.length (dec c) + (1 + String.length (dotted l))))) 1); [lia|].
      destruct (Nat.ltb_spec (String.length (dec c) + (1 + String.length (dotted l))) 1); [lia|].
      set (k := (String.length (dec c) + (1 + String.length (dotted l)) - 1)%nat).
      replace (String.length (dec b) + (1 + (String.length (dec c) + (1 + String.length (dotted l)))) - 1)%nat
        with (String.length (dec b) + S k)%nat by lia.
      rewrite substring_app_add. simpl. done. }
    rewrite parse_loop_dot by done. rewrite IH by (done || simpl in *; lia).
    by rewrite <- app_assoc.
Qed.

(** * Properties *)

Lemma load_list4 a b c d :
  load [a; b; c; d] 0 = Some a /\ load [a; b; c; d] 1 = Some b /\
  load [a; b; c; d] 2 = Some c /\ load [a; b; c; d] 3 = Some d.
Proof. done. Qed.

Lemma list4 (l : list Z) : msize l = 4 -> exists a b c d, l = [a; b; c; d].
Proof.
  unfold msize. intros H. destruct l as [|a [|b [|c [|d [|e l]]]]]; simpl in H; try lia. eauto.
Qed.

Lemma dotted_index ip_ :
  bytes ip_ -> (2 <= length ip_)%nat -> exists k, String.index 0 "." (drop_last 1 (dotted ip_)) = Some k.
Proof.
  intros Hip Hl. destruct ip_ as [|a [|b l]]; simpl in Hl; [lia|lia|].
  apply Forall_cons in Hip as [Ha [Hb Hl']%Forall_cons]. exists (String.length (dec a)).
  pose proof (dec_not_empty b Hb) as Hne%Nat.ltb_lt. unfold drop_last.
  cbn [dotted]. rewrite !length_app_string. cbn [String.length].
  match goal with |- context [Nat.ltb ?x 1] => destruct (Nat.ltb_spec x 1); [lia|] end.
  set (k := (String.length (dec b) + (1 + String.length (dotted l)) - 1)%nat).
  match goal with |- context [String.substring 0 ?n _] =>
    replace n with (String.length (dec a) + S k)%nat by lia end.
  rewrite substring_app_add. cbn [String.substring String.append].
  apply index_dot, dec_avoids, Ha.
Qed.

(** text round trip of addresses.  [parse_net_addr] applied to what
    [NetAddr::to_string] prints gives back the same bytes, for any address of
    2 to 16 bytes (so both families, printed dotted). *)
Theorem parse_net_addr_to_string ip_ :
  bytes ip_ -> 2 <= msize ip_ <= 16 ->
  NetAddr.of_string (NetAddr.to_string ip_) = Some ip_.
Proof.
  intros Hip Hl. unfold msize in Hl.
  unfold NetAddr.of_string, NetAddr.to_string, Tools.parse_net_addr.
  destruct (dotted_index ip_ Hip) as [k ->]; [lia|].
  destruct ip_ as [|b l]; [simpl in *; lia|]. apply Forall_cons in Hip as [Hb Hip].
  apply (parse_loop_dotted 16 "" b l []); [done|done|]. simpl in Hl. lia.
Qed.

Lemma parse_net_addr_to_string_witness :
  NetAddr.of_string (NetAddr.to_string [192; 168; 0; 1]) = Some [192; 168; 0; 1].
Proof.
  apply (parse_net_addr_to_string [192; 168; 0; 1]).
  - repeat constructor; unfold is_u8; lia.
  - unfold msize; simpl; lia.
Defined.

(** [NetAddr::operator==] decides whether the left operand's bytes are a
    prefix of the right operand's: it is equality when the sizes agree, it is
    undefined exactly when the right operand is a proper prefix of the left one. *)
Theorem net_addr_eqb_spec ip_ other :
  (NetAddr.eqb ip_ other = Some true <-> ip_ `prefix_of` other) /\
  (msize ip_ = msize other -> NetAddr.eqb ip_ other = Some (bool_decide (ip_ = other))) /\
  (NetAddr.eqb ip_ other = None <-> other `prefix_of` ip_ /\ msize other < msize ip_).
Proof.
  revert other. induction ip_ as [|x ip_ IH]; intros [|y other]; simpl; rewrite ?msize_cons.
  - split_and!; [split; [intros; done|done]|done|].
    split; [done|]. unfold msize; simpl; lia.
  - split_and!.
    + split; [intros; apply prefix_nil|done].
    + unfold msize; simpl; lia.
    + split; [done|]. unfold msize; simpl. lia.
  - split_and!.
    + split; [done|]. intros [? ?]. done.
    + unfold msize; simpl; lia.
    + split; [intros _|done]. split; [apply prefix_nil|unfold msize; simpl; lia].
  - destruct (IH other) as (IH1 & IH2 & IH3). destruct (Z.eqb_spec x y) as [->|Hne].
    + split_and!.
      * rewrite IH1. split; [apply prefix_cons|apply prefix_cons_inv_2].
      * intros H. rewrite IH2 by lia. f_equal. apply bool_decide_ext. split; [by intros ->|congruence].
      * rewrite IH3. split; intros [H1 H2]; (split; [|lia]);
          [by apply prefix_cons|by apply prefix_cons_inv_2 in H1].
    + split_and!.
      * split; [done|]. intros ?%prefix_cons_inv_1. done.
      * intros _. rewrite bool_decide_false by congruence. done.
      * split; [done|]. intros [?%prefix_cons_inv_1 _]. done.
Qed.

Lemma net_addr_eqb_spec_witness :
  NetAddr.eqb [10; 0; 0; 1] [10; 0; 0; 2] = Some (bool_decide ([10; 0; 0; 1] = [10; 0; 0; 2])).
Proof. apply (net_addr_eqb_spec [10; 0; 0; 1] [10; 0; 0; 2]). reflexivity. Defined.

Lemma net_addr_eqb_same ip_ other :
  msize ip_ = msize other -> NetAddr.eqb ip_ other = Some (bool_decide (ip_ = other)).
Proof.
  revert other. induction ip_ as [|x ip_ IH]; intros [|y other]; rewrite ?msize_cons; intros H;
    simpl; try (unfold msize in H; simpl in H; lia); [done|].
  destruct (Z.eqb_spec x y) as [->|Hne].
  - rewrite IH by lia. f_equal. apply bool_decide_ext. split; [by intros ->|congruence].
  - by rewrite bool_decide_false by congruence.
Qed.

#[global] Instance socket_data_eq_dec : EqDecision QVPNSocketData.t.
Proof. solve_decision. Defined.

(** [QVPNSocketData::operator==], the key comparison of the connection
    tables, is equality on keys whose addresses fit their protocol, and is
    then never undefined. *)
Theorem socket_data_eqb_spec d other :
  QVPNSocketData.wf d -> QVPNSocketData.wf other ->
  QVPNSocketData.eqb d other = Some (bool_decide (d = other)).
Proof.
  destruct d as [n t la lp ra rp], other as [n' t' la' lp' ra' rp'].
  intros [H1 H2] [H3 H4]. unfold QVPNSocketData.eqb. simpl in *.
  destruct (Z.eqb_spec n n') as [->|]; simpl; [|by rewrite bool_decide_false by congruence].
  destruct (Z.eqb_spec t t') as [->|]; simpl; [|by rewrite bool_decide_false by congruence].
  rewrite (net_addr_eqb_same la la') by congruence. simpl.
  destruct (bool_decide_reflect (la = la')) as [->|]; simpl; [|by rewrite bool_decide_false by congruence].
  destruct (Z.eqb_spec lp lp') as [->|]; simpl; [|by rewrite bool_decide_false by congruence].
  rewrite (net_addr_eqb_same ra ra') by congruence. simpl.
  destruct (bool_decide_reflect (ra = ra')) as [->|]; simpl; [|by rewrite bool_decide_false by congruence].
  destruct (Z.eqb_spec rp rp') as [->|]; [|by rewrite bool_decide_false by congruence].
  by rewrite bool_decide_true.
Qed.

Lemma socket_data_eqb_spec_witness :
  let d := QVPNSocketData.mk 4 6 [10; 0; 0; 1] 443 [10; 0; 0; 2] 80 in
  QVPNSocketData.eqb d d = Some (bool_decide (d = d)).
Proof. intros d. apply (socket_data_eqb_spec d d); split; reflexivity. Defined.
