(* ===== verification/Support.v ===== *)
(** Smaller parts: the logger (src/QVPN/QVPN Lib/include/qvpn_tools.hpp), the generator of ports
    (src/QVPN/QVPN Lib/src/qvpn_driver.cpp), and the lists of network adapters
    (src/QVPN/QVPN Lib/include/qvpn_structures.hpp, src/QVPN/QVPN Lib/src/Windows/pcap_ext.cpp).

    What the logger prints is the result of its methods; [time] is the text of the clock.  [None] is
    an exception of [std::vformat], or undefined behaviour. *)
From S2P Require Import Prelude Addr.
From Stdlib Require Import Ascii.

(** * The logger *)

(** [LoggerVerboseLevel]: a set of bits. *)
Module LoggerVerboseLevel.
Definition SILENCE : Z := 0.
Definition IMPORTANT : Z := 1.
Definition WARNING : Z := 2.
Definition INFO : Z := 4.
Definition IMPORTANT_AND_WARNING : Z := Z.lor IMPORTANT WARNING.
Definition WARNING_AND_INFO : Z := Z.lor WARNING INFO.
Definition IMPORTANT_AND_INFO : Z := Z.lor IMPORTANT INFO.
Definition ALL : Z := Z.lor (Z.lor IMPORTANT WARNING) INFO.
End LoggerVerboseLevel.

(** The replacement fields of the program's format strings are all [{}]; the arguments are given
    by their texts. *)
Fixpoint vformat (str : string) (args : list string) : option string :=
  match str with
  | EmptyString => Some EmptyString
  | String c rest =>
      if Ascii.eqb c "{"%char then
        match rest, args with
        | String c2 rest, a :: args =>
            if Ascii.eqb c2 "}"%char then tail ← vformat rest args; Some (a +:+ tail)%string
            else if Ascii.eqb c2 "{"%char then tail ← vformat rest (a :: args); Some (String c tail)
            else None
        | String c2 rest, [] =>
            if Ascii.eqb c2 "{"%char then tail ← vformat rest []; Some (String c tail) else None
        | EmptyString, _ => None
        end
      else if Ascii.eqb c "}"%char then
        match rest with
        | String c2 rest =>
            if Ascii.eqb c2 "}"%char then tail ← vformat rest args; Some (String c tail) else None
        | EmptyString => None
        end
      else tail ← vformat rest args; Some (String c tail)
  end.

(** The colours of the two specialisations, which end a line by a different name. *)
Module Colors.
Record t := mk {
  OKGREEN : string; WARNING : string; FAIL : string; ENDC : string; BOLD : string; DEFAULT : string }.

Definition escape (code : string) : string := String (Ascii.ascii_of_nat 27) ("[" +:+ code +:+ "m").
Definition WinColors : t := mk (escape "92") (escape "93") (escape "91") (escape "0") (escape "1") (escape "0").
Definition LinuxColors : t := mk (escape "92") (escape "93") (escape "91") (escape "0") (escape "1") (escape "0").
End Colors.

Module QVPNLogger.
Import Colors.

Record t := mk { prefix_ : string; verbose_ : Z }.

Definition make : t := mk EmptyString LoggerVerboseLevel.ALL.

Definition set_verbosity (s : t) (level : Z) : t := mk (prefix_ s) level.
Definition set_prefix (s : t) (prefix : string) : t := mk ("<" +:+ prefix +:+ ">") (verbose_ s).
Definition clear_prefix (s : t) : t := mk EmptyString (verbose_ s).

Definition enabled (s : t) (level : Z) : bool := Z.land (verbose_ s) level =? level.

Definition newline : string := String (Ascii.ascii_of_nat 10) EmptyString.

(** The line of a severity: [opening] and [closing] are its colours. *)
Definition line (opening tag closing : string) (s : t) (time data : string) : string :=
  (opening +:+ "[" +:+ time +:+ "] (" +:+ tag +:+ ") " +:+ prefix_ s +:+ " " +:+ data +:+ closing +:+ newline)%string.

Section Platform.
(** [closing] is [ENDC] on Windows and [DEFAULT] on Linux. *)
Context (colors : Colors.t) (closing : string).

Definition info (s : t) (time data : string) : string :=
  if enabled s LoggerVerboseLevel.INFO then line (ENDC colors +:+ BOLD colors) "INFO" closing s time data
  else EmptyString.
Definition success (s : t) (time data : string) : string :=
  if enabled s LoggerVerboseLevel.IMPORTANT then line (OKGREEN colors) "SUCCESS" closing s time data
  else EmptyString.
Definition fail (s : t) (time data : string) : string :=
  if enabled s LoggerVerboseLevel.IMPORTANT then line (FAIL colors) "FAIL" closing s time data
  else EmptyString.
Definition warning (s : t) (time data : string) : string :=
  if enabled s LoggerVerboseLevel.WARNING then line (WARNING colors) "WARNING" closing s time data
  else EmptyString.
Definition simple_info (s : t) (str : string) : string :=
  if enabled s LoggerVerboseLevel.INFO then (BOLD colors +:+ str +:+ ENDC colors +:+ newline)%string
  else EmptyString.

(** The overloads with arguments format after they have looked at the verbosity; the one of
    [simple_info] prints its format string as it is. *)
Definition formatted (s : t) (level : Z) (out : string -> string) (str : string) (args : list string) :
    option string :=
  if enabled s level then data ← vformat str args; Some (out data) else Some EmptyString.

Definition info_args (s : t) (time str : string) (args : list string) : option string :=
  formatted s LoggerVerboseLevel.INFO (line (ENDC colors +:+ BOLD colors) "INFO" closing s time) str args.
Definition success_args (s : t) (time str : string) (args : list string) : option string :=
  formatted s LoggerVerboseLevel.IMPORTANT (line (OKGREEN colors) "SUCCESS" closing s time) str args.
Definition fail_args (s : t) (time str : string) (args : list string) : option string :=
  formatted s LoggerVerboseLevel.IMPORTANT (line (FAIL colors) "FAIL" closing s time) str args.
Definition warning_args (s : t) (time str : string) (args : list string) : option string :=
  formatted s LoggerVerboseLevel.WARNING (line (WARNING colors) "WARNING" closing s time) str args.
Definition simple_info_args (s : t) (str : string) (args : list string) : string := simple_info s str.

End Platform.
End QVPNLogger.

(** * The generator of ports *)

Module PortGenerator.
(** [dist seed] is the first number that [std::uniform_int_distribution(0, 65535)] draws
    from a generator with that seed. *)
Definition get_random_port (dist : Z -> Z) (rd : Z) : Z := u16 (dist rd).
End PortGenerator.

(** * Adapters *)

Module Adapter.
Section Handle.
Context {H : Type}.

Record t := mk {
  adapter_name : string; adapter_desc : string; friendly_name : string; address : mem;
  handle : H; adapter_id : Z }.

(** A constructor leaves the members it does not mention as they are in memory: [u] is the object
    before; the address of [INADDR_ANY] is the default. *)
Definition any : mem := [0; 0; 0; 0].
Definition make (u : t) (null : H) : t := mk EmptyString EmptyString EmptyString any null (adapter_id u).
Definition of_names (u : t) (a_name a_desc a_fname : string) : t :=
  mk a_name a_desc a_fname any (handle u) (adapter_id u).
Definition of_names_id (u : t) (a_name a_desc a_fname : string) (a_id : Z) : t :=
  mk a_name a_desc a_fname any (handle u) a_id.
Definition of_addr (u : t) (a_name a_desc : string) (addr : mem) : t :=
  mk a_name a_desc a_name addr (handle u) (adapter_id u).
Definition of_addr_id (u : t) (a_name a_desc : string) (addr : mem) (a_id : Z) : t :=
  mk a_name a_desc a_name addr (handle u) a_id.
Definition of_addr_handle (u : t) (a_name a_desc : string) (addr : mem) (hnd : H) : t :=
  mk a_name a_desc a_name addr hnd (adapter_id u).
Definition of_addr_handle_id (a_name a_desc : string) (addr : mem) (hnd : H) (a_id : Z) : t :=
  mk a_name a_desc a_name addr hnd a_id.
Definition of_names_handle (u : t) (a_name a_desc a_fname : string) (a_handle : H) : t :=
  mk a_name a_desc a_fname any a_handle (adapter_id u).
Definition of_names_handle_id (a_name a_desc a_fname : string) (a_handle : H) (a_id : Z) : t :=
  mk a_name a_desc a_fname any a_handle a_id.

Definition set_handle (a : t) (a_handle : H) : t :=
  mk (adapter_name a) (adapter_desc a) (friendly_name a) (address a) a_handle (adapter_id a).
Definition set_data (a : t) (a_name a_desc a_fname : string) : t :=
  mk a_name a_desc a_fname (address a) (handle a) (adapter_id a).
Definition set_name (a : t) (a_name : string) : t :=
  mk a_name (adapter_desc a) (friendly_name a) (address a) (handle a) (adapter_id a).
Definition set_desc (a : t) (a_desc : string) : t :=
  mk (adapter_name a) a_desc (friendly_name a) (address a) (handle a) (adapter_id a).
Definition set_friendly_name (a : t) (a_fname : string) : t :=
  mk (adapter_name a) (adapter_desc a) a_fname (address a) (handle a) (adapter_id a).

Definition get_name (a : t) : string := adapter_name a.
Definition get_desc (a : t) : string := adapter_desc a.
Definition get_friendly_name (a : t) : string := friendly_name a.
Definition get_handle (a : t) : H := handle a.
Definition get_addr (a : t) : mem := address a.
Definition get_id (a : t) : Z := adapter_id a.

End Handle.
Arguments t : clear implicits.
End Adapter.

Module AdapterList.
(** [nullptr] when no adapter meets the criterion. *)
Fixpoint get_default_adapter {H} (check_criteria : Adapter.t H -> bool) (l : list (Adapter.t H)) :
    option (Adapter.t H) :=
  match l with
  | [] => None
  | it :: l => if check_criteria it then Some it else get_default_adapter check_criteria l
  end.
End AdapterList.

(** The list of interfaces that libpcap answers: [description] may be the null pointer, and
    [addresses] says whether there is an address. *)
Record pcap_if_t := mk_pcap_if {
  pcap_name : string; pcap_description : option string; pcap_addresses : bool }.

Module PcapNetDriver.
Section Handle.
Context {H : Type} (u : Adapter.t H).

(** A [std::string_view] of the null pointer is undefined. *)
Definition convert_from_pcap_adapter (adapter : pcap_if_t) : option (Adapter.t H) :=
  description ← pcap_description adapter;
  Some (Adapter.of_names u (pcap_name adapter) description (pcap_name adapter)).

Fixpoint list_loop (d : list pcap_if_t) (adapters : list (Adapter.t H)) : option (list (Adapter.t H)) :=
  match d with
  | [] => Some adapters
  | a :: d =>
      if pcap_addresses a then
        adapter ← convert_from_pcap_adapter a;
        list_loop d (adapters ++ [Adapter.of_names u (Adapter.get_name adapter) (Adapter.get_desc adapter)
                                    (Adapter.get_friendly_name adapter)])
      else list_loop d adapters
  end.

(** [alldevs] is [None] when [pcap_findalldevs] fails. *)
Definition get_adapters_list (alldevs : option (list pcap_if_t)) : option (list (Adapter.t H)) :=
  match alldevs with Some d => list_loop d [] | None => Some [] end.

Definition contains (name sub : string) : bool :=
  match String.index 0 sub name with Some _ => true | None => false end.
Definition is_physical_adapter (adapter : Adapter.t H) : bool :=
  let name := Adapter.get_desc adapter in
  contains name "Realtek" || contains name "Broadcom" || contains name "Intel".
Definition check_criteria (adapter : Adapter.t H) : bool :=
  if is_physical_adapter adapter then true else false.

End Handle.
End PcapNetDriver.

(** * What they do *)

(** A level lets a message through if its bit is set. *)
Lemma enabled_bit s k : 0 <= k -> QVPNLogger.enabled s (2 ^ k) = Z.testbit (QVPNLogger.verbose_ s) k.
Proof.
  intros Hk. unfold QVPNLogger.enabled. apply eq_true_iff_eq. rewrite Z.eqb_eq. split.
  - intros E. apply (f_equal (fun z => Z.testbit z k)) in E.
    rewrite Z.land_spec, Z.pow2_bits_true in E by done. by rewrite andb_true_r in E.
  - intros E. apply Z.bits_inj'. intros n Hn. rewrite Z.land_spec, Z.pow2_bits_eqb by done.
    destruct (Z.eqb_spec k n) as [<-|]; [by rewrite E|apply andb_false_r].
Qed.

Lemma line_not_empty opening tag closing s time data :
  QVPNLogger.line opening tag closing s time data <> EmptyString.
Proof. unfold QVPNLogger.line. by destruct opening. Qed.

(** Which messages a verbosity prints: the successes and failures with bit 0, the warnings with bit
    1, the rest with bit 2. *)
Lemma logger_levels colors closing s time data :
  (QVPNLogger.success colors closing s time data <> EmptyString <-> Z.testbit (QVPNLogger.verbose_ s) 0 = true) /\
  (QVPNLogger.fail colors closing s time data <> EmptyString <-> Z.testbit (QVPNLogger.verbose_ s) 0 = true) /\
  (QVPNLogger.warning colors closing s time data <> EmptyString <-> Z.testbit (QVPNLogger.verbose_ s) 1 = true) /\
  (QVPNLogger.info colors closing s time data <> EmptyString <-> Z.testbit (QVPNLogger.verbose_ s) 2 = true).
Proof.
  unfold QVPNLogger.success, QVPNLogger.fail, QVPNLogger.warning, QVPNLogger.info.
  pose proof (enabled_bit s 0 ltac:(lia)) as E0. pose proof (enabled_bit s 1 ltac:(lia)) as E1.
  pose proof (enabled_bit s 2 ltac:(lia)) as E2.
  change (2 ^ 0) with 1 in E0. change (2 ^ 1) with 2 in E1. change (2 ^ 2) with 4 in E2.
  unfold LoggerVerboseLevel.IMPORTANT, LoggerVerboseLevel.WARNING, LoggerVerboseLevel.INFO.
  rewrite E0, E1, E2. split_and!; case_match; split; try done; intros _; apply line_not_empty.
Qed.

(** Both platforms print the same bytes. *)
Lemma platforms_agree s time data :
  QVPNLogger.info Colors.WinColors (Colors.ENDC Colors.WinColors) s time data =
  QVPNLogger.info Colors.LinuxColors (Colors.DEFAULT Colors.LinuxColors) s time data.
Proof. done. Qed.

(** A field without an argument is an exception, but only if the message would be printed. *)
Lemma missing_argument colors closing s time :
  is_Some (QVPNLogger.info_args colors closing s time "{}" []) <-> Z.testbit (QVPNLogger.verbose_ s) 2 = false.
Proof.
  pose proof (enabled_bit s 2 ltac:(lia)) as E2. change (2 ^ 2) with 4 in E2.
  unfold QVPNLogger.info_args, QVPNLogger.formatted, LoggerVerboseLevel.INFO. rewrite E2.
  destruct (Z.testbit _ 2); [by split; [intros [? ?]|]|]. split; [done|]. intros _. by eexists.
Qed.

Section Adapters.
Context {H : Type} (u : Adapter.t H).

(** The default adapter is the first one that meets the criterion. *)
Lemma default_adapter_first check l a :
  AdapterList.get_default_adapter (H := H) check l = Some a <->
  exists l1 l2, l = l1 ++ a :: l2 /\ check a = true /\ Forall (fun b => check b = false) l1.
Proof.
  induction l as [|b l IH]; cbn; [split; [done|intros ([] & ? & ? & _); done]|].
  destruct (check b) eqn:E.
  - split; [intros [= <-]; by exists [], l|].
    intros ([|c l1] & l2 & [= -> ->] & Ha & Hl); [done|]. inversion Hl; congruence.
  - rewrite IH. split; intros (l1 & l2 & Hl & Ha & Hf).
    + subst. exists (b :: l1), l2. split_and!; [done..|by constructor].
    + destruct l1 as [|c l1]; [injection Hl as -> ->; congruence|].
      injection Hl as -> ->. inversion Hf; subst. by exists l1, l2.
Qed.

Definition adapter_of (d : pcap_if_t) : Adapter.t H :=
  Adapter.of_names u (pcap_name d) (default EmptyString (pcap_description d)) (pcap_name d).

Lemma described_cons a l t : pcap_description a = Some t ->
  Forall (fun a => is_Some (pcap_description a)) (a :: l) <-> Forall (fun a => is_Some (pcap_description a)) l.
Proof. intros Ht. rewrite Forall_cons, Ht. split; [by intros [_ ?]|]. intros ?. split; [by eexists|done]. Qed.

(** The list is that of the interfaces with an address, and there is one only if each of them has a
    description. *)
Lemma adapters_listed d :
  let used := base.filter (fun a => pcap_addresses a = true) d in
  if decide (Forall (fun a => is_Some (pcap_description a)) used)
  then PcapNetDriver.get_adapters_list u (Some d) = Some (adapter_of <$> used)
  else PcapNetDriver.get_adapters_list u (Some d) = None.
Proof.
  intros used. cbn [PcapNetDriver.get_adapters_list].
  enough (Hl : forall acc, PcapNetDriver.list_loop u d acc =
    if decide (Forall (fun a => is_Some (pcap_description a)) used)
    then Some (acc ++ (adapter_of <$> used)) else None).
  { rewrite Hl. by case_decide. }
  subst used. induction d as [|a d IH]; intros acc; [by rewrite app_nil_r|].
  cbn [PcapNetDriver.list_loop]. destruct (pcap_addresses a) eqn:Ea;
    [rewrite filter_cons_True by done|rewrite filter_cons_False by congruence; apply IH].
  unfold PcapNetDriver.convert_from_pcap_adapter. destruct (pcap_description a) as [t|] eqn:Et; cbn [mbind option_bind].
  - rewrite IH. pose proof (described_cons a (base.filter (fun a => pcap_addresses a = true) d) t Et) as Hd.
    repeat case_decide; try tauto. cbn. rewrite <- app_assoc. unfold adapter_of at 2. by rewrite Et.
  - rewrite decide_False; [done|]. rewrite Forall_cons, Et. by intros [[? ?] _].
Qed.

End Adapters.
