(* ===== verification/Http.v ===== *)
(** HTTP/1 messages: the lookups of [HttpTools] (src/QVPN/QVPN Lib/src/qvpn_tools.cpp,
    include/qvpn_tools.hpp) and the classes [Http1PacketRequest...] and
    [Http1PacketResponse...] (src/qvpn_structures.cpp).  Text is the list of its bytes; [None]
    is an exception of [substr], [stoi], or an access outside the buffer. *)
From S2P Require Import Prelude Addr.

(** The bytes of a literal. *)
Definition text (s : string) : mem := char_code <$> String.list_ascii_of_string s.
Definition string_of (m : mem) : string :=
  String.string_of_list_ascii ((fun z => Ascii.ascii_of_N (Z.to_N z)) <$> m).

Inductive HttpRequestType : Type :=
  | HEAD | GET | POST | PUT | DELETE_REQUEST | CONNECT | OPTIONS | TRACE | REQUEST_UNKNOWN.
Inductive HttpVersion : Type := HTTP1 | HTTP1_1 | HTTP2 | HTTP3 | VERSION_UNKNOWN.
Inductive HttpResponseStatus : Type :=
  | SWITCH_PROTOCOLS | OK | CREATED | MOVED_PERMANENTLY | FOUND | NOT_MODIFIED | BAD_REQUEST
  | FORBIDDEN | NOT_FOUND | INTERNAL_SERVER_ERROR | NOT_IMPLEMENTED
  | HTTP_VERSION_NOT_SUPPORTED | STATUS_UNKNOWN.
Inductive HttpContentType : Type := TEXT_HTML | CONTENT_UNKNOWN.
Inductive HttpConnectionType : Type := KEEP_ALIVE | CLOSED | CONNECTION_UNKNOWN.
Inductive HttpUserAgent : Type := MOZILLA | APPLE_WEB_KIT | CHROME | SAFARI | AGENT_UKNOWN.
Inductive QVPNCharset : Type := CP866 | CP1251 | UTF8 | CHARSET_UNKNOWN.

(** [std::string_view::find] and [substr]. *)
Definition npos : Z := 18446744073709551615.

Fixpoint starts_with (eqb : Z -> Z -> bool) (source templ : mem) {struct templ} : bool :=
  match templ, source with
  | [], _ => true
  | _, [] => false
  | b :: templ, a :: source => eqb a b && starts_with eqb source templ
  end.

(** The distance to the first match, the size of [source] when there is none
    ([std::search]). *)
Fixpoint search (eqb : Z -> Z -> bool) (source templ : mem) : Z :=
  if starts_with eqb source templ then 0
  else match source with
       | [] => 0
       | _ :: source => 1 + search eqb source templ
       end.

Definition sv_find (m templ : mem) (start : Z) : Z :=
  if msize m <? start then npos
  else
    let rest := drop (Z.to_nat start) m in
    let k := search Z.eqb rest templ in
    if starts_with Z.eqb (drop (Z.to_nat k) rest) templ then start + k else npos.

Definition substr (m : mem) (pos count : Z) : option mem :=
  if msize m <? pos then None
  else Some (take (Z.to_nat (Z.min count (msize m - pos))) (drop (Z.to_nat pos) m)).

(** [unordered_map::at] with the exception turned into [unknown]. *)
Definition table_at {A} (table : list (mem * A)) (unknown : A) (key : mem) : A :=
  match list_find (fun e => fst e = key) table with
  | Some (_, e) => snd e
  | None => unknown
  end.

Module HttpTools.

Definition request_types_ : list (mem * HttpRequestType) :=
  [(text "HEAD", HEAD); (text "GET", GET); (text "POST", POST); (text "PUT", PUT);
   (text "DELETE", DELETE_REQUEST); (text "CONNECT", CONNECT); (text "OPTIONS", OPTIONS);
   (text "TRACE", TRACE)].
Definition con_types_ : list (mem * HttpConnectionType) :=
  [(text "keep-alive", KEEP_ALIVE); (text "closed", CLOSED)].
Definition versions_ : list (mem * HttpVersion) :=
  [(text "1.0", HTTP1); (text "1.1", HTTP1_1); (text "2.0", HTTP2); (text "3.0", HTTP3)].
Definition statuses_ : list (mem * HttpResponseStatus) :=
  [(text "101", SWITCH_PROTOCOLS); (text "200", OK); (text "201", CREATED);
   (text "301", MOVED_PERMANENTLY); (text "400", BAD_REQUEST); (text "403", NOT_MODIFIED);
   (text "404", NOT_FOUND); (text "500", INTERNAL_SERVER_ERROR); (text "501", NOT_IMPLEMENTED);
   (text "505", HTTP_VERSION_NOT_SUPPORTED)].
Definition content_types_ : list (mem * HttpContentType) := [(text "text/html", TEXT_HTML)].
Definition charsets_ : list (mem * QVPNCharset) := [(text "utf-8", UTF8)].

(** [std::toupper] of a [char]: undefined for bytes from 128 on, which are negative. *)
Definition toupper (c : Z) : option Z :=
  if c <? 128 then Some (if (97 <=? c) && (c <=? 122) then c - 32 else c) else None.
(** [std::tolower] of an [unsigned char], in the locale of C. *)
Definition tolower (c : Z) : Z := if (65 <=? c) && (c <=? 90) then c + 32 else c.

Fixpoint str_to_upper (m : mem) : option mem :=
  match m with
  | [] => Some []
  | c :: m => c ← toupper c; m ← str_to_upper m; Some (c :: m)
  end.

Definition case_free_compare (a b : Z) : bool := tolower a =? tolower b.
Definition case_free_search (source templ : mem) : Z := search case_free_compare source templ.

Definition get_request_type_by_string (request_type : mem) : option HttpRequestType :=
  s ← str_to_upper request_type; Some (table_at request_types_ REQUEST_UNKNOWN s).
Definition get_http_connection_type_by_string (connection_type : mem) : option HttpConnectionType :=
  s ← str_to_upper connection_type; Some (table_at con_types_ CONNECTION_UNKNOWN s).

(** The end of the line is passed to [substr] as the length of the value. *)
Definition get_http_header_line (http_data header_name : mem) : option mem :=
  let start := case_free_search http_data header_name in
  let line_end := sv_find http_data [13; 10] start in
  substr http_data (start + msize header_name) line_end.
Definition get_http_header_block (http_data header_name : mem) : option mem :=
  let start := case_free_search http_data header_name in
  let line_end := sv_find http_data (text " ") start in
  substr http_data (start + msize header_name) line_end.

Definition get_http_version_by_string (version : mem) : HttpVersion :=
  table_at versions_ VERSION_UNKNOWN version.
Definition get_http_status_by_string (status : mem) : HttpResponseStatus :=
  table_at statuses_ STATUS_UNKNOWN status.
Definition get_http_content_type_by_string (content : mem) : HttpContentType :=
  table_at content_types_ CONTENT_UNKNOWN content.
Definition get_http_charset_by_string (charset : mem) : QVPNCharset :=
  table_at charsets_ CHARSET_UNKNOWN charset.

Definition http_header_ends : list mem := [[13; 10; 13; 10]; [10; 10]; [13; 13]; [13; 10; 10]].

(** The two inner loops at the byte [c]: [accept] of the last end, every character of which is
    compared with [c]. *)
Definition accepts (c : Z) (e : mem) : bool := forallb (fun x => x =? c) e.
Definition header_turn (c : Z) (accept : bool) : bool :=
  fold_left (fun _ e => accepts c e) http_header_ends accept.

(** The bound [size - header_delimiter_min_size] is compared with a [size_t].  Every turn reads
    [begin_[i]], so one turn more than the buffer has bytes is enough fuel. *)
Definition find_http_header_end (m : mem) (begin_ end_ : Z) : option Z :=
  let size := end_ - begin_ in
  '(accept, pos) ← for_loop (S (length m)) 0 (u64 (size - 2)) 1
    (fun i '(accept, pos) =>
      c ← load m (begin_ + i);
      let accept := header_turn c accept in
      Some (accept, if accept then i else pos))
    (false, 0);
  Some pos.

End HttpTools.

(** What both request classes compute from the text of the message, and both response classes. *)
Module HttpRequest.
Definition get_http_version (req : mem) : option (HttpVersion * mem) :=
  ver ← HttpTools.get_http_header_line req (text "HTTP/");
  Some (HttpTools.get_http_version_by_string ver, ver).
Definition get_http_request_type (req : mem) : option (HttpRequestType * mem) :=
  let type_end := sv_find req (text " ") 0 in
  req_type ← substr req 0 type_end;
  ty ← HttpTools.get_request_type_by_string req_type;
  Some (ty, req_type).
Definition get_http_request_host (req : mem) : option mem :=
  HttpTools.get_http_header_line req (text "Host:").
Definition get_http_request_connection_type (req : mem) : option (HttpConnectionType * mem) :=
  con_type ← HttpTools.get_http_header_line req (text "Connection:");
  ty ← HttpTools.get_http_connection_type_by_string con_type;
  Some (ty, con_type).
Definition get_http_request_user_agent (req : mem) : option (HttpUserAgent * mem) :=
  val ← HttpTools.get_http_header_line req (text "User-Agent:");
  Some (AGENT_UKNOWN, val).
End HttpRequest.

Module HttpResponse.
Definition get_http_version (req : mem) : option (HttpVersion * mem) :=
  ver ← HttpTools.get_http_header_block req (text "HTTP/");
  Some (HttpTools.get_http_version_by_string ver, ver).
(** [npos + 1] is 0, and [end - start] wraps around. *)
Definition get_http_response_status (req : mem) : option (HttpResponseStatus * mem) :=
  let start := u64 (sv_find req (text " ") 0 + 1) in
  let end_ := sv_find req (text " ") start in
  let size := u64 (end_ - start) in
  status ← substr req start size;
  Some (HttpTools.get_http_status_by_string status, status).
Definition get_http_response_content_type (req : mem) : option (HttpContentType * mem) :=
  ctype_line ← HttpTools.get_http_header_line req (text "Content-Type:");
  let ctype_end := sv_find ctype_line (text ";") 0 in
  val ← substr ctype_line 0 ctype_end;
  Some (HttpTools.get_http_content_type_by_string val, val).
Definition get_http_response_charset (req : mem) : option (QVPNCharset * mem) :=
  charset ← HttpTools.get_http_header_line req (text "charset=");
  Some (HttpTools.get_http_charset_by_string charset, charset).
Definition get_http_response_content_length (req : mem) : option Z :=
  length ← HttpTools.get_http_header_line req (text "Content-Length:");
  v ← stoi (string_of length);
  Some (u32 v).
Definition get_http_response_server (req : mem) : option mem :=
  HttpTools.get_http_header_line req (text "Server:").
End HttpResponse.

Module Http1PacketRequestLittleEndian.
Definition to_string_view (data_ : mem) : mem := data_.
Definition get_http_request (data_ : mem) : mem := data_.
Definition get_http_request_header_bytes (data_ : mem) : option (Z * Z) :=
  pos ← HttpTools.find_http_header_end data_ 0 (msize data_); Some (0, pos).
Definition get_http_request_header (data_ : mem) : option mem :=
  '(b, e) ← get_http_request_header_bytes data_; range data_ 0 (e - b).
Definition get_http_request_body (data_ : mem) : option mem :=
  '(b, e) ← get_http_request_header_bytes data_;
  let start := e - b in
  let size := msize data_ - e in
  range data_ start (start + size).
(** The search runs over an empty range. *)
Definition get_http_request_body_bytes (data_ : mem) : option (Z * Z) :=
  pos ← HttpTools.find_http_header_end data_ 0 0; Some (pos, 0).
Definition get_http_version (data_ : mem) : option (HttpVersion * mem) := HttpRequest.get_http_version (to_string_view data_).
Definition get_http_request_type (data_ : mem) : option (HttpRequestType * mem) := HttpRequest.get_http_request_type (to_string_view data_).
Definition get_http_request_host (data_ : mem) : option mem := HttpRequest.get_http_request_host (to_string_view data_).
Definition get_http_request_connection_type (data_ : mem) : option (HttpConnectionType * mem) := HttpRequest.get_http_request_connection_type (to_string_view data_).
Definition get_http_request_user_agent (data_ : mem) : option (HttpUserAgent * mem) := HttpRequest.get_http_request_user_agent (to_string_view data_).
Definition to_bytes (data_ : mem) : Z * Z := (0, 0).
End Http1PacketRequestLittleEndian.

Module Http1PacketRequestView.
Record t := mk { data_ : Z; data_size_ : Z }.
Definition to_string_view (m : mem) (v : t) : option mem := range m (data_ v) (data_ v + data_size_ v).
Definition get_http_request (m : mem) (v : t) : option mem := range m (data_ v) (data_ v + data_size_ v).
Definition get_http_request_header_bytes (m : mem) (v : t) : option (Z * Z) :=
  pos ← HttpTools.find_http_header_end m (data_ v) (data_ v + data_size_ v);
  Some (data_ v, data_ v + pos).
Definition get_http_request_header (m : mem) (v : t) : option mem :=
  '(b, e) ← get_http_request_header_bytes m v; range m (data_ v) (data_ v + (e - b)).
Definition get_http_request_body (m : mem) (v : t) : option mem :=
  '(b, e) ← get_http_request_header_bytes m v;
  let start := e - b in
  let size := data_ v + data_size_ v - e in
  range m (data_ v + start) (data_ v + start + size).
Definition get_http_request_body_bytes (m : mem) (v : t) : option (Z * Z) :=
  pos ← HttpTools.find_http_header_end m (data_ v) (data_ v + data_size_ v);
  Some (data_ v + pos, data_ v + data_size_ v).
Definition get_http_version (m : mem) (v : t) : option (HttpVersion * mem) :=
  req ← to_string_view m v; HttpRequest.get_http_version req.
Definition get_http_request_type (m : mem) (v : t) : option (HttpRequestType * mem) :=
  req ← to_string_view m v; HttpRequest.get_http_request_type req.
Definition get_http_request_host (m : mem) (v : t) : option mem :=
  req ← to_string_view m v; HttpRequest.get_http_request_host req.
Definition get_http_request_connection_type (m : mem) (v : t) : option (HttpConnectionType * mem) :=
  req ← to_string_view m v; HttpRequest.get_http_request_connection_type req.
Definition get_http_request_user_agent (m : mem) (v : t) : option (HttpUserAgent * mem) :=
  req ← to_string_view m v; HttpRequest.get_http_request_user_agent req.
Definition to_bytes (v : t) : Z * Z := (data_ v, data_ v + data_size_ v).
End Http1PacketRequestView.

Module Http1PacketResponseLittleEndian.
Definition to_string_view (data_ : mem) : mem := data_.
Definition get_http_response (data_ : mem) : mem := data_.
Definition get_http_response_header_bytes (data_ : mem) : option (Z * Z) :=
  pos ← HttpTools.find_http_header_end data_ 0 (msize data_); Some (0, pos).
Definition get_http_response_header (data_ : mem) : option mem :=
  '(b, e) ← get_http_response_header_bytes data_; range data_ 0 (e - b).
Definition get_http_response_body (data_ : mem) : option mem :=
  '(b, e) ← get_http_response_header_bytes data_;
  let start := e - b in
  let size := msize data_ - e in
  range data_ start (start + size).
Definition get_http_response_body_bytes (data_ : mem) : option (Z * Z) :=
  pos ← HttpTools.find_http_header_end data_ 0 (msize data_); Some (pos, msize data_).
Definition get_http_version (data_ : mem) : option (HttpVersion * mem) := HttpResponse.get_http_version (to_string_view data_).
Definition get_http_response_status (data_ : mem) : option (HttpResponseStatus * mem) := HttpResponse.get_http_response_status (to_string_view data_).
Definition get_http_response_content_type (data_ : mem) : option (HttpContentType * mem) := HttpResponse.get_http_response_content_type (to_string_view data_).
Definition get_http_response_charset (data_ : mem) : option (QVPNCharset * mem) := HttpResponse.get_http_response_charset (to_string_view data_).
Definition get_http_response_content_length (data_ : mem) : option Z := HttpResponse.get_http_response_content_length (to_string_view data_).
Definition get_http_response_server (data_ : mem) : option mem := HttpResponse.get_http_response_server (to_string_view data_).
Definition to_bytes (data_ : mem) : Z * Z := (0, msize data_).
End Http1PacketResponseLittleEndian.

Module Http1PacketResponseView.
Record t := mk { data_ : Z; data_size_ : Z }.
Definition to_string_view (m : mem) (v : t) : option mem := range m (data_ v) (data_ v + data_size_ v).
Definition get_http_response (m : mem) (v : t) : option mem := range m (data_ v) (data_ v + data_size_ v).
Definition get_http_response_header_bytes (m : mem) (v : t) : option (Z * Z) :=
  pos ← HttpTools.find_http_header_end m (data_ v) (data_ v + data_size_ v);
  Some (data_ v, data_ v + pos).
Definition get_http_response_header (m : mem) (v : t) : option mem :=
  '(b, e) ← get_http_response_header_bytes m v; range m (data_ v) (data_ v + (e - b)).
Definition get_http_response_body (m : mem) (v : t) : option mem :=
  '(b, e) ← get_http_response_header_bytes m v;
  let start := e - b in
  let size := data_ v + data_size_ v - e in
  range m (data_ v + start) (data_ v + start + size).
Definition get_http_response_body_bytes (m : mem) (v : t) : option (Z * Z) :=
  pos ← HttpTools.find_http_header_end m (data_ v) (data_ v + data_size_ v);
  Some (data_ v + pos, data_ v + data_size_ v).
Definition get_http_version (m : mem) (v : t) : option (HttpVersion * mem) :=
  req ← to_string_view m v; HttpResponse.get_http_version req.
Definition get_http_response_status (m : mem) (v : t) : option (HttpResponseStatus * mem) :=
  req ← to_string_view m v; HttpResponse.get_http_response_status req.
Definition get_http_response_content_type (m : mem) (v : t) : option (HttpContentType * mem) :=
  req ← to_string_view m v; HttpResponse.get_http_response_content_type req.
Definition get_http_response_charset (m : mem) (v : t) : option (QVPNCharset * mem) :=
  req ← to_string_view m v; HttpResponse.get_http_response_charset req.
Definition get_http_response_content_length (m : mem) (v : t) : option Z :=
  req ← to_string_view m v; HttpResponse.get_http_response_content_length req.
Definition get_http_response_server (m : mem) (v : t) : option mem :=
  req ← to_string_view m v; HttpResponse.get_http_response_server req.
Definition to_bytes (v : t) : Z * Z := (data_ v, data_ v + data_size_ v).
End Http1PacketResponseView.

(** * The end of the header is never found *)

(** The last end has two different characters, so no byte equals all of them. *)
Lemma header_turn_false c a : HttpTools.header_turn c a = false.
Proof.
  unfold HttpTools.header_turn. cbn [HttpTools.http_header_ends fold_left].
  unfold HttpTools.accepts. cbn [forallb].
  destruct (Z.eqb_spec 13 c), (Z.eqb_spec 10 c); try done. lia.
Qed.

Lemma header_end_zero m b e l :
  range m b e = Some l -> 2 <= e - b -> e - b < 2 ^ 64 -> HttpTools.find_http_header_end m b e = Some 0.
Proof.
  intros Hr Hn Hlt. pose proof (range_order _ _ _ _ Hr) as [Hb He].
  unfold HttpTools.find_http_header_end.
  assert (Hu : u64 (e - b - 2) = e - b - 2) by (unfold u64; rewrite Z.mod_small; lia).
  rewrite Hu.
  match goal with |- context [for_loop ?f ?i ?n ?st ?body ?s0] =>
    destruct (for_loop_total (fun _ x => x = (false, 0)) f i n st body s0) as (j & s' & Hf & _ & _ & ->)
  end.
  - lia.
  - unfold msize in *. lia.
  - done.
  - intros j s Hj ->. destruct (load_is_Some m (b + j)) as [c Hc]; [lia|]. rewrite Hc.
    cbn [mbind option_bind]. rewrite header_turn_false. eauto.
  - by rewrite Hf.
Qed.

(** Below two bytes the bound wraps around and the loop runs out of the buffer. *)
Lemma header_end_short m b e :
  0 <= e - b < 2 -> 0 <= b -> msize m < 2 ^ 62 -> HttpTools.find_http_header_end m b e = None.
Proof.
  intros Hn Hb Hm. unfold HttpTools.find_http_header_end, for_loop.
  assert (Hu : 2 ^ 64 - 2 <= u64 (e - b - 2)).
  { assert (e - b = 0 \/ e - b = 1) as [->| ->] by lia; vm_compute; discriminate. }
  match goal with |- context [while_loop _ ?c ?body _] =>
    assert (H : forall fuel i st, 0 <= i -> msize m - i <= Z.of_nat fuel < 2 ^ 63 -> i <= msize m ->
      while_loop fuel c body (i, st) = None) end.
  { induction fuel as [|fuel IH]; intros i [a p] Hi Hf Him; cbn [while_loop fst];
      destruct (Z.ltb_spec i (u64 (e - b - 2))); try lia; [done|].
    cbn [snd]. destruct (load m (b + i)) as [c|] eqn:Hc; [|done]. cbn [mbind option_bind].
    apply load_Some in Hc. apply IH; lia. }
  rewrite H; [done|lia|unfold msize in *; lia|unfold msize; lia].
Qed.

(** No message is ever split.  Whatever a message of at least two bytes contains, the header
    that both views and both objects report is empty, and its body is the whole message. *)
Theorem http_header_never_found m b n l :
  range m b (b + n) = Some l -> 2 <= n < 4294967296 ->
  Http1PacketRequestView.get_http_request_header m (Http1PacketRequestView.mk b n) = Some [] /\
  Http1PacketRequestView.get_http_request_body m (Http1PacketRequestView.mk b n) = Some l /\
  Http1PacketResponseView.get_http_response_header m (Http1PacketResponseView.mk b n) = Some [] /\
  Http1PacketResponseView.get_http_response_body m (Http1PacketResponseView.mk b n) = Some l /\
  Http1PacketRequestLittleEndian.get_http_request_header l = Some [] /\
  Http1PacketRequestLittleEndian.get_http_request_body l = Some l /\
  Http1PacketResponseLittleEndian.get_http_response_header l = Some [] /\
  Http1PacketResponseLittleEndian.get_http_response_body l = Some l.
Proof.
  intros Hr Hn. pose proof (range_order _ _ _ _ Hr) as [Hb He].
  destruct (range_Some _ _ _ _ Hr) as (_ & _ & Hl & _).
  assert (Hz : HttpTools.find_http_header_end m b (b + n) = Some 0) by (apply (header_end_zero _ _ _ l); lia || done).
  assert (Hz' : HttpTools.find_http_header_end l 0 (msize l) = Some 0)
    by (apply (header_end_zero _ _ _ l); [apply range_full|lia|lia]).
  assert (Hnil : forall m p, 0 <= p <= msize m -> range m p p = Some []).
  { clear. intros m p Hp. unfold range. rewrite decide_True by lia. by rewrite Z.sub_diag. }
  unfold Http1PacketRequestView.get_http_request_header, Http1PacketRequestView.get_http_request_body,
    Http1PacketRequestView.get_http_request_header_bytes, Http1PacketResponseView.get_http_response_header,
    Http1PacketResponseView.get_http_response_body, Http1PacketResponseView.get_http_response_header_bytes,
    Http1PacketRequestLittleEndian.get_http_request_header, Http1PacketRequestLittleEndian.get_http_request_body,
    Http1PacketRequestLittleEndian.get_http_request_header_bytes,
    Http1PacketResponseLittleEndian.get_http_response_header, Http1PacketResponseLittleEndian.get_http_response_body,
    Http1PacketResponseLittleEndian.get_http_response_header_bytes.
  cbn [Http1PacketRequestView.data_ Http1PacketRequestView.data_size_ Http1PacketResponseView.data_
    Http1PacketResponseView.data_size_]. rewrite Hz, Hz'. cbn [mbind option_bind].
  replace (b + 0 - b) with 0 by lia. replace (b + 0) with b by lia.
  replace (b + n - b) with n by lia. replace (0 - 0) with 0 by lia. replace (msize l - 0) with (msize l) by lia.
  replace (0 + msize l) with (msize l) by lia. rewrite Hr, !Hnil, range_full by lia. done.
Qed.

(** * Looking up a header *)

Lemma starts_with_app eqb s t r : starts_with eqb s t = true -> starts_with eqb (s ++ r) t = true.
Proof.
  revert s. induction t as [|b t IH]; intros [|a s]; [by destruct r|done|done|].
  cbn [starts_with app]. intros [-> Hs]%andb_true_iff. by rewrite (IH _ Hs).
Qed.

(** The first match of [templ] is behind [pre]. *)
Lemma search_first eqb pre src templ :
  starts_with eqb src templ = true ->
  (forall j, (j < length pre)%nat -> starts_with eqb (drop j (pre ++ src)) templ = false) ->
  search eqb (pre ++ src) templ = msize pre.
Proof.
  intros Hs. induction pre as [|a pre IH]; intros Hj.
  - cbn [app]. destruct src; cbn [search]; by rewrite Hs.
  - pose proof (Hj 0%nat ltac:(simpl; lia)) as H0. cbn [app drop] in H0. cbn [app search]. rewrite H0.
    rewrite IH; [by rewrite msize_cons|]. intros j Hlt. apply (Hj (S j)). simpl. lia.
Qed.

Lemma search_none eqb src templ :
  (forall j, starts_with eqb (drop j src) templ = false) -> search eqb src templ = msize src.
Proof.
  induction src as [|a src IH]; intros Hj; pose proof (Hj 0%nat) as H0; cbn [drop] in H0;
    cbn [search]; rewrite H0.
  - done.
  - rewrite msize_cons, IH; [done|]. intros j. apply (Hj (S j)).
Qed.

(** A line ends at the first carriage return that a line feed follows. *)
Lemma no_crlf l rest j :
  13 ∉ l -> (j < length l)%nat -> starts_with Z.eqb (drop j (l ++ 13 :: 10 :: rest)) [13; 10] = false.
Proof.
  intros Hl Hj. rewrite drop_app_le by lia.
  destruct (drop j l) as [|a r] eqn:E.
  { apply (f_equal length) in E. rewrite length_drop in E. simpl in E. lia. }
  cbn [app starts_with]. destruct (Z.eqb_spec a 13) as [->|]; [|done].
  exfalso. apply Hl. rewrite <- (take_drop j l), E. set_solver.
Qed.

Lemma find_crlf pre l rest :
  13 ∉ l -> sv_find (pre ++ l ++ 13 :: 10 :: rest) [13; 10] (msize pre) = msize pre + msize l.
Proof.
  intros Hl. unfold sv_find. pose proof (msize_nonneg (l ++ 13 :: 10 :: rest)).
  destruct (Z.ltb_spec (msize (pre ++ l ++ 13 :: 10 :: rest)) (msize pre)) as [Hlt|_]; [rewrite msize_app in Hlt; lia|].
  replace (drop (Z.to_nat (msize pre)) (pre ++ l ++ 13 :: 10 :: rest)) with (l ++ 13 :: 10 :: rest).
  2:{ unfold msize. by rewrite Nat2Z.id, drop_app_length. }
  rewrite search_first; [|done|by intros; apply no_crlf].
  replace (drop (Z.to_nat (msize l)) (l ++ 13 :: 10 :: rest)) with (13 :: 10 :: rest); [done|].
  unfold msize. by rewrite Nat2Z.id, drop_app_length.
Qed.

(** looking up a header.  When the first match of [name], in whatever case, is followed by
    [value] and the end of the line, the answer is the value and then, because the end of the
    line is taken for the length, as many bytes behind it as lie before it: the line end and the
    headers that follow.  When [name] does not occur, the lookup throws. *)
Theorem http_header_line (name : mem) :
  (forall pre name' value rest,
     starts_with HttpTools.case_free_compare name' name = true -> length name' = length name ->
     let data := pre ++ name' ++ value ++ [13; 10] ++ rest in
     (forall j, (j < length pre)%nat ->
        starts_with HttpTools.case_free_compare (drop j data) name = false) ->
     13 ∉ name' ++ value ->
     HttpTools.get_http_header_line data name =
       Some (value ++ take (length pre + length name) ([13; 10] ++ rest))) /\
  (forall data, 0 < msize name ->
     (forall j, starts_with HttpTools.case_free_compare (drop j data) name = false) ->
     HttpTools.get_http_header_line data name = None).
Proof.
  split.
  - intros pre name' value rest Hname Hlen data Hj Hcr. unfold HttpTools.get_http_header_line.
    assert (Hstart : HttpTools.case_free_search data name = msize pre).
    { apply search_first; [by apply starts_with_app|done]. }
    rewrite Hstart.
    assert (Hd : data = pre ++ (name' ++ value) ++ 13 :: 10 :: rest) by (unfold data; by rewrite <- app_assoc).
    rewrite Hd at 2. rewrite find_crlf by done.
    assert (Hm : msize name = msize name') by (unfold msize; by rewrite Hlen).
    rewrite Hm. unfold substr. rewrite Hd.
    pose proof (msize_nonneg rest). pose proof (msize_nonneg value).
    destruct (Z.ltb_spec (msize (pre ++ (name' ++ value) ++ 13 :: 10 :: rest)) (msize pre + msize name')) as [H'|_].
    { rewrite !msize_app, !msize_cons in H'. lia. }
    f_equal. replace (drop (Z.to_nat (msize pre + msize name')) _) with (value ++ 13 :: 10 :: rest).
    2:{ rewrite <- (app_assoc name'), (app_assoc pre). unfold msize.
        replace (Z.to_nat _) with (length (pre ++ name')) by (rewrite length_app; lia).
        by rewrite drop_app_length. }
    rewrite take_app. f_equal.
    + apply take_ge. rewrite !msize_app, !msize_cons. unfold msize. lia.
    + rewrite !msize_app, !msize_cons. unfold msize in *.
      destruct (decide (length pre + length name' <= length (13%Z :: 10%Z :: rest))%nat) as [Hle|Hgt].
      * f_equal. simpl in Hle. lia.
      * rewrite !take_ge; [done|simpl in *; lia|simpl in *; lia].
  - intros data Hn Hj. unfold HttpTools.get_http_header_line, HttpTools.case_free_search.
    rewrite search_none by done. unfold substr.
    destruct (Z.ltb_spec (msize data) (msize data + msize name)); [done|lia].
Qed.

Lemma http_header_never_found_witness :
  Http1PacketRequestView.get_http_request_header (text "GET / HTTP/1.1" ++ [13; 10; 13; 10; 98])
    (Http1PacketRequestView.mk 0 19) = Some [] /\
  Http1PacketRequestView.get_http_request_body (text "GET / HTTP/1.1" ++ [13; 10; 13; 10; 98])
    (Http1PacketRequestView.mk 0 19) = Some (text "GET / HTTP/1.1" ++ [13; 10; 13; 10; 98]).
Proof.
  destruct (http_header_never_found (text "GET / HTTP/1.1" ++ [13; 10; 13; 10; 98]) 0 19
    (text "GET / HTTP/1.1" ++ [13; 10; 13; 10; 98])) as (H1 & H2 & _); [reflexivity|lia|].
  split; [exact H1|exact H2].
Defined.

(** The request line, the host and the end of the header: the value of the host drags the empty
    line behind it along, and there is no agent. *)
Definition example_request : mem :=
  text "GET / HTTP/1.1" ++ [13; 10] ++ text "host:" ++ text " a" ++ [13; 10] ++ [13; 10].

Lemma http_header_line_witness :
  HttpTools.get_http_header_line example_request (text "Host:") = Some (text " a" ++ [13; 10; 13; 10]) /\
  HttpTools.get_http_header_line example_request (text "Server:") = None.
Proof.
  split.
  - apply (proj1 (http_header_line (text "Host:")) (text "GET / HTTP/1.1" ++ [13; 10]) (text "host:")
      (text " a") [13; 10]); [reflexivity|reflexivity| |concrete].
    intros j Hj. do 16 (destruct j as [|j]; [reflexivity|]). exfalso. revert Hj. vm_compute. lia.
  - apply (proj2 (http_header_line (text "Server:"))); [reflexivity|].
    intros j. do 27 (destruct j as [|j]; [reflexivity|]). destruct j; reflexivity.
Defined.

(** The names of the connection types are kept in lower case and looked up in upper case: no
    message has a known one. *)
Lemma connection_type_unknown (con : mem) ty :
  HttpTools.get_http_connection_type_by_string con = Some ty -> ty = CONNECTION_UNKNOWN.
Proof.
  assert (Hup : forall m u, HttpTools.str_to_upper m = Some u -> Forall (fun c => ~ (97 <= c <= 122)) u).
  { induction m as [|c m IH]; cbn [HttpTools.str_to_upper]; intros u.
    - intros [= <-]. constructor.
    - intros (c' & Hc & (m' & Hm & [= <-])%bind_Some)%bind_Some. constructor; [|by apply IH].
      unfold HttpTools.toupper in Hc. destruct (c <? 128); [|done]. injection Hc as <-.
      destruct (Z.leb_spec 97 c), (Z.leb_spec c 122); cbn [andb]; lia. }
  unfold HttpTools.get_http_connection_type_by_string. intros (u & Hu & [= <-])%bind_Some.
  apply Hup in Hu. unfold table_at. destruct (list_find _ _) as [[i e]|] eqn:Hf; [|done].
  apply list_find_Some in Hf as (Hi & Hk & _). exfalso.
  destruct i as [|[|i]]; [| |done]; injection Hi as <-; cbn [fst] in Hk; subst u;
    inversion Hu as [|? ? H1 _]; apply H1; vm_compute; split; discriminate.
Qed.

(** "403" is not FORBIDDEN. *)
Lemma status_403 :
  HttpTools.get_http_status_by_string (text "403") = NOT_MODIFIED /\
  HttpTools.get_http_status_by_string (text "304") = STATUS_UNKNOWN.
Proof. split; reflexivity. Qed.
