(* ===== verification/Transport.v ===== *)
(** What the transport layers share: [TcpFlagsObject] (qvpn_lib.cpp), the texts of
    [QVPNVerboser::tcp_flags] and [ipv4_flags], and
    [TransportIpv4PseudoHeader] (qvpn_structures.cpp). *)
From S2P Require Import Prelude Checksum Addr.

(** * Flags: nine bits, FIN lowest *)
Module TcpFlagsObject.

Definition of_short (flags : Z) : Z := flags.
Definition make (ns cwr ecn urg ack psh rst syn fin : Z) : Z :=
  u16 (Z.lor (Z.lor (Z.lor (Z.lor (Z.lor (Z.lor (Z.lor (Z.lor
    (Z.shiftl ns 8) (Z.shiftl cwr 7)) (Z.shiftl ecn 6)) (Z.shiftl urg 5)) (Z.shiftl ack 4))
    (Z.shiftl psh 3)) (Z.shiftl rst 2)) (Z.shiftl syn 1)) fin).
Definition get_ns (flags_ : Z) : Z := Z.land (Z.shiftr flags_ 8) 1.
Definition get_cwr (flags_ : Z) : Z := Z.land (Z.shiftr flags_ 7) 1.
Definition get_ecn (flags_ : Z) : Z := Z.land (Z.shiftr flags_ 6) 1.
Definition get_urg (flags_ : Z) : Z := Z.land (Z.shiftr flags_ 5) 1.
Definition get_ack (flags_ : Z) : Z := Z.land (Z.shiftr flags_ 4) 1.
Definition get_psh (flags_ : Z) : Z := Z.land (Z.shiftr flags_ 3) 1.
Definition get_rst (flags_ : Z) : Z := Z.land (Z.shiftr flags_ 2) 1.
Definition get_syn (flags_ : Z) : Z := Z.land (Z.shiftr flags_ 1) 1.
Definition get_fin (flags_ : Z) : Z := Z.land flags_ 1.
Definition get_without_ns (flags_ : Z) : Z := Z.land flags_ 255.
Definition to_short (flags_ : Z) : Z := flags_.
Definition index (flags_ : Z) (i : Z) : Z := u8 (Z.land (Z.shiftr flags_ i) 1).

End TcpFlagsObject.

Module QVPNVerboser.

Definition tcp_flags_ : list string :=
  ["FIN"; "SYN"; "RST"; "PSH"; "ACK"; "URG"; "ECE"; "CWR"; "NS"]%string.
Definition ipv4_flags_ : list string := ["RESERVED"; "DF"; "MF"]%string.

(** The loop appends the name of every set flag and a blank. *)
Fixpoint flag_words (names : list string) (i : Z) (flag : Z -> Z) (flags_data : string) : string :=
  match names with
  | [] => flags_data
  | w :: names' =>
      flag_words names' (i + 1) flag
        (if (flag i =? 0)%Z then flags_data else flags_data +:+ w +:+ " ")%string
  end.

(** [pop_back] and the closing bracket, only when something was appended. *)
Definition close (flags_data : string) : string :=
  if Nat.leb 2 (String.length flags_data)
  then (String.substring 0 (String.length flags_data - 1) flags_data +:+ "]")%string
  else flags_data.

Definition tcp_flags (flags : Z) : string :=
  close (flag_words tcp_flags_ 0 (TcpFlagsObject.index flags) "[").

Definition ipv4_flags (flags : Z) : string :=
  close (flag_words ipv4_flags_ 0 (fun i => Z.land (Z.shiftr flags i) 1) "[").

(** The tables of names, which [register_transport_verbose], [register_tcp_option] and
    [register_addr_verbose] change.  [operator[]] on a missing key gives the empty name. *)
Record tables := mk_tables {
  transport_verbose_ : gmap Z string;
  tcp_options_ : gmap Z string;
  verb_addrs_ : gmap (list Z) (string * string) }.

Definition transport_verbose (T : tables) (transport : Z) : string :=
  default EmptyString (transport_verbose_ T !! transport).
Definition register_transport_verbose (T : tables) (transport : Z) (verbose : string) : tables :=
  mk_tables (<[transport := verbose]> (transport_verbose_ T)) (tcp_options_ T) (verb_addrs_ T).
Definition tcp_option (T : tables) (option : Z) : string :=
  default EmptyString (tcp_options_ T !! option).
Definition register_tcp_option (T : tables) (option : Z) (verbose : string) : tables :=
  mk_tables (transport_verbose_ T) (<[option := verbose]> (tcp_options_ T)) (verb_addrs_ T).

(** The tables at the start.  The comment of option 6 is in the code page 1251. *)
Fixpoint cp1251 (l : mem) : string :=
  match l with [] => EmptyString | c :: l => String (Ascii.ascii_of_N (Z.to_N c)) (cp1251 l) end.
Definition initial_tcp_options : gmap Z string :=
  list_to_map [
    (0, "End of Option List"%string);
    (1, "No-Operation"%string);
    (2, "Maximum Segment Size"%string);
    (3, "Window Scale"%string);
    (4, "SACK-Permitted"%string);
    (5, "Selective ACK"%string);
    (8, "Timestamps"%string);
    (6, ("Echo (" +:+ cp1251 ([243; 241; 242; 224; 240; 229; 235; 238])%Z +:+ ", RFC 1072)")%string);
    (7, "Echo Reply (RFC 1072)"%string);
    (11, "Connection Count (RFC 1644)"%string);
    (12, "CC.NEW (RFC 1644)"%string);
    (13, "CC.ECHO (RFC 1644)"%string);
    (14, "Alternate Checksum Request (RFC 1146)"%string);
    (15, "Alternate Checksum Data (RFC 1146)"%string);
    (16, "Skeeter"%string);
    (17, "Bubba"%string);
    (18, "Trailer Checksum"%string);
    (19, "MD5 Signature"%string);
    (28, "TCP Authentication Option"%string);
    (9, "Partial Order Connection Permitted (RFC 1693)"%string);
    (10, "Partial Order Service Profile (RFC 1693)"%string);
    (20, "SCPS Capabilities"%string);
    (21, "Selective Negative ACKs"%string);
    (22, "Record Boundaries"%string);
    (23, "Corruption Experienced"%string);
    (24, "SNAP"%string);
    (25, "TCP Compression Filter"%string);
    (26, "Quick-Start Response"%string);
    (27, "User Timeout Option"%string);
    (29, "Multipath TCP"%string);
    (34, "TCP Fast Open"%string);
    (253, "Experimental (RFC 4727)"%string);
    (254, "Experimental (RFC 4727)"%string)].
Definition initial_tables : tables :=
  mk_tables (list_to_map [(6, "TCP"%string); (17, "UDP"%string)]) initial_tcp_options ∅.

(** [CmdColorizer::BOLD], [ENDC] and [DEFAULT]. *)
Definition escape : string := String (Ascii.ascii_of_nat 27) EmptyString.
Definition BOLD : string := (escape +:+ "[1m")%string.
Definition ENDC : string := (escape +:+ "[0m")%string.
Definition DEFAULT : string := (escape +:+ "[0m")%string.

Definition register_addr_verbose (T : tables) (addr : list Z) (verbose cmd_color : string) : tables :=
  mk_tables (transport_verbose_ T) (tcp_options_ T) (<[addr := (verbose, cmd_color)]> (verb_addrs_ T)).
Definition addr_verbose (T : tables) (addr : list Z) : string :=
  match verb_addrs_ T !! addr with
  | None => NetAddr.to_string addr
  | Some (verbose, color) =>
      (color +:+ NetAddr.to_string addr +:+ " [" +:+ BOLD +:+ verbose +:+ "]" +:+ ENDC +:+ DEFAULT)%string
  end.

End QVPNVerboser.

(** * The pseudo-header: an array of 12 bytes, all zero before the constructor's body *)
Module TransportIpv4PseudoHeader.

Definition zero : mem := [0; 0; 0; 0; 0; 0; 0; 0; 0; 0; 0; 0].

Definition of_uints (src dst protocol length : Z) : mem :=
  [octet 3 src; octet 2 src; octet 1 src; octet 0 src;
   octet 3 dst; octet 2 dst; octet 1 dst; octet 0 dst;
   0; protocol; octet 1 length; octet 0 length].

Definition of_addrs (src dst : list Z) (protocol length : Z) : option mem :=
  let src_b := IPv4Address.to_bytes src in
  let dst_b := IPv4Address.to_bytes dst in
  data ← blit zero 0 src_b;
  data ← blit data (msize src_b) dst_b;
  data ← store data 9 protocol;
  data ← store data 11 (octet 0 length);
  store data 10 (octet 1 length).

Definition get_by_bytes (data : mem) : Z * Z := (0, msize data).

(** [memcpy] into native little-endian integers. *)
Definition get_by_types (data : mem) : option (Z * Z * Z * Z * Z) :=
  s0 ← load data 0; s1 ← load data 1; s2 ← load data 2; s3 ← load data 3;
  d0 ← load data 4; d1 ← load data 5; d2 ← load data 6; d3 ← load data 7;
  protocol ← load data 9; l0 ← load data 10; l1 ← load data 11;
  Some (cat32 s3 s2 s1 s0, cat32 d3 d2 d1 d0, 0, protocol, cat16 l1 l0).

End TransportIpv4PseudoHeader.

(** * Flag bits *)

Lemma land1_bit x k : 0 <= k -> Z.land (Z.shiftr x k) 1 = Z.b2z (Z.testbit x k).
Proof.
  intros Hk. change 1 with (Z.ones 1). rewrite Z.land_ones by lia. change (2 ^ 1) with 2.
  by rewrite <- Z.bit0_mod, Z.shiftr_spec, Z.add_0_l by lia.
Qed.

(** The getters of the flags, FIN first. *)
Definition flag_getters : list (Z -> Z) :=
  [TcpFlagsObject.get_fin; TcpFlagsObject.get_syn; TcpFlagsObject.get_rst;
   TcpFlagsObject.get_psh; TcpFlagsObject.get_ack; TcpFlagsObject.get_urg;
   TcpFlagsObject.get_ecn; TcpFlagsObject.get_cwr; TcpFlagsObject.get_ns].



(** the nine-flag constructor of [TcpFlagsObject] and its getters are inverse:
    each getter returns the bit that was passed for its flag, [operator[]] numbers
    the flags from FIN to NS, and [get_without_ns] keeps the low eight. *)
Theorem tcp_flags_roundtrip ns cwr ecn urg ack psh rst syn fin :
  let flags := TcpFlagsObject.make (Z.b2z ns) (Z.b2z cwr) (Z.b2z ecn) (Z.b2z urg) (Z.b2z ack)
                 (Z.b2z psh) (Z.b2z rst) (Z.b2z syn) (Z.b2z fin) in
  let bits := Z.b2z <$> [fin; syn; rst; psh; ack; urg; ecn; cwr; ns] in
  ((fun g => g flags) <$> flag_getters) = bits /\
  (TcpFlagsObject.index flags <$> [0; 1; 2; 3; 4; 5; 6; 7; 8]) = bits /\
  flags = TcpFlagsObject.get_without_ns flags + 256 * Z.b2z ns.
Proof.
  destruct ns, cwr, ecn, urg, ack, psh, rst, syn, fin; vm_compute; done.
Qed.

(** The pseudo-header of two IPv4 addresses: addresses, zero, protocol, length. *)
Lemma pseudo_of_addrs src dst protocol length :
  msize src = 4 -> msize dst = 4 ->
  TransportIpv4PseudoHeader.of_addrs src dst protocol length =
  Some (src ++ dst ++ [0; protocol; octet 1 length; octet 0 length]).
Proof.
  intros Hs Hd. destruct (list4 src Hs) as (a & b & c & d & ->).
  destruct (list4 dst Hd) as (a' & b' & c' & d' & ->). done.
Qed.

Lemma pseudo_wf src dst protocol length :
  bytes src -> bytes dst -> msize src = 4 -> msize dst = 4 -> is_u8 protocol ->
  let ph := src ++ dst ++ [0; protocol; octet 1 length; octet 0 length] in
  bytes ph /\ msize ph = 12.
Proof.
  intros Hs Hd Ls Ld Hp ph. subst ph. split.
  - byte_list.
  - rewrite !msize_app, Ls, Ld. done.
Qed.

(** the two constructors of the pseudo-header agree: building it from the
    addresses or from their 32-bit values gives the same 12 bytes. *)
Theorem pseudo_header_constructors src dst protocol length s d :
  bytes src -> bytes dst -> msize src = 4 -> msize dst = 4 ->
  IPv4Address.to_uint src = Some s -> IPv4Address.to_uint dst = Some d ->
  TransportIpv4PseudoHeader.of_addrs src dst protocol length =
  Some (TransportIpv4PseudoHeader.of_uints s d protocol length).
Proof.
  intros Hs Hd Ls Ld Us Ud. rewrite pseudo_of_addrs by done.
  assert (E : forall l v, bytes l -> msize l = 4 -> IPv4Address.to_uint l = Some v ->
    l = [octet 3 v; octet 2 v; octet 1 v; octet 0 v]).
  { intros l v Hl Ll Hv. destruct (list4 l Ll) as (x & y & z & w & ->).
    injection Hv as <-. apply Forall_cons in Hl as [? [? [? [? _]%Forall_cons]%Forall_cons]%Forall_cons].
    rewrite cat32_spec by done. rewrite octet0, octet1, octet2, octet3.
    unfold is_u8 in *. repeat f_equal; Z.div_mod_to_equations; lia. }
  rewrite (E src s), (E dst d) by done. done.
Qed.

Lemma pseudo_header_constructors_witness :
  TransportIpv4PseudoHeader.of_addrs [10; 0; 0; 1] [8; 8; 4; 4] 6 40 =
  Some (TransportIpv4PseudoHeader.of_uints 167772161 134743044 6 40).
Proof.
  apply (pseudo_header_constructors [10; 0; 0; 1] [8; 8; 4; 4] 6 40 167772161 134743044);
    [concrete|concrete|reflexivity|reflexivity|reflexivity|reflexivity].
Defined.
