(* ===== verification/TcpOptions.v ===== *)
(** The options of a TCP header: [TcpOptionObject], [TcpOptionView], [TcpOptionsObject] and
    [TcpOptionsView] (src/QVPN/QVPN Lib/src/qvpn_structures.cpp).

    The loop that prints the options steps from one to the next by the length byte of
    each.  A run of it ends with the text, reads outside the buffer, or is still running:
    the outcome says which, and the theorems say when each is the case. *)
From S2P Require Import Prelude Addr Transport.

Definition TCP_EOL : Z := 0.
Definition TCP_NOP : Z := 1.

(** [kind == TCP_EOL || kind == TCP_NOP]. *)
Definition one_byte (kind : Z) : bool := (kind =? TCP_EOL) || (kind =? TCP_NOP).

(** The text of one option; [os << data_[1]] prints the length as a character. *)
Definition option_text (T : QVPNVerboser.tables) (kind : Z) (length : option Z) : option string :=
  let text := ("Kind: " +:+ QVPNVerboser.tcp_option T kind)%string in
  if one_byte kind then Some (text +:+ endl)%string
  else n ← length;
       Some (text +:+ "Length: " +:+ String (Ascii.ascii_of_N (Z.to_N n)) EmptyString +:+ endl)%string.

Module TcpOptionObject.

Definition t : Type := mem.
Definition empty : t := [].
Definition make (m : mem) (begin_ end_ : Z) : option t := range m begin_ end_.
Definition set_data (data_ : t) (m : mem) (begin_ end_ : Z) : option t := range m begin_ end_.
Definition get_size (data_ : t) : Z := u16 (msize data_).
Definition get_option_kind (data_ : t) : option Z := load data_ 0.
Definition get_option_length (data_ : t) : option Z := load data_ 1.
Definition get_option_data (data_ : t) : option (Z * Z) :=
  kind ← get_option_kind data_;
  Some (if one_byte kind then 1 else 2, msize data_).
Definition to_tcp_option_friendly_view (T : QVPNVerboser.tables) (data_ : t) : option string :=
  kind ← load data_ 0; option_text T kind (load data_ 1).
Definition to_bytes (data_ : t) : Z * Z := (0, msize data_).

End TcpOptionObject.

Module TcpOptionView.

(** [length_] is a [UByte]. *)
Record t := mk { data_ : Z; length_ : Z }.
Definition make (begin_ end_ : Z) : t := mk begin_ (u8 (end_ - begin_)).
Definition set_data (v : t) (begin_ end_ : Z) : t := mk begin_ (u8 (end_ - begin_)).
Definition get_size (v : t) : Z := length_ v.
Definition get_option_kind (m : mem) (v : t) : option Z := load m (data_ v).
Definition get_option_length (m : mem) (v : t) : option Z := load m (data_ v + 1).
Definition get_option_data (m : mem) (v : t) : option (Z * Z) :=
  kind ← get_option_kind m v;
  Some (data_ v + (if one_byte kind then 1 else 2), data_ v + length_ v).
Definition to_tcp_option_friendly_view (T : QVPNVerboser.tables) (m : mem) (v : t) : option string :=
  kind ← load m (data_ v); option_text T kind (load m (data_ v + 1)).
Definition to_bytes (v : t) : Z * Z := (data_ v, data_ v + length_ v).

End TcpOptionView.

(** How a run of the printing loop ends. *)
Inductive outcome : Type :=
  | Printed (text : string)
  | Undefined
  | Running.

Definition outcome_option (r : outcome) : option string :=
  match r with Printed text => Some text | _ => None end.

Module TcpOptionsView.

(** [length_] is a [UShort]. *)
Record t := mk { data_ : Z; length_ : Z }.
Definition make (begin_ end_ : Z) : t := mk begin_ (u16 (end_ - begin_)).
Definition set_data (v : t) (begin_ end_ : Z) : t := mk begin_ (u16 (end_ - begin_)).
Definition get_size (v : t) : Z := length_ v.

(** [end] is not used. *)
Definition get_next_option_offset (m : mem) (begin_ end_ : Z) : option Z :=
  kind ← load m begin_;
  if one_byte kind then Some 1 else load m (begin_ + 1).

(** The loop of the two [to_tcp_options_friendly_view], from the option at [i] on. *)
Fixpoint options_loop (T : QVPNVerboser.tables) (m : mem) (start size : Z) (fuel : nat) (i : Z)
    (ss : string) : outcome :=
  match fuel with
  | O => Running
  | S fuel =>
      if i <? size then
        match (opt_len ← get_next_option_offset m (start + i) (start + size);
               kind ← load m (start + i); Some (opt_len, kind)) with
        | None => Undefined
        | Some (opt_len, kind) =>
            options_loop T m start size fuel (i + opt_len)
              (ss +:+ QVPNVerboser.tcp_option T kind +:+ " (" +:+ dec opt_len +:+ "), ")%string
        end
      else Printed ss
  end.

(** The two [pop_back]. *)
Definition strip (str : string) : string :=
  if Nat.leb 2 (String.length str) then String.substring 0 (String.length str - 2) str else str.

(** [i < size] compares a [size_t] with a [ptrdiff_t], which is converted: the size of a range
    whose end is before its beginning is huge. *)
Definition options_friendly_view (T : QVPNVerboser.tables) (fuel : nat) (m : mem) (begin_ end_ : Z) :
    outcome :=
  match options_loop T m begin_ (u64 (end_ - begin_)) fuel 0 EmptyString with
  | Printed str => Printed (strip str)
  | r => r
  end.
Definition to_tcp_options_friendly_view (T : QVPNVerboser.tables) (fuel : nat) (m : mem) (v : t) : outcome :=
  options_friendly_view T fuel m (data_ v) (data_ v + length_ v).
Definition to_bytes (v : t) : Z * Z := (data_ v, data_ v + length_ v).

End TcpOptionsView.

Module TcpOptionsObject.

Definition t : Type := mem.
Definition empty : t := [].
Definition make (m : mem) (begin_ end_ : Z) : option t := range m begin_ end_.
Definition set_data (data_ : t) (m : mem) (begin_ end_ : Z) : option t := range m begin_ end_.
Definition get_size (data_ : t) : Z := u16 (msize data_).
Definition get_next_option_offset (m : mem) (begin_ end_ : Z) : option Z :=
  kind ← load m begin_;
  if one_byte kind then Some 1 else load m (begin_ + 1).
Definition options_friendly_view := TcpOptionsView.options_friendly_view.
Definition to_tcp_options_friendly_view (T : QVPNVerboser.tables) (fuel : nat) (data_ : t) : outcome :=
  TcpOptionsView.options_friendly_view T fuel data_ 0 (msize data_).
Definition to_bytes (data_ : t) : Z * Z := (0, msize data_).

End TcpOptionsObject.

(** * When the loop ends *)

Import TcpOptionsView.

Section Walk.
Context (T : QVPNVerboser.tables) (m : mem) (start size : Z).

(** From the option at [i] the loop comes to an option that says it has no bytes. *)
Inductive stuck : Z -> Prop :=
  | stuck_here i :
      i < size -> get_next_option_offset m (start + i) (start + size) = Some 0 -> stuck i
  | stuck_later i opt_len :
      i < size -> get_next_option_offset m (start + i) (start + size) = Some opt_len ->
      stuck (i + opt_len) -> stuck i.

Lemma stuck_size i : stuck i -> i < size.
Proof. by destruct 1. Qed.

Lemma next_kind i opt_len :
  get_next_option_offset m i (start + size) = Some opt_len -> exists kind, load m i = Some kind.
Proof. intros H. apply bind_Some in H as (kind & H & _). by exists kind. Qed.

Lemma loop_step fuel i ss opt_len :
  i < size -> get_next_option_offset m (start + i) (start + size) = Some opt_len ->
  exists ss', options_loop T m start size (S fuel) i ss = options_loop T m start size fuel (i + opt_len) ss'.
Proof.
  intros Hi Hn. destruct (next_kind _ _ Hn) as [kind Hk]. cbn [options_loop].
  rewrite (proj2 (Z.ltb_lt _ _) Hi), Hn. cbn [mbind option_bind]. rewrite Hk. cbn [mbind option_bind].
  by eexists.
Qed.

Lemma stuck_runs i : stuck i -> forall fuel ss, options_loop T m start size fuel i ss = Running.
Proof.
  induction 1 as [i Hi Hn|i opt_len Hi Hn Hs IH]; intros fuel.
  - induction fuel as [|fuel IH]; intros ss; [done|].
    destruct (loop_step fuel i ss 0 Hi Hn) as [ss' ->]. rewrite Z.add_0_r. apply IH.
  - destruct fuel as [|fuel]; intros ss; [done|]. destruct (loop_step fuel i ss _ Hi Hn) as [ss' ->]. apply IH.
Qed.

Lemma next_byte i opt_len :
  bytes m -> get_next_option_offset m i (start + size) = Some opt_len -> 0 <= opt_len < 256.
Proof.
  intros Hb H. apply bind_Some in H as (kind & _ & H). destruct (one_byte kind); [by injection H as <-|].
  apply (load_u8 _ _ _ Hb H).
Qed.

Lemma next_nonneg i opt_len :
  bytes m -> get_next_option_offset m i (start + size) = Some opt_len -> 0 <= opt_len.
Proof. intros Hb H. by apply (next_byte i). Qed.

(** A turn that goes on is inside the range and has read inside the buffer, so there are no
    more of them than either has bytes from the first option on. *)
Lemma unstuck_ends fuel : forall i ss,
  bytes m -> ~ stuck i -> Z.min (size - i) (msize m - (start + i)) < Z.of_nat fuel -> 0 < Z.of_nat fuel ->
  options_loop T m start size fuel i ss <> Running.
Proof.
  induction fuel as [|fuel IH]; intros i ss Hb Hs Hf Hp; [lia|]. cbn [options_loop].
  destruct (Z.ltb_spec i size) as [Hi|]; [|done].
  destruct (get_next_option_offset m (start + i) (start + size)) as [opt_len|] eqn:Hn; [|done].
  destruct (next_kind _ _ Hn) as [kind Hk]. cbn [mbind option_bind]. rewrite Hk. cbn [mbind option_bind].
  pose proof (next_nonneg _ _ Hb Hn). apply load_Some in Hk.
  assert (opt_len <> 0) by (intros ->; by apply Hs, stuck_here).
  apply IH; [done|intros Hl; by apply Hs, (stuck_later i opt_len)|lia|lia].
Qed.

(** A range that reaches behind the buffer is never printed. *)
Lemma outside_not_printed fuel : forall i ss text,
  bytes m -> 0 <= start + i -> msize m < start + size -> start + i <= msize m + 255 ->
  msize m + 255 < start + size ->
  options_loop T m start size fuel i ss <> Printed text.
Proof.
  induction fuel as [|fuel IH]; intros i ss text Hb H0 Hs Hi Hm; [done|]. cbn [options_loop].
  destruct (Z.ltb_spec i size); [|lia].
  destruct (get_next_option_offset m (start + i) (start + size)) as [opt_len|] eqn:Hn; [|done].
  destruct (next_kind _ _ Hn) as [kind Hk]. cbn [mbind option_bind]. rewrite Hk. cbn [mbind option_bind].
  pose proof (next_byte _ _ Hb Hn). apply load_Some in Hk. apply IH; try done; lia.
Qed.

End Walk.

(** The same bytes in a larger buffer. *)
Lemma stuck_inside pre post h start size i :
  stuck h start size i -> stuck (inside pre post h) (msize pre + start) size i.
Proof.
  assert (N : forall j n, get_next_option_offset h (start + j) (start + size) = Some n ->
    get_next_option_offset (inside pre post h) (msize pre + start + j) (msize pre + start + size) = Some n).
  { intros j n H. unfold get_next_option_offset in *. apply bind_Some in H as (kind & Hk & H).
    replace (msize pre + start + j) with (msize pre + (start + j)) by lia.
    rewrite (load_inside pre post h _ _ Hk). cbn [mbind option_bind].
    destruct (one_byte kind); [done|]. rewrite <- (Z.add_assoc (msize pre)). by apply load_inside. }
  induction 1 as [j Hj Hn|j n Hj Hn _ IH]; [by apply stuck_here, N|].
  apply (stuck_later _ _ _ j n); [done|by apply N|done].
Qed.

(** C19: The loop over the options of [[begin_, end_)] ends exactly when it does not come to
    an option of length zero: then one turn more than the buffer has bytes from [begin_] on
    is enough, and for a range that is not reversed one more than the range has bytes, with
    any tables of names; otherwise it is still running after any number of turns.  A
    reversed range, as a data offset below five gives it, has as size its negative length
    modulo 2^64: the loop never comes to the end of it, so it reads behind the buffer or runs
    forever. *)
Theorem options_loop_terminates T m begin_ end_ fuel :
  bytes m -> 0 <= begin_ -> msize m - begin_ < Z.of_nat fuel \/ 0 <= end_ - begin_ < Z.of_nat fuel ->
  0 < Z.of_nat fuel -> msize m < 2 ^ 62 -> - 2 ^ 62 < end_ - begin_ < 2 ^ 62 ->
  let size := u64 (end_ - begin_) in
  (~ stuck m begin_ size 0 -> options_friendly_view T fuel m begin_ end_ <> Running) /\
  (stuck m begin_ size 0 -> forall n, options_friendly_view T n m begin_ end_ = Running) /\
  (end_ < begin_ <= msize m ->
   ~ stuck m begin_ size 0 -> options_friendly_view T fuel m begin_ end_ = Undefined).
Proof.
  intros Hb H0 Hf Hp Hm He size. unfold options_friendly_view. fold size.
  assert (E : ~ stuck m begin_ size 0 -> options_loop T m begin_ size fuel 0 EmptyString <> Running).
  { intros Hs. apply unstuck_ends; try done. destruct Hf as [Hf|Hf]; [lia|].
    unfold size. rewrite u64_small by lia. lia. }
  split_and!.
  - intros Hs. apply E in Hs. by destruct (options_loop _ _ _ _ _ _ _).
  - intros Hs n. by rewrite (stuck_runs _ _ _ _ 0 Hs).
  - intros Hr Hs. apply E in Hs.
    assert (Hz : 2 ^ 63 < size) by (unfold size, u64; Z.div_mod_to_equations; lia).
    pose proof (outside_not_printed T m begin_ size fuel 0 EmptyString) as N.
    destruct (options_loop _ _ _ _ _ _ _); [|done|done]. by destruct (N text); try done; lia.
Qed.

(** * What the loop prints *)

(** The options of RFC 9293: one byte, or kind, length and data. *)
Inductive tcp_opt : Type :=
  | Single (kind : Z)
  | Sized (kind : Z) (data : mem).

Definition opt_kind (o : tcp_opt) : Z := match o with Single kind | Sized kind _ => kind end.
Definition opt_bytes (o : tcp_opt) : mem :=
  match o with Single kind => [kind] | Sized kind data => [kind; 2 + msize data] ++ data end.
Definition opt_wf (o : tcp_opt) : Prop :=
  match o with
  | Single kind => one_byte kind = true
  | Sized kind _ => one_byte kind = false
  end.
Definition options_bytes (l : list tcp_opt) : mem := concat (map opt_bytes l).
Definition opt_word (T : QVPNVerboser.tables) (o : tcp_opt) : string :=
  (QVPNVerboser.tcp_option T (opt_kind o) +:+ " (" +:+ dec (msize (opt_bytes o)) +:+ ")")%string.

(** The words, each with the separator that follows it. *)
Fixpoint words (T : QVPNVerboser.tables) (l : list tcp_opt) : string :=
  match l with [] => EmptyString | o :: l => (opt_word T o +:+ ", " +:+ words T l)%string end.

Lemma strip_app s : strip (s +:+ ", ") = s.
Proof.
  unfold strip. rewrite length_app_string. cbn [String.length].
  destruct (Nat.leb_spec 2 (String.length s + 2)); [|lia]. rewrite Nat.add_sub. apply substring_prefix.
Qed.

Lemma words_concat T l : l <> [] -> words T l = (String.concat ", " (map (opt_word T) l) +:+ ", ")%string.
Proof.
  induction l as [|o l IH]; [done|]. intros _. destruct l as [|o' l]; [cbn; by rewrite app_nil_string|].
  change (words T (o :: o' :: l)) with (opt_word T o +:+ ", " +:+ words T (o' :: l))%string.
  rewrite IH by done. change (map (opt_word T) (o :: o' :: l)) with (opt_word T o :: opt_word T o' :: map (opt_word T) l).
  cbn [String.concat]. by rewrite !app_assoc_string.
Qed.

(** One turn over a well-formed option. *)
Lemma next_option m p e o l :
  opt_wf o -> range m p e = Some (opt_bytes o ++ l) ->
  load m p = Some (opt_kind o) /\
  (forall e', get_next_option_offset m p e' = Some (msize (opt_bytes o))) /\
  range m (p + msize (opt_bytes o)) e = Some l /\ 0 < msize (opt_bytes o).
Proof.
  intros Hw H. destruct (range_Some _ _ _ _ H) as ([Hp _] & He & Hs & Hi). rewrite msize_app in Hs.
  pose proof (msize_nonneg l).
  assert (Hpos : 0 < msize (opt_bytes o)).
  { destruct o as [k|k d]; cbn [opt_bytes]; [done|]. rewrite msize_app. pose proof (msize_nonneg d).
    change (msize [_; _]) with 2. lia. }
  assert (K : load m p = Some (opt_kind o)).
  { rewrite <- (Z.add_0_r p), <- (Hi 0) by lia. by destruct o. }
  split_and!; [done| | |done].
  - intros e'. unfold get_next_option_offset. rewrite K. cbn [mbind option_bind].
    destruct o as [k|k d]; cbn [opt_wf opt_kind opt_bytes] in *; rewrite Hw; [done|].
    rewrite <- (Hi 1); [|rewrite msize_app in *; change (msize [_; _]) with 2 in *; pose proof (msize_nonneg d); lia].
    rewrite msize_app. change (msize [_; _]) with 2. done.
  - apply range_eq; [lia|done|lia|]. intros i Hil. rewrite <- Z.add_assoc, <- Hi by lia.
    rewrite load_app_r by lia. f_equal. lia.
Qed.

Lemma options_loop_words T m start size l : forall i ss fuel,
  Forall opt_wf l -> range m (start + i) (start + size) = Some (options_bytes l) ->
  size - i < Z.of_nat fuel ->
  options_loop T m start size fuel i ss = Printed (ss +:+ words T l).
Proof.
  induction l as [|o l IH]; intros i ss fuel Hw H Hf.
  - destruct (range_Some _ _ _ _ H) as (_ & _ & Hs & _). change (msize (options_bytes [])) with 0 in Hs.
    destruct fuel as [|fuel]; [lia|]. cbn [options_loop words]. rewrite app_nil_string.
    by destruct (Z.ltb_spec i size); [lia|].
  - apply Forall_cons in Hw as [Hwo Hw]. destruct (range_Some _ _ _ _ H) as (_ & _ & Hs & _).
    change (options_bytes (o :: l)) with (opt_bytes o ++ options_bytes l) in H, Hs.
    destruct (next_option m _ _ o _ Hwo H) as (K & N & R & P). rewrite msize_app in Hs.
    pose proof (msize_nonneg (options_bytes l)).
    destruct fuel as [|fuel]; [lia|]. cbn [options_loop words].
    destruct (Z.ltb_spec i size); [|lia]. rewrite N. cbn [mbind option_bind]. rewrite K. cbn [mbind option_bind].
    rewrite IH; [|done|by rewrite Z.add_assoc|lia]. f_equal. unfold opt_word. rewrite !app_assoc_string. done.
Qed.

(** The loop over the bytes of well-formed options prints, in order and separated by
    commas, the name of each with the number of its bytes. *)
Lemma options_printed T m b e l fuel :
  Forall opt_wf l -> range m b e = Some (options_bytes l) -> e - b < Z.of_nat fuel -> e - b < 2 ^ 64 ->
  options_friendly_view T fuel m b e = Printed (String.concat ", " (map (opt_word T) l)).
Proof.
  intros Hw H Hf H64. unfold options_friendly_view.
  destruct (range_Some _ _ _ _ H) as ([H0 Hbe] & He & _).
  rewrite u64_small by lia. rewrite (options_loop_words T m b (e - b) l 0 EmptyString fuel);
    [|done|by replace (b + 0) with b by lia; replace (b + (e - b)) with e by lia|lia].
  f_equal. change (EmptyString +:+ words T l)%string with (words T l).
  destruct l as [|o l]; [done|]. by rewrite words_concat, strip_app.
Qed.

Example options_printed_example :
  options_friendly_view QVPNVerboser.initial_tables 7 [9; 2; 4; 5; 180; 1] 1 6 =
    Printed "Maximum Segment Size (4), No-Operation (1)".
Proof.
  apply (options_printed QVPNVerboser.initial_tables [9; 2; 4; 5; 180; 1] 1 6 [Sized 2 [5; 180]; Single 1] 7);
    [by repeat constructor|reflexivity|lia|lia].
Qed.

Lemma options_loop_terminates_witness :
  options_friendly_view QVPNVerboser.initial_tables 3 [1; 1] 0 2 <> Running /\
  forall n, options_friendly_view QVPNVerboser.initial_tables n [1; 2; 0] 0 3 = Running.
Proof.
  split.
  - apply (options_loop_terminates QVPNVerboser.initial_tables [1; 1] 0 2 3);
      [concrete|lia|right; lia|lia|reflexivity|lia|].
    intros Hs. pose proof (stuck_runs QVPNVerboser.initial_tables _ _ _ _ Hs 3 EmptyString) as H. vm_compute in H. discriminate H.
  - apply (options_loop_terminates QVPNVerboser.initial_tables [1; 2; 0] 0 3 4);
      [concrete|lia|right; lia|lia|reflexivity|lia|].
    apply (stuck_later _ _ _ 0 1); [reflexivity|reflexivity|]. apply stuck_here; [reflexivity|reflexivity].
Defined.

(** A last option without its length byte: the length is read behind the options. *)
Example length_behind_options :
  options_friendly_view QVPNVerboser.initial_tables 9 [1; 2; 4; 7; 7; 7; 7] 0 2 =
    Printed "No-Operation (1), Maximum Segment Size (4)" /\
  options_friendly_view QVPNVerboser.initial_tables 9 [1; 2] 0 2 = Undefined.
Proof. split; vm_compute; reflexivity. Qed.

(** A reversed range: the bytes behind the header are taken for options until one reads
    outside the buffer, or says that it has no bytes. *)
Example reversed_range :
  options_friendly_view QVPNVerboser.initial_tables 9 [7; 7; 1; 1; 1] 2 0 = Undefined /\
  options_friendly_view QVPNVerboser.initial_tables 9 [7; 7; 1; 2; 0] 2 0 = Running.
Proof. split; vm_compute; reflexivity. Qed.

(** The length of an option is printed as a character. *)
Example option_length_character :
  TcpOptionObject.to_tcp_option_friendly_view QVPNVerboser.initial_tables [2; 65] =
    Some ("Kind: Maximum Segment SizeLength: A" +:+ endl)%string.
Proof. vm_compute. reflexivity. Qed.
