(* ===== verification/Ipv4.v ===== *)
(** IPv4 headers: [Ipv4PacketLittleEndian] (an owned vector of bytes) and
    [Ipv4PacketView] (pointers into a caller's buffer), from
    src/QVPN/QVPN Lib/src/qvpn_structures.cpp, the generators of
    include/qvpn_structures.hpp and [IPv4DefaultGenStrategy]. *)
From S2P Require Import Prelude Checksum Addr.

Definition default_ip_quart_size : Z := 5.
Definition bytes_in_quartet : Z := 4.
Definition default_ip_bytes : Z := default_ip_quart_size * bytes_in_quartet.

(** * The view: pointers [header_] and [additional_header_] into a buffer [b] *)
Module Ipv4PacketView.

Record t := mk { header_ : Z; additional_header_ : Z; add_header_size_ : Z }.

Definition ip4_header_size_ : Z := 20.

(** [header_[i]]. *)
Definition at_ (b : mem) (v : t) (i : Z) : option Z := load b (header_ v + i).

Definition ihl_at (b : mem) (p : Z) : option Z := a ← load b p; Some (Z.land a 15).

Definition parse_packet (b : mem) (begin_ end_ : Z) : option t :=
  ihl ← ihl_at b begin_;
  let start := begin_ + default_ip_bytes in
  let e := start + (ihl - default_ip_quart_size) in
  Some (mk begin_ start (e - start)).

Definition make := parse_packet.
Definition set_data := parse_packet.

Definition get_size (v : t) : Z := u16 (ip4_header_size_ + add_header_size_ v).

Definition get_ip_version (b : mem) (v : t) : option Z := a ← at_ b v 0; Some (Z.shiftr a 4).
Definition get_ip_header_length (b : mem) (v : t) : option Z := a ← at_ b v 0; Some (Z.land a 15).
Definition get_ip_dscp (b : mem) (v : t) : option Z := a ← at_ b v 1; Some (Z.shiftr a 2).
Definition get_ip_ecn (b : mem) (v : t) : option Z := a ← at_ b v 1; Some (Z.land a 3).
Definition get_ip_total_length (b : mem) (v : t) : option Z := load16 b (header_ v + 2).
Definition get_ip_id (b : mem) (v : t) : option Z := load16 b (header_ v + 4).
Definition get_ip_flags (b : mem) (v : t) : option Z := a ← at_ b v 6; Some (Z.shiftr a 5).
Definition get_ip_df_flag (b : mem) (v : t) : option Z :=
  flags ← get_ip_flags b v; Some (Z.land (Z.shiftr flags 1) 1).
Definition get_ip_mf_flag (b : mem) (v : t) : option Z :=
  flags ← get_ip_flags b v; Some (Z.land flags 1).
Definition get_ip_offset (b : mem) (v : t) : option Z :=
  a ← at_ b v 6; c ← at_ b v 7; Some (u16 (Z.lor (u16 (Z.shiftl (Z.land a 31) 5)) c)).
Definition get_ip_ttl (b : mem) (v : t) : option Z := at_ b v 8.
Definition get_ip_protocol (b : mem) (v : t) : option Z := at_ b v 9.
Definition get_ip_checksum (b : mem) (v : t) : option Z := load16 b (header_ v + 10).
Definition get_ip_source (b : mem) (v : t) : option (list Z) :=
  x ← at_ b v 12; y ← at_ b v 13; z ← at_ b v 14; w ← at_ b v 15;
  Some (IPv4Address.make x y z w).
Definition get_ip_dest (b : mem) (v : t) : option (list Z) :=
  x ← at_ b v 16; y ← at_ b v 17; z ← at_ b v 18; w ← at_ b v 19;
  Some (IPv4Address.make x y z w).

Definition get_ip_additional_header (v : t) : Z * Z :=
  (additional_header_ v, additional_header_ v + add_header_size_ v).
Definition to_bytes (v : t) : Z * Z := (header_ v, additional_header_ v + add_header_size_ v).
Definition to_view (b : mem) (v : t) : option t :=
  make b (header_ v) (additional_header_ v + add_header_size_ v).
Definition to_net_view (b : mem) (v : t) : option t :=
  make b (header_ v) (additional_header_ v + add_header_size_ v).
Definition to_net_bytes (v : t) : Z * Z := (header_ v, additional_header_ v + add_header_size_ v).
Definition get_src_addr (b : mem) (v : t) : option (list Z) :=
  NetAddr.of_range b (header_ v + 12) (header_ v + 16).
Definition get_dst_addr (b : mem) (v : t) : option (list Z) :=
  NetAddr.of_range b (header_ v + 16) (header_ v + 20).
Definition get_protocol_version (b : mem) (v : t) : option Z := get_ip_version b v.
Definition get_transport_protocol (b : mem) (v : t) : option Z := get_ip_protocol b v.

Definition set_ip_source (b : mem) (v : t) (src : list Z) : option mem :=
  let temp := IPv4Address.to_bytes src in
  for_loop 4 12 16 1 (fun i b => x ← load temp (i - 12); store b (header_ v + i) x) b.
Definition set_ip_dest (b : mem) (v : t) (dst : list Z) : option mem :=
  let temp := IPv4Address.to_bytes dst in
  for_loop 4 16 20 1 (fun i b => x ← load temp (i - 16); store b (header_ v + i) x) b.
Definition set_ip_total_length (b : mem) (v : t) (length : Z) : option mem :=
  store16 b (header_ v + 2) length.
Definition set_ip_checksum (b : mem) (v : t) (checksum : Z) : option mem :=
  store16 b (header_ v + 10) checksum.
Definition set_src_addr (b : mem) (v : t) (net_addr : list Z) : option mem :=
  blit b (header_ v + 12) (NetAddr.to_bytes net_addr).
Definition set_dst_addr (b : mem) (v : t) (net_addr : list Z) : option mem :=
  blit b (header_ v + 16) (NetAddr.to_bytes net_addr).

(** The second loop advances by one byte, not by one word. *)
Definition recalculate_ip_checksum (b : mem) (v : t) : option mem :=
  b ← set_ip_checksum b v 0;
  sum ← sum_words b (header_ v) (header_ v + ip4_header_size_) 0;
  sum ← for_loop (Z.to_nat (add_header_size_ v)) 0 (add_header_size_ v) 1
          (fun i => word_step b (additional_header_ v + i)) sum;
  sum ← fold_carries sum;
  set_ip_checksum b v (complement sum).

End Ipv4PacketView.

(** * The object: [header_] is the vector of the header's bytes *)
Module Ipv4PacketLittleEndian.

Definition empty : mem := [].

Definition get_ip_header_length (header_ : mem) : option Z :=
  a ← load header_ 0; Some (Z.land a 15).

(** Appends 20 bytes, then the additional header whose size the byte just
    appended gives; [end_] is not consulted. *)
Definition parse_packet (header_ : mem) (m : mem) (begin_ end_ : Z) : option mem :=
  fixed ← range m begin_ (begin_ + default_ip_bytes);
  let header_ := header_ ++ fixed in
  let start := begin_ + default_ip_bytes in
  ihl ← get_ip_header_length header_;
  rest ← range m start (start + (ihl - default_ip_quart_size) * bytes_in_quartet);
  Some (header_ ++ rest).

Definition make (m : mem) (begin_ end_ : Z) : option mem := parse_packet [] m begin_ end_.
Definition set_data (header_ m : mem) (begin_ end_ : Z) : option mem :=
  parse_packet [] m begin_ end_.

Definition get_size (header_ : mem) : Z := u16 (msize header_).
Definition get_ip_version (header_ : mem) : option Z := a ← load header_ 0; Some (Z.shiftr a 4).
Definition get_ip_dscp (header_ : mem) : option Z := a ← load header_ 1; Some (Z.shiftr a 2).
Definition get_ip_ecn (header_ : mem) : option Z := a ← load header_ 1; Some (Z.land a 3).
Definition get_ip_total_length (header_ : mem) : option Z := load16 header_ 2.
Definition get_ip_id (header_ : mem) : option Z := load16 header_ 4.
Definition get_ip_flags (header_ : mem) : option Z := a ← load header_ 6; Some (Z.shiftr a 5).
Definition get_ip_df_flag (header_ : mem) : option Z :=
  flags ← get_ip_flags header_; Some (Z.land (Z.shiftr flags 1) 1).
Definition get_ip_mf_flag (header_ : mem) : option Z :=
  flags ← get_ip_flags header_; Some (Z.land flags 1).
Definition get_ip_offset (header_ : mem) : option Z :=
  a ← load header_ 6; c ← load header_ 7;
  Some (u16 (Z.lor (u16 (Z.shiftl (Z.land a 31) 5)) c)).
Definition get_ip_ttl (header_ : mem) : option Z := load header_ 8.
Definition get_ip_protocol (header_ : mem) : option Z := load header_ 9.
Definition get_ip_checksum (header_ : mem) : option Z := load16 header_ 10.
Definition get_ip_source (header_ : mem) : option (list Z) :=
  x ← load header_ 12; y ← load header_ 13; z ← load header_ 14; w ← load header_ 15;
  Some (IPv4Address.make x y z w).
Definition get_ip_dest (header_ : mem) : option (list Z) :=
  x ← load header_ 16; y ← load header_ 17; z ← load header_ 18; w ← load header_ 19;
  Some (IPv4Address.make x y z w).
Definition get_ip_additional_header (header_ : mem) : Z * Z := (default_ip_bytes, msize header_).
Definition to_bytes (header_ : mem) : Z * Z := (0, msize header_).
Definition to_object (header_ : mem) : option mem := make header_ 0 (msize header_).
Definition to_view (header_ : mem) : option Ipv4PacketView.t :=
  Ipv4PacketView.make header_ 0 (msize header_).
Definition to_net_object (header_ : mem) : option mem := make header_ 0 (msize header_).
Definition to_net_view (header_ : mem) : option Ipv4PacketView.t :=
  Ipv4PacketView.make header_ 0 (msize header_).
Definition set_ip_source (header_ : mem) (src : list Z) : option mem :=
  let temp := IPv4Address.to_bytes src in
  for_loop 4 12 16 1 (fun i h => x ← load temp (i - 12); store h i x) header_.
Definition set_ip_dest (header_ : mem) (dst : list Z) : option mem :=
  let temp := IPv4Address.to_bytes dst in
  for_loop 4 16 20 1 (fun i h => x ← load temp (i - 16); store h i x) header_.
Definition set_ip_total_length (header_ : mem) (length : Z) : option mem :=
  store16 header_ 2 length.
Definition set_ip_checksum (header_ : mem) (checksum : Z) : option mem :=
  store16 header_ 10 checksum.
Definition get_src_addr (header_ : mem) : option (list Z) := NetAddr.of_range header_ 12 16.
Definition get_dst_addr (header_ : mem) : option (list Z) := NetAddr.of_range header_ 16 20.
Definition to_net_bytes (header_ : mem) : Z * Z := (0, msize header_).
Definition get_protocol_version (header_ : mem) : option Z := get_ip_version header_.
Definition get_transport_protocol (header_ : mem) : option Z := get_ip_protocol header_.

Definition recalculate_ip_checksum (header_ : mem) : option mem :=
  header_ ← set_ip_checksum header_ 0;
  sum ← sum_words header_ 0 (msize header_) 0;
  sum ← fold_carries sum;
  set_ip_checksum header_ (complement sum).

Definition set_src_addr (header_ : mem) (net_addr : list Z) : option mem :=
  blit header_ 12 (NetAddr.to_bytes net_addr).
Definition set_dst_addr (header_ : mem) (net_addr : list Z) : option mem :=
  blit header_ 16 (NetAddr.to_bytes net_addr).

End Ipv4PacketLittleEndian.

(** The objects a view is copied to. *)
Definition view_to_object (b : mem) (v : Ipv4PacketView.t) : option mem :=
  let '(s, e) := Ipv4PacketView.to_bytes v in Ipv4PacketLittleEndian.make b s e.
Definition view_to_net_object (b : mem) (v : Ipv4PacketView.t) : option mem :=
  let '(s, e) := Ipv4PacketView.to_bytes v in Ipv4PacketLittleEndian.make b s e.

(** * Generation *)

(** [IPv4GenStrategyLike]; [get_next_id] changes the strategy's state. *)
Class IPv4GenStrategyLike (S : Type) := {
  get_ver : S -> Z;
  get_header_length : S -> Z;
  get_dscp : S -> Z;
  get_ecn : S -> Z;
  get_qos : S -> Z;
  get_id : S -> Z;
  get_next_id : S -> Z * S;
  get_additional_headers : S -> list Z;
  get_ttl : S -> Z }.

(** [IPv4DefaultGenStrategy]; the state is [last_id_]. *)
Module IPv4DefaultGenStrategy.

Record t := mk { last_id_ : Z }.
Definition get_ver (s : t) : Z := IPv4.
Definition get_header_length (s : t) : Z := 5.
Definition get_dscp (s : t) : Z := 0.
Definition get_ecn (s : t) : Z := 0.
Definition get_qos (s : t) : Z :=
  let dscp := get_dscp s in let ecn := get_ecn s in
  u8 (Z.lor (Z.shiftl dscp 6) (Z.land ecn 3)).
Definition get_id (s : t) : Z := last_id_ s.
Definition get_additional_headers (s : t) : list Z := [].
Definition get_next_id (s : t) : Z * t := let n := u16 (last_id_ s + 1) in (n, mk n).
Definition get_ttl (s : t) : Z := 64.

End IPv4DefaultGenStrategy.

#[global] Instance IPv4DefaultGenStrategy_like : IPv4GenStrategyLike IPv4DefaultGenStrategy.t := {
  get_ver := IPv4DefaultGenStrategy.get_ver;
  get_header_length := IPv4DefaultGenStrategy.get_header_length;
  get_dscp := IPv4DefaultGenStrategy.get_dscp;
  get_ecn := IPv4DefaultGenStrategy.get_ecn;
  get_qos := IPv4DefaultGenStrategy.get_qos;
  get_id := IPv4DefaultGenStrategy.get_id;
  get_next_id := IPv4DefaultGenStrategy.get_next_id;
  get_additional_headers := IPv4DefaultGenStrategy.get_additional_headers;
  get_ttl := IPv4DefaultGenStrategy.get_ttl }.

Section Generate.
Context {S : Type} `{IPv4GenStrategyLike S}.

(** [generate_object_bytes(strategy, ...)]: the header is laid out byte by byte,
    then a view over it computes the checksum.  Returns the bytes and the
    strategy's state. *)
Definition generate_object_bytes (strategy : S) (src dst : list Z) (proto total_length : Z)
    (DF MF : bool) (offset : Z) : option (mem * S) :=
  let add_headers := get_additional_headers strategy in
  let size := msize add_headers / 4 in
  let total_h_length := get_header_length strategy + size in
  let first_byte := u8 (Z.lor (Z.shiftl (get_ver strategy) 4) (Z.land total_h_length 15)) in
  let len := u64 (total_length + total_h_length * 4) in
  let qos := u8 (get_qos strategy) in
  let id := get_id strategy in
  let '(id, strategy) :=
    if negb MF && (offset =? 0) && negb (id =? 0) then get_next_id strategy else (id, strategy) in
  let flags_offset :=
    u8 (Z.lor (Z.lor (Z.lor (Z.shiftl 0 7) (Z.shiftl (Z.b2z DF) 6)) (Z.shiftl (Z.b2z MF) 5))
          (Z.land (Z.shiftr offset 11) 31)) in
  src4 ← NetAddr.to_ipv4 src;
  dst4 ← NetAddr.to_ipv4 dst;
  let obj_bytes :=
    [first_byte; qos; u8 (Z.shiftr len 8); u8 (Z.land len 255);
     u8 (Z.shiftr id 8); u8 (Z.land id 255); flags_offset; u8 (Z.land offset 255);
     u8 (get_ttl strategy); u8 proto; 0; 0]
    ++ IPv4Address.to_bytes src4 ++ IPv4Address.to_bytes dst4 ++ add_headers in
  ip4 ← Ipv4PacketView.make obj_bytes 0 (msize obj_bytes);
  obj_bytes ← Ipv4PacketView.recalculate_ip_checksum obj_bytes ip4;
  Some (obj_bytes, strategy).

Definition generate_object (strategy : S) (src dst : list Z) (proto total_length : Z)
    (DF MF : bool) (offset : Z) : option (mem * S) :=
  '(obj_bytes, strategy) ← generate_object_bytes strategy src dst proto total_length DF MF offset;
  o ← Ipv4PacketLittleEndian.make obj_bytes 0 (msize obj_bytes);
  Some (o, strategy).

End Generate.

(** [generate_object_bytes(parent, src, dst, total_length)]: the parent's header
    with new addresses, length and checksum. *)
Definition regenerate_object_bytes (m : mem) (parent : Ipv4PacketView.t) (src dst : list Z)
    (total_length : Z) : option mem :=
  let '(s, e) := Ipv4PacketView.to_bytes parent in
  obj_bytes ← range m s e;
  packet ← Ipv4PacketView.make obj_bytes 0 (msize obj_bytes);
  obj_bytes ← Ipv4PacketView.set_src_addr obj_bytes packet src;
  obj_bytes ← Ipv4PacketView.set_dst_addr obj_bytes packet dst;
  obj_bytes ← Ipv4PacketView.set_ip_total_length obj_bytes packet total_length;
  Ipv4PacketView.recalculate_ip_checksum obj_bytes packet.

Definition regenerate_object (m : mem) (parent : Ipv4PacketView.t) (src dst : list Z)
    (total_length : Z) : option mem :=
  obj_bytes ← regenerate_object_bytes m parent src dst total_length;
  Ipv4PacketLittleEndian.make obj_bytes 0 (msize obj_bytes).

(** * The checksum *)

Section Checksum.
Import Ipv4PacketLittleEndian.

(** The result of [recalculate_ip_checksum] in closed form. *)
Lemma recalculate_ip_checksum_eq h h0 :
  bytes h -> Z.even (msize h) = true -> msize h < 65536 ->
  store16 h 10 0 = Some h0 ->
  recalculate_ip_checksum h = store16 h0 10 (complement (ones_sum (total h0))).
Proof.
  intros Hh Hev Hsz H0. pose proof (store16_bytes _ _ _ _ Hh H0) as Hb0.
  pose proof (store16_size _ _ _ _ H0) as Hs0.
  unfold recalculate_ip_checksum, set_ip_checksum. rewrite H0. cbn [mbind option_bind].
  rewrite (sum_words_spec h0 0 (msize h0) h0); [|done|apply range_full|by rewrite Hs0|unfold is_u32; lia].
  pose proof (total_nonneg h0 Hb0). pose proof (total_bound h0 Hb0).
  cbn [mbind option_bind]. rewrite Z.add_0_l, u32_id by (unfold is_u32; lia).
  by rewrite fold_carries_spec by (unfold is_u32; lia).
Qed.

(** What it does to a header: the field's two bytes change, the words sum to 0xFFFF,
    and doing it again changes nothing. *)
Lemma ip_checksum_ok h :
  bytes h -> Z.even (msize h) = true -> 12 <= msize h < 65536 ->
  exists h', recalculate_ip_checksum h = Some h' /\ bytes h' /\ msize h' = msize h /\
    (forall q, q <> 10 -> q <> 11 -> load h' q = load h q) /\
    verifies (total h') /\ recalculate_ip_checksum h' = Some h'.
Proof.
  intros Hh Hev Hsz.
  destruct (store16_in h 10 0) as [h0 H0]; [lia|lia|].
  pose proof (store16_bytes _ _ _ _ Hh H0) as Hb0. pose proof (store16_size _ _ _ _ H0) as Hs0.
  destruct (store16_in h0 10 (complement (ones_sum (total h0)))) as [h' H1]; [lia|lia|].
  pose proof (store16_bytes _ _ _ _ Hb0 H1) as Hb'. pose proof (store16_size _ _ _ _ H1) as Hs'.
  exists h'. rewrite (recalculate_ip_checksum_eq h h0) by (done || lia).
  split_and!; [done|done|lia| | |].
  - intros q H10 H11. rewrite (load_store16 _ _ _ _ _ H1), (load_store16 _ _ _ _ _ H0).
    by rewrite !decide_False by lia.
  - apply (checksum_store h 10 h0 h' 0); done.
  - rewrite (recalculate_ip_checksum_eq h' h0); [done|done|by rewrite Hs', Hs0|lia|].
    by rewrite (store16_overwrite _ _ _ _ _ H1), (store16_overwrite _ _ _ _ _ H0).
Qed.

(** [Ipv4PacketLittleEndian::recalculate_ip_checksum] is defined on every
    header of an even number of bytes that contains the field; it changes only
    bytes 10 and 11, afterwards the one's complement sum of the header's
    16-bit words is 0xFFFF, which is what a receiver checks, and it is idempotent. *)
Theorem recalculate_ip_checksum_verifies h :
  bytes h -> Z.even (msize h) = true -> 12 <= msize h < 65536 ->
  exists h', recalculate_ip_checksum h = Some h' /\ bytes h' /\ msize h' = msize h /\
    (forall q, q <> 10 -> q <> 11 -> load h' q = load h q) /\
    verifies (total h') /\ recalculate_ip_checksum h' = Some h'.
Proof. apply ip_checksum_ok. Qed.

Lemma recalculate_ip_checksum_verifies_witness :
  exists h', recalculate_ip_checksum
    [69; 0; 0; 40; 0; 0; 64; 0; 64; 6; 7; 7; 10; 0; 0; 1; 10; 0; 0; 2] = Some h' /\
    verifies (total h').
Proof.
  destruct (recalculate_ip_checksum_verifies
    [69; 0; 0; 40; 0; 0; 64; 0; 64; 6; 7; 7; 10; 0; 0; 1; 10; 0; 0; 2])
    as (h' & H & _ & _ & _ & Hv & _).
  - concrete.
  - reflexivity.
  - unfold msize; simpl; lia.
  - exists h'. split; [exact H|exact Hv].
Defined.

End Checksum.

(** * The view refines the object *)

Section Refinement.
Import Ipv4PacketLittleEndian.


(** The numeric getters, in the order of the class. *)
Definition object_fields : list (mem -> option Z) :=
  [get_ip_version; get_ip_header_length; get_ip_dscp; get_ip_ecn; get_ip_total_length;
   get_ip_id; get_ip_flags; get_ip_df_flag; get_ip_mf_flag; get_ip_offset; get_ip_ttl;
   get_ip_protocol; get_ip_checksum; get_protocol_version; get_transport_protocol].

Definition view_fields : list (mem -> Ipv4PacketView.t -> option Z) :=
  [Ipv4PacketView.get_ip_version; Ipv4PacketView.get_ip_header_length; Ipv4PacketView.get_ip_dscp; Ipv4PacketView.get_ip_ecn;
   Ipv4PacketView.get_ip_total_length; Ipv4PacketView.get_ip_id; Ipv4PacketView.get_ip_flags; Ipv4PacketView.get_ip_df_flag; Ipv4PacketView.get_ip_mf_flag;
   Ipv4PacketView.get_ip_offset; Ipv4PacketView.get_ip_ttl; Ipv4PacketView.get_ip_protocol; Ipv4PacketView.get_ip_checksum;
   Ipv4PacketView.get_protocol_version; Ipv4PacketView.get_transport_protocol].

(** The address getters. *)
Definition object_addrs : list (mem -> option (list Z)) :=
  [get_ip_source; get_ip_dest; get_src_addr; get_dst_addr].
Definition view_addrs : list (mem -> Ipv4PacketView.t -> option (list Z)) :=
  [Ipv4PacketView.get_ip_source; Ipv4PacketView.get_ip_dest; Ipv4PacketView.get_src_addr; Ipv4PacketView.get_dst_addr].

Lemma view_set_ip_source pre post h p src ahs adh :
  p = msize pre ->
  refines_in pre post (set_ip_source h src)
    (Ipv4PacketView.set_ip_source (inside pre post h) (Ipv4PacketView.mk p adh ahs) src).
Proof.
  intros -> h' H. unfold set_ip_source, Ipv4PacketView.set_ip_source in *.
  destruct (for_loop_sim (fun h b => b = inside pre post h) 0 4 12 16 1
    (fun i h => x ← load (IPv4Address.to_bytes src) (i - 12); store h i x)
    (fun i b => x ← load (IPv4Address.to_bytes src) (i - 12); store b (msize pre + i) x)
    h (inside pre post h) h') as (t & Ht & ->); [done| |done|exact Ht].
  intros j s t s1 -> (x & Hx & Hs)%bind_Some. change (0 + j) with j. rewrite Hx. simpl.
  eauto using store_inside.
Qed.

Lemma view_set_ip_dest pre post h p dst ahs adh :
  p = msize pre ->
  refines_in pre post (set_ip_dest h dst)
    (Ipv4PacketView.set_ip_dest (inside pre post h) (Ipv4PacketView.mk p adh ahs) dst).
Proof.
  intros -> h' H. unfold set_ip_dest, Ipv4PacketView.set_ip_dest in *.
  destruct (for_loop_sim (fun h b => b = inside pre post h) 0 4 16 20 1
    (fun i h => x ← load (IPv4Address.to_bytes dst) (i - 16); store h i x)
    (fun i b => x ← load (IPv4Address.to_bytes dst) (i - 16); store b (msize pre + i) x)
    h (inside pre post h) h') as (t & Ht & ->); [done| |done|exact Ht].
  intros j s t s1 -> (x & Hx & Hs)%bind_Some. change (0 + j) with j. rewrite Hx. simpl.
  eauto using store_inside.
Qed.

(** Without options the view's checksum is the object's. *)
Lemma view_recalculate pre post h v :
  Ipv4PacketView.header_ v = msize pre -> Ipv4PacketView.add_header_size_ v = 0 -> msize h = 20 ->
  refines_in pre post (recalculate_ip_checksum h)
    (Ipv4PacketView.recalculate_ip_checksum (inside pre post h) v).
Proof.
  intros Hv Ha Hh h' H. unfold recalculate_ip_checksum, Ipv4PacketView.recalculate_ip_checksum in *.
  unfold set_ip_checksum, Ipv4PacketView.set_ip_checksum in *. rewrite Hv, Ha.
  apply bind_Some in H as (h0 & H0 & (s & Hs & (s' & Hf & H1)%bind_Some)%bind_Some).
  rewrite (store16_inside _ _ _ _ _ _ H0). cbn [mbind option_bind].
  apply (sum_words_inside pre post) in Hs.
  rewrite (store16_size _ _ _ _ H0), Hh, Z.add_0_r in Hs.
  unfold Ipv4PacketView.ip4_header_size_. rewrite Hs. cbn [mbind option_bind].
  assert (forall f, for_loop (Z.to_nat 0) 0 0 1 f s = Some s) as -> by done.
  cbn [mbind option_bind]. rewrite Hf. cbn [mbind option_bind].
  by apply store16_inside.
Qed.

(** a view over a header placed anywhere in a buffer behaves like the object
    holding these bytes: every getter returns what the object's getter returns,
    every setter changes the embedded header exactly as the object's setter
    does and leaves the bytes around it alone, and, for a header without
    options, so does the checksum. *)
Theorem ipv4_view_refines_object pre post h v :
  Ipv4PacketView.header_ v = msize pre ->
  let b := inside pre post h in
  Forall2 (fun o w => refines (o h) (w b v)) object_fields view_fields /\
  Forall2 (fun o w => refines (o h) (w b v)) object_addrs view_addrs /\
  (forall n, refines_in pre post (set_ip_total_length h n) (Ipv4PacketView.set_ip_total_length b v n)) /\
  (forall n, refines_in pre post (set_ip_checksum h n) (Ipv4PacketView.set_ip_checksum b v n)) /\
  (forall a, refines_in pre post (set_src_addr h a) (Ipv4PacketView.set_src_addr b v a)) /\
  (forall a, refines_in pre post (set_dst_addr h a) (Ipv4PacketView.set_dst_addr b v a)) /\
  (forall a, refines_in pre post (set_ip_source h a) (Ipv4PacketView.set_ip_source b v a)) /\
  (forall a, refines_in pre post (set_ip_dest h a) (Ipv4PacketView.set_ip_dest b v a)) /\
  (msize h = 20 -> Ipv4PacketView.add_header_size_ v = 0 ->
   refines_in pre post (recalculate_ip_checksum h) (Ipv4PacketView.recalculate_ip_checksum b v)).
Proof.
  destruct v as [p adh ahs]. simpl. intros ->. split_and!.
  - unfold object_fields, view_fields. refine_fields.
  - unfold object_addrs, view_addrs. refine_fields.
  - intros n. apply store16_refines.
  - intros n. apply store16_refines.
  - intros n. apply blit_refines.
  - intros n. apply blit_refines.
  - intros n. by apply view_set_ip_source.
  - intros n. by apply view_set_ip_dest.
  - intros. by apply view_recalculate.
Qed.

Lemma ipv4_view_refines_object_witness :
  refines (get_ip_ttl [69; 0; 0; 20; 0; 0; 0; 0; 64; 6])
          (Ipv4PacketView.get_ip_ttl (inside [1; 2] [3] [69; 0; 0; 20; 0; 0; 0; 0; 64; 6]) (Ipv4PacketView.mk 2 22 0)) /\
  refines_in [1; 2] [3] (set_ip_total_length [69; 0; 0; 20] 1000)
    (Ipv4PacketView.set_ip_total_length (inside [1; 2] [3] [69; 0; 0; 20]) (Ipv4PacketView.mk 2 22 0) 1000).
Proof.
  split.
  - destruct (ipv4_view_refines_object [1; 2] [3] [69; 0; 0; 20; 0; 0; 0; 0; 64; 6] (Ipv4PacketView.mk 2 22 0))
      as [H _]; [reflexivity|].
    exact (Forall2_lookup_lr _ _ _ 10 _ _ H eq_refl eq_refl).
  - destruct (ipv4_view_refines_object [1; 2] [3] [69; 0; 0; 20] (Ipv4PacketView.mk 2 22 0))
      as (_ & _ & H & _); [reflexivity|]. exact (H 1000).
Defined.

End Refinement.

(** * Parsing *)

Section Parsing.
Import Ipv4PacketLittleEndian.

Lemma ihl_range a : is_u8 a -> 0 <= Z.land a 15 <= 15.
Proof.
  intros _. change 15 with (Z.ones 4). rewrite Z.land_ones by lia.
  pose proof (Z.mod_pos_bound a (2 ^ 4)). change (2 ^ 4) with 16 in *.
  change (Z.ones 4) with 15. lia.
Qed.

(** [parse_packet] on an empty object in closed form. *)
Lemma ipv4_make_eq m b e a :
  load m b = Some a ->
  make m b e =
    fixed ← range m b (b + 20);
    rest ← range m (b + 20) (b + 20 + (Z.land a 15 - 5) * 4);
    Some (fixed ++ rest).
Proof.
  intros Ha. unfold make, parse_packet. change default_ip_bytes with 20.
  change default_ip_quart_size with 5. change bytes_in_quartet with 4. cbn [app].
  destruct (range m b (b + 20)) as [f|] eqn:Hf; [|done]. cbn [mbind option_bind].
  destruct (range_cons _ _ _ _ Hf) as (a' & f' & -> & Ha' & _); [lia|].
  rewrite Ha in Ha'. injection Ha' as <-. done.
Qed.

(** [Ipv4PacketLittleEndian::parse_packet] copies exactly the [4 * IHL] bytes
    the header announces when the buffer has them; a header length below 5 words
    makes the copied range run backwards (undefined behaviour in the source), and
    so does a header that passes the end of the buffer. *)
Theorem ipv4_parse_spec m b e a :
  bytes m -> load m b = Some a ->
  let len := 4 * Z.land a 15 in
  (20 <= len -> b + len <= msize m ->
     exists h, make m b e = Some h /\ range m b (b + len) = Some h /\ msize h = len /\
       get_ip_header_length h = Some (Z.land a 15) /\ get_size h = len) /\
  (len < 20 \/ msize m < b + len -> make m b e = None).
Proof.
  intros Hm Ha len. pose proof (load_Some _ _ _ Ha) as Hb.
  pose proof (ihl_range a (load_u8 _ _ _ Hm Ha)) as Hr. subst len. rewrite (ipv4_make_eq _ _ _ a) by done.
  replace (b + 20 + (Z.land a 15 - 5) * 4) with (b + 4 * Z.land a 15) by lia.
  split.
  - intros H1 H2. destruct (range m b (b + 20)) as [f|] eqn:Hf; [|by rewrite range_in in Hf by lia].
    destruct (range m (b + 20) (b + 4 * Z.land a 15)) as [r|] eqn:Hrest;
      [|by rewrite range_in in Hrest by lia].
    exists (f ++ r). pose proof (range_app _ _ _ _ _ _ Hf Hrest) as Hall.
    destruct (range_Some _ _ _ _ Hall) as (_ & _ & Hs & Hi).
    assert (msize (f ++ r) = 4 * Z.land a 15) as Hsz by lia.
    split_and!; [done|done|done| |].
    + unfold get_ip_header_length. rewrite Hi by lia. rewrite Z.add_0_r, Ha. done.
    + unfold get_size. rewrite Hsz, u16_id; [done|unfold is_u16; lia].
  - intros H. destruct (range m b (b + 20)) as [f|] eqn:Hf; [|done].
    apply range_order in Hf. cbn [mbind option_bind].
    unfold range. rewrite decide_False by lia. done.
Qed.

Lemma ipv4_parse_spec_witness :
  exists h, make (69 :: repeat 7 30) 0 31 = Some h /\ msize h = 20.
Proof.
  destruct (ipv4_parse_spec (69 :: repeat 7 30) 0 31 69) as [H _]; [concrete|reflexivity|].
  destruct H as (h & H & _ & Hs & _).
  - vm_compute; discriminate.
  - vm_compute; discriminate.
  - exists h. split; [exact H|exact Hs].
Defined.

(** [Ipv4PacketView::parse_packet] counts options in words where it should
    count bytes: the view it builds spans [15 + IHL] bytes, against the [4 * IHL]
    bytes of the object; the two agree exactly for headers without options. *)
Theorem ipv4_view_span m b e a :
  bytes m -> load m b = Some a ->
  exists v, Ipv4PacketView.make m b e = Some v /\
    Ipv4PacketView.to_bytes v = (b, b + (15 + Z.land a 15)) /\
    Ipv4PacketView.get_size v = 15 + Z.land a 15 /\
    (15 + Z.land a 15 = 4 * Z.land a 15 <-> Z.land a 15 = 5).
Proof.
  intros Hm Ha. unfold Ipv4PacketView.make, Ipv4PacketView.parse_packet, Ipv4PacketView.ihl_at.
  rewrite Ha. eexists. split; [done|].
  pose proof (ihl_range a (load_u8 _ _ _ Hm Ha)) as Hr.
  unfold Ipv4PacketView.to_bytes, Ipv4PacketView.get_size, Ipv4PacketView.ip4_header_size_. simpl.
  change default_ip_bytes with 20. change default_ip_quart_size with 5.
  split_and!; [f_equal; lia| |lia].
  rewrite u16_id; unfold is_u16; lia.
Qed.

Lemma ipv4_view_span_witness :
  exists v, Ipv4PacketView.make (70 :: repeat 7 30) 0 31 = Some v /\ Ipv4PacketView.get_size v = 21.
Proof.
  destruct (ipv4_view_span (70 :: repeat 7 30) 0 31 70) as (v & H & _ & Hs & _);
    [concrete|reflexivity|]. exists v. split; [exact H|exact Hs].
Defined.

(** on a header, the setters write exactly the field their getter reads:
    addresses, total length and checksum are read back, and none of the four
    setters disturbs the fields of the others. *)
Theorem ipv4_set_get h src dst len chk :
  bytes h -> 20 <= msize h -> bytes src -> bytes dst -> msize src = 4 -> msize dst = 4 ->
  is_u16 len -> is_u16 chk ->
  exists h1 h2 h3 h4,
    set_src_addr h src = Some h1 /\ set_dst_addr h1 dst = Some h2 /\
    set_ip_total_length h2 len = Some h3 /\ set_ip_checksum h3 chk = Some h4 /\
    get_src_addr h4 = Some src /\ get_dst_addr h4 = Some dst /\
    get_ip_total_length h4 = Some len /\ get_ip_checksum h4 = Some chk /\
    bytes h4 /\ msize h4 = msize h /\
    (forall q, 0 <= q < 20 -> ~ (2 <= q < 4) -> ~ (10 <= q < 20) -> load h4 q = load h q).
Proof.
  intros Hh Hsz Hsrc Hdst Ls Ld Hlen Hchk.
  destruct (blit_in h 12 src) as [h1 H1]; [lia|lia|]. pose proof (blit_size _ _ _ _ H1) as S1.
  destruct (blit_in h1 16 dst) as [h2 H2]; [lia|lia|]. pose proof (blit_size _ _ _ _ H2) as S2.
  destruct (store16_in h2 2 len) as [h3 H3]; [lia|lia|]. pose proof (store16_size _ _ _ _ H3) as S3.
  destruct (store16_in h3 10 chk) as [h4 H4]; [lia|lia|]. pose proof (store16_size _ _ _ _ H4) as S4.
  exists h1, h2, h3, h4. split_and!; [done..| | | | | | | ].
  - unfold get_src_addr, NetAddr.of_range.
    rewrite (range_store16_ne _ _ _ _ _ _ H4), (range_store16_ne _ _ _ _ _ _ H3),
      (range_blit_ne _ _ _ _ _ _ H2) by lia.
    replace 16 with (12 + msize src) by lia. apply (range_blit h); [lia|done|lia].
  - unfold get_dst_addr, NetAddr.of_range.
    rewrite (range_store16_ne _ _ _ _ _ _ H4), (range_store16_ne _ _ _ _ _ _ H3) by lia.
    replace 20 with (16 + msize dst) by lia. apply (range_blit h1); [lia|done|lia].
  - unfold get_ip_total_length. rewrite (load16_store16_ne _ _ _ _ _ H4) by lia.
    by apply (load16_store16 h2).
  - by apply (load16_store16 h3).
  - apply (store16_bytes _ _ _ _ (store16_bytes _ _ _ _ (blit_bytes _ _ _ _
      (blit_bytes _ _ _ _ Hh Hsrc H1) Hdst H2) H3) H4).
  - lia.
  - intros q Hq N1 N2.
    rewrite (load_store16 _ _ _ _ _ H4), (load_store16 _ _ _ _ _ H3),
      (load_blit _ _ _ _ _ H2), (load_blit _ _ _ _ _ H1). by rewrite !decide_False by lia.
Qed.

Lemma ipv4_set_get_witness :
  exists h1, set_src_addr (repeat 0 20) [10; 0; 0; 1] = Some h1.
Proof.
  destruct (ipv4_set_get (repeat 0 20) [10; 0; 0; 1] [10; 0; 0; 2] 40 7) as (h1 & _ & _ & _ & H & _);
    [concrete|vm_compute; discriminate|concrete|concrete|reflexivity|reflexivity|concrete|concrete|].
  exists h1. exact H.
Defined.

End Parsing.

(** * Generated headers *)

Section GenerateSpec.
Import Ipv4PacketLittleEndian.
#[local] Arguments Ipv4PacketView.recalculate_ip_checksum : simpl never.

Lemma inside_nil h : inside [] [] h = h.
Proof. unfold inside. by rewrite app_nil_r. Qed.

(** A view over a 20-byte header with no options checksums it as the object does. *)
Lemma view_checksum_20 h :
  bytes h -> msize h = 20 ->
  exists h', Ipv4PacketView.recalculate_ip_checksum h (Ipv4PacketView.mk 0 20 0) = Some h' /\
    bytes h' /\ msize h' = 20 /\
    (forall q, q <> 10 -> q <> 11 -> load h' q = load h q) /\ verifies (total h').
Proof.
  intros Hh Hs. destruct (store16_in h 10 0) as [h0 H0]; [lia|lia|].
  pose proof (store16_bytes _ _ _ _ Hh H0) as Hb0. pose proof (store16_size _ _ _ _ H0) as Hs0.
  destruct (store16_in h0 10 (complement (ones_sum (total h0)))) as [h' H1]; [lia|lia|].
  exists h'. split_and!.
  - pose proof (view_recalculate [] [] h (Ipv4PacketView.mk 0 20 0) eq_refl eq_refl Hs h') as R.
    rewrite !inside_nil in R. apply R.
    rewrite (recalculate_ip_checksum_eq h h0); [done|done|by rewrite Hs|lia|done].
  - by apply (store16_bytes _ _ _ _ Hb0 H1).
  - by rewrite (store16_size _ _ _ _ H1), Hs0.
  - intros q H10 H11. rewrite (load_store16 _ _ _ _ _ H1), (load_store16 _ _ _ _ _ H0).
    by rewrite !decide_False by lia.
  - apply (checksum_store h 10 h0 h' 0); done.
Qed.

(** The flag bits of byte 6. *)
Lemma flags_byte DF MF r :
  0 <= r < 32 ->
  let x := u8 (Z.lor (Z.lor (Z.lor (Z.shiftl 0 7) (Z.shiftl (Z.b2z DF) 6))
                       (Z.shiftl (Z.b2z MF) 5)) r) in
  Z.land (Z.shiftr (Z.shiftr x 5) 1) 1 = Z.b2z DF /\ Z.land (Z.shiftr x 5) 1 = Z.b2z MF.
Proof.
  intros Hr.
  assert (H : forallb (fun r => forallb (fun D => forallb (fun M =>
      let x := u8 (Z.lor (Z.lor (Z.lor (Z.shiftl 0 7) (Z.shiftl (Z.b2z D) 6))
                           (Z.shiftl (Z.b2z M) 5)) r) in
      (Z.land (Z.shiftr (Z.shiftr x 5) 1) 1 =? Z.b2z D) &&
      (Z.land (Z.shiftr x 5) 1 =? Z.b2z M)) [true; false]) [true; false]) (seqZ 0 32) = true)
    by (by vm_compute).
  rewrite forallb_forall in H. specialize (H r). rewrite forallb_forall in H.
  specialize (H ltac:(apply list_elem_of_In, elem_of_seqZ; lia) DF).
  rewrite forallb_forall in H. specialize (H ltac:(destruct DF; simpl; auto) MF).
  specialize (H ltac:(destruct MF; simpl; auto)).
  apply andb_true_iff in H as [?%Z.eqb_eq ?%Z.eqb_eq]. done.
Qed.

(** The header before its checksum is filled in. *)
Definition layout (len id fl offset proto : Z) (src dst : list Z) : mem :=
  [69; 0; u8 (Z.shiftr len 8); u8 (Z.land len 255); u8 (Z.shiftr id 8); u8 (Z.land id 255);
   fl; u8 (Z.land offset 255); 64; u8 proto; 0; 0] ++ src ++ dst.

Definition flags_offset (DF MF : bool) (offset : Z) : Z :=
  u8 (Z.lor (Z.lor (Z.lor (Z.shiftl 0 7) (Z.shiftl (Z.b2z DF) 6)) (Z.shiftl (Z.b2z MF) 5))
        (Z.land (Z.shiftr offset 11) 31)).

Lemma generate_layout last s0 s1 s2 s3 d0 d1 d2 d3 proto len DF MF offset :
  0 <= len < 65516 ->
  let id := if negb MF && (offset =? 0) && negb (last =? 0) then u16 (last + 1) else last in
  generate_object_bytes (IPv4DefaultGenStrategy.mk last) [s0; s1; s2; s3] [d0; d1; d2; d3]
    proto len DF MF offset =
  h ← Ipv4PacketView.recalculate_ip_checksum
        (layout (len + 20) id (flags_offset DF MF offset) offset proto
           [s0; s1; s2; s3] [d0; d1; d2; d3]) (Ipv4PacketView.mk 0 20 0);
  Some (h, IPv4DefaultGenStrategy.mk id).
Proof.
  intros Hlen id. unfold generate_object_bytes.
  cbn [get_ver get_header_length get_qos get_id get_next_id get_additional_headers get_ttl
       IPv4DefaultGenStrategy_like].
  unfold IPv4DefaultGenStrategy.get_ver, IPv4DefaultGenStrategy.get_header_length,
    IPv4DefaultGenStrategy.get_id, IPv4DefaultGenStrategy.get_next_id,
    IPv4DefaultGenStrategy.get_additional_headers, IPv4DefaultGenStrategy.get_ttl.
  cbn [IPv4DefaultGenStrategy.last_id_].
  replace (if negb MF && (offset =? 0) && negb (last =? 0)
           then (u16 (last + 1), IPv4DefaultGenStrategy.mk (u16 (last + 1)))
           else (last, IPv4DefaultGenStrategy.mk last))
    with (id, IPv4DefaultGenStrategy.mk id) by (subst id; by case_match).
  change (NetAddr.to_ipv4 [s0; s1; s2; s3]) with (Some [s0; s1; s2; s3]).
  change (NetAddr.to_ipv4 [d0; d1; d2; d3]) with (Some [d0; d1; d2; d3]).
  unfold IPv4Address.to_bytes. cbn [mbind option_bind app]. cbv zeta.
  change (5 + msize [] / 4) with 5. change (5 * 4) with 20.
  change (u8 (Z.lor (Z.shiftl IPv4 4) (Z.land 5 15))) with 69.
  change (u8 (IPv4DefaultGenStrategy.get_qos _)) with 0. change (u8 64) with 64.
  assert (u64 (len + 20) = len + 20) as -> by (unfold u64; rewrite Z.mod_small; lia).
  reflexivity.
Qed.

Lemma layout_bytes len id fl offset proto src dst :
  is_u8 fl -> bytes src -> bytes dst -> bytes (layout len id fl offset proto src dst).
Proof.
  intros Hf Hs Hd. unfold layout. apply bytes_app. split; [|by apply bytes_app].
  repeat first [apply Forall_cons_2 | apply Forall_nil_2];
    auto with qvpn; unfold is_u8; lia.
Qed.

(** The two casts of a length or identification are its octets. *)
Lemma cat16_casts v : is_u16 v -> cat16 (u8 (Z.shiftr v 8)) (u8 (Z.land v 255)) = v.
Proof.
  intros Hv. unfold is_u16 in Hv. change 255 with (Z.ones 8). rewrite Z.land_ones by lia.
  rewrite Z.shiftr_div_pow2 by lia. change (2 ^ 8) with 256.
  unfold u8. rewrite cat16_spec by (apply Z.mod_pos_bound; lia).
  Z.div_mod_to_equations. lia.
Qed.

(** The generated header, field by field. *)
Lemma ipv4_generate_fields last src dst proto len DF MF offset :
  bytes src -> bytes dst -> msize src = 4 -> msize dst = 4 -> is_u16 last ->
  is_u8 proto -> 0 <= len < 65516 -> is_u16 offset ->
  let id := if negb MF && (offset =? 0) && negb (last =? 0) then u16 (last + 1) else last in
  exists h, generate_object_bytes (IPv4DefaultGenStrategy.mk last) src dst proto len DF MF offset
            = Some (h, IPv4DefaultGenStrategy.mk id) /\
    bytes h /\ msize h = 20 /\ get_ip_version h = Some IPv4 /\ get_ip_header_length h = Some 5 /\
    get_ip_total_length h = Some (len + 20) /\ get_ip_id h = Some id /\
    get_ip_df_flag h = Some (Z.b2z DF) /\ get_ip_mf_flag h = Some (Z.b2z MF) /\
    get_ip_ttl h = Some 64 /\ get_ip_protocol h = Some proto /\
    get_src_addr h = Some src /\ get_dst_addr h = Some dst /\ verifies (total h).
Proof.
  intros Hs Hd Ls Ld Hlast Hp Hlen Hoff id.
  destruct (list4 src Ls) as (s0 & s1 & s2 & s3 & ->).
  destruct (list4 dst Ld) as (d0 & d1 & d2 & d3 & ->).
  assert (Hid : is_u16 id) by (subst id; case_match; auto with qvpn).
  assert (Hr : 0 <= Z.land (Z.shiftr offset 11) 31 < 32).
  { change 31 with (Z.ones 5). rewrite Z.land_ones by lia. by apply Z.mod_pos_bound. }
  pose proof (generate_layout last s0 s1 s2 s3 d0 d1 d2 d3 proto len DF MF offset Hlen) as Hg.
  cbv zeta in Hg. fold id in Hg. set (h0 := layout _ _ _ _ _ _ _) in Hg.
  assert (Hb0 : bytes h0) by (apply layout_bytes; [apply u8_is_u8|done|done]).
  destruct (view_checksum_20 h0 Hb0 eq_refl) as (h & Hv & Hb & Hsz & Hq & Hver).
  exists h. rewrite Hg, Hv. clear Hg Hv.
  unfold get_ip_version, get_ip_header_length, get_ip_total_length, get_ip_id, get_ip_df_flag,
    get_ip_mf_flag, get_ip_flags, get_ip_ttl, get_ip_protocol, load16.
  rewrite !Hq by lia. split_and!; [done|done|done|done|done| | | | |done| | | |done].
  - refine (f_equal Some (cat16_casts _ _)). unfold is_u16. lia.
  - refine (f_equal Some (cat16_casts _ Hid)).
  - refine (f_equal Some (proj1 (flags_byte DF MF _ Hr))).
  - refine (f_equal Some (proj2 (flags_byte DF MF _ Hr))).
  - refine (f_equal Some (u8_id _ Hp)).
  - apply range_eq; [lia|lia|done|]. intros i Hi. rewrite Hq by lia.
    change (msize [s0; s1; s2; s3]) with 4 in Hi.
    assert (i = 0 \/ i = 1 \/ i = 2 \/ i = 3) as [->|[->|[->| ->]]] by lia; done.
  - apply range_eq; [lia|lia|done|]. intros i Hi. rewrite Hq by lia.
    change (msize [d0; d1; d2; d3]) with 4 in Hi.
    assert (i = 0 \/ i = 1 \/ i = 2 \/ i = 3) as [->|[->|[->| ->]]] by lia; done.
Qed.

(** the header [generate_object_bytes] builds with the default strategy is a
    20-byte IPv4 header whose getters return the arguments: version 4, IHL 5,
    payload length plus 20, the flags, TTL 64, protocol and both addresses, and
    its checksum verifies.  The identification is the counter, advanced only
    when it is not zero. *)
Theorem ipv4_generate_spec last src dst proto len DF MF offset :
  bytes src -> bytes dst -> msize src = 4 -> msize dst = 4 -> is_u16 last ->
  is_u8 proto -> 0 <= len < 65516 -> is_u16 offset ->
  let id := if negb MF && (offset =? 0) && negb (last =? 0) then u16 (last + 1) else last in
  exists h, generate_object_bytes (IPv4DefaultGenStrategy.mk last) src dst proto len DF MF offset
            = Some (h, IPv4DefaultGenStrategy.mk id) /\
    bytes h /\ msize h = 20 /\ get_ip_version h = Some IPv4 /\ get_ip_header_length h = Some 5 /\
    get_ip_total_length h = Some (len + 20) /\ get_ip_id h = Some id /\
    get_ip_df_flag h = Some (Z.b2z DF) /\ get_ip_mf_flag h = Some (Z.b2z MF) /\
    get_ip_ttl h = Some 64 /\ get_ip_protocol h = Some proto /\
    get_src_addr h = Some src /\ get_dst_addr h = Some dst /\ verifies (total h).
Proof. apply ipv4_generate_fields. Qed.

Lemma ipv4_generate_spec_witness :
  exists h, generate_object_bytes (IPv4DefaultGenStrategy.mk 5) [10; 0; 0; 1] [10; 0; 0; 2] 6 100
              true false 0 = Some (h, IPv4DefaultGenStrategy.mk 6) /\ verifies (total h).
Proof.
  destruct (ipv4_generate_spec 5 [10; 0; 0; 1] [10; 0; 0; 2] 6 100 true false 0)
    as (h & H & _ & _ & _ & _ & _ & _ & _ & _ & _ & _ & _ & _ & Hv);
    [concrete|concrete|reflexivity|reflexivity|concrete|concrete|lia|concrete|].
  exists h. split; [exact H|exact Hv].
Defined.

End GenerateSpec.
