(* ===== verification/Tcp.v ===== *)
(** TCP headers: [TcpPacketLittleEndian] and [TcpPacketView]
    (src/QVPN/QVPN Lib/src/qvpn_structures.cpp).  The object owns the vector
    [header_]; the view points into a buffer [b].  Payloads and option bytes are
    ranges of a buffer. *)
From S2P Require Import Prelude Checksum Addr Transport.

Definition default_tcp_quart_size : Z := 5.
Definition default_tcp_size : Z := default_tcp_quart_size * 4.

(** * The view *)
Module TcpPacketView.

Record t := mk { tcp_header_ : Z; options_ : Z; tcp_options_size : Z }.

Definition tcp_header_size : Z := 20.

Definition at_ (b : mem) (v : t) (i : Z) : option Z := load b (tcp_header_ v + i).

Definition parse_packet (b : mem) (begin_ end_ : Z) : option t :=
  let start := begin_ + default_tcp_size in
  len ← (a ← load b (begin_ + 12); Some (Z.shiftr a 4));
  let e := start + (len - default_tcp_quart_size) * 4 in
  Some (mk begin_ start (e - start)).
Definition make := parse_packet.
Definition set_data := parse_packet.

Definition get_size (v : t) : Z := u16 (tcp_header_size + tcp_options_size v).
Definition get_tcp_options (v : t) : Z * Z := (options_ v, options_ v + tcp_options_size v).
Definition get_tcp_header (v : t) : Z * Z := (tcp_header_ v, tcp_header_ v + tcp_header_size).
Definition to_bytes (v : t) : Z * Z := (tcp_header_ v, options_ v + tcp_options_size v).
Definition to_transport_bytes (v : t) : Z * Z := (tcp_header_ v, options_ v + tcp_options_size v).
Definition to_view (b : mem) (v : t) : option t :=
  make b (tcp_header_ v) (options_ v + tcp_options_size v).
Definition to_transport_view (b : mem) (v : t) : option t :=
  make b (tcp_header_ v) (options_ v + tcp_options_size v).
Definition get_tcp_src_port (b : mem) (v : t) : option Z := load16 b (tcp_header_ v + 0).
Definition get_tcp_dst_port (b : mem) (v : t) : option Z := load16 b (tcp_header_ v + 2).
Definition get_tcp_seq_number (b : mem) (v : t) : option Z := load32 b (tcp_header_ v + 4).
Definition get_tcp_ack_number (b : mem) (v : t) : option Z := load32 b (tcp_header_ v + 8).
Definition get_tcp_header_length (b : mem) (v : t) : option Z := a ← at_ b v 12; Some (Z.shiftr a 4).
Definition get_tcp_reserved (b : mem) (v : t) : option Z :=
  a ← at_ b v 12; Some (Z.land a 15).
(** NS is shifted by one position, not by eight. *)
Definition get_tcp_flags (b : mem) (v : t) : option Z :=
  a ← at_ b v 12; c ← at_ b v 13;
  Some (TcpFlagsObject.of_short (u16 (Z.lor (Z.shiftl (Z.land a 1) 1) c))).
Definition get_tcp_window_size (b : mem) (v : t) : option Z := load16 b (tcp_header_ v + 14).
Definition get_tcp_checksum (b : mem) (v : t) : option Z := load16 b (tcp_header_ v + 16).
Definition get_tcp_urgent_pointer (b : mem) (v : t) : option Z := load16 b (tcp_header_ v + 18).
Definition protocol_criteria (protocol : Z) : bool := protocol =? TCP.
Definition get_src_port (b : mem) (v : t) : option Z := get_tcp_src_port b v.
Definition get_dst_port (b : mem) (v : t) : option Z := get_tcp_dst_port b v.
Definition get_transport_length (b : mem) (v : t) : option Z :=
  l ← get_tcp_header_length b v; Some (u16 (l * 4)).
Definition get_sender_number (b : mem) (v : t) : option Z := get_tcp_seq_number b v.
Definition get_receiver_number (b : mem) (v : t) : option Z := get_tcp_ack_number b v.
Definition get_flags (b : mem) (v : t) : option Z :=
  f ← get_tcp_flags b v; Some (TcpFlagsObject.to_short f).
Definition is_reset_connection_packet (b : mem) (v : t) : option bool :=
  flags ← get_tcp_flags b v;
  Some ((TcpFlagsObject.get_fin flags =? 1) || (TcpFlagsObject.get_rst flags =? 1)).
Definition set_tcp_checksum (b : mem) (v : t) (checksum : Z) : option mem := store16 b (tcp_header_ v + 16) checksum.
Definition set_transport_checksum (b : mem) (v : t) (checksum : Z) : option mem :=
  set_tcp_checksum b v checksum.
Definition set_tcp_seq_number (b : mem) (v : t) (number : Z) : option mem := store32 b (tcp_header_ v + 4) number.
Definition set_tcp_ack_number (b : mem) (v : t) (number : Z) : option mem := store32 b (tcp_header_ v + 8) number.
(** NS is or-ed in and never cleared. *)
Definition set_tcp_flags (b : mem) (v : t) (flags : Z) : option mem :=
  a ← at_ b v 12;
  b ← store b (tcp_header_ v + 12) (u8 (Z.lor a (TcpFlagsObject.get_ns flags)));
  store b (tcp_header_ v + 13) (TcpFlagsObject.get_without_ns flags).
Definition set_sender_number (b : mem) (v : t) (number : Z) : option mem := set_tcp_seq_number b v number.
Definition set_receiver_number (b : mem) (v : t) (number : Z) : option mem := set_tcp_ack_number b v number.
Definition set_flags (b : mem) (v : t) (flags : Z) : option mem :=
  set_tcp_flags b v (TcpFlagsObject.of_short flags).
Definition set_dst_port (b : mem) (v : t) (port : Z) : option mem := store16 b (tcp_header_ v + 2) port.
Definition set_src_port (b : mem) (v : t) (port : Z) : option mem := store16 b (tcp_header_ v + 0) port.
Definition set_transport_length (b : mem) (v : t) (bytes_length : Z) : option mem :=
  a ← at_ b v 12;
  store b (tcp_header_ v + 12) (u8 (Z.lor a (Z.shiftl (bytes_length / 4) 4))).
Definition set_tcp_offset (b : mem) (v : t) (offset : Z) : option mem :=
  a ← at_ b v 12; store b (tcp_header_ v + 12) (u8 (Z.lor (Z.shiftl offset 4) (Z.land a 15))).
Definition set_tcp_window (b : mem) (v : t) (window : Z) : option mem := store16 b (tcp_header_ v + 14) window.
Definition set_tcp_urgent (b : mem) (v : t) (urgent : Z) : option mem := store16 b (tcp_header_ v + 18) urgent.
Definition set_tcp_length (b : mem) (v : t) (word_length : Z) : option mem :=
  a ← at_ b v 12; store b (tcp_header_ v + 12) (u8 (Z.lor a (Z.shiftl word_length 4))).

(** Refuses options longer than the present ones; records the new size. *)
Definition set_tcp_options (b : mem) (v : t) (begin_ end_ : Z) : option (mem * t) :=
  let size := end_ - begin_ in
  if tcp_options_size v <? size then Some (b, v)
  else if size <? 0 then None
  else
    b ← for_loop (Z.to_nat size) 0 size 1
          (fun i b => x ← load b (begin_ + i); store b (options_ v + i) x) b;
    Some (b, mk (tcp_header_ v) (options_ v) size).

Definition recalculate_transport_checksum (b : mem) (v : t) (pseudo_header : mem)
    (begin_ end_ : Z) : option mem :=
  let '(pb, pe) := TransportIpv4PseudoHeader.get_by_bytes pseudo_header in
  b ← set_tcp_checksum b v 0;
  sum ← sum_words pseudo_header pb pe 0;
  sum ← sum_words b (tcp_header_ v) (tcp_header_ v + tcp_header_size) sum;
  sum ← sum_words b (options_ v) (options_ v + tcp_options_size v) sum;
  sum ← sum_data b begin_ end_ sum;
  sum ← fold_carries sum;
  set_tcp_checksum b v (complement (u16 sum)).

End TcpPacketView.

(** * The object *)
Module TcpPacketLittleEndian.

Definition empty : mem := [].

Definition get_tcp_src_port (header_ : mem) : option Z := load16 header_ 0.
Definition get_tcp_dst_port (header_ : mem) : option Z := load16 header_ 2.
Definition get_tcp_seq_number (header_ : mem) : option Z := load32 header_ 4.
Definition get_tcp_ack_number (header_ : mem) : option Z := load32 header_ 8.
Definition get_tcp_header_length (header_ : mem) : option Z := a ← load header_ 12; Some (Z.shiftr a 4).
Definition get_tcp_reserved (header_ : mem) : option Z :=
  a ← load header_ 12; Some (Z.land (Z.shiftr a 1) 7).
(** NS is shifted by one position, not by eight. *)
Definition get_tcp_flags (header_ : mem) : option Z :=
  a ← load header_ 12; c ← load header_ 13;
  Some (TcpFlagsObject.of_short (u16 (Z.lor (Z.shiftl (Z.land a 1) 1) c))).
Definition get_tcp_window_size (header_ : mem) : option Z := load16 header_ 14.
Definition get_tcp_checksum (header_ : mem) : option Z := load16 header_ 16.
Definition get_tcp_urgent_pointer (header_ : mem) : option Z := load16 header_ 18.
Definition protocol_criteria (protocol : Z) : bool := protocol =? TCP.

(** Appends 20 bytes, then as many option bytes as the length nibble of
    [header_] announces. *)
Definition parse_packet (header_ m : mem) (begin_ end_ : Z) : option mem :=
  fixed ← range m begin_ (begin_ + default_tcp_size);
  let header_ := header_ ++ fixed in
  let start := begin_ + default_tcp_size in
  len ← get_tcp_header_length header_;
  rest ← range m start (start + (len - default_tcp_quart_size) * 4);
  Some (header_ ++ rest).
Definition make (m : mem) (begin_ end_ : Z) : option mem := parse_packet [] m begin_ end_.
(** [header_] is not cleared. *)
Definition set_data (header_ m : mem) (begin_ end_ : Z) : option mem :=
  parse_packet header_ m begin_ end_.

Definition get_size (header_ : mem) : Z := u16 (msize header_).
Definition get_tcp_options (header_ : mem) : Z * Z := (default_tcp_size, msize header_).
Definition to_bytes (header_ : mem) : Z * Z := (0, msize header_).
Definition to_transport_bytes (header_ : mem) : Z * Z := (0, msize header_).
Definition to_object (header_ : mem) : option mem := make header_ 0 (msize header_).
Definition to_transport_object (header_ : mem) : option mem := make header_ 0 (msize header_).
Definition to_view (header_ : mem) : option TcpPacketView.t :=
  TcpPacketView.make header_ 0 (msize header_).
Definition to_transport_view (header_ : mem) : option TcpPacketView.t :=
  TcpPacketView.make header_ 0 (msize header_).
Definition get_src_port (header_ : mem) : option Z := get_tcp_src_port header_.
Definition get_dst_port (header_ : mem) : option Z := get_tcp_dst_port header_.
Definition get_transport_length (header_ : mem) : option Z :=
  l ← get_tcp_header_length header_; Some (u16 (l * 4)).
Definition get_sender_number (header_ : mem) : option Z := get_tcp_seq_number header_.
Definition get_receiver_number (header_ : mem) : option Z := get_tcp_ack_number header_.
Definition get_flags (header_ : mem) : option Z :=
  f ← get_tcp_flags header_; Some (TcpFlagsObject.to_short f).
Definition is_reset_connection_packet (header_ : mem) : option bool :=
  flags ← get_tcp_flags header_;
  Some ((TcpFlagsObject.get_fin flags =? 1) || (TcpFlagsObject.get_rst flags =? 1)).
Definition set_tcp_checksum (header_ : mem) (checksum : Z) : option mem := store16 header_ 16 checksum.
Definition set_transport_checksum (header_ : mem) (checksum : Z) : option mem :=
  set_tcp_checksum header_ checksum.
Definition set_tcp_seq_number (header_ : mem) (number : Z) : option mem := store32 header_ 4 number.
Definition set_tcp_ack_number (header_ : mem) (number : Z) : option mem := store32 header_ 8 number.
(** NS is or-ed in and never cleared. *)
Definition set_tcp_flags (header_ : mem) (flags : Z) : option mem :=
  a ← load header_ 12;
  header_ ← store header_ 12 (u8 (Z.lor a (TcpFlagsObject.get_ns flags)));
  store header_ 13 (TcpFlagsObject.get_without_ns flags).
Definition set_sender_number (header_ : mem) (number : Z) : option mem := set_tcp_seq_number header_ number.
Definition set_receiver_number (header_ : mem) (number : Z) : option mem := set_tcp_ack_number header_ number.
Definition set_flags (header_ : mem) (flags : Z) : option mem :=
  set_tcp_flags header_ (TcpFlagsObject.of_short flags).
Definition set_dst_port (header_ : mem) (port : Z) : option mem := store16 header_ 2 port.
Definition set_src_port (header_ : mem) (port : Z) : option mem := store16 header_ 0 port.
Definition set_transport_length (header_ : mem) (bytes_length : Z) : option mem :=
  a ← load header_ 12;
  store header_ 12 (u8 (Z.lor a (Z.shiftl (u8 (bytes_length / 4)) 4))).
Definition set_tcp_offset (header_ : mem) (offset : Z) : option mem :=
  a ← load header_ 12; store header_ 12 (u8 (Z.lor (Z.shiftl offset 4) (Z.land a 15))).
Definition set_tcp_window (header_ : mem) (window : Z) : option mem := store16 header_ 14 window.
Definition set_tcp_urgent (header_ : mem) (urgent : Z) : option mem := store16 header_ 18 urgent.
Definition set_tcp_length (header_ : mem) (word_length : Z) : option mem :=
  a ← load header_ 12; store header_ 12 (u8 (Z.lor a (Z.shiftl word_length 4))).

(** Overwrites the options and appends what does not fit; a negative count,
    compared as unsigned, runs out of the vector. *)
Definition set_tcp_options (header_ m : mem) (begin_ end_ : Z) : option mem :=
  let '(old_b, old_e) := get_tcp_options header_ in
  let old_opt_size := old_e - old_b in
  let new_opt_size := end_ - begin_ in
  let size := Z.min new_opt_size old_opt_size in
  if size <? 0 then None
  else
    header_ ← for_loop (Z.to_nat size) 0 size 1
      (fun i h => x ← load m (begin_ + i); store h (default_tcp_size + i) x) header_;
    if old_opt_size <? new_opt_size then
      for_loop (Z.to_nat (new_opt_size - size)) size new_opt_size 1
        (fun i h => x ← load m (begin_ + i); Some (h ++ [x])) header_
    else Some header_.

Definition generate_object_bytes (m : mem) (src_port dst_port seq ack offset flags window_size
    urgent opt_b opt_e : Z) : option mem :=
  opts ← range m opt_b opt_e;
  Some ([octet 1 src_port; octet 0 src_port; octet 1 dst_port; octet 0 dst_port;
         octet 3 seq; octet 2 seq; octet 1 seq; octet 0 seq;
         octet 3 ack; octet 2 ack; octet 1 ack; octet 0 ack;
         u8 (Z.lor (Z.lor (Z.shiftl offset 4) 0) (Z.land (TcpFlagsObject.get_ns flags) 1));
         TcpFlagsObject.get_without_ns flags;
         octet 1 window_size; octet 0 window_size; 0; 0; octet 1 urgent; octet 0 urgent] ++ opts).

Definition generate_object (m : mem) (src_port dst_port seq ack offset flags window_size
    urgent opt_b opt_e : Z) : option mem :=
  bytes ← generate_object_bytes m src_port dst_port seq ack offset flags window_size urgent
            opt_b opt_e;
  make bytes 0 (msize bytes).

(** [begin_, end_) is the payload, in the buffer [m]. *)
Definition recalculate_transport_checksum (header_ pseudo_header m : mem) (begin_ end_ : Z) :
    option mem :=
  let '(pb, pe) := TransportIpv4PseudoHeader.get_by_bytes pseudo_header in
  header_ ← set_tcp_checksum header_ 0;
  sum ← sum_words pseudo_header pb pe 0;
  sum ← sum_words header_ 0 (msize header_) sum;
  sum ← sum_data m begin_ end_ sum;
  sum ← fold_carries sum;
  set_tcp_checksum header_ (complement (u16 sum)).

End TcpPacketLittleEndian.

(** [TcpPacketView::to_object] and [to_transport_object]. *)
Definition tcp_view_to_object (b : mem) (v : TcpPacketView.t) : option mem :=
  let '(s, e) := TcpPacketView.to_bytes v in TcpPacketLittleEndian.make b s e.
Definition tcp_view_to_transport_object (b : mem) (v : TcpPacketView.t) : option mem :=
  let '(s, e) := TcpPacketView.to_bytes v in TcpPacketLittleEndian.make b s e.

(** * The checksum *)

Section Checksum.
Import TcpPacketLittleEndian.

Lemma u16_ones s : is_u16 s -> complement (u16 s) = complement s.
Proof. intros. by rewrite u16_id. Qed.

(** The result in closed form. *)
Lemma tcp_checksum_eq h h0 ph m b e d :
  bytes ph -> bytes h -> bytes m -> Z.even (msize ph) = true -> Z.even (msize h) = true ->
  range m b e = Some d -> msize ph + msize h + msize d < 131000 ->
  store16 h 16 0 = Some h0 ->
  recalculate_transport_checksum h ph m b e =
  store16 h0 16 (complement (ones_sum (total ph + total d + total h0))).
Proof.
  intros Hph Hh Hm Eph Eh Hd Hsz H0.
  destruct (transport_sum 16 ph h m b e d Hph Hh Hm Eph Eh Hd Hsz h0 H0) as [Hsum Hu].
  unfold recalculate_transport_checksum, TransportIpv4PseudoHeader.get_by_bytes,
    set_tcp_checksum. rewrite H0. cbn [mbind option_bind].
  destruct (sum_words ph 0 (msize ph) 0) as [s1|]; [|done]. cbn [mbind option_bind] in *.
  destruct (sum_words h0 0 (msize h0) s1) as [s2|]; [|done]. cbn [mbind option_bind] in *.
  destruct (sum_data m b e s2) as [s3|]; [|done]. cbn [mbind option_bind] in *.
  rewrite Hsum. cbn [mbind option_bind]. by rewrite u16_ones.
Qed.

Lemma tcp_checksum_ok h ph m b e d :
  bytes ph -> bytes h -> bytes m -> Z.even (msize ph) = true -> Z.even (msize h) = true ->
  20 <= msize h -> range m b e = Some d -> msize ph + msize h + msize d < 131000 ->
  exists h', recalculate_transport_checksum h ph m b e = Some h' /\
    bytes h' /\ msize h' = msize h /\
    (forall q, q <> 16 -> q <> 17 -> load h' q = load h q) /\
    verifies (total ph + total h' + total d) /\
    recalculate_transport_checksum h' ph m b e = Some h'.
Proof.
  intros Hph Hh Hm Eph Eh Hl Hd Hsz.
  destruct (store16_in h 16 0) as [h0 H0]; [lia|lia|].
  destruct (store16_in h0 16 (complement (ones_sum (total ph + total d + total h0)))) as [h' H1];
    [lia|rewrite (store16_size _ _ _ _ H0); lia|].
  exists h'. rewrite (tcp_checksum_eq h h0 ph m b e d) by done. split; [done|].
  destruct (transport_checksum_verifies 16 ph h m b e d) with h0 h'
    as (Hb' & Hs' & Hq & Hv); [done || lia..|].
  split_and!; [done..|].
  rewrite (tcp_checksum_eq h' h0 ph m b e d); [done..|by rewrite Hs'|done|by rewrite Hs'|].
  by rewrite (store16_overwrite _ _ _ _ _ H1), (store16_overwrite _ _ _ _ _ H0).
Qed.

(** C32: [TcpPacketLittleEndian::recalculate_transport_checksum] is defined for a
    header of an even number (at least 20) of bytes and any payload, even or odd;
    only bytes 16 and 17 change; the one's complement sum over pseudo-header,
    header and zero-padded payload is then 0xFFFF; and it is idempotent. *)
Theorem tcp_checksum_verifies h ph m b e d :
  bytes ph -> bytes h -> bytes m -> Z.even (msize ph) = true -> Z.even (msize h) = true ->
  20 <= msize h -> range m b e = Some d -> msize ph + msize h + msize d < 131000 ->
  exists h', recalculate_transport_checksum h ph m b e = Some h' /\
    bytes h' /\ msize h' = msize h /\
    (forall q, q <> 16 -> q <> 17 -> load h' q = load h q) /\
    verifies (total ph + total h' + total d) /\
    recalculate_transport_checksum h' ph m b e = Some h'.
Proof. apply tcp_checksum_ok. Qed.

Lemma tcp_checksum_verifies_witness :
  exists h', recalculate_transport_checksum
      (repeat 7 20) [10; 0; 0; 1; 10; 0; 0; 2; 0; 6; 0; 23] [1; 2; 3; 4] 1 4 = Some h' /\
    verifies (total [10; 0; 0; 1; 10; 0; 0; 2; 0; 6; 0; 23] + total h' + total [2; 3; 4]).
Proof.
  destruct (tcp_checksum_verifies (repeat 7 20) [10; 0; 0; 1; 10; 0; 0; 2; 0; 6; 0; 23]
    [1; 2; 3; 4] 1 4 [2; 3; 4]) as (h' & H & _ & _ & _ & Hv & _);
    [concrete|concrete|concrete|reflexivity|reflexivity|vm_compute; discriminate|reflexivity|
     reflexivity|]. exists h'. split; [exact H|exact Hv].
Defined.

End Checksum.

(** * The view refines the object *)

Section Refinement.
Import TcpPacketLittleEndian.

Definition tcp_object_fields : list (mem -> option Z) :=
  [get_tcp_src_port; get_tcp_dst_port; get_tcp_seq_number; get_tcp_ack_number;
   get_tcp_header_length; get_tcp_flags; get_tcp_window_size; get_tcp_checksum;
   get_tcp_urgent_pointer; get_src_port; get_dst_port; get_transport_length;
   get_sender_number; get_receiver_number; get_flags].

Definition tcp_view_fields : list (mem -> TcpPacketView.t -> option Z) :=
  [TcpPacketView.get_tcp_src_port; TcpPacketView.get_tcp_dst_port;
   TcpPacketView.get_tcp_seq_number; TcpPacketView.get_tcp_ack_number;
   TcpPacketView.get_tcp_header_length; TcpPacketView.get_tcp_flags;
   TcpPacketView.get_tcp_window_size; TcpPacketView.get_tcp_checksum;
   TcpPacketView.get_tcp_urgent_pointer; TcpPacketView.get_src_port;
   TcpPacketView.get_dst_port; TcpPacketView.get_transport_length;
   TcpPacketView.get_sender_number; TcpPacketView.get_receiver_number;
   TcpPacketView.get_flags].

Definition tcp_object_setters : list (mem -> Z -> option mem) :=
  [set_tcp_checksum; set_transport_checksum; set_tcp_seq_number; set_tcp_ack_number;
   set_tcp_flags; set_sender_number; set_receiver_number; set_flags; set_dst_port;
   set_src_port; set_transport_length; set_tcp_offset; set_tcp_window; set_tcp_urgent;
   set_tcp_length].

Definition tcp_view_setters : list (mem -> TcpPacketView.t -> Z -> option mem) :=
  [TcpPacketView.set_tcp_checksum; TcpPacketView.set_transport_checksum;
   TcpPacketView.set_tcp_seq_number; TcpPacketView.set_tcp_ack_number;
   TcpPacketView.set_tcp_flags; TcpPacketView.set_sender_number;
   TcpPacketView.set_receiver_number; TcpPacketView.set_flags; TcpPacketView.set_dst_port;
   TcpPacketView.set_src_port; TcpPacketView.set_transport_length; TcpPacketView.set_tcp_offset;
   TcpPacketView.set_tcp_window; TcpPacketView.set_tcp_urgent; TcpPacketView.set_tcp_length].

(** The view's checksum over the header and a payload outside it. *)
Lemma tcp_view_recalculate pre post h ph b e d h' :
  bytes pre -> bytes post -> bytes h -> bytes ph ->
  Z.even (msize ph) = true -> Z.even (msize h) = true -> 20 <= msize h ->
  e <= msize pre \/ msize pre + msize h <= b ->
  range (inside pre post h) b e = Some d -> msize ph + msize h + msize d < 131000 ->
  recalculate_transport_checksum h ph (inside pre post h) b e = Some h' ->
  TcpPacketView.recalculate_transport_checksum (inside pre post h)
    (TcpPacketView.mk (msize pre) (msize pre + 20) (msize h - 20)) ph b e
  = Some (inside pre post h').
Proof.
  intros Hpre Hpost Hh Hph Eph Eh Hl Hout Hd Hsz H.
  destruct (store16_in h 16 0) as [h0 H0]; [lia|lia|].
  pose proof (store16_bytes _ _ _ _ Hh H0) as Hb0. pose proof (store16_size _ _ _ _ H0) as Hs0.
  assert (Hm : bytes (inside pre post h)) by (by apply inside_bytes).
  rewrite (tcp_checksum_eq h h0 ph _ b e d) in H by done.
  destruct (transport_sum 16 ph h _ b e d Hph Hh Hm Eph Eh Hd Hsz h0 H0) as [Hsum Hu].
  unfold TcpPacketView.recalculate_transport_checksum, TransportIpv4PseudoHeader.get_by_bytes,
    TcpPacketView.set_tcp_checksum, TcpPacketView.tcp_header_size. simpl.
  rewrite (store16_inside _ _ _ _ _ _ H0). cbn [mbind option_bind].
  destruct (sum_words ph 0 (msize ph) 0) as [s1|] eqn:E1; [|done]. cbn [mbind option_bind] in *.
  assert (U1 : is_u32 s1).
  { rewrite (sum_words_spec ph 0 (msize ph) ph) in E1;
      [injection E1 as <-; auto with qvpn|done|apply range_full|done|unfold is_u32; lia]. }
  destruct (sum_words_parts h0 20 s1) as (s2 & s2' & W1 & W2 & W); [done..|by rewrite Hs0|lia|].
  rewrite W in Hsum. clear W.
  apply (sum_words_inside pre post) in W1, W2. rewrite Z.add_0_r in W1. rewrite W1.
  cbn [mbind option_bind] in *.
  replace (msize pre + 20 + (msize h - 20)) with (msize pre + msize h0) by lia.
  rewrite W2. cbn [mbind option_bind].
  destruct (sum_data (inside pre post h) b e s2') as [s3|] eqn:E3; [|done].
  rewrite (sum_data_ext (inside pre post h) (inside pre post h0) b e s2' s3); [| |done].
  - cbn [mbind option_bind] in *. rewrite Hsum. cbn [mbind option_bind].
    rewrite u16_ones by done. by apply store16_inside.
  - intros i Hi. apply load_inside_out; [done|lia].
Qed.

(** The view keeps all bits of the length in words where the object keeps eight; what is stored
    is the same. *)
Lemma length_nibble a x : u8 (Z.lor a (Z.shiftl (u8 x) 4)) = u8 (Z.lor a (Z.shiftl x 4)).
Proof.
  unfold u8. change 256 with (2 ^ 8). apply Z.bits_inj'. intros n Hn.
  destruct (Z.ltb_spec n 8); [|by rewrite !Z.mod_pow2_bits_high by lia].
  rewrite !Z.mod_pow2_bits_low, !Z.lor_spec, !Z.shiftl_spec by lia. f_equal.
  destruct (Z.ltb_spec (n - 4) 0); [by rewrite !Z.testbit_neg_r by lia|]. by rewrite Z.mod_pow2_bits_low by lia.
Qed.

Lemma set_transport_length_refines pre post h n :
  refines_in pre post (set_transport_length h n)
    (TcpPacketView.set_transport_length (inside pre post h)
       (TcpPacketView.mk (msize pre) (msize pre + 20) (msize h - 20)) n).
Proof.
  unfold set_transport_length, TcpPacketView.set_transport_length, TcpPacketView.at_. cbn.
  apply refines_in_value; [apply load_refines|]. intros a _. rewrite length_nibble. apply store_refines.
Qed.

(** The view counts NS among the reserved bits. *)
Lemma reserved_bits a : Z.shiftr (Z.land a 15) 1 = Z.land (Z.shiftr a 1) 7.
Proof. by rewrite Z.shiftr_land. Qed.
#[local] Hint Resolve set_transport_length_refines : refine.

(** C37: a TCP view over a header anywhere in a buffer is the object with the header: they
    have the same size and bytes; every getter that gives a number gives the same one, but
    [get_tcp_reserved], which for the view includes the NS bit; every setter that takes a
    number, [set_transport_length] included, does to the header in the buffer what it does
    to the object, and nothing outside; and the checksum is recomputed alike for a payload
    elsewhere in the buffer.  ([set_tcp_options], which takes bytes, is not alike: the
    object grows where the view refuses.) *)
Theorem tcp_view_refines_object pre post h ph b e d :
  let m := inside pre post h in
  let v := TcpPacketView.mk (msize pre) (msize pre + 20) (msize h - 20) in
  TcpPacketView.get_size v = get_size h /\
  (let '(x, y) := TcpPacketView.to_bytes v in range m x y) = Some h /\
  Forall2 (fun o w => refines (o h) (w m v)) tcp_object_fields tcp_view_fields /\
  refines (get_tcp_reserved h) (r ← TcpPacketView.get_tcp_reserved m v; Some (Z.shiftr r 1)) /\
  Forall2 (fun o w => forall n, refines_in pre post (o h n) (w m v n))
    tcp_object_setters tcp_view_setters /\
  refines (is_reset_connection_packet h) (TcpPacketView.is_reset_connection_packet m v) /\
  (bytes m -> bytes ph -> Z.even (msize ph) = true -> Z.even (msize h) = true ->
   20 <= msize h -> e <= msize pre \/ msize pre + msize h <= b ->
   range m b e = Some d -> msize ph + msize h + msize d < 131000 ->
   refines_in pre post (recalculate_transport_checksum h ph m b e)
     (TcpPacketView.recalculate_transport_checksum m v ph b e)).
Proof.
  intros m v. split_and!.
  - unfold v, TcpPacketView.get_size, get_size. cbn. f_equal. unfold TcpPacketView.tcp_header_size. lia.
  - cbn. replace (msize pre + 20 + (msize h - 20)) with (msize pre + msize h) by lia. apply range_inside_all.
  - unfold tcp_object_fields, tcp_view_fields. refine_fields.
  - intros r (a & Ha & [= <-])%bind_Some. unfold TcpPacketView.get_tcp_reserved, TcpPacketView.at_. cbn.
    unfold m. rewrite (load_refines pre post h 12 a Ha). cbn. by rewrite reserved_bits.
  - unfold tcp_object_setters, tcp_view_setters.
    repeat (apply Forall2_cons; split); try apply Forall2_nil_2; intros; try by auto with refine.
    all: refine_setter.
  - refine_getter.
  - intros Hm Hph Eph Eh Hl Hout Hd Hsz h' H.
    apply bytes_app in Hm as [Hpre [Hh Hpost]%bytes_app].
    by apply (tcp_view_recalculate pre post h ph b e d).
Qed.

Lemma tcp_view_refines_object_witness :
  let h := repeat 80 20 in let ph := repeat 1 12 in
  refines_in [9; 9] [1; 2; 3] (recalculate_transport_checksum h ph (inside [9; 9] [1; 2; 3] h) 22 25)
    (TcpPacketView.recalculate_transport_checksum (inside [9; 9] [1; 2; 3] h)
       (TcpPacketView.mk 2 22 0) ph 22 25).
Proof.
  intros h ph.
  destruct (tcp_view_refines_object [9; 9] [1; 2; 3] h ph 22 25 [1; 2; 3]) as (_ & _ & _ & _ & _ & _ & H).
  apply H; [concrete|concrete|reflexivity|reflexivity|vm_compute; discriminate|right|reflexivity|
            reflexivity].
  vm_compute. discriminate.
Defined.

End Refinement.

(** * Parsing, generation and the flag byte *)

Section Fields.
Import TcpPacketLittleEndian.

(** [parse_packet] on an empty object in closed form. *)
Lemma tcp_make_eq m b e a :
  load m (b + 12) = Some a ->
  make m b e =
    fixed ← range m b (b + 20);
    rest ← range m (b + 20) (b + 20 + (Z.shiftr a 4 - 5) * 4);
    Some (fixed ++ rest).
Proof.
  intros Ha. unfold make, parse_packet. change default_tcp_size with 20.
  change default_tcp_quart_size with 5. cbn [app].
  destruct (range m b (b + 20)) as [f|] eqn:Hf; [|done]. cbn [mbind option_bind].
  destruct (range_Some _ _ _ _ Hf) as (_ & _ & _ & Hi).
  unfold get_tcp_header_length. rewrite Hi, Ha by lia. done.
Qed.

(** [TcpPacketLittleEndian(begin, end)] copies exactly the bytes that the length
    nibble announces when the buffer has them and is undefined when the nibble is
    below 5 or the header passes the end of the buffer.  [set_data] appends to the
    old header instead of replacing it: every getter of the object keeps returning
    the old header's fields. *)
Theorem tcp_parse_spec m b e a h :
  bytes m -> 0 <= b -> load m (b + 12) = Some a ->
  let len := 4 * Z.shiftr a 4 in
  (20 <= len -> b + len <= msize m ->
     exists h1, make m b e = Some h1 /\ range m b (b + len) = Some h1 /\
       get_transport_length h1 = Some len) /\
  (len < 20 \/ msize m < b + len -> make m b e = None) /\
  (forall h2, set_data h m b e = Some h2 ->
     Forall (fun g => refines (g h) (g h2)) tcp_object_fields).
Proof.
  intros Hm Hb0 Ha len. pose proof (load_Some _ _ _ Ha) as Hb.
  assert (Hr : 0 <= Z.shiftr a 4 <= 15).
  { pose proof (load_u8 _ _ _ Hm Ha) as H8. unfold is_u8 in H8.
    rewrite Z.shiftr_div_pow2 by lia. change (2 ^ 4) with 16. Z.div_mod_to_equations. lia. }
  subst len. rewrite (tcp_make_eq _ _ _ a) by done.
  replace (b + 20 + (Z.shiftr a 4 - 5) * 4) with (b + 4 * Z.shiftr a 4) by lia. split_and!.
  - intros H1 H2. destruct (range m b (b + 20)) as [f|] eqn:Hf; [|by rewrite range_in in Hf by lia].
    destruct (range m (b + 20) (b + 4 * Z.shiftr a 4)) as [r|] eqn:Hrest;
      [|by rewrite range_in in Hrest by lia].
    exists (f ++ r). pose proof (range_app _ _ _ _ _ _ Hf Hrest) as Hall.
    destruct (range_Some _ _ _ _ Hall) as (_ & _ & Hs & Hi). split_and!; [done|done|].
    unfold get_transport_length, get_tcp_header_length. rewrite Hi, Ha by lia. simpl.
    rewrite u16_id by (unfold is_u16; lia). f_equal. lia.
  - intros H. destruct (range m b (b + 20)) as [f|] eqn:Hf; [|done].
    apply range_order in Hf. cbn [mbind option_bind].
    unfold range. rewrite decide_False by lia. done.
  - intros h2 H. unfold set_data, parse_packet in H.
    apply bind_Some in H as (f & _ & (l & _ & (r & _ & [= <-])%bind_Some)%bind_Some).
    assert (inside [] (f ++ r) h = (h ++ f) ++ r) as <- by (unfold inside; by rewrite <- app_assoc).
    pose proof (load_refines [] (f ++ r) h). pose proof (load16_refines [] (f ++ r) h).
    pose proof (load32_refines [] (f ++ r) h).
    unfold tcp_object_fields. repeat (apply Forall_cons; split); [..|apply Forall_nil_2];
      repeat match goal with |- refines (?g _) (?g _) => unfold g end; eauto 20 with refine.
Qed.

Lemma tcp_parse_spec_witness :
  exists h1, make (repeat 80 40) 3 40 = Some h1 /\ get_transport_length h1 = Some 20.
Proof.
  destruct (tcp_parse_spec (repeat 80 40) 3 40 80 []) as (H & _ & _);
    [concrete|lia|reflexivity|].
  destruct H as (h1 & H & _ & Hl); [vm_compute; discriminate|vm_compute; discriminate|].
  exists h1. split; [exact H|exact Hl].
Defined.

Lemma offset_byte offset ns :
  0 <= offset < 16 -> 0 <= ns < 2 ->
  let x := u8 (Z.lor (Z.lor (Z.shiftl offset 4) 0) (Z.land ns 1)) in
  Z.shiftr x 4 = offset /\ Z.land x 1 = ns /\ is_u8 x.
Proof.
  intros Ho Hn. split_and!; [| |apply u8_is_u8].
  all: assert (H : forallb (fun o => forallb (fun n =>
      let x := u8 (Z.lor (Z.lor (Z.shiftl o 4) 0) (Z.land n 1)) in
      (Z.shiftr x 4 =? o) && (Z.land x 1 =? n)) [0; 1]) (seqZ 0 16) = true) by (by vm_compute);
    rewrite forallb_forall in H; specialize (H offset ltac:(apply list_elem_of_In, elem_of_seqZ; lia));
    rewrite forallb_forall in H;
    specialize (H ns ltac:(simpl; lia)); apply andb_true_iff in H as [?%Z.eqb_eq ?%Z.eqb_eq]; done.
Qed.

(** The byte of the low flags, with NS at the place where the getter looks. *)
Lemma flags_back flags :
  0 <= flags < 512 ->
  Some (u16 (Z.lor (Z.shiftl (TcpFlagsObject.get_ns flags) 1) (Z.land flags 255))) = Some flags
  <-> TcpFlagsObject.get_ns flags = 0.
Proof.
  intros Hf.
  assert (H : forallb (fun f => eqb
      (u16 (Z.lor (Z.shiftl (TcpFlagsObject.get_ns f) 1) (Z.land f 255)) =? f)
      (TcpFlagsObject.get_ns f =? 0)) (seqZ 0 512) = true) by (by vm_compute).
  rewrite forallb_forall in H.
  specialize (H flags ltac:(apply list_elem_of_In, elem_of_seqZ; lia)).
  apply eqb_prop in H.
  destruct (Z.eqb_spec (u16 (Z.lor (Z.shiftl (TcpFlagsObject.get_ns flags) 1) (Z.land flags 255))) flags)
    as [E|E]; symmetry in H; [apply Z.eqb_eq in H|apply Z.eqb_neq in H]; split; congruence.
Qed.

(** The header generated, field by field; NS is put where the getter shifts it by one. *)
Lemma tcp_generate_fields m sp dp seq ack off flags win urg ob oe opts :
  is_u16 sp -> is_u16 dp -> is_u32 seq -> is_u32 ack -> 0 <= off < 16 -> 0 <= flags < 512 ->
  is_u16 win -> is_u16 urg -> range m ob oe = Some opts ->
  exists h, generate_object_bytes m sp dp seq ack off flags win urg ob oe = Some h /\
    get_tcp_src_port h = Some sp /\ get_tcp_dst_port h = Some dp /\
    get_tcp_seq_number h = Some seq /\ get_tcp_ack_number h = Some ack /\
    get_tcp_header_length h = Some off /\ get_tcp_window_size h = Some win /\
    get_tcp_urgent_pointer h = Some urg /\ get_tcp_checksum h = Some 0 /\
    range h 20 (msize h) = Some opts /\ msize h = 20 + msize opts /\
    get_tcp_flags h =
      Some (u16 (Z.lor (Z.shiftl (TcpFlagsObject.get_ns flags) 1) (Z.land flags 255))) /\
    (bytes opts -> bytes h) /\
    load h 12 = Some (u8 (Z.lor (Z.lor (Z.shiftl off 4) 0) (Z.land (TcpFlagsObject.get_ns flags) 1))) /\
    load h 13 = Some (TcpFlagsObject.get_without_ns flags).
Proof.
  intros Hsp Hdp Hseq Hack Hoff Hfl Hwin Hurg Hopts.
  assert (Hns : 0 <= TcpFlagsObject.get_ns flags < 2).
  { unfold TcpFlagsObject.get_ns. rewrite land1_bit by lia. destruct (Z.testbit flags 8); simpl; lia. }
  destruct (offset_byte off _ Hoff Hns) as (B1 & B2 & B3).
  unfold generate_object_bytes. rewrite Hopts. eexists. split; [reflexivity|]. split_and!.
  - refine (f_equal Some (cat16_octets _ Hsp)).
  - refine (f_equal Some (cat16_octets _ Hdp)).
  - refine (f_equal Some (cat32_octets _ Hseq)).
  - refine (f_equal Some (cat32_octets _ Hack)).
  - refine (f_equal Some B1).
  - refine (f_equal Some (cat16_octets _ Hwin)).
  - refine (f_equal Some (cat16_octets _ Hurg)).
  - done.
  - rewrite msize_app. set (hd := [_; _; _; _; _; _; _; _; _; _; _; _; _; _; _; _; _; _; _; _]).
    rewrite range_app_r by (by vm_compute). change (msize hd) with 20.
    replace (20 + msize opts - 20) with (msize opts) by lia. apply range_full.
  - by rewrite msize_app.
  - refine (f_equal (fun n => Some (u16 (Z.lor (Z.shiftl n 1) (Z.land flags 255)))) B2).
  - intros Ho. apply bytes_app. split; [|done].
    repeat first [apply Forall_cons_2 | apply Forall_nil_2]; auto with qvpn; try (unfold is_u8; lia).
    unfold TcpFlagsObject.get_without_ns. rewrite <- (Z.shiftr_0_r flags). by apply (octet_u8 0).
  - done.
  - done.
Qed.

(** a TCP header from [generate_object_bytes] gives back, through the getters,
    the ports, both numbers, the length in words, window and urgent pointer it was
    built from, has checksum zero and ends with the options; the flags come back
    too when NS is clear, and never when NS is set. *)
Theorem tcp_generate_spec m sp dp seq ack off flags win urg ob oe opts :
  is_u16 sp -> is_u16 dp -> is_u32 seq -> is_u32 ack -> 0 <= off < 16 -> 0 <= flags < 512 ->
  is_u16 win -> is_u16 urg -> range m ob oe = Some opts ->
  exists h, generate_object_bytes m sp dp seq ack off flags win urg ob oe = Some h /\
    get_tcp_src_port h = Some sp /\ get_tcp_dst_port h = Some dp /\
    get_tcp_seq_number h = Some seq /\ get_tcp_ack_number h = Some ack /\
    get_tcp_header_length h = Some off /\ get_tcp_window_size h = Some win /\
    get_tcp_urgent_pointer h = Some urg /\ get_tcp_checksum h = Some 0 /\
    range h 20 (msize h) = Some opts /\ msize h = 20 + msize opts /\
    (get_tcp_flags h = Some flags <-> TcpFlagsObject.get_ns flags = 0).
Proof.
  intros Hsp Hdp Hseq Hack Hoff Hfl Hwin Hurg Hopts.
  destruct (tcp_generate_fields m sp dp seq ack off flags win urg ob oe opts)
    as (h & Hg & H1 & H2 & H3 & H4 & H5 & H6 & H7 & H8 & H9 & H10 & H11 & _); [done..|].
  exists h. split_and!; [done..|]. rewrite H11. by apply flags_back.
Qed.

Lemma tcp_generate_spec_witness :
  exists h, generate_object_bytes [1; 1; 8; 10] 443 50000 1 2 6 18 64240 0 0 4 = Some h /\
    get_tcp_header_length h = Some 6 /\ get_tcp_flags h = Some 18.
Proof.
  destruct (tcp_generate_spec [1; 1; 8; 10] 443 50000 1 2 6 18 64240 0 0 4 [1; 1; 8; 10])
    as (h & H & _ & _ & _ & _ & Hl & _ & _ & _ & _ & _ & Hf);
    [concrete|concrete|concrete|concrete|lia|lia|concrete|concrete|reflexivity|].
  exists h. split; [exact H|]. split; [exact Hl|]. apply Hf. reflexivity.
Defined.

Lemma flag_bits a c :
  is_u8 c ->
  let f := u16 (Z.lor (Z.shiftl (Z.land a 1) 1) c) in
  (TcpFlagsObject.get_fin f =? 1) || (TcpFlagsObject.get_rst f =? 1) =
  Z.testbit c 0 || Z.testbit c 2.
Proof.
  intros Hc. assert (Ha : Z.land a 1 = 0 \/ Z.land a 1 = 1).
  { pose proof (land1_bit a 0 ltac:(lia)) as E. rewrite Z.shiftr_0_r in E. rewrite E.
    destruct (Z.testbit a 0); auto. }
  enough (H : forallb (fun n => eqb
      (let f := u16 (Z.lor (Z.shiftl n 1) c) in
       (TcpFlagsObject.get_fin f =? 1) || (TcpFlagsObject.get_rst f =? 1))
      (Z.testbit c 0 || Z.testbit c 2)) [0; 1] = true).
  { simpl in H. apply andb_true_iff in H as [H0 [H1 _]%andb_true_iff].
    apply eqb_prop in H0, H1. by destruct Ha as [-> | ->]. }
  revert c Hc. apply forall_u8. by vm_compute.
Qed.

(** [is_reset_connection_packet], on which the driver closes connections,
    answers true exactly when the FIN or the RST bit of the flag byte is set; the
    misplaced NS bit never affects it. *)
Theorem tcp_is_reset h a c :
  bytes h -> load h 12 = Some a -> load h 13 = Some c ->
  is_reset_connection_packet h = Some (Z.testbit c 0 || Z.testbit c 2).
Proof.
  intros Hh Ha Hc. unfold is_reset_connection_packet, get_tcp_flags. rewrite Ha, Hc.
  cbn [mbind option_bind]. f_equal. apply flag_bits. by apply (load_u8 h 13).
Qed.

Lemma tcp_is_reset_witness :
  is_reset_connection_packet (repeat 0 12 ++ [80; 20; 0; 0; 0; 0; 0; 0]) = Some true.
Proof.
  apply (tcp_is_reset (repeat 0 12 ++ [80; 20; 0; 0; 0; 0; 0; 0]) 80 20);
    [concrete|reflexivity|reflexivity].
Defined.

Lemma u8_bit x i : 0 <= i < 8 -> Z.testbit (u8 x) i = Z.testbit x i.
Proof. intros. unfold u8. change 256 with (2 ^ 8). by rewrite Z.mod_pow2_bits_low by lia. Qed.

(** the flag and length setters or their value into byte 12.  After
    [set_tcp_flags] the NS bit is the old bit or the new one, the seven high bits
    are kept and byte 13 is the new flag byte; after [set_transport_length] or
    [set_tcp_length] every length bit is the old bit or the new one.  So these
    setters can raise NS and the length but never lower them, unlike
    [set_tcp_offset], which replaces the nibble. *)
Theorem tcp_or_setters h a flags n h1 h2 h3 :
  load h 12 = Some a ->
  set_tcp_flags h flags = Some h1 -> set_transport_length h n = Some h2 ->
  set_tcp_offset h (n / 4) = Some h3 ->
  (exists x, load h1 12 = Some x /\
     Z.testbit x 0 = Z.testbit a 0 || Z.testbit flags 8 /\
     (forall i, 0 < i < 8 -> Z.testbit x i = Z.testbit a i)) /\
  load h1 13 = Some (TcpFlagsObject.get_without_ns flags) /\
  (exists x, load h2 12 = Some x /\
     forall i, 4 <= i < 8 -> Z.testbit x i = Z.testbit a i || Z.testbit (n / 4) (i - 4)) /\
  (exists x, load h3 12 = Some x /\
     forall i, 4 <= i < 8 -> Z.testbit x i = Z.testbit (n / 4) (i - 4)).
Proof.
  intros Ha H1 H2 H3.
  unfold set_tcp_flags, set_transport_length, set_tcp_offset in *. rewrite Ha in *.
  cbn [mbind option_bind] in *. apply bind_Some in H1 as (h0 & H0 & H1). split_and!.
  - eexists. rewrite (load_store _ _ _ _ _ H1), decide_False by lia.
    rewrite (load_store _ _ _ _ _ H0), decide_True by lia. split; [done|].
    unfold TcpFlagsObject.get_ns. rewrite land1_bit by lia. split.
    + rewrite u8_bit, Z.lor_spec by lia. f_equal. by destruct (Z.testbit flags 8).
    + intros i Hi. rewrite u8_bit, Z.lor_spec by lia.
      assert (Z.testbit (Z.b2z (Z.testbit flags 8)) i = false) as ->; [|apply orb_false_r].
      destruct (Z.testbit flags 8); simpl; [|apply Z.bits_0].
      change 1 with (2 ^ 0). rewrite Z.pow2_bits_false by lia. done.
  - by rewrite (load_store _ _ _ _ _ H1), decide_True by lia.
  - eexists. rewrite (load_store _ _ _ _ _ H2), decide_True by lia. split; [done|].
    intros i Hi. rewrite u8_bit, Z.lor_spec, Z.shiftl_spec by lia. f_equal.
    unfold u8. change 256 with (2 ^ 8). by rewrite Z.mod_pow2_bits_low by lia.
  - eexists. rewrite (load_store _ _ _ _ _ H3), decide_True by lia. split; [done|].
    intros i Hi. rewrite u8_bit, Z.lor_spec, Z.shiftl_spec, Z.land_spec by lia.
    change 15 with (Z.ones 4). rewrite Z.ones_spec_high by lia.
    by rewrite andb_false_r, orb_false_r.
Qed.

Lemma tcp_or_setters_witness :
  exists x, load (<[12%nat := 241]> (repeat 81 20)) 12 = Some x /\ Z.testbit x 5 = true.
Proof.
  destruct (tcp_or_setters (repeat 81 20) 81 18 40
    (<[13%nat := 18]> (<[12%nat := 81]> (repeat 81 20))) (<[12%nat := 241]> (repeat 81 20))
    (<[12%nat := 161]> (repeat 81 20))) as (_ & _ & (x & Hx & Hb) & _);
    [reflexivity|reflexivity|reflexivity|reflexivity|].
  exists x. split; [exact Hx|]. rewrite (Hb 5) by lia. reflexivity.
Defined.

End Fields.
