(* ===== verification/Udp.v ===== *)
(** UDP headers and payloads: [UdpPacketLittleEndian], [UdpPacketView],
    [DataPacketLittleEndian] and [DataPacketView]
    (src/QVPN/QVPN Lib/src/qvpn_structures.cpp). *)
From S2P Require Import Prelude Checksum Addr Transport.

(** * The view *)
Module UdpPacketView.

Record t := mk { header_ : Z }.
Definition udp_header_size : Z := 8.
Definition parse_packet (begin_ end_ : Z) : t := mk begin_.
Definition make := parse_packet.
Definition set_data := parse_packet.
Definition get_size (v : t) : Z := u16 udp_header_size.
Definition to_bytes (v : t) : Z * Z := (header_ v, header_ v + udp_header_size).
Definition to_transport_bytes (v : t) : Z * Z := (header_ v, header_ v + udp_header_size).
Definition to_view (v : t) : t := make (header_ v) (header_ v + udp_header_size).
Definition to_transport_view (v : t) : t := make (header_ v) (header_ v + udp_header_size).
Definition get_udp_src_port (b : mem) (v : t) : option Z := load16 b (header_ v + 0).
Definition get_udp_dst_port (b : mem) (v : t) : option Z := load16 b (header_ v + 2).
Definition get_udp_length (b : mem) (v : t) : option Z := load16 b (header_ v + 4).
Definition get_udp_checksum (b : mem) (v : t) : option Z := load16 b (header_ v + 6).
Definition protocol_criteria (protocol : Z) : bool := protocol =? UDP.
Definition get_src_port (b : mem) (v : t) : option Z := get_udp_src_port b v.
Definition get_dst_port (b : mem) (v : t) : option Z := get_udp_dst_port b v.
(** The byte count is multiplied by four, as if it were in words. *)
Definition get_transport_length (b : mem) (v : t) : option Z := l ← get_udp_length b v; Some (u16 (l * 4)).
Definition get_sender_number (b : mem) (v : t) : Z := 0.
Definition get_receiver_number (b : mem) (v : t) : Z := 0.
Definition get_flags (b : mem) (v : t) : Z := 0.
Definition is_reset_connection_packet (b : mem) (v : t) : bool := false.
Definition set_udp_checksum (b : mem) (v : t) (checksum : Z) : option mem := store16 b (header_ v + 6) checksum.
Definition set_transport_checksum (b : mem) (v : t) (checksum : Z) : option mem := set_udp_checksum b v checksum.
Definition set_dst_port (b : mem) (v : t) (port : Z) : option mem := store16 b (header_ v + 2) port.
Definition set_src_port (b : mem) (v : t) (port : Z) : option mem := store16 b (header_ v + 0) port.
Definition set_transport_length (b : mem) (v : t) (length : Z) : option mem := store16 b (header_ v + 4) length.
(** Setters without a body. *)
Definition set_sender_number (b : mem) (v : t) (number : Z) : option mem := Some b.
Definition set_receiver_number (b : mem) (v : t) (number : Z) : option mem := Some b.
Definition set_flags (b : mem) (v : t) (flags : Z) : option mem := Some b.

Definition recalculate_transport_checksum (b : mem) (v : t) (pseudo_header : mem)
    (begin_ end_ : Z) : option mem :=
  let '(pb, pe) := TransportIpv4PseudoHeader.get_by_bytes pseudo_header in
  b ← set_udp_checksum b v 0;
  sum ← sum_words pseudo_header pb pe 0;
  sum ← sum_words b (header_ v) (header_ v + udp_header_size) sum;
  sum ← sum_data b begin_ end_ sum;
  sum ← fold_carries sum;
  set_udp_checksum b v (complement (u16 sum)).

End UdpPacketView.

(** * The object *)
Module UdpPacketLittleEndian.

Definition empty : mem := [].
(** Appends the whole range: nothing limits it to the eight header bytes. *)
Definition parse_packet (header_ m : mem) (begin_ end_ : Z) : option mem :=
  l ← range m begin_ end_; Some (header_ ++ l).
Definition make (m : mem) (begin_ end_ : Z) : option mem := parse_packet [] m begin_ end_.
(** [header_] is not cleared. *)
Definition set_data (header_ m : mem) (begin_ end_ : Z) : option mem :=
  parse_packet header_ m begin_ end_.
Definition get_size (header_ : mem) : Z := u16 (msize header_).
Definition to_bytes (header_ : mem) : Z * Z := (0, msize header_).
Definition to_transport_bytes (header_ : mem) : Z * Z := (0, msize header_).
Definition to_object (header_ : mem) : option mem := make header_ 0 (msize header_).
Definition to_transport_object (header_ : mem) : option mem := make header_ 0 (msize header_).
Definition to_view (header_ : mem) : UdpPacketView.t := UdpPacketView.make 0 (msize header_).
Definition to_transport_view (header_ : mem) : UdpPacketView.t :=
  UdpPacketView.make 0 (msize header_).
Definition get_udp_src_port (header_ : mem) : option Z := load16 header_ 0.
Definition get_udp_dst_port (header_ : mem) : option Z := load16 header_ 2.
Definition get_udp_length (header_ : mem) : option Z := load16 header_ 4.
Definition get_udp_checksum (header_ : mem) : option Z := load16 header_ 6.
Definition protocol_criteria (protocol : Z) : bool := protocol =? UDP.
Definition get_src_port (header_ : mem) : option Z := get_udp_src_port header_.
Definition get_dst_port (header_ : mem) : option Z := get_udp_dst_port header_.
(** The byte count is multiplied by four, as if it were in words. *)
Definition get_transport_length (header_ : mem) : option Z := l ← get_udp_length header_; Some (u16 (l * 4)).
Definition get_sender_number (header_ : mem) : Z := 0.
Definition get_receiver_number (header_ : mem) : Z := 0.
Definition get_flags (header_ : mem) : Z := 0.
Definition is_reset_connection_packet (header_ : mem) : bool := false.
Definition set_udp_checksum (header_ : mem) (checksum : Z) : option mem := store16 header_ 6 checksum.
Definition set_transport_checksum (header_ : mem) (checksum : Z) : option mem := set_udp_checksum header_ checksum.
Definition set_dst_port (header_ : mem) (port : Z) : option mem := store16 header_ 2 port.
Definition set_src_port (header_ : mem) (port : Z) : option mem := store16 header_ 0 port.
Definition set_transport_length (header_ : mem) (length : Z) : option mem := store16 header_ 4 length.
(** Setters without a body. *)
Definition set_sender_number (header_ : mem) (number : Z) : option mem := Some header_.
Definition set_receiver_number (header_ : mem) (number : Z) : option mem := Some header_.
Definition set_flags (header_ : mem) (flags : Z) : option mem := Some header_.

Definition generate_object_bytes (src_port dst_port length : Z) : mem :=
  [octet 1 src_port; octet 0 src_port; octet 1 dst_port; octet 0 dst_port;
   octet 1 length; octet 0 length; 0; 0].
Definition generate_object (src_port dst_port length : Z) : option mem :=
  let bytes := generate_object_bytes src_port dst_port length in make bytes 0 (msize bytes).

Definition recalculate_transport_checksum (header_ pseudo_header m : mem) (begin_ end_ : Z) :
    option mem :=
  let '(pb, pe) := TransportIpv4PseudoHeader.get_by_bytes pseudo_header in
  header_ ← set_udp_checksum header_ 0;
  sum ← sum_words pseudo_header pb pe 0;
  sum ← sum_words header_ 0 (msize header_) sum;
  sum ← sum_data m begin_ end_ sum;
  sum ← fold_carries sum;
  set_udp_checksum header_ (complement (u16 sum)).

End UdpPacketLittleEndian.

(** [UdpPacketView::to_object] and [to_transport_object]. *)
Definition udp_view_to_object (b : mem) (v : UdpPacketView.t) : option mem :=
  let '(s, e) := UdpPacketView.to_bytes v in UdpPacketLittleEndian.make b s e.
Definition udp_view_to_transport_object (b : mem) (v : UdpPacketView.t) : option mem :=
  let '(s, e) := UdpPacketView.to_bytes v in UdpPacketLittleEndian.make b s e.

(** * Payloads *)
Module DataPacketView.

Record t := mk { data_ : Z; data_size_ : Z }.
Definition make (begin_ end_ : Z) : t := mk begin_ (end_ - begin_).
Definition set_data := make.
Definition get_payload (v : t) : Z * Z := (data_ v, data_ v + data_size_ v).
Definition to_data_bytes (v : t) : Z * Z := (data_ v, data_ v + data_size_ v).
Definition to_bytes (v : t) : Z * Z := (data_ v, data_ v + data_size_ v).
Definition to_view (v : t) : t := make (data_ v) (data_ v + data_size_ v).
Definition to_data_view (v : t) : t := make (data_ v) (data_ v + data_size_ v).
Definition get_size (v : t) : Z := u16 (data_size_ v).
(** A payload longer than the present one is ignored. *)
Definition set_payload (b : mem) (v : t) (src : mem) (begin_ end_ : Z) : option (mem * t) :=
  let size := end_ - begin_ in
  if data_size_ v <? size then Some (b, v)
  else
    l ← range src begin_ end_;
    b ← blit b (data_ v) l;
    Some (b, mk (data_ v) size).
Definition to_data_friendly_view (v : t) : string :=
  ("Data size: " +:+ dec (data_size_ v) +:+ " bytes")%string.

End DataPacketView.

Module DataPacketLittleEndian.

Definition empty : mem := [].
Definition make (m : mem) (begin_ end_ : Z) : option mem := range m begin_ end_.
Definition get_payload (data_ : mem) : Z * Z := (0, msize data_).
Definition get_size (data_ : mem) : Z := u16 (msize data_).
Definition set_payload (data_ m : mem) (begin_ end_ : Z) : option mem := range m begin_ end_.
Definition set_data (data_ m : mem) (begin_ end_ : Z) : option mem := range m begin_ end_.
Definition to_data_bytes (data_ : mem) : Z * Z := (0, msize data_).
Definition to_bytes (data_ : mem) : Z * Z := (0, msize data_).
Definition to_object (data_ : mem) : option mem := make data_ 0 (msize data_).
Definition to_data_object (data_ : mem) : option mem := make data_ 0 (msize data_).
Definition to_view (data_ : mem) : DataPacketView.t := DataPacketView.make 0 (msize data_).
Definition to_data_view (data_ : mem) : DataPacketView.t := DataPacketView.make 0 (msize data_).
Definition to_data_friendly_view (data_ : mem) : string :=
  ("Data size: " +:+ dec (msize data_) +:+ " bytes")%string.

End DataPacketLittleEndian.

(** [DataPacketView::to_object] and [to_data_object]. *)
Definition data_view_to_object (b : mem) (v : DataPacketView.t) : option mem :=
  let '(s, e) := DataPacketView.to_bytes v in DataPacketLittleEndian.make b s e.
Definition data_view_to_data_object (b : mem) (v : DataPacketView.t) : option mem :=
  let '(s, e) := DataPacketView.to_bytes v in DataPacketLittleEndian.make b s e.

(** * Properties *)

Section UdpProperties.
Import UdpPacketLittleEndian.

Lemma udp_checksum_eq h h0 ph m b e d :
  bytes ph -> bytes h -> bytes m -> Z.even (msize ph) = true -> Z.even (msize h) = true ->
  range m b e = Some d -> msize ph + msize h + msize d < 131000 ->
  store16 h 6 0 = Some h0 ->
  recalculate_transport_checksum h ph m b e =
  store16 h0 6 (complement (ones_sum (total ph + total d + total h0))).
Proof.
  intros Hph Hh Hm Eph Eh Hd Hsz H0.
  destruct (transport_sum 6 ph h m b e d Hph Hh Hm Eph Eh Hd Hsz h0 H0) as [Hsum Hu].
  unfold recalculate_transport_checksum, TransportIpv4PseudoHeader.get_by_bytes,
    set_udp_checksum. rewrite H0. cbn [mbind option_bind].
  destruct (sum_words ph 0 (msize ph) 0) as [s1|]; [|done]. cbn [mbind option_bind] in *.
  destruct (sum_words h0 0 (msize h0) s1) as [s2|]; [|done]. cbn [mbind option_bind] in *.
  destruct (sum_data m b e s2) as [s3|]; [|done]. cbn [mbind option_bind] in *.
  rewrite Hsum. cbn [mbind option_bind]. by rewrite u16_id.
Qed.

Lemma udp_checksum_ok h ph m b e d :
  bytes ph -> bytes h -> bytes m -> Z.even (msize ph) = true -> Z.even (msize h) = true ->
  8 <= msize h -> range m b e = Some d -> msize ph + msize h + msize d < 131000 ->
  exists h', recalculate_transport_checksum h ph m b e = Some h' /\
    bytes h' /\ msize h' = msize h /\
    (forall q, q <> 6 -> q <> 7 -> load h' q = load h q) /\
    verifies (total ph + total h' + total d) /\
    recalculate_transport_checksum h' ph m b e = Some h'.
Proof.
  intros Hph Hh Hm Eph Eh Hl Hd Hsz.
  destruct (store16_in h 6 0) as [h0 H0]; [lia|lia|].
  destruct (store16_in h0 6 (complement (ones_sum (total ph + total d + total h0)))) as [h' H1];
    [lia|rewrite (store16_size _ _ _ _ H0); lia|].
  exists h'. rewrite (udp_checksum_eq h h0 ph m b e d) by done. split; [done|].
  destruct (transport_checksum_verifies 6 ph h m b e d) with h0 h'
    as (Hb' & Hs' & Hq & Hv); [done || lia..|].
  split_and!; [done..|].
  rewrite (udp_checksum_eq h' h0 ph m b e d); [done..|by rewrite Hs'|done|by rewrite Hs'|].
  by rewrite (store16_overwrite _ _ _ _ _ H1), (store16_overwrite _ _ _ _ _ H0).
Qed.

(** [UdpPacketLittleEndian::recalculate_transport_checksum] is defined for a
    header of an even number (at least 8) of bytes and any payload; only bytes 6
    and 7 change, pseudo-header, header and padded payload then sum to 0xFFFF
    in one's complement, and it is idempotent. *)
Theorem udp_checksum_verifies h ph m b e d :
  bytes ph -> bytes h -> bytes m -> Z.even (msize ph) = true -> Z.even (msize h) = true ->
  8 <= msize h -> range m b e = Some d -> msize ph + msize h + msize d < 131000 ->
  exists h', recalculate_transport_checksum h ph m b e = Some h' /\
    bytes h' /\ msize h' = msize h /\
    (forall q, q <> 6 -> q <> 7 -> load h' q = load h q) /\
    verifies (total ph + total h' + total d) /\
    recalculate_transport_checksum h' ph m b e = Some h'.
Proof. apply udp_checksum_ok. Qed.

Lemma udp_checksum_verifies_witness :
  exists h', recalculate_transport_checksum
      (repeat 7 8) [10; 0; 0; 1; 10; 0; 0; 2; 0; 17; 0; 11] [1; 2; 3; 4] 1 4 = Some h' /\
    verifies (total [10; 0; 0; 1; 10; 0; 0; 2; 0; 17; 0; 11] + total h' + total [2; 3; 4]).
Proof.
  destruct (udp_checksum_verifies (repeat 7 8) [10; 0; 0; 1; 10; 0; 0; 2; 0; 17; 0; 11]
    [1; 2; 3; 4] 1 4 [2; 3; 4]) as (h' & H & _ & _ & _ & Hv & _);
    [concrete|concrete|concrete|reflexivity|reflexivity|vm_compute; discriminate|reflexivity|
     reflexivity|]. exists h'. split; [exact H|exact Hv].
Defined.

Definition udp_object_fields : list (mem -> option Z) :=
  [get_udp_src_port; get_udp_dst_port; get_udp_length; get_udp_checksum; get_src_port;
   get_dst_port; get_transport_length].
Definition udp_view_fields : list (mem -> UdpPacketView.t -> option Z) :=
  [UdpPacketView.get_udp_src_port; UdpPacketView.get_udp_dst_port;
   UdpPacketView.get_udp_length; UdpPacketView.get_udp_checksum; UdpPacketView.get_src_port;
   UdpPacketView.get_dst_port; UdpPacketView.get_transport_length].
Definition udp_object_setters : list (mem -> Z -> option mem) :=
  [set_udp_checksum; set_transport_checksum; set_dst_port; set_src_port; set_transport_length].
Definition udp_view_setters : list (mem -> UdpPacketView.t -> Z -> option mem) :=
  [UdpPacketView.set_udp_checksum; UdpPacketView.set_transport_checksum;
   UdpPacketView.set_dst_port; UdpPacketView.set_src_port; UdpPacketView.set_transport_length].

(** The view's checksum over the header and a payload outside it. *)
Lemma udp_view_recalculate pre post h ph b e d h' :
  bytes (inside pre post h) -> bytes ph -> Z.even (msize ph) = true -> msize h = 8 ->
  e <= msize pre \/ msize pre + msize h <= b ->
  range (inside pre post h) b e = Some d -> msize ph + msize h + msize d < 131000 ->
  recalculate_transport_checksum h ph (inside pre post h) b e = Some h' ->
  UdpPacketView.recalculate_transport_checksum (inside pre post h) (UdpPacketView.mk (msize pre)) ph b e
  = Some (inside pre post h').
Proof.
  intros Hm Hph Eph Hl Hout Hd Hsz H.
  pose proof Hm as Hm'. apply bytes_app in Hm' as [Hpre [Hh Hpost]%bytes_app].
  destruct (store16_in h 6 0) as [h0 H0]; [lia|lia|].
  pose proof (store16_size _ _ _ _ H0) as Hs0.
  rewrite (udp_checksum_eq h h0 ph _ b e d) in H by (done || by rewrite Hl).
  destruct (transport_sum 6 ph h _ b e d Hph Hh Hm Eph ltac:(by rewrite Hl) Hd Hsz h0 H0)
    as [Hsum Hu].
  unfold UdpPacketView.recalculate_transport_checksum, TransportIpv4PseudoHeader.get_by_bytes,
    UdpPacketView.set_udp_checksum, UdpPacketView.udp_header_size. simpl.
  rewrite (store16_inside _ _ _ _ _ _ H0). cbn [mbind option_bind].
  destruct (sum_words ph 0 (msize ph) 0) as [s1|]; [|done]. cbn [mbind option_bind] in *.
  destruct (sum_words h0 0 (msize h0) s1) as [s2|] eqn:W; [|done]. cbn [mbind option_bind] in *.
  apply (sum_words_inside pre post) in W. rewrite Hs0, Hl, Z.add_0_r in W. rewrite W.
  cbn [mbind option_bind].
  destruct (sum_data (inside pre post h) b e s2) as [s3|] eqn:E3; [|done].
  rewrite (sum_data_ext (inside pre post h) (inside pre post h0) b e s2 s3); [| |done].
  - cbn [mbind option_bind] in *. rewrite Hsum. cbn [mbind option_bind].
    rewrite u16_id by done. by apply store16_inside.
  - intros i Hi. apply load_inside_out; [done|lia].
Qed.

(** a UDP view over an eight-byte header anywhere in a buffer agrees with the
    object on every getter and setter, and recomputes the same checksum for a
    payload elsewhere in the buffer. *)
Theorem udp_view_refines_object pre post h ph b e d :
  let m := inside pre post h in
  let v := UdpPacketView.mk (msize pre) in
  Forall2 (fun o w => refines (o h) (w m v)) udp_object_fields udp_view_fields /\
  Forall2 (fun o w => forall n, refines_in pre post (o h n) (w m v n))
    udp_object_setters udp_view_setters /\
  (bytes m -> bytes ph -> Z.even (msize ph) = true -> msize h = 8 ->
   e <= msize pre \/ msize pre + msize h <= b ->
   range m b e = Some d -> msize ph + msize h + msize d < 131000 ->
   refines_in pre post (recalculate_transport_checksum h ph m b e)
     (UdpPacketView.recalculate_transport_checksum m v ph b e)).
Proof.
  intros m v. split_and!.
  - unfold udp_object_fields, udp_view_fields. refine_fields.
  - unfold udp_object_setters, udp_view_setters. refine_setters.
  - intros. subst m v. intros h' H'. by apply (udp_view_recalculate pre post h ph b e d).
Qed.

Lemma udp_view_refines_object_witness :
  let h := repeat 80 8 in let ph := repeat 1 12 in
  refines_in [9; 9] [1; 2; 3] (recalculate_transport_checksum h ph (inside [9; 9] [1; 2; 3] h) 10 13)
    (UdpPacketView.recalculate_transport_checksum (inside [9; 9] [1; 2; 3] h)
       (UdpPacketView.mk 2) ph 10 13).
Proof.
  intros h ph.
  destruct (udp_view_refines_object [9; 9] [1; 2; 3] h ph 10 13 [1; 2; 3]) as (_ & _ & H).
  apply H; [concrete|concrete|reflexivity|reflexivity|right|reflexivity|reflexivity].
  vm_compute. discriminate.
Defined.

(** a UDP header from [generate_object_bytes] gives back its ports and length
    with checksum zero, and [generate_object] owns the same eight bytes; but
    [get_transport_length] returns four times the length in bytes, modulo 2^16, so
    it equals the length only when that is 0. *)
Theorem udp_generate_spec sp dp len :
  is_u16 sp -> is_u16 dp -> is_u16 len ->
  let h := generate_object_bytes sp dp len in
  generate_object sp dp len = Some h /\ get_size h = 8 /\
  get_udp_src_port h = Some sp /\ get_udp_dst_port h = Some dp /\ get_udp_length h = Some len /\
  get_udp_checksum h = Some 0 /\
  get_transport_length h = Some (4 * len mod 65536) /\
  (get_transport_length h = get_udp_length h <-> len = 0).
Proof.
  intros Hs Hd Hl h. subst h.
  assert (L : get_udp_length (generate_object_bytes sp dp len) = Some len)
    by exact (f_equal Some (cat16_octets _ Hl)).
  assert (T : get_transport_length (generate_object_bytes sp dp len) = Some (4 * len mod 65536))
    by (unfold get_transport_length; rewrite L; cbn; unfold u16; do 2 f_equal; lia).
  split_and!; [done|done| | |done|done|done|].
  - refine (f_equal Some (cat16_octets _ Hs)).
  - refine (f_equal Some (cat16_octets _ Hd)).
  - rewrite T, L. unfold is_u16 in Hl. split; [|by intros ->].
    intros [= E]. Z.div_mod_to_equations. lia.
Qed.

Lemma udp_generate_spec_witness :
  get_udp_length (generate_object_bytes 53 40000 28) = Some 28.
Proof.
  destruct (udp_generate_spec 53 40000 28) as (_ & _ & _ & _ & H & _); [concrete..|]. exact H.
Defined.

End UdpProperties.

Section DataProperties.

(** replacing a payload.  The object takes any new payload.  The view takes one
    that is not longer than the present one: it then shows exactly the new bytes and
    nothing else in its buffer changes beyond the bytes written; a longer payload is
    dropped silently, leaving buffer and view as they were. *)
Theorem data_set_payload b v src s e l :
  range src s e = Some l -> 0 <= DataPacketView.data_ v ->
  DataPacketView.data_ v + DataPacketView.data_size_ v <= msize b ->
  DataPacketLittleEndian.set_payload b src s e = Some l /\
  (msize l <= DataPacketView.data_size_ v ->
   exists b', DataPacketView.set_payload b v src s e =
       Some (b', DataPacketView.mk (DataPacketView.data_ v) (msize l)) /\
     data_view_to_object b' (DataPacketView.mk (DataPacketView.data_ v) (msize l)) = Some l /\
     (forall q, ~ (DataPacketView.data_ v <= q < DataPacketView.data_ v + msize l) ->
        load b' q = load b q)) /\
  (DataPacketView.data_size_ v < msize l -> DataPacketView.set_payload b v src s e = Some (b, v)).
Proof.
  intros Hl Hv Hsz. destruct (range_Some _ _ _ _ Hl) as (_ & _ & Hs & _).
  split_and!; [done| |].
  - intros Hle. unfold DataPacketView.set_payload. rewrite <- Hs.
    destruct (Z.ltb_spec (DataPacketView.data_size_ v) (msize l)); [lia|].
    rewrite Hl. cbn [mbind option_bind].
    destruct (blit_in b (DataPacketView.data_ v) l) as [b' Hb]; [lia|lia|]. rewrite Hb.
    exists b'. split_and!; [done| |].
    + change (range b' (DataPacketView.data_ v) (DataPacketView.data_ v + msize l) = Some l).
      apply (range_blit b); [lia|done|lia].
    + intros q Hq. rewrite (load_blit _ _ _ _ _ Hb). by rewrite decide_False by lia.
  - intros Hlt. unfold DataPacketView.set_payload. rewrite <- Hs.
    by destruct (Z.ltb_spec (DataPacketView.data_size_ v) (msize l)); [|lia].
Qed.

Lemma data_set_payload_witness :
  DataPacketView.set_payload [1; 2; 3] (DataPacketView.mk 0 2) [7; 8; 9] 0 3 =
  Some ([1; 2; 3], DataPacketView.mk 0 2).
Proof.
  apply (data_set_payload [1; 2; 3] (DataPacketView.mk 0 2) [7; 8; 9] 0 3 [7; 8; 9]);
    [reflexivity|vm_compute; discriminate|vm_compute; discriminate|reflexivity].
Defined.

End DataProperties.
