(* ===== verification/TlsRecord.v ===== *)
(** TLS records, the unit of the tunnel's byte stream:
    [TLS13_RecordLittleEndian], [TLS13_RecordView], their parser [bytes_parse] and
    the application-data classes (src/QVPN/QVPN Lib/src/qvpn_structures.cpp,
    generators in include/qvpn_structures.hpp). *)
From S2P Require Import Prelude.

(** [TLSRecordType::APPLICATION_DATA], [TLSProtocolVersion::TLS12]. *)
Definition APPLICATION_DATA : Z := 23.
Definition TLS12 : Z := 771.

(** [BytesParseSignal]. *)
Inductive BytesParseSignal : Type :=
  | BP_FULL_OBJECT
  | BP_NOT_FULL_OBJECT
  | BP_FULL_OBJECT_AND_TAIL
  | BP_NO_DATA
  | BP_ERROR.

#[global] Instance BytesParseSignal_eq_dec : EqDecision BytesParseSignal.
Proof. solve_decision. Defined.

(** [ProtoTemplateParseResult]; pointers are offsets into the parsed buffer. *)
Record ProtoTemplateParseResult := mkParse {
  begin_ : Z; end_ : Z; bp_signal : BytesParseSignal; real_end : Z }.

(** [is_proto_template]: a protocol that can cut an object off a byte stream. *)
Class ProtoTemplate := {
  bytes_parse : mem -> Z -> Z -> option ProtoTemplateParseResult }.

(** [TLS13_DefaultRecordGenerationStrategy]. *)
Module TLS13_DefaultRecordGenerationStrategy.
Definition get_legacy_version : Z := TLS12.
End TLS13_DefaultRecordGenerationStrategy.

Module TLS13_RecordView.

Record t := mk { data_ : Z; size_ : Z }.
(** [size_] is a [UShort]. *)
Definition make (begin_ end_ : Z) : t := mk begin_ (u16 (end_ - begin_)).
Definition get_tls_record_type (b : mem) (v : t) : option Z := load b (data_ v).
Definition get_tls_protocol_version (b : mem) (v : t) : option Z := load16 b (data_ v + 1).
Definition get_tls_record_length (b : mem) (v : t) : option Z := load16 b (data_ v + 3).
(** The sizes of type, version and length are added in [size_t] and the sum is
    converted back to [UShort]. *)
Definition get_tls_record_full_length (b : mem) (v : t) : option Z :=
  l ← get_tls_record_length b v; Some (u16 (l + 1 + 2 + 2)).
Definition get_tls_record_data (v : t) : Z * Z := (data_ v + 1 + 2 + 2, data_ v + size_ v).
Definition to_bytes (v : t) : Z * Z := (data_ v, data_ v + size_ v).

(** Both classes have the same [bytes_parse]. *)
Definition bytes_parse (b : mem) (begin_ end_ : Z) : option ProtoTemplateParseResult :=
  let min_length := 5 in
  let real_size := end_ - begin_ in
  if real_size <? min_length then Some (mkParse begin_ end_ BP_NOT_FULL_OBJECT end_)
  else
    let rv := make begin_ end_ in
    length ← get_tls_record_full_length b rv;
    let signal :=
      if length =? real_size then BP_FULL_OBJECT
      else if real_size <? length then BP_NOT_FULL_OBJECT
      else BP_FULL_OBJECT_AND_TAIL in
    Some (mkParse begin_ (begin_ + length) signal (begin_ + real_size)).

End TLS13_RecordView.

Module TLS13_RecordLittleEndian.

Definition make (m : mem) (begin_ end_ : Z) : option mem := range m begin_ end_.
Definition get_tls_record_type (data_ : mem) : option Z := load data_ 0.
Definition get_tls_protocol_version (data_ : mem) : option Z := load16 data_ 1.
Definition get_tls_record_length (data_ : mem) : option Z := load16 data_ 3.
Definition get_tls_record_full_length (data_ : mem) : option Z :=
  l ← get_tls_record_length data_; Some (u16 (l + 1 + 2 + 2)).
Definition get_tls_record_data (data_ : mem) : Z * Z := (5, msize data_).
Definition to_bytes (data_ : mem) : Z * Z := (0, msize data_).

(** [generate_object_bytes]: [obj_bytes] is what the packet generator produced,
    [msg_type] its [get_overlay_protocol_type].  The five header bytes are
    inserted one by one in front of it. *)
Definition insert (l : mem) (i : nat) (x : Z) : mem := take i l ++ x :: drop i l.

Definition generate_object_bytes (legacy_version msg_type : Z) (obj_bytes : mem) : mem :=
  let size := u16 (msize obj_bytes) in
  let obj_bytes := insert obj_bytes 0 (u8 msg_type) in
  let obj_bytes := insert obj_bytes 1 (octet 1 legacy_version) in
  let obj_bytes := insert obj_bytes 2 (octet 0 legacy_version) in
  let obj_bytes := insert obj_bytes 3 (octet 1 size) in
  insert obj_bytes 4 (octet 0 size).

Definition generate_object (legacy_version msg_type : Z) (obj_bytes : mem) : option mem :=
  let obj_bytes := generate_object_bytes legacy_version msg_type obj_bytes in
  make obj_bytes 0 (msize obj_bytes).

Definition bytes_parse (b : mem) (begin_ end_ : Z) : option ProtoTemplateParseResult :=
  let min_length := 5 in
  let real_size := end_ - begin_ in
  if real_size <? min_length then Some (mkParse begin_ end_ BP_NOT_FULL_OBJECT end_)
  else
    let rv := TLS13_RecordView.make begin_ end_ in
    length ← TLS13_RecordView.get_tls_record_full_length b rv;
    let signal :=
      if length =? real_size then BP_FULL_OBJECT
      else if real_size <? length then BP_NOT_FULL_OBJECT
      else BP_FULL_OBJECT_AND_TAIL in
    Some (mkParse begin_ (begin_ + length) signal (begin_ + real_size)).

End TLS13_RecordLittleEndian.

#[global] Instance tls_record_template : ProtoTemplate := {
  bytes_parse := TLS13_RecordView.bytes_parse }.

Module TLS13_ApplicationDataView.
Record t := mk { data_ : Z; size_ : Z }.
Definition make (begin_ end_ : Z) : t := mk begin_ (u16 (end_ - begin_)).
Definition get_overlay_protocol_type : Z := APPLICATION_DATA.
Definition get_app_data (v : t) : Z * Z := (data_ v, data_ v + size_ v).
Definition to_bytes (v : t) : Z * Z := (data_ v, data_ v + size_ v).
End TLS13_ApplicationDataView.

Module TLS13_ApplicationDataLittleEndian.
Definition make (m : mem) (begin_ end_ : Z) : option mem := range m begin_ end_.
Definition get_overlay_protocol_type : Z := APPLICATION_DATA.
Definition get_app_data (data_ : mem) : Z * Z := (0, msize data_).
Definition to_bytes (data_ : mem) : Z * Z := (0, msize data_).
(** The generator without metadata. *)
Definition generate_object_bytes (m : mem) (begin_ end_ : Z) : option mem := range m begin_ end_.
Definition generate_object (m : mem) (begin_ end_ : Z) : option mem :=
  obj_bytes ← generate_object_bytes m begin_ end_; make obj_bytes 0 (msize obj_bytes).
End TLS13_ApplicationDataLittleEndian.

(** * A record is a five-byte header and its payload *)

Lemma generate_record_eq v ty l :
  TLS13_RecordLittleEndian.generate_object_bytes v ty l =
  [u8 ty; octet 1 v; octet 0 v; octet 1 (u16 (msize l)); octet 0 (u16 (msize l))] ++ l.
Proof. reflexivity. Qed.

Lemma generate_record_size v ty l :
  msize (TLS13_RecordLittleEndian.generate_object_bytes v ty l) = 5 + msize l.
Proof. rewrite generate_record_eq, msize_app. done. Qed.

(** The length field of a record at [p] in a buffer. *)
Lemma generate_record_length v ty l pre post :
  load16 (inside pre post (TLS13_RecordLittleEndian.generate_object_bytes v ty l)) (msize pre + 3)
  = Some (u16 (msize l)).
Proof.
  apply load16_inside. rewrite generate_record_eq.
  refine (f_equal Some (cat16_octets _ (u16_is_u16 _))).
Qed.

(** record round trip.  A record generated from a payload of at most 65530
    bytes, wherever it lies in a buffer, shows through the view the type, version
    and length it was given, and its data range is exactly the payload. *)
Theorem tls_record_roundtrip pre post v ty l :
  is_u16 v -> is_u8 ty -> msize l <= 65530 ->
  let r := TLS13_RecordLittleEndian.generate_object_bytes v ty l in
  let b := inside pre post r in
  let w := TLS13_RecordView.make (msize pre) (msize pre + msize r) in
  TLS13_RecordView.get_tls_record_type b w = Some ty /\
  TLS13_RecordView.get_tls_protocol_version b w = Some v /\
  TLS13_RecordView.get_tls_record_length b w = Some (msize l) /\
  TLS13_RecordView.get_tls_record_full_length b w = Some (msize r) /\
  (let '(s, e) := TLS13_RecordView.get_tls_record_data w in range b s e) = Some l /\
  (let '(s, e) := TLS13_RecordView.to_bytes w in range b s e) = Some r.
Proof.
  intros Hv Hty Hl r b w. pose proof (msize_nonneg l). pose proof (msize_nonneg pre).
  assert (Hr : msize r = 5 + msize l) by apply generate_record_size.
  assert (Hw : w = TLS13_RecordView.mk (msize pre) (5 + msize l)).
  { subst w. unfold TLS13_RecordView.make. f_equal. rewrite u16_id; unfold is_u16; lia. }
  assert (Hlen : TLS13_RecordView.get_tls_record_length b w = Some (msize l)).
  { rewrite Hw. unfold TLS13_RecordView.get_tls_record_length. simpl.
    subst b r. rewrite generate_record_length, u16_id; [done|unfold is_u16; lia]. }
  split_and!; [| |done| | |].
  - rewrite Hw. unfold TLS13_RecordView.get_tls_record_type. simpl.
    replace (msize pre) with (msize pre + 0) by lia. apply load_inside.
    subst r. rewrite generate_record_eq. refine (f_equal Some (u8_id _ Hty)).
  - rewrite Hw. unfold TLS13_RecordView.get_tls_protocol_version. simpl. apply load16_inside.
    subst r. rewrite generate_record_eq. refine (f_equal Some (cat16_octets _ Hv)).
  - unfold TLS13_RecordView.get_tls_record_full_length. rewrite Hlen. simpl. f_equal.
    rewrite u16_id; [lia|unfold is_u16; lia].
  - rewrite Hw. simpl. replace (msize pre + 1 + 2 + 2) with (msize pre + 5) by lia.
    apply range_inside. subst r. rewrite generate_record_eq.
    rewrite range_app_r by (by vm_compute).
    match goal with |- context [msize ?x] => change (msize x) with 5 end.
    replace (5 - 5) with 0 by lia. replace (5 + msize l - 5) with (msize l) by lia.
    apply range_full.
  - rewrite Hw. simpl. rewrite <- Hr. apply range_inside_all.
Qed.

Lemma tls_record_roundtrip_witness :
  TLS13_RecordView.get_tls_record_length
    (inside [9] [8; 8] (TLS13_RecordLittleEndian.generate_object_bytes TLS12 23 [1; 2; 3]))
    (TLS13_RecordView.make 1 9) = Some 3.
Proof.
  destruct (tls_record_roundtrip [9] [8; 8] TLS12 23 [1; 2; 3]) as (_ & _ & H & _);
    [concrete|concrete|vm_compute; discriminate|]. exact H.
Defined.

(** [bytes_parse] classifies a stream that starts with a record of at most
    65530 payload bytes: a proper prefix is not a full object, the record alone is
    a full object, the record followed by anything is a full object and tail; in
    the last two cases the reported end is the record's end, and the reported real
    end is always the end of the input. *)
Theorem tls_bytes_parse_spec pre post v ty l n :
  msize l <= 65530 -> 0 <= n ->
  let r := TLS13_RecordLittleEndian.generate_object_bytes v ty l in
  let b := inside pre post r in
  let s := msize pre in
  n <= msize r + msize post ->
  exists res, bytes_parse b s (s + n) = Some res /\ begin_ res = s /\ real_end res = s + n /\
    bp_signal res = (if decide (n < msize r) then BP_NOT_FULL_OBJECT
                     else if decide (n = msize r) then BP_FULL_OBJECT
                     else BP_FULL_OBJECT_AND_TAIL) /\
    (msize r <= n -> end_ res = s + msize r).
Proof.
  intros Hl Hn r b s Hnb. pose proof (msize_nonneg l).
  assert (Hr : msize r = 5 + msize l) by apply generate_record_size.
  unfold bytes_parse, tls_record_template, TLS13_RecordView.bytes_parse.
  replace (s + n - s) with n by lia. destruct (Z.ltb_spec n 5).
  - eexists. split; [done|]. simpl. rewrite decide_True by lia. split_and!; try done. lia.
  - unfold TLS13_RecordView.get_tls_record_full_length, TLS13_RecordView.get_tls_record_length.
    simpl. subst b s r. rewrite generate_record_length. cbn [mbind option_bind].
    rewrite (u16_id (msize l)) by (unfold is_u16; lia).
    rewrite u16_id by (unfold is_u16; lia).
    eexists. split; [done|]. simpl. rewrite generate_record_size. split_and!; [done|lia| |lia].
    destruct (Z.eqb_spec (msize l + 1 + 2 + 2) n), (Z.ltb_spec n (msize l + 1 + 2 + 2));
      repeat case_decide; done || lia.
Qed.

Lemma tls_bytes_parse_spec_witness :
  exists res, bytes_parse (inside [] [7; 7] (TLS13_RecordLittleEndian.generate_object_bytes TLS12 23 [1; 2; 3]))
      0 10 = Some res /\ bp_signal res = BP_FULL_OBJECT_AND_TAIL /\ end_ res = 8.
Proof.
  destruct (tls_bytes_parse_spec [] [7; 7] TLS12 23 [1; 2; 3] 10)
    as (res & H & _ & _ & Hs & He); [vm_compute; discriminate|lia|vm_compute; discriminate|].
  exists res. split; [exact H|]. split; [rewrite Hs; reflexivity|].
  apply He. vm_compute. discriminate.
Defined.

(** the 16-bit length arithmetic is tight.  For a payload of 65531 to 65535
    bytes [get_tls_record_full_length] wraps around to the payload size minus
    65531, so a complete record alone in the buffer is reported as a full object
    and tail whose object is shorter than the header. *)
Theorem tls_full_length_wraps v ty l :
  65531 <= msize l <= 65535 ->
  let r := TLS13_RecordLittleEndian.generate_object_bytes v ty l in
  let n := msize l - 65531 in
  0 <= n < 5 /\
  TLS13_RecordLittleEndian.get_tls_record_full_length r = Some n /\
  bytes_parse r 0 (msize r) = Some (mkParse 0 n BP_FULL_OBJECT_AND_TAIL (msize r)).
Proof.
  intros Hl r n.
  assert (Hr : msize r = 5 + msize l) by apply generate_record_size.
  assert (L : load16 r 3 = Some (msize l)).
  { subst r. rewrite generate_record_eq.
    refine (eq_trans (f_equal Some (cat16_octets _ (u16_is_u16 _))) _).
    rewrite u16_id; [done|unfold is_u16; lia]. }
  assert (E : u16 (msize l + 1 + 2 + 2) = n).
  { subst n. unfold u16. replace (msize l + 1 + 2 + 2) with (msize l - 65531 + 1 * 65536) by lia.
    rewrite Z.mod_add by lia. apply Z.mod_small. lia. }
  split_and!; [lia|lia| |].
  - unfold TLS13_RecordLittleEndian.get_tls_record_full_length,
      TLS13_RecordLittleEndian.get_tls_record_length. rewrite L. simpl. by rewrite E.
  - unfold bytes_parse, tls_record_template, TLS13_RecordView.bytes_parse.
    rewrite Z.sub_0_r. destruct (Z.ltb_spec (msize r) 5); [lia|].
    unfold TLS13_RecordView.get_tls_record_full_length, TLS13_RecordView.get_tls_record_length.
    change (TLS13_RecordView.data_ (TLS13_RecordView.make 0 (msize r)) + 3) with 3.
    rewrite L. cbn [mbind option_bind]. rewrite E.
    destruct (Z.eqb_spec n (msize r)); [lia|]. destruct (Z.ltb_spec (msize r) n); [lia|].
    done.
Qed.

Lemma tls_full_length_wraps_witness :
  TLS13_RecordLittleEndian.get_tls_record_full_length
    (TLS13_RecordLittleEndian.generate_object_bytes TLS12 23 (repeat 0 (Z.to_nat 65535))) = Some 4.
Proof.
  destruct (tls_full_length_wraps TLS12 23 (repeat 0 (Z.to_nat 65535))) as (_ & H & _).
  - unfold msize. rewrite repeat_length, Z2Nat.id by lia. lia.
  - rewrite H. unfold msize. rewrite repeat_length, Z2Nat.id by lia. reflexivity.
Defined.
