(* ===== verification/TlsHello.v ===== *)
(** The TLS hello messages that carry the authorization: the fields of a hello, its
    extensions, the messages and their default contents.  Every class exists as an object,
    which owns its bytes ([...LittleEndian], the model is the list), and as a view
    (src/QVPN/QVPN Lib/include/qvpn_structures.hpp and src/qvpn_structures.cpp). *)
From S2P Require Import Prelude TlsRecord.

(** The values of [TLSRecordType], [TLSMessageType], [TLSProtocolVersion],
    [TLSCipherSuite], [TLSCompressionMethod], [TLSKeyTypes], [TLSKeyTypesLength],
    [TLSExtensionType] and [TLSSNIRecordType] that the messages use. *)
Definition HANDSHAKE : Z := 22.
Definition CLIENT_HELLO : Z := 1.
Definition SERVER_HELLO : Z := 2.
Definition TLS10 : Z := 769.
Definition TLS11 : Z := 770.
Definition TLS13 : Z := 772.
Definition TLS_ECDHE_RSA_WITH_AES_128_GCM_SHA256 : Z := 49199.
Definition NULL_COMPRESSION : Z := 0.
Definition X25519 : Z := 29.
Definition X25519_LENGTH : Z := 32.
Definition SERVER_NAME : Z := 0.
Definition KEY_SHARE : Z := 40.
Definition SUPPORTED_VERSIONS : Z := 43.
Definition HOST_NAME : Z := 0.

(** [std::mt19937] with [std::uniform_int_distribution(0, 255)]: the [k]-th number drawn
    from the generator that was seeded with [seed], the value of [std::random_device]. *)
Class Randomness := { dist : Z -> nat -> Z }.

Module TLSTools.
Section Bytes.
Context `{Randomness}.

(** [std::generate] on [obj_bytes.begin() + payload_offset]. *)
Definition bytes_generator (length payload_offset seed : Z) : option mem :=
  if decide (payload_offset <= length)
  then Some (repeat 0 (Z.to_nat payload_offset)
             ++ ((fun k => u8 (dist seed k)) <$> seq 0 (Z.to_nat (length - payload_offset))))
  else None.

(** The array has 32 bytes whatever [length] says; the bytes before the offset are
    indeterminate, and the caller writes them. *)
Definition array32_bytes_generator (length payload_offset seed : Z) : option mem :=
  bytes_generator 32 payload_offset seed.
(** [size] converts to the type [LengthSize] the caller chose. *)
Definition vector_bytes_generator (size : Z -> Z) (length payload_offset seed : Z) : option mem :=
  bytes_generator (size length) payload_offset seed.

End Bytes.
End TLSTools.

(** * Fields of a hello *)

Module TLSRandomLittleEndian.
Definition make (m : mem) (first last : Z) : option mem := range m first (first + 32).
Definition generate_object_bytes `{Randomness} (time seed : Z) : option mem :=
  obj_bytes ← TLSTools.array32_bytes_generator 32 4 seed; store32 obj_bytes 0 time.
Definition generate_object `{Randomness} (time seed : Z) : option mem :=
  obj_bytes ← generate_object_bytes time seed; make obj_bytes 0 (msize obj_bytes).
Definition get_tls_random_full_length (random_bytes_ : mem) : Z := 32.
Definition get_tls_unix_time (random_bytes_ : mem) : option Z := load32 random_bytes_ 0.
Definition get_tls_random_bytes (random_bytes_ : mem) : Z * Z := (4, msize random_bytes_).
Definition to_bytes (random_bytes_ : mem) : Z * Z := (0, msize random_bytes_).
End TLSRandomLittleEndian.

Module TLSRandomView.
Record t := mk { random_bytes_ : Z; size_ : Z }.
Definition make (first last : Z) : t := mk first 32.
Definition generate_object_bytes `{Randomness} := TLSRandomLittleEndian.generate_object_bytes.
Definition generate_object `{Randomness} := TLSRandomLittleEndian.generate_object.
Definition get_tls_random_full_length (v : t) : Z := 32.
Definition get_tls_unix_time (m : mem) (v : t) : option Z := load32 m (random_bytes_ v).
Definition get_tls_random_bytes (v : t) : Z * Z := (random_bytes_ v + 4, random_bytes_ v + size_ v).
Definition to_bytes (v : t) : Z * Z := (random_bytes_ v, random_bytes_ v + size_ v).
End TLSRandomView.

Module TLSSessionIDLittleEndian.
Definition make (m : mem) (first last : Z) : option mem :=
  length ← load m first; range m first (first + length + 1).
(** The session id that carries [begin, end): the size is a [UByte]. *)
Definition generate_object_bytes_of (m : mem) (begin_ end_ : Z) : option mem :=
  l ← range m begin_ end_; Some (u8 (end_ - begin_) :: l).
Definition generate_object_bytes `{Randomness} (length seed : Z) : option mem :=
  let full_length := length + 1 in
  obj_bytes ← TLSTools.vector_bytes_generator u8 full_length 1 seed; store obj_bytes 0 length.
Definition generate_object `{Randomness} (length seed : Z) : option mem :=
  obj_bytes ← generate_object_bytes length seed; make obj_bytes 0 (msize obj_bytes).
Definition get_tls_id_length (id_ : mem) : option Z := load id_ 0.
Definition get_tls_id_full_length (id_ : mem) : option Z :=
  l ← get_tls_id_length id_; Some (u16 (l + 1)).
Definition get_tls_id (id_ : mem) : Z * Z := (1, msize id_).
Definition to_bytes (id_ : mem) : Z * Z := (0, msize id_).
End TLSSessionIDLittleEndian.

Module TLSSessionIDView.
Record t := mk { data_ : Z; size_ : Z }.
Definition generate_object_bytes_of := TLSSessionIDLittleEndian.generate_object_bytes_of.
Definition generate_object_bytes `{Randomness} := TLSSessionIDLittleEndian.generate_object_bytes.
Definition generate_object `{Randomness} := TLSSessionIDLittleEndian.generate_object.
Definition get_tls_id_length (m : mem) (v : t) : option Z := load m (data_ v).
Definition get_tls_id_full_length (m : mem) (v : t) : option Z :=
  l ← get_tls_id_length m v; Some (u32 (l + 1)).
Definition make (m : mem) (first last : Z) : option t :=
  n ← get_tls_id_full_length m (mk first 0); Some (mk first n).
Definition get_tls_id (v : t) : Z * Z := (data_ v + 1, data_ v + size_ v).
Definition to_bytes (v : t) : Z * Z := (data_ v, data_ v + size_ v).
End TLSSessionIDView.

Module TLSCipherSuitLittleEndian.
Definition make (m : mem) (first last : Z) : option mem :=
  length ← load16 m first; range m first (first + length + 2).
Definition generate_object_bytes `{Randomness} (length seed : Z) : option mem :=
  let full_length := length + 2 in
  obj_bytes ← TLSTools.vector_bytes_generator u8 full_length 2 seed; store16 obj_bytes 0 length.
Definition generate_object `{Randomness} (length seed : Z) : option mem :=
  obj_bytes ← generate_object_bytes length seed; make obj_bytes 0 (msize obj_bytes).
Definition get_tls_ciphers_length (ciphers_ : mem) : option Z := load16 ciphers_ 0.
Definition get_tls_ciphers_full_length (ciphers_ : mem) : option Z :=
  l ← get_tls_ciphers_length ciphers_; Some (u16 (l + 2)).
Definition get_cipher_suites (ciphers_ : mem) : Z * Z := (2, msize ciphers_).
Definition to_bytes (ciphers_ : mem) : Z * Z := (0, msize ciphers_).
End TLSCipherSuitLittleEndian.

Module TLSCipherSuitView.
Record t := mk { data_ : Z; size_ : Z }.
Definition generate_object_bytes `{Randomness} := TLSCipherSuitLittleEndian.generate_object_bytes.
Definition generate_object `{Randomness} := TLSCipherSuitLittleEndian.generate_object.
Definition get_tls_ciphers_length (m : mem) (v : t) : option Z := load16 m (data_ v).
Definition get_tls_ciphers_full_length (m : mem) (v : t) : option Z :=
  l ← get_tls_ciphers_length m v; Some (u16 (l + 2)).
Definition make (m : mem) (first last : Z) : option t :=
  n ← get_tls_ciphers_full_length m (mk first 0); Some (mk first n).
Definition get_cipher_suites (v : t) : Z * Z := (data_ v + 2, data_ v + size_ v).
Definition to_bytes (v : t) : Z * Z := (data_ v, data_ v + size_ v).
End TLSCipherSuitView.

Module TLSCompressionLittleEndian.
Definition make (m : mem) (first last : Z) : option mem :=
  length ← load m first; range m first (first + length + 1).
Definition generate_object_bytes `{Randomness} (length seed : Z) : option mem :=
  let full_length := length + 1 in
  obj_bytes ← TLSTools.vector_bytes_generator u8 full_length 1 seed; store obj_bytes 0 length.
Definition generate_object `{Randomness} (length seed : Z) : option mem :=
  obj_bytes ← generate_object_bytes length seed; make obj_bytes 0 (msize obj_bytes).
Definition get_tls_compressions_length (compressions_ : mem) : option Z := load compressions_ 0.
Definition get_tls_compressions_full_length (compressions_ : mem) : option Z :=
  l ← get_tls_compressions_length compressions_; Some (u16 (l + 1)).
Definition get_tls_compressions (compressions_ : mem) : Z * Z := (1, msize compressions_).
Definition to_bytes (compressions_ : mem) : Z * Z := (0, msize compressions_).
End TLSCompressionLittleEndian.

Module TLSCompressionView.
Record t := mk { data_ : Z; size_ : Z }.
Definition generate_object_bytes `{Randomness} := TLSCompressionLittleEndian.generate_object_bytes.
Definition generate_object `{Randomness} := TLSCompressionLittleEndian.generate_object.
Definition get_tls_compressions_length (m : mem) (v : t) : option Z := load m (data_ v).
Definition get_tls_compressions_full_length (m : mem) (v : t) : option Z :=
  l ← get_tls_compressions_length m v; Some (u16 (l + 1)).
Definition make (m : mem) (first last : Z) : option t :=
  n ← get_tls_compressions_full_length m (mk first 0); Some (mk first n).
Definition get_tls_compressions (v : t) : Z * Z := (data_ v + 1, data_ v + size_ v).
Definition to_bytes (v : t) : Z * Z := (data_ v, data_ v + size_ v).
End TLSCompressionView.

(** * Extensions *)

Module TLSExtensionLittleEndian.
Definition make (m : mem) (first last : Z) : option mem :=
  length ← load16 m (first + 2); range m first (first + length + 4).
(** [ext_type] and [ext_bytes] are what the extension's class answers. *)
Definition generate_object_bytes (ext_type : Z) (ext_bytes : mem) : mem :=
  let length := msize ext_bytes in
  [octet 1 ext_type; octet 0 ext_type; octet 1 length; octet 0 length] ++ ext_bytes.
Definition generate_object (ext_type : Z) (ext_bytes : mem) : option mem :=
  let obj_bytes := generate_object_bytes ext_type ext_bytes in make obj_bytes 0 (msize obj_bytes).
Definition get_tls_ext_length (data_ : mem) : option Z := load16 data_ 2.
Definition get_tls_ext_full_length (data_ : mem) : option Z :=
  l ← get_tls_ext_length data_; Some (u16 (l + 4)).
Definition get_tls_ext_type (data_ : mem) : option Z := load16 data_ 0.
Definition get_tls_ext_data (data_ : mem) : Z * Z := (4, msize data_).
Definition to_bytes (data_ : mem) : Z * Z := (0, msize data_).
End TLSExtensionLittleEndian.

Module TLSExtensionView.
Record t := mk { data_ : Z; size_ : Z }.
Definition generate_object_bytes := TLSExtensionLittleEndian.generate_object_bytes.
Definition generate_object := TLSExtensionLittleEndian.generate_object.
Definition get_tls_ext_length (m : mem) (v : t) : option Z := load16 m (data_ v + 2).
Definition get_tls_ext_full_length (m : mem) (v : t) : option Z :=
  l ← get_tls_ext_length m v; Some (u16 (l + 4)).
Definition make (m : mem) (first last : Z) : option t :=
  n ← get_tls_ext_full_length m (mk first 0); Some (mk first n).
Definition get_tls_ext_type (m : mem) (v : t) : option Z := load16 m (data_ v).
Definition get_tls_ext_data (v : t) : Z * Z := (data_ v + 4, data_ v + size_ v).
Definition to_bytes (v : t) : Z * Z := (data_ v, data_ v + size_ v).
End TLSExtensionView.

Module TLSExtensionsLittleEndian.
Definition make (m : mem) (first last : Z) : option mem :=
  length ← load16 m first; range m first (first + length + 2).
(** The extensions' bytes one after the other, behind their size, a [UShort]. *)
Definition generate_object_bytes (obj_bytes : list mem) : mem :=
  let size := fold_left (fun size l => u16 (size + msize l)) obj_bytes 0 in
  [octet 1 size; octet 0 size] ++ concat obj_bytes.
Definition generate_object (obj_bytes : list mem) : option mem :=
  let objs_bytes := generate_object_bytes obj_bytes in make objs_bytes 0 (msize objs_bytes).
Definition get_tls_extensions_length (extensions_ : mem) : option Z := load16 extensions_ 0.
Definition get_tls_extensions_full_length (extensions_ : mem) : option Z :=
  l ← get_tls_extensions_length extensions_; Some (u16 (l + 2)).
Definition get_tls_extensions (extensions_ : mem) : Z * Z := (2, msize extensions_).
Definition to_bytes (extensions_ : mem) : Z * Z := (0, msize extensions_).
End TLSExtensionsLittleEndian.

Module TLSExtensionsView.
Record t := mk { data_ : Z; size_ : Z }.
Definition generate_object_bytes := TLSExtensionsLittleEndian.generate_object_bytes.
Definition generate_object := TLSExtensionsLittleEndian.generate_object.
Definition get_tls_extensions_length (m : mem) (v : t) : option Z := load16 m (data_ v).
Definition get_tls_extensions_full_length (m : mem) (v : t) : option Z :=
  l ← get_tls_extensions_length m v; Some (u16 (l + 2)).
Definition make (m : mem) (first last : Z) : option t :=
  n ← get_tls_extensions_full_length m (mk first 0); Some (mk first n).
Definition get_tls_extensions (v : t) : Z * Z := (data_ v + 2, data_ v + size_ v).
Definition to_bytes (v : t) : Z * Z := (data_ v, data_ v + size_ v).
End TLSExtensionsView.

Module TLSSupportedVersionsEntryLittleEndian.
Definition make (m : mem) (first last : Z) : option mem := range m first (first + 2).
Definition generate_object_bytes (length version : Z) : mem := [octet 1 version; octet 0 version].
Definition generate_object (length version : Z) : option mem :=
  let obj_bytes := generate_object_bytes length version in make obj_bytes 0 (msize obj_bytes).
Definition get_tls_versions_full_length (data_ : mem) : Z := 2.
Definition get_tls_versions_length (data_ : mem) : Z := 2.
Definition get_tls_supported_version_value (data_ : mem) : option Z := load16 data_ 0.
Definition get_tls_supported_version (data_ : mem) : Z * Z := (0, msize data_).
Definition to_bytes (data_ : mem) : Z * Z := (0, msize data_).
End TLSSupportedVersionsEntryLittleEndian.

Module TLSSupportedVersionsEntryView.
Record t := mk { data_ : Z; size_ : Z }.
Definition make (first last : Z) : t := mk first 2.
Definition generate_object_bytes := TLSSupportedVersionsEntryLittleEndian.generate_object_bytes.
Definition generate_object := TLSSupportedVersionsEntryLittleEndian.generate_object.
Definition get_tls_versions_full_length (v : t) : Z := 2.
Definition get_tls_versions_length (v : t) : Z := 2.
Definition get_tls_supported_version_value (m : mem) (v : t) : option Z := load16 m (data_ v).
Definition get_tls_supported_version (v : t) : Z * Z := (data_ v, data_ v + size_ v).
Definition to_bytes (v : t) : Z * Z := (data_ v, data_ v + size_ v).
End TLSSupportedVersionsEntryView.

Module TLSSupportedVersionsClientHelloExtensionLittleEndian.
Definition make (m : mem) (first last : Z) : option mem :=
  length ← load m first; range m first (first + length + 1).
Definition get_extension_type : Z := SUPPORTED_VERSIONS.
(** [list_length] is a [UByte]. *)
Definition generate_object_bytes (versions : list Z) : mem :=
  let '(obj_bytes, list_length) :=
    fold_left (fun '(obj_bytes, list_length) i =>
      let ver := TLSSupportedVersionsEntryLittleEndian.generate_object_bytes 2 i in
      (obj_bytes ++ ver, u8 (list_length + msize ver))) versions ([], 0) in
  list_length :: obj_bytes.
Definition generate_object (versions : list Z) : option mem :=
  let obj_bytes := generate_object_bytes versions in make obj_bytes 0 (msize obj_bytes).
Definition get_tls_versions_length (versions_ : mem) : option Z := load versions_ 0.
Definition get_tls_versions_full_length (versions_ : mem) : option Z :=
  l ← get_tls_versions_length versions_; Some (u16 (l + 1)).
Definition get_tls_supported_versions (versions_ : mem) : Z * Z := (1, msize versions_).
Definition to_bytes (versions_ : mem) : Z * Z := (0, msize versions_).
End TLSSupportedVersionsClientHelloExtensionLittleEndian.

Module TLSSupportedVersionsClientHelloExtensionView.
Record t := mk { data_ : Z; size_ : Z }.
Definition get_extension_type : Z := SUPPORTED_VERSIONS.
Definition generate_object_bytes := TLSSupportedVersionsClientHelloExtensionLittleEndian.generate_object_bytes.
Definition generate_object := TLSSupportedVersionsClientHelloExtensionLittleEndian.generate_object.
Definition get_tls_versions_length (m : mem) (v : t) : option Z := load m (data_ v).
Definition get_tls_versions_full_length (m : mem) (v : t) : option Z :=
  l ← get_tls_versions_length m v; Some (u16 (l + 1)).
Definition make (m : mem) (first last : Z) : option t :=
  n ← get_tls_versions_full_length m (mk first 0); Some (mk first n).
Definition get_tls_supported_versions (v : t) : Z * Z := (data_ v + 1, data_ v + size_ v).
Definition to_bytes (v : t) : Z * Z := (data_ v, data_ v + size_ v).
End TLSSupportedVersionsClientHelloExtensionView.

Module TLSSupportedVersionsServerHelloExtensionLittleEndian.
Definition make (m : mem) (first last : Z) : option mem := range m first (first + 2).
Definition get_extension_type : Z := SUPPORTED_VERSIONS.
Definition generate_object_bytes (version : Z) : mem :=
  TLSSupportedVersionsEntryLittleEndian.generate_object_bytes 2 version.
Definition generate_object (version : Z) : option mem :=
  let obj_bytes := generate_object_bytes version in make obj_bytes 0 (msize obj_bytes).
Definition get_tls_versions_length (versions_ : mem) : Z := 2.
Definition get_tls_versions_full_length (versions_ : mem) : Z := get_tls_versions_length versions_.
Definition get_tls_supported_version (versions_ : mem) : Z * Z := (0, msize versions_).
Definition to_bytes (versions_ : mem) : Z * Z := (0, msize versions_).
End TLSSupportedVersionsServerHelloExtensionLittleEndian.

Module TLSSupportedVersionsServerHelloExtensionView.
Record t := mk { data_ : Z; size_ : Z }.
Definition get_extension_type : Z := SUPPORTED_VERSIONS.
Definition generate_object_bytes := TLSSupportedVersionsServerHelloExtensionLittleEndian.generate_object_bytes.
Definition generate_object := TLSSupportedVersionsServerHelloExtensionLittleEndian.generate_object.
Definition get_tls_versions_length (v : t) : Z := u8 2.
Definition get_tls_versions_full_length (v : t) : Z := get_tls_versions_length v.
Definition make (first last : Z) : t := mk first (get_tls_versions_full_length (mk first 0)).
Definition get_tls_supported_versions (v : t) : Z * Z := (data_ v, data_ v + size_ v).
Definition to_bytes (v : t) : Z * Z := (data_ v, data_ v + size_ v).
End TLSSupportedVersionsServerHelloExtensionView.

Module TLSKeyShareEntryLittleEndian.
Definition make (m : mem) (first last : Z) : option mem :=
  length ← load16 m (first + 2); range m first (first + length + 4).
Definition generate_object_bytes `{Randomness} (length key_type seed : Z) : option mem :=
  obj_bytes ← TLSTools.vector_bytes_generator u16 (length + 2 + 2) 4 seed;
  obj_bytes ← store16 obj_bytes 0 key_type;
  store16 obj_bytes 2 length.
Definition generate_object `{Randomness} (length key_type seed : Z) : option mem :=
  obj_bytes ← generate_object_bytes length key_type seed; make obj_bytes 0 (msize obj_bytes).
Definition get_tls_key_share_entry_length (key_exchange_ : mem) : option Z := load16 key_exchange_ 2.
Definition get_tls_key_share_entry_full_length (key_exchange_ : mem) : option Z :=
  l ← get_tls_key_share_entry_length key_exchange_; Some (u16 (l + 4)).
Definition get_tls_key_share_key_type (key_exchange_ : mem) : option Z := load16 key_exchange_ 0.
Definition get_tls_key_data (key_exchange_ : mem) : Z * Z := (4, msize key_exchange_).
Definition to_bytes (key_exchange_ : mem) : Z * Z := (0, msize key_exchange_).
End TLSKeyShareEntryLittleEndian.

Module TLSKeyShareEntryView.
Record t := mk { data_ : Z; size_ : Z }.
Definition generate_object_bytes `{Randomness} := TLSKeyShareEntryLittleEndian.generate_object_bytes.
Definition generate_object `{Randomness} := TLSKeyShareEntryLittleEndian.generate_object.
Definition get_tls_key_share_entry_length (m : mem) (v : t) : option Z := load16 m (data_ v + 2).
Definition get_tls_key_share_entry_full_length (m : mem) (v : t) : option Z :=
  l ← get_tls_key_share_entry_length m v; Some (u16 (l + 4)).
Definition make (m : mem) (first last : Z) : option t :=
  n ← get_tls_key_share_entry_full_length m (mk first 0); Some (mk first n).
Definition get_tls_key_share_key_type (m : mem) (v : t) : option Z := load16 m (data_ v).
Definition get_tls_key_exchange (v : t) : Z * Z := (data_ v + 4, data_ v + size_ v).
Definition to_bytes (v : t) : Z * Z := (data_ v, data_ v + size_ v).
End TLSKeyShareEntryView.

Module TLSKeyShareClientHelloLittleEndian.
Definition make (m : mem) (first last : Z) : option mem :=
  length ← load16 m first; range m first (first + length + 2).
Definition get_extension_type : Z := KEY_SHARE.
(** The loop over the key shares, types and lengths; each entry draws from a generator of
    its own. *)
Fixpoint entries `{Randomness} (key_shares : list (Z * Z)) (seeds : nat -> Z) (k : nat)
    (obj_bytes : mem) (list_length : Z) : option (mem * Z) :=
  match key_shares with
  | [] => Some (obj_bytes, list_length)
  | i :: key_shares =>
      key_type ← TLSKeyShareEntryLittleEndian.generate_object_bytes (u16 (snd i)) (fst i) (seeds k);
      entries key_shares seeds (S k) (obj_bytes ++ key_type) (u16 (list_length + msize key_type))
  end.
Definition generate_object_bytes `{Randomness} (key_shares : list (Z * Z)) (seeds : nat -> Z) : option mem :=
  '(obj_bytes, list_length) ← entries key_shares seeds 0 [] 0;
  Some (octet 1 list_length :: octet 0 list_length :: obj_bytes).
(** The object that comes back is an entry, built over the bytes of the list. *)
Definition generate_object `{Randomness} (key_shares : list (Z * Z)) (seeds : nat -> Z) : option mem :=
  obj_bytes ← generate_object_bytes key_shares seeds;
  TLSKeyShareEntryLittleEndian.make obj_bytes 0 (msize obj_bytes).
Definition get_tls_key_share_length (client_shares_ : mem) : option Z := load16 client_shares_ 0.
Definition get_tls_key_share_full_length (client_shares_ : mem) : option Z :=
  l ← get_tls_key_share_length client_shares_; Some (u16 (l + 2)).
Definition get_tls_key_share (client_shares_ : mem) : Z * Z := (2, msize client_shares_).
Definition to_bytes (client_shares_ : mem) : Z * Z := (0, msize client_shares_).
End TLSKeyShareClientHelloLittleEndian.

Module TLSKeyShareClientHelloView.
Record t := mk { data_ : Z; size_ : Z }.
Definition get_extension_type : Z := KEY_SHARE.
Definition generate_object_bytes `{Randomness} := TLSKeyShareClientHelloLittleEndian.generate_object_bytes.
Definition generate_object `{Randomness} := TLSKeyShareClientHelloLittleEndian.generate_object.
Definition get_tls_key_share_length (m : mem) (v : t) : option Z := load16 m (data_ v).
Definition get_tls_key_share_full_length (m : mem) (v : t) : option Z :=
  l ← get_tls_key_share_length m v; Some (u16 (l + 2)).
Definition make (m : mem) (first last : Z) : option t :=
  n ← get_tls_key_share_full_length m (mk first 0); Some (mk first n).
Definition get_tls_key_share (v : t) : Z * Z := (data_ v + 2, data_ v + size_ v).
Definition to_bytes (v : t) : Z * Z := (data_ v, data_ v + size_ v).
End TLSKeyShareClientHelloView.

(** ["vk.com"]. *)
Definition vk_com : mem := [118; 107; 46; 99; 111; 109].

Module TLSServerNameIndicationEntryLittleEndian.
Definition make (m : mem) (first last : Z) : option mem :=
  length ← load16 m (first + 1); range m first (first + length + 3).
Definition generate_object_bytes (length : Z) (host : mem) : mem :=
  [HOST_NAME; octet 1 length; octet 0 length] ++ host.
(** [host] is not passed on: the bytes are those of the default host. *)
Definition generate_object (length : Z) (host : mem) : option mem :=
  let obj_bytes := generate_object_bytes length vk_com in make obj_bytes 0 (msize obj_bytes).
Definition get_tls_sni_length (data_ : mem) : option Z := load16 data_ 1.
Definition get_tls_sni_full_length (data_ : mem) : option Z :=
  l ← get_tls_sni_length data_; Some (u16 (l + 3)).
Definition get_tls_sni_record_type (data_ : mem) : option Z := load data_ 0.
Definition get_tls_sni_entry_data (data_ : mem) : Z * Z := (3, msize data_).
Definition to_bytes (data_ : mem) : Z * Z := (0, msize data_).
End TLSServerNameIndicationEntryLittleEndian.

Module TLSServerNameIndicationEntryView.
Record t := mk { data_ : Z; size_ : Z }.
Definition generate_object_bytes := TLSServerNameIndicationEntryLittleEndian.generate_object_bytes.
Definition generate_object := TLSServerNameIndicationEntryLittleEndian.generate_object.
Definition get_tls_sni_length (m : mem) (v : t) : option Z := load16 m (data_ v + 1).
Definition get_tls_sni_full_length (m : mem) (v : t) : option Z :=
  l ← get_tls_sni_length m v; Some (u16 (l + 3)).
Definition make (m : mem) (first last : Z) : option t :=
  length ← load16 m (first + 1); Some (mk first (length + 3)).
Definition get_tls_sni_record_type (m : mem) (v : t) : option Z := load m (data_ v).
Definition get_tls_sni_entry_data (v : t) : Z * Z := (data_ v + 3, data_ v + size_ v).
Definition to_bytes (v : t) : Z * Z := (data_ v, data_ v + size_ v).
End TLSServerNameIndicationEntryView.

Module TLSServerNameIndicationExtensionLittleEndian.
Definition make (m : mem) (first last : Z) : option mem :=
  length ← load16 m first; range m first (first + length + 2).
Definition get_extension_type : Z := SERVER_NAME.
(** [size], the number of hosts, [elem->size()] and [list_length] are [UShort]s. *)
Definition generate_object_bytes (hosts : list mem) : mem :=
  let size := u16 (Z.of_nat (length hosts)) in
  let '(res, list_length) :=
    fold_left (fun '(res, list_length) elem =>
      let obj_bytes := TLSServerNameIndicationEntryLittleEndian.generate_object_bytes (u16 (msize elem)) elem in
      (res ++ obj_bytes, u16 (list_length + msize obj_bytes))) (take (Z.to_nat size) hosts) ([], 0) in
  octet 1 list_length :: octet 0 list_length :: res.
Definition generate_object (hosts : list mem) : option mem :=
  let obj_bytes := generate_object_bytes hosts in make obj_bytes 0 (msize obj_bytes).
Definition get_tls_sni_length (data_ : mem) : option Z := load16 data_ 0.
Definition get_tls_sni_full_length (data_ : mem) : option Z :=
  l ← get_tls_sni_length data_; Some (u16 (l + 2)).
Definition get_tls_sni_data (data_ : mem) : Z * Z := (2, msize data_).
Definition to_bytes (data_ : mem) : Z * Z := (0, msize data_).
End TLSServerNameIndicationExtensionLittleEndian.

Module TLSServerNameIndicationExtensionView.
Record t := mk { data_ : Z; size_ : Z }.
Definition get_extension_type : Z := SERVER_NAME.
Definition generate_object_bytes := TLSServerNameIndicationExtensionLittleEndian.generate_object_bytes.
Definition generate_object := TLSServerNameIndicationExtensionLittleEndian.generate_object.
Definition get_tls_sni_length (m : mem) (v : t) : option Z := load16 m (data_ v).
Definition get_tls_sni_full_length (m : mem) (v : t) : option Z :=
  l ← get_tls_sni_length m v; Some (u16 (l + 2)).
Definition make (m : mem) (first last : Z) : option t :=
  n ← get_tls_sni_full_length m (mk first 0); Some (mk first n).
Definition get_tls_sni_data (v : t) : Z * Z := (data_ v + 2, data_ v + size_ v).
Definition to_bytes (v : t) : Z * Z := (data_ v, data_ v + size_ v).
End TLSServerNameIndicationExtensionView.

(** * Hello messages *)

(** Offsets into a hello, [first, second) of each field. *)
Record TLS13_HelloPacketScheme := mk_scheme {
  random : Z * Z; session : Z * Z; ciphers : Z * Z; compressions : Z * Z; extensions : Z * Z }.

Definition unified_parse_client_scheme (m : mem) (first last : Z) : option TLS13_HelloPacketScheme :=
  let start := 2 in
  let r := TLSRandomView.make (first + start) last in
  let end_ := start + TLSRandomView.get_tls_random_full_length r in
  let random := (start, end_) in
  s ← TLSSessionIDView.make m (first + end_) last;
  n ← TLSSessionIDView.get_tls_id_full_length m s;
  let start := end_ in
  let end_ := start + n in
  let session := (start, end_) in
  c ← TLSCipherSuitView.make m (first + end_) last;
  n ← TLSCipherSuitView.get_tls_ciphers_full_length m c;
  let start := end_ in
  let end_ := start + n in
  let ciphers := (start, end_) in
  comp ← TLSCompressionView.make m (first + end_) last;
  n ← TLSCompressionView.get_tls_compressions_full_length m comp;
  let start := end_ in
  let end_ := start + n in
  let compressions := (start, end_) in
  ext ← TLSExtensionsView.make m (first + end_) last;
  n ← TLSExtensionsView.get_tls_extensions_full_length m ext;
  let start := end_ in
  let end_ := start + n in
  Some (mk_scheme random session ciphers compressions (start, end_)).

Definition unified_server_parse_scheme (m : mem) (first last : Z) : option TLS13_HelloPacketScheme :=
  let start := 2 in
  let r := TLSRandomView.make first last in
  let end_ := start + TLSRandomView.get_tls_random_full_length r in
  let random := (start, end_) in
  s ← TLSSessionIDView.make m (first + end_) last;
  n ← TLSSessionIDView.get_tls_id_full_length m s;
  let start := end_ in
  let end_ := start + n in
  let session := (start, end_) in
  let start := end_ in
  let end_ := start + 2 in
  let ciphers := (start, end_) in
  let start := end_ in
  let end_ := start + 1 in
  let compressions := (start, end_) in
  ext ← TLSExtensionsView.make m (first + end_) last;
  n ← TLSExtensionsView.get_tls_extensions_full_length m ext;
  let start := end_ in
  let end_ := start + n in
  Some (mk_scheme random session ciphers compressions (start, end_)).

Module TLS13_DefaultClientHelloGenerationStrategy.
Definition get_legacy_version : Z := TLS12.
Definition get_session_length : Z := 32.
Definition get_cipher_length : Z := 34.
Definition get_compression_length : Z := 1.
Definition get_supported_versions_length : Z := 8.
Definition get_supported_versions : list Z := [TLS13; TLS12; TLS11; TLS10].
Definition get_key_share_length : Z := 32.
Definition get_key_share : list (Z * Z) := [(X25519, X25519_LENGTH)].
Definition get_sni_length : Z := 6.
Definition get_sni_hosts : list mem := [vk_com].
Definition get_sni_hosts_of (host : mem) : list mem := [host].
End TLS13_DefaultClientHelloGenerationStrategy.

Module TLS13_DefaultServerHelloGenerationStrategy.
Definition get_legacy_version : Z := TLS12.
Definition get_session_length : Z := 32.
Definition get_cipher_suite : Z := TLS_ECDHE_RSA_WITH_AES_128_GCM_SHA256.
Definition get_compression_method : Z := NULL_COMPRESSION.
Definition get_supported_versions_length : Z := 2.
Definition get_supported_version : Z := TLS13.
End TLS13_DefaultServerHelloGenerationStrategy.

(** What a hello takes from outside: [std::time] and the seeds of its generators. *)
Record draws := mk_draws {
  time : Z; random_seed : Z; session_seed : Z; cipher_seed : Z; compression_seed : Z;
  share_seeds : nat -> Z }.

(** [get_tls_sni_data]: a step at the extension at [i] of the range [b, e) returns the view
    of the server names or moves to the next extension. *)
Definition sni_step (m : mem) (b e i : Z) : option (TLSServerNameIndicationExtensionView.t + Z) :=
  if i <? e then
    ext ← TLSExtensionView.make m i e;
    ty ← TLSExtensionView.get_tls_ext_type m ext;
    if ty =? SERVER_NAME then inl <$> TLSServerNameIndicationExtensionView.make m i e
    else n ← TLSExtensionView.get_tls_ext_full_length m ext; Some (inr (i + n))
  else inl <$> TLSServerNameIndicationExtensionView.make m b b.

Inductive search : Type :=
  | Found (v : TLSServerNameIndicationExtensionView.t)
  | Undefined
  | Running.

Fixpoint sni_loop (fuel : nat) (m : mem) (b e i : Z) : search :=
  match fuel with
  | O => Running
  | S fuel =>
      match sni_step m b e i with
      | None => Undefined
      | Some (inl v) => Found v
      | Some (inr i) => sni_loop fuel m b e i
      end
  end.

Module TLS13_ClientHelloPacketLittleEndian.

Record t := mk { data_ : mem; scheme_ : TLS13_HelloPacketScheme }.

Definition parse_scheme (data_ : mem) : option TLS13_HelloPacketScheme :=
  unified_parse_client_scheme data_ 0 (msize data_).
Definition make (m : mem) (begin_ end_ : Z) : option t :=
  data_ ← range m begin_ end_; scheme_ ← parse_scheme data_; Some (mk data_ scheme_).

Definition get_overlay_protocol_type : Z := CLIENT_HELLO.
Definition get_tls_version (h : t) : option Z := load16 (data_ h) 0.
Definition is_valid (h : t) : option bool :=
  ver ← get_tls_version h; Some (if negb (ver =? TLS12) then false else true).
Definition get_tls_random (h : t) : TLSRandomView.t :=
  TLSRandomView.make (fst (random (scheme_ h))) (snd (random (scheme_ h))).
Definition get_tls_session (h : t) : option TLSSessionIDView.t :=
  TLSSessionIDView.make (data_ h) (fst (session (scheme_ h))) (snd (session (scheme_ h))).
Definition get_tls_cipher_suites (h : t) : option TLSCipherSuitView.t :=
  TLSCipherSuitView.make (data_ h) (fst (ciphers (scheme_ h))) (snd (ciphers (scheme_ h))).
Definition get_tls_compression_methods (h : t) : option TLSCompressionView.t :=
  TLSCompressionView.make (data_ h) (fst (compressions (scheme_ h))) (snd (compressions (scheme_ h))).
Definition get_tls_extensions_data (h : t) : option TLSExtensionsView.t :=
  TLSExtensionsView.make (data_ h) (fst (extensions (scheme_ h))) (snd (extensions (scheme_ h))).
Definition get_tls_sni_data (fuel : nat) (h : t) : search :=
  match get_tls_extensions_data h with
  | None => Undefined
  | Some exts => let '(b, e) := TLSExtensionsView.get_tls_extensions exts in
                 sni_loop fuel (data_ h) b e b
  end.
Definition to_bytes (h : t) : Z * Z := (0, msize (data_ h)).

Section Generate.
Context `{Randomness}.
Import TLS13_DefaultClientHelloGenerationStrategy.

(** What the generators share: the legacy version and the random bytes, the session id they
    are given, then ciphers, compressions and the three extensions. *)
Definition assemble (d : draws) (session : mem) (sni_hosts : list mem) : option mem :=
  let legacy_version := get_legacy_version in
  random ← TLSRandomLittleEndian.generate_object_bytes (time d) (random_seed d);
  cipher ← TLSCipherSuitLittleEndian.generate_object_bytes get_cipher_length (cipher_seed d);
  compres ← TLSCompressionLittleEndian.generate_object_bytes (u8 get_compression_length) (compression_seed d);
  let sup_ver := TLSExtensionLittleEndian.generate_object_bytes
    TLSSupportedVersionsClientHelloExtensionLittleEndian.get_extension_type
    (TLSSupportedVersionsClientHelloExtensionLittleEndian.generate_object_bytes get_supported_versions) in
  key_shares ← TLSKeyShareClientHelloLittleEndian.generate_object_bytes get_key_share (share_seeds d);
  let key_share := TLSExtensionLittleEndian.generate_object_bytes
    TLSKeyShareClientHelloLittleEndian.get_extension_type key_shares in
  let sni := TLSExtensionLittleEndian.generate_object_bytes
    TLSServerNameIndicationExtensionLittleEndian.get_extension_type
    (TLSServerNameIndicationExtensionLittleEndian.generate_object_bytes sni_hosts) in
  let extensions := TLSExtensionsLittleEndian.generate_object_bytes [sup_ver; key_share; sni] in
  Some ([octet 1 legacy_version; octet 0 legacy_version] ++ random ++ session ++ cipher
        ++ compres ++ extensions).

(** The generators: for a session id from [begin_, end_), the same with a host of a
    whitelist, and with a random session id. *)
Definition generate_object_bytes_of (d : draws) (m : mem) (begin_ end_ : Z) : option mem :=
  session ← TLSSessionIDLittleEndian.generate_object_bytes_of m begin_ end_;
  assemble d session get_sni_hosts.
Definition generate_object_bytes_host (d : draws) (host m : mem) (begin_ end_ : Z) : option mem :=
  session ← TLSSessionIDLittleEndian.generate_object_bytes_of m begin_ end_;
  assemble d session (get_sni_hosts_of host).
Definition generate_object_bytes (d : draws) : option mem :=
  session ← TLSSessionIDLittleEndian.generate_object_bytes get_session_length (session_seed d);
  assemble d session get_sni_hosts.

Definition generate_object_of (d : draws) (m : mem) (begin_ end_ : Z) : option t :=
  obj_bytes ← generate_object_bytes_of d m begin_ end_; make obj_bytes 0 (msize obj_bytes).
Definition generate_object_host (d : draws) (host m : mem) (begin_ end_ : Z) : option t :=
  obj_bytes ← generate_object_bytes_host d host m begin_ end_; make obj_bytes 0 (msize obj_bytes).
Definition generate_object (d : draws) : option t :=
  obj_bytes ← generate_object_bytes d; make obj_bytes 0 (msize obj_bytes).

End Generate.
End TLS13_ClientHelloPacketLittleEndian.

Module TLS13_ClientHelloPacketView.

Record t := mk { data_ : Z; size_ : Z; scheme_ : TLS13_HelloPacketScheme }.

Definition parse_scheme (m : mem) (data_ size_ : Z) : option TLS13_HelloPacketScheme :=
  unified_parse_client_scheme m data_ (data_ + size_).
Definition make (m : mem) (begin_ end_ : Z) : option t :=
  scheme_ ← parse_scheme m begin_ (end_ - begin_); Some (mk begin_ (end_ - begin_) scheme_).

Definition generate_object_bytes_of `{Randomness} := TLS13_ClientHelloPacketLittleEndian.generate_object_bytes_of.
Definition generate_object_of `{Randomness} := TLS13_ClientHelloPacketLittleEndian.generate_object_of.
Definition generate_object_bytes `{Randomness} := TLS13_ClientHelloPacketLittleEndian.generate_object_bytes.
Definition generate_object `{Randomness} := TLS13_ClientHelloPacketLittleEndian.generate_object.
Definition get_overlay_protocol_type : Z := CLIENT_HELLO.
Definition get_tls_version (m : mem) (h : t) : option Z := load16 m (data_ h).
Definition get_tls_random (h : t) : TLSRandomView.t :=
  TLSRandomView.make (data_ h + fst (random (scheme_ h))) (data_ h + snd (random (scheme_ h))).
Definition get_tls_session (m : mem) (h : t) : option TLSSessionIDView.t :=
  TLSSessionIDView.make m (data_ h + fst (session (scheme_ h))) (data_ h + snd (session (scheme_ h))).
Definition get_tls_cipher_suites (m : mem) (h : t) : option TLSCipherSuitView.t :=
  TLSCipherSuitView.make m (data_ h + fst (ciphers (scheme_ h))) (data_ h + snd (ciphers (scheme_ h))).
Definition get_tls_compression_methods (m : mem) (h : t) : option TLSCompressionView.t :=
  TLSCompressionView.make m (data_ h + fst (compressions (scheme_ h)))
    (data_ h + snd (compressions (scheme_ h))).
Definition get_tls_extensions_data (m : mem) (h : t) : option TLSExtensionsView.t :=
  TLSExtensionsView.make m (data_ h + fst (extensions (scheme_ h)))
    (data_ h + snd (extensions (scheme_ h))).
Definition get_tls_sni_data (fuel : nat) (m : mem) (h : t) : search :=
  match get_tls_extensions_data m h with
  | None => Undefined
  | Some exts => let '(b, e) := TLSExtensionsView.get_tls_extensions exts in sni_loop fuel m b e b
  end.
Definition to_bytes (h : t) : Z * Z := (data_ h, data_ h + size_ h).
End TLS13_ClientHelloPacketView.

Module TLS13_ServerHelloPacketLittleEndian.

Record t := mk { data_ : mem; scheme_ : TLS13_HelloPacketScheme }.

Definition parse_scheme (data_ : mem) : option TLS13_HelloPacketScheme :=
  unified_server_parse_scheme data_ 0 (msize data_).
Definition make (m : mem) (begin_ end_ : Z) : option t :=
  data_ ← range m begin_ end_; scheme_ ← parse_scheme data_; Some (mk data_ scheme_).

Definition get_overlay_protocol_type : Z := SERVER_HELLO.

Section Generate.
Context `{Randomness}.
Import TLS13_DefaultServerHelloGenerationStrategy.

Definition generate_object_bytes (d : draws) : option mem :=
  let legacy_version := get_legacy_version in
  random ← TLSRandomLittleEndian.generate_object_bytes (time d) (random_seed d);
  session ← TLSSessionIDLittleEndian.generate_object_bytes get_session_length (session_seed d);
  let cipher_suite := get_cipher_suite in
  let compres_method := get_compression_method in
  let sup_ver := get_supported_version in
  let sup_ver_ext := TLSExtensionLittleEndian.generate_object_bytes
    TLSSupportedVersionsServerHelloExtensionLittleEndian.get_extension_type
    (TLSSupportedVersionsServerHelloExtensionLittleEndian.generate_object_bytes sup_ver) in
  let extensions := TLSExtensionsLittleEndian.generate_object_bytes [sup_ver_ext] in
  Some ([octet 1 legacy_version; octet 0 legacy_version] ++ random ++ session
        ++ [octet 1 cipher_suite; octet 0 cipher_suite] ++ [octet 0 compres_method] ++ extensions).
Definition generate_object (d : draws) : option t :=
  obj_bytes ← generate_object_bytes d; make obj_bytes 0 (msize obj_bytes).

End Generate.

Definition get_tls_version (h : t) : option Z := load16 (data_ h) 0.
Definition get_tls_random (h : t) : TLSRandomView.t :=
  TLSRandomView.make (fst (random (scheme_ h))) (snd (random (scheme_ h))).
Definition get_tls_session (h : t) : option TLSSessionIDView.t :=
  TLSSessionIDView.make (data_ h) (fst (session (scheme_ h))) (snd (session (scheme_ h))).
(** The second byte is read behind the cipher suite. *)
Definition get_tls_cipher_suite (h : t) : option Z :=
  a ← load (data_ h) (fst (ciphers (scheme_ h)));
  b ← load (data_ h) (snd (ciphers (scheme_ h)));
  Some (cat16 a b).
Definition get_tls_compression_method (h : t) : option Z := load (data_ h) (fst (compressions (scheme_ h))).
Definition get_tls_extensions_data (h : t) : option TLSExtensionsView.t :=
  TLSExtensionsView.make (data_ h) (fst (extensions (scheme_ h))) (snd (extensions (scheme_ h))).
Definition to_bytes (h : t) : Z * Z := (0, msize (data_ h)).
End TLS13_ServerHelloPacketLittleEndian.

(** [generate_object_bytes] of the view calls itself; it has no model. *)
Module TLS13_ServerHelloPacketView.

Record t := mk { data_ : Z; size_ : Z; scheme_ : TLS13_HelloPacketScheme }.

Definition parse_scheme (m : mem) (data_ size_ : Z) : option TLS13_HelloPacketScheme :=
  unified_server_parse_scheme m data_ (data_ + size_).
Definition make (m : mem) (begin_ end_ : Z) : option t :=
  scheme_ ← parse_scheme m begin_ (end_ - begin_); Some (mk begin_ (end_ - begin_) scheme_).

Definition get_overlay_protocol_type : Z := SERVER_HELLO.
Definition generate_object `{Randomness} := TLS13_ServerHelloPacketLittleEndian.generate_object.
Definition get_tls_version (m : mem) (h : t) : option Z := load16 m (data_ h).
Definition get_tls_random (h : t) : TLSRandomView.t :=
  TLSRandomView.make (data_ h + fst (random (scheme_ h))) (data_ h + snd (random (scheme_ h))).
Definition get_tls_session (m : mem) (h : t) : option TLSSessionIDView.t :=
  TLSSessionIDView.make m (data_ h + fst (session (scheme_ h))) (data_ h + snd (session (scheme_ h))).
Definition get_tls_cipher_suite (m : mem) (h : t) : option Z :=
  a ← load m (data_ h + fst (ciphers (scheme_ h)));
  b ← load m (data_ h + snd (ciphers (scheme_ h)));
  Some (cat16 a b).
Definition get_tls_compression_method (m : mem) (h : t) : option Z :=
  load m (data_ h + fst (compressions (scheme_ h))).
Definition get_tls_extensions_data (m : mem) (h : t) : option TLSExtensionsView.t :=
  TLSExtensionsView.make m (data_ h + fst (extensions (scheme_ h)))
    (data_ h + snd (extensions (scheme_ h))).
Definition to_bytes (h : t) : Z * Z := (data_ h, data_ h + size_ h).
End TLS13_ServerHelloPacketView.

(** * Handshake messages: a type, a 24-bit length, a hello *)

Module TLS13_MessageLittleEndian.
(** The constructor reads the length from its own vector, which is still empty. *)
Definition make (m : mem) (begin_ end_ : Z) : option mem :=
  let data_ : mem := [] in
  a ← load data_ 1; b ← load data_ 2; c ← load data_ 3;
  let length := u32 (cat32 0 a b c + 4) in
  range m begin_ (begin_ + length).
Definition get_tls_msg_type (data_ : mem) : option Z := load data_ 0.
Definition get_tls_msg_length (data_ : mem) : option Z :=
  a ← load data_ 1; b ← load data_ 2; c ← load data_ 3; Some (cat32 0 a b c).
Definition get_tls_msg_full_length (data_ : mem) : option Z :=
  l ← get_tls_msg_length data_; Some (u32 (l + 4)).
Definition get_overlay_protocol_type : Z := HANDSHAKE.
(** [msg_type] and [obj_bytes] are what the hello's class answers. *)
Definition generate_object_bytes (msg_type : Z) (obj_bytes : mem) : mem :=
  let size := u32 (msize obj_bytes) in
  let obj_bytes := TLS13_RecordLittleEndian.insert obj_bytes 0 (u8 msg_type) in
  let obj_bytes := TLS13_RecordLittleEndian.insert obj_bytes 1 (octet 2 size) in
  let obj_bytes := TLS13_RecordLittleEndian.insert obj_bytes 2 (octet 1 size) in
  TLS13_RecordLittleEndian.insert obj_bytes 3 (octet 0 size).
Definition get_tls_msg_data (data_ : mem) : Z * Z := (4, msize data_).
Definition to_bytes (data_ : mem) : Z * Z := (0, msize data_).
End TLS13_MessageLittleEndian.

Module TLS13_MessageView.
Record t := mk { data_ : Z; size_ : Z }.
Definition get_tls_msg_type (m : mem) (v : t) : option Z := load m (data_ v).
Definition get_tls_msg_length (m : mem) (v : t) : option Z :=
  a ← load m (data_ v + 1); b ← load m (data_ v + 2); c ← load m (data_ v + 3);
  Some (cat32 0 a b c).
Definition get_tls_msg_full_length (m : mem) (v : t) : option Z :=
  l ← get_tls_msg_length m v; Some (u32 (l + 4)).
(** The size comes from the message alone, not from [end_]. *)
Definition make (m : mem) (begin_ end_ : Z) : option t :=
  n ← get_tls_msg_full_length m (mk begin_ 0); Some (mk begin_ n).
Definition get_overlay_protocol_type : Z := HANDSHAKE.
Definition generate_object_bytes := TLS13_MessageLittleEndian.generate_object_bytes.
Definition get_tls_msg_data (v : t) : Z * Z := (data_ v + 4, data_ v + size_ v).
Definition to_bytes (v : t) : Z * Z := (data_ v, data_ v + size_ v).
End TLS13_MessageView.

(** * What the generators write *)

Section Generated.
Context `{Randomness}.

(** The [n] numbers drawn from the generator with seed [s]. *)
Definition drawn (s : Z) (n : nat) : mem := (fun k => u8 (dist s k)) <$> seq 0 n.

Lemma drawn_size s n : msize (drawn s n) = Z.of_nat n.
Proof. unfold drawn, msize. by rewrite length_fmap, length_seq. Qed.

Lemma random_bytes time seed :
  TLSRandomLittleEndian.generate_object_bytes time seed =
  Some ([octet 3 time; octet 2 time; octet 1 time; octet 0 time] ++ drawn seed 28).
Proof. reflexivity. Qed.

Lemma session_bytes length seed :
  is_u8 length -> length < 255 ->
  TLSSessionIDLittleEndian.generate_object_bytes length seed =
  Some (length :: drawn seed (Z.to_nat length)).
Proof.
  intros Hl Hn. unfold TLSSessionIDLittleEndian.generate_object_bytes,
    TLSTools.vector_bytes_generator, TLSTools.bytes_generator.
  rewrite (u8_id (length + 1)) by (unfold is_u8 in *; lia).
  rewrite decide_True by (unfold is_u8 in *; lia). cbn [mbind option_bind].
  replace (length + 1 - 1) with length by lia. change (Z.to_nat 1) with 1%nat.
  cbn [repeat app]. rewrite store_in; [done|]. rewrite msize_cons.
  pose proof (msize_nonneg (drawn seed (Z.to_nat length))). unfold drawn in *. lia.
Qed.

(** A length of 255 wraps: the vector stays empty and is written to. *)
Lemma session_bytes_255 seed : TLSSessionIDLittleEndian.generate_object_bytes 255 seed = None.
Proof. reflexivity. Qed.

(** From 254 on the size of the cipher list wraps as well. *)
Lemma cipher_bytes_254 seed : TLSCipherSuitLittleEndian.generate_object_bytes 254 seed = None.
Proof. reflexivity. Qed.

(** The parts of a client hello behind its session id. *)
Definition cipher_part (d : draws) : mem := [0; 34] ++ drawn (cipher_seed d) 34.
Definition compression_part (d : draws) : mem := 1 :: drawn (compression_seed d) 1.
Definition sup_ver_part : mem := [0; 43; 0; 9; 8; 3; 4; 3; 3; 3; 2; 3; 1].
Definition key_share_part (d : draws) : mem :=
  [0; 40; 0; 38; 0; 36; 0; 29; 0; 32] ++ drawn (share_seeds d 0%nat) 32.
Definition sni_part (host : mem) : mem :=
  let n := u16 (3 + msize host) in
  [0; 0; octet 1 (5 + msize host); octet 0 (5 + msize host); octet 1 n; octet 0 n;
   0; octet 1 (u16 (msize host)); octet 0 (u16 (msize host))] ++ host.
Definition extensions_part (d : draws) (host : mem) : mem :=
  sup_ver_part ++ key_share_part d ++ sni_part host.

Definition random_part (d : draws) : mem :=
  [octet 3 (time d); octet 2 (time d); octet 1 (time d); octet 0 (time d)] ++ drawn (random_seed d) 28.

Lemma sni_part_size host : msize (sni_part host) = 9 + msize host.
Proof. unfold sni_part. by rewrite msize_app. Qed.

Lemma sni_ext_eq host :
  TLSExtensionLittleEndian.generate_object_bytes
    TLSServerNameIndicationExtensionLittleEndian.get_extension_type
    (TLSServerNameIndicationExtensionLittleEndian.generate_object_bytes
       [host]) = sni_part host.
Proof.
  unfold TLSServerNameIndicationExtensionLittleEndian.generate_object_bytes.
  change (take _ _) with [host]. cbn [fold_left app].
  unfold TLSServerNameIndicationEntryLittleEndian.generate_object_bytes.
  rewrite msize_app. change (msize [_; _; _]) with 3.
  unfold TLSExtensionLittleEndian.generate_object_bytes, sni_part.
  rewrite !msize_cons, msize_app. change (msize [_; _; _]) with 3.
  by replace (1 + (1 + (3 + msize host))) with (5 + msize host) by lia.
Qed.

Lemma assemble_eq d session host :
  TLS13_ClientHelloPacketLittleEndian.assemble d session [host] =
  Some ([3; 3] ++ random_part d ++ session ++ cipher_part d ++ compression_part d
        ++ [octet 1 (u16 (64 + msize host)); octet 0 (u16 (64 + msize host))] ++ extensions_part d host).
Proof.
  unfold TLS13_ClientHelloPacketLittleEndian.assemble. rewrite random_bytes.
  change (TLSCipherSuitLittleEndian.generate_object_bytes _ (cipher_seed d)) with (Some (cipher_part d)).
  change (TLSCompressionLittleEndian.generate_object_bytes _ (compression_seed d))
    with (Some (compression_part d)).
  change (TLSKeyShareClientHelloLittleEndian.generate_object_bytes _ (share_seeds d))
    with (Some (drop 4 (key_share_part d))).
  cbn [mbind option_bind].
  change (TLSExtensionLittleEndian.generate_object_bytes
    TLSSupportedVersionsClientHelloExtensionLittleEndian.get_extension_type _) with sup_ver_part.
  change (TLSExtensionLittleEndian.generate_object_bytes
    TLSKeyShareClientHelloLittleEndian.get_extension_type _) with (key_share_part d).
  rewrite sni_ext_eq. unfold TLSExtensionsLittleEndian.generate_object_bytes, extensions_part.
  cbn [fold_left concat]. rewrite app_nil_r.
  change (u16 (u16 (0 + msize sup_ver_part) + msize (key_share_part d))) with 55.
  rewrite sni_part_size. by replace (55 + (9 + msize host)) with (64 + msize host) by lia.
Qed.

End Generated.

(** * What the views read *)

Lemma load_mid P x Q p : p = msize P -> load (P ++ x :: Q) p = Some x.
Proof. intros ->. rewrite load_app_r by lia. by rewrite Z.sub_diag. Qed.

Lemma load16_mid P x y Q p : p = msize P -> load16 (P ++ x :: y :: Q) p = Some (cat16 x y).
Proof.
  intros ->. unfold load16. rewrite (load_mid P x _ (msize P) eq_refl). cbn [mbind option_bind].
  replace (P ++ x :: y :: Q) with ((P ++ [x]) ++ y :: Q) by (rewrite <- app_assoc; done).
  by rewrite load_mid by (rewrite msize_app; done).
Qed.

Lemma range_mid P l Q b e : b = msize P -> e = b + msize l -> range (P ++ l ++ Q) b e = Some l.
Proof. intros -> ->. apply (range_inside_all P Q l). Qed.

(** The bytes of a client hello. *)
Definition client_hello_bytes (v R sess C K E : mem) (c1 c2 e1 e2 : Z) : mem :=
  v ++ R ++ (msize sess :: sess) ++ (c1 :: c2 :: C) ++ (msize K :: K) ++ (e1 :: e2 :: E).

(** Sizes of concatenations. *)
Ltac sizes := rewrite ?msize_app, ?msize_cons; change (msize []) with 0; try lia.

Section ClientScheme.
Context (pre post v R sess C K E : mem) (c1 c2 e1 e2 : Z).
Context (Hv : msize v = 2) (HR : msize R = 32) (Hs : msize sess < 256).
Context (HC : msize C = cat16 c1 c2) (HC' : msize C < 65534) (HK : msize K < 256).

Definition hello_at : mem := inside pre post (client_hello_bytes v R sess C K E c1 c2 e1 e2).
Definition session_at : Z := 34.
Definition ciphers_at : Z := 35 + msize sess.
Definition compressions_at : Z := ciphers_at + 2 + msize C.
Definition extensions_at : Z := compressions_at + 1 + msize K.

Lemma hello_session : load hello_at (msize pre + session_at) = Some (msize sess).
Proof.
  replace hello_at with ((pre ++ v ++ R) ++ msize sess :: (sess ++ (c1 :: c2 :: C)
    ++ (msize K :: K) ++ (e1 :: e2 :: E) ++ post)) by (unfold hello_at, inside, client_hello_bytes; list_simplifier; done).
  apply load_mid. unfold session_at. sizes.
Qed.

Lemma hello_session_range :
  range hello_at (msize pre + session_at + 1) (msize pre + ciphers_at) = Some sess.
Proof.
  replace hello_at with ((pre ++ v ++ R ++ [msize sess]) ++ sess ++ ((c1 :: c2 :: C)
    ++ (msize K :: K) ++ (e1 :: e2 :: E) ++ post)) by (unfold hello_at, inside, client_hello_bytes; list_simplifier; done).
  apply range_mid; unfold session_at, ciphers_at; sizes.
Qed.

Lemma hello_ciphers : load16 hello_at (msize pre + ciphers_at) = Some (msize C).
Proof.
  rewrite HC.
  replace hello_at with ((pre ++ v ++ R ++ msize sess :: sess) ++ c1 :: c2 :: (C
    ++ (msize K :: K) ++ (e1 :: e2 :: E) ++ post)) by (unfold hello_at, inside, client_hello_bytes; list_simplifier; done).
  apply load16_mid. unfold ciphers_at. sizes.
Qed.

Lemma hello_compressions : load hello_at (msize pre + compressions_at) = Some (msize K).
Proof.
  replace hello_at with ((pre ++ v ++ R ++ (msize sess :: sess) ++ c1 :: c2 :: C) ++ msize K :: (K
    ++ (e1 :: e2 :: E) ++ post)) by (unfold hello_at, inside, client_hello_bytes; list_simplifier; done).
  apply load_mid. unfold compressions_at, ciphers_at. sizes.
Qed.

Lemma hello_extensions : load16 hello_at (msize pre + extensions_at) = Some (cat16 e1 e2).
Proof.
  replace hello_at with ((pre ++ v ++ R ++ (msize sess :: sess) ++ (c1 :: c2 :: C) ++ msize K :: K)
    ++ e1 :: e2 :: (E ++ post)) by (unfold hello_at, inside, client_hello_bytes; list_simplifier; done).
  apply load16_mid. unfold extensions_at, compressions_at, ciphers_at. sizes.
Qed.

(** The scheme of a client hello: every field where it was written. *)
Lemma client_scheme last :
  unified_parse_client_scheme hello_at (msize pre) last =
  Some (mk_scheme (2, session_at) (session_at, ciphers_at) (ciphers_at, compressions_at)
          (compressions_at, extensions_at)
          (extensions_at, extensions_at + u16 (cat16 e1 e2 + 2))).
Proof.
  pose proof (msize_nonneg sess). pose proof (msize_nonneg C). pose proof (msize_nonneg K).
  unfold unified_parse_client_scheme, TLSSessionIDView.make, TLSSessionIDView.get_tls_id_full_length,
    TLSSessionIDView.get_tls_id_length, TLSCipherSuitView.make, TLSCipherSuitView.get_tls_ciphers_full_length,
    TLSCipherSuitView.get_tls_ciphers_length, TLSCompressionView.make,
    TLSCompressionView.get_tls_compressions_full_length, TLSCompressionView.get_tls_compressions_length,
    TLSExtensionsView.make, TLSExtensionsView.get_tls_extensions_full_length,
    TLSExtensionsView.get_tls_extensions_length, TLSRandomView.get_tls_random_full_length.
  cbn [TLSSessionIDView.data_ TLSCipherSuitView.data_ TLSCompressionView.data_ TLSExtensionsView.data_].
  change (2 + 32) with session_at. rewrite hello_session. cbn [mbind option_bind TLSSessionIDView.data_].
  rewrite hello_session. cbn [mbind option_bind].
  rewrite (u32_id (msize sess + 1)) by (unfold is_u32; lia).
  replace (session_at + (msize sess + 1)) with ciphers_at by (unfold session_at, ciphers_at; lia).
  rewrite hello_ciphers. cbn [mbind option_bind TLSCipherSuitView.data_].
  rewrite hello_ciphers. cbn [mbind option_bind].
  rewrite (u16_id (msize C + 2)) by (unfold is_u16; lia).
  replace (ciphers_at + (msize C + 2)) with compressions_at by (unfold compressions_at; lia).
  rewrite hello_compressions. cbn [mbind option_bind TLSCompressionView.data_].
  rewrite hello_compressions. cbn [mbind option_bind].
  rewrite (u16_id (msize K + 1)) by (unfold is_u16; lia).
  replace (compressions_at + (msize K + 1)) with extensions_at by (unfold extensions_at; lia).
  rewrite hello_extensions. cbn [mbind option_bind TLSExtensionsView.data_].
  by rewrite hello_extensions.
Qed.

End ClientScheme.

Section ClientHello.
Context `{Randomness}.
Context (pre post : mem) (d : draws) (host l : mem).
Context (Hl : msize l < 256) (Hhost : msize host <= 65000).

(** The size of the extensions, and the client hello with session id [l]. *)
Definition extensions_size : Z := 64 + msize host.
Definition hello : mem :=
  client_hello_bytes [3; 3] (random_part d) l (drawn (cipher_seed d) 34) (drawn (compression_seed d) 1)
    (extensions_part d host) 0 34 (octet 1 extensions_size) (octet 0 extensions_size).

Lemma generate_hello m b e :
  range m b e = Some l ->
  TLS13_ClientHelloPacketLittleEndian.generate_object_bytes_host d host m b e = Some hello.
Proof.
  intros Hr. unfold TLS13_ClientHelloPacketLittleEndian.generate_object_bytes_host,
    TLSSessionIDLittleEndian.generate_object_bytes_of. rewrite Hr. cbn [mbind option_bind].
  pose proof (range_Some _ _ _ _ Hr) as Hb. pose proof (msize_nonneg l). pose proof (msize_nonneg host).
  replace (u8 (e - b)) with (msize l).
  2:{ rewrite u8_id; unfold is_u8; lia. }
  unfold TLS13_DefaultClientHelloGenerationStrategy.get_sni_hosts_of. rewrite assemble_eq.
  rewrite (u16_id (64 + msize host)) by (unfold is_u16; lia).
  unfold hello, client_hello_bytes, cipher_part, compression_part, extensions_size. done.
Qed.

(** Where the fields are in a buffer that holds the hello. *)
Definition hello_scheme : TLS13_HelloPacketScheme :=
  mk_scheme (2, 34) (34, 35 + msize l) (35 + msize l, 71 + msize l) (71 + msize l, 73 + msize l)
    (73 + msize l, 75 + msize l + extensions_size).
Definition hello_view : TLS13_ClientHelloPacketView.t :=
  TLS13_ClientHelloPacketView.mk (msize pre) (msize hello) hello_scheme.

Lemma extensions_part_size : msize (extensions_part d host) = extensions_size.
Proof.
  unfold extensions_part. rewrite !msize_app, sni_part_size.
  change (msize sup_ver_part) with 13. change (msize (key_share_part d)) with 42.
  unfold extensions_size. lia.
Qed.

Lemma hello_size : msize hello = 75 + msize l + extensions_size.
Proof.
  unfold hello, client_hello_bytes. rewrite !msize_app, !msize_cons, extensions_part_size.
  change (msize []) with 0. change (msize (random_part d)) with 32.
  change (msize (drawn (cipher_seed d) 34)) with 34. change (msize (drawn (compression_seed d) 1)) with 1.
  lia.
Qed.

Abbreviation hello_buffer :=
  (hello_at pre post [3; 3] (random_part d) l (drawn (cipher_seed d) 34)
     (drawn (compression_seed d) 1) (extensions_part d host) 0 34
     (octet 1 extensions_size) (octet 0 extensions_size)).

Lemma hello_parsed :
  TLS13_ClientHelloPacketView.make (inside pre post hello) (msize pre) (msize pre + msize hello) =
  Some hello_view.
Proof.
  unfold TLS13_ClientHelloPacketView.make, TLS13_ClientHelloPacketView.parse_scheme.
  replace (msize pre + msize hello - msize pre) with (msize hello) by lia.
  pose proof (msize_nonneg host).
  change (inside pre post hello) with hello_buffer.
  rewrite client_scheme by (done || vm_compute; reflexivity).
  cbn [mbind option_bind]. unfold hello_view, hello_scheme, extensions_at, compressions_at, ciphers_at, session_at.
  change (msize (drawn (cipher_seed d) 34)) with 34. change (msize (drawn (compression_seed d) 1)) with 1.
  rewrite cat16_octets by (unfold is_u16, extensions_size; lia).
  rewrite (u16_id (extensions_size + 2)) by (unfold is_u16, extensions_size; lia).
  repeat (f_equal; try lia).
Qed.

Lemma hello_unix_time :
  is_u32 (time d) -> load32 (inside pre post hello) (msize pre + 2) = Some (time d).
Proof.
  intros Ht. apply load32_inside. exact (f_equal Some (cat32_octets (time d) Ht)).
Qed.

Lemma hello_session_view :
  TLS13_ClientHelloPacketView.get_tls_session (inside pre post hello) hello_view =
  Some (TLSSessionIDView.mk (msize pre + 34) (1 + msize l)).
Proof.
  unfold TLS13_ClientHelloPacketView.get_tls_session, TLSSessionIDView.make,
    TLSSessionIDView.get_tls_id_full_length, TLSSessionIDView.get_tls_id_length.
  change (inside pre post hello) with hello_buffer.
  cbn [TLS13_ClientHelloPacketView.data_ TLS13_ClientHelloPacketView.scheme_ hello_view hello_scheme
    session fst TLSSessionIDView.data_].
  change 34 with session_at. rewrite hello_session by reflexivity. cbn [mbind option_bind].
  pose proof (msize_nonneg l). rewrite u32_id by (unfold is_u32; lia). do 2 f_equal; lia.
Qed.

Lemma hello_ciphers_view :
  TLS13_ClientHelloPacketView.get_tls_cipher_suites (inside pre post hello) hello_view =
  Some (TLSCipherSuitView.mk (msize pre + (35 + msize l)) 36).
Proof.
  unfold TLS13_ClientHelloPacketView.get_tls_cipher_suites, TLSCipherSuitView.make,
    TLSCipherSuitView.get_tls_ciphers_full_length, TLSCipherSuitView.get_tls_ciphers_length.
  change (inside pre post hello) with hello_buffer.
  cbn [TLS13_ClientHelloPacketView.data_ TLS13_ClientHelloPacketView.scheme_ hello_view hello_scheme
    ciphers fst TLSCipherSuitView.data_].
  change (35 + msize l) with (ciphers_at l). by rewrite hello_ciphers.
Qed.

Lemma hello_extensions_view :
  TLS13_ClientHelloPacketView.get_tls_extensions_data (inside pre post hello) hello_view =
  Some (TLSExtensionsView.mk (msize pre + (73 + msize l)) (2 + extensions_size)).
Proof.
  unfold TLS13_ClientHelloPacketView.get_tls_extensions_data, TLSExtensionsView.make,
    TLSExtensionsView.get_tls_extensions_full_length, TLSExtensionsView.get_tls_extensions_length.
  change (inside pre post hello) with hello_buffer.
  cbn [TLS13_ClientHelloPacketView.data_ TLS13_ClientHelloPacketView.scheme_ hello_view hello_scheme
    extensions fst TLSExtensionsView.data_].
  replace (msize pre + (73 + msize l))
    with (msize pre + extensions_at l (drawn (cipher_seed d) 34) (drawn (compression_seed d) 1)).
  2:{ unfold extensions_at, compressions_at, ciphers_at.
      change (msize (drawn (cipher_seed d) 34)) with 34.
      change (msize (drawn (compression_seed d) 1)) with 1. lia. }
  pose proof (msize_nonneg host).
  rewrite hello_extensions by done. cbn [mbind option_bind].
  rewrite cat16_octets by (unfold is_u16, extensions_size; lia).
  rewrite u16_id by (unfold is_u16, extensions_size; lia). do 2 f_equal; lia.
Qed.

(** The list of extensions in the buffer. *)
Lemma hello_extensions_range :
  range (inside pre post hello) (msize pre + (75 + msize l))
    (msize pre + (75 + msize l + extensions_size)) = Some (extensions_part d host).
Proof.
  apply range_inside. unfold hello, client_hello_bytes.
  replace (_ ++ _ ++ _ ++ _ ++ _ ++ _)
    with (([3; 3] ++ random_part d ++ (msize l :: l) ++ (0 :: 34 :: drawn (cipher_seed d) 34)
      ++ (msize (drawn (compression_seed d) 1) :: drawn (compression_seed d) 1)
      ++ [octet 1 extensions_size; octet 0 extensions_size]) ++ extensions_part d host ++ [])
    by (rewrite app_nil_r; list_simplifier; done).
  apply range_mid; [|rewrite extensions_part_size; lia].
  rewrite !msize_app, !msize_cons. change (msize []) with 0. change (msize (random_part d)) with 32.
  change (msize (drawn (cipher_seed d) 34)) with 34. change (msize (drawn (compression_seed d) 1)) with 1.
  lia.
Qed.

End ClientHello.

(** Reading inside a range. *)
Lemma load_ranged m b e l i a : range m b e = Some l -> load l i = Some a -> load m (b + i) = Some a.
Proof.
  intros (Hb & He & Hn & Hi)%range_Some Ha. pose proof (load_Some _ _ _ Ha).
  rewrite <- Hi by lia. done.
Qed.

Lemma load16_ranged m b e l i a : range m b e = Some l -> load16 l i = Some a -> load16 m (b + i) = Some a.
Proof.
  intros Hr (x & Hx & (y & Hy & [= <-])%bind_Some)%bind_Some. unfold load16.
  rewrite (load_ranged _ _ _ _ _ _ Hr Hx). cbn [mbind option_bind].
  rewrite <- Z.add_assoc. by rewrite (load_ranged _ _ _ _ _ _ Hr Hy).
Qed.

Lemma range_ranged m b e l i j k :
  range m b e = Some l -> range l i j = Some k -> range m (b + i) (b + j) = Some k.
Proof.
  intros Hr Hk. destruct (range_Some _ _ _ _ Hr) as (Hb & He & Hn & Hi).
  destruct (range_Some _ _ _ _ Hk) as (Hj & Hje & Hkn & Hki).
  apply range_eq; [lia|lia|lia|].
  intros q Hq. rewrite Hki by lia. rewrite Hi by lia. f_equal. lia.
Qed.

(** * Walking the extensions *)

Section Extensions.
Context (m : mem) (b e : Z).

(** One step over an extension that is not the server names. *)
Lemma sni_step_next i ty n :
  i < e -> load16 m i = Some ty -> ty <> SERVER_NAME -> load16 m (i + 2) = Some n ->
  sni_step m b e i = Some (inr (i + u16 (n + 4))).
Proof.
  intros Hi Ht Hty Hn. unfold sni_step, TLSExtensionView.make, TLSExtensionView.get_tls_ext_type,
    TLSExtensionView.get_tls_ext_full_length, TLSExtensionView.get_tls_ext_length.
  destruct (Z.ltb_spec i e); [|lia]. cbn [TLSExtensionView.data_]. rewrite Hn.
  cbn [mbind option_bind TLSExtensionView.data_]. rewrite Ht. cbn [mbind option_bind].
  destruct (Z.eqb_spec ty SERVER_NAME); [done|]. by rewrite Hn.
Qed.

(** At the server names the view starts at the type of the extension, which is zero, and takes
    it for the length of the list. *)
Lemma sni_step_found i n :
  i < e -> load16 m i = Some SERVER_NAME -> load16 m (i + 2) = Some n ->
  sni_step m b e i = Some (inl (TLSServerNameIndicationExtensionView.mk i 2)).
Proof.
  intros Hi Ht Hn. unfold sni_step, TLSExtensionView.make, TLSExtensionView.get_tls_ext_type,
    TLSExtensionView.get_tls_ext_full_length, TLSExtensionView.get_tls_ext_length.
  destruct (Z.ltb_spec i e); [|lia]. cbn [TLSExtensionView.data_]. rewrite Hn.
  cbn [mbind option_bind TLSExtensionView.data_]. rewrite Ht. cbn [mbind option_bind].
  unfold TLSServerNameIndicationExtensionView.make,
    TLSServerNameIndicationExtensionView.get_tls_sni_full_length,
    TLSServerNameIndicationExtensionView.get_tls_sni_length.
  cbn [TLSServerNameIndicationExtensionView.data_]. by rewrite Ht.
Qed.

(** An extension of length 65532 has a full length of zero: the search never leaves it. *)
Lemma sni_loop_hangs i ty :
  i < e -> load16 m i = Some ty -> ty <> SERVER_NAME -> load16 m (i + 2) = Some 65532 ->
  forall fuel, sni_loop fuel m b e i = Running.
Proof.
  intros Hi Ht Hty Hn fuel. induction fuel as [|fuel IH]; [done|].
  simpl. rewrite (sni_step_next _ _ _ Hi Ht Hty Hn).
  change (u16 (65532 + 4)) with 0. by rewrite Z.add_0_r.
Qed.

End Extensions.

Section Roundtrip.
Context `{Randomness}.

(** The search in a generated hello ends at the server names, and their range is empty. *)
Lemma hello_sni pre post d host l fuel :
  msize l < 256 -> msize host <= 65000 ->
  exists v,
    TLS13_ClientHelloPacketView.get_tls_sni_data (S (S (S fuel))) (inside pre post (hello d host l))
      (hello_view pre d host l) = Found v /\
    (let '(s, e) := TLSServerNameIndicationExtensionView.get_tls_sni_data v in
     range (inside pre post (hello d host l)) s e) = Some [].
Proof.
  intros Hl Hh. pose proof (hello_extensions_range pre post d host l) as Hr.
  pose proof (msize_nonneg host).
  set (B := msize pre + (75 + msize l)) in *.
  assert (Hs : forall k, load16 (inside pre post (hello d host l)) (B + 55 + k)
    = load16 (inside pre post (hello d host l)) (B + (55 + k))) by (intros; f_equal; lia).
  unfold TLS13_ClientHelloPacketView.get_tls_sni_data. rewrite hello_extensions_view by done.
  unfold TLSExtensionsView.get_tls_extensions. cbn [TLSExtensionsView.data_ TLSExtensionsView.size_].
  replace (msize pre + (73 + msize l) + 2) with B by (unfold B; lia).
  replace (msize pre + (73 + msize l) + (2 + extensions_size host)) with (B + extensions_size host)
    by (unfold B; lia).
  assert (Hx : 57 < extensions_size host) by (unfold extensions_size; lia).
  cbn [sni_loop].
  erewrite (sni_step_next _ B _ B 43 9);
    [|lia|rewrite <- (Z.add_0_r B); by apply (load16_ranged _ _ _ _ _ _ Hr)|done
     |by apply (load16_ranged _ _ _ _ _ _ Hr)].
  change (u16 (9 + 4)) with 13.
  erewrite (sni_step_next _ B _ (B + 13) 40 38);
    [|lia|by apply (load16_ranged _ _ _ _ _ _ Hr)|done
     |rewrite <- Z.add_assoc; by apply (load16_ranged _ _ _ _ _ _ Hr)].
  change (u16 (38 + 4)) with 42. rewrite <- Z.add_assoc. change (13 + 42) with 55.
  erewrite (sni_step_found _ B _ (B + 55) (cat16 (octet 1 (5 + msize host)) (octet 0 (5 + msize host))));
    [|lia|by apply (load16_ranged _ _ _ _ _ _ Hr)
     |rewrite Hs; by apply (load16_ranged _ _ _ _ _ _ Hr)].
  eexists. split; [done|]. unfold TLSServerNameIndicationExtensionView.get_tls_sni_data.
  cbn [TLSServerNameIndicationExtensionView.data_ TLSServerNameIndicationExtensionView.size_].
  assert (B + 55 + 2 <= msize (inside pre post (hello d host l))).
  { apply range_order in Hr. unfold B in *. lia. }
  unfold range. rewrite decide_True by (unfold B in *; pose proof (msize_nonneg pre); pose proof (msize_nonneg l); lia).
  by rewrite Z.sub_diag.
Qed.

(** C21: client hello round trip.  The hello that [init] sends for a session id of at most 255
    bytes and a host name, wherever it lies in the buffer of the receiver, shows through the
    view the version, the time and the session id it was given, 34 bytes of cipher suites and
    the list of extensions; but the search for the server name, although it ends, answers an
    empty range instead of the host. *)
Theorem client_hello_roundtrip pre post d host m b e l fuel :
  is_u32 (time d) -> range m b e = Some l -> msize l < 256 -> msize host <= 65000 ->
  exists hello h s c x v,
    TLS13_ClientHelloPacketLittleEndian.generate_object_bytes_host d host m b e = Some hello /\
    (let buf := inside pre post hello in
     TLS13_ClientHelloPacketView.make buf (msize pre) (msize pre + msize hello) = Some h /\
     TLS13_ClientHelloPacketView.get_tls_version buf h = Some TLS12 /\
     TLSRandomView.get_tls_unix_time buf (TLS13_ClientHelloPacketView.get_tls_random h) = Some (time d) /\
     TLS13_ClientHelloPacketView.get_tls_session buf h = Some s /\
     (let '(i, j) := TLSSessionIDView.get_tls_id s in range buf i j) = Some l /\
     TLS13_ClientHelloPacketView.get_tls_cipher_suites buf h = Some c /\
     TLSCipherSuitView.get_tls_ciphers_length buf c = Some 34 /\
     TLS13_ClientHelloPacketView.get_tls_extensions_data buf h = Some x /\
     (let '(i, j) := TLSExtensionsView.get_tls_extensions x in range buf i j)
       = Some (extensions_part d host) /\
     TLS13_ClientHelloPacketView.get_tls_sni_data (S (S (S fuel))) buf h = Found v /\
     (let '(i, j) := TLSServerNameIndicationExtensionView.get_tls_sni_data v in range buf i j) = Some []).
Proof.
  intros Ht Hr Hl Hh. destruct (hello_sni pre post d host l fuel Hl Hh) as (v & Hv & Hn).
  exists (hello d host l), (hello_view pre d host l). do 3 eexists. exists v.
  split; [by apply generate_hello|]. cbv zeta. split_and!;
    [by apply hello_parsed| |by apply hello_unix_time|by apply hello_session_view| |
     by apply hello_ciphers_view| |by apply hello_extensions_view| |done|done].
  - unfold TLS13_ClientHelloPacketView.get_tls_version. cbn.
    replace (msize pre) with (msize pre + 0) by lia. by apply load16_inside.
  - unfold TLSSessionIDView.get_tls_id. cbn [TLSSessionIDView.data_ TLSSessionIDView.size_].
    replace (msize pre + 34 + (1 + msize l)) with (msize pre + ciphers_at l) by (unfold ciphers_at; lia).
    by apply hello_session_range.
  - exact (hello_ciphers pre post [3; 3] (random_part d) l (drawn (cipher_seed d) 34) _ _ 0 34 _ _
      eq_refl eq_refl eq_refl).
  - unfold TLSExtensionsView.get_tls_extensions. cbn [TLSExtensionsView.data_ TLSExtensionsView.size_].
    replace (msize pre + (73 + msize l) + 2) with (msize pre + (75 + msize l)) by lia.
    replace (msize pre + (73 + msize l) + (2 + extensions_size host))
      with (msize pre + (75 + msize l + extensions_size host)) by lia.
    apply hello_extensions_range.
Qed.

End Roundtrip.

(** A generator for the examples: it counts up from its seed. *)
Definition counting : Randomness := {| dist seed k := seed + Z.of_nat k |}.
Definition example_draws : draws := mk_draws 1700000000 1 2 3 4 (fun _ => 5).

Lemma client_hello_roundtrip_witness :
  exists hello h s,
    TLS13_ClientHelloPacketLittleEndian.generate_object_bytes_host (H := counting) example_draws
      [121; 97; 46; 114; 117] [0; 1; 2; 107; 101] 0 5 = Some hello /\
    TLS13_ClientHelloPacketView.make (inside [9] [8] hello) 1 (1 + msize hello) = Some h /\
    TLS13_ClientHelloPacketView.get_tls_session (inside [9] [8] hello) h = Some s /\
    (let '(i, j) := TLSSessionIDView.get_tls_id s in range (inside [9] [8] hello) i j)
      = Some [0; 1; 2; 107; 101].
Proof.
  destruct (client_hello_roundtrip (H := counting) [9] [8] example_draws [121; 97; 46; 114; 117]
    [0; 1; 2; 107; 101] 0 5 [0; 1; 2; 107; 101] 0)
    as (hello & h & s & c & x & v & Hg & Hh & _ & _ & Hs & Hid & _);
    [concrete|reflexivity|reflexivity|vm_compute; discriminate|].
  exists hello, h, s. auto.
Defined.

(** * The server's hello *)

Section ServerHello.
Context `{Randomness}.
Context (d : draws).

Definition server_hello : mem :=
  [3; 3] ++ random_part d ++ (32 :: drawn (session_seed d) 32) ++ [192; 47] ++ [0]
  ++ [0; 6; 0; 43; 0; 2; 3; 4].

Lemma generate_server_hello :
  TLS13_ServerHelloPacketLittleEndian.generate_object_bytes d = Some server_hello.
Proof.
  unfold TLS13_ServerHelloPacketLittleEndian.generate_object_bytes.
  rewrite random_bytes. cbn [mbind option_bind].
  rewrite session_bytes by (done || concrete). reflexivity.
Qed.

Lemma server_hello_size : msize server_hello = 78.
Proof. reflexivity. Qed.

Definition server_scheme : TLS13_HelloPacketScheme :=
  mk_scheme (2, 34) (34, 67) (67, 69) (69, 70) (70, 78).

Lemma server_hello_scheme pre post last :
  unified_server_parse_scheme (inside pre post server_hello) (msize pre) last = Some server_scheme.
Proof.
  assert (L : load (inside pre post server_hello) (msize pre + 34) = Some 32) by (by apply load_inside).
  assert (E : load16 (inside pre post server_hello) (msize pre + 70) = Some 6) by (by apply load16_inside).
  unfold unified_server_parse_scheme, TLSSessionIDView.make, TLSSessionIDView.get_tls_id_full_length,
    TLSSessionIDView.get_tls_id_length, TLSExtensionsView.make,
    TLSExtensionsView.get_tls_extensions_full_length, TLSExtensionsView.get_tls_extensions_length,
    TLSRandomView.get_tls_random_full_length.
  cbn [TLSSessionIDView.data_ TLSExtensionsView.data_]. change (2 + 32) with 34.
  rewrite L. cbn [mbind option_bind TLSSessionIDView.data_]. rewrite L. cbn [mbind option_bind].
  change (34 + u32 (32 + 1) + 2 + 1) with 70. rewrite E. cbn [mbind option_bind TLSExtensionsView.data_].
  by rewrite E.
Qed.

(** The client's view of the server's hello. *)
Lemma server_hello_parsed pre post :
  TLS13_ServerHelloPacketView.make (inside pre post server_hello) (msize pre) (msize pre + 78) =
  Some (TLS13_ServerHelloPacketView.mk (msize pre) 78 server_scheme).
Proof.
  unfold TLS13_ServerHelloPacketView.make, TLS13_ServerHelloPacketView.parse_scheme.
  replace (msize pre + 78 - msize pre) with 78 by lia. by rewrite server_hello_scheme.
Qed.

(** The cipher suite comes back as 0xC000, not as the 0xC02F that was sent: the second byte
    that is read is the compression method. *)
Lemma server_cipher_misread pre post h :
  TLS13_ServerHelloPacketView.make (inside pre post server_hello) (msize pre) (msize pre + 78) = Some h ->
  TLS13_ServerHelloPacketView.get_tls_cipher_suite (inside pre post server_hello) h = Some 49152 /\
  TLS13_ServerHelloPacketView.get_tls_compression_method (inside pre post server_hello) h = Some 0.
Proof.
  rewrite server_hello_parsed. intros [= <-].
  unfold TLS13_ServerHelloPacketView.get_tls_cipher_suite,
    TLS13_ServerHelloPacketView.get_tls_compression_method.
  cbn [TLS13_ServerHelloPacketView.data_ TLS13_ServerHelloPacketView.scheme_ server_scheme ciphers
    compressions fst snd].
  rewrite (load_inside pre post server_hello 67 192 eq_refl), (load_inside pre post server_hello 69 0 eq_refl).
  split; reflexivity.
Qed.

End ServerHello.

(** * Messages *)

Lemma generate_message_eq ty l :
  TLS13_MessageLittleEndian.generate_object_bytes ty l =
  [u8 ty; octet 2 (u32 (msize l)); octet 1 (u32 (msize l)); octet 0 (u32 (msize l))] ++ l.
Proof. reflexivity. Qed.

(** The object of a message cannot be constructed. *)
Lemma message_object_undefined m b e : TLS13_MessageLittleEndian.make m b e = None.
Proof. reflexivity. Qed.

(** A message in a buffer: its type, and its range is the hello. *)
Lemma message_view pre post ty l :
  is_u8 ty -> msize l < 16777216 ->
  let msg := TLS13_MessageLittleEndian.generate_object_bytes ty l in
  TLS13_MessageView.make (inside pre post msg) (msize pre) (msize pre + msize msg) =
    Some (TLS13_MessageView.mk (msize pre) (4 + msize l)) /\
  load (inside pre post msg) (msize pre) = Some ty.
Proof.
  intros Hty Hl msg. pose proof (msize_nonneg l) as Hn.
  assert (Hc : cat32 0 (octet 2 (msize l)) (octet 1 (msize l)) (octet 0 (msize l)) = msize l).
  { rewrite <- (cat32_octets (msize l)) at 4 by (unfold is_u32; lia). f_equal.
    rewrite octet3. rewrite Z.div_small by lia. done. }
  assert (Hm : msg = [ty; octet 2 (msize l); octet 1 (msize l); octet 0 (msize l)] ++ l).
  { subst msg. rewrite generate_message_eq, u8_id by done. by rewrite u32_id by (unfold is_u32; lia). }
  assert (H0 : forall k a, load msg k = Some a -> load (inside pre post msg) (msize pre + k) = Some a)
    by (intros; by apply load_inside).
  split.
  - unfold TLS13_MessageView.make, TLS13_MessageView.get_tls_msg_full_length,
      TLS13_MessageView.get_tls_msg_length. cbn [TLS13_MessageView.data_].
    rewrite (H0 1 (octet 2 (msize l))), (H0 2 (octet 1 (msize l))), (H0 3 (octet 0 (msize l)))
      by (by rewrite Hm).
    cbn [mbind option_bind]. rewrite Hc, u32_id by (unfold is_u32; lia). do 2 f_equal. lia.
  - rewrite <- (H0 0 ty) by (by rewrite Hm). f_equal. lia.
Qed.
