(* ===== verification/PacketManager.v ===== *)
(** Splitting payloads into fragments and putting them together again:
    [PacketBuilderData], [SplittedPacket], [SplittedPacketView], [PacketBuilder]
    and [QVPNPacketManager] (src/QVPN/QVPN Lib/src/qvpn_driver.cpp and
    include/qvpn_driver.hpp).

    The [std::unordered_map] of builders is the list of its entries in iteration
    order.  That order is unspecified and may change on insertion, so [emplace]
    rearranges the list by a function [arrange] of the Section, of which only that
    it permutes is known. *)
From S2P Require Import Prelude.

Module PacketBuilderData.

Record t := mk { packet_id_ : Z; offset_ : Z; original_size_ : Z }.
Definition default : t := mk 0 0 0.
Definition make (packet_id offset original_size : Z) : t := mk packet_id offset original_size.
Definition set_packet_id (d : t) (packet_id : Z) : t := mk packet_id (offset_ d) (original_size_ d).
Definition set_offset (d : t) (offset : Z) : t := mk (packet_id_ d) offset (original_size_ d).
Definition set_original_size (d : t) (size : Z) : t := mk (packet_id_ d) (offset_ d) size.
Definition get_packet_id (d : t) : Z := packet_id_ d.
Definition get_offset (d : t) : Z := offset_ d.
Definition get_original_size (d : t) : Z := original_size_ d.
Definition to_bytes (d : t) : mem :=
  [packet_id_ d; octet 1 (offset_ d); octet 0 (offset_ d);
   octet 1 (original_size_ d); octet 0 (original_size_ d)].

End PacketBuilderData.

(** * Fragments of an owned copy *)
Module SplittedPacket.

Record t := mk { packet_id_ : Z; data_ : mem; separators_ : list (Z * Z) }.
Definition empty : t := mk 0 [] [].
Definition set_packet_id (p : t) (id : Z) : t := mk id (data_ p) (separators_ p).
Definition next_id (p : t) : t := mk (u8 (packet_id_ p + 1)) (data_ p) (separators_ p).
(** Separators are pairs of [UShort]. *)
Definition add_data (p : t) (m : mem) (begin_ end_ : Z) : option t :=
  let data_start := msize (data_ p) in
  let data_end := data_start + (end_ - begin_) in
  l ← range m begin_ end_;
  Some (mk (packet_id_ p) (data_ p ++ l) (separators_ p ++ [(u16 data_start, u16 data_end)])).
Definition get (p : t) (elem : nat) : option mem :=
  '(b, e) ← separators_ p !! elem;
  let full_size := msize (data_ p) in
  l ← range (data_ p) b e;
  Some ([packet_id_ p; octet 1 b; octet 0 b; octet 1 full_size; octet 0 full_size] ++ l).
Definition get_with_pb_data (p : t) (elem : nat) : option (PacketBuilderData.t * mem) :=
  '(b, e) ← separators_ p !! elem;
  let pb_data := PacketBuilderData.make (packet_id_ p) (u16 b) (u16 (msize (data_ p))) in
  res ← range (data_ p) b e; Some (pb_data, res).
Definition get_raw_with_pb_data (p : t) (elem : nat) : option (PacketBuilderData.t * Z * Z) :=
  '(b, e) ← separators_ p !! elem;
  Some (PacketBuilderData.make (packet_id_ p) (u16 b) (u16 (msize (data_ p))), b, e).
Definition get_raw_packet (p : t) (elem : nat) : option (Z * Z) := separators_ p !! elem.
Definition get_packet_builder_data (p : t) (elem : nat) : option PacketBuilderData.t :=
  '(b, e) ← separators_ p !! elem;
  Some (PacketBuilderData.make (packet_id_ p) (u16 b) (u16 (msize (data_ p)))).
Definition size (p : t) : Z := Z.of_nat (length (separators_ p)).
Definition to_bytes (p : t) : Z * Z := (0, msize (data_ p)).

End SplittedPacket.

(** * Fragments of the caller's buffer *)
Module SplittedPacketView.

Record t := mk { packet_id_ : Z; data_ : option Z; data_size_ : Z; separators_ : list (Z * Z) }.
Definition empty : t := mk 0 None 0 [].
Definition set_packet_id (p : t) (id : Z) : t := mk id (data_ p) (data_size_ p) (separators_ p).
Definition next_id (p : t) : t :=
  mk (u8 (packet_id_ p + 1)) (data_ p) (data_size_ p) (separators_ p).
(** The first range fixes the base pointer; sizes accumulate in a [UShort]. *)
Definition add_data (p : t) (begin_ end_ : Z) : t :=
  let size := end_ - begin_ in
  let data_start := data_size_ p in
  let data_end := data_start + size in
  mk (packet_id_ p) (Some (default begin_ (data_ p))) (u16 (data_size_ p + size))
     (separators_ p ++ [(data_start, data_end)]).
Definition get (m : mem) (p : t) (elem : nat) : option mem :=
  '(b, e) ← separators_ p !! elem;
  d ← data_ p;
  l ← range m (d + b) (d + e);
  Some ([packet_id_ p; octet 1 b; octet 0 b; octet 1 (data_size_ p); octet 0 (data_size_ p)] ++ l).
Definition get_with_pb_data (m : mem) (p : t) (elem : nat) : option (PacketBuilderData.t * mem) :=
  '(b, e) ← separators_ p !! elem;
  d ← data_ p;
  let pb_data := PacketBuilderData.make (packet_id_ p) (u16 b) (data_size_ p) in
  res ← range m (d + b) (d + e); Some (pb_data, res).
Definition get_raw_with_pb_data (p : t) (elem : nat) : option (PacketBuilderData.t * Z * Z) :=
  '(b, e) ← separators_ p !! elem;
  d ← data_ p;
  Some (PacketBuilderData.make (packet_id_ p) (u16 b) (data_size_ p), d + b, d + e).
Definition get_raw_packet (p : t) (elem : nat) : option (Z * Z) :=
  '(b, e) ← separators_ p !! elem; d ← data_ p; Some (d + b, d + e).
Definition get_packet_builder_data (p : t) (elem : nat) : option PacketBuilderData.t :=
  '(b, e) ← separators_ p !! elem;
  Some (PacketBuilderData.make (packet_id_ p) (u16 b) (data_size_ p)).
Definition size (p : t) : Z := Z.of_nat (length (separators_ p)).
Definition to_bytes (p : t) : option (Z * Z) := d ← data_ p; Some (d, d + data_size_ p).

End SplittedPacketView.

(** * Reassembly of one packet *)
Module PacketBuilder.

Record t := mk { original_size_ : Z; data_ : mem; is_full_ : bool }.
Definition empty : t := mk 0 [] false.
(** Every conjunct overwrites the previous one: only the data is compared. *)
Definition eqb (p pb : t) : bool := bool_decide (data_ p = data_ pb).
(** Assignment is skipped when the operands compare equal. *)
Definition assign (p pb : t) : t := if eqb p pb then p else pb.

(** [std::find(data_.begin(), data_.end(), offset)] looks for a byte of that
    value; the new bytes are inserted in front of it, or at the end. *)
Definition find (l : mem) (v : Z) : nat :=
  match list_find (fun x => x = v) l with Some (i, _) => i | None => length l end.

Definition add_data (p : t) (m : mem) (begin_ end_ : Z) : option t :=
  orig_size ← load16 m (begin_ + 2);
  offset ← load16 m begin_;
  let it := find (data_ p) offset in
  l ← range m (begin_ + 4) end_;
  let data := take it (data_ p) ++ l ++ drop it (data_ p) in
  Some (mk (original_size_ p) data
          (if msize data =? original_size_ p then true else is_full_ p)).

Definition make (m : mem) (begin_ end_ : Z) : option t :=
  offset ← load16 m begin_;
  orig_size ← load16 m (begin_ + 2);
  add_data (mk orig_size [] false) m begin_ end_.

Definition is_full (p : t) : bool := is_full_ p.
Definition get_data (p : t) : mem := data_ p.
Definition get_raw_data (p : t) : Z * Z := (0, msize (data_ p)).

End PacketBuilder.

(** [PacketBuilderSignal]. *)
Inductive PacketBuilderSignal : Type :=
  | PACKET_FULL_BUILD
  | PACKET_PART_RECEIVED
  | PACKET_NO_BUILDER_DATA.

#[global] Instance PacketBuilderSignal_eq_dec : EqDecision PacketBuilderSignal.
Proof. solve_decision. Defined.

(** * The manager *)
Module QVPNPacketManager.

(** [cached_full_packet] points to an entry, named by its key. *)
Record t := mk {
  packets_ : list (Z * PacketBuilder.t); last_packet_id_ : Z; cached_full_packet : option Z;
  data_max_size : Z; data_split_size : Z }.

Definition USHRT_MAX : Z := 65535.
Definition packet_manager_data_size : Z := 5.
Definition data_meta_qvpn_size : Z := packet_manager_data_size + 5 + 40 + 256.

Definition initial : t :=
  let max := USHRT_MAX - data_meta_qvpn_size in mk [] 0 None max (u16 (max / 2 + 1)).

Definition with_packets (s : t) (l : list (Z * PacketBuilder.t)) : t :=
  mk l (last_packet_id_ s) (cached_full_packet s) (data_max_size s) (data_split_size s).
Definition with_cache (s : t) (c : option Z) : t :=
  mk (packets_ s) (last_packet_id_ s) c (data_max_size s) (data_split_size s).

Definition set_data_max_size (s : t) (size : Z) : t :=
  if USHRT_MAX - data_meta_qvpn_size <? size then s
  else mk (packets_ s) (last_packet_id_ s) (cached_full_packet s)
          (u32 (size - data_meta_qvpn_size)) (data_split_size s).
Definition set_data_split_size (s : t) (size : Z) : t :=
  if data_max_size s <? size then s
  else mk (packets_ s) (last_packet_id_ s) (cached_full_packet s) (data_max_size s) size.

(** [last_packet_id_++]. *)
Definition next_packet_id (s : t) : Z * t :=
  (last_packet_id_ s,
   mk (packets_ s) (u8 (last_packet_id_ s + 1)) (cached_full_packet s) (data_max_size s)
      (data_split_size s)).

(** One turn of the splitting loop: [start_split] advances by [i] sizes. *)
Definition split_bounds (s : t) (i start_split end_split end_ : Z) : Z * Z :=
  let start_split := start_split + i * data_split_size s in
  (start_split, if end_ <? end_split then end_ else start_split + data_split_size s).

Definition split_packet (s : t) (m : mem) (begin_ end_ : Z) : option (SplittedPacket.t * t) :=
  let '(id, s) := next_packet_id s in
  let spacket := SplittedPacket.set_packet_id SplittedPacket.empty id in
  let size := end_ - begin_ in
  if data_max_size s <=? size then
    let p_count := u8 (size / data_split_size s) in
    '(_, _, spacket) ← for_loop (Z.to_nat p_count) 0 p_count 1
      (fun i (x : Z * Z * SplittedPacket.t) =>
         let '(start_split, end_split, spacket) := x in
         let '(start_split, end_split) := split_bounds s i start_split end_split end_ in
         spacket ← SplittedPacket.add_data spacket m start_split end_split;
         Some (start_split, end_split, spacket))
      (begin_, begin_ + data_split_size s, spacket);
    Some (spacket, s)
  else
    spacket ← SplittedPacket.add_data spacket m begin_ end_; Some (spacket, s).

Definition split_packet_view (s : t) (begin_ end_ : Z) : option (SplittedPacketView.t * t) :=
  let '(id, s) := next_packet_id s in
  let spacket := SplittedPacketView.set_packet_id SplittedPacketView.empty id in
  let size := end_ - begin_ in
  if data_max_size s <=? size then
    let p_count := u8 (size / data_split_size s) in
    '(_, _, spacket) ← for_loop (Z.to_nat p_count) 0 p_count 1
      (fun i (x : Z * Z * SplittedPacketView.t) =>
         let '(start_split, end_split, spacket) := x in
         let '(start_split, end_split) := split_bounds s i start_split end_split end_ in
         Some (start_split, end_split, SplittedPacketView.add_data spacket start_split end_split))
      (begin_, begin_ + data_split_size s, spacket);
    Some (spacket, s)
  else Some (SplittedPacketView.add_data spacket begin_ end_, s).

(** [packets_.find(p_id)], and the update of the entry found. *)
Fixpoint lookup (l : list (Z * PacketBuilder.t)) (id : Z) : option PacketBuilder.t :=
  match l with
  | [] => None
  | (k, p) :: l' => if decide (k = id) then Some p else lookup l' id
  end.
Definition update (l : list (Z * PacketBuilder.t)) (id : Z) (p : PacketBuilder.t) :
    list (Z * PacketBuilder.t) :=
  (fun x => if decide (x.1 = id) then (x.1, p) else x) <$> l.
Fixpoint erase (l : list (Z * PacketBuilder.t)) (id : Z) : list (Z * PacketBuilder.t) :=
  match l with
  | [] => []
  | (k, p) :: l' => if decide (k = id) then erase l' id else (k, p) :: erase l' id
  end.

Section Arrange.
Context (arrange : list (Z * PacketBuilder.t) -> list (Z * PacketBuilder.t)).

Definition build_packet (s : t) (m : mem) (begin_ end_ : Z) :
    option (PacketBuilderSignal * t) :=
  let size := end_ - begin_ in
  if size <=? packet_manager_data_size then Some (PACKET_NO_BUILDER_DATA, s)
  else
    let no_pb_header_size := size - packet_manager_data_size in
    offset ← load16 m (begin_ + 1);
    original_size ← load16 m (begin_ + 3);
    if (original_size <=? offset) || (original_size <? no_pb_header_size + offset)
    then Some (PACKET_NO_BUILDER_DATA, s)
    else
      p_id ← load m begin_;
      match lookup (packets_ s) p_id with
      | Some it =>
          it ← PacketBuilder.add_data it m (begin_ + 1) end_;
          Some (PACKET_PART_RECEIVED, with_packets s (update (packets_ s) p_id it))
      | None =>
          p ← PacketBuilder.make m (begin_ + 1) end_;
          Some (if no_pb_header_size =? original_size then PACKET_FULL_BUILD
                else PACKET_PART_RECEIVED,
                with_packets s (arrange ((p_id, p) :: packets_ s)))
      end.

End Arrange.

(** The first full packet in iteration order is cached. *)
Fixpoint find_full (l : list (Z * PacketBuilder.t)) : option (Z * PacketBuilder.t) :=
  match l with
  | [] => None
  | (k, p) :: l' => if PacketBuilder.is_full p then Some (k, p) else find_full l'
  end.

Definition have_full_packets (s : t) : bool * t :=
  match find_full (packets_ s) with
  | Some (id, _) => (true, with_cache s (Some id))
  | None => (false, s)
  end.

Definition pop_last_packet (s : t) : t :=
  match cached_full_packet s with
  | None => s
  | Some id => with_cache (with_packets s (erase (packets_ s) id)) None
  end.

(** Without a cached packet the loop erases the element it stands on and then
    advances from it: undefined as soon as one packet is full. *)
Definition get_and_pop_packet (s : t) : option (PacketBuilder.t * t) :=
  match cached_full_packet s with
  | Some id =>
      p ← lookup (packets_ s) id;
      Some (PacketBuilder.assign PacketBuilder.empty p, pop_last_packet s)
  | None =>
      match find_full (packets_ s) with
      | Some _ => None
      | None => Some (PacketBuilder.empty, s)
      end
  end.

(** Without a cached packet the last full one is taken; with none the null pointer
    is dereferenced. *)
Definition get_raw_packet (s : t) : option (Z * (Z * Z)) :=
  match cached_full_packet s with
  | Some id => p ← lookup (packets_ s) id; Some (id, PacketBuilder.get_raw_data p)
  | None =>
      '(id, p) ← find_full (reverse (packets_ s)); Some (id, PacketBuilder.get_raw_data p)
  end.

End QVPNPacketManager.

(** * The table of builders *)

Section Table.
Import QVPNPacketManager.
Implicit Types (l : list (Z * PacketBuilder.t)).

Lemma lookup_elem l id p :
  NoDup (fst <$> l) -> lookup l id = Some p <-> (id, p) ∈ l.
Proof.
  induction l as [|[k q] l IH]; simpl; intros Hl.
  - split; [done|]. by intros ?%elem_of_nil.
  - apply NoDup_cons in Hl as [Hk Hl]. rewrite elem_of_cons. case_decide as E.
    + subst k. split; [intros [= ->]; auto|]. intros [[= ->]|Hin]; [done|].
      destruct Hk. apply list_elem_of_fmap. by exists (id, p).
    + rewrite IH by done. split; [auto|]. intros [[= -> ->]|?]; [congruence|done].
Qed.

Lemma lookup_None l id : lookup l id = None <-> id ∉ (fst <$> l).
Proof.
  induction l as [|[k q] l IH]; simpl.
  - split; [intros _ ?%elem_of_nil; done|done].
  - rewrite not_elem_of_cons. case_decide; subst.
    + split; [done|]. intros [? _]. done.
    + rewrite IH. split; [by intros|by intros []].
Qed.

Lemma update_keys l id p : fst <$> update l id p = fst <$> l.
Proof.
  unfold update. rewrite <- list_fmap_compose. apply list_fmap_ext.
  intros i [k q] _. simpl. by case_decide.
Qed.

Lemma update_elem l id p k q :
  (k, q) ∈ update l id p -> (k = id /\ q = p) \/ (k <> id /\ (k, q) ∈ l).
Proof.
  unfold update. intros ([k' q'] & E & Hin)%list_elem_of_fmap. simpl in E.
  case_decide; injection E as -> ->; auto.
Qed.

Lemma lookup_update l id p k :
  lookup (update l id p) k =
  if decide (k = id) then (fun _ => p) <$> lookup l id else lookup l k.
Proof.
  induction l as [|[k' q] l IH]; simpl; [by case_decide|]. rewrite IH.
  repeat case_decide; simpl; congruence.
Qed.

Lemma lookup_erase l id k :
  lookup (erase l id) k = if decide (k = id) then None else lookup l k.
Proof.
  induction l as [|[k' q] l IH]; simpl; [by case_decide|].
  destruct (decide (k' = id)); simpl; rewrite IH; repeat case_decide; congruence.
Qed.

Lemma erase_elem l id k p : (k, p) ∈ erase l id -> k <> id /\ (k, p) ∈ l.
Proof.
  induction l as [|[k' q] l IH]; simpl; [by intros ?%elem_of_nil|].
  case_decide.
  - intros [? ?]%IH. split; [done|by apply list_elem_of_further].
  - intros [[= -> ->]|[? ?]%IH]%elem_of_cons.
    + split; [done|apply list_elem_of_here].
    + split; [done|by apply list_elem_of_further].
Qed.

Lemma erase_keys l id : NoDup (fst <$> l) -> NoDup (fst <$> erase l id).
Proof.
  induction l as [|[k q] l IH]; simpl; intros Hl; [done|].
  apply NoDup_cons in Hl as [Hk Hl]. case_decide; [by apply IH|]. simpl.
  apply NoDup_cons. split; [|by apply IH].
  intros ([k' q'] & E & [_ Hin]%erase_elem)%list_elem_of_fmap. simpl in E. subst k'.
  apply Hk, list_elem_of_fmap. by exists (k, q').
Qed.

Lemma find_full_Some l id p :
  find_full l = Some (id, p) -> (id, p) ∈ l /\ PacketBuilder.is_full p = true.
Proof.
  induction l as [|[k q] l IH]; simpl; [done|]. destruct (PacketBuilder.is_full q) eqn:E.
  - intros [= -> ->]. split; [apply list_elem_of_here|done].
  - intros [? ?]%IH. split; [by apply list_elem_of_further|done].
Qed.

Lemma find_full_None l id p :
  find_full l = None -> (id, p) ∈ l -> PacketBuilder.is_full p = false.
Proof.
  induction l as [|[k q] l IH]; simpl; [by intros _ ?%elem_of_nil|].
  destruct (PacketBuilder.is_full q) eqn:E; [done|].
  intros Hf [[= -> ->]|Hin]%elem_of_cons; auto.
Qed.

End Table.

(** * The invariant *)

Section Invariant.
Import QVPNPacketManager.
Context (arrange : list (Z * PacketBuilder.t) -> list (Z * PacketBuilder.t)).
Context (arrange_perm : forall l, arrange l ≡ₚ l).

(** A builder that has exactly its announced size is flagged full, and a full one
    has at least that size. *)
Definition builder_wf (p : PacketBuilder.t) : Prop :=
  (msize (PacketBuilder.data_ p) = PacketBuilder.original_size_ p ->
     PacketBuilder.is_full_ p = true) /\
  (PacketBuilder.is_full_ p = true ->
     PacketBuilder.original_size_ p <= msize (PacketBuilder.data_ p)).

(** Keys are unique, builders are well formed, and the cached pointer, when set,
    points to a full packet that is still in the table. *)
Definition manager_wf (s : t) : Prop :=
  NoDup (fst <$> packets_ s) /\
  (forall id p, (id, p) ∈ packets_ s -> builder_wf p) /\
  (forall id, cached_full_packet s = Some id ->
     exists p, lookup (packets_ s) id = Some p /\ PacketBuilder.is_full p = true).

Lemma add_data_wf p m b e p' :
  builder_wf p -> PacketBuilder.add_data p m b e = Some p' ->
  builder_wf p' /\ PacketBuilder.original_size_ p' = PacketBuilder.original_size_ p /\
  (PacketBuilder.is_full_ p = true -> PacketBuilder.is_full_ p' = true).
Proof.
  intros [W1 W2] H. unfold PacketBuilder.add_data in H.
  apply bind_Some in H as (os & _ & (off & _ & (l & _ & [= <-])%bind_Some)%bind_Some). simpl.
  set (d := take _ _ ++ l ++ drop _ _).
  assert (msize (PacketBuilder.data_ p) <= msize d).
  { subst d. unfold msize. rewrite !length_app, length_take, length_drop. lia. }
  split_and!; [|done|].
  - split; simpl; destruct (Z.eqb_spec (msize d) (PacketBuilder.original_size_ p)); try done; try lia.
    intros F. specialize (W2 F). lia.
  - intros F. by case_match.
Qed.

Lemma make_wf m b e p : PacketBuilder.make m b e = Some p -> builder_wf p.
Proof.
  unfold PacketBuilder.make. intros (off & _ & (os & Hos & H)%bind_Some)%bind_Some.
  unfold PacketBuilder.add_data in H.
  apply bind_Some in H as (os' & _ & (off' & _ & (l & _ & [= <-])%bind_Some)%bind_Some).
  split; simpl; intros Hx; case_match eqn:E; try done.
  - by apply Z.eqb_neq in E.
  - apply Z.eqb_eq in E. lia.
Qed.

Lemma initial_wf : manager_wf initial.
Proof. split_and!; [apply NoDup_nil_2|by intros ? ? ?%elem_of_nil|done]. Qed.

Lemma build_packet_wf s m b e sig s' :
  manager_wf s -> build_packet arrange s m b e = Some (sig, s') -> manager_wf s'.
Proof.
  intros (W1 & W2 & W3) H. unfold build_packet in H.
  case_match; [by simplify_eq|]. apply bind_Some in H as (off & _ & (os & _ & H)%bind_Some).
  case_match; [by simplify_eq|]. apply bind_Some in H as (id & _ & H).
  destruct (lookup (packets_ s) id) as [p|] eqn:L.
  - apply bind_Some in H as (p' & Hp & [= <- <-]). unfold manager_wf, with_packets. simpl.
    pose proof (W2 id p (proj1 (lookup_elem _ _ _ W1) L)) as Wp.
    destruct (add_data_wf _ _ _ _ _ Wp Hp) as (Wp' & _ & F). split_and!.
    + by rewrite update_keys.
    + intros k q [[-> ->]|[_ Hin]]%update_elem; [done|by apply (W2 k)].
    + intros k (q & Hq & Fq)%W3. rewrite lookup_update. case_decide; [subst k|eauto].
      rewrite L in Hq |- *. injection Hq as <-. exists p'. split; [done|by apply F].
  - apply bind_Some in H as (p' & Hp & [= <- <-]). unfold manager_wf, with_packets. simpl.
    assert (N : NoDup (fst <$> (id, p') :: packets_ s)).
    { simpl. apply NoDup_cons. split; [by apply lookup_None|done]. }
    assert (N' : NoDup (fst <$> arrange ((id, p') :: packets_ s))) by (by rewrite arrange_perm).
    split_and!; [done| |].
    + intros k q. rewrite arrange_perm. intros [[= -> ->]|Hin]%elem_of_cons;
        [by eapply make_wf|by apply (W2 k)].
    + intros k (q & Hq & Fq)%W3. exists q. split; [|done].
      apply lookup_elem; [done|]. rewrite arrange_perm. apply list_elem_of_further.
      by apply lookup_elem.
Qed.

Lemma have_full_wf s b s' : manager_wf s -> have_full_packets s = (b, s') -> manager_wf s'.
Proof.
  intros (W1 & W2 & W3). unfold have_full_packets.
  destruct (find_full (packets_ s)) as [[id p]|] eqn:F; intros [= <- <-]; [|done].
  apply find_full_Some in F as [Hin Hf]. split_and!; [done|done|].
  simpl. intros k [= <-]. exists p. split; [by apply lookup_elem|done].
Qed.

Lemma pop_last_wf s : manager_wf s -> manager_wf (pop_last_packet s).
Proof.
  intros (W1 & W2 & W3). unfold pop_last_packet.
  destruct (cached_full_packet s) as [id|] eqn:C; [|split_and!; [done|done|by rewrite C]].
  split_and!; simpl; [by apply erase_keys| |done].
  intros k p [_ Hin]%erase_elem. by apply (W2 k).
Qed.

(** C14: the packet manager never holds a dangling cache pointer.  From the initial
    state, every operation keeps the invariant (unique keys; a builder of exactly
    the announced size is full; the cached entry exists and is full), whatever
    bytes arrive and however the hash table orders its entries; and after
    [have_full_packets] has answered true, [get_and_pop_packet] is defined. *)
Theorem manager_invariant :
  manager_wf initial /\
  (forall s m b e sig s', manager_wf s -> build_packet arrange s m b e = Some (sig, s') ->
     manager_wf s') /\
  (forall s b s', manager_wf s -> have_full_packets s = (b, s') -> manager_wf s' /\
     (b = true -> exists p s'', get_and_pop_packet s' = Some (p, s''))) /\
  (forall s p s', manager_wf s -> get_and_pop_packet s = Some (p, s') -> manager_wf s') /\
  (forall s, manager_wf s -> manager_wf (pop_last_packet s)).
Proof.
  split_and!.
  - apply initial_wf.
  - apply build_packet_wf.
  - intros s b s' W H. pose proof (have_full_wf _ _ _ W H) as W'. split; [done|]. intros ->.
    unfold have_full_packets in H. destruct (find_full (packets_ s)) as [[id p]|]; [|done].
    injection H as <-. destruct W' as (_ & _ & W3). unfold get_and_pop_packet. simpl.
    destruct (W3 id eq_refl) as (q & Hq & _). simpl in Hq. rewrite Hq. simpl. eauto.
  - intros s p s' W H. unfold get_and_pop_packet in H.
    destruct (cached_full_packet s) as [id|] eqn:C.
    + apply bind_Some in H as (q & _ & [= _ <-]). by apply pop_last_wf.
    + case_match; [done|]. injection H as _ <-. done.
  - apply pop_last_wf.
Qed.

End Invariant.

Lemma manager_invariant_witness :
  manager_wf (QVPNPacketManager.pop_last_packet QVPNPacketManager.initial).
Proof.
  destruct (manager_invariant (fun l => l) (fun l => Permutation_refl l)) as (H0 & _ & _ & _ & H).
  exact (H _ H0).
Defined.

(** * Fragment round trips *)

(** The bytes of one fragment: five bytes of metadata, then its part of the data. *)
Definition frame (id off total : Z) (l : mem) : mem :=
  PacketBuilderData.to_bytes (PacketBuilderData.make id off total) ++ l.

Lemma frame_fields id off total l :
  is_u16 off -> is_u16 total ->
  load (frame id off total l) 0 = Some id /\ load16 (frame id off total l) 1 = Some off /\
  load16 (frame id off total l) 3 = Some total /\
  range (frame id off total l) 5 (msize (frame id off total l)) = Some l /\
  msize (frame id off total l) = 5 + msize l.
Proof.
  intros Ho Ht. split_and!; [done| | | |].
  - refine (f_equal Some (cat16_octets _ Ho)).
  - refine (f_equal Some (cat16_octets _ Ht)).
  - unfold frame. rewrite msize_app. set (hd := PacketBuilderData.to_bytes _).
    change (msize hd) with 5. rewrite range_app_r by (by vm_compute).
    change (msize hd) with 5. replace (5 - 5) with 0 by lia.
    replace (5 + msize l - 5) with (msize l) by lia. apply range_full.
  - unfold frame. by rewrite msize_app.
Qed.

Lemma find_large l v : bytes l -> 256 <= v -> PacketBuilder.find l v = length l.
Proof.
  intros Hl Hv. unfold PacketBuilder.find.
  destruct (list_find (fun x => x = v) l) as [[i x]|] eqn:F; [|done].
  apply list_find_Some in F as (Hx & -> & _).
  eapply Forall_lookup_1 in Hx; [|exact Hl]. unfold is_u8 in Hx. lia.
Qed.

(** A fragment whose offset exceeds every byte value is appended. *)
Lemma add_data_append p id off total l :
  is_u16 off -> is_u16 total -> (PacketBuilder.data_ p = [] \/ bytes (PacketBuilder.data_ p) /\ 256 <= off) ->
  PacketBuilder.add_data p (frame id off total l) 1 (msize (frame id off total l)) =
  let d := PacketBuilder.data_ p ++ l in
  Some (PacketBuilder.mk (PacketBuilder.original_size_ p) d
          (if msize d =? PacketBuilder.original_size_ p then true else PacketBuilder.is_full_ p)).
Proof.
  intros Ho Ht Hp. destruct (frame_fields id off total l Ho Ht) as (_ & F1 & F3 & Fr & _).
  unfold PacketBuilder.add_data. change (1 + 2) with 3. change (1 + 4) with 5.
  rewrite F3, F1, Fr. cbn [mbind option_bind].
  assert (PacketBuilder.find (PacketBuilder.data_ p) off = length (PacketBuilder.data_ p)) as ->.
  { destruct Hp as [-> | [Hb Hlt]]; [done|by apply find_large]. }
  rewrite take_ge, drop_ge by lia. by rewrite app_nil_r.
Qed.

Section Transfer.
Import QVPNPacketManager.
Context (arrange : list (Z * PacketBuilder.t) -> list (Z * PacketBuilder.t)).
Context (arrange_perm : forall l, arrange l ≡ₚ l).

(** What [build_packet] does with a well-formed frame. *)
Lemma build_frame r id off total l :
  is_u8 id -> is_u16 off -> is_u16 total -> 0 < msize l -> off + msize l <= total ->
  build_packet arrange r (frame id off total l) 0 (msize (frame id off total l)) =
  match lookup (packets_ r) id with
  | Some it =>
      it ← PacketBuilder.add_data it (frame id off total l) 1 (msize (frame id off total l));
      Some (PACKET_PART_RECEIVED, with_packets r (update (packets_ r) id it))
  | None =>
      Some (if msize l =? total then PACKET_FULL_BUILD else PACKET_PART_RECEIVED,
            with_packets r (arrange ((id, PacketBuilder.mk total l (msize l =? total))
                                     :: packets_ r)))
  end.
Proof.
  intros Hid Ho Ht Hl Hsum.
  destruct (frame_fields id off total l Ho Ht) as (F0 & F1 & F3 & Fr & Fs).
  unfold build_packet. rewrite Fs, Z.sub_0_r. change packet_manager_data_size with 5.
  destruct (Z.leb_spec (5 + msize l) 5); [lia|].
  change (0 + 1) with 1. change (0 + 3) with 3. rewrite F1, F3. cbn [mbind option_bind].
  destruct (Z.leb_spec total off); [lia|]. destruct (Z.ltb_spec total (5 + msize l - 5 + off)); [lia|].
  cbn [orb]. rewrite F0. cbn [mbind option_bind]. rewrite <- Fs.
  destruct (lookup (packets_ r) id); [done|].
  unfold PacketBuilder.make. change (1 + 2) with 3. rewrite F1, F3. cbn [mbind option_bind].
  rewrite add_data_append by (done || by left). simpl. rewrite Fs.
  replace (5 + msize l - 5) with (msize l) by lia. by destruct (msize l =? total).
Qed.

(** Nothing in the table is ready to be delivered. *)
Definition receiver_ready (r : t) : Prop := manager_wf r /\ find_full (packets_ r) = None.

Lemma lookup_find_full l : NoDup (fst <$> l) ->
  find_full l = None <-> forall k q, lookup l k = Some q -> PacketBuilder.is_full q = false.
Proof.
  intros N. split.
  - intros H k q Hq. apply (find_full_None l k q H). by apply lookup_elem.
  - intros H. destruct (find_full l) as [[k q]|] eqn:F; [|done].
    apply find_full_Some in F as [Hin Hq]. rewrite (H k q) in Hq; [done|by apply lookup_elem].
Qed.

(** The table after a new entry. *)
Lemma lookup_new r id p k :
  NoDup (fst <$> packets_ r) -> lookup (packets_ r) id = None ->
  lookup (arrange ((id, p) :: packets_ r)) k = if decide (k = id) then Some p else lookup (packets_ r) k.
Proof.
  intros W Hfree. set (t := arrange _).
  assert (N : NoDup (fst <$> t)).
  { subst t. rewrite arrange_perm. simpl. apply NoDup_cons. split; [by apply lookup_None|done]. }
  case_decide as E.
  - subst k. apply lookup_elem; [done|]. subst t. rewrite arrange_perm. apply list_elem_of_here.
  - destruct (lookup (packets_ r) k) as [q|] eqn:L.
    + apply lookup_elem; [done|]. subst t. rewrite arrange_perm. apply list_elem_of_further.
      by apply lookup_elem.
    + apply lookup_None. apply lookup_None in L. subst t. rewrite arrange_perm. simpl.
      by rewrite not_elem_of_cons.
Qed.

(** The only full packet of the table is delivered and forgotten. *)
Lemma deliver r id p :
  manager_wf r -> lookup (packets_ r) id = Some p -> PacketBuilder.is_full p = true ->
  PacketBuilder.data_ p <> [] ->
  (forall k q, k <> id -> lookup (packets_ r) k = Some q -> PacketBuilder.is_full q = false) ->
  exists r2 r3, have_full_packets r = (true, r2) /\ get_and_pop_packet r2 = Some (p, r3) /\
    receiver_ready r3 /\
    forall k, lookup (packets_ r3) k = if decide (k = id) then None else lookup (packets_ r) k.
Proof.
  intros W Hp Hfull Hd Hother. pose proof W as (W1 & _ & _).
  assert (F : find_full (packets_ r) = Some (id, p)).
  { destruct (find_full (packets_ r)) as [[k q]|] eqn:F.
    - apply find_full_Some in F as [Hin Hq]. apply lookup_elem in Hin; [|done].
      destruct (decide (k = id)) as [->|Hk]; [congruence|]. by rewrite (Hother k q) in Hq.
    - rewrite (proj1 (lookup_find_full _ W1) F id p Hp) in Hfull. done. }
  assert (H : have_full_packets r = (true, with_cache r (Some id)))
    by (unfold have_full_packets; by rewrite F).
  eexists _, (pop_last_packet (with_cache r (Some id))). split_and!; [exact H| | |].
  - unfold get_and_pop_packet, with_cache. cbn [cached_full_packet packets_]. rewrite Hp.
    cbn [mbind option_bind]. unfold PacketBuilder.assign, PacketBuilder.eqb.
    rewrite bool_decide_false; [done|]. intros E. by apply Hd.
  - pose proof (pop_last_wf _ (have_full_wf _ _ _ W H)) as W3. split; [exact W3|].
    apply lookup_find_full; [apply W3|]. intros k q. cbn [pop_last_packet with_cache
      cached_full_packet with_packets packets_]. rewrite lookup_erase.
    case_decide; [done|]. by apply Hother.
  - intros k. cbn [pop_last_packet with_cache cached_full_packet with_packets packets_].
    by rewrite lookup_erase.
Qed.

(** A whole packet in one frame. *)
Lemma frame_delivered r id l :
  is_u8 id -> 0 < msize l < 65536 -> receiver_ready r -> lookup (packets_ r) id = None ->
  let fr := frame id 0 (msize l) l in
  exists r1 r2 p r3,
    build_packet arrange r fr 0 (msize fr) = Some (PACKET_FULL_BUILD, r1) /\
    have_full_packets r1 = (true, r2) /\
    get_and_pop_packet r2 = Some (p, r3) /\ PacketBuilder.get_data p = l /\
    receiver_ready r3 /\ forall k, lookup (packets_ r3) k = lookup (packets_ r) k.
Proof.
  intros Hid Hsz [W Hnf] Hfree fr. pose proof W as (W1 & _ & _).
  set (p := PacketBuilder.mk (msize l) l true).
  set (r1 := with_packets r (arrange ((id, p) :: packets_ r))).
  assert (B : build_packet arrange r fr 0 (msize fr) = Some (PACKET_FULL_BUILD, r1)).
  { subst fr. rewrite build_frame by (done || unfold is_u16; lia). by rewrite Hfree, Z.eqb_refl. }
  destruct (deliver r1 id p) as (r2 & r3 & H1 & H2 & H3 & H4).
  - by eapply build_packet_wf.
  - cbn [r1 with_packets packets_]. by rewrite lookup_new, decide_True.
  - done.
  - intros E. unfold p in E. cbn in E. subst l. by destruct Hsz.
  - intros k q Hk. cbn [r1 with_packets packets_]. rewrite lookup_new, decide_False by done.
    by apply lookup_find_full.
  - exists r1, r2, p, r3. split_and!; [done..|]. intros k. rewrite H4.
    cbn [r1 with_packets packets_]. rewrite lookup_new by done. by case_decide; subst.
Qed.

(** A packet in two frames; the second one announces another size, which only the check
    of its own bounds uses. *)
Lemma two_frames_delivered r id l0 l1 off tot2 :
  is_u8 id -> receiver_ready r -> lookup (packets_ r) id = None ->
  bytes l0 -> 0 < msize l0 -> 0 < msize l1 -> msize l0 + msize l1 < 65536 ->
  256 <= off -> off + msize l1 <= tot2 < 65536 ->
  let fr0 := frame id 0 (msize l0 + msize l1) l0 in
  let fr1 := frame id off tot2 l1 in
  exists r1 r2 r3 p r4,
    build_packet arrange r fr0 0 (msize fr0) = Some (PACKET_PART_RECEIVED, r1) /\
    have_full_packets r1 = (false, r1) /\ receiver_ready r1 /\
    build_packet arrange r1 fr1 0 (msize fr1) = Some (PACKET_PART_RECEIVED, r2) /\
    have_full_packets r2 = (true, r3) /\
    get_and_pop_packet r3 = Some (p, r4) /\ PacketBuilder.get_data p = l0 ++ l1 /\
    receiver_ready r4 /\ forall k, lookup (packets_ r4) k = lookup (packets_ r) k.
Proof.
  intros Hid [W Hnf] Hfree Hb H0 H1 Hsum Hoff Htot fr0 fr1. pose proof W as (W1 & _ & _).
  set (p0 := PacketBuilder.mk (msize l0 + msize l1) l0 false).
  set (p1 := PacketBuilder.mk (msize l0 + msize l1) (l0 ++ l1) true).
  set (r1 := with_packets r (arrange ((id, p0) :: packets_ r))).
  set (r2 := with_packets r1 (update (packets_ r1) id p1)).
  assert (B0 : build_packet arrange r fr0 0 (msize fr0) = Some (PACKET_PART_RECEIVED, r1)).
  { subst fr0. rewrite build_frame by (done || unfold is_u16; lia). rewrite Hfree.
    destruct (Z.eqb_spec (msize l0) (msize l0 + msize l1)); [lia|done]. }
  pose proof (build_packet_wf _ arrange_perm _ _ _ _ _ _ W B0) as Wr1.
  assert (L1 : forall k, lookup (packets_ r1) k = if decide (k = id) then Some p0 else lookup (packets_ r) k).
  { intros k. cbn [r1 with_packets packets_]. by apply lookup_new. }
  assert (N1 : find_full (packets_ r1) = None).
  { apply lookup_find_full; [apply Wr1|]. intros k q. rewrite L1.
    case_decide; [by intros [= <-]|]. by apply lookup_find_full. }
  assert (B1 : build_packet arrange r1 fr1 0 (msize fr1) = Some (PACKET_PART_RECEIVED, r2)).
  { subst fr1. rewrite build_frame by (done || unfold is_u16; lia). rewrite L1, decide_True by done.
    rewrite add_data_append by (unfold is_u16; try right; split_and?; done || lia).
    cbn [mbind option_bind p0 PacketBuilder.data_ PacketBuilder.original_size_].
    by rewrite msize_app, Z.eqb_refl. }
  pose proof (build_packet_wf _ arrange_perm _ _ _ _ _ _ Wr1 B1) as Wr2.
  assert (L2 : forall k, lookup (packets_ r2) k = if decide (k = id) then Some p1 else lookup (packets_ r) k).
  { intros k. cbn [r2 with_packets packets_]. rewrite lookup_update, !L1.
    by repeat case_decide. }
  destruct (deliver r2 id p1) as (r3 & r4 & F & G & R & L4); [done| |done| | |].
  - by rewrite L2, decide_True.
  - cbn [p1 PacketBuilder.data_]. intros E%(f_equal msize). rewrite msize_app in E. change (msize []) with 0 in E. lia.
  - intros k q Hk. rewrite L2, decide_False by done. by apply lookup_find_full.
  - exists r1, r2, r3, p1, r4. split_and!; [done| |by split|done..|].
    + unfold have_full_packets. by rewrite N1.
    + intros k. rewrite L4, L2. by case_decide; subst.
Qed.

(** a payload below the split limit crosses in one fragment.  [split_packet]
    makes a single fragment; [build_packet] on its bytes answers
    [PACKET_FULL_BUILD] in a receiver where the id is free; if the receiver held
    no full packet, [have_full_packets] finds this one, [get_and_pop_packet]
    returns exactly the payload, and the receiver's table is as before. *)
Theorem single_fragment_roundtrip s r m b e l :
  range m b e = Some l -> 0 < msize l < data_max_size s -> msize l < 65536 ->
  is_u8 (last_packet_id_ s) -> receiver_ready r ->
  lookup (packets_ r) (last_packet_id_ s) = None ->
  exists sp s' fr r1 r2 p r3,
    split_packet s m b e = Some (sp, s') /\ SplittedPacket.size sp = 1 /\
    SplittedPacket.get sp 0 = Some fr /\
    build_packet arrange r fr 0 (msize fr) = Some (PACKET_FULL_BUILD, r1) /\
    have_full_packets r1 = (true, r2) /\
    get_and_pop_packet r2 = Some (p, r3) /\ PacketBuilder.get_data p = l /\
    receiver_ready r3 /\ forall k, lookup (packets_ r3) k = lookup (packets_ r) k.
Proof.
  intros Hl Hsz H16 Hid Hr Hfree. destruct (range_Some _ _ _ _ Hl) as (_ & _ & Hs & _).
  destruct (frame_delivered r (last_packet_id_ s) l) as (r1 & r2 & p & r3 & H); [done|lia|done..|].
  eexists _, _, (frame (last_packet_id_ s) 0 (msize l) l), r1, r2, p, r3.
  split; [|split; [|split]]; [| | |exact H].
  - unfold split_packet, next_packet_id. rewrite <- Hs.
    destruct (Z.leb_spec (data_max_size s) (msize l)) as [|_]; [simpl in *; lia|]. simpl.
    case_match eqn:E; [apply Z.leb_le in E; simpl in E; lia|].
    unfold SplittedPacket.add_data. rewrite Hl. simpl. rewrite <- Hs. reflexivity.
  - done.
  - unfold SplittedPacket.get. simpl. change (msize []) with 0. rewrite Z.add_0_l.
    rewrite (u16_id (msize l)) by (unfold is_u16; lia). change (u16 0) with 0.
    rewrite range_full. done.
Qed.

(** The fragment of [split_packet_view] below the limit. *)
Lemma split_view_small s b e :
  0 <= e - b < data_max_size s -> e - b < 65536 ->
  exists spv s', split_packet_view s b e = Some (spv, s') /\
    SplittedPacketView.size spv = 1 /\ packets_ s' = packets_ s /\
    SplittedPacketView.get_raw_with_pb_data spv 0 =
      Some (PacketBuilderData.make (last_packet_id_ s) 0 (e - b), b, e) /\
    last_packet_id_ s' = u8 (last_packet_id_ s + 1) /\
    data_max_size s' = data_max_size s /\ data_split_size s' = data_split_size s.
Proof.
  intros Hs H16. unfold split_packet_view, next_packet_id. cbn [data_max_size].
  destruct (Z.leb_spec (data_max_size s) (e - b)) as [|_]; [lia|].
  eexists _, _. split_and!; [done|done|done| |done..].
  unfold SplittedPacketView.get_raw_with_pb_data. simpl.
  rewrite !Z.add_0_l, (u16_id (e - b)) by (unfold is_u16; lia).
  change (u16 0) with 0. by rewrite Z.add_0_r, Zplus_minus.
Qed.

(** The two fragments of [split_packet_view] at and above the limit, for the default
    limits; only 65230 bytes of the payload are in them. *)
Lemma split_view_large s b e :
  data_max_size s = 65229 -> data_split_size s = 32615 -> 65230 <= e - b < 97845 ->
  exists spv s', split_packet_view s b e = Some (spv, s') /\
    SplittedPacketView.size spv = 2 /\
    SplittedPacketView.get_raw_with_pb_data spv 0 =
      Some (PacketBuilderData.make (last_packet_id_ s) 0 65230, b, b + 32615) /\
    SplittedPacketView.get_raw_with_pb_data spv 1 =
      Some (PacketBuilderData.make (last_packet_id_ s) 32615 65230, b + 32615, b + 65230).
Proof.
  intros Hm Hp Hsz. unfold split_packet_view, next_packet_id, split_bounds.
  cbn [data_max_size data_split_size]. rewrite Hm, Hp.
  destruct (Z.leb_spec 65229 (e - b)) as [_|]; [|lia].
  assert ((e - b) / 32615 = 2) as -> by (Z.div_mod_to_equations; lia).
  change (Z.to_nat (u8 2)) with 2%nat. change (u8 2) with 2. rewrite for_loop_2.
  destruct (Z.ltb_spec e (b + 32615)); [lia|]. cbn [mbind option_bind].
  replace (b + 0 * 32615) with b by lia. replace (b + 1 * 32615) with (b + 32615) by lia.
  destruct (Z.ltb_spec e (b + 32615)); [lia|].
  eexists _, _. split_and!; [done|done| |].
  - unfold SplittedPacketView.get_raw_with_pb_data. simpl.
    replace (b + 32615 - b) with 32615 by lia. replace (b + 32615 + 32615 - (b + 32615)) with 32615 by lia.
    by rewrite Z.add_0_r.
  - unfold SplittedPacketView.get_raw_with_pb_data. simpl.
    replace (b + 32615 - b) with 32615 by lia. replace (b + 32615 + 32615 - (b + 32615)) with 32615 by lia.
    done.
Qed.

End Transfer.

Lemma single_fragment_roundtrip_witness :
  exists sp s' fr, QVPNPacketManager.split_packet QVPNPacketManager.initial [1; 2; 3; 4] 1 4 = Some (sp, s') /\
    SplittedPacket.get sp 0 = Some fr /\
    exists r1, QVPNPacketManager.build_packet (fun l => l) QVPNPacketManager.initial fr 0 (msize fr)
               = Some (PACKET_FULL_BUILD, r1).
Proof.
  destruct (single_fragment_roundtrip (fun l => l) (fun l => Permutation_refl l)
    QVPNPacketManager.initial QVPNPacketManager.initial [1; 2; 3; 4] 1 4 [2; 3; 4])
    as (sp & s' & fr & r1 & _ & _ & _ & H1 & _ & H2 & H3 & _).
  - reflexivity.
  - vm_compute. split; reflexivity.
  - reflexivity.
  - concrete.
  - split; [apply initial_wf|reflexivity].
  - reflexivity.
  - exists sp, s', fr. split; [exact H1|]. split; [exact H2|]. exists r1. exact H3.
Defined.

Section Reassembly.
Import QVPNPacketManager.
Context (arrange : list (Z * PacketBuilder.t) -> list (Z * PacketBuilder.t)).
Context (arrange_perm : forall l, arrange l ≡ₚ l).

(** Fragments of one packet, numbered from offset [off], fed one after another. *)
Fixpoint feed (r : t) (id off total : Z) (ls : list mem) : option t :=
  match ls with
  | [] => Some r
  | l :: ls' =>
      let fr := frame id off total l in
      '(_, r') ← build_packet arrange r fr 0 (msize fr);
      feed r' id (off + msize l) total ls'
  end.

Definition sizes (ls : list mem) : Z := foldr (fun l n => msize l + n) 0 ls.

Lemma sizes_nonneg ls : 0 <= sizes ls.
Proof. induction ls as [|l ls IH]; simpl; [done|]. pose proof (msize_nonneg l). lia. Qed.

(** The fragments after the first one. *)
Lemma feed_rest ls r id off total p :
  is_u8 id -> lookup (packets_ r) id = Some p ->
  bytes (PacketBuilder.data_ p) -> msize (PacketBuilder.data_ p) = off -> 256 <= off ->
  PacketBuilder.original_size_ p = total -> PacketBuilder.is_full_ p = (off =? total) ->
  total < 65536 -> off + sizes ls <= total ->
  Forall (fun l => bytes l /\ 0 < msize l) ls ->
  exists r' p', feed r id off total ls = Some r' /\ lookup (packets_ r') id = Some p' /\
    PacketBuilder.data_ p' = PacketBuilder.data_ p ++ concat ls /\
    PacketBuilder.is_full_ p' = (off + sizes ls =? total).
Proof.
  intros Hid. revert r off p. induction ls as [|l ls IH]; intros r off p Hp Hb Ho Ho' Ht Hf H16 Hs Hls.
  - exists r, p. simpl. rewrite app_nil_r, Z.add_0_r. done.
  - apply Forall_cons in Hls as [[Hlb Hl] Hls]. simpl in Hs. pose proof (sizes_nonneg ls).
    simpl feed. rewrite build_frame by (done || unfold is_u16; lia). rewrite Hp.
    rewrite add_data_append by (unfold is_u16; try right; split_and?; done || lia).
    cbn [mbind option_bind]. simpl.
    set (d := PacketBuilder.data_ p ++ l). rewrite Ht.
    set (p1 := PacketBuilder.mk total d (if msize d =? total then true else PacketBuilder.is_full_ p)).
    assert (Hd : msize d = off + msize l) by (subst d; rewrite msize_app; lia).
    edestruct (IH (with_packets r (update (packets_ r) id p1)) (off + msize l) p1)
      as (r' & p' & E1 & E2 & E3 & E4).
    + simpl. rewrite lookup_update, decide_True by done. by rewrite Hp.
    + simpl. subst d. by apply bytes_app.
    + done.
    + lia.
    + done.
    + simpl. rewrite Hd, Hf. destruct (Z.eqb_spec (off + msize l) total); [done|].
      destruct (Z.eqb_spec off total); [lia|done].
    + done.
    + lia.
    + done.
    + exists r', p'. split_and!; [done|done| |].
      * rewrite E3. simpl. subst d. by rewrite <- app_assoc.
      * rewrite E4. simpl. f_equal. lia.
Qed.

(** C35: reassembly in order.  Fragments that arrive in order, the first one at
    offset 0 with at least 256 bytes and all of them non-empty, are put together
    to the original data; the packet is full exactly when the announced size has
    arrived.  (Offsets below 256 are compared with the values of the bytes already
    there; see [small_offset_misplaced].) *)
Theorem in_order_reassembly r id total l0 ls :
  is_u8 id -> manager_wf r -> lookup (packets_ r) id = None ->
  256 <= msize l0 -> bytes l0 -> total < 65536 ->
  msize l0 + sizes ls <= total -> Forall (fun l => bytes l /\ 0 < msize l) ls ->
  exists r' p, feed r id 0 total (l0 :: ls) = Some r' /\ lookup (packets_ r') id = Some p /\
    PacketBuilder.get_data p = l0 ++ concat ls /\
    PacketBuilder.is_full p = (msize (l0 ++ concat ls) =? total).
Proof.
  intros Hid (W1 & _ & _) Hfree H0 Hb H16 Hs Hls.
  assert (Hc : msize (l0 ++ concat ls) = msize l0 + sizes ls).
  { rewrite msize_app. f_equal. clear. induction ls as [|l ls IH]; simpl; [done|].
    rewrite msize_app. lia. }
  pose proof (sizes_nonneg ls).
  simpl feed. rewrite build_frame by (done || unfold is_u16; lia). rewrite Hfree.
  cbn [mbind option_bind]. rewrite Z.add_0_l.
  set (p := PacketBuilder.mk total l0 (msize l0 =? total)).
  edestruct (feed_rest ls (with_packets r (arrange ((id, p) :: packets_ r))) id (msize l0) total p)
    as (r' & p' & E1 & E2 & E3 & E4); try done.
  - simpl. apply lookup_elem; rewrite arrange_perm; [|apply list_elem_of_here].
    simpl. apply NoDup_cons. split; [by apply lookup_None|done].
  - exists r', p'. split_and!; [done|done|done|]. unfold PacketBuilder.is_full. rewrite E4, Hc. done.
Qed.

End Reassembly.

Lemma in_order_reassembly_witness :
  exists r' p, feed (fun l => l) QVPNPacketManager.initial 7 0 303 [repeat 5 300; [1; 2; 3]] = Some r' /\
    QVPNPacketManager.lookup (QVPNPacketManager.packets_ r') 7 = Some p /\
    PacketBuilder.is_full p = true.
Proof.
  destruct (in_order_reassembly (fun l => l) (fun l => Permutation_refl l)
    QVPNPacketManager.initial 7 303 (repeat 5 300) [[1; 2; 3]]) as (r' & p & H1 & H2 & _ & H4);
    [concrete| |reflexivity|vm_compute; discriminate|concrete|reflexivity|vm_compute; discriminate| |].
  - apply initial_wf.
  - repeat constructor; concrete.
  - exists r', p. split; [exact H1|]. split; [exact H2|]. rewrite H4. reflexivity.
Defined.

(** Two fragments in order whose second offset, 1, is also the value of a byte of
    the first: the second is inserted in front of that byte. *)
Example small_offset_misplaced :
  feed (fun l => l) QVPNPacketManager.initial 0 0 2 [[1]; [9]] =
  Some (QVPNPacketManager.mk [(0, PacketBuilder.mk 2 [9; 1] true)] 0 None 65229 32615).
Proof. vm_compute. reflexivity. Qed.

Section Hostile.
Import QVPNPacketManager.
Context (arrange : list (Z * PacketBuilder.t) -> list (Z * PacketBuilder.t)).
Context (arrange_perm : forall l, arrange l ≡ₚ l).

(** A builder takes anything that has its four bytes of metadata. *)
Lemma add_data_total p m b e :
  0 <= b -> b + 4 <= e <= msize m -> is_Some (PacketBuilder.add_data p m b e).
Proof.
  intros Hb He. unfold PacketBuilder.add_data.
  destruct (load16_in m (b + 2)) as [os ->]; [lia..|].
  destruct (load16_in m b) as [off ->]; [lia..|]. cbn [mbind option_bind].
  rewrite range_in by lia. cbn [mbind option_bind]. eauto.
Qed.

Lemma make_total m b e :
  0 <= b -> b + 4 <= e <= msize m -> is_Some (PacketBuilder.make m b e).
Proof.
  intros Hb He. unfold PacketBuilder.make. destruct (load16_in m b) as [off ->]; [lia..|].
  destruct (load16_in m (b + 2)) as [os ->]; [lia..|]. cbn [mbind option_bind].
  by apply add_data_total.
Qed.

(** What [build_packet] refuses: no more than the five metadata bytes, an offset at or
    past the announced size, or data running past it. *)
Definition refused (m : mem) (b e : Z) : Prop :=
  e - b <= 5 \/
  exists off total, load16 m (b + 1) = Some off /\ load16 m (b + 3) = Some total /\
    (total <= off \/ total < e - b - 5 + off).

(** C22: [build_packet] is safe on whatever arrives.  For every range of every buffer it is
    defined; it answers [PACKET_NO_BUILDER_DATA] exactly on the input [refused]
    describes, and then leaves its state alone; otherwise at most the entry of the
    fragment's id changes, and that entry exists afterwards. *)
Theorem build_packet_total s m b e l :
  manager_wf s -> range m b e = Some l ->
  exists sig s', build_packet arrange s m b e = Some (sig, s') /\
    (sig = PACKET_NO_BUILDER_DATA <-> refused m b e) /\
    (sig = PACKET_NO_BUILDER_DATA -> s' = s) /\
    (sig <> PACKET_NO_BUILDER_DATA -> exists id, load m b = Some id /\
       is_Some (lookup (packets_ s') id) /\
       forall k, k <> id -> lookup (packets_ s') k = lookup (packets_ s) k).
Proof.
  intros (W1 & _ & _) Hl. apply range_order in Hl as [Hb He]. unfold build_packet.
  change packet_manager_data_size with 5. destruct (Z.leb_spec (e - b) 5) as [Hsz|Hsz].
  { exists PACKET_NO_BUILDER_DATA, s. split_and!; try done. split; [by left|done]. }
  destruct (load16_in m (b + 1)) as [off Hoff]; [lia..|].
  destruct (load16_in m (b + 3)) as [total Htot]; [lia..|].
  rewrite Hoff, Htot. cbn [mbind option_bind].
  destruct ((total <=? off) || (total <? e - b - 5 + off)) eqn:C.
  { apply orb_true_iff in C. rewrite Z.leb_le, Z.ltb_lt in C.
    exists PACKET_NO_BUILDER_DATA, s. split_and!; try done. split; [right; eauto|done]. }
  apply orb_false_iff in C. rewrite Z.leb_gt, Z.ltb_ge in C.
  assert (Hno : ~ refused m b e).
  { intros [?|(o & t & Ho & Ht & ?)]; [lia|]. rewrite Ho in Hoff. rewrite Ht in Htot. simplify_eq. lia. }
  destruct (load_is_Some m b) as [id Hid]; [lia|]. rewrite Hid. cbn [mbind option_bind].
  destruct (lookup (packets_ s) id) as [p|] eqn:L.
  - destruct (add_data_total p m (b + 1) e) as [p' ->]; [lia..|]. cbn [mbind option_bind].
    eexists _, _. split; [done|]. split_and!; [by split|done|]. intros _. exists id.
    cbn [with_packets packets_]. split_and!; [done| |].
    + rewrite lookup_update, decide_True, L by done. by eexists.
    + intros k Hk. by rewrite lookup_update, decide_False.
  - destruct (make_total m (b + 1) e) as [p' ->]; [lia..|]. cbn [mbind option_bind].
    eexists _, _. split; [done|]. split_and!; [by split; [case_match|]|by case_match|]. intros _.
    exists id. cbn [with_packets packets_]. split_and!; [done| |].
    + rewrite (lookup_new _ arrange_perm), decide_True by done. by eexists.
    + intros k Hk. by rewrite (lookup_new _ arrange_perm), decide_False.
Qed.

End Hostile.

Lemma build_packet_total_witness :
  exists sig s', QVPNPacketManager.build_packet (fun l => l) QVPNPacketManager.initial
    [1; 0; 9; 0; 4; 7; 7] 0 7 = Some (sig, s') /\ (sig = PACKET_NO_BUILDER_DATA -> s' = QVPNPacketManager.initial).
Proof.
  destruct (build_packet_total (fun l => l) (fun l => Permutation_refl l) QVPNPacketManager.initial
    [1; 0; 9; 0; 4; 7; 7] 0 7 [1; 0; 9; 0; 4; 7; 7]) as (sig & s' & H & _ & Hs & _).
  - apply initial_wf.
  - reflexivity.
  - exists sig, s'. split; [exact H|exact Hs].
Defined.

(** A payload at or above the split limit loses its tail.  With the default
    limits (65229 and 32615) and a payload of 65229 to 97844 bytes, [split_packet]
    keeps only whole multiples of the split size: one or two parts, and the bytes
    after the last multiple are never sent. *)
Theorem split_packet_drops_tail m b e l :
  range m b e = Some l -> 65229 <= msize l < 97845 ->
  let n := msize l / 32615 in
  exists sp s', QVPNPacketManager.split_packet QVPNPacketManager.initial m b e = Some (sp, s') /\
    SplittedPacket.size sp = n /\
    range m b (b + 32615 * n) = Some (SplittedPacket.data_ sp).
Proof.
  intros Hl Hsz n. destruct (range_Some _ _ _ _ Hl) as (Hb & He & Hs & _).
  change QVPNPacketManager.initial with (QVPNPacketManager.mk [] 0 None 65229 32615).
  unfold QVPNPacketManager.split_packet, QVPNPacketManager.next_packet_id,
    QVPNPacketManager.split_bounds.
  cbn [QVPNPacketManager.last_packet_id_ QVPNPacketManager.data_max_size
       QVPNPacketManager.data_split_size].
  rewrite <- Hs. destruct (Z.leb_spec 65229 (msize l)) as [_|]; [|lia]. fold n.
  assert (n = 1 /\ 65229 <= msize l < 65230 \/ n = 2) as [[E Hn]|E]
    by (subst n; Z.div_mod_to_equations; lia); rewrite E.
  - change (Z.to_nat (u8 1)) with 1%nat. change (u8 1) with 1. rewrite for_loop_1.
    destruct (Z.ltb_spec e (b + 32615)); [lia|].
    unfold SplittedPacket.add_data. replace (b + 0 * 32615) with b by lia.
    rewrite range_in by lia. cbn [mbind option_bind].
    eexists _, _. split_and!; [done|done|]. cbn [SplittedPacket.data_ app].
    rewrite range_in by lia. done.
  - change (Z.to_nat (u8 2)) with 2%nat. change (u8 2) with 2. rewrite for_loop_2.
    assert (65230 <= msize l) by (subst n; Z.div_mod_to_equations; lia).
    destruct (Z.ltb_spec e (b + 32615)); [lia|].
    replace (b + 0 * 32615) with b by lia. replace (b + 1 * 32615) with (b + 32615) by lia.
    destruct (range m b (b + 32615)) as [l1|] eqn:R1; [|by rewrite range_in in R1 by lia].
    destruct (range m (b + 32615) (b + 32615 + 32615)) as [l2|] eqn:R2;
      [|by rewrite range_in in R2 by lia].
    unfold SplittedPacket.add_data. rewrite R1. cbn [mbind option_bind].
    replace (b + 1 * 32615) with (b + 32615) by lia.
    destruct (Z.ltb_spec e (b + 32615)); [lia|]. rewrite R2. cbn [mbind option_bind].
    eexists _, _. split_and!; [done|done|]. cbn [SplittedPacket.data_ app].
    replace (b + 32615 * 2) with (b + 32615 + 32615) by lia.
    rewrite (range_app _ _ _ _ _ _ R1 R2). done.
Qed.

Lemma split_packet_drops_tail_witness :
  exists sp s', QVPNPacketManager.split_packet QVPNPacketManager.initial
      (repeat 0 (Z.to_nat 65300)) 0 65300 = Some (sp, s') /\ SplittedPacket.size sp = 2.
Proof.
  assert (H : msize (repeat 0 (Z.to_nat 65300)) = 65300)
    by (unfold msize; rewrite repeat_length, Z2Nat.id by lia; reflexivity).
  destruct (split_packet_drops_tail (repeat 0 (Z.to_nat 65300)) 0 65300
    (repeat 0 (Z.to_nat 65300))) as (sp & s' & H1 & H2 & _).
  - rewrite <- H at 2. apply range_full.
  - rewrite H. lia.
  - exists sp, s'. split; [exact H1|]. rewrite H2, H. reflexivity.
Defined.
