(* ===== verification/QTunnel.v ===== *)
(** The tunnel's metadata: the transport schemes [QTunnelTCPViewScheme] and
    [QTunnelUDPViewScheme], [QTunnelProtoData], [QTunnelProxy], [QTunnelData], and
    the application-data generators that put them on the wire
    (src/QVPN/QVPN Lib/src/qvpn_structures.cpp and include/qvpn_structures.hpp).
    Addresses are [NetAddr]s. *)
From S2P Require Import Prelude Addr Transport Tcp Udp PacketManager.

(** * Transport schemes: what the tunnel keeps of a transport header *)
Module QTunnelTCPViewScheme.

Record t := mk { length_ : Z; data_ : Z }.
Definition make (begin_ end_ : Z) : t := mk (u16 (end_ - begin_)) begin_.
Definition get_seq (b : mem) (s : t) : option Z := load32 b (data_ s + 2).
Definition get_ack (b : mem) (s : t) : option Z := load32 b (data_ s + 6).
Definition get_flags (b : mem) (s : t) : option Z :=
  f ← load16 b (data_ s + 10); Some (TcpFlagsObject.of_short f).
Definition get_offset (b : mem) (s : t) : option Z := load b (data_ s + 12).
Definition get_window (b : mem) (s : t) : option Z := load16 b (data_ s + 13).
Definition get_urgent_pointer (b : mem) (s : t) : option Z := load16 b (data_ s + 15).
Definition get_options (s : t) : Z * Z :=
  let start := if 17 <? length_ s then 17 else length_ s in
  (data_ s + start, data_ s + length_ s).
(** [data_[0] << 8 & 0xFF | data_[1]]: the mask removes the high byte. *)
Definition get_scheme_data_length (b : mem) (s : t) : option Z :=
  a ← load b (data_ s); c ← load b (data_ s + 1);
  Some (u16 (Z.lor (Z.land (Z.shiftl a 8) 255) c)).
Definition get_scheme_protocol : Z := TCP.

(** [sizeof] of the fields is 4 + 4 + 2 and 1 + 2 + 2. *)
Definition generate_object_bytes (b : mem) (tcp_packet : TcpPacketView.t) : option mem :=
  seq ← TcpPacketView.get_tcp_seq_number b tcp_packet;
  ack ← TcpPacketView.get_tcp_ack_number b tcp_packet;
  flags ← TcpPacketView.get_tcp_flags b tcp_packet;
  let size := u16 (0 + (4 + 4 + 2)) in
  offset ← TcpPacketView.get_tcp_header_length b tcp_packet;
  window ← TcpPacketView.get_tcp_window_size b tcp_packet;
  urgent ← TcpPacketView.get_tcp_urgent_pointer b tcp_packet;
  let size := u16 (size + (1 + 2 + 2)) in
  let '(ob, oe) := TcpPacketView.get_tcp_options tcp_packet in
  opts ← range b ob oe;
  let size := u16 (size + u16 (oe - ob)) in
  Some ([octet 1 size; octet 0 size;
         octet 3 seq; octet 2 seq; octet 1 seq; octet 0 seq;
         octet 3 ack; octet 2 ack; octet 1 ack; octet 0 ack;
         TcpFlagsObject.get_ns flags; TcpFlagsObject.get_without_ns flags; offset;
         octet 1 window; octet 0 window; octet 1 urgent; octet 0 urgent] ++ opts).

End QTunnelTCPViewScheme.

Module QTunnelUDPViewScheme.

Record t := mk { length_ : Z; data_ : Z }.
Definition make (begin_ end_ : Z) : t := mk (u16 (end_ - begin_)) begin_.
Definition get_length (b : mem) (s : t) : option Z := load16 b (data_ s + 2).
Definition get_scheme_data_length (b : mem) (s : t) : option Z := load16 b (data_ s).
Definition get_scheme_protocol : Z := UDP.
Definition generate_object_bytes (b : mem) (udp_packet : UdpPacketView.t) : option mem :=
  let size := 2 in
  length ← UdpPacketView.get_udp_length b udp_packet;
  Some [octet 1 size; octet 0 size; octet 1 length; octet 0 length].

End QTunnelUDPViewScheme.

(** * Length-prefixed transport metadata *)
Module QTunnelProtoData.

Definition t : Type := mem.
Definition empty : t := [0; 0].
Definition of_length (length : Z) (m : mem) (begin_ end_ : Z) : option t :=
  l ← range m begin_ end_; Some ([octet 1 length; octet 0 length] ++ l).
Definition make (m : mem) (begin_ end_ : Z) : option t := range m begin_ end_.
Definition get_length (data : t) : option Z :=
  if msize data =? 0 then Some 0 else load16 data 0.
Definition get_proto_data (data : t) : Z * Z := (2, msize data).
Definition to_bytes (data : t) : Z * Z := (0, msize data).
Definition to_string (data : t) : option string :=
  n ← get_length data; Some ("size = " +:+ dec n)%string.

(** The prefix counts the bytes that follow. *)
Definition wf (data : t) : Prop :=
  exists pd, data = [octet 1 (msize pd); octet 0 (msize pd)] ++ pd /\ msize pd < 65536.

End QTunnelProtoData.

(** * Endpoints of a tunnelled packet *)
Module QTunnelProxy.

Record t := mk {
  net_protocol : Z; transport_protocol : Z;
  source_addr : list Z; source_port : Z; dst_addr : list Z; dst_port : Z;
  proto_data : QTunnelProtoData.t }.

Definition default : t := mk 0 0 NetAddr.default 0 NetAddr.default 0 QTunnelProtoData.empty.
Definition make (net_p transport_p : Z) (src : list Z) (src_p : Z) (dst : list Z) (dst_p : Z)
    (m : mem) (begin_ end_ : Z) : option t :=
  pd ← QTunnelProtoData.make m begin_ end_; Some (mk net_p transport_p src src_p dst dst_p pd).
Definition get_net_proto (p : t) : Z := net_protocol p.
Definition get_transport_proto (p : t) : Z := transport_protocol p.
Definition get_src_addr (p : t) : list Z := source_addr p.
Definition get_src_port (p : t) : Z := source_port p.
Definition get_dst_addr (p : t) : list Z := dst_addr p.
Definition get_dst_port (p : t) : Z := dst_port p.
Definition get_proto_data (p : t) : Z * Z := QTunnelProtoData.get_proto_data (proto_data p).
Definition get_proto_data_bytes (p : t) : Z * Z := QTunnelProtoData.to_bytes (proto_data p).

Definition check_validity (p : t) : bool :=
  if net_protocol p =? IPv4 then
    if transport_protocol p =? TCP then true
    else if transport_protocol p =? UDP then true
    else false
  else false.

Definition get_proxy_data_size (p : t) : option Z :=
  n ← QTunnelProtoData.get_length (proto_data p);
  Some (u16 (1 + 1 + NetAddr.get_addr_size (source_addr p) + 2
             + NetAddr.get_addr_size (dst_addr p) + 2 + n + 2)).

Definition create_and_inverse_addrs (p : t) : option t :=
  let '(b, e) := get_proto_data_bytes p in
  make (net_protocol p) (transport_protocol p) (dst_addr p) (dst_port p)
    (source_addr p) (source_port p) (proto_data p) b e.
Definition create (p : t) : option t :=
  let '(b, e) := get_proto_data_bytes p in
  make (net_protocol p) (transport_protocol p) (source_addr p) (source_port p)
    (dst_addr p) (dst_port p) (proto_data p) b e.

End QTunnelProxy.

(** * Parsing what arrives: endpoints, transport metadata, payload *)
Module QTunnelData.

Record t := mk { proxy : QTunnelProxy.t; data_ : mem }.

(** [data_.erase(data_.begin(), data_.begin() + n)]. *)
Definition erase_front (data : mem) (n : Z) : option mem := range data n (msize data).

(** The switch on the network protocol; other values keep the default endpoints. *)
Definition endpoints (net : Z) (data : mem) : option (list Z * Z * list Z * Z) :=
  if net =? IPv4 then
    src ← NetAddr.of_range data 0 4; sp ← load16 data 4;
    dst ← NetAddr.of_range data 6 10; dp ← load16 data 10;
    Some (src, sp, dst, dp)
  else if net =? IPv6 then
    src ← NetAddr.of_range data 0 16; sp ← load16 data 16;
    dst ← NetAddr.of_range data 18 34; dp ← load16 data 34;
    Some (src, sp, dst, dp)
  else Some (NetAddr.default, 0, NetAddr.default, 0).

Definition make (data : mem) : option t :=
  net ← load data 0;
  transport ← load data 1;
  data ← erase_front data 2;
  '(src, sp, dst, dp) ← endpoints net data;
  let meta_data_size := NetAddr.get_addr_size src * 2 + 4 in
  data ← erase_front data meta_data_size;
  size ← load16 data 0;
  let full_size := size + 2 in
  pd ← QTunnelProtoData.of_length size data 2 full_size;
  data ← erase_front data full_size;
  Some (mk (QTunnelProxy.mk net transport src sp dst dp pd) data).

Definition get_raw_data (d : t) : Z * Z := (0, msize (data_ d)).

End QTunnelData.

(** * Application data of the tunnel

    The overloads of [TLS13_ApplicationDataLittleEndian::generate_object_bytes];
    [[begin_, end_)] is the payload. *)
Module TunnelAppData.

(** Fragment metadata, endpoints, transport metadata, payload. *)
Definition generate_pb_proxy (pb_data : PacketBuilderData.t) (proxy_data : QTunnelProxy.t)
    (m : mem) (begin_ end_ : Z) : option mem :=
  let offset := PacketBuilderData.get_offset pb_data in
  proxy_size ← QTunnelProxy.get_proxy_data_size proxy_data;
  let orig_size := PacketBuilderData.get_original_size pb_data + proxy_size in
  let src_port := QTunnelProxy.get_src_port proxy_data in
  let dst_port := QTunnelProxy.get_dst_port proxy_data in
  let '(b, e) := QTunnelProxy.get_proto_data_bytes proxy_data in
  pd ← range (QTunnelProxy.proto_data proxy_data) b e;
  l ← range m begin_ end_;
  Some ([PacketBuilderData.get_packet_id pb_data; octet 1 offset; octet 0 offset;
         octet 1 orig_size; octet 0 orig_size]
        ++ [u8 (QTunnelProxy.get_net_proto proxy_data);
            u8 (QTunnelProxy.get_transport_proto proxy_data)]
        ++ NetAddr.to_bytes (QTunnelProxy.get_src_addr proxy_data)
        ++ [octet 1 src_port; octet 0 src_port]
        ++ NetAddr.to_bytes (QTunnelProxy.get_dst_addr proxy_data)
        ++ [octet 1 dst_port; octet 0 dst_port]
        ++ pd ++ l).

Definition generate_pb (pb_data : PacketBuilderData.t) (m : mem) (begin_ end_ : Z) : option mem :=
  let offset := PacketBuilderData.get_offset pb_data in
  let orig_size := PacketBuilderData.get_original_size pb_data in
  l ← range m begin_ end_;
  Some ([PacketBuilderData.get_packet_id pb_data; octet 1 offset; octet 0 offset;
         octet 1 orig_size; octet 0 orig_size] ++ l).

(** Without fragment metadata the length prefix of the transport metadata is left
    out. *)
Definition generate_proxy (proxy_data : QTunnelProxy.t) (m : mem) (begin_ end_ : Z) :
    option mem :=
  let src_port := QTunnelProxy.get_src_port proxy_data in
  let dst_port := QTunnelProxy.get_dst_port proxy_data in
  let '(b, e) := QTunnelProxy.get_proto_data proxy_data in
  pd ← range (QTunnelProxy.proto_data proxy_data) b e;
  l ← range m begin_ end_;
  Some ([u8 (QTunnelProxy.get_net_proto proxy_data);
         u8 (QTunnelProxy.get_transport_proto proxy_data)]
        ++ NetAddr.to_bytes (QTunnelProxy.get_src_addr proxy_data)
        ++ [octet 1 src_port; octet 0 src_port]
        ++ NetAddr.to_bytes (QTunnelProxy.get_dst_addr proxy_data)
        ++ [octet 1 dst_port; octet 0 dst_port]
        ++ pd ++ l).

End TunnelAppData.

(** * The TCP scheme *)

Lemma load32_is_u32 m p v : load32 m p = Some v -> is_u32 v.
Proof.
  unfold load32.
  intros (a & _ & (b & _ & (c & _ & (d & _ & [= <-])%bind_Some)%bind_Some)%bind_Some)%bind_Some.
  apply cat32_is_u32.
Qed.

(** The flags a view reads occupy the low byte, so NS is clear. *)
Lemma view_flags_low b v f :
  bytes b -> TcpPacketView.get_tcp_flags b v = Some f -> 0 <= f < 256.
Proof.
  intros Hb H. unfold TcpPacketView.get_tcp_flags, TcpPacketView.at_ in H.
  apply bind_Some in H as (a & Ha & (c & Hc & [= <-])%bind_Some).
  pose proof (load_u8 _ _ _ Hb Hc) as H8. unfold TcpFlagsObject.of_short.
  assert (Z.land a 1 = 0 \/ Z.land a 1 = 1) as E.
  { pose proof (land1_bit a 0 ltac:(lia)) as E. rewrite Z.shiftr_0_r in E. rewrite E.
    destruct (Z.testbit a 0); auto. }
  assert (P : forall n, n = 0 \/ n = 1 -> forall c, is_u8 c ->
    (u16 (Z.lor (Z.shiftl n 1) c) <? 256) = true).
  { intros n [-> | ->]; apply forall_u8; by vm_compute. }
  specialize (P _ E c H8). apply Z.ltb_lt in P.
  pose proof (u16_is_u16 (Z.lor (Z.shiftl (Z.land a 1) 1) c)) as U. unfold is_u16 in U. lia.
Qed.

Lemma flags_word f :
  0 <= f < 256 -> cat16 (TcpFlagsObject.get_ns f) (TcpFlagsObject.get_without_ns f) = f.
Proof.
  intros Hf. apply Z.eqb_eq. revert f Hf. apply forall_u8. by vm_compute.
Qed.

(** The TCP scheme carries a transport header's state: the bytes
    [generate_object_bytes] makes from a view, read back as a scheme, give the view's
    sequence and acknowledgement numbers, flags, header length, window, urgent pointer
    and option bytes; only the scheme's own length getter loses the high byte. *)
Lemma tcp_scheme_fields b v s opts :
  bytes b -> QTunnelTCPViewScheme.generate_object_bytes b v = Some s ->
  (let '(ob, oe) := TcpPacketView.get_tcp_options v in range b ob oe) = Some opts ->
  msize opts <= 65518 ->
  let sc := QTunnelTCPViewScheme.make 0 (msize s) in
  QTunnelTCPViewScheme.get_seq s sc = TcpPacketView.get_tcp_seq_number b v /\
  QTunnelTCPViewScheme.get_ack s sc = TcpPacketView.get_tcp_ack_number b v /\
  QTunnelTCPViewScheme.get_flags s sc = TcpPacketView.get_tcp_flags b v /\
  QTunnelTCPViewScheme.get_offset s sc = TcpPacketView.get_tcp_header_length b v /\
  QTunnelTCPViewScheme.get_window s sc = TcpPacketView.get_tcp_window_size b v /\
  QTunnelTCPViewScheme.get_urgent_pointer s sc = TcpPacketView.get_tcp_urgent_pointer b v /\
  (let '(ob, oe) := QTunnelTCPViewScheme.get_options sc in range s ob oe) = Some opts /\
  load16 s 0 = Some (15 + msize opts) /\
  QTunnelTCPViewScheme.get_scheme_data_length s sc = Some ((15 + msize opts) mod 256).
Proof.
  intros Hb H Ho Hlen. unfold QTunnelTCPViewScheme.generate_object_bytes in H.
  apply bind_Some in H as (seq & Hseq & (ack & Hack & (fl & Hfl & H)%bind_Some)%bind_Some).
  apply bind_Some in H as (off & Hoff & (win & Hwin & (urg & Hurg & H)%bind_Some)%bind_Some).
  unfold TcpPacketView.get_tcp_options in H, Ho. rewrite Ho in H. cbn [mbind option_bind] in H.
  destruct (range_Some _ _ _ _ Ho) as (_ & _ & Hos & _). pose proof (msize_nonneg opts).
  pose proof (load32_is_u32 _ _ _ Hseq) as Useq. pose proof (load32_is_u32 _ _ _ Hack) as Uack.
  pose proof (load16_is_u16 _ _ _ Hwin) as Uwin. pose proof (load16_is_u16 _ _ _ Hurg) as Uurg.
  pose proof (view_flags_low _ _ _ Hb Hfl) as Ufl.
  change (u16 (u16 (0 + (4 + 4 + 2)) + (1 + 2 + 2))) with 15 in H. rewrite <- Hos in H.
  rewrite (u16_id (msize opts)) in H by (unfold is_u16; lia).
  rewrite (u16_id (15 + msize opts)) in H by (unfold is_u16; lia).
  apply (inj Some) in H as <-. rewrite Hseq, Hack, Hfl, Hoff, Hwin, Hurg.
  set (hd := [_; _; _; _; _; _; _; _; _; _; _; _; _; _; _; _; _]).
  assert (Hs : msize (hd ++ opts) = 17 + msize opts) by (rewrite msize_app; done).
  unfold QTunnelTCPViewScheme.make. rewrite Hs, Z.sub_0_r, u16_id by (unfold is_u16; lia).
  split_and!.
  - refine (f_equal Some (cat32_octets _ Useq)).
  - refine (f_equal Some (cat32_octets _ Uack)).
  - refine (f_equal Some (flags_word _ Ufl)).
  - done.
  - refine (f_equal Some (cat16_octets _ Uwin)).
  - refine (f_equal Some (cat16_octets _ Uurg)).
  - unfold QTunnelTCPViewScheme.get_options.
    cbn [QTunnelTCPViewScheme.length_ QTunnelTCPViewScheme.data_]. rewrite !Z.add_0_l.
    destruct (Z.ltb_spec 17 (17 + msize opts)).
    + change 17 with (msize hd). rewrite range_app_r, Z.sub_diag by lia.
      replace (msize hd + msize opts - msize hd) with (msize opts) by lia. apply range_full.
    + assert (opts = []) as ->.
      { destruct opts; [done|]. rewrite msize_cons in *. pose proof (msize_nonneg opts). lia. }
      done.
  - refine (f_equal Some (cat16_octets _ _)). unfold is_u16. lia.
  - unfold QTunnelTCPViewScheme.get_scheme_data_length. cbn [QTunnelTCPViewScheme.data_].
    change (load (hd ++ opts) 0) with (Some (octet 1 (15 + msize opts))).
    change (load (hd ++ opts) (0 + 1)) with (Some (octet 0 (15 + msize opts))).
    cbn [mbind option_bind]. f_equal. change 255 with (Z.ones 8).
    rewrite Z.land_ones, Z.shiftl_mul_pow2, Z.mod_mul by lia. rewrite Z.lor_0_l, octet0.
    rewrite u16_id; [done|]. pose proof (Z.mod_pos_bound (15 + msize opts) 256).
    unfold is_u16. lia.
Qed.

(** the UDP scheme carries the datagram's length. *)
Theorem udp_scheme_roundtrip b v s :
  QTunnelUDPViewScheme.generate_object_bytes b v = Some s ->
  let sc := QTunnelUDPViewScheme.make 0 (msize s) in
  QTunnelUDPViewScheme.get_length s sc = UdpPacketView.get_udp_length b v /\
  QTunnelUDPViewScheme.get_scheme_data_length s sc = Some (msize s - 2).
Proof.
  intros H. unfold QTunnelUDPViewScheme.generate_object_bytes in H.
  apply bind_Some in H as (len & Hlen & [= <-]). rewrite Hlen. split; [|done].
  refine (f_equal Some (cat16_octets _ _)). by apply (load16_is_u16 _ _ _ Hlen).
Qed.

Lemma udp_scheme_roundtrip_witness :
  QTunnelUDPViewScheme.get_length [0; 2; 1; 44] (QTunnelUDPViewScheme.make 0 4) = Some 300.
Proof.
  destruct (udp_scheme_roundtrip [0; 53; 9; 9; 1; 44; 0; 0] (UdpPacketView.mk 0) [0; 2; 1; 44]
    eq_refl) as [H _]. exact H.
Defined.

(** * Wire round trip *)

Section Wire.
Import QTunnelProxy.

(** Endpoints whose sizes fit the network protocol, in range, with consistent
    transport metadata. *)
Definition proxy_wf (p : t) : Prop :=
  (net_protocol p = IPv4 /\ msize (source_addr p) = 4 /\ msize (dst_addr p) = 4 \/
   net_protocol p = IPv6 /\ msize (source_addr p) = 16 /\ msize (dst_addr p) = 16) /\
  is_u8 (transport_protocol p) /\ is_u16 (source_port p) /\ is_u16 (dst_port p) /\
  QTunnelProtoData.wf (proto_data p).

Lemma erase_front_app l1 l2 n :
  msize l1 = n -> QTunnelData.erase_front (l1 ++ l2) n = Some l2.
Proof.
  intros <-. unfold QTunnelData.erase_front. rewrite range_app_r, Z.sub_diag, msize_app by lia.
  replace (msize l1 + msize l2 - msize l1) with (msize l2) by lia. apply range_full.
Qed.

(** A port at its place. *)
Lemma load16_port l1 l2 v n :
  msize l1 = n -> is_u16 v -> load16 (l1 ++ [octet 1 v; octet 0 v] ++ l2) n = Some v.
Proof.
  intros <- Hv. change (load16 (inside l1 l2 [octet 1 v; octet 0 v]) (msize l1) = Some v).
  replace (msize l1) with (msize l1 + 0) by lia. apply load16_inside.
  refine (f_equal Some (cat16_octets _ Hv)).
Qed.

Lemma endpoints_app net src sp dst dp rest :
  is_u16 sp -> is_u16 dp ->
  (net = IPv4 /\ msize src = 4 /\ msize dst = 4 \/
   net = IPv6 /\ msize src = 16 /\ msize dst = 16) ->
  QTunnelData.endpoints net
    (src ++ [octet 1 sp; octet 0 sp] ++ dst ++ [octet 1 dp; octet 0 dp] ++ rest) =
  Some (src, sp, dst, dp).
Proof.
  intros Hsp Hdp H. unfold QTunnelData.endpoints, NetAddr.of_range.
  set (body := src ++ _).
  assert (R1 : range body 0 (msize src) = Some src) by apply range_app_l.
  assert (L1 : load16 body (msize src) = Some sp) by (by apply load16_port).
  assert (E : body = (src ++ [octet 1 sp; octet 0 sp]) ++ dst ++ [octet 1 dp; octet 0 dp] ++ rest)
    by (subst body; by rewrite <- !app_assoc).
  assert (R2 : range body (msize src + 2) (msize src + 2 + msize dst) = Some dst).
  { rewrite E. replace (msize src + 2) with (msize (src ++ [octet 1 sp; octet 0 sp]))
      by (by rewrite msize_app). apply range_inside_all. }
  assert (L2 : load16 body (msize src + 2 + msize dst) = Some dp).
  { rewrite E, (app_assoc _ dst). apply load16_port; [|done]. by rewrite !msize_app. }
  destruct H as [(-> & Es & Ed)|(-> & Es & Ed)]; rewrite Es in R1, L1, R2, L2; rewrite Ed in R2, L2.
  - change (IPv4 =? IPv4) with true. cbv iota. rewrite R1, L1. cbn [mbind option_bind].
    change (4 + 2) with 6 in R2, L2. change (6 + 4) with 10 in R2, L2. by rewrite R2, L2.
  - change (IPv6 =? IPv4) with false. change (IPv6 =? IPv6) with true. cbv iota.
    rewrite R1, L1. cbn [mbind option_bind].
    change (16 + 2) with 18 in R2, L2. change (18 + 16) with 34 in R2, L2. by rewrite R2, L2.
Qed.

(** The bytes of the endpoints and of the transport metadata, as they travel. *)
Definition proxy_bytes (p : t) : mem :=
  [net_protocol p; transport_protocol p] ++ source_addr p ++
  [octet 1 (source_port p); octet 0 (source_port p)] ++ dst_addr p ++
  [octet 1 (dst_port p); octet 0 (dst_port p)] ++ proto_data p.

Lemma proxy_net_u8 p : proxy_wf p -> is_u8 (net_protocol p) /\ is_u8 (transport_protocol p).
Proof.
  intros ([(-> & _)|(-> & _)] & Ht & _); (split; [|done]); unfold is_u8, IPv4, IPv6; lia.
Qed.

Lemma octet_u16 k v : 0 <= k < 2 -> octet k (u16 v) = octet k v.
Proof.
  intros Hk. assert (k = 0 \/ k = 1) as [-> | ->] by lia; rewrite ?octet0, ?octet1;
    unfold u16; Z.div_mod_to_equations; lia.
Qed.

(** The generator writes a frame: the fragment metadata, the endpoints, the payload. *)
Lemma generate_pb_proxy_frame pb px m b e l :
  proxy_wf px -> range m b e = Some l ->
  exists n, get_proxy_data_size px = Some n /\ n = u16 (msize (proxy_bytes px)) /\
    TunnelAppData.generate_pb_proxy pb px m b e =
      Some (frame (PacketBuilderData.get_packet_id pb) (PacketBuilderData.get_offset pb)
              (u16 (PacketBuilderData.get_original_size pb + n)) (proxy_bytes px ++ l)).
Proof.
  intros Hwf Hl. destruct (proxy_net_u8 _ Hwf) as [Hn8 Ht8].
  destruct Hwf as (_ & _ & _ & _ & pd & Hpd & Hlen). pose proof (msize_nonneg pd).
  assert (HL : QTunnelProtoData.get_length (proto_data px) = Some (msize pd)).
  { rewrite Hpd. unfold QTunnelProtoData.get_length. rewrite msize_app. change (msize [_; _]) with 2.
    destruct (Z.eqb_spec (2 + msize pd) 0); [lia|].
    refine (f_equal Some (cat16_octets _ _)). unfold is_u16. lia. }
  assert (Hsz : msize (proto_data px) = msize pd + 2) by (rewrite Hpd, msize_app; change (msize [_; _]) with 2; lia).
  eexists. split; [|split].
  - unfold get_proxy_data_size. by rewrite HL.
  - unfold proxy_bytes, NetAddr.get_addr_size. rewrite !msize_app, Hsz.
    change (msize [_; _]) with 2. f_equal. lia.
  - unfold TunnelAppData.generate_pb_proxy, get_proxy_data_size. rewrite HL. cbn [mbind option_bind].
    unfold get_proto_data_bytes, QTunnelProtoData.to_bytes. rewrite range_full, Hl.
    cbn [mbind option_bind]. unfold frame, PacketBuilderData.to_bytes, proxy_bytes. cbn
      [PacketBuilderData.make PacketBuilderData.packet_id_ PacketBuilderData.offset_
       PacketBuilderData.original_size_].
    unfold get_net_proto, get_transport_proto, get_src_addr, get_src_port, get_dst_addr, get_dst_port,
      NetAddr.to_bytes.
    rewrite !octet_u16, !u8_id by (done || lia). by rewrite <- !app_assoc.
Qed.

(** The parser reads the endpoints back and keeps the payload. *)
Lemma parse_proxy_bytes px l :
  proxy_wf px -> QTunnelData.make (proxy_bytes px ++ l) = Some (QTunnelData.mk px l).
Proof.
  intros (Hend & Ht & Hsp & Hdp & pd & Hpd & Hlen).
  destruct px as [net tr src sp dst dp pdl]. cbn [net_protocol transport_protocol source_addr
    source_port dst_addr dst_port proto_data] in *. pose proof (msize_nonneg pd).
  unfold proxy_bytes. cbn [net_protocol transport_protocol source_addr source_port dst_addr
    dst_port proto_data]. rewrite <- !app_assoc.
  assert (L2 : load16 (pdl ++ l) 0 = Some (msize pd)).
  { subst pdl. refine (f_equal Some (cat16_octets _ _)). unfold is_u16. lia. }
  assert (Hpl : msize pdl = msize pd + 2) by (subst pdl; rewrite msize_app; change (msize [_; _]) with 2; lia).
  unfold QTunnelData.make. change (load ([net; tr] ++ ?x) 0) with (Some net).
  change (load ([net; tr] ++ ?x) 1) with (Some tr). cbn [mbind option_bind].
  rewrite erase_front_app by done. cbn [mbind option_bind].
  rewrite endpoints_app by done. cbn [mbind option_bind]. unfold NetAddr.get_addr_size.
  rewrite !app_assoc, <- (app_assoc _ pdl l).
  rewrite erase_front_app by (rewrite !msize_app; destruct Hend as [(_ & -> & ->)|(_ & -> & ->)]; done).
  cbn [mbind option_bind]. rewrite L2. cbn [mbind option_bind]. unfold QTunnelProtoData.of_length.
  assert (range (pdl ++ l) 2 (msize pd + 2) = Some pd) as ->.
  { subst pdl. change ((?a ++ pd) ++ l) with (inside a l pd).
    replace (msize pd + 2) with (msize [octet 1 (msize pd); octet 0 (msize pd)] + msize pd)
      by (change (msize [_; _]) with 2; lia).
    apply range_inside_all. }
  cbn [mbind option_bind]. rewrite <- Hpl, erase_front_app by done. cbn [mbind option_bind].
  by rewrite Hpd.
Qed.

(** what one end of the tunnel writes, the other reads.  The application data
    generated for a fragment starts with the fragment metadata (id, offset, original
    size plus [get_proxy_data_size]) and, without these five bytes, is parsed by
    [QTunnelData] to the same endpoints, the same transport metadata and exactly the
    payload; the announced extra size is the number of bytes the endpoints take. *)
Theorem tunnel_wire_roundtrip pb px m b e l obj :
  proxy_wf px -> range m b e = Some l ->
  is_u16 (PacketBuilderData.get_offset pb) ->
  TunnelAppData.generate_pb_proxy pb px m b e = Some obj ->
  exists rest n, range obj 5 (msize obj) = Some rest /\ get_proxy_data_size px = Some n /\
    load obj 0 = Some (PacketBuilderData.get_packet_id pb) /\
    load16 obj 1 = Some (PacketBuilderData.get_offset pb) /\
    load16 obj 3 = Some (u16 (PacketBuilderData.get_original_size pb + n)) /\
    QTunnelData.make rest = Some (QTunnelData.mk px l) /\
    (msize rest < 65536 -> msize rest = n + msize l).
Proof.
  intros Hwf Hl Hoff H. destruct (generate_pb_proxy_frame pb px m b e l Hwf Hl) as (n & Hn & En & G).
  rewrite G in H. apply (inj Some) in H as <-.
  set (x := u16 (PacketBuilderData.get_original_size pb + n)).
  destruct (frame_fields (PacketBuilderData.get_packet_id pb) _ x (proxy_bytes px ++ l) Hoff
    (u16_is_u16 _)) as (F0 & F1 & F3 & Fr & _).
  exists (proxy_bytes px ++ l), n. split_and!; [done..|by apply parse_proxy_bytes|].
  rewrite msize_app. pose proof (msize_nonneg l). pose proof (msize_nonneg (proxy_bytes px)).
  intros Hs. rewrite En, u16_id; [done|unfold is_u16; lia].
Qed.

Lemma tunnel_wire_roundtrip_witness :
  exists obj, TunnelAppData.generate_pb_proxy (PacketBuilderData.make 3 0 4)
      (mk IPv4 TCP [10; 0; 0; 1] 443 [10; 0; 0; 2] 5555 [0; 1; 9]) [1; 2; 3; 4] 0 4 = Some obj /\
    exists rest, range obj 5 (msize obj) = Some rest /\
    QTunnelData.make rest =
      Some (QTunnelData.mk (mk IPv4 TCP [10; 0; 0; 1] 443 [10; 0; 0; 2] 5555 [0; 1; 9]) [1; 2; 3; 4]).
Proof.
  eexists. split; [reflexivity|].
  edestruct (tunnel_wire_roundtrip (PacketBuilderData.make 3 0 4)
      (mk IPv4 TCP [10; 0; 0; 1] 443 [10; 0; 0; 2] 5555 [0; 1; 9]) [1; 2; 3; 4] 0 4 [1; 2; 3; 4])
    as (rest & n & H1 & _ & _ & _ & _ & H2 & _).
  - split; [left; split; [reflexivity|split; reflexivity]|].
    split; [concrete|]. split; [concrete|]. split; [concrete|]. exists [9]. split; reflexivity.
  - reflexivity.
  - concrete.
  - reflexivity.
  - exists rest. split; [exact H1|exact H2].
Defined.

(** [check_validity] admits exactly IPv4 with TCP or UDP. *)
Theorem proxy_check_validity p :
  check_validity p = true <->
  net_protocol p = IPv4 /\ (transport_protocol p = TCP \/ transport_protocol p = UDP).
Proof.
  unfold check_validity. destruct (Z.eqb_spec (net_protocol p) IPv4) as [->|]; [|by split; [|intros []]].
  destruct (Z.eqb_spec (transport_protocol p) TCP) as [->|]; [by split; auto|].
  destruct (Z.eqb_spec (transport_protocol p) UDP) as [->|]; [by split; auto|].
  split; [done|]. by intros [_ []].
Qed.

End Wire.
