(* ===== verification/Layers.v ===== *)
(** The layers a tunnel's data passes through: the interface [BaseLayer], its wrapper
    with an activity switch, the one layer that exists ([QLayer], which hides data in
    TLS application-data records), [DefaultLayersStrategy] and [QVPNLayersSettings]
    (src/QVPN/QVPN Lib/include/qvpn_driver.hpp). *)
From S2P Require Import Prelude TlsRecord PacketManager QTunnel.

Inductive LayerTypes : Type :=
  | BASE_LAYER
  | QUIET_LAYER
  | OPTIMIZATION_LAYER
  | DEFENCE_LAYER.

(** [BaseLayer]: the virtual methods.  The four overloads of [layer_encode] are told
    apart by the metadata they take. *)
Module BaseLayer.

Record t := mk {
  get_layer_type : LayerTypes;
  get_layer_name : string;
  get_layer_desc : string;
  layer_encode_pb_proxy : PacketBuilderData.t -> QTunnelProxy.t -> mem -> Z -> Z -> option mem;
  layer_encode_proxy : QTunnelProxy.t -> mem -> Z -> Z -> option mem;
  layer_encode_pb : PacketBuilderData.t -> mem -> Z -> Z -> option mem;
  layer_encode : mem -> Z -> Z -> option mem;
  layer_decode : mem -> Z -> Z -> option mem }.

End BaseLayer.

(** * The quiet layer *)
Module QLayer.

(** [TLSRecordGenerator::generate_object_bytes] around the application data. *)
Definition record (obj_bytes : mem) : mem :=
  TLS13_RecordLittleEndian.generate_object_bytes
    TLS13_DefaultRecordGenerationStrategy.get_legacy_version
    TLS13_ApplicationDataLittleEndian.get_overlay_protocol_type obj_bytes.

Definition get_layer_type : LayerTypes := QUIET_LAYER.
Definition get_layer_name : string := "Quiet layer".
Definition get_layer_desc : string := "Layer must transform traffic to default TLS Record.".

Definition layer_encode_pb_proxy (pb_data : PacketBuilderData.t) (data : QTunnelProxy.t)
    (m : mem) (begin_ end_ : Z) : option mem :=
  obj_bytes ← TunnelAppData.generate_pb_proxy pb_data data m begin_ end_; Some (record obj_bytes).
Definition layer_encode_proxy (data : QTunnelProxy.t) (m : mem) (begin_ end_ : Z) : option mem :=
  obj_bytes ← TunnelAppData.generate_proxy data m begin_ end_; Some (record obj_bytes).
Definition layer_encode_pb (pb_data : PacketBuilderData.t) (m : mem) (begin_ end_ : Z) : option mem :=
  obj_bytes ← TunnelAppData.generate_pb pb_data m begin_ end_; Some (record obj_bytes).
Definition layer_encode (m : mem) (begin_ end_ : Z) : option mem :=
  obj_bytes ← TLS13_ApplicationDataLittleEndian.generate_object_bytes m begin_ end_;
  Some (record obj_bytes).

Definition layer_decode (m : mem) (begin_ end_ : Z) : option mem :=
  let record := TLS13_RecordView.make begin_ end_ in
  let '(b, e) := TLS13_RecordView.get_tls_record_data record in
  let app_data := TLS13_ApplicationDataView.make b e in
  let '(b1, e1) := TLS13_ApplicationDataView.get_app_data app_data in
  range m b1 e1.

Definition layer : BaseLayer.t := {|
  BaseLayer.get_layer_type := get_layer_type;
  BaseLayer.get_layer_name := get_layer_name;
  BaseLayer.get_layer_desc := get_layer_desc;
  BaseLayer.layer_encode_pb_proxy := layer_encode_pb_proxy;
  BaseLayer.layer_encode_proxy := layer_encode_proxy;
  BaseLayer.layer_encode_pb := layer_encode_pb;
  BaseLayer.layer_encode := layer_encode;
  BaseLayer.layer_decode := layer_decode |}.

End QLayer.

(** * Wrappers

    The [shared_ptr] may be null; calling through it is then undefined. *)
Module LayerWrapper.

Record t := mk { layer_ : option BaseLayer.t; active_ : bool }.

(** The default constructor leaves [active_] indeterminate. *)
Definition default (indeterminate : bool) : t := mk None indeterminate.
Definition make (layer : option BaseLayer.t) (active : bool) : t := mk layer active.
Definition is_active (w : t) : bool := active_ w.
Definition set_layer (w : t) (layer : option BaseLayer.t) : t := mk layer (active_ w).
Definition set_activity (w : t) (status : bool) : t := mk (layer_ w) status.
Definition get_layer_type (w : t) : option LayerTypes := l ← layer_ w; Some (BaseLayer.get_layer_type l).
Definition get_layer_name (w : t) : option string := l ← layer_ w; Some (BaseLayer.get_layer_name l).
Definition get_layer_desc (w : t) : option string := l ← layer_ w; Some (BaseLayer.get_layer_desc l).
Definition layer_encode_pb_proxy (w : t) pb_data data (m : mem) (begin_ end_ : Z) : option mem :=
  l ← layer_ w; BaseLayer.layer_encode_pb_proxy l pb_data data m begin_ end_.
Definition layer_encode_proxy (w : t) data (m : mem) (begin_ end_ : Z) : option mem :=
  l ← layer_ w; BaseLayer.layer_encode_proxy l data m begin_ end_.
Definition layer_encode_pb (w : t) pb_data (m : mem) (begin_ end_ : Z) : option mem :=
  l ← layer_ w; BaseLayer.layer_encode_pb l pb_data m begin_ end_.
Definition layer_encode (w : t) (m : mem) (begin_ end_ : Z) : option mem :=
  l ← layer_ w; BaseLayer.layer_encode l m begin_ end_.
Definition layer_decode (w : t) (m : mem) (begin_ end_ : Z) : option mem :=
  l ← layer_ w; BaseLayer.layer_decode l m begin_ end_.

End LayerWrapper.

(** One line of [get_layers_info], with the text for a layer that is off. *)
Definition layer_info (off : string) (w : LayerWrapper.t) : option string :=
  let active := if LayerWrapper.is_active w then "Layer is ON"%string else off in
  name ← LayerWrapper.get_layer_name w;
  desc ← LayerWrapper.get_layer_desc w;
  Some (name +:+ ": " +:+ desc +:+ " " +:+ active +:+ endl)%string.

Fixpoint layers_info (off : string) (ws : list LayerWrapper.t) : option string :=
  match ws with
  | [] => Some EmptyString
  | w :: ws' => x ← layer_info off w; y ← layers_info off ws'; Some (x +:+ y)%string
  end.

Module DefaultLayersStrategy.

Definition t : Type := list LayerWrapper.t.
Definition make : t := [LayerWrapper.make (Some QLayer.layer) true].
Definition get_layers (s : t) : list LayerWrapper.t := s.
Definition get_layers_info (s : t) : option string := layers_info "Layer is OFF" s.

End DefaultLayersStrategy.

(** * The settings' chain of layers *)
Module QVPNLayersSettings.

Definition t : Type := list LayerWrapper.t.
Definition default : t := [].
Definition add_layer (layers_ : t) (l : option BaseLayer.t) (status : bool) : t :=
  layers_ ++ [LayerWrapper.make l status].
Definition apply_strategy (layers_ : t) (strategy : DefaultLayersStrategy.t) : t :=
  layers_ ++ DefaultLayersStrategy.get_layers strategy.

(** The loop of the five functions: [f] of every active layer on [res_data]. *)
Fixpoint for_active (f : LayerWrapper.t -> mem -> option mem) (ls : list LayerWrapper.t)
    (res_data : mem) : option mem :=
  match ls with
  | [] => Some res_data
  | l :: ls' =>
      res_data ← (if LayerWrapper.is_active l then f l res_data else Some res_data);
      for_active f ls' res_data
  end.

Definition layers_encode_pb_proxy (layers_ : t) pb_data data (m : mem) (begin_ end_ : Z) : option mem :=
  res_data ← range m begin_ end_;
  for_active (fun l res_data =>
    LayerWrapper.layer_encode_pb_proxy l pb_data data res_data 0 (msize res_data)) layers_ res_data.
Definition layers_encode_proxy (layers_ : t) data (m : mem) (begin_ end_ : Z) : option mem :=
  res_data ← range m begin_ end_;
  for_active (fun l res_data =>
    LayerWrapper.layer_encode_proxy l data res_data 0 (msize res_data)) layers_ res_data.
Definition layers_encode_pb (layers_ : t) pb_data (m : mem) (begin_ end_ : Z) : option mem :=
  res_data ← range m begin_ end_;
  for_active (fun l res_data =>
    LayerWrapper.layer_encode_pb l pb_data res_data 0 (msize res_data)) layers_ res_data.
Definition layers_encode (layers_ : t) (m : mem) (begin_ end_ : Z) : option mem :=
  res_data ← range m begin_ end_;
  for_active (fun l res_data =>
    LayerWrapper.layer_encode l res_data 0 (msize res_data)) layers_ res_data.
Definition layers_decode (layers_ : t) (m : mem) (begin_ end_ : Z) : option mem :=
  res_data ← range m begin_ end_;
  for_active (fun l res_data =>
    LayerWrapper.layer_decode l res_data 0 (msize res_data)) (reverse layers_) res_data.

Definition get_layers_info (layers_ : t) : option string :=
  x ← layers_info "Layers is OFF" layers_; Some ("Layers info:" +:+ endl +:+ x)%string.

End QVPNLayersSettings.

(** * What a layer promises

    Encoding without metadata adds a fixed number of bytes, and decoding undoes it as
    long as the result fits the 16-bit sizes of the views. *)
Class LayerLaws (l : BaseLayer.t) := {
  overhead : Z;
  overhead_nonneg : 0 <= overhead;
  encode_law x : exists y,
    BaseLayer.layer_encode l x 0 (msize x) = Some y /\ msize y = msize x + overhead;
  decode_law x y :
    BaseLayer.layer_encode l x 0 (msize x) = Some y -> msize y <= 65535 ->
    BaseLayer.layer_decode l y 0 (msize y) = Some x }.

(** A record in a buffer of its own decodes to what it was made of. *)
Lemma decode_record x :
  msize x <= 65530 -> QLayer.layer_decode (QLayer.record x) 0 (msize (QLayer.record x)) = Some x.
Proof.
  intros Hx. pose proof (msize_nonneg x). unfold QLayer.layer_decode, QLayer.record.
  rewrite generate_record_size. unfold TLS13_RecordView.make, TLS13_RecordView.get_tls_record_data.
  cbn [TLS13_RecordView.data_ TLS13_RecordView.size_]. rewrite u16_id by (unfold is_u16; lia).
  unfold TLS13_ApplicationDataView.make, TLS13_ApplicationDataView.get_app_data.
  cbn [TLS13_ApplicationDataView.data_ TLS13_ApplicationDataView.size_].
  replace (0 + (5 + msize x - 0) - (0 + 1 + 2 + 2)) with (msize x) by lia.
  rewrite u16_id by (unfold is_u16; lia). rewrite generate_record_eq.
  rewrite range_app_r by (by vm_compute).
  match goal with |- context [msize ?h] => change (msize h) with 5 end.
  replace (0 + 1 + 2 + 2 + msize x - 5) with (msize x) by lia. apply range_full.
Qed.

#[global] Program Instance qlayer_laws : LayerLaws QLayer.layer := {| overhead := 5 |}.
Next Obligation. lia. Qed.
Next Obligation.
  intros x. exists (QLayer.record x). simpl. unfold QLayer.layer_encode,
    TLS13_ApplicationDataLittleEndian.generate_object_bytes. rewrite range_full. split; [done|].
  unfold QLayer.record. rewrite generate_record_size. lia.
Qed.
Next Obligation.
  intros x y. simpl. unfold QLayer.layer_encode,
    TLS13_ApplicationDataLittleEndian.generate_object_bytes. rewrite range_full.
  cbn [mbind option_bind]. intros [= <-] Hy. apply decode_record.
  unfold QLayer.record in Hy. rewrite generate_record_size in Hy. lia.
Qed.

(** * The chain *)

Section Chain.
Import QVPNLayersSettings.

Lemma for_active_app f ls1 ls2 x :
  for_active f (ls1 ++ ls2) x = for_active f ls1 x ≫= for_active f ls2.
Proof.
  revert x. induction ls1 as [|l ls1 IH]; intros x; [done|]. cbn [app for_active].
  destruct (LayerWrapper.is_active l); [|apply IH]. destruct (f l x) as [y|]; [|done].
  cbn [mbind option_bind]. apply IH.
Qed.

(** Every layer that is switched on is there and keeps its promise. *)
Definition lawful (w : LayerWrapper.t) : Prop :=
  LayerWrapper.is_active w = true ->
  exists l (L : LayerLaws l), LayerWrapper.layer_ w = Some l.

Lemma chain_inverse ls x :
  Forall lawful ls ->
  exists y, for_active (fun l z => LayerWrapper.layer_encode l z 0 (msize z)) ls x = Some y /\
    msize x <= msize y /\
    (msize y <= 65535 ->
     for_active (fun l z => LayerWrapper.layer_decode l z 0 (msize z)) (reverse ls) y = Some x).
Proof.
  intros Hls. revert x. induction Hls as [|w ls Hw Hls IH]; intros x.
  - exists x. cbn. split_and!; [done|lia|done].
  - cbn [for_active]. rewrite reverse_cons. destruct (LayerWrapper.is_active w) eqn:Ha.
    + destruct (Hw Ha) as (l & L & E). destruct (encode_law x) as (z & Hz & Sz).
      assert (LayerWrapper.layer_encode w x 0 (msize x) = Some z) as ->
        by (unfold LayerWrapper.layer_encode; by rewrite E).
      cbn [mbind option_bind]. destruct (IH z) as (y & Hy & Sy & D). exists y.
      pose proof (overhead_nonneg (l := l)). split_and!; [done|lia|].
      intros Hy64. rewrite for_active_app, D by done. cbn [mbind option_bind for_active].
      rewrite Ha. unfold LayerWrapper.layer_decode. rewrite E. cbn [mbind option_bind].
      rewrite (decode_law x z) by (done || lia). done.
    + cbn [mbind option_bind]. destruct (IH x) as (y & Hy & Sy & D). exists y.
      split_and!; [done|done|]. intros H. rewrite for_active_app, D by done.
      cbn [mbind option_bind for_active]. by rewrite Ha.
Qed.

(** Decoding undoes encoding: for any chain in which the layers that are on are lawful,
    whatever the layers that are off hold, [layers_encode] of a range is defined and
    [layers_decode] of its result, if that has at most 65535 bytes, is the range's
    bytes. *)
Theorem layers_roundtrip ls m b e l :
  Forall lawful ls -> range m b e = Some l ->
  exists y, layers_encode ls m b e = Some y /\
    (msize y <= 65535 -> layers_decode ls y 0 (msize y) = Some l).
Proof.
  intros Hls Hl. unfold layers_encode, layers_decode. rewrite Hl. cbn [mbind option_bind].
  destruct (chain_inverse ls l Hls) as (y & Hy & _ & D). exists y. split; [done|].
  intros H. rewrite range_full. cbn [mbind option_bind]. by apply D.
Qed.

Lemma layers_roundtrip_witness :
  let ls := [LayerWrapper.make (Some QLayer.layer) true; LayerWrapper.default false;
             LayerWrapper.make (Some QLayer.layer) true] in
  exists y, layers_encode ls [1; 2; 3; 4] 1 3 = Some y /\ msize y = 12 /\
    layers_decode ls y 0 12 = Some [2; 3].
Proof.
  intros ls. destruct (layers_roundtrip ls [1; 2; 3; 4] 1 3 [2; 3]) as (y & Hy & D).
  - repeat constructor; intros Ha; try discriminate Ha;
      exists QLayer.layer, qlayer_laws; reflexivity.
  - reflexivity.
  - exists y. split; [exact Hy|].
    assert (E : msize y = 12) by (vm_compute in Hy; injection Hy as <-; reflexivity).
    split; [exact E|]. rewrite <- E at 1. apply D. rewrite E. discriminate.
Defined.

(** The settings after [apply_strategy] of [DefaultLayersStrategy]. *)
Definition default_layers : t := apply_strategy default DefaultLayersStrategy.make.

Lemma default_encode_pb_proxy pb px m b e :
  layers_encode_pb_proxy default_layers pb px m b e =
  (l ← range m b e; obj ← TunnelAppData.generate_pb_proxy pb px l 0 (msize l);
   Some (QLayer.record obj)).
Proof.
  unfold layers_encode_pb_proxy. destruct (range m b e) as [l|]; [|done].
  cbn [mbind option_bind]. cbn -[TunnelAppData.generate_pb_proxy QLayer.record].
  unfold QLayer.layer_encode_pb_proxy. by destruct (TunnelAppData.generate_pb_proxy _ _ _ _ _).
Qed.

Lemma default_encode_pb pb m b e :
  layers_encode_pb default_layers pb m b e =
  (l ← range m b e; obj ← TunnelAppData.generate_pb pb l 0 (msize l); Some (QLayer.record obj)).
Proof.
  unfold layers_encode_pb. destruct (range m b e) as [l|]; [|done].
  cbn [mbind option_bind]. cbn -[TunnelAppData.generate_pb QLayer.record].
  unfold QLayer.layer_encode_pb. by destruct (TunnelAppData.generate_pb _ _ _ _).
Qed.

Lemma default_decode_record m b e x :
  range m b e = Some (QLayer.record x) -> msize x <= 65530 ->
  layers_decode default_layers m b e = Some x.
Proof.
  intros H Hx. unfold layers_decode. rewrite H. cbn [mbind option_bind].
  unfold default_layers, apply_strategy, default, DefaultLayersStrategy.get_layers, DefaultLayersStrategy.make.
  cbn [app]. change (reverse [?w]) with [w]. cbn [for_active LayerWrapper.is_active
    LayerWrapper.make LayerWrapper.active_]. unfold LayerWrapper.layer_decode.
  cbn [LayerWrapper.layer_ LayerWrapper.make mbind option_bind]. cbn [BaseLayer.layer_decode QLayer.layer].
  by rewrite decode_record.
Qed.

End Chain.

(** Two quiet layers with metadata: both put the metadata in front, the decoder of the
    inner record drops that of the outer one as if it were a header, and what comes out
    starts with a record header instead of the fragment metadata. *)
Example two_layers_lose_metadata :
  let ls := [LayerWrapper.make (Some QLayer.layer) true; LayerWrapper.make (Some QLayer.layer) true] in
  (y ← QVPNLayersSettings.layers_encode_pb ls (PacketBuilderData.make 7 0 2) [8; 9] 0 2;
   QVPNLayersSettings.layers_decode ls y 0 (msize y)) = Some [23; 3; 3; 0; 7; 7; 0; 0; 0; 2; 8; 9].
Proof. vm_compute. reflexivity. Qed.
