(* ===== verification/SafeReceive.v ===== *)
(** The stream reader: [SafeReceiveData] of src/QVPN/QVPN Lib/include/qvpn_lib.hpp, which
    collects the pieces of a byte stream until the application protocol finds a full
    object in them, and the loop [safe_recv] of the sockets
    (include/Linux/qvpn_net_tools.hpp) around it.

    The protocol is the interface [ProtoTemplate]; the theorems instantiate it with TLS
    records.  What a call of [receive] returns is input: a list of results, one per
    call.  A buffer is a list of bytes and a pointer an offset into it; [None] is
    undefined behaviour. *)
From S2P Require Import Prelude TlsRecord.

(** [SafeReceiveSignal]. *)
Inductive SafeReceiveSignal : Type :=
  | SFR_FULL_DATA
  | SFR_WAIT_DATA
  | SFR_NO_DATA
  | SFR_ERROR.

#[global] Instance SafeReceiveSignal_eq_dec : EqDecision SafeReceiveSignal.
Proof. solve_decision. Defined.

(** [NetStatus] and [ReceiveData]. *)
Record NetStatus := mkStatus { success : bool; status : Z }.
Record ReceiveData := mkReceive { rd_status : NetStatus; rd_size : Z; rd_data : mem }.

Module SafeReceiveData.

Record t := mk { net_status : NetStatus; separators : list (Z * Z); data : mem }.
Definition empty : t := mk (mkStatus false 0) [] [].

Section Operations.
Context {P : ProtoTemplate}.

Definition parse_object (m : mem) (b e : Z) : option ProtoTemplateParseResult := bytes_parse m b e.

(** The index of the last object, created if there is none. *)
Definition get_last_object (s : t) : t * nat :=
  let s := match separators s with
           | [] => mk (net_status s) [(0, 0)] (data s)
           | _ => s
           end in
  (s, (length (separators s) - 1)%nat).

(** [data.insert(data.end(), begin, end)]. *)
Definition append (s : t) (m : mem) (b e : Z) : option t :=
  l ← range m b e; Some (mk (net_status s) (separators s) (data s ++ l)).

Definition _add_object (s : t) (m : mem) (b e : Z) : option t :=
  s ← append s m b e;
  let start := msize (data s) - (e - b) in
  let fin := msize (data s) in
  Some (mk (net_status s) (separators s ++ [(start, fin)]) (data s)).

(** [separators[i].second = x]. *)
Definition set_second (s : t) (i : nat) (x : Z) : option t :=
  '(a, _) ← separators s !! i;
  Some (mk (net_status s) (<[i := (a, x)]> (separators s)) (data s)).

Definition _add_data_to_object (s : t) (m : mem) (b e : Z) : option t :=
  let '(s, last) := get_last_object s in
  s ← append s m b e; set_second s last (msize (data s)).

Definition parse_data (s : t) (m : mem) (b e : Z) : option (t * SafeReceiveSignal) :=
  parse_res ← parse_object m b e;
  match bp_signal parse_res with
  | BP_FULL_OBJECT =>
      s ← _add_object s m (begin_ parse_res) (end_ parse_res); Some (s, SFR_FULL_DATA)
  | BP_NOT_FULL_OBJECT =>
      s ← _add_object s m (begin_ parse_res) (real_end parse_res); Some (s, SFR_WAIT_DATA)
  | BP_FULL_OBJECT_AND_TAIL =>
      s ← _add_object s m (begin_ parse_res) (end_ parse_res);
      s ← _add_object s m (end_ parse_res) (real_end parse_res); Some (s, SFR_WAIT_DATA)
  | _ => Some (s, SFR_ERROR)
  end.

(** The [while (true)] of [_add_data_and_parse]; [last] is not advanced to the tail's
    separator, and the tail is looked for at the end of the data. *)
Fixpoint parse_loop (fuel : nat) (s : t) (last : nat) (start fin : Z) :
    option (t * SafeReceiveSignal) :=
  match fuel with
  | O => None
  | S f =>
      parse_res ← parse_object (data s) start fin;
      match bp_signal parse_res with
      | BP_FULL_OBJECT => Some (s, SFR_FULL_DATA)
      | BP_NOT_FULL_OBJECT => Some (s, SFR_WAIT_DATA)
      | BP_FULL_OBJECT_AND_TAIL =>
          let size := end_ parse_res - begin_ parse_res in
          let tail_size := real_end parse_res - end_ parse_res in
          '(first, tail_start) ← separators s !! last;
          s ← set_second s last (first + size);
          let s := mk (net_status s) (separators s ++ [(tail_start, tail_start + tail_size)]) (data s) in
          parse_loop f s last tail_start (tail_start + tail_size)
      | _ => Some (s, SFR_ERROR)
      end
  end.

Definition _add_data_and_parse (fuel : nat) (s : t) (m : mem) (b e : Z) :
    option (t * SafeReceiveSignal) :=
  let '(s, last) := get_last_object s in
  '(start, _) ← separators s !! last;
  s ← append s m b e;
  let fin := msize (data s) in
  s ← set_second s last fin;
  parse_loop fuel s last start fin.

Definition add_objects_and_validate (fuel : nat) (s : t) (prev_signal : SafeReceiveSignal)
    (m : mem) (b e : Z) : option (t * SafeReceiveSignal) :=
  if decide (prev_signal = SFR_WAIT_DATA) then _add_data_and_parse fuel s m b e
  else parse_data s m b e.

Definition get_status (s : t) : NetStatus := net_status s.
Definition set_status (s : t) (st : NetStatus) : t := mk st (separators s) (data s).
Definition get_object_bytes (s : t) (i : nat) : option (Z * Z) := separators s !! i.
Definition get_objects_num (s : t) : Z := Z.of_nat (length (separators s)).
Definition to_bytes (s : t) : Z * Z := (0, msize (data s)).

(** How a run of [safe_recv] on the results of [receive] ends: it returns with the
    results it has not consumed, it is blocked in another [receive], or the behaviour
    is undefined. *)
Inductive outcome : Type :=
  | Returned (s : t) (rest : list ReceiveData)
  | Blocked (s : t) (num_tries : Z)
  | Undefined.

Definition loop_condition (signal : SafeReceiveSignal) (num_tries : Z) : bool :=
  negb (bool_decide (signal = SFR_FULL_DATA)) || bool_decide (signal = SFR_ERROR)
  || (num_tries <=? 0).

Fixpoint safe_recv_loop (fuel : nat) (rs : list ReceiveData) (num_tries : Z)
    (signal : SafeReceiveSignal) (s : t) : outcome :=
  if loop_condition signal num_tries then
    match rs with
    | [] => Blocked s num_tries
    | r :: rs =>
        let s := set_status s (rd_status r) in
        if negb (success (rd_status r)) then safe_recv_loop fuel rs (num_tries - 1) signal s
        else
          match add_objects_and_validate fuel s signal (rd_data r) 0 (rd_size r) with
          | None => Undefined
          | Some (s, signal) => safe_recv_loop fuel rs num_tries signal s
          end
    end
  else Returned s rs.

Definition safe_recv (fuel : nat) (rs : list ReceiveData) : outcome :=
  safe_recv_loop fuel rs 20 SFR_NO_DATA empty.

End Operations.

End SafeReceiveData.

(** * TLS records over the stream *)

Import SafeReceiveData.

(** [bytes_parse] of a record, from its length field alone. *)
Lemma tls_parse_eq b s n len :
  0 <= len <= 65530 -> (5 <= n -> load16 b (s + 3) = Some len) ->
  exists res, bytes_parse b s (s + n) = Some res /\ begin_ res = s /\ real_end res = s + n /\
    (n < 5 + len -> bp_signal res = BP_NOT_FULL_OBJECT) /\
    (n = 5 + len -> bp_signal res = BP_FULL_OBJECT /\ end_ res = s + n) /\
    (5 + len < n -> bp_signal res = BP_FULL_OBJECT_AND_TAIL /\ end_ res = s + (5 + len)).
Proof.
  intros Hlen H. unfold bytes_parse, tls_record_template, TLS13_RecordView.bytes_parse.
  replace (s + n - s) with n by lia. destruct (Z.ltb_spec n 5).
  - eexists. split; [done|]. simpl. split_and!; try done; lia.
  - unfold TLS13_RecordView.get_tls_record_full_length, TLS13_RecordView.get_tls_record_length.
    cbn [TLS13_RecordView.data_ TLS13_RecordView.make]. rewrite H by lia. cbn [mbind option_bind].
    rewrite u16_id by (unfold is_u16; lia). eexists. split; [done|]. simpl.
    destruct (Z.eqb_spec (len + 1 + 2 + 2) n), (Z.ltb_spec n (len + 1 + 2 + 2));
      split_and!; try done; try lia; intros; split; (done || lia).
Qed.

Section Record.
Context (v ty : Z) (l : list Z).
Hypothesis Hl : msize l <= 65530.
Let r := TLS13_RecordLittleEndian.generate_object_bytes v ty l.

(** The record is the beginning of [b], as far as [b] goes. *)
Lemma record_length_at b t : (exists u, b ++ u = r ++ t) -> 5 <= msize b -> load16 b 3 = Some (msize l).
Proof.
  intros [u Hu] Hb.
  assert (H : load16 (b ++ u) 3 = Some (msize l)).
  { rewrite Hu. pose proof (generate_record_length v ty l [] t) as H.
    rewrite u16_id in H by (unfold is_u16; pose proof (msize_nonneg l); lia). exact H. }
  unfold load16 in *. rewrite !load_app_l in H by lia. exact H.
Qed.

Lemma record_size : msize r = 5 + msize l.
Proof. apply generate_record_size. Qed.

Lemma parse_record m n c u t :
  range m 0 n = Some c -> c ++ u = r ++ t ->
  exists res, bytes_parse m 0 n = Some res /\ begin_ res = 0 /\ real_end res = n /\
    (n < msize r -> bp_signal res = BP_NOT_FULL_OBJECT) /\
    (n = msize r -> bp_signal res = BP_FULL_OBJECT /\ end_ res = n) /\
    (msize r < n -> bp_signal res = BP_FULL_OBJECT_AND_TAIL /\ end_ res = msize r).
Proof.
  intros Hc Hu. destruct (range_Some _ _ _ _ Hc) as (_ & _ & Hs & Hi).
  destruct (tls_parse_eq m 0 n (msize l)) as (res & H & H1 & H2 & H3 & H4 & H5).
  - pose proof (msize_nonneg l). lia.
  - intros Hn. change (0 + 3) with 3.
    rewrite <- (load16_ext m c 3) by (apply Hi; lia). apply (record_length_at c t); [eauto|lia].
  - rewrite record_size. exists res. rewrite !Z.add_0_l in *. by split_and!.
Qed.

(** The first chunk of the stream. *)
Lemma first_chunk st m n c u t :
  range m 0 n = Some c -> c ++ u = r ++ t ->
  let s := mk st [] [] in
  (msize c < msize r -> parse_data s m 0 n = Some (mk st [(0, msize c)] c, SFR_WAIT_DATA)) /\
  (msize c = msize r -> parse_data s m 0 n = Some (mk st [(0, msize c)] c, SFR_FULL_DATA)) /\
  (msize r < msize c -> parse_data s m 0 n =
     Some (mk st [(0, msize r); (msize r, msize c)] c, SFR_WAIT_DATA)).
Proof.
  intros Hc Hu s. destruct (range_Some _ _ _ _ Hc) as (_ & _ & Hs & _). rewrite Z.sub_0_r in Hs.
  destruct (parse_record m n c u t Hc Hu) as (res & H & Hb & Hr & H1 & H2 & H3).
  unfold parse_data, parse_object. rewrite H. cbn [mbind option_bind]. rewrite Hb, Hr.
  split_and!; intros Hlt.
  - rewrite H1 by lia. unfold _add_object, append. rewrite Hc. cbn [mbind option_bind data s app].
    rewrite Hs, Z.sub_0_r, Z.sub_diag. done.
  - destruct H2 as [-> ->]; [lia|]. unfold _add_object, append. rewrite Hc. cbn [mbind option_bind data s app].
    rewrite Hs, Z.sub_0_r, Z.sub_diag. done.
  - destruct H3 as [-> ->]; [lia|].
    destruct (range m 0 (msize r)) as [c1|] eqn:E1;
      [|apply range_order in Hc; pose proof (msize_nonneg r); by rewrite range_in in E1 by lia].
    destruct (range m (msize r) n) as [c2|] eqn:E2;
      [|apply range_order in Hc; pose proof (msize_nonneg r); by rewrite range_in in E2 by lia].
    pose proof (range_app _ _ _ _ _ _ E1 E2) as E. rewrite Hc in E. apply (inj Some) in E.
    destruct (range_Some _ _ _ _ E1) as (_ & _ & S1 & _). destruct (range_Some _ _ _ _ E2) as (_ & _ & S2 & _).
    unfold _add_object, append. rewrite E1. cbn [mbind option_bind data s app net_status separators].
    rewrite E2. cbn [mbind option_bind data net_status separators app].
    assert (msize (c1 ++ c2) = msize c) as Hsz by (by rewrite <- E). rewrite Hsz, <- E.
    by replace (msize c1 - (msize r - 0)) with 0 by lia;
      replace (msize c1) with (msize r) by lia; replace (msize c - (n - msize r)) with (msize r) by lia.
Qed.

(** A further chunk [c] after the bytes [p] of an unfinished record. *)
Lemma next_chunk fuel st p m n c u :
  range m 0 n = Some c -> (p ++ c) ++ u = r ->
  _add_data_and_parse (S fuel) (mk st [(0, msize p)] p) m 0 n =
  Some (mk st [(0, msize (p ++ c))] (p ++ c),
        if decide (msize (p ++ c) < msize r) then SFR_WAIT_DATA else SFR_FULL_DATA).
Proof.
  intros Hc Hu. unfold _add_data_and_parse, get_last_object. cbn [separators].
  cbn [length Nat.sub lookup list_lookup mbind option_bind]. unfold append. rewrite Hc.
  cbn [mbind option_bind data net_status separators].
  unfold set_second. cbn [separators lookup list_lookup mbind option_bind insert list_insert net_status data].
  cbn [parse_loop data]. unfold parse_object.
  destruct (parse_record (p ++ c) (msize (p ++ c)) (p ++ c) u []) as (res & H & _ & _ & H1 & H2 & _).
  { apply range_full. }
  { by rewrite app_nil_r. }
  rewrite H. cbn [mbind option_bind]. case_decide as Hd.
  - by rewrite H1.
  - destruct H2 as [-> _]; [|done]. pose proof (msize_nonneg u).
    apply (f_equal msize) in Hu. rewrite msize_app in Hu. lia.
Qed.

End Record.

(** [feeds rest k rs]: the calls of [receive] that give [rs] deliver the bytes [rest] in
    chunks of any size, the last one not empty, with [k] failing calls among them. *)
Inductive feeds : list Z -> Z -> list ReceiveData -> Prop :=
  | feeds_last rd c :
      success (rd_status rd) = true -> range (rd_data rd) 0 (rd_size rd) = Some c -> c <> [] ->
      feeds c 0 [rd]
  | feeds_chunk rd c rest k rs :
      success (rd_status rd) = true -> range (rd_data rd) 0 (rd_size rd) = Some c ->
      feeds rest k rs -> feeds (c ++ rest) k (rd :: rs)
  | feeds_failure rd rest k rs :
      success (rd_status rd) = false -> feeds rest k rs -> feeds rest (k + 1) (rd :: rs).

Lemma feeds_pos rest k rs : feeds rest k rs -> 0 < msize rest /\ 0 <= k.
Proof.
  induction 1 as [rd c ? ? Hc|rd c rest k rs ? ? ? [IH ?]|rd rest k rs ? ? [IH ?]].
  - split; [|lia]. destruct c; [done|]. rewrite msize_cons. pose proof (msize_nonneg c). lia.
  - rewrite msize_app. pose proof (msize_nonneg c). lia.
  - lia.
Qed.

(** The states between two calls: nothing received yet, or the bytes [p] waiting for
    the rest of the record. *)
Definition waiting (s : t) (signal : SafeReceiveSignal) (p : list Z) : Prop :=
  (p = [] /\ signal = SFR_NO_DATA /\ data s = [] /\ separators s = []) \/
  (signal = SFR_WAIT_DATA /\ data s = p /\ separators s = [(0, msize p)]).

(** One successful chunk. *)
Lemma chunk_step v ty l fuel s signal p m n c u :
  msize l <= 65530 -> waiting s signal p -> range m 0 n = Some c ->
  (p ++ c) ++ u = TLS13_RecordLittleEndian.generate_object_bytes v ty l ->
  add_objects_and_validate (S fuel) s signal m 0 n =
  Some (mk (net_status s) [(0, msize (p ++ c))] (p ++ c),
        if decide (u = []) then SFR_FULL_DATA else SFR_WAIT_DATA).
Proof.
  intros Hl Hw Hc Hu. pose proof (f_equal msize Hu) as Hsz. rewrite msize_app in Hsz.
  assert (Hd : forall A (a b : A), (if decide (u = []) then a else b) =
    if decide (msize (p ++ c) < msize (TLS13_RecordLittleEndian.generate_object_bytes v ty l)) then b else a).
  { intros A a b. destruct u as [|x u].
    - rewrite decide_True, decide_False by (unfold msize in *; simpl in *; lia || done). done.
    - rewrite decide_False, decide_True by (rewrite ?msize_cons in Hsz; pose proof (msize_nonneg u); lia || done).
      done. }
  rewrite Hd. clear Hd. unfold add_objects_and_validate.
  destruct s as [st sep d]. destruct Hw as [(-> & -> & Hs1 & Hs2)|(-> & Hs1 & Hs2)]; cbn in Hs1, Hs2; subst.
  - rewrite decide_False by done. cbn [app] in *.
    destruct (first_chunk v ty l Hl st m n c u [] Hc) as (F1 & F2 & _); [by rewrite app_nil_r|].
    case_decide; [by apply F1|]. apply F2. pose proof (msize_nonneg u). lia.
  - rewrite decide_True by done. by apply (next_chunk v ty l Hl fuel st p m n c u).
Qed.

Lemma loop_goes signal tries : signal <> SFR_FULL_DATA -> loop_condition signal tries = true.
Proof. intros H. unfold loop_condition. by rewrite bool_decide_eq_false_2. Qed.

Lemma loop_stops tries : 0 < tries -> loop_condition SFR_FULL_DATA tries = false.
Proof.
  intros H. unfold loop_condition. rewrite bool_decide_eq_true_2, bool_decide_eq_false_2 by done.
  cbn [negb orb]. destruct (Z.leb_spec tries 0); [lia|done].
Qed.

Lemma safe_recv_loop_stops fuel rs tries s :
  0 < tries -> safe_recv_loop fuel rs tries SFR_FULL_DATA s = Returned s rs.
Proof. intros H. destruct rs; cbn [safe_recv_loop]; by rewrite loop_stops. Qed.

(** The loop, from any waiting state. *)
Lemma safe_recv_loop_feeds v ty l fuel more rest k rs :
  let r := TLS13_RecordLittleEndian.generate_object_bytes v ty l in
  msize l <= 65530 -> feeds rest k rs -> forall p s signal tries,
    p ++ rest = r -> waiting s signal p -> k < tries ->
    exists st, safe_recv_loop (S fuel) (rs ++ more) tries signal s =
      Returned (mk st [(0, msize r)] r) more /\ success st = true.
Proof.
  intros r Hl. induction 1 as [rd c Hok Hc Hne|rd c rest k rs Hok Hc Hf IH|rd rest k rs Hko Hf IH];
    intros p s signal tries Hp Hw Hk.
  all: assert (Hcond : loop_condition signal tries = true)
    by (apply loop_goes; destruct Hw as [(_ & -> & _)|(-> & _)]; done).
  all: cbn [app safe_recv_loop]; rewrite Hcond, ?Hok, ?Hko; cbn [negb].
  - rewrite (chunk_step v ty l fuel (set_status s (rd_status rd)) signal p _ _ c []);
      [|done|exact Hw|done|by rewrite app_nil_r].
    rewrite decide_True, Hp, safe_recv_loop_stops by (done || lia). by exists (rd_status rd).
  - destruct (feeds_pos _ _ _ Hf) as [Hpos Hk0].
    rewrite (chunk_step v ty l fuel (set_status s (rd_status rd)) signal p _ _ c rest);
      [|done|exact Hw|done|by rewrite <- app_assoc].
    rewrite decide_False by (intros ->; done).
    apply (IH (p ++ c)); [by rewrite <- app_assoc|right; done|done].
  - destruct (feeds_pos _ _ _ Hf) as [Hpos Hk0].
    apply (IH p); [done|exact Hw|lia].
Qed.

(** C23: [safe_recv] reassembles a record: however the network cuts it into chunks, and with
    up to 19 failing calls in between, the call returns after the last chunk, having
    consumed exactly these results, with one object, which is the record. *)
Theorem safe_recv_reassembles v ty l k rs more fuel :
  let r := TLS13_RecordLittleEndian.generate_object_bytes v ty l in
  msize l <= 65530 -> feeds r k rs -> k < 20 ->
  exists s, safe_recv (S fuel) (rs ++ more) = Returned s more /\
    data s = r /\ get_objects_num s = 1 /\ get_object_bytes s 0 = Some (0, msize r) /\
    success (get_status s) = true.
Proof.
  intros r Hl Hf Hk.
  destruct (safe_recv_loop_feeds v ty l fuel more r k rs Hl Hf [] empty SFR_NO_DATA 20)
    as (st & H & Hs); [done|by left|done|].
  exists (mk st [(0, msize r)] r). done.
Qed.

Lemma safe_recv_reassembles_witness :
  exists s, safe_recv 1 [mkReceive (mkStatus true 0) 3 [23; 3; 3];
                         mkReceive (mkStatus false 11) (-1) [];
                         mkReceive (mkStatus true 0) 4 [0; 2; 8; 9]] = Returned s [] /\
    data s = [23; 3; 3; 0; 2; 8; 9].
Proof.
  destruct (safe_recv_reassembles TLS12 23 [8; 9] 1
    [mkReceive (mkStatus true 0) 3 [23; 3; 3]; mkReceive (mkStatus false 11) (-1) [];
     mkReceive (mkStatus true 0) 4 [0; 2; 8; 9]] [] 0%nat) as (s & H & Hd & _).
  - vm_compute. discriminate.
  - apply (feeds_chunk _ [23; 3; 3] [0; 2; 8; 9]); [reflexivity|reflexivity|].
    apply (feeds_failure _ _ 0); [reflexivity|]. by apply feeds_last.
  - lia.
  - exists s. split; [exact H|exact Hd].
Defined.

(** A chunk [c] that ends the record begun by [p] and brings a tail [t]: the second turn
    of the loop reads the tail's header behind the end of the data. *)
Lemma tail_undefined v ty l (Hl : msize l <= 65530) fuel st p m n c t :
  range m 0 n = Some c ->
  p ++ c = TLS13_RecordLittleEndian.generate_object_bytes v ty l ++ t -> 5 <= msize t ->
  _add_data_and_parse fuel (mk st [(0, msize p)] p) m 0 n = None.
Proof.
  intros Hc Hu Ht. unfold _add_data_and_parse, get_last_object. cbn [separators].
  cbn [length Nat.sub lookup list_lookup mbind option_bind]. unfold append. rewrite Hc.
  cbn [mbind option_bind data net_status separators].
  unfold set_second. cbn [separators lookup list_lookup mbind option_bind insert list_insert net_status data].
  destruct fuel as [|fuel]; [done|]. cbn [parse_loop data]. unfold parse_object.
  destruct (parse_record v ty l Hl (p ++ c) (msize (p ++ c)) (p ++ c) [] t)
    as (res & H & Hb & Hr & _ & _ & H3); [apply range_full|by rewrite app_nil_r|].
  rewrite H. cbn [mbind option_bind]. pose proof (f_equal msize Hu) as Hsz. rewrite (msize_app _ t) in Hsz.
  destruct H3 as [-> He]; [lia|]. rewrite He, Hb, Hr.
  cbn [separators lookup list_lookup mbind option_bind]. unfold set_second.
  cbn [separators lookup list_lookup mbind option_bind insert list_insert net_status data].
  destruct fuel as [|fuel]; [done|]. cbn [parse_loop data]. unfold parse_object.
  unfold bytes_parse, tls_record_template, TLS13_RecordView.bytes_parse.
  destruct (Z.ltb_spec (msize (p ++ c) + (msize (p ++ c) -
    msize (TLS13_RecordLittleEndian.generate_object_bytes v ty l)) - msize (p ++ c)) 5); [lia|].
  unfold TLS13_RecordView.get_tls_record_full_length, TLS13_RecordView.get_tls_record_length.
  cbn [TLS13_RecordView.data_ TLS13_RecordView.make]. unfold load16.
  by rewrite (load_None (p ++ c) (msize (p ++ c) + 3)) by lia.
Qed.

(** When data arrives behind a record, the reader fails.  In the first chunk, a record
    with anything behind it leaves [safe_recv] waiting, even when what follows is a
    second complete record.  In a later chunk that ends the record and brings a tail
    of at least five bytes, the tail is parsed at the end of the data, outside the
    buffer, and the behaviour is undefined. *)
Theorem safe_recv_tail v ty l t fuel rd1 c1 :
  let r := TLS13_RecordLittleEndian.generate_object_bytes v ty l in
  msize l <= 65530 -> success (rd_status rd1) = true ->
  range (rd_data rd1) 0 (rd_size rd1) = Some c1 ->
  (c1 = r ++ t -> t <> [] ->
   safe_recv fuel [rd1] =
     Blocked (mk (rd_status rd1) [(0, msize r); (msize r, msize r + msize t)] c1) 20) /\
  (forall rd2 c2, success (rd_status rd2) = true ->
   range (rd_data rd2) 0 (rd_size rd2) = Some c2 ->
   c1 ++ c2 = r ++ t -> msize c1 < msize r -> 5 <= msize t ->
   safe_recv fuel [rd1; rd2] = Undefined).
Proof.
  intros r Hl Hok1 Hc1. split.
  - intros -> Ht. unfold safe_recv. cbn [safe_recv_loop].
    rewrite loop_goes, Hok1 by done. cbn [negb]. unfold add_objects_and_validate.
    rewrite decide_False by done.
    destruct (first_chunk v ty l Hl (rd_status rd1) _ _ (r ++ t) [] t Hc1) as (_ & _ & F);
      [by rewrite app_nil_r|].
    change (set_status empty (rd_status rd1)) with (mk (rd_status rd1) [] []). rewrite F.
    + rewrite loop_goes by done. by rewrite msize_app.
    + rewrite msize_app. fold r. destruct t as [|z t']; [done|]. rewrite msize_cons. pose proof (msize_nonneg t'). lia.
  - intros rd2 c2 Hok2 Hc2 Hu Hlt Ht. unfold safe_recv. cbn [safe_recv_loop].
    rewrite loop_goes, Hok1 by done. cbn [negb]. unfold add_objects_and_validate at 1.
    rewrite decide_False by done.
    destruct (first_chunk v ty l Hl (rd_status rd1) _ _ c1 c2 t Hc1 Hu) as (F & _).
    change (set_status empty (rd_status rd1)) with (mk (rd_status rd1) [] []). rewrite F by done.
    rewrite loop_goes, Hok2 by done. cbn [negb]. unfold add_objects_and_validate.
    rewrite decide_True by done.
    change (set_status _ (rd_status rd2)) with (mk (rd_status rd2) [(0, msize c1)] c1).
    by rewrite (tail_undefined v ty l Hl fuel _ _ _ _ c2 t Hc2 Hu Ht).
Qed.

Lemma safe_recv_tail_witness :
  let rd l := mkReceive (mkStatus true 0) (msize l) l in
  safe_recv 5 [rd [23; 3; 3; 0; 1; 7; 23; 3; 3; 0; 1; 8]] =
    Blocked (mk (mkStatus true 0) [(0, 6); (6, 12)] [23; 3; 3; 0; 1; 7; 23; 3; 3; 0; 1; 8]) 20 /\
  safe_recv 5 [rd [23; 3; 3]; rd [0; 1; 7; 23; 3; 3; 0; 1]] = Undefined.
Proof.
  intros rd. split.
  - apply (safe_recv_tail TLS12 23 [7] [23; 3; 3; 0; 1; 8] 5 (rd [23; 3; 3; 0; 1; 7; 23; 3; 3; 0; 1; 8]));
      [vm_compute; discriminate|reflexivity|reflexivity|reflexivity|discriminate].
  - destruct (safe_recv_tail TLS12 23 [7] [23; 3; 3; 0; 1] 5 (rd [23; 3; 3]) [23; 3; 3]) as [_ H];
      [vm_compute; discriminate|reflexivity|reflexivity|].
    apply (H (rd [0; 1; 7; 23; 3; 3; 0; 1]) [0; 1; 7; 23; 3; 3; 0; 1]);
      [reflexivity|reflexivity|reflexivity|reflexivity|vm_compute; discriminate].
Defined.

(** After twenty failing calls the loop cannot end any more: [num_tries <= 0] keeps it
    going instead of stopping it, whatever arrives. *)
Theorem safe_recv_never_gives_up `{ProtoTemplate} fuel rs :
  (forall tries signal s, tries <= 0 -> forall s' rest,
     safe_recv_loop fuel rs tries signal s <> Returned s' rest) /\
  (Forall (fun r => success (rd_status r) = false) rs ->
   exists s, safe_recv fuel rs = Blocked s (20 - Z.of_nat (length rs))).
Proof.
  split.
  - induction rs as [|rd rs IH]; intros tries signal s Ht s' rest; cbn [safe_recv_loop];
      assert (loop_condition signal tries = true) as ->
        by (unfold loop_condition; rewrite (proj2 (Z.leb_le _ _) Ht); apply orb_true_r); [done|].
    destruct (negb _); [apply IH; lia|].
    destruct (add_objects_and_validate _ _ _ _ _ _) as [[? ?]|]; [by apply IH|done].
  - intros Hf. unfold safe_recv.
    assert (G : forall tries s, exists s', safe_recv_loop fuel rs tries SFR_NO_DATA s =
      Blocked s' (tries - Z.of_nat (length rs))).
    { induction Hf as [|rd rs Hko Hf IH]; intros tries s; cbn [safe_recv_loop];
        rewrite loop_goes by done.
      - exists s. f_equal. simpl. lia.
      - rewrite Hko. cbn [negb]. destruct (IH (tries - 1) (set_status s (rd_status rd))) as [s' ->].
        exists s'. f_equal. simpl length. lia. }
    apply G.
Qed.

Lemma safe_recv_never_gives_up_witness :
  exists s, safe_recv 1 (replicate 25 (mkReceive (mkStatus false 11) (-1) [])) = Blocked s (-5).
Proof.
  apply (safe_recv_never_gives_up 1 (replicate 25 (mkReceive (mkStatus false 11) (-1) []))).
  by apply Forall_replicate.
Defined.
