(* ===== verification/Settings.v ===== *)
(** The settings of client and server (include/qvpn_driver.hpp, src/qvpn_driver.cpp), and the
    whitelists of hosts (src/qvpn_lib.cpp) of src/QVPN/QVPN Lib/.

    The JSON library is the class [Json]; the file system is a function from paths to
    contents.  [None] is an exception that leaves the parser.  The texts that describe the
    settings in the log are in [Startup]. *)
From S2P Require Import Prelude Addr Layers.

(** What the parsers use of [nlohmann::json]: a member of an object, a number, a string, and
    the elements that a loop visits. *)
Class Json := {
  json : Type;
  member : json -> string -> option json;
  number : json -> option Z;
  text_of : json -> option string;
  elements_of : json -> list json }.

(** * Connections *)

Module QVPNConnectionEntity.

Record t := mk { addr_ : list Z; port_ : Z; t_proto_ : Z; mode_ : Z }.

(** The constructors; the defaults are [TRANSPORT_UNDEFINED] and 99. *)
Definition default_mode : Z := 99.
Definition of_ipv4 (address : list Z) (port transport_proto mode : Z) : t :=
  mk (NetAddr.of_ipv4 address) port transport_proto mode.
Definition of_ipv6 (address : list Z) (port transport_proto mode : Z) : t :=
  mk (NetAddr.of_ipv6 address) port transport_proto mode.
Definition of_string (data : string) (port transport_proto mode : Z) : option t :=
  address ← NetAddr.of_string data; Some (mk address port transport_proto mode).
Definition make (address : list Z) (port transport_proto mode : Z) : t :=
  mk address port transport_proto mode.

Definition set_transport_proto (e : t) (t_proto : Z) : t := mk (addr_ e) (port_ e) t_proto (mode_ e).
Definition set_ip_address_ipv4 (e : t) (address : list Z) : t :=
  mk (NetAddr.of_ipv4 address) (port_ e) (t_proto_ e) (mode_ e).
Definition set_ip_address_ipv6 (e : t) (address : list Z) : t :=
  mk (NetAddr.of_ipv6 address) (port_ e) (t_proto_ e) (mode_ e).
Definition set_ip_address_typed (e : t) (addr : string) (addr_type : Z) : option t :=
  if addr_type =? IPv4 then a ← IPv4Address.of_string addr; Some (set_ip_address_ipv4 e a)
  else if addr_type =? IPv6 then a ← IPv6Address.of_string addr; Some (set_ip_address_ipv6 e a)
  else Some e.
Definition set_ip_address (e : t) (addr : string) : option t :=
  a ← Tools.parse_net_addr addr; Some (mk (NetAddr.of_bytes a) (port_ e) (t_proto_ e) (mode_ e)).
Definition set_port (e : t) (port : Z) : t := mk (addr_ e) port (t_proto_ e) (mode_ e).
Definition set_mode (e : t) (mode : Z) : t := mk (addr_ e) (port_ e) (t_proto_ e) mode.

Definition get_ip_address (e : t) : list Z := addr_ e.
Definition get_port (e : t) : Z := port_ e.
Definition get_transport_proto (e : t) : Z := t_proto_ e.
Definition get_net_proto (e : t) : Z := NetAddr.get_addr_family (addr_ e).
Definition get_work_mode (e : t) : Z := mode_ e.
Definition to_string (e : t) : string := (NetAddr.to_string (addr_ e) +:+ ":" +:+ dec (port_ e))%string.

End QVPNConnectionEntity.

Module QVPNClientConnectionSettings.

Record t := mk { data_ : QVPNConnectionEntity.t }.

Definition of_ipv4 (address : list Z) (port t_proto mode : Z) : t :=
  mk (QVPNConnectionEntity.of_ipv4 address port t_proto mode).
Definition of_ipv6 (address : list Z) (port t_proto mode : Z) : t :=
  mk (QVPNConnectionEntity.of_ipv6 address port t_proto mode).
Definition set_ip_address_ipv4 (s : t) (address : list Z) : t :=
  mk (QVPNConnectionEntity.set_ip_address_ipv4 (data_ s) address).
Definition set_ip_address_ipv6 (s : t) (address : list Z) : t :=
  mk (QVPNConnectionEntity.set_ip_address_ipv6 (data_ s) address).
Definition set_ip_address_typed (s : t) (addr : string) (addr_type : Z) : option t :=
  if addr_type =? IPv4 then a ← IPv4Address.of_string addr; Some (set_ip_address_ipv4 s a)
  else if addr_type =? IPv6 then a ← IPv6Address.of_string addr; Some (set_ip_address_ipv6 s a)
  else Some s.
Definition set_ip_address (s : t) (addr : string) : option t :=
  e ← QVPNConnectionEntity.set_ip_address (data_ s) addr; Some (mk e).
Definition set_port (s : t) (port : Z) : t := mk (QVPNConnectionEntity.set_port (data_ s) port).
Definition set_transport_proto (s : t) (t_proto : Z) : t :=
  mk (QVPNConnectionEntity.set_transport_proto (data_ s) t_proto).
Definition get_ip_address (s : t) : list Z := QVPNConnectionEntity.get_ip_address (data_ s).
Definition get_port (s : t) : Z := QVPNConnectionEntity.get_port (data_ s).
Definition get_transport_proto (s : t) : Z := QVPNConnectionEntity.get_transport_proto (data_ s).
Definition get_net_proto (s : t) : Z := QVPNConnectionEntity.get_net_proto (data_ s).

End QVPNClientConnectionSettings.

Module QVPNClientCryptoSettings.

Record t := mk { key_ : string; crypto_method_ : Z }.

Definition make (method : Z) (key : string) : t := mk key method.
Definition set_key (s : t) (key : string) : t := mk key (crypto_method_ s).
Definition set_crypto_method (s : t) (method : Z) : t := mk (key_ s) method.
Definition get_key (s : t) : string := key_ s.
Definition get_crypto_method (s : t) : Z := crypto_method_ s.

End QVPNClientCryptoSettings.

Module QVPNClientAuthSettings.

Record t := mk { auth_data_ : string }.

(** The constructor assigns the empty member to itself. *)
Definition make (auth_data : string) : t := mk EmptyString.
Definition set_auth_data (s : t) (auth_data : string) : t := mk auth_data.
Definition get_auth_data (s : t) : string := auth_data_ s.

End QVPNClientAuthSettings.

Module QVPNDatabaseSettings.

Record t := mk { db_host : string; db_user : string; db_password : string; db_name : string; db_port : Z }.

Definition set_db_host (s : t) (path : string) : t := mk path (db_user s) (db_password s) (db_name s) (db_port s).
Definition set_db_user (s : t) (user : string) : t := mk (db_host s) user (db_password s) (db_name s) (db_port s).
Definition set_db_password (s : t) (pass : string) : t := mk (db_host s) (db_user s) pass (db_name s) (db_port s).
Definition set_db_name (s : t) (name : string) : t := mk (db_host s) (db_user s) (db_password s) name (db_port s).
Definition set_db_port (s : t) (port : Z) : t := mk (db_host s) (db_user s) (db_password s) (db_name s) port.
Definition get_db_host (s : t) : string := db_host s.
Definition get_db_user (s : t) : string := db_user s.
Definition get_db_password (s : t) : string := db_password s.
Definition get_db_name (s : t) : string := db_name s.
Definition get_db_port (s : t) : Z := db_port s.

End QVPNDatabaseSettings.

Module QVPNServerConnectionSettings.

Definition t : Type := list QVPNConnectionEntity.t.

(** The mode is not passed on. *)
Definition add_addr_ipv4 (data_ : t) (addr : list Z) (port t_proto mode : Z) : t :=
  data_ ++ [QVPNConnectionEntity.of_ipv4 addr port t_proto QVPNConnectionEntity.default_mode].
Definition add_addr_ipv6 (data_ : t) (addr : list Z) (port t_proto mode : Z) : t :=
  data_ ++ [QVPNConnectionEntity.of_ipv6 addr port t_proto QVPNConnectionEntity.default_mode].
Definition add_addr (data_ : t) (addr : list Z) (port t_proto mode : Z) : t :=
  data_ ++ [QVPNConnectionEntity.make addr port t_proto QVPNConnectionEntity.default_mode].
Definition get_addrs (data_ : t) : list QVPNConnectionEntity.t := data_.

End QVPNServerConnectionSettings.

Module QVPNServerCryptoSettings.

Definition t : Type := list Z.
Definition add_crypto_method (data_ : t) (crypto : Z) : t := data_ ++ [crypto].
Definition get_supported_crypto (data_ : t) : list Z := data_.

End QVPNServerCryptoSettings.

(** * Whitelists *)

Module QVPNWhitelistElement.

Record t := mk { host_ : string; priority_ : Z }.

Definition default_priority : Z := 1.
Definition default : t := mk EmptyString default_priority.
Definition make (host : string) (priority : Z) : t := mk host priority.
Definition set_host (e : t) (host : string) : t := mk host (priority_ e).
Definition set_priority (e : t) (priority : Z) : t := mk (host_ e) priority.
Definition get_host (e : t) : string := host_ e.
Definition get_priority (e : t) : Z := priority_ e.

End QVPNWhitelistElement.

(** The longest run of characters that satisfy [p], and what follows it. *)
Fixpoint run (p : Ascii.ascii -> bool) (s : string) : string * string :=
  match s with
  | String c s' => if p c then let '(a, b) := run p s' in (String c a, b) else (EmptyString, s)
  | EmptyString => (EmptyString, EmptyString)
  end.

(** [stream >> std::string]. *)
Definition read_word (s : string) : option (string * string) :=
  let '(word, rest) := run (fun c => negb (is_space c)) (skip_space s) in
  match word with EmptyString => None | _ => Some (word, rest) end.

(** [stream >> int]: blanks, a sign, the digits; the failure state for none of them or for a
    number that does not fit. *)
Definition read_int (s : string) : option (Z * string) :=
  let s := skip_space s in
  let '(sign, s) :=
    match s with
    | String c s' =>
        if char_code c =? 45 then (-1, s') else if char_code c =? 43 then (1, s') else (1, s)
    | EmptyString => (1, s)
    end in
  let '(ds, rest) := run is_digit s in
  v ← digits ds None;
  if decide (-2147483648 <= sign * v < 2147483648) then Some (sign * v, rest) else None.

Module QVPNWhitelist.

Definition t : Type := list QVPNWhitelistElement.t.

(** [while (wlist >> host >> priority)]. *)
Definition read_element (s : string) : option (QVPNWhitelistElement.t * string) :=
  '(host, s) ← read_word s; '(priority, s) ← read_int s;
  Some (QVPNWhitelistElement.make host priority, s).

Fixpoint read_elements (fuel : nat) (s : string) (whitelist_ : t) : t :=
  match fuel with
  | O => whitelist_
  | S fuel =>
      match read_element s with
      | Some (e, s) => read_elements fuel s (whitelist_ ++ [e])
      | None => whitelist_
      end
  end.

(** Every turn reads a character at least, so the length of the text is enough fuel. *)
Definition parse_whitelist (whitelist_ : t) (file : option string) : t :=
  match file with
  | None => whitelist_
  | Some text => read_elements (S (String.length text)) text whitelist_
  end.

Definition of_path (file : option string) : t := parse_whitelist [] file.

(** [drawn] is what the distribution gives, between 0 and the last position; it is undefined for
    an empty list. *)
Definition get_random_host (whitelist_ : t) (drawn : nat) : option string :=
  QVPNWhitelistElement.get_host <$> whitelist_ !! drawn.
Definition get_host (whitelist_ : t) (i : nat) : option string :=
  QVPNWhitelistElement.get_host <$> whitelist_ !! i.
Definition get_size (whitelist_ : t) : Z := Z.of_nat (length whitelist_).

End QVPNWhitelist.

Module QVPNWhitelistElementView.

Record t := mk { host_ : string; priority_ : Z }.

Definition of_element (e : QVPNWhitelistElement.t) : t :=
  mk (QVPNWhitelistElement.get_host e) (QVPNWhitelistElement.get_priority e).
Definition get_host (v : t) : string := host_ v.
Definition get_priority (v : t) : Z := priority_ v.

End QVPNWhitelistElementView.

(** [QVPNWhitelistDefaultStrategy]: [operator[]] puts the default element for a new address. *)
Module QVPNWhitelistDefaultStrategy.

Definition t : Type := gmap (list Z) QVPNWhitelistElement.t.
Definition get_host_by_params (map_ : t) (param : list Z) : QVPNWhitelistElementView.t * t :=
  match map_ !! param with
  | Some e => (QVPNWhitelistElementView.of_element e, map_)
  | None =>
      (QVPNWhitelistElementView.of_element QVPNWhitelistElement.default,
       <[param := QVPNWhitelistElement.default]> map_)
  end.
Definition get_by_strategy (map_ : t) (param : list Z) : string * t :=
  let '(elem, map_) := get_host_by_params map_ param in (QVPNWhitelistElementView.get_host elem, map_).

End QVPNWhitelistDefaultStrategy.

(** * Parsing *)

(** [settings[key].get<...>()], before the conversion to the type that is asked for. *)
Definition member_number `{Json} (j : json) (key : string) : option Z := v ← member j key; number v.
Definition member_text `{Json} (j : json) (key : string) : option string := v ← member j key; text_of v.

Module QVPNClientSettings.

Record t := mk {
  layers_ : QVPNLayersSettings.t; connection : QVPNClientConnectionSettings.t;
  crypto : QVPNClientCryptoSettings.t; auth : QVPNClientAuthSettings.t;
  whitelists_ : list QVPNWhitelist.t }.

Section Parse.
Context `{Json}.
(** The contents of the files that can be opened. *)
Context (open_file : string -> option string).

Fixpoint read_whitelists (paths : list json) (whitelists_ : list QVPNWhitelist.t) :
    option (list QVPNWhitelist.t) :=
  match paths with
  | [] => Some whitelists_
  | w_list :: paths =>
      path ← text_of w_list;
      read_whitelists paths (whitelists_ ++ [QVPNWhitelist.of_path (open_file path)])
  end.

(** [file] is the parsed file, if it could be opened.  The kind of the address and the mode are
    read and not used. *)
Definition parse_settings (s : t) (file : option json) : option t :=
  match file with
  | None => Some s
  | Some settings =>
      addr_type ← member_number settings "addr_type";
      addr ← member_text settings "addr";
      port ← member_number settings "port";
      proto ← member_number settings "proto";
      mode ← member_number settings "mode";
      connection ← QVPNClientConnectionSettings.set_ip_address (connection s) addr;
      let connection := QVPNClientConnectionSettings.set_port connection (u16 port) in
      let connection := QVPNClientConnectionSettings.set_transport_proto connection (u8 proto) in
      crypto_method ← member_number settings "crypto_method";
      key ← member_text settings "key";
      let crypto := QVPNClientCryptoSettings.set_crypto_method (crypto s) (u16 (u32 crypto_method)) in
      let crypto := QVPNClientCryptoSettings.set_key crypto key in
      auth_data ← member_text settings "auth_data";
      let auth := QVPNClientAuthSettings.set_auth_data (auth s) auth_data in
      whitelists ← member settings "whitelists";
      whitelists_ ← read_whitelists (elements_of whitelists) (whitelists_ s);
      Some (mk (layers_ s) connection crypto auth whitelists_)
  end.

End Parse.

Definition get_whitelist_element (s : t) (whitelist drawn : nat) : option string :=
  list ← whitelists_ s !! whitelist; QVPNWhitelist.get_random_host list drawn.

End QVPNClientSettings.

Module QVPNServerSettings.

Record t := mk {
  layers_ : QVPNLayersSettings.t; connection : QVPNServerConnectionSettings.t;
  crypto : QVPNServerCryptoSettings.t; database : QVPNDatabaseSettings.t }.

Section Parse.
Context `{Json}.

Fixpoint read_addrs (addrs : list json) (connection : QVPNServerConnectionSettings.t) :
    option QVPNServerConnectionSettings.t :=
  match addrs with
  | [] => Some connection
  | addr_obj :: addrs =>
      addr_type ← member_number addr_obj "addr_type";
      addr ← member_text addr_obj "addr";
      port ← member_number addr_obj "port";
      proto ← member_number addr_obj "proto";
      mode ← member_number addr_obj "mode";
      net_addr ← NetAddr.of_string addr;
      read_addrs addrs
        (QVPNServerConnectionSettings.add_addr connection net_addr (u16 port) (u8 proto) (u8 mode))
  end.

Fixpoint read_crypto (sup_crypto : list json) (crypto : QVPNServerCryptoSettings.t) :
    option QVPNServerCryptoSettings.t :=
  match sup_crypto with
  | [] => Some crypto
  | crypto_obj :: sup_crypto =>
      c ← number crypto_obj;
      read_crypto sup_crypto (QVPNServerCryptoSettings.add_crypto_method crypto (u16 c))
  end.

Definition read_database (database : json) (s : QVPNDatabaseSettings.t) : option QVPNDatabaseSettings.t :=
  host ← member_text database "host";
  let s := QVPNDatabaseSettings.set_db_host s host in
  user ← member_text database "user";
  let s := QVPNDatabaseSettings.set_db_user s user in
  pass ← member_text database "pass";
  let s := QVPNDatabaseSettings.set_db_password s pass in
  name ← member_text database "name";
  let s := QVPNDatabaseSettings.set_db_name s name in
  port ← member_number database "port";
  Some (QVPNDatabaseSettings.set_db_port s (u16 port)).

Definition parse_settings (s : t) (file : option json) : option t :=
  match file with
  | None => Some s
  | Some settings =>
      addrs ← member settings "addrs";
      connection ← read_addrs (elements_of addrs) (connection s);
      sup_crypto ← member settings "supported_crypto";
      crypto ← read_crypto (elements_of sup_crypto) (crypto s);
      database_obj ← member settings "database";
      database ← read_database database_obj (database s);
      Some (mk (layers_ s) connection crypto database)
  end.

End Parse.
End QVPNServerSettings.

(** * Decimal numbers and runs *)

#[local] Arguments String.append !_ _ /.

Fixpoint all_chars (p : Ascii.ascii -> bool) (s : string) : bool :=
  match s with
  | EmptyString => true
  | String c s' => p c && all_chars p s'
  end.

Lemma all_chars_append p a b : all_chars p (a +:+ b) = all_chars p a && all_chars p b.
Proof. induction a as [|c a IH]; cbn; [done|]. by rewrite IH, andb_assoc. Qed.

Lemma run_app p a b :
  all_chars p a = true -> match b with String c _ => p c = false | EmptyString => True end ->
  run p (a +:+ b) = (a, b).
Proof.
  induction a as [|c a IH]; cbn.
  - intros _. destruct b as [|c b]; [done|]. cbn. by intros ->.
  - intros [-> Ha]%andb_true_iff Hb. by rewrite IH.
Qed.

Lemma pretty_char n :
  (n < 10)%N -> is_digit (pretty_N_char n) = true /\ char_code (pretty_N_char n) - 48 = Z.of_N n.
Proof. intros Hn. destruct n as [|p]; [done|]. do 4 (destruct p as [p|p|]; try lia; try done). Qed.

Lemma pretty_go_digits x s :
  all_chars is_digit s = true ->
  all_chars is_digit (pretty_N_go x s) = true /\
  digits (pretty_N_go x s) (Some 0) = digits s (Some (Z.of_N x)).
Proof.
  revert s. induction (N.lt_wf_0 x) as [x _ IH]; intros s Hs.
  destruct (decide (x = 0%N)) as [->|Hx]; [by rewrite pretty_N_go_0|].
  rewrite pretty_N_go_step by lia.
  destruct (pretty_char (x mod 10)) as [Hd Hv]; [by apply N.mod_lt|].
  destruct (IH (x / 10)%N) with (s := String (pretty_N_char (x mod 10)) s) as (H1 & H2);
    [apply N.div_lt; lia|cbn; by rewrite Hd|].
  split; [done|]. rewrite H2. cbn [digits]. rewrite Hd, Hv. cbn [default from_option id].
  do 2 f_equal. pose proof (N.div_mod x 10 ltac:(done)). lia.
Qed.

Lemma pretty_go_not_empty x s : (0 < x)%N -> exists c s', pretty_N_go x s = String c s'.
Proof.
  revert s. induction (N.lt_wf_0 x) as [x _ IH]; intros s Hx. rewrite pretty_N_go_step by done.
  destruct (decide (x / 10 = 0)%N) as [->|Hd]; [rewrite pretty_N_go_0; eauto|].
  apply IH; [apply N.div_lt; lia|by apply N.neq_0_lt_0].
Qed.

(** The decimal digits of a number, read back. *)
Lemma dec_digits n :
  0 <= n ->
  all_chars is_digit (dec n) = true /\ digits (dec n) None = Some n /\
  exists c s', dec n = String c s' /\ is_digit c = true.
Proof.
  intros Hn. unfold dec, pretty, pretty_N. case_decide as E.
  - assert (n = 0) as -> by lia. split_and!; [done|done|by eexists _, _].
  - destruct (pretty_go_digits (Z.to_N n) "" eq_refl) as [H1 H2].
    destruct (pretty_go_not_empty (Z.to_N n) "") as (c & s' & Ec); [lia|].
    rewrite Ec in *. cbn in H1. apply andb_true_iff in H1 as [Hc Hs].
    split_and!; [cbn; by rewrite Hc| |by exists c, s'].
    cbn [digits] in *. rewrite Hc in *. cbn [default from_option id] in *. rewrite H2. f_equal. lia.
Qed.

Lemma digit_not_space c : is_digit c = true -> is_space c = false /\ char_code c <> 45 /\ char_code c <> 43.
Proof. unfold is_digit, is_space. intros [H1 H2]%andb_true_iff. split_and!; lia. Qed.

(** * Whitelists *)

(** A line of a whitelist, and the elements that can be written as one. *)
Definition newline : Ascii.ascii := Ascii.ascii_of_nat 10.
Definition blank : Ascii.ascii := Ascii.ascii_of_nat 32.
Definition line (e : QVPNWhitelistElement.t) : string :=
  (QVPNWhitelistElement.host_ e +:+ String blank (dec (QVPNWhitelistElement.priority_ e) +:+ String newline ""))%string.
Definition writable (e : QVPNWhitelistElement.t) : Prop :=
  QVPNWhitelistElement.host_ e <> EmptyString /\
  all_chars (fun c => negb (is_space c)) (QVPNWhitelistElement.host_ e) = true /\
  0 <= QVPNWhitelistElement.priority_ e < 2147483648.
Fixpoint lines (es : list QVPNWhitelistElement.t) : string :=
  match es with [] => EmptyString | e :: es => (line e +:+ lines es)%string end.

Lemma read_int_dec n rest :
  0 <= n < 2147483648 -> match rest with String c _ => is_digit c = false | EmptyString => True end ->
  read_int (String blank (dec n +:+ rest)) = Some (n, rest).
Proof.
  intros Hn Hr. destruct (dec_digits n) as (Ha & Hd & c & s' & Ec & Hc); [lia|].
  destruct (digit_not_space c Hc) as (Hs & H45 & H43).
  unfold read_int. change (skip_space (String blank (dec n +:+ rest))) with (skip_space (dec n +:+ rest)).
  assert (Hk : skip_space (dec n +:+ rest) = (dec n +:+ rest)%string) by (rewrite Ec; cbn; by rewrite Hs).
  rewrite Hk. rewrite Ec. cbn [String.append]. rewrite (proj2 (Z.eqb_neq _ _) H45), (proj2 (Z.eqb_neq _ _) H43).
  change (String c (s' +:+ rest)) with (String c s' +:+ rest)%string. rewrite <- Ec.
  rewrite run_app, Hd by done. cbn [mbind option_bind]. rewrite Z.mul_1_l, decide_True by lia. done.
Qed.

Lemma read_line e rest :
  writable e -> match rest with String c _ => is_space c = false | EmptyString => True end ->
  QVPNWhitelist.read_element (line e +:+ rest) = Some (e, String newline rest).
Proof.
  intros (Hne & Hh & Hp) _. unfold QVPNWhitelist.read_element, line, read_word. rewrite app_assoc_string.
  destruct e as [host p]. cbn [QVPNWhitelistElement.host_ QVPNWhitelistElement.priority_] in *.
  destruct host as [|c host]; [done|]. pose proof Hh as Hh'. cbn in Hh. apply andb_true_iff in Hh as [Hc _].
  cbn [String.append skip_space]. apply negb_true_iff in Hc. rewrite Hc.
  set (tail := String blank _). change (String c (host +:+ tail)) with (String c host +:+ tail)%string.
  rewrite run_app by done. cbn [mbind option_bind]. unfold tail. rewrite app_assoc_string.
  by rewrite read_int_dec.
Qed.

(** Blanks in front of an element are skipped. *)
Lemma read_element_newline s :
  QVPNWhitelist.read_element (String newline s) = QVPNWhitelist.read_element s.
Proof. done. Qed.

Lemma read_lines es fuel whitelist_ :
  Forall writable es -> (length es <= fuel)%nat ->
  QVPNWhitelist.read_elements (S fuel) (lines es) whitelist_ = whitelist_ ++ es /\
  QVPNWhitelist.read_elements (S fuel) (String newline (lines es)) whitelist_ = whitelist_ ++ es.
Proof.
  intros Hes. revert fuel whitelist_. induction Hes as [|e es He Hes IH]; intros fuel whitelist_ Hf.
  - by rewrite app_nil_r.
  - assert (Hr : QVPNWhitelist.read_element (lines (e :: es)) = Some (e, String newline (lines es))).
    { apply read_line; [done|]. destruct es as [|e' es]; [done|]. apply Forall_inv in Hes.
      destruct e' as [[|c h] p], Hes as (? & Hh & _); [done|]. cbn in *.
      apply andb_true_iff in Hh as [Hc _]. by apply negb_true_iff. }
    destruct fuel as [|fuel]; [cbn in Hf; lia|].
    destruct (IH fuel (whitelist_ ++ [e])) as [_ IH2]; [cbn in Hf; lia|].
    cbn [QVPNWhitelist.read_elements] in *. rewrite read_element_newline, Hr, IH2, <- app_assoc. done.
Qed.

Lemma lines_length es : (length es <= String.length (lines es))%nat.
Proof.
  induction es as [|e es IH]; cbn [lines length]; [lia|].
  rewrite length_app_string. unfold line. rewrite !length_app_string. cbn. lia.
Qed.

(** The text of a list of elements, one in a line, is read back to these elements, behind those
    that were there. *)
Theorem whitelist_roundtrip whitelist_ es :
  Forall writable es -> QVPNWhitelist.parse_whitelist whitelist_ (Some (lines es)) = whitelist_ ++ es.
Proof. intros Hes. apply read_lines; [done|apply lines_length]. Qed.

Lemma whitelist_roundtrip_witness :
  QVPNWhitelist.parse_whitelist [] (Some (lines [QVPNWhitelistElement.make "ya.ru" 1; QVPNWhitelistElement.make "vk.com" 20])) =
  [QVPNWhitelistElement.make "ya.ru" 1; QVPNWhitelistElement.make "vk.com" 20].
Proof.
  apply (whitelist_roundtrip []). repeat constructor; cbn; (done || lia).
Defined.

(** Every element that is read takes a character at least, so more fuel than the text is long
    makes no difference. *)
Lemma run_length p s : (String.length (snd (run p s)) <= String.length s)%nat.
Proof.
  induction s as [|c s IH]; cbn; [lia|]. destruct (p c); [|cbn; lia].
  destruct (run p s) as [a b]. cbn in *. lia.
Qed.

Lemma skip_length s : (String.length (skip_space s) <= String.length s)%nat.
Proof. induction s as [|c s IH]; cbn; [lia|]. destruct (is_space c); cbn; lia. Qed.

Lemma read_word_length s w rest :
  read_word s = Some (w, rest) -> (String.length rest < String.length s)%nat.
Proof.
  unfold read_word. pose proof (skip_length s) as Hs.
  destruct (skip_space s) as [|c s']; [done|]. cbn [run]. destruct (negb (is_space c)); [|done].
  pose proof (run_length (fun c => negb (is_space c)) s') as Hr.
  destruct (run _ s') as [a b]. intros [= <- <-]. cbn in *. lia.
Qed.

Lemma read_int_length s v rest : read_int s = Some (v, rest) -> (String.length rest <= String.length s)%nat.
Proof.
  unfold read_int. pose proof (skip_length s) as Hs. set (p := match skip_space s with EmptyString => _ | _ => _ end).
  assert (Hp : (String.length (snd p) <= String.length (skip_space s))%nat).
  { unfold p. destruct (skip_space s) as [|c s']; [done|]. cbn. repeat case_match; cbn; lia. }
  destruct p as [sign s1]. cbn [snd] in Hp. pose proof (run_length is_digit s1) as Hr.
  destruct (run is_digit s1) as [ds r]. intros (n & _ & E)%bind_Some. case_decide; [|done].
  injection E as <- <-. cbn in Hr. lia.
Qed.

Lemma read_elements_fuel f g s whitelist_ :
  (String.length s < f)%nat -> (String.length s < g)%nat ->
  QVPNWhitelist.read_elements f s whitelist_ = QVPNWhitelist.read_elements g s whitelist_.
Proof.
  revert g s whitelist_. induction f as [|f IH]; intros g s whitelist_ Hf Hg; [lia|].
  destruct g as [|g]; [lia|]. cbn [QVPNWhitelist.read_elements].
  destruct (QVPNWhitelist.read_element s) as [[e rest]|] eqn:E; [|done].
  unfold QVPNWhitelist.read_element in E. apply bind_Some in E as ([host s1] & E1 & E).
  apply bind_Some in E as ([p s2] & E2 & [= <- <-]).
  apply read_word_length in E1. apply read_int_length in E2. apply IH; lia.
Qed.

(** * What the parsers make of a file *)

Section Parsed.
Context `{Json}.

(** An object that describes an address: its text, port, protocol and mode. *)
Definition describes (j : json) (a : list Z * Z * Z * Z) : Prop :=
  let '(ip, port, proto, mode) := a in
  is_Some (member_number j "addr_type") /\ member_text j "addr" = Some (NetAddr.to_string ip) /\
  member_number j "port" = Some port /\ member_number j "proto" = Some proto /\
  member_number j "mode" = Some mode /\ bytes ip /\ 2 <= msize ip <= 16.

(** The listening address that the server makes of it; the mode is not the one of the file. *)
Definition listens (a : list Z * Z * Z * Z) : QVPNConnectionEntity.t :=
  let '(ip, port, proto, _) := a in
  QVPNConnectionEntity.make ip (u16 port) (u8 proto) QVPNConnectionEntity.default_mode.

Lemma read_addrs_described js addrs connection :
  Forall2 describes js addrs ->
  QVPNServerSettings.read_addrs js connection = Some (connection ++ (listens <$> addrs)).
Proof.
  intros Hj. revert connection.
  induction Hj as [|j [[[ip port] proto] mode] js addrs (Ht & Ha & Hp & Hpr & Hm & Hb & Hs) _ IH];
    intros connection; cbn [QVPNServerSettings.read_addrs]; [by rewrite app_nil_r|].
  destruct Ht as [ty ->]. rewrite Ha, Hp, Hpr, Hm. cbn [mbind option_bind].
  rewrite parse_net_addr_to_string by done. cbn [mbind option_bind]. rewrite IH.
  unfold QVPNServerConnectionSettings.add_addr. by rewrite <- app_assoc.
Qed.

Lemma read_crypto_numbers js cs crypto :
  Forall2 (fun j c => number j = Some c) js cs ->
  QVPNServerSettings.read_crypto js crypto = Some (crypto ++ (u16 <$> cs)).
Proof.
  intros Hj. revert crypto. induction Hj as [|j c js cs Hc _ IH]; intros crypto;
    cbn [QVPNServerSettings.read_crypto]; [by rewrite app_nil_r|].
  rewrite Hc. cbn [mbind option_bind]. rewrite IH.
  unfold QVPNServerCryptoSettings.add_crypto_method. by rewrite <- app_assoc.
Qed.

(** A file of the server's settings whose addresses are written the way addresses are printed gives
    the server these addresses in this order, with ports and protocols at their width, all of
    them in mode 99; the crypto methods and the database are those of the file. *)
Theorem server_settings_parsed s settings addrs_obj addrs crypto_obj cs db host user pass name port :
  member settings "addrs" = Some addrs_obj -> Forall2 describes (elements_of addrs_obj) addrs ->
  member settings "supported_crypto" = Some crypto_obj ->
  Forall2 (fun j c => number j = Some c) (elements_of crypto_obj) cs ->
  member settings "database" = Some db ->
  member_text db "host" = Some host -> member_text db "user" = Some user ->
  member_text db "pass" = Some pass -> member_text db "name" = Some name ->
  member_number db "port" = Some port ->
  QVPNServerSettings.parse_settings s (Some settings) =
    Some (QVPNServerSettings.mk (QVPNServerSettings.layers_ s)
      (QVPNServerSettings.connection s ++ (listens <$> addrs))
      (QVPNServerSettings.crypto s ++ (u16 <$> cs))
      (QVPNDatabaseSettings.mk host user pass name (u16 port))).
Proof.
  intros Ha Has Hc Hcs Hd Hh Hu Hp Hn Hport. unfold QVPNServerSettings.parse_settings.
  rewrite Ha. cbn [mbind option_bind]. rewrite (read_addrs_described _ _ _ Has). cbn [mbind option_bind].
  rewrite Hc. cbn [mbind option_bind]. rewrite (read_crypto_numbers _ _ _ Hcs). cbn [mbind option_bind].
  rewrite Hd. cbn [mbind option_bind]. unfold QVPNServerSettings.read_database.
  by rewrite Hh, Hu, Hp, Hn, Hport.
Qed.

(** The address that the client connects to is the one of its file. *)
Lemma client_address_parsed open_file s settings s' text addr :
  QVPNClientSettings.parse_settings open_file s (Some settings) = Some s' ->
  member_text settings "addr" = Some text -> NetAddr.of_string text = Some addr ->
  QVPNClientConnectionSettings.get_ip_address (QVPNClientSettings.connection s') = addr.
Proof.
  intros E Ht Ha. unfold QVPNClientSettings.parse_settings in E. rewrite Ht in E.
  apply bind_Some in E as (ty & _ & E). cbn [mbind option_bind] in E.
  apply bind_Some in E as (port & _ & E). apply bind_Some in E as (proto & _ & E).
  apply bind_Some in E as (mode & _ & E). apply bind_Some in E as (c & Hc & E).
  apply bind_Some in E as (cm & _ & E). apply bind_Some in E as (key & _ & E).
  apply bind_Some in E as (auth & _ & E). apply bind_Some in E as (wl & _ & E).
  apply bind_Some in E as (ws & _ & [= <-]). apply bind_Some in Hc as (e & He & [= <-]).
  unfold QVPNConnectionEntity.set_ip_address in He. unfold NetAddr.of_string in Ha. rewrite Ha in He.
  by injection He as <-.
Qed.

(** One bad address makes the constructor throw. *)
Lemma bad_address_throws s settings addrs_obj j js addr :
  member settings "addrs" = Some addrs_obj -> elements_of addrs_obj = j :: js ->
  member_text j "addr" = Some addr -> NetAddr.of_string addr = None ->
  QVPNServerSettings.parse_settings s (Some settings) = None.
Proof.
  intros Ha He Ht Hn. unfold QVPNServerSettings.parse_settings. rewrite Ha. cbn [mbind option_bind].
  rewrite He. cbn [QVPNServerSettings.read_addrs].
  destruct (member_number j "addr_type"); [|done]. cbn [mbind option_bind]. rewrite Ht. cbn [mbind option_bind].
  destruct (member_number j "port"); [|done]. cbn [mbind option_bind].
  destruct (member_number j "proto"); [|done]. cbn [mbind option_bind].
  destruct (member_number j "mode"); [|done]. cbn [mbind option_bind]. by rewrite Hn.
Qed.

End Parsed.

(** * A JSON library, and src/data/server_settings_example.json *)

(** An object is a chain of members, an array a chain of elements. *)
Inductive value : Type :=
  | Number (n : Z)
  | Text (s : string)
  | Null
  | Member (key : string) (v rest : value)
  | Element (v rest : value).

Fixpoint find_member (j : value) (key : string) : option value :=
  match j with
  | Member k v rest => if decide (k = key) then Some v else find_member rest key
  | _ => None
  end.
Fixpoint elements (j : value) : list value :=
  match j with Element v rest => v :: elements rest | _ => [] end.

#[local] Instance sample_json : Json := {|
  json := value;
  member := find_member;
  number j := match j with Number n => Some n | _ => None end;
  text_of j := match j with Text s => Some s | _ => None end;
  elements_of := elements |}.

Definition example_addr : value :=
  (Member "mode" (Number 0) (Member "addr_type" (Number 4) (Member "addr" (Text "127.0.0.1")
    (Member "port" (Number 5151) (Member "proto" (Number 6) Null))))).
Definition example_database : value :=
  Member "host" (Text "./server_database.sqlite3") (Member "user" (Text "admin")
    (Member "pass" (Text "password") (Member "name" (Text "database") (Member "port" (Number 1234) Null)))).
Definition example_file : value :=
  Member "addrs" (Element example_addr Null) (Member "supported_crypto" (Element (Number 0) Null)
    (Member "database" example_database Null)).

Definition no_settings : QVPNServerSettings.t :=
  QVPNServerSettings.mk [] [] [] (QVPNDatabaseSettings.mk "" "" "" "" 0).

Lemma server_settings_parsed_witness :
  exists s', QVPNServerSettings.parse_settings (H := sample_json) no_settings (Some example_file) = Some s' /\
    QVPNServerSettings.connection s' = [QVPNConnectionEntity.make [127; 0; 0; 1] 5151 6 99].
Proof.
  eexists. split.
  - apply (server_settings_parsed (H := sample_json) no_settings example_file (Element example_addr Null)
      [([127; 0; 0; 1], 5151, 6, 0)] (Element (Number 0) Null) [0] example_database
      "./server_database.sqlite3" "admin" "password" "database" 1234); try reflexivity.
    + repeat constructor; try reflexivity; try (by eexists); concrete.
    + repeat constructor.
  - reflexivity.
Defined.
