(* ===== verification/Driver.v ===== *)
(** The drivers at the two ends of the tunnel: [encode_data], [decode_data],
    [encode_and_send], [try_reconnect] and the authorization block of
    [QVPNClientDriver] and [QVPNServerDriver]
    (src/QVPN/QVPN Lib/include/qvpn_driver.hpp).

    The two classes have the same [encode_data] and [decode_data]; both work on the
    layers of the settings and on the packet manager, the record [t] here.  The socket
    is a template parameter of the drivers: the class [Socket]. *)
From S2P Require Import Prelude Addr TlsRecord PacketManager QTunnel Layers SafeReceive.

(** What the drivers ask of a socket: [send] and [reconnect], with the [success] they
    report and the socket after the call. *)
Class Socket := {
  socket : Type;
  sock_send : socket -> mem -> bool * socket;
  sock_reconnect : socket -> bool * socket }.

Module TunnelDriver.

Record t := mk { settings_ : QVPNLayersSettings.t; packet_manager_ : QVPNPacketManager.t }.

Definition with_manager (d : t) (pm : QVPNPacketManager.t) : t := mk (settings_ d) pm.

(** One turn of the loop over the parts after the first. *)
Definition encode_part (d : t) (m : mem) (sp_view : SplittedPacketView.t) (i : Z)
    (sp : SplittedPacket.t) : option SplittedPacket.t :=
  '(pb_data_i, bi, ei) ← SplittedPacketView.get_raw_with_pb_data sp_view (Z.to_nat i);
  encoded_part ← QVPNLayersSettings.layers_encode_pb (settings_ d) pb_data_i m bi ei;
  SplittedPacket.add_data sp encoded_part 0 (msize encoded_part).

Definition encode_data (d : t) (data : QTunnelProxy.t) (m : mem) (begin_ end_ : Z) :
    option (SplittedPacket.t * t) :=
  '(sp_view, pm) ← QVPNPacketManager.split_packet_view (packet_manager_ d) begin_ end_;
  let d := with_manager d pm in
  '(pb_data, b, e) ← SplittedPacketView.get_raw_with_pb_data sp_view 0;
  first_encoded_data ← QVPNLayersSettings.layers_encode_pb_proxy (settings_ d) pb_data data m b e;
  sp ← SplittedPacket.add_data SplittedPacket.empty first_encoded_data 0 (msize first_encoded_data);
  sp ← for_loop (Z.to_nat (SplittedPacketView.size sp_view)) 1 (SplittedPacketView.size sp_view) 1
         (encode_part d m sp_view) sp;
  Some (sp, d).

Section Receive.
Context (arrange : list (Z * PacketBuilder.t) -> list (Z * PacketBuilder.t)).

Definition decode_data (d : t) (m : mem) (begin_ end_ : Z) : option (option QTunnelData.t * t) :=
  res ← QVPNLayersSettings.layers_decode (settings_ d) m begin_ end_;
  '(signal, pm) ← QVPNPacketManager.build_packet arrange (packet_manager_ d) res 0 (msize res);
  let '(full, pm) := QVPNPacketManager.have_full_packets pm in
  if full then
    '(packet, pm) ← QVPNPacketManager.get_and_pop_packet pm;
    data ← QTunnelData.make (PacketBuilder.get_data packet);
    Some (Some data, with_manager d pm)
  else Some (None, with_manager d pm).

End Receive.

Section Send.
Context `{Socket}.

(** The loop of [encode_and_send]: parts [i] to [i + n - 1], up to the first failure. *)
Fixpoint send_parts (sp : SplittedPacket.t) (i n : nat) (s : socket) : option (bool * socket) :=
  match n with
  | O => Some (true, s)
  | S n =>
      '(b, e) ← SplittedPacket.get_raw_packet sp i;
      part ← range (SplittedPacket.data_ sp) b e;
      let '(res, s) := sock_send s part in
      if res then send_parts sp (S i) n s else Some (false, s)
  end.

End Send.

End TunnelDriver.

Module QVPNServerDriver.

Definition encode_data := TunnelDriver.encode_data.
Definition decode_data := TunnelDriver.decode_data.

Definition base_send_data `{Socket} (s : socket) (part : mem) : bool * socket := sock_send s part.

Definition encode_and_send `{Socket} (d : TunnelDriver.t) (s : socket) (proxy_data : QTunnelProxy.t)
    (m : mem) (begin_ end_ : Z) : option (TunnelDriver.t * socket) :=
  '(splitted_packet, d) ← encode_data d proxy_data m begin_ end_;
  '(_, s) ← TunnelDriver.send_parts splitted_packet 0
              (length (SplittedPacket.separators_ splitted_packet)) s;
  Some (d, s).

(** The authorization block at [d_b] of the client hello's session id: crypto method,
    key and user. *)
Definition parse_auth (m : mem) (d_b : Z) : option (Z * mem * mem) :=
  crypto_method ← load16 m d_b;
  let offset := 2 in
  key_size ← load m (d_b + offset);
  let offset := offset + 1 in
  key ← range m (d_b + 3) (d_b + key_size + offset);
  let offset := offset + key_size in
  user_size ← load m (d_b + offset);
  let offset := offset + 1 in
  user ← range m (d_b + offset) (d_b + user_size + offset);
  Some (crypto_method, key, user).

End QVPNServerDriver.

Module QVPNClientDriver.

Definition encode_data := TunnelDriver.encode_data.
Definition decode_data := TunnelDriver.decode_data.

Definition base_send_data `{Socket} (s : socket) (part : mem) : bool * socket := sock_send s part.
Definition reconnect `{Socket} (s : socket) : bool * socket := sock_reconnect s.

(** The loop ends at the first success or when no tries are left. *)
Fixpoint reconnect_loop `{Socket} (tries : nat) (s : socket) : bool * socket :=
  match tries with
  | O => (false, s)
  | S tries => let '(success, s) := reconnect s in
               if success then (true, s) else reconnect_loop tries s
  end.
Definition try_reconnect `{Socket} (reconnect_number : Z) (s : socket) : bool * socket :=
  reconnect_loop (Z.to_nat reconnect_number) s.

(** The third component says whether the function ends in a call of [init], the new
    authorization after a reconnection. *)
Definition encode_and_send `{Socket} (d : TunnelDriver.t) (s : socket) (proxy_data : QTunnelProxy.t)
    (m : mem) (begin_ end_ : Z) : option (TunnelDriver.t * socket * bool) :=
  '(splitted_packet, d) ← encode_data d proxy_data m begin_ end_;
  '((res, s) : bool * socket) ← TunnelDriver.send_parts splitted_packet 0
                (length (SplittedPacket.separators_ splitted_packet)) s;
  if res then Some (d, s, false)
  else let '(success, s) := try_reconnect 20 s in Some (d, s, success).

(** [crypto_data] of [init]; the sizes are [UByte]s. *)
Definition crypto_data (crypto_method : Z) (key user : mem) : mem :=
  [octet 1 crypto_method; octet 0 crypto_method] ++ [u8 (msize key)] ++ key
  ++ [u8 (msize user)] ++ user.

End QVPNClientDriver.

(** * A packet through the tunnel *)

Section Tunnel.
Import TunnelDriver.
Context (arrange : list (Z * PacketBuilder.t) -> list (Z * PacketBuilder.t)).
Context (arrange_perm : forall l, arrange l ≡ₚ l).

(** The first part on the wire. *)
Lemma encode_first pb px m b e l :
  proxy_wf px -> range m b e = Some l -> msize (proxy_bytes px) < 65536 ->
  QVPNLayersSettings.layers_encode_pb_proxy default_layers pb px m b e =
  Some (QLayer.record (frame (PacketBuilderData.get_packet_id pb) (PacketBuilderData.get_offset pb)
    (u16 (PacketBuilderData.get_original_size pb + msize (proxy_bytes px)))
    (proxy_bytes px ++ l))).
Proof.
  intros Hpx Hl Hn. rewrite default_encode_pb_proxy, Hl.
  cbn [mbind option_bind].
  destruct (generate_pb_proxy_frame pb px l 0 (msize l) l Hpx (range_full l)) as (n & _ & En & ->).
  pose proof (msize_nonneg (proxy_bytes px)).
  rewrite u16_id in En by (unfold is_u16; lia). by subst n.
Qed.

(** A later part on the wire. *)
Lemma encode_next pb m b e l :
  range m b e = Some l -> is_u16 (PacketBuilderData.get_original_size pb) ->
  QVPNLayersSettings.layers_encode_pb default_layers pb m b e =
  Some (QLayer.record (frame (PacketBuilderData.get_packet_id pb) (PacketBuilderData.get_offset pb)
    (PacketBuilderData.get_original_size pb) l)).
Proof.
  intros Hl Ho. rewrite default_encode_pb, Hl. cbn [mbind option_bind].
  unfold TunnelAppData.generate_pb. by rewrite range_full.
Qed.

Lemma record_frame_size id off tot x : msize (QLayer.record (frame id off tot x)) = 10 + msize x.
Proof.
  unfold QLayer.record, frame. rewrite generate_record_size, msize_app.
  change (msize (PacketBuilderData.to_bytes _)) with 5. lia.
Qed.

(** The receiver's half for a whole packet in one record. *)
Lemma decode_whole r m b e id px l :
  let x := proxy_bytes px ++ l in
  proxy_wf px -> range m b e = Some (QLayer.record (frame id 0 (msize x) x)) ->
  is_u8 id -> 10 + msize x < 65536 -> receiver_ready r ->
  QVPNPacketManager.lookup (QVPNPacketManager.packets_ r) id = None ->
  exists r', decode_data arrange (mk default_layers r) m b e =
      Some (Some (QTunnelData.mk px l), mk default_layers r') /\ receiver_ready r' /\
    forall k, QVPNPacketManager.lookup (QVPNPacketManager.packets_ r') k =
              QVPNPacketManager.lookup (QVPNPacketManager.packets_ r) k.
Proof.
  intros x Hpx Hm Hid Hsz Hr Hfree.
  assert (0 < msize x).
  { subst x. unfold proxy_bytes. rewrite <- !app_assoc, msize_app.
    change (msize [_; _]) with 2. match goal with |- context [_ + msize ?y] => pose proof (msize_nonneg y) end.
    lia. }
  destruct (frame_delivered arrange arrange_perm r id x) as (r1 & r2 & p & r3 & B & F & G & E & Hr' & Hl);
    [done|lia|done|done|].
  exists r3. split; [|done]. unfold decode_data. cbn [settings_ packet_manager_].
  rewrite (default_decode_record _ _ _ _ Hm).
  - cbn [mbind option_bind]. rewrite B. cbn [mbind option_bind]. rewrite F, G. cbn [mbind option_bind].
    rewrite E. subst x. by rewrite parse_proxy_bytes.
  - unfold frame. rewrite msize_app. change (msize (PacketBuilderData.to_bytes _)) with 5. lia.
Qed.

(** The sender's half: one part, a record around the frame of the whole packet. *)
Lemma encode_whole s px m b e l :
  let x := proxy_bytes px ++ l in
  let part := QLayer.record (frame (QVPNPacketManager.last_packet_id_ s) 0 (msize x) x) in
  proxy_wf px -> range m b e = Some l -> msize l < QVPNPacketManager.data_max_size s ->
  10 + msize x < 65536 ->
  exists s', encode_data (mk default_layers s) px m b e =
    Some (SplittedPacket.mk 0 part [(0, msize part)], mk default_layers s').
Proof.
  intros x part Hpx Hl Hmax Hsz. destruct (range_Some _ _ _ _ Hl) as (_ & _ & Hs & _).
  pose proof (msize_nonneg l). pose proof (msize_nonneg (proxy_bytes px)).
  assert (Hx : msize x = msize (proxy_bytes px) + msize l) by apply msize_app.
  destruct (split_view_small s b e) as (spv & s' & H1 & H2 & _ & H3 & _); [lia..|].
  exists s'. unfold encode_data. cbn [settings_ packet_manager_]. rewrite H1. cbn [mbind option_bind].
  rewrite H3. cbn [mbind option_bind with_manager settings_].
  rewrite (encode_first _ px m b e l) by (done || lia). cbn [mbind option_bind
    PacketBuilderData.get_packet_id PacketBuilderData.get_offset PacketBuilderData.get_original_size
    PacketBuilderData.make PacketBuilderData.packet_id_ PacketBuilderData.offset_
    PacketBuilderData.original_size_].
  rewrite <- Hs, Z.add_comm, <- Hx, u16_id by (unfold is_u16; lia). fold x part.
  unfold SplittedPacket.add_data. rewrite range_full. cbn [mbind option_bind SplittedPacket.empty
    SplittedPacket.data_ SplittedPacket.packet_id_ SplittedPacket.separators_ app].
  rewrite H2. change (msize []) with 0. rewrite Z.add_0_l, Z.sub_0_r.
  change (u16 0) with 0. rewrite u16_id; [done|].
  subst part. rewrite record_frame_size. unfold is_u16. lia.
Qed.

(** C3: A packet crosses the tunnel.  One end encodes a payload below the split limit with
    its endpoints; the result is one part.  However the network cuts it into chunks,
    and with up to 19 failing receive calls, the other end's [safe_recv] returns one
    object, from which [decode_data] gives back exactly the endpoints, the transport
    metadata and the payload, and its packet manager is ready for the next packet with
    the table it had. *)
Theorem packet_crosses_tunnel s r px m b e l :
  proxy_wf px -> range m b e = Some l ->
  msize l < QVPNPacketManager.data_max_size s ->
  10 + msize (proxy_bytes px) + msize l < 65536 ->
  is_u8 (QVPNPacketManager.last_packet_id_ s) -> receiver_ready r ->
  QVPNPacketManager.lookup (QVPNPacketManager.packets_ r) (QVPNPacketManager.last_packet_id_ s) = None ->
  exists sp s' ob oe part,
    encode_data (mk default_layers s) px m b e = Some (sp, mk default_layers s') /\
    SplittedPacket.size sp = 1 /\ SplittedPacket.get_raw_packet sp 0 = Some (ob, oe) /\
    range (SplittedPacket.data_ sp) ob oe = Some part /\
    forall rs more k fuel, SafeReceive.feeds part k rs -> k < 20 ->
    exists rd b' e' r', SafeReceiveData.safe_recv (S fuel) (rs ++ more) = SafeReceiveData.Returned rd more /\
      SafeReceiveData.get_objects_num rd = 1 /\ SafeReceiveData.get_object_bytes rd 0 = Some (b', e') /\
      decode_data arrange (mk default_layers r) (SafeReceiveData.data rd) b' e' =
        Some (Some (QTunnelData.mk px l), mk default_layers r') /\ receiver_ready r' /\
      forall k, QVPNPacketManager.lookup (QVPNPacketManager.packets_ r') k =
                QVPNPacketManager.lookup (QVPNPacketManager.packets_ r) k.
Proof.
  intros Hpx Hl Hmax Hsz Hid Hr Hfree. set (x := proxy_bytes px ++ l).
  assert (Hx : msize x = msize (proxy_bytes px) + msize l) by apply msize_app.
  set (fr := frame (QVPNPacketManager.last_packet_id_ s) 0 (msize x) x).
  assert (Hfr : msize fr <= 65530).
  { subst fr. unfold frame. rewrite msize_app. change (msize (PacketBuilderData.to_bytes _)) with 5. lia. }
  destruct (encode_whole s px m b e l Hpx Hl Hmax) as (s' & HE); [fold x; lia|]. fold x fr in HE.
  eexists _, s', _, _, (QLayer.record fr). split_and!; [exact HE|done|done|apply range_full|].
  intros rs more k fuel Hf Hk. unfold QLayer.record in Hf.
  destruct (safe_recv_loop_feeds TLS12 APPLICATION_DATA fr fuel more _ k rs Hfr Hf [] SafeReceiveData.empty SFR_NO_DATA 20)
    as (st & H & _); [done|by left|done|].
  destruct (decode_whole r (QLayer.record fr) 0 (msize (QLayer.record fr))
    (QVPNPacketManager.last_packet_id_ s) px l) as (r' & HD & Hr' & Hk'); [done| |done|fold x; lia|done|done|].
  - apply range_full.
  - eexists _, _, _, r'. split_and!; [exact H|done|done|exact HD|done|done].
Qed.

(** The loop over the parts after the first, for two parts. *)
Lemma for_second {S} (body : Z -> S -> option S) x : for_loop 2 1 2 1 body x = body 1 x.
Proof. unfold for_loop. cbn. by destruct (body 1 x). Qed.

(** The sender's half at and above the split limit: two records. *)
Lemma encode_two s px m b e l l0 l1 :
  let id := QVPNPacketManager.last_packet_id_ s in
  let n := msize (proxy_bytes px) in
  let part0 := QLayer.record (frame id 0 (n + 65230) (proxy_bytes px ++ l0)) in
  let part1 := QLayer.record (frame id 32615 65230 l1) in
  QVPNPacketManager.data_max_size s = 65229 -> QVPNPacketManager.data_split_size s = 32615 ->
  proxy_wf px -> n <= 285 -> range m b e = Some l -> 65230 <= msize l < 97845 ->
  range m b (b + 32615) = Some l0 -> range m (b + 32615) (b + 65230) = Some l1 ->
  exists s', encode_data (mk default_layers s) px m b e =
    Some (SplittedPacket.mk 0 (part0 ++ part1)
            [(0, msize part0); (msize part0, msize part0 + msize part1)], mk default_layers s').
Proof.
  intros id n part0 part1 Hm Hp Hpx Hn Hl Hsz H0 H1.
  destruct (range_Some _ _ _ _ Hl) as (_ & _ & Hs & _). pose proof (msize_nonneg (proxy_bytes px)).
  destruct (range_Some _ _ _ _ H0) as (_ & _ & S0 & _). destruct (range_Some _ _ _ _ H1) as (_ & _ & S1 & _).
  assert (P0 : msize part0 = n + 32625).
  { subst part0. rewrite record_frame_size, msize_app. fold n. lia. }
  assert (P1 : msize part1 = 32625) by (subst part1; rewrite record_frame_size; lia).
  destruct (split_view_large s b e) as (spv & s' & V & V2 & G0 & G1); [done|done|lia|].
  exists s'. unfold encode_data. cbn [settings_ packet_manager_]. rewrite V. cbn [mbind option_bind].
  rewrite G0. cbn [mbind option_bind with_manager settings_].
  rewrite (encode_first _ px m b _ l0) by (done || (fold n; lia)). cbn [mbind option_bind
    PacketBuilderData.get_packet_id PacketBuilderData.get_offset PacketBuilderData.get_original_size
    PacketBuilderData.make PacketBuilderData.packet_id_ PacketBuilderData.offset_
    PacketBuilderData.original_size_].
  fold n. rewrite (Z.add_comm 65230 n), u16_id by (unfold is_u16; lia). fold id part0.
  unfold SplittedPacket.add_data at 1. rewrite range_full. cbn [mbind option_bind SplittedPacket.empty
    SplittedPacket.data_ SplittedPacket.packet_id_ SplittedPacket.separators_ app].
  rewrite V2. change (Z.to_nat 2) with 2%nat. rewrite for_second. unfold encode_part.
  change (Z.to_nat 1) with 1%nat. rewrite G1. cbn [mbind option_bind with_manager settings_].
  rewrite (encode_next _ m _ _ l1 H1) by concrete. cbn [mbind option_bind
    PacketBuilderData.get_packet_id PacketBuilderData.get_offset PacketBuilderData.get_original_size
    PacketBuilderData.make PacketBuilderData.packet_id_ PacketBuilderData.offset_
    PacketBuilderData.original_size_].
  fold id part1. unfold SplittedPacket.add_data. rewrite range_full.
  cbn [mbind option_bind SplittedPacket.data_ SplittedPacket.packet_id_ SplittedPacket.separators_ app].
  change (msize []) with 0. rewrite Z.add_0_l, !Z.sub_0_r, !u16_id by (unfold is_u16; lia). done.
Qed.

(** C39: A large packet crosses the tunnel in two parts, cut.  With the default limits, a
    payload of 65230 to 97844 bytes is encoded as two records; the first one completes
    no packet, and after the second [decode_data] gives the endpoints, the transport
    metadata and the first 65230 bytes of the payload.  The rest is not sent: only a
    payload of exactly 65230 bytes arrives whole. *)
Theorem large_packet_crosses_cut s r px m b e l :
  QVPNPacketManager.data_max_size s = 65229 -> QVPNPacketManager.data_split_size s = 32615 ->
  proxy_wf px -> bytes (proxy_bytes px) -> msize (proxy_bytes px) <= 285 ->
  bytes m -> range m b e = Some l -> 65230 <= msize l < 97845 ->
  is_u8 (QVPNPacketManager.last_packet_id_ s) -> receiver_ready r ->
  QVPNPacketManager.lookup (QVPNPacketManager.packets_ r) (QVPNPacketManager.last_packet_id_ s) = None ->
  exists sp s' o0 o1 o2 r1 r' l',
    encode_data (mk default_layers s) px m b e = Some (sp, mk default_layers s') /\
    SplittedPacket.separators_ sp = [(o0, o1); (o1, o2)] /\
    decode_data arrange (mk default_layers r) (SplittedPacket.data_ sp) o0 o1 =
      Some (None, mk default_layers r1) /\
    decode_data arrange (mk default_layers r1) (SplittedPacket.data_ sp) o1 o2 =
      Some (Some (QTunnelData.mk px l'), mk default_layers r') /\
    range m b (b + 65230) = Some l' /\ receiver_ready r' /\
    forall k, QVPNPacketManager.lookup (QVPNPacketManager.packets_ r') k =
              QVPNPacketManager.lookup (QVPNPacketManager.packets_ r) k.
Proof.
  intros Hm Hp Hpx Hpb Hn Hb Hl Hsz Hid Hr Hfree. destruct (range_Some _ _ _ _ Hl) as (Hb0 & He & Hs & _).
  destruct (range m b (b + 32615)) as [l0|] eqn:R0; [|by rewrite range_in in R0 by lia].
  destruct (range m (b + 32615) (b + 65230)) as [l1|] eqn:R1; [|by rewrite range_in in R1 by lia].
  destruct (range_Some _ _ _ _ R0) as (_ & _ & S0 & _). destruct (range_Some _ _ _ _ R1) as (_ & _ & S1 & _).
  destruct (encode_two s px m b e l l0 l1) as (s' & HE); [done..|]. pose proof (msize_nonneg (proxy_bytes px)).
  assert (S0x : msize (proxy_bytes px ++ l0) = msize (proxy_bytes px) + 32615) by (rewrite msize_app; lia).
  destruct (two_frames_delivered arrange arrange_perm r (QVPNPacketManager.last_packet_id_ s)
    (proxy_bytes px ++ l0) l1 32615 65230) as (r1 & r2 & r3 & p & r4 & B0 & F0 & _ & B1 & F1 & G & E & R & L);
    [done|done|done|apply bytes_app; split; [done|by apply (range_bytes _ _ _ _ Hb R0)]|lia..|].
  replace (msize (proxy_bytes px ++ l0) + msize l1) with (msize (proxy_bytes px) + 65230) in B0 by lia.
  set (fr0 := frame _ 0 _ _) in *. set (fr1 := frame _ 32615 _ _) in *.
  eexists _, s', _, _, _, r1, r4, (l0 ++ l1). split_and!; [exact HE|done| | |by apply (range_app _ _ _ _ _ _ R0 R1)|done|done];
    unfold decode_data; cbn [settings_ packet_manager_ SplittedPacket.data_].
  - rewrite (default_decode_record _ _ _ fr0); [|apply range_app_l|].
    + cbn [mbind option_bind]. rewrite B0. cbn [mbind option_bind]. by rewrite F0.
    + subst fr0. unfold frame. rewrite msize_app. change (msize (PacketBuilderData.to_bytes _)) with 5. lia.
  - rewrite (default_decode_record _ _ _ fr1).
    + cbn [mbind option_bind]. rewrite B1. cbn [mbind option_bind]. rewrite F1, G. cbn [mbind option_bind].
      rewrite E, <- app_assoc. by rewrite parse_proxy_bytes.
    + rewrite range_app_r, Z.sub_diag by lia. rewrite Z.add_simpl_l. apply range_full.
    + subst fr1. unfold frame. rewrite msize_app. change (msize (PacketBuilderData.to_bytes _)) with 5. lia.
Qed.

End Tunnel.

Lemma packet_crosses_tunnel_witness :
  let px := QTunnelProxy.mk IPv4 TCP [10; 0; 0; 1] 443 [10; 0; 0; 2] 5555 [0; 1; 9] in
  let d := TunnelDriver.mk default_layers QVPNPacketManager.initial in
  exists sp d' ob oe part,
    TunnelDriver.encode_data d px [7; 8] 0 2 = Some (sp, d') /\
    SplittedPacket.get_raw_packet sp 0 = Some (ob, oe) /\
    range (SplittedPacket.data_ sp) ob oe = Some part /\
    exists rd b' e' d'', SafeReceiveData.safe_recv 1 [mkReceive (mkStatus true 0) (msize part) part] =
        SafeReceiveData.Returned rd [] /\
      TunnelDriver.decode_data (fun l => l) d (SafeReceiveData.data rd) b' e' =
        Some (Some (QTunnelData.mk px [7; 8]), d'').
Proof.
  intros px d.
  destruct (packet_crosses_tunnel (fun l => l) (fun l => Permutation_refl l)
    QVPNPacketManager.initial QVPNPacketManager.initial px [7; 8] 0 2 [7; 8])
    as (sp & s' & ob & oe & part & H1 & _ & H2 & H3 & H4).
  - split; [left; split; [reflexivity|split; reflexivity]|].
    split; [concrete|]. split; [concrete|]. split; [concrete|]. exists [9]. split; reflexivity.
  - reflexivity.
  - reflexivity.
  - reflexivity.
  - concrete.
  - split; [apply initial_wf|reflexivity].
  - reflexivity.
  - exists sp, (TunnelDriver.mk default_layers s'), ob, oe, part. split; [exact H1|].
    split; [exact H2|]. split; [exact H3|].
    assert (Hne : part <> []).
    { intros ->. assert (E : match TunnelDriver.encode_data d px [7; 8] 0 2 with
        | Some (p, _) => Some (SplittedPacket.data_ p, SplittedPacket.get_raw_packet p 0)
        | None => None end = Some (SplittedPacket.data_ sp, Some (ob, oe)))
        by (unfold d; rewrite H1, H2; reflexivity).
      revert E H3. clear. generalize (SplittedPacket.data_ sp). intros data E H3.
      vm_compute in E. injection E as <- <- <-. vm_compute in H3. discriminate H3. }
    destruct (H4 [mkReceive (mkStatus true 0) (msize part) part] [] 0 0%nat)
      as (rd & b' & e' & r' & G1 & _ & _ & G2 & _).
    + apply feeds_last; [reflexivity|apply range_full|exact Hne].
    + lia.
    + cbn [app] in G1. exists rd, b', e', (TunnelDriver.mk default_layers r').
      split; [exact G1|exact G2].
Defined.

Lemma large_packet_crosses_cut_witness :
  let px := QTunnelProxy.mk IPv4 TCP [10; 0; 0; 1] 443 [10; 0; 0; 2] 5555 [0; 1; 9] in
  let d := TunnelDriver.mk default_layers QVPNPacketManager.initial in
  let m := repeat 7 (Z.to_nat 65230) in
  exists sp d' o0 o1 o2 d1 d2,
    TunnelDriver.encode_data d px m 0 65230 = Some (sp, d') /\
    TunnelDriver.decode_data (fun l => l) d (SplittedPacket.data_ sp) o0 o1 = Some (None, d1) /\
    TunnelDriver.decode_data (fun l => l) d1 (SplittedPacket.data_ sp) o1 o2 =
      Some (Some (QTunnelData.mk px m), d2).
Proof.
  intros px d m.
  assert (Hsz : msize m = 65230) by (unfold m, msize; rewrite repeat_length, Z2Nat.id by lia; reflexivity).
  assert (Hm : range m 0 65230 = Some m) by (rewrite <- Hsz; apply range_full).
  destruct (large_packet_crosses_cut (fun l => l) (fun l => Permutation_refl l)
    QVPNPacketManager.initial QVPNPacketManager.initial px m 0 65230 m)
    as (sp & s' & o0 & o1 & o2 & r1 & r' & l' & H1 & _ & H2 & H3 & H4 & _).
  - reflexivity.
  - reflexivity.
  - split; [left; split; [reflexivity|split; reflexivity]|].
    split; [concrete|]. split; [concrete|]. split; [concrete|]. exists [9]. split; reflexivity.
  - concrete.
  - vm_compute. discriminate.
  - apply List.Forall_forall. intros x Hx. apply repeat_spec in Hx as ->. concrete.
  - exact Hm.
  - rewrite Hsz. lia.
  - concrete.
  - split; [apply initial_wf|reflexivity].
  - reflexivity.
  - change (0 + 65230) with 65230 in H4. rewrite Hm in H4. injection H4 as <-.
    exists sp, (TunnelDriver.mk default_layers s'), o0, o1, o2, (TunnelDriver.mk default_layers r1),
      (TunnelDriver.mk default_layers r'). split; [exact H1|]. split; [exact H2|exact H3].
Defined.

(** The receiver does not check what it decodes: a fragment that completes a packet of one
    byte, and a record shorter than its header, are read past their end. *)
Example short_packet_undefined :
  TunnelDriver.decode_data (fun l => l) (TunnelDriver.mk default_layers QVPNPacketManager.initial)
    (QLayer.record (frame 0 0 1 [4])) 0 11 = None /\
  TunnelDriver.decode_data (fun l => l) (TunnelDriver.mk default_layers QVPNPacketManager.initial)
    [23; 3; 3] 0 3 = None.
Proof. split; vm_compute; reflexivity. Qed.

(** * What is on the wire *)

Section Wire.
Import TunnelDriver.

(** Encoding advances the packet id and leaves the rest of the driver alone. *)
Lemma encode_data_driver d px m b e sp d' :
  encode_data d px m b e = Some (sp, d') ->
  d' = with_manager d (snd (QVPNPacketManager.next_packet_id (packet_manager_ d))).
Proof.
  unfold encode_data. intros ([spv pm] & Hs & E)%bind_Some.
  apply bind_Some in E as ([[pb x] y] & _ & (fst_ & _ & (sp0 & _ & (sp1 & _ & [= _ <-])%bind_Some)
    %bind_Some)%bind_Some). f_equal.
  unfold QVPNPacketManager.split_packet_view in Hs.
  destruct (QVPNPacketManager.next_packet_id (packet_manager_ d)) as [id s] eqn:En. cbn [snd].
  case_match; [|by injection Hs]. by apply bind_Some in Hs as ([[? ?] ?] & _ & [= _ ->]).
Qed.

(** A whole TLS 1.2 application-data record, made of bytes. *)
Definition record_wf (part : mem) : Prop :=
  bytes part /\ load part 0 = Some APPLICATION_DATA /\ load16 part 1 = Some TLS12 /\
  load16 part 3 = Some (msize part - 5) /\ 5 <= msize part < 65536.

Lemma frame_record_wf id off total x :
  is_u8 id -> bytes x -> 5 + msize x <= 65530 ->
  record_wf (QLayer.record (frame id off total x)).
Proof.
  intros Hid Hx Hsz. pose proof (record_frame_size id off total x) as S1. pose proof (msize_nonneg x).
  assert (S2 : msize (frame id off total x) = 5 + msize x)
    by (unfold frame; rewrite msize_app; reflexivity).
  assert (Bf : bytes (frame id off total x)).
  { apply bytes_app. split; [|done]. unfold PacketBuilderData.to_bytes. byte_list. }
  assert (E : QLayer.record (frame id off total x) =
    [23; 3; 3; octet 1 (5 + msize x); octet 0 (5 + msize x)] ++ frame id off total x).
  { unfold QLayer.record. rewrite generate_record_eq, S2, u16_id by (unfold is_u16; lia). reflexivity. }
  split_and!; [|rewrite E; reflexivity|rewrite E; reflexivity| |lia|lia].
  - rewrite E. apply bytes_app. split; [|exact Bf]. byte_list.
  - rewrite S1, E. refine (eq_trans (f_equal Some (cat16_octets (5 + msize x) _)) _).
    + unfold is_u16. lia.
    + f_equal. lia.
Qed.

(** A driver with the default limits. *)
Definition sender_wf (s : QVPNPacketManager.t) : Prop :=
  QVPNPacketManager.data_max_size s = 65229 /\ QVPNPacketManager.data_split_size s = 32615 /\
  is_u8 (QVPNPacketManager.last_packet_id_ s).

(** A payload of 65229 bytes is at the limit and shorter than two fragments: one is made. *)
Lemma encode_one s px m b e l l0 :
  let id := QVPNPacketManager.last_packet_id_ s in
  let x := proxy_bytes px ++ l0 in
  let part := QLayer.record (frame id 0 (msize x) x) in
  QVPNPacketManager.data_max_size s = 65229 -> QVPNPacketManager.data_split_size s = 32615 ->
  proxy_wf px -> msize (proxy_bytes px) <= 285 -> range m b e = Some l -> msize l = 65229 ->
  range m b (b + 32615) = Some l0 ->
  exists s', encode_data (mk default_layers s) px m b e =
    Some (SplittedPacket.mk 0 part [(0, msize part)], mk default_layers s').
Proof.
  intros id x part Hm Hp Hpx Hn Hl Hsz H0. destruct (range_Some _ _ _ _ Hl) as (_ & _ & Hs & _).
  destruct (range_Some _ _ _ _ H0) as (_ & _ & S0 & _). pose proof (msize_nonneg (proxy_bytes px)).
  assert (Hx : msize x = msize (proxy_bytes px) + 32615) by (unfold x; rewrite msize_app; lia).
  eexists. unfold encode_data. cbn [settings_ packet_manager_].
  unfold QVPNPacketManager.split_packet_view, QVPNPacketManager.next_packet_id,
    QVPNPacketManager.split_bounds.
  cbn [QVPNPacketManager.data_max_size QVPNPacketManager.data_split_size]. rewrite Hm, Hp.
  destruct (Z.leb_spec 65229 (e - b)) as [_|]; [|lia].
  assert ((e - b) / 32615 = 1) as -> by (Z.div_mod_to_equations; lia).
  change (Z.to_nat (u8 1)) with 1%nat. change (u8 1) with 1. rewrite for_loop_1.
  destruct (Z.ltb_spec e (b + 32615)); [lia|]. cbn [mbind option_bind].
  replace (b + 0 * 32615) with b by lia.
  set (spv := SplittedPacketView.add_data _ _ _).
  assert (G0 : SplittedPacketView.get_raw_with_pb_data spv 0 =
    Some (PacketBuilderData.make id 0 32615, b, b + 32615)).
  { unfold spv, SplittedPacketView.get_raw_with_pb_data. simpl.
    replace (b + 32615 - b) with 32615 by lia. by rewrite Z.add_0_r. }
  assert (V : SplittedPacketView.size spv = 1) by done.
  rewrite G0. cbn [mbind option_bind with_manager settings_].
  rewrite (encode_first _ px m b _ l0); [|done|done|lia]. cbn [mbind option_bind
    PacketBuilderData.get_packet_id PacketBuilderData.get_offset PacketBuilderData.get_original_size
    PacketBuilderData.make PacketBuilderData.packet_id_ PacketBuilderData.offset_
    PacketBuilderData.original_size_].
  rewrite (Z.add_comm 32615), <- Hx, u16_id by (unfold is_u16; lia). fold x part.
  unfold SplittedPacket.add_data. rewrite range_full. cbn [mbind option_bind SplittedPacket.empty
    SplittedPacket.data_ SplittedPacket.packet_id_ SplittedPacket.separators_ app].
  rewrite V. change (msize []) with 0. rewrite Z.add_0_l, Z.sub_0_r.
  change (u16 0) with 0. rewrite u16_id; [done|].
  subst part. rewrite record_frame_size. unfold is_u16. lia.
Qed.

(** What the theorem below says of a packet that is encoded. *)
Definition sends_records (s : QVPNPacketManager.t) px m b e : Prop :=
  exists sp s' parts,
    encode_data (mk default_layers s) px m b e = Some (sp, mk default_layers s') /\ sender_wf s' /\
    SplittedPacket.data_ sp = concat parts /\ Forall record_wf parts /\
    ((fun '(b, e) => range (SplittedPacket.data_ sp) b e) <$> SplittedPacket.separators_ sp) =
      (Some <$> parts).

Lemma sender_wf_keeps s px m b e sp s' :
  sender_wf s -> encode_data (mk default_layers s) px m b e = Some (sp, mk default_layers s') ->
  sender_wf s'.
Proof.
  intros (Hm & Hp & _) E. apply encode_data_driver in E. injection E as ->.
  split_and!; [done|done|apply u8_is_u8].
Qed.

Lemma one_part_records s px m b e x :
  let part := QLayer.record (frame (QVPNPacketManager.last_packet_id_ s) 0 (msize x) x) in
  sender_wf s -> bytes x -> 5 + msize x <= 65530 ->
  (exists s', encode_data (mk default_layers s) px m b e =
     Some (SplittedPacket.mk 0 part [(0, msize part)], mk default_layers s')) ->
  sends_records s px m b e.
Proof.
  intros part Hs Bx Sx (s' & E). eexists _, s', [part]. split_and!; [exact E|by eapply sender_wf_keeps| | |].
  - cbn. by rewrite app_nil_r.
  - apply Forall_singleton. apply frame_record_wf; [apply Hs|done|done].
  - cbn. by rewrite range_full.
Qed.

(** C10: Whatever an IP packet can carry, everything the sender puts on the wire is a
    concatenation of well-formed TLS application-data records, one per part and cut where the
    separators say, and the sender keeps its limits and a packet id of one byte. *)
Theorem wire_well_formed s px m b e l :
  sender_wf s -> proxy_wf px -> bytes (proxy_bytes px) -> msize (proxy_bytes px) <= 285 ->
  bytes m -> range m b e = Some l -> msize l < 97845 ->
  exists sp s' parts,
    encode_data (mk default_layers s) px m b e = Some (sp, mk default_layers s') /\ sender_wf s' /\
    SplittedPacket.data_ sp = concat parts /\ Forall record_wf parts /\
    ((fun '(b, e) => range (SplittedPacket.data_ sp) b e) <$> SplittedPacket.separators_ sp) =
      (Some <$> parts).
Proof.
  intros Hwf Hpx Bpx Hn Bm Hl Hsz. pose proof Hwf as (Hm & Hp & Hid).
  pose proof (range_bytes _ _ _ _ Bm Hl) as Bl.
  destruct (range_Some _ _ _ _ Hl) as (Hb0 & He & Hs & _). pose proof (msize_nonneg (proxy_bytes px)).
  destruct (Z.lt_trichotomy (msize l) 65229) as [Hlt|[Heq|Hgt]].
  - apply (one_part_records s px m b e (proxy_bytes px ++ l) Hwf);
      [by apply bytes_app|rewrite msize_app; lia|apply (encode_whole s px m b e l); done || (rewrite ?msize_app; lia)].
  - destruct (range m b (b + 32615)) as [l0|] eqn:R0; [|by rewrite range_in in R0 by lia].
    destruct (range_Some _ _ _ _ R0) as (_ & _ & S0 & _).
    apply (one_part_records s px m b e (proxy_bytes px ++ l0) Hwf);
      [apply bytes_app; split; [done|by apply (range_bytes _ _ _ _ Bm R0)]|rewrite msize_app; lia
      |by apply (encode_one s px m b e l l0)].
  - destruct (range m b (b + 32615)) as [l0|] eqn:R0; [|by rewrite range_in in R0 by lia].
    destruct (range m (b + 32615) (b + 65230)) as [l1|] eqn:R1; [|by rewrite range_in in R1 by lia].
    destruct (range_Some _ _ _ _ R0) as (_ & _ & S0 & _). destruct (range_Some _ _ _ _ R1) as (_ & _ & S1 & _).
    destruct (encode_two s px m b e l l0 l1) as (s' & E); [done..|lia|done|done|].
    eexists _, s', [QLayer.record (frame _ 0 _ (proxy_bytes px ++ l0)); QLayer.record (frame _ 32615 _ l1)].
    split_and!; [exact E|by eapply sender_wf_keeps| | |].
    + cbn [concat SplittedPacket.data_]. rewrite app_nil_r. reflexivity.
    + apply Forall_cons. split; [|apply Forall_singleton]; apply frame_record_wf; try done.
      * apply bytes_app. split; [done|by apply (range_bytes _ _ _ _ Bm R0)].
      * rewrite msize_app. lia.
      * by apply (range_bytes _ _ _ _ Bm R1).
      * lia.
    + cbn [SplittedPacket.data_ SplittedPacket.separators_ fmap list_fmap].
      rewrite range_app_l. rewrite range_app_r, Z.sub_diag by lia. by rewrite Z.add_simpl_l, range_full.
Qed.

Lemma wire_well_formed_witness :
  let px := QTunnelProxy.mk IPv4 TCP [10; 0; 0; 1] 443 [10; 0; 0; 2] 5555 [0; 1; 9] in
  exists sp s' parts,
    encode_data (mk default_layers QVPNPacketManager.initial) px [7; 8] 0 2 =
      Some (sp, mk default_layers s') /\
    SplittedPacket.data_ sp = concat parts /\ Forall record_wf parts.
Proof.
  intros px.
  destruct (wire_well_formed QVPNPacketManager.initial px [7; 8] 0 2 [7; 8])
    as (sp & s' & parts & E & _ & D & F & _).
  - split_and!; [reflexivity|reflexivity|concrete].
  - split; [left; split; [reflexivity|split; reflexivity]|].
    split; [concrete|]. split; [concrete|]. split; [concrete|]. exists [9]. split; reflexivity.
  - concrete.
  - vm_compute. discriminate.
  - concrete.
  - reflexivity.
  - reflexivity.
  - exists sp, s', parts. split; [exact E|]. split; [exact D|exact F].
Defined.

End Wire.

(** * Sending *)

Section Sending.
Context `{Socket}.

(** The socket after [k] calls of [reconnect]. *)
Definition after_reconnects (k : nat) (s : socket) : socket :=
  Nat.iter k (fun s => snd (sock_reconnect s)) s.

Lemma after_reconnects_S k s :
  after_reconnects (S k) s = after_reconnects k (snd (sock_reconnect s)).
Proof. unfold after_reconnects. by rewrite Nat.iter_succ_r. Qed.

(** [try_reconnect] calls [reconnect] until the first success, and at most
    [reconnect_number] times; it reports whether one succeeded. *)
Lemma try_reconnect_spec n s :
  exists k, (k <= Z.to_nat n)%nat /\
    (forall j, (S j < k)%nat -> fst (sock_reconnect (after_reconnects j s)) = false) /\
    QVPNClientDriver.try_reconnect n s =
      (match k with O => false | S j => fst (sock_reconnect (after_reconnects j s)) end,
       after_reconnects k s) /\
    (fst (QVPNClientDriver.try_reconnect n s) = false -> k = Z.to_nat n).
Proof.
  unfold QVPNClientDriver.try_reconnect. generalize (Z.to_nat n). clear n. intros n. revert s.
  induction n as [|n IH]; intros s; cbn [QVPNClientDriver.reconnect_loop].
  - exists 0%nat. split_and!; [lia|lia|done|done].
  - unfold QVPNClientDriver.reconnect. destruct (sock_reconnect s) as [ok s1] eqn:E. destruct ok.
    + exists 1%nat. split_and!; [lia|lia| |done]. cbn. by rewrite E.
    + destruct (IH s1) as (k & Hk & Hf & Ht & Hn). exists (S k).
      assert (A : forall j, after_reconnects (S j) s = after_reconnects j s1)
        by (intros j; by rewrite after_reconnects_S, E).
      split_and!; [lia| | |intros F; by rewrite Hn].
      * intros [|j] Hj; [cbn; by rewrite E|]. rewrite A. apply Hf. lia.
      * rewrite Ht, A. destruct k as [|j]; [cbn; by rewrite E|]. by rewrite A.
Qed.

(** Sending what [encode_data] made one part of is one [send]; when it fails, the client
    reconnects, and authorizes again exactly when that succeeded, but does not send the
    packet again. *)
Lemma client_send_one d d' sock px m b e part :
  TunnelDriver.encode_data d px m b e = Some (SplittedPacket.mk 0 part [(0, msize part)], d') ->
  QVPNClientDriver.encode_and_send d sock px m b e =
    let '(res, sock1) := sock_send sock part in
    if res then Some (d', sock1, false)
    else let '(success, sock2) := QVPNClientDriver.try_reconnect 20 sock1 in
         Some (d', sock2, success).
Proof.
  intros HE. unfold QVPNClientDriver.encode_and_send, QVPNClientDriver.encode_data. rewrite HE.
  cbn [mbind option_bind SplittedPacket.separators_ length TunnelDriver.send_parts].
  unfold SplittedPacket.get_raw_packet. cbn [SplittedPacket.separators_ lookup list_lookup mbind option_bind
    SplittedPacket.data_]. rewrite range_full. cbn [mbind option_bind].
  destruct (sock_send sock part) as [[] sock1]; [done|]. cbn [mbind option_bind]. done.
Qed.

(** The server ignores what [send] reports. *)
Lemma server_send_one d d' sock px m b e part :
  TunnelDriver.encode_data d px m b e = Some (SplittedPacket.mk 0 part [(0, msize part)], d') ->
  QVPNServerDriver.encode_and_send d sock px m b e = Some (d', snd (sock_send sock part)).
Proof.
  intros HE. unfold QVPNServerDriver.encode_and_send, QVPNServerDriver.encode_data. rewrite HE.
  cbn [mbind option_bind SplittedPacket.separators_ length TunnelDriver.send_parts].
  unfold SplittedPacket.get_raw_packet. cbn [SplittedPacket.separators_ lookup list_lookup mbind option_bind
    SplittedPacket.data_]. rewrite range_full. cbn [mbind option_bind].
  by destruct (sock_send sock part) as [[] sock1].
Qed.

End Sending.

(** * Authorization *)

(** What the client puts into the session id, the server reads back, for keys and user
    names of at most 255 bytes, wherever the block lies in the record. *)
Theorem auth_roundtrip pre post method key user :
  is_u16 method -> msize key < 256 -> msize user < 256 ->
  QVPNServerDriver.parse_auth
    (inside pre post (QVPNClientDriver.crypto_data method key user)) (msize pre) =
  Some (method, key, user).
Proof.
  intros Hm Hk Hu. pose proof (msize_nonneg key). pose proof (msize_nonneg user).
  unfold QVPNClientDriver.crypto_data. rewrite !u8_id by (unfold is_u8; lia).
  set (h := [octet 1 method; octet 0 method; msize key]).
  set (h2 := h ++ key ++ [msize user]).
  change ([octet 1 method; octet 0 method] ++ [msize key] ++ ?x) with (h ++ x).
  assert (Hh : msize h = 3) by done.
  assert (Hh2 : msize h2 = 4 + msize key).
  { subst h2. rewrite !msize_app, Hh. change (msize [_]) with 1. lia. }
  unfold QVPNServerDriver.parse_auth, inside.
  assert (load16 (pre ++ (h ++ key ++ [msize user] ++ user) ++ post) (msize pre) = Some method) as ->.
  { replace (msize pre) with (msize pre + 0) by lia. apply load16_inside.
    refine (f_equal Some (cat16_octets _ Hm)). }
  cbn [mbind option_bind].
  assert (load (pre ++ (h ++ key ++ [msize user] ++ user) ++ post) (msize pre + 2) = Some (msize key)) as ->
    by (by apply load_inside).
  cbn [mbind option_bind].
  assert (range (pre ++ (h ++ key ++ [msize user] ++ user) ++ post) (msize pre + 3)
            (msize pre + msize key + (2 + 1)) = Some key) as ->.
  { replace (msize pre + msize key + (2 + 1)) with (msize pre + 3 + msize key) by lia.
    replace (msize pre + 3) with (msize (pre ++ h)) by (rewrite msize_app; lia).
    rewrite !app_assoc, <- (app_assoc _ _ user), <- (app_assoc _ _ post), <- (app_assoc _ _ (_ ++ post)).
    apply range_inside_all. }
  cbn [mbind option_bind].
  assert (load (pre ++ (h ++ key ++ [msize user] ++ user) ++ post) (msize pre + (2 + 1 + msize key))
          = Some (msize user)) as ->.
  { apply load_inside. rewrite app_assoc, load_app_r by (rewrite msize_app; lia).
    rewrite msize_app, Hh. by replace (2 + 1 + msize key - (3 + msize key)) with 0 by lia. }
  cbn [mbind option_bind].
  assert (range (pre ++ (h ++ key ++ [msize user] ++ user) ++ post) (msize pre + (2 + 1 + msize key + 1))
    (msize pre + msize user + (2 + 1 + msize key + 1)) = Some user) as ->; [|done].
  replace (msize pre + msize user + (2 + 1 + msize key + 1))
    with (msize pre + (2 + 1 + msize key + 1) + msize user) by lia.
  replace (msize pre + (2 + 1 + msize key + 1)) with (msize (pre ++ h2)) by (rewrite msize_app; lia).
  replace (pre ++ (h ++ key ++ [msize user] ++ user) ++ post) with ((pre ++ h2) ++ user ++ post).
  - apply range_inside_all.
  - subst h2. by rewrite <- !app_assoc.
Qed.

Lemma auth_roundtrip_witness :
  QVPNServerDriver.parse_auth (0 :: QVPNClientDriver.crypto_data 1 [107; 101] [117]) 1 =
  Some (1, [107; 101], [117]).
Proof.
  apply (auth_roundtrip [0] [] 1 [107; 101] [117]); [concrete|reflexivity|reflexivity].
Defined.
