(* ===== verification/Handshake.v ===== *)
(** Authorization: [init] of the client's driver and an iteration of
    [listen_and_connect_socket_] of the server's (src/QVPN/QVPN Lib/include/qvpn_driver.hpp).
    The client puts its credentials into the session id of a client hello; the server takes
    them out again, asks its database for the user and starts the thread of the tunnel. *)
From S2P Require Import Prelude TlsRecord TlsHello SafeReceive Driver.

(** What the authorization asks of a socket besides [send]. *)
Class AuthSocket `{Socket} := {
  sock_receive : socket -> ReceiveData * socket;
  sock_shutdown : socket -> socket;
  sock_disconnect : socket -> socket;
  sock_close : socket -> socket }.

(** A handshake record around a hello, as both ends build it. *)
Definition handshake_record (msg_type : Z) (hello : mem) : mem :=
  TLS13_RecordLittleEndian.generate_object_bytes
    TLS13_DefaultRecordGenerationStrategy.get_legacy_version
    TLS13_MessageLittleEndian.get_overlay_protocol_type
    (TLS13_MessageLittleEndian.generate_object_bytes msg_type hello).

Module ClientAuth.
Section Init.
Context `{Randomness} `{AuthSocket}.

(** What [init] reads from the settings: [get_auth_data], [get_crypto_method], [get_key] and
    the host that [get_whitelist_element] picks. *)
Record settings := mk_settings {
  auth_data : mem; crypto_method : Z; key : mem; whitelist_element : mem }.

Definition tls_data (st : settings) (d : draws) : option mem :=
  let crypto_data := QVPNClientDriver.crypto_data (crypto_method st) (key st) (auth_data st) in
  hello ← TLS13_ClientHelloPacketLittleEndian.generate_object_bytes_host d (whitelist_element st)
            crypto_data 0 (msize crypto_data);
  Some (handshake_record TLS13_ClientHelloPacketLittleEndian.get_overlay_protocol_type hello).

(** The checks of the answer.  The record view spans the whole receive buffer. *)
Definition check_reply (receive_data : ReceiveData) : option bool :=
  let server_hello_data := rd_data receive_data in
  if negb (success (rd_status receive_data)) then Some false else
  let rec := TLS13_RecordView.make 0 (msize server_hello_data) in
  ty ← TLS13_RecordView.get_tls_record_type server_hello_data rec;
  if negb (ty =? HANDSHAKE) then Some false else
  let '(m_b, m_e) := TLS13_RecordView.get_tls_record_data rec in
  mes ← TLS13_MessageView.make server_hello_data m_b m_e;
  mty ← TLS13_MessageView.get_tls_msg_type server_hello_data mes;
  if negb (mty =? SERVER_HELLO) then Some false else
  let '(b, e) := TLS13_MessageView.get_tls_msg_data mes in
  sh ← TLS13_ServerHelloPacketView.make server_hello_data b e;
  Some true.

Definition init (st : settings) (d : draws) (s : socket) : option (bool * socket) :=
  tls_data ← tls_data st d;
  let '(res, s) := sock_send s tls_data in
  let '(receive_data, s) := sock_receive s in
  ok ← check_reply receive_data;
  if negb ok then Some (false, s) else Some (res, s).

End Init.
End ClientAuth.

Module ServerAuth.
Section Accept.
Context `{Randomness} `{AuthSocket}.
(** [Database::check_user]. *)
Context (check_user : mem -> bool).

(** What becomes of the accepted socket: it is closed, or it is handed to the thread that runs
    [process_socket_] for [user]. *)
Inductive verdict : Type :=
  | Rejected
  | Accepted (user : mem).

Definition reject (s : socket) : verdict * socket :=
  (Rejected, sock_close (sock_disconnect (sock_shutdown s))).

(** The iteration behind a successful [listen], with the socket that [accept] returned. *)
Definition accept_client (d : draws) (client_socket : socket) : option (verdict * socket) :=
  let '(receive_data, client_socket) := sock_receive client_socket in
  let data := rd_data receive_data in
  let len := rd_size receive_data in
  if negb (success (rd_status receive_data)) then Some (reject client_socket) else
  let rec := TLS13_RecordView.make 0 len in
  ty ← TLS13_RecordView.get_tls_record_type data rec;
  if negb (ty =? HANDSHAKE) then Some (reject client_socket) else
  let '(mb, me) := TLS13_RecordView.get_tls_record_data rec in
  mes ← TLS13_MessageView.make data mb me;
  mty ← TLS13_MessageView.get_tls_msg_type data mes;
  if negb (mty =? CLIENT_HELLO) then Some (reject client_socket) else
  let '(h_b, h_e) := TLS13_MessageView.get_tls_msg_data mes in
  client_hello ← TLS13_ClientHelloPacketView.make data h_b h_e;
  crypto_data ← TLS13_ClientHelloPacketView.get_tls_session data client_hello;
  let '(d_b, d_e) := TLSSessionIDView.get_tls_id crypto_data in
  '(crypto_method, key, user) ← QVPNServerDriver.parse_auth data d_b;
  if negb (check_user user) then Some (reject client_socket) else
  hello ← TLS13_ServerHelloPacketLittleEndian.generate_object_bytes d;
  let tls_data := handshake_record TLS13_ServerHelloPacketLittleEndian.get_overlay_protocol_type hello in
  let '(res, client_socket) := sock_send client_socket tls_data in
  if res then Some (Accepted user, client_socket) else Some (reject client_socket).

(** The loop of [listen_and_connect_socket_] over the threads it has started: a [listen] that
    fails, a client that is turned away, a client whose thread is started. *)
Inductive listen_step : list (socket * mem) -> list (socket * mem) -> Prop :=
  | listen_failed threads : listen_step threads threads
  | listen_rejected threads d s s' :
      accept_client d s = Some (Rejected, s') -> listen_step threads threads
  | listen_accepted threads d s user s' :
      accept_client d s = Some (Accepted user, s') -> listen_step threads (threads ++ [(s', user)]).

End Accept.
End ServerAuth.

(** * A handshake record in a receive buffer *)

(** The nine bytes in front of a hello. *)
Definition handshake_prefix (ty : Z) (hello : mem) : mem :=
  let size := u16 (4 + msize hello) in
  [HANDSHAKE; 3; 3; octet 1 size; octet 0 size;
   ty; octet 2 (msize hello); octet 1 (msize hello); octet 0 (msize hello)].

Section Record.
Context (ty : Z) (hello rest : mem).
Context (Hty : is_u8 ty) (Hn : msize hello < 16777216).

Lemma handshake_record_eq : handshake_record ty hello = handshake_prefix ty hello ++ hello.
Proof.
  unfold handshake_record, handshake_prefix. rewrite generate_record_eq, generate_message_eq.
  pose proof (msize_nonneg hello). rewrite (u8_id ty) by done. rewrite u32_id by (unfold is_u32; lia).
  rewrite msize_app. done.
Qed.

Definition received : mem := handshake_record ty hello ++ rest.

Lemma received_inside : received = inside (handshake_prefix ty hello) rest hello.
Proof. unfold received, inside. rewrite handshake_record_eq. by rewrite app_assoc. Qed.

Lemma received_type : load received 0 = Some HANDSHAKE.
Proof. rewrite received_inside. reflexivity. Qed.

Lemma received_message e :
  TLS13_MessageView.make received 5 e = Some (TLS13_MessageView.mk 5 (4 + msize hello)) /\
  load received 5 = Some ty.
Proof.
  destruct (message_view [HANDSHAKE; 3; 3; octet 1 (u16 (4 + msize hello)); octet 0 (u16 (4 + msize hello))]
    rest ty hello Hty Hn) as [Hm Ht].
  rewrite received_inside. rewrite generate_message_eq, u8_id, u32_id in Hm, Ht
    by (done || (pose proof (msize_nonneg hello); unfold is_u32; lia)).
  unfold inside in *. split; [exact Hm|exact Ht].
Qed.

End Record.

Section Authorization.
Context `{Randomness} `{AuthSocket}.
Import ClientAuth ServerAuth.

(** Credentials that fit: the sizes inside the block and the block itself are single bytes. *)
Record fits (st : settings) : Prop := {
  fits_method : is_u16 (crypto_method st);
  fits_block : 4 + msize (key st) + msize (auth_data st) < 256;
  fits_host : msize (whitelist_element st) <= 60000 }.

Definition credentials (st : settings) : mem :=
  QVPNClientDriver.crypto_data (crypto_method st) (key st) (auth_data st).
Definition request_hello (st : settings) (d : draws) : mem :=
  hello d (whitelist_element st) (credentials st).
Definition request (st : settings) (d : draws) : mem :=
  handshake_record CLIENT_HELLO (request_hello st d).
Definition reply (d : draws) : mem := handshake_record SERVER_HELLO (server_hello d).

Lemma credentials_size st : msize (credentials st) = 4 + msize (key st) + msize (auth_data st).
Proof.
  unfold credentials, QVPNClientDriver.crypto_data. rewrite !msize_app, !msize_cons.
  change (msize []) with 0. lia.
Qed.

Lemma request_hello_size st d :
  fits st -> msize (request_hello st d) < 16777216.
Proof.
  intros [_ Hb Hh]. unfold request_hello. rewrite hello_size, credentials_size.
  unfold extensions_size. lia.
Qed.

Lemma tls_data_eq st d : fits st -> tls_data st d = Some (request st d).
Proof.
  intros [Hm Hb Hh]. unfold tls_data. fold (credentials st).
  rewrite (generate_hello d (whitelist_element st) (credentials st));
    [done|rewrite credentials_size; lia|lia|apply range_full].
Qed.

(** What the server takes out of the request. *)
Lemma request_auth st d rest :
  fits st ->
  QVPNServerDriver.parse_auth (received CLIENT_HELLO (request_hello st d) rest) 44 =
  Some (crypto_method st, key st, auth_data st).
Proof.
  intros Hst. pose proof (request_hello_size st d Hst). destruct Hst as [Hm Hb Hh].
  pose proof (msize_nonneg (key st)). pose proof (msize_nonneg (auth_data st)).
  rewrite received_inside by (done || concrete).
  unfold request_hello, hello, client_hello_bytes, inside.
  set (tail := (0 :: 34 :: _) ++ _).
  set (front := handshake_prefix CLIENT_HELLO (request_hello st d) ++ [3; 3] ++ random_part d
    ++ [msize (credentials st)]).
  change 44 with (msize front).
  rewrite <- (auth_roundtrip front (tail ++ rest) (crypto_method st) (key st) (auth_data st)) by (done || lia).
  unfold inside. f_equal. subst front. rewrite <- !app_assoc. reflexivity.
Qed.

(** The server's answer to a request. *)
Definition answer (check_user : mem -> bool) (user : mem) (d : draws) (s : socket) : verdict * socket :=
  if check_user user then
    let '(res, s) := sock_send s (reply d) in if res then (Accepted user, s) else reject s
  else reject s.

Lemma server_answers check_user st d d' rest z s s1 :
  fits st ->
  sock_receive s = (mkReceive (mkStatus true z) (msize (request st d)) (request st d ++ rest), s1) ->
  accept_client check_user d' s = Some (answer check_user (auth_data st) d' s1).
Proof.
  intros Hst Hr. pose proof (request_hello_size st d Hst) as Hn.
  pose proof (request_auth st d rest Hst) as Ha.
  unfold accept_client. rewrite Hr. cbn [rd_data rd_size rd_status success negb].
  change (request st d ++ rest) with (received CLIENT_HELLO (request_hello st d) rest).
  destruct (received_message CLIENT_HELLO (request_hello st d) rest ltac:(concrete) Hn 0) as [_ Hmt].
  pose proof (received_type CLIENT_HELLO (request_hello st d) rest ltac:(concrete) Hn) as Ht.
  unfold TLS13_RecordView.get_tls_record_type, TLS13_RecordView.get_tls_record_data.
  cbn [TLS13_RecordView.data_ TLS13_RecordView.make]. rewrite Ht. cbn [mbind option_bind].
  rewrite Z.eqb_refl. cbn [negb]. change (0 + 1 + 2 + 2) with 5.
  rewrite (proj1 (received_message CLIENT_HELLO _ rest ltac:(concrete) Hn _)). cbn [mbind option_bind].
  unfold TLS13_MessageView.get_tls_msg_type. cbn [TLS13_MessageView.data_]. rewrite Hmt.
  cbn [mbind option_bind]. rewrite Z.eqb_refl. cbn [negb].
  unfold TLS13_MessageView.get_tls_msg_data. cbn [TLS13_MessageView.data_ TLS13_MessageView.size_].
  replace (5 + (4 + msize (request_hello st d))) with (9 + msize (request_hello st d)) by lia.
  change (5 + 4) with 9. rewrite received_inside in Ha |- * by (done || concrete).
  set (pre := handshake_prefix CLIENT_HELLO (request_hello st d)) in *.
  change 9 with (msize pre). destruct Hst as [Hm Hb Hh].
  unfold request_hello in *. rewrite hello_parsed by (rewrite ?credentials_size; lia).
  cbn [mbind option_bind]. rewrite hello_session_view by (rewrite ?credentials_size; lia).
  cbn [mbind option_bind]. unfold TLSSessionIDView.get_tls_id. cbn [TLSSessionIDView.data_].
  change (msize pre + 34 + 1) with 44. rewrite Ha. cbn [mbind option_bind].
  unfold answer. destruct (check_user (auth_data st)); cbn [negb]; [|done].
  rewrite generate_server_hello. cbn [mbind option_bind].
  change (handshake_record _ (server_hello d')) with (reply d').
  by destruct (sock_send s1 (reply d')) as [[] s2].
Qed.

(** The client's reading of the reply. *)
Lemma client_accepts d rest z n :
  check_reply (mkReceive (mkStatus true z) n (reply d ++ rest)) = Some true.
Proof.
  unfold check_reply. cbn [rd_data rd_size rd_status success negb].
  change (reply d ++ rest) with (received SERVER_HELLO (server_hello d) rest).
  assert (Hn : msize (server_hello d) < 16777216) by done.
  destruct (received_message SERVER_HELLO (server_hello d) rest ltac:(concrete) Hn 0) as [_ Hmt].
  pose proof (received_type SERVER_HELLO (server_hello d) rest ltac:(concrete) Hn) as Ht.
  unfold TLS13_RecordView.get_tls_record_type, TLS13_RecordView.get_tls_record_data.
  cbn [TLS13_RecordView.data_ TLS13_RecordView.make]. rewrite Ht. cbn [mbind option_bind].
  rewrite Z.eqb_refl. cbn [negb]. change (0 + 1 + 2 + 2) with 5.
  rewrite (proj1 (received_message SERVER_HELLO _ rest ltac:(concrete) Hn _)). cbn [mbind option_bind].
  unfold TLS13_MessageView.get_tls_msg_type. cbn [TLS13_MessageView.data_]. rewrite Hmt.
  cbn [mbind option_bind]. rewrite Z.eqb_refl. cbn [negb].
  unfold TLS13_MessageView.get_tls_msg_data. cbn [TLS13_MessageView.data_ TLS13_MessageView.size_].
  rewrite server_hello_size. rewrite received_inside by (done || concrete).
  change (5 + 4) with (msize (handshake_prefix SERVER_HELLO (server_hello d))).
  change (5 + (4 + 78)) with (msize (handshake_prefix SERVER_HELLO (server_hello d)) + 78).
  by rewrite server_hello_parsed.
Qed.

(** C4: authorization, end to end.  The request that the client builds from credentials that fit
    is answered, wherever it stops in the server's receive buffer, by a decision on the user
    alone: a known user's socket goes to the thread of his tunnel after the reply is sent, any
    other socket is shut down and closed, and so is one that the reply cannot be sent to.  The
    client's [init] succeeds exactly when its send succeeded and the reply arrives, and fails
    when the receive does, as it does on a closed connection. *)
Theorem authorization_completes check_user st d d' :
  fits st ->
  exists req rep, tls_data st d = Some req /\
    (forall s s1 z rest,
       sock_receive s = (mkReceive (mkStatus true z) (msize req) (req ++ rest), s1) ->
       accept_client check_user d' s = Some
         (if check_user (auth_data st)
          then let '(res, s2) := sock_send s1 rep in
               if res then (Accepted (auth_data st), s2) else reject s2
          else reject s1)) /\
    (forall c c1 c2 res, sock_send c req = (res, c1) ->
       (forall z n rest, sock_receive c1 = (mkReceive (mkStatus true z) n (rep ++ rest), c2) ->
          init st d c = Some (res, c2)) /\
       (forall z n m, sock_receive c1 = (mkReceive (mkStatus false z) n m, c2) ->
          init st d c = Some (false, c2))).
Proof.
  intros Hst. pose proof (tls_data_eq st d Hst) as Hreq.
  exists (request st d), (reply d'). split; [done|]. split.
  - intros s s1 z rest Hr. by apply (server_answers check_user st d d' rest z).
  - intros c c1 c2 res Hs. unfold init. rewrite Hreq. cbn [mbind option_bind]. rewrite Hs.
    split; intros z n m ->; [by rewrite client_accepts|done].
Qed.

(** The same decision for every method and key: the server does not look at them. *)
Lemma key_not_checked check_user st st' d d' rest rest' z s s' s1 :
  fits st -> fits st' -> auth_data st = auth_data st' ->
  sock_receive s = (mkReceive (mkStatus true z) (msize (request st d)) (request st d ++ rest), s1) ->
  sock_receive s' = (mkReceive (mkStatus true z) (msize (request st' d)) (request st' d ++ rest'), s1) ->
  accept_client check_user d' s = accept_client check_user d' s'.
Proof.
  intros Hst Hst' Hu Hr Hr'.
  rewrite (server_answers check_user st d d' rest z s s1 Hst Hr).
  by rewrite (server_answers check_user st' d d' rest' z s' s1 Hst' Hr'), Hu.
Qed.

(** * Who gets a tunnel *)

(** What a received buffer has to contain to name [user]. *)
Definition names_user (data user : mem) : Prop :=
  load data 0 = Some HANDSHAKE /\ load data 5 = Some CLIENT_HELLO /\
  exists method key, QVPNServerDriver.parse_auth data 44 = Some (method, key, user).

Lemma client_scheme_session m first last sc :
  unified_parse_client_scheme m first last = Some sc -> fst (session sc) = 34.
Proof. unfold unified_parse_client_scheme. intros H'. undef. done. Qed.

Lemma accepted_inv check_user d s user s' :
  accept_client check_user d s = Some (Accepted user, s') ->
  let '(rd, s1) := sock_receive s in
  success (rd_status rd) = true /\ names_user (rd_data rd) user /\ check_user user = true /\
  sock_send s1 (reply d) = (true, s').
Proof.
  unfold accept_client. destruct (sock_receive s) as [[[ok z] n data] s1].
  cbn [rd_data rd_size rd_status success]. intros Hacc.
  destruct ok; cbn [negb] in Hacc; [|done].
  apply bind_Some in Hacc as (ty & Ht & Hacc). destruct (Z.eqb_spec ty HANDSHAKE); cbn [negb] in Hacc; [|done].
  cbn [TLS13_RecordView.get_tls_record_data] in Hacc.
  unfold TLS13_RecordView.get_tls_record_data in Hacc.
  apply bind_Some in Hacc as (mes & Hmes & Hacc).
  apply bind_Some in Hacc as (mty & Hmt & Hacc).
  destruct (Z.eqb_spec mty CLIENT_HELLO); cbn [negb] in Hacc; [|done].
  apply bind_Some in Hmes as (k & Hk & [= <-]).
  unfold TLS13_MessageView.get_tls_msg_data in Hacc.
  apply bind_Some in Hacc as (h & Hh & Hacc). apply bind_Some in Hacc as (sid & Hsid & Hacc).
  apply bind_Some in Hh as (sc & Hsc & [= <-]). apply client_scheme_session in Hsc.
  apply bind_Some in Hsid as (w & Hw & [= <-]).
  unfold TLSSessionIDView.get_tls_id in Hacc.
  apply bind_Some in Hacc as ([[method key] u] & Hauth & Hacc).
  destruct (check_user u) eqn:Hu; cbn [negb] in Hacc; [|done].
  rewrite generate_server_hello in Hacc. cbn [mbind option_bind] in Hacc.
  change (handshake_record _ (server_hello d)) with (reply d) in Hacc.
  destruct (sock_send s1 (reply d)) as [[] s2] eqn:Hs; [|done]. injection Hacc as -> ->.
  subst. split; [done|]. split; [|done]. split; [done|]. split; [done|]. exists method, key.
  cbn [TLS13_ClientHelloPacketView.data_ TLS13_ClientHelloPacketView.scheme_ TLSSessionIDView.data_] in Hauth.
  rewrite Hsc in Hauth. exact Hauth.
Qed.

(** The thread of a tunnel, its socket and its user, as the accepting loop should start it. *)
Definition admitted (check_user : mem -> bool) (thread : socket * mem) : Prop :=
  let '(s, user) := thread in
  check_user user = true /\
  exists s0 d, let '(rd, s1) := sock_receive s0 in
    success (rd_status rd) = true /\ names_user (rd_data rd) user /\ sock_send s1 (reply d) = (true, s).

Lemma listen_step_admitted check_user l l' :
  listen_step check_user l l' -> Forall (admitted check_user) l -> Forall (admitted check_user) l'.
Proof.
  intros [| |threads d s0 user s Ha]; [done|done|].
  intros Hl. apply Forall_app. split; [done|]. apply Forall_singleton.
  apply accepted_inv in Ha. unfold admitted. destruct (sock_receive s0) as [rd s1] eqn:Er.
  destruct Ha as (Hok & Hnames & Hu & Hsent). split; [done|]. exists s0, d. rewrite Er. auto.
Qed.

(** C5: only users that the database knows get a tunnel.  In every state that the accepting loop
    reaches, each thread serves a socket on which a client hello was received that names the
    thread's user, the database knows this user, and the reply was sent to that socket. *)
Theorem only_known_users check_user threads :
  rtc (listen_step check_user) [] threads -> Forall (admitted check_user) threads.
Proof.
  intros Hr. assert (Forall (admitted check_user) []) as Hnil by constructor. revert Hnil.
  induction Hr as [|l l' l'' Hs _ IH]; [done|]. intros Hl. by apply IH, (listen_step_admitted _ l).
Qed.

(** * A hello that leads the server out of its buffer *)

(** C20: the lengths of a client hello are not compared with the buffer.  A hello with an empty
    session id and a list of cipher suites of 65490 to 65533 bytes makes the server read behind
    its receive buffer of 65536 bytes, before any user was checked. *)
Theorem hello_out_of_bounds check_user d s s1 z n data l :
  sock_receive s = (mkReceive (mkStatus true z) n data, s1) ->
  msize data = 65536 ->
  load data 0 = Some HANDSHAKE -> load data 5 = Some CLIENT_HELLO ->
  load data 43 = Some 0 -> load16 data 44 = Some l -> 65490 <= l <= 65533 ->
  accept_client check_user d s = None.
Proof.
  intros Hr Hsz H0' H5 H43 H44 Hl. unfold accept_client. rewrite Hr.
  cbn [rd_data rd_size rd_status success negb].
  unfold TLS13_RecordView.get_tls_record_type, TLS13_RecordView.get_tls_record_data.
  cbn [TLS13_RecordView.data_ TLS13_RecordView.make]. rewrite H0'. cbn [mbind option_bind].
  rewrite Z.eqb_refl. cbn [negb]. change (0 + 1 + 2 + 2) with 5.
  destruct (TLS13_MessageView.make data 5 _) as [mes|] eqn:Hm; [|done].
  apply bind_Some in Hm as (k & _ & [= <-]). cbn [mbind option_bind].
  unfold TLS13_MessageView.get_tls_msg_type. cbn [TLS13_MessageView.data_]. rewrite H5.
  cbn [mbind option_bind]. rewrite Z.eqb_refl. cbn [negb].
  unfold TLS13_MessageView.get_tls_msg_data. cbn [TLS13_MessageView.data_ TLS13_MessageView.size_].
  change (5 + 4) with 9.
  unfold TLS13_ClientHelloPacketView.make, TLS13_ClientHelloPacketView.parse_scheme,
    unified_parse_client_scheme, TLSSessionIDView.make, TLSSessionIDView.get_tls_id_full_length,
    TLSSessionIDView.get_tls_id_length, TLSCipherSuitView.make, TLSCipherSuitView.get_tls_ciphers_full_length,
    TLSCipherSuitView.get_tls_ciphers_length, TLSCompressionView.make,
    TLSCompressionView.get_tls_compressions_full_length, TLSCompressionView.get_tls_compressions_length,
    TLSRandomView.get_tls_random_full_length.
  cbn [TLSSessionIDView.data_ TLSCipherSuitView.data_ TLSCompressionView.data_].
  change (9 + (2 + 32)) with 43. rewrite H43. cbn [mbind option_bind TLSSessionIDView.data_].
  rewrite H43. cbn [mbind option_bind]. change (9 + (2 + 32 + u32 (0 + 1))) with 44.
  rewrite H44. cbn [mbind option_bind TLSCipherSuitView.data_]. rewrite H44. cbn [mbind option_bind].
  rewrite u16_id by (unfold is_u16; lia). change (2 + 32 + u32 (0 + 1)) with 35.
  by rewrite load_None by lia.
Qed.

End Authorization.

(** * Examples: a socket is what arrives on it and what was sent last *)

Definition loopback : Socket := {|
  socket := (mem * mem)%type;
  sock_send s part := (true, (fst s, part));
  sock_reconnect s := (true, s) |}.

Definition loopback_auth : AuthSocket (H := loopback) :=
  @Build_AuthSocket loopback
    (fun s => (mkReceive (mkStatus true 0) (msize (fst s)) (fst s), s)) id id id.

Definition example_settings : ClientAuth.settings := ClientAuth.mk_settings [117] 1 [107; 101] [121; 97].
Definition known (user : mem) : bool := bool_decide (user = [117]).

Lemma example_fits : fits example_settings.
Proof. split; concrete. Qed.

Lemma authorization_completes_witness :
  exists req rep : mem,
    ClientAuth.tls_data (H := counting) example_settings example_draws = Some req /\
    ServerAuth.accept_client (H := counting) (H1 := loopback_auth) known example_draws (req, []) =
      Some (ServerAuth.Accepted [117], (req, rep)) /\
    ClientAuth.init (H := counting) (H1 := loopback_auth) example_settings example_draws (rep, []) =
      Some (true, (rep, req)).
Proof.
  destruct (authorization_completes (H := counting) (H1 := loopback_auth) known example_settings
    example_draws example_draws example_fits) as (req & rep & Hreq & Hserver & Hclient).
  exists req, rep. split; [exact Hreq|]. split.
  - refine (Hserver (req, []) (req, []) 0 [] _). rewrite app_nil_r. reflexivity.
  - destruct (Hclient (rep, []) (rep, req) (rep, req) true eq_refl) as [Hok _].
    refine (Hok 0 (msize rep) [] _). rewrite app_nil_r. reflexivity.
Defined.

Lemma only_known_users_witness :
  exists s : socket (Socket := loopback),
    rtc (ServerAuth.listen_step (H := counting) (H1 := loopback_auth) known) [] [(s, [117])] /\
    admitted (H := counting) (H1 := loopback_auth) known (s, [117]).
Proof.
  pose proof (server_answers (H := counting) (H1 := loopback_auth) known example_settings
    example_draws example_draws [] 0 (request (H := counting) example_settings example_draws, [])
    _ example_fits ltac:(rewrite app_nil_r; reflexivity)) as Ha.
  set (sk := (request (H := counting) example_settings example_draws,
    reply (H := counting) example_draws) : socket (Socket := loopback)).
  exists sk. assert (Hr : rtc (ServerAuth.listen_step (H := counting) (H1 := loopback_auth) known) []
    ([] ++ [(sk, [117])])).
  { apply rtc_once. eapply ServerAuth.listen_accepted. exact Ha. }
  split; [exact Hr|].
  exact (Forall_inv (only_known_users (H := counting) (H1 := loopback_auth) known _ Hr)).
Defined.

(** A record of type 22, a message of type 1, an empty session id and a list of cipher suites of
    65500 bytes, in a receive buffer. *)
Definition hostile_hello : mem :=
  [22; 3; 3; 0; 0; 1; 0; 0; 0] ++ repeat 0 35 ++ [255; 220] ++ repeat 0 (Z.to_nat 65490).

Lemma hello_out_of_bounds_witness :
  ServerAuth.accept_client (H := counting) (H1 := loopback_auth) known example_draws (hostile_hello, []) = None.
Proof.
  refine (hello_out_of_bounds (H := counting) (H1 := loopback_auth) known example_draws
    (hostile_hello, []) _ 0 _ hostile_hello 65500 eq_refl _ _ _ _ _ _);
    [vm_compute; reflexivity|reflexivity|reflexivity|reflexivity|reflexivity|lia].
Defined.
