(* ===== verification/FullPacket.v ===== *)
(** Whole packets in parts: the fat specialisations of [FullPacket] in
    src/QVPN/QVPN Lib/include/qvpn_structures.hpp, [Ipv4Packet] with [TcpPacket] and
    [DataPacket] ([Ipv4TcpFatPacket]) and [Ipv4Packet] with [UdpPacket] and [DataPacket]
    ([Ipv4UdpFatPacket]).

    The bodies of the two specialisations are the same text over the transport class;
    they are written once over the class [TransportObject], whose instances are the
    TCP and the UDP object.  The packets that the program uses keep everything in one buffer;
    they are in [PacketView], and are related there to these. *)
From S2P Require Import Prelude Checksum Addr Transport Ipv4 Tcp Udp PacketManager QTunnel.

(** What [FullPacket] uses of its transport base class, and how it drives the
    transport's scheme. *)
Class TransportObject := {
  t_make : mem -> Z -> Z -> option mem;
  t_get_size : mem -> Z;
  t_to_bytes : mem -> Z * Z;
  t_set_transport_length : mem -> Z -> option mem;
  t_recalculate_transport_checksum : mem -> mem -> mem -> Z -> Z -> option mem;
  (** [generate_object] from the ports and the scheme over the metadata [[b, e)]. *)
  t_generate : mem -> Z -> Z -> Z -> Z -> option mem;
  (** The scheme's bytes of the header. *)
  t_collect : mem -> option mem;
  (** Whether [bytes()] empties [data_] before it fills it. *)
  t_clears : bool }.

#[global] Instance tcp_object : TransportObject := {|
  t_make := TcpPacketLittleEndian.make;
  t_get_size := TcpPacketLittleEndian.get_size;
  t_to_bytes := TcpPacketLittleEndian.to_bytes;
  t_set_transport_length := TcpPacketLittleEndian.set_transport_length;
  t_recalculate_transport_checksum := TcpPacketLittleEndian.recalculate_transport_checksum;
  t_generate pd pd_b pd_e src_port dst_port :=
    let scheme := QTunnelTCPViewScheme.make pd_b pd_e in
    let '(opt_b, opt_e) := QTunnelTCPViewScheme.get_options scheme in
    seq ← QTunnelTCPViewScheme.get_seq pd scheme;
    ack ← QTunnelTCPViewScheme.get_ack pd scheme;
    offset ← QTunnelTCPViewScheme.get_offset pd scheme;
    flags ← QTunnelTCPViewScheme.get_flags pd scheme;
    window ← QTunnelTCPViewScheme.get_window pd scheme;
    urgent ← QTunnelTCPViewScheme.get_urgent_pointer pd scheme;
    TcpPacketLittleEndian.generate_object pd src_port dst_port seq ack offset flags window urgent
      opt_b opt_e;
  t_collect t :=
    tcp_view ← TcpPacketLittleEndian.to_view t;
    QTunnelTCPViewScheme.generate_object_bytes t tcp_view;
  t_clears := true |}.

#[global] Instance udp_object : TransportObject := {|
  t_make := UdpPacketLittleEndian.make;
  t_get_size := UdpPacketLittleEndian.get_size;
  t_to_bytes := UdpPacketLittleEndian.to_bytes;
  t_set_transport_length := UdpPacketLittleEndian.set_transport_length;
  t_recalculate_transport_checksum := UdpPacketLittleEndian.recalculate_transport_checksum;
  t_generate pd pd_b pd_e src_port dst_port :=
    let scheme := QTunnelUDPViewScheme.make pd_b pd_e in
    (length ← QTunnelUDPViewScheme.get_length pd scheme;
     UdpPacketLittleEndian.generate_object src_port dst_port length);
  t_collect t :=
    let view := UdpPacketLittleEndian.to_view t in
    QTunnelUDPViewScheme.generate_object_bytes t view;
  t_clears := false |}.

Module FullPacket.

(** The three base subobjects and the buffer of [bytes()]. *)
Record t := mk { net : mem; transport : mem; payload : mem; data_ : mem }.

Section Operations.
Context {T : TransportObject}.

(** [FullPacket(begin, end)]. *)
Definition of_bytes (m : mem) (begin_ end_ : Z) : option t :=
  n ← Ipv4PacketLittleEndian.make m begin_ end_;
  tr ← t_make m (begin_ + Ipv4PacketLittleEndian.get_size n) end_;
  d ← DataPacketLittleEndian.make m
        (begin_ + Ipv4PacketLittleEndian.get_size n + t_get_size tr) end_;
  Some (mk n tr d []).

(** [FullPacket(net_begin, net_end, t_begin, t_end, data_begin, data_end)]: the ranges
    lie in the buffers [mn], [mt] and [md]. *)
Definition of_parts (mn : mem) (net_begin net_end : Z) (mt : mem) (t_begin t_end : Z)
    (md : mem) (data_begin data_end : Z) : option t :=
  n ← Ipv4PacketLittleEndian.make mn net_begin net_end;
  tr ← t_make mt t_begin t_end;
  d ← DataPacketLittleEndian.make md data_begin data_end;
  Some (mk n tr d []).

(** Fills [data_]; the result is the range of [data_]. *)
Definition bytes (p : t) : option (t * (Z * Z)) :=
  let buf := if t_clears then [] else data_ p in
  let '(b1, e1) := Ipv4PacketLittleEndian.to_bytes (net p) in
  l1 ← range (net p) b1 e1;
  let '(b2, e2) := t_to_bytes (transport p) in
  l2 ← range (transport p) b2 e2;
  let '(b3, e3) := DataPacketLittleEndian.to_bytes (payload p) in
  l3 ← range (payload p) b3 e3;
  let buf := buf ++ l1 ++ l2 ++ l3 in
  Some (mk (net p) (transport p) (payload p) buf, (0, msize buf)).

Definition get_full_packet_length (p : t) : option Z :=
  Ipv4PacketLittleEndian.get_ip_total_length (net p).

Definition recalculate_checksums (p : t) : option t :=
  n ← Ipv4PacketLittleEndian.recalculate_ip_checksum (net p);
  total_length ← Ipv4PacketLittleEndian.get_ip_total_length n;
  header_length ← Ipv4PacketLittleEndian.get_ip_header_length n;
  let length := u16 (total_length - header_length * 4) in
  let '(b, e) := DataPacketLittleEndian.get_payload (payload p) in
  src ← Ipv4PacketLittleEndian.get_ip_source n;
  dst ← Ipv4PacketLittleEndian.get_ip_dest n;
  protocol ← Ipv4PacketLittleEndian.get_ip_protocol n;
  pseudo ← TransportIpv4PseudoHeader.of_addrs src dst protocol length;
  tr ← t_recalculate_transport_checksum (transport p) pseudo (payload p) b e;
  Some (mk n tr (payload p) (data_ p)).

(** The transport is told the size of its own header. *)
Definition recalculate_lengths (p : t) : option t :=
  let '(nb, ne) := Ipv4PacketLittleEndian.to_bytes (net p) in
  let '(tb, te) := t_to_bytes (transport p) in
  let '(db, de) := DataPacketLittleEndian.to_bytes (payload p) in
  let n_size := ne - nb in
  let t_size := te - tb in
  let d_size := de - db in
  n ← Ipv4PacketLittleEndian.set_ip_total_length (net p) (u16 (n_size + t_size + d_size));
  tr ← t_set_transport_length (transport p) (u16 t_size);
  Some (mk n tr (payload p) (data_ p)).

Definition new_packet_by_payload (p : t) (m : mem) (begin_ end_ : Z) : option t :=
  let '(n_b, n_e) := Ipv4PacketLittleEndian.to_bytes (net p) in
  let '(t_b, t_e) := t_to_bytes (transport p) in
  fp ← of_parts (net p) n_b n_e (transport p) t_b t_e m begin_ end_;
  let size := u16 (end_ - begin_) in
  tr ← t_set_transport_length (transport fp) size;
  fp ← recalculate_lengths (mk (net fp) tr (payload fp) (data_ fp));
  recalculate_checksums fp.

Definition new_packet_by_this (p : t) (proxy_data : QTunnelProxy.t) (m : mem) (begin_ end_ : Z) :
    option t :=
  let data_size := end_ - begin_ in
  let '(pd_b, pd_e) := QTunnelProxy.get_proto_data_bytes proxy_data in
  t_header ← t_generate (QTunnelProxy.proto_data proxy_data) pd_b pd_e
               (QTunnelProxy.get_src_port proxy_data) (QTunnelProxy.get_dst_port proxy_data);
  let '(t_b, t_e) := t_to_bytes t_header in
  let t_size := t_e - t_b in
  let total_size := t_size + data_size in
  let '(old_n_b, old_n_e) := Ipv4PacketLittleEndian.to_bytes (net p) in
  old_n_header ← Ipv4PacketView.make (net p) old_n_b old_n_e;
  n_header ← regenerate_object (net p) old_n_header (QTunnelProxy.get_src_addr proxy_data)
               (QTunnelProxy.get_dst_addr proxy_data) (u16 total_size);
  let '(n_b, n_e) := Ipv4PacketLittleEndian.to_bytes n_header in
  fp ← of_parts n_header n_b n_e t_header t_b t_e m begin_ end_;
  fp ← recalculate_lengths fp;
  recalculate_checksums fp.

Definition new_packet_bytes_by_this (p : t) (proxy_data : QTunnelProxy.t) (m : mem)
    (begin_ end_ : Z) : option mem :=
  fp ← new_packet_by_this p proxy_data m begin_ end_;
  '(fp, (b, e)) ← bytes fp;
  range (data_ fp) b e.

Definition collect_proto_data (p : t) : option QTunnelProtoData.t :=
  bytes ← t_collect (transport p);
  QTunnelProtoData.make bytes 0 (msize bytes).

End Operations.

End FullPacket.

(** [FullPacket<Ipv4Packet, TcpPacket, DataPacket, OBJECT>]. *)
Module Ipv4TcpFatPacket.

Definition of_bytes := FullPacket.of_bytes (T := tcp_object).
Definition of_parts := FullPacket.of_parts (T := tcp_object).
Definition bytes := FullPacket.bytes (T := tcp_object).
Definition get_full_packet_length := FullPacket.get_full_packet_length.
Definition recalculate_checksums := FullPacket.recalculate_checksums (T := tcp_object).
Definition recalculate_lengths := FullPacket.recalculate_lengths (T := tcp_object).
Definition new_packet_by_payload := FullPacket.new_packet_by_payload (T := tcp_object).
Definition new_packet_by_this := FullPacket.new_packet_by_this (T := tcp_object).
Definition new_packet_bytes_by_this := FullPacket.new_packet_bytes_by_this (T := tcp_object).
Definition collect_proto_data := FullPacket.collect_proto_data (T := tcp_object).

(** Both overloads: the bytes of the metadata are [[begin_, end_)] of [m]. *)
Definition set_qtunnel_proto_data (p : FullPacket.t) (m : mem) (begin_ end_ : Z) :
    option FullPacket.t :=
  let scheme := QTunnelTCPViewScheme.make begin_ end_ in
  let h := FullPacket.transport p in
  seq ← QTunnelTCPViewScheme.get_seq m scheme;
  h ← TcpPacketLittleEndian.set_tcp_seq_number h seq;
  ack ← QTunnelTCPViewScheme.get_ack m scheme;
  h ← TcpPacketLittleEndian.set_tcp_ack_number h ack;
  flags ← QTunnelTCPViewScheme.get_flags m scheme;
  h ← TcpPacketLittleEndian.set_tcp_flags h flags;
  offset ← QTunnelTCPViewScheme.get_offset m scheme;
  h ← TcpPacketLittleEndian.set_tcp_offset h offset;
  window ← QTunnelTCPViewScheme.get_window m scheme;
  h ← TcpPacketLittleEndian.set_tcp_window h window;
  urgent ← QTunnelTCPViewScheme.get_urgent_pointer m scheme;
  h ← TcpPacketLittleEndian.set_tcp_urgent h urgent;
  let '(opt_b, opt_e) := QTunnelTCPViewScheme.get_options scheme in
  h ← TcpPacketLittleEndian.set_tcp_options h m opt_b opt_e;
  Some (FullPacket.mk (FullPacket.net p) h (FullPacket.payload p) (FullPacket.data_ p)).

End Ipv4TcpFatPacket.

(** [FullPacket<Ipv4Packet, UdpPacket, DataPacket, OBJECT>]. *)
Module Ipv4UdpFatPacket.

Definition of_bytes := FullPacket.of_bytes (T := udp_object).
Definition of_parts := FullPacket.of_parts (T := udp_object).
Definition bytes := FullPacket.bytes (T := udp_object).
Definition get_full_packet_length := FullPacket.get_full_packet_length.
Definition recalculate_checksums := FullPacket.recalculate_checksums (T := udp_object).
Definition recalculate_lengths := FullPacket.recalculate_lengths (T := udp_object).
Definition new_packet_by_payload := FullPacket.new_packet_by_payload (T := udp_object).
Definition new_packet_by_this := FullPacket.new_packet_by_this (T := udp_object).
Definition new_packet_bytes_by_this := FullPacket.new_packet_bytes_by_this (T := udp_object).
Definition collect_proto_data := FullPacket.collect_proto_data (T := udp_object).

(** Both overloads only construct the scheme. *)
Definition set_qtunnel_proto_data (p : FullPacket.t) (m : mem) (begin_ end_ : Z) :
    option FullPacket.t :=
  let scheme := QTunnelUDPViewScheme.make begin_ end_ in Some p.

End Ipv4UdpFatPacket.

(** * Headers described by their own length field *)

Definition ip_whole (h : mem) : Prop :=
  20 <= msize h /\ exists a, load h 0 = Some a /\ msize h = 4 * Z.land a 15.
Definition tcp_whole (h : mem) : Prop :=
  20 <= msize h /\ exists a, load h 12 = Some a /\ msize h = 4 * Z.shiftr a 4.

Lemma range_halves h k : 0 <= k <= msize h ->
  exists l r, range h 0 k = Some l /\ range h k (msize h) = Some r /\ l ++ r = h.
Proof.
  intros Hk. destruct (range h 0 k) as [l|] eqn:Hl; [|by rewrite range_in in Hl by lia].
  destruct (range h k (msize h)) as [r|] eqn:Hr; [|by rewrite range_in in Hr by lia].
  exists l, r. split_and!; [done..|]. pose proof (range_app _ _ _ _ _ _ Hl Hr) as H.
  rewrite range_full in H. by apply (inj Some) in H.
Qed.

Lemma ip_make_whole h e : ip_whole h -> Ipv4PacketLittleEndian.make h 0 e = Some h.
Proof.
  intros (Hs & a & Ha & Hl). rewrite (ipv4_make_eq _ _ _ a) by done.
  replace (0 + 20 + (Z.land a 15 - 5) * 4) with (msize h) by lia.
  destruct (range_halves h 20) as (l & r & H1 & H2 & H3); [lia|].
  rewrite !Z.add_0_l, H1, H2. cbn [mbind option_bind]. by rewrite H3.
Qed.

Lemma tcp_make_whole h e : tcp_whole h -> TcpPacketLittleEndian.make h 0 e = Some h.
Proof.
  intros (Hs & a & Ha & Hl). rewrite (tcp_make_eq _ _ _ a) by done.
  replace (0 + 20 + (Z.shiftr a 4 - 5) * 4) with (msize h) by lia.
  destruct (range_halves h 20) as (l & r & H1 & H2 & H3); [lia|].
  rewrite !Z.add_0_l, H1, H2. cbn [mbind option_bind]. by rewrite H3.
Qed.

(** * The transport's promise to the packet *)

(** What the packet's theorems need of a transport class: where its checksum lies, that
    recomputing it changes nothing else and makes the sum come out, and that telling it
    a length keeps the size. *)
Class TransportLaws (T : TransportObject) := {
  checksum_at : Z;
  t_min_size : Z;
  checksum_inside : 0 <= checksum_at /\ checksum_at + 2 <= t_min_size;
  t_to_bytes_law tr : t_to_bytes tr = (0, msize tr);
  (** A header that its own length describes is copied whole. *)
  t_whole : mem -> Prop;
  t_make_law tr e : bytes tr -> t_whole tr -> e = msize tr -> t_make tr 0 e = Some tr;
  t_checksum_law h ph m b e d :
    bytes ph -> bytes h -> bytes m -> Z.even (msize ph) = true -> Z.even (msize h) = true ->
    t_min_size <= msize h -> range m b e = Some d -> msize ph + msize h + msize d < 131000 ->
    exists h', t_recalculate_transport_checksum h ph m b e = Some h' /\
      bytes h' /\ msize h' = msize h /\
      (forall q, q <> checksum_at -> q <> checksum_at + 1 -> load h' q = load h q) /\
      verifies (total ph + total h' + total d);
  t_length_law h n :
    bytes h -> t_min_size <= msize h ->
    exists h', t_set_transport_length h n = Some h' /\ bytes h' /\ msize h' = msize h }.

#[global] Program Instance tcp_laws : TransportLaws tcp_object :=
  {| checksum_at := 16; t_min_size := 20; t_whole := tcp_whole |}.
Next Obligation. lia. Qed.
Next Obligation. done. Qed.
Next Obligation. intros tr e Hb Hw _. by apply tcp_make_whole. Qed.
Next Obligation.
  intros h ph m b e d Hph Hh Hm Eph Eh Hl Hd Hsz.
  destruct (tcp_checksum_ok h ph m b e d Hph Hh Hm Eph Eh Hl Hd Hsz) as (h' & ? & ? & ? & ? & ? & _).
  by exists h'.
Qed.
Next Obligation.
  intros h n Hb Hs. cbn. unfold TcpPacketLittleEndian.set_transport_length.
  destruct (load_is_Some h 12) as [a Ha]; [lia|]. rewrite Ha. cbn [mbind option_bind].
  rewrite store_in by lia. eexists. split; [done|].
  assert (H := store_in h 12 (u8 (Z.lor a (Z.shiftl (u8 (n / 4)) 4))) ltac:(lia)).
  split; [|by apply (store_size _ _ _ _ H)]. eapply store_bytes; [done|apply u8_is_u8|done].
Qed.

#[global] Program Instance udp_laws : TransportLaws udp_object :=
  {| checksum_at := 6; t_min_size := 8; t_whole _ := True |}.
Next Obligation. lia. Qed.
Next Obligation. done. Qed.
Next Obligation. intros tr e _ _ ->. cbn. unfold UdpPacketLittleEndian.make,
  UdpPacketLittleEndian.parse_packet. by rewrite range_full. Qed.
Next Obligation.
  intros h ph m b e d Hph Hh Hm Eph Eh Hl Hd Hsz.
  destruct (udp_checksum_ok h ph m b e d Hph Hh Hm Eph Eh Hl Hd Hsz) as (h' & ? & ? & ? & ? & ? & _).
  by exists h'.
Qed.
Next Obligation.
  intros h n Hb Hs. cbn. unfold UdpPacketLittleEndian.set_transport_length.
  destruct (store16_in h 4 n) as [h' H]; [lia..|]. exists h'.
  split_and!; [done|by eapply store16_bytes|by eapply store16_size].
Qed.

(** * Checksums of a whole packet *)

(** Header sizes and contents a packet built by the code has. *)
Definition packet_wf {T : TransportObject} {L : TransportLaws T} (p : FullPacket.t) : Prop :=
  bytes (FullPacket.net p) /\ Z.even (msize (FullPacket.net p)) = true /\
  20 <= msize (FullPacket.net p) < 65536 /\
  bytes (FullPacket.transport p) /\ Z.even (msize (FullPacket.transport p)) = true /\
  t_min_size <= msize (FullPacket.transport p) /\ bytes (FullPacket.payload p) /\
  msize (FullPacket.transport p) + msize (FullPacket.payload p) < 130000.

(** The pseudo-header a receiver forms from an IPv4 header: the addresses, the protocol
    and the length of what follows the header. *)
Definition receiver_pseudo (h : mem) : option mem :=
  src ← Ipv4PacketLittleEndian.get_ip_source h;
  dst ← Ipv4PacketLittleEndian.get_ip_dest h;
  protocol ← Ipv4PacketLittleEndian.get_ip_protocol h;
  total_length ← Ipv4PacketLittleEndian.get_ip_total_length h;
  header_length ← Ipv4PacketLittleEndian.get_ip_header_length h;
  let length := u16 (total_length - header_length * 4) in
  Some (src ++ dst ++ [0; protocol; octet 1 length; octet 0 length]).

Section FullChecksums.
Import Ipv4PacketLittleEndian.

Lemma get_ip_source_in h :
  bytes h -> 20 <= msize h -> exists src, get_ip_source h = Some src /\ bytes src /\ msize src = 4.
Proof.
  intros Hb Hs. unfold get_ip_source.
  destruct (load_is_Some h 12) as [a Ha]; [lia|]. destruct (load_is_Some h 13) as [b Hb']; [lia|].
  destruct (load_is_Some h 14) as [c Hc]; [lia|]. destruct (load_is_Some h 15) as [d Hd]; [lia|].
  rewrite Ha, Hb', Hc, Hd. eexists. split_and!; [reflexivity| |done].
  unfold IPv4Address.make. repeat apply Forall_cons_2; eauto using load_u8.
Qed.

Lemma get_ip_dest_in h :
  bytes h -> 20 <= msize h -> exists dst, get_ip_dest h = Some dst /\ bytes dst /\ msize dst = 4.
Proof.
  intros Hb Hs. unfold get_ip_dest.
  destruct (load_is_Some h 16) as [a Ha]; [lia|]. destruct (load_is_Some h 17) as [b Hb']; [lia|].
  destruct (load_is_Some h 18) as [c Hc]; [lia|]. destruct (load_is_Some h 19) as [d Hd]; [lia|].
  rewrite Ha, Hb', Hc, Hd. eexists. split_and!; [reflexivity| |done].
  unfold IPv4Address.make. repeat apply Forall_cons_2; eauto using load_u8.
Qed.

(** What [recalculate_checksums] achieves on any packet with sane headers. *)
Lemma checksums_ok {T : TransportObject} {L : TransportLaws T} p :
  packet_wf p ->
  exists n tr ph,
    FullPacket.recalculate_checksums p =
      Some (FullPacket.mk n tr (FullPacket.payload p) (FullPacket.data_ p)) /\
    receiver_pseudo n = Some ph /\ verifies (total n) /\
    verifies (total ph + total tr + total (FullPacket.payload p)) /\
    bytes n /\ msize n = msize (FullPacket.net p) /\
    (forall q, q <> 10 -> q <> 11 -> load n q = load (FullPacket.net p) q) /\
    bytes tr /\ msize tr = msize (FullPacket.transport p) /\
    (forall q, q <> checksum_at -> q <> checksum_at + 1 ->
       load tr q = load (FullPacket.transport p) q).
Proof.
  destruct p as [h t pl buf]. intros (Hn & En & Sn & Ht & Et & Mt & Hp & Hsz). cbn in *.
  destruct (ip_checksum_ok h) as (n & Hr & Hbn & Hsn & Hqn & Hv & _); [done|done|lia|].
  destruct (get_ip_source_in n) as (src & Hsrc & Bsrc & Ssrc); [done|lia|].
  destruct (get_ip_dest_in n) as (dst & Hdst & Bdst & Sdst); [done|lia|].
  destruct (load_is_Some n 9) as [proto Hproto]; [lia|].
  pose proof (load_u8 _ _ _ Hbn Hproto) as Uproto.
  destruct (load16_in n 2) as [tl Htl]; [lia|lia|].
  destruct (load_is_Some n 0) as [a Ha]; [lia|].
  set (len := u16 (tl - Z.land a 15 * 4)).
  set (ph := src ++ dst ++ [0; proto; octet 1 len; octet 0 len]).
  destruct (pseudo_wf src dst proto len Bsrc Bdst Ssrc Sdst Uproto) as [Hph Sph].
  fold ph in Hph, Sph.
  destruct (t_checksum_law t ph pl 0 (msize pl) pl) as (tr & Hc & Hbt & Hst & Hqt & Hvt);
    [done|done|done|by rewrite Sph|done|done|apply range_full|lia|].
  exists n, tr, ph.
  unfold FullPacket.recalculate_checksums, receiver_pseudo, DataPacketLittleEndian.get_payload.
  unfold get_ip_total_length, get_ip_header_length, get_ip_protocol. cbn [FullPacket.net
    FullPacket.transport FullPacket.payload FullPacket.data_].
  rewrite Hr. cbn [mbind option_bind].
  rewrite Htl, Ha, Hsrc, Hdst, Hproto. cbn [mbind option_bind]. fold len.
  rewrite pseudo_of_addrs by done. cbn [mbind option_bind]. fold ph. rewrite Hc.
  split_and!; done.
Qed.

End FullChecksums.

(** * Lengths *)

Section Lengths.
Context {T : TransportObject} {L : TransportLaws T}.

Lemma of_parts_whole h t m b e l :
  ip_whole h -> bytes t -> t_whole t -> range m b e = Some l ->
  FullPacket.of_parts h 0 (msize h) t 0 (msize t) m b e = Some (FullPacket.mk h t l []).
Proof.
  intros Hh Hb Ht Hl. unfold FullPacket.of_parts, DataPacketLittleEndian.make.
  rewrite ip_make_whole by done. cbn [mbind option_bind].
  rewrite t_make_law by done. cbn [mbind option_bind]. by rewrite Hl.
Qed.

(** [recalculate_lengths] and then [recalculate_checksums], as every constructor of a
    packet ends. *)
Lemma refresh_ok h t pl buf t' :
  packet_wf (FullPacket.mk h t pl buf) ->
  t_set_transport_length t (u16 (msize t)) = Some t' ->
  exists n tr ph,
    (fp ← FullPacket.recalculate_lengths (FullPacket.mk h t pl buf);
     FullPacket.recalculate_checksums fp) = Some (FullPacket.mk n tr pl buf) /\
    Ipv4PacketLittleEndian.get_ip_total_length n = Some (u16 (msize h + msize t + msize pl)) /\
    receiver_pseudo n = Some ph /\ verifies (total n) /\ verifies (total ph + total tr + total pl) /\
    bytes n /\ msize n = msize h /\
    (forall q, ~ (2 <= q < 4) -> ~ (10 <= q < 12) -> load n q = load h q) /\
    bytes tr /\ msize tr = msize t /\
    (forall q, q <> checksum_at -> q <> checksum_at + 1 -> load tr q = load t' q).
Proof.
  intros (Hh & Eh & Sh & Ht & Et & Mt & Hp & Hsz) Htl. cbn in *.
  unfold FullPacket.recalculate_lengths. cbn [FullPacket.net FullPacket.transport FullPacket.payload
    FullPacket.data_ Ipv4PacketLittleEndian.to_bytes DataPacketLittleEndian.to_bytes].
  rewrite t_to_bytes_law, !Z.sub_0_r, Htl. cbn [fst snd].
  unfold Ipv4PacketLittleEndian.set_ip_total_length.
  set (len := u16 _). destruct (store16_in h 2 len) as [h1 H1]; [lia..|]. rewrite H1.
  pose proof (store16_size _ _ _ _ H1) as S1.
  destruct (t_length_law t (u16 (msize t)) Ht Mt) as (t2 & Ht2 & Bt2 & St2).
  rewrite Htl in Ht2. apply (inj Some) in Ht2 as <-. cbn [mbind option_bind].
  destruct (checksums_ok (FullPacket.mk h1 t' pl buf))
    as (n & tr & ph & Hr & Hph & Hv & Hvt & Hbn & Hsn & Hqn & Hbt & Hst & Hqt).
  { unfold packet_wf. cbn. rewrite S1, St2. split_and!; first [done | lia | exact (store16_bytes _ _ _ _ Hh H1)]. }
  cbn in *. exists n, tr, ph. rewrite Hr.
  split_and!; [done| |done..|lia| |done|lia|done].
  - unfold Ipv4PacketLittleEndian.get_ip_total_length.
    rewrite (load16_ext h1 n 2) by (apply Hqn; lia).
    apply (load16_store16 h); [apply u16_is_u16|done].
  - intros q N1 N2. rewrite Hqn by lia. rewrite (load_store16 _ _ _ _ _ H1).
    by rewrite !decide_False by lia.
Qed.

(** [new_packet_by_payload], in terms of the two length updates of the transport. *)
Lemma payload_ok h t pl buf m b e l t1 t2 :
  ip_whole h -> t_whole t -> packet_wf (FullPacket.mk h t l []) -> range m b e = Some l ->
  t_set_transport_length t (u16 (msize l)) = Some t1 ->
  t_set_transport_length t1 (u16 (msize t1)) = Some t2 ->
  exists n tr ph,
    FullPacket.new_packet_by_payload (FullPacket.mk h t pl buf) m b e =
      Some (FullPacket.mk n tr l []) /\
    Ipv4PacketLittleEndian.get_ip_total_length n = Some (u16 (msize h + msize t + msize l)) /\
    receiver_pseudo n = Some ph /\ verifies (total n) /\ verifies (total ph + total tr + total l) /\
    (forall q, ~ (2 <= q < 4) -> ~ (10 <= q < 12) -> load n q = load h q) /\
    msize tr = msize t /\
    (forall q, q <> checksum_at -> q <> checksum_at + 1 -> load tr q = load t2 q).
Proof.
  intros Hw Htw Hwf Hl H1 H2. pose proof Hwf as (Hh & Eh & Sh & Ht & Et & Mt & Hp & Hsz). cbn in *.
  destruct (t_length_law t (u16 (msize l)) Ht Mt) as (t1' & E1 & Bt1 & St1).
  rewrite H1 in E1. apply (inj Some) in E1 as <-.
  destruct (refresh_ok h t1 l [] t2)
    as (n & tr & ph & Hr & Htl & Hph & Hv & Hvt & _ & _ & Hqn & _ & Hst & Hqt); [|done|].
  { unfold packet_wf. cbn. rewrite St1. done. }
  exists n, tr, ph. unfold FullPacket.new_packet_by_payload.
  cbn [FullPacket.net FullPacket.transport Ipv4PacketLittleEndian.to_bytes].
  rewrite t_to_bytes_law, (of_parts_whole h t m b e l) by done. cbn [mbind option_bind].
  cbn [FullPacket.net FullPacket.transport FullPacket.payload FullPacket.data_].
  pose proof (range_Some _ _ _ _ Hl) as (_ & _ & <- & _). rewrite H1. cbn [mbind option_bind].
  rewrite St1 in Htl. split_and!; done || lia.
Qed.

End Lengths.

(** C34: After [recalculate_checksums] a packet of either kind is what a receiver accepts: the
    IPv4 header sums to 0xFFFF, and so does the segment or datagram with the
    pseudo-header that the receiver forms from the addresses, the protocol and the
    lengths of that header; apart from the two checksum fields nothing has changed. *)
Theorem full_checksums_verify p :
  (packet_wf (T := tcp_object) p ->
   exists n tr ph,
     Ipv4TcpFatPacket.recalculate_checksums p =
       Some (FullPacket.mk n tr (FullPacket.payload p) (FullPacket.data_ p)) /\
     receiver_pseudo n = Some ph /\ verifies (total n) /\
     verifies (total ph + total (tr ++ FullPacket.payload p)) /\
     (forall q, q <> 10 -> q <> 11 -> load n q = load (FullPacket.net p) q) /\
     (forall q, q <> 16 -> q <> 17 -> load tr q = load (FullPacket.transport p) q)) /\
  (packet_wf (T := udp_object) p ->
   exists n tr ph,
     Ipv4UdpFatPacket.recalculate_checksums p =
       Some (FullPacket.mk n tr (FullPacket.payload p) (FullPacket.data_ p)) /\
     receiver_pseudo n = Some ph /\ verifies (total n) /\
     verifies (total ph + total (tr ++ FullPacket.payload p)) /\
     (forall q, q <> 10 -> q <> 11 -> load n q = load (FullPacket.net p) q) /\
     (forall q, q <> 6 -> q <> 7 -> load tr q = load (FullPacket.transport p) q)).
Proof.
  split; intros Hwf.
  all: pose proof Hwf as (_ & _ & _ & _ & Et & _).
  all: destruct (checksums_ok p Hwf) as (n & tr & ph & Hr & Hph & Hv & Hvt & _ & _ & Hqn & _ & Hst & Hqt).
  all: exists n, tr, ph; rewrite total_app by (by rewrite Hst); rewrite Z.add_assoc; done.
Qed.

Lemma full_checksums_verify_witness :
  let p := FullPacket.mk (69 :: repeat 7 19) (repeat 80 20) [1; 2; 3] [] in
  exists n tr ph, Ipv4TcpFatPacket.recalculate_checksums p = Some (FullPacket.mk n tr [1; 2; 3] []) /\
    verifies (total ph + total (tr ++ [1; 2; 3])).
Proof.
  intros p. destruct (full_checksums_verify p) as [H _].
  destruct H as (n & tr & ph & H & _ & _ & Hv & _).
  - split_and!; [concrete|done|vm_compute; discriminate|done|concrete|done|vm_compute; discriminate|concrete|done].
  - exists n, tr, ph. split; [exact H|exact Hv].
Defined.

(** * Replacing the payload *)

(** The data offset after or-ing in a length. *)
Lemma nibble_lor a k :
  is_u8 a -> Z.shiftr (u8 (Z.lor a (Z.shiftl k 4))) 4 = Z.lor (Z.shiftr a 4) (k mod 16).
Proof.
  intros Ha. apply Z.bits_inj'. intros i Hi.
  rewrite Z.shiftr_spec, Z.lor_spec, Z.shiftr_spec by lia. unfold u8.
  change 256 with (2 ^ 8). change 16 with (2 ^ 4).
  destruct (Z.lt_ge_cases i 4) as [Hl|Hl].
  - rewrite !Z.mod_pow2_bits_low by lia. rewrite Z.lor_spec, Z.shiftl_spec by lia.
    do 2 f_equal. lia.
  - rewrite !Z.mod_pow2_bits_high by lia. rewrite orb_false_r.
    symmetry. rewrite <- (Z.mod_small a (2 ^ 8)) by (unfold is_u8 in Ha; lia).
    apply Z.mod_pow2_bits_high. lia.
Qed.

(** [new_packet_by_payload] on a UDP packet gives the packet with the new payload: the
    IPv4 length is the packet's size, the addresses, protocol and ports stay and both
    checksums are right; but the UDP length is that of the header alone. *)
Theorem udp_new_packet_by_payload p m b e l :
  ip_whole (FullPacket.net p) ->
  packet_wf (T := udp_object) (FullPacket.mk (FullPacket.net p) (FullPacket.transport p) l []) ->
  range m b e = Some l ->
  exists n tr ph,
    Ipv4UdpFatPacket.new_packet_by_payload p m b e = Some (FullPacket.mk n tr l []) /\
    Ipv4UdpFatPacket.get_full_packet_length (FullPacket.mk n tr l []) =
      Some (u16 (msize (FullPacket.net p) + msize (FullPacket.transport p) + msize l)) /\
    receiver_pseudo n = Some ph /\ verifies (total n) /\
    verifies (total ph + total tr + total l) /\
    (forall q, ~ (2 <= q < 4) -> ~ (10 <= q < 12) -> load n q = load (FullPacket.net p) q) /\
    (forall q, q < 4 \/ 8 <= q -> load tr q = load (FullPacket.transport p) q) /\
    UdpPacketLittleEndian.get_udp_length tr = Some (u16 (msize (FullPacket.transport p))).
Proof.
  destruct p as [h t pl buf]. intros Hw Hwf Hl.
  pose proof Hwf as (_ & _ & _ & Ht & _ & Mt & _ & Hsz). cbn in *.
  destruct (store16_in t 4 (u16 (msize l))) as [t1 H1]; [lia..|].
  pose proof (store16_size _ _ _ _ H1) as S1.
  destruct (store16_in t1 4 (u16 (msize t1))) as [t2 H2]; [lia..|].
  destruct (payload_ok (T := udp_object) (L := udp_laws) h t pl buf m b e l t1 t2 Hw I Hwf Hl H1 H2)
    as (n & tr & ph & Hr & Htl & Hph & Hv & Hvt & Hqn & Hst & Hqt). cbn in Hqt.
  exists n, tr, ph. split_and!; [done..| |].
  - intros q Hq. destruct (decide (q = 6)), (decide (q = 7)); try lia. rewrite Hqt by lia.
    rewrite (load_store16 _ _ _ _ _ H2), (load_store16 _ _ _ _ _ H1).
    by rewrite !decide_False by lia.
  - unfold UdpPacketLittleEndian.get_udp_length. rewrite (load16_ext t2 tr 4) by (apply Hqt; lia).
    rewrite <- S1. apply (load16_store16 t1); [apply u16_is_u16|done].
Qed.

Lemma udp_new_packet_by_payload_witness :
  let p := FullPacket.mk (69 :: repeat 7 19) [0; 53; 0; 99; 0; 8; 0; 0] [] [] in
  exists n tr ph, Ipv4UdpFatPacket.new_packet_by_payload p (repeat 1 100) 0 100 =
      Some (FullPacket.mk n tr (repeat 1 100) []) /\
    verifies (total ph + total tr + total (repeat 1 100)) /\
    UdpPacketLittleEndian.get_udp_length tr = Some 8.
Proof.
  intros p. destruct (udp_new_packet_by_payload p (repeat 1 100) 0 100 (repeat 1 100))
    as (n & tr & ph & H & _ & _ & _ & Hv & _ & _ & Hl).
  - split; [vm_compute; discriminate|exists 69; by split].
  - split_and!; [concrete|done|vm_compute; discriminate|done|concrete|done|vm_compute; discriminate|concrete|done].
  - reflexivity.
  - exists n, tr, ph. split; [exact H|]. split; [exact Hv|exact Hl].
Defined.

(** On a TCP packet the IPv4 length, the other header fields and both checksums come out
    right, but the data offset is or-ed with the payload's length in words: it stays
    correct only when those bits are among its own. *)
Theorem tcp_new_packet_by_payload p m b e l a :
  ip_whole (FullPacket.net p) -> tcp_whole (FullPacket.transport p) ->
  load (FullPacket.transport p) 12 = Some a ->
  packet_wf (T := tcp_object) (FullPacket.mk (FullPacket.net p) (FullPacket.transport p) l []) ->
  range m b e = Some l ->
  exists n tr ph,
    Ipv4TcpFatPacket.new_packet_by_payload p m b e = Some (FullPacket.mk n tr l []) /\
    Ipv4TcpFatPacket.get_full_packet_length (FullPacket.mk n tr l []) =
      Some (u16 (msize (FullPacket.net p) + msize (FullPacket.transport p) + msize l)) /\
    receiver_pseudo n = Some ph /\ verifies (total n) /\
    verifies (total ph + total tr + total l) /\
    (forall q, ~ (2 <= q < 4) -> ~ (10 <= q < 12) -> load n q = load (FullPacket.net p) q) /\
    (forall q, q <> 12 -> q <> 16 -> q <> 17 -> load tr q = load (FullPacket.transport p) q) /\
    TcpPacketLittleEndian.get_tcp_header_length tr =
      Some (Z.lor (Z.shiftr a 4) (u16 (msize l) / 4 mod 16)).
Proof.
  destruct p as [h t pl buf]. intros Hw Htw Ha Hwf Hl.
  pose proof Hwf as (_ & _ & _ & Ht & _ & Mt & _ & Hsz). cbn in *.
  pose proof (load_u8 _ _ _ Ht Ha) as Ua.
  assert (E1 : TcpPacketLittleEndian.set_transport_length t (u16 (msize l)) =
    store t 12 (u8 (Z.lor a (Z.shiftl (u8 (u16 (msize l) / 4)) 4)))).
  { unfold TcpPacketLittleEndian.set_transport_length. by rewrite Ha. }
  set (a1 := u8 (Z.lor a _)) in E1.
  pose proof (store_in t 12 a1 ltac:(lia)) as H1. set (t1 := <[_ := _]> t) in H1.
  pose proof (store_size _ _ _ _ H1) as S1. rewrite H1 in E1.
  assert (Ha1 : load t1 12 = Some a1) by (rewrite (load_store _ _ _ _ _ H1); by rewrite decide_True).
  assert (E2 : TcpPacketLittleEndian.set_transport_length t1 (u16 (msize t1)) =
    store t1 12 (u8 (Z.lor a1 (Z.shiftl (u8 (u16 (msize t1) / 4)) 4)))).
  { unfold TcpPacketLittleEndian.set_transport_length. by rewrite Ha1. }
  set (a2 := u8 (Z.lor a1 _)) in E2.
  pose proof (store_in t1 12 a2 ltac:(lia)) as H2. set (t2 := <[_ := _]> t1) in H2. rewrite H2 in E2.
  destruct (payload_ok (T := tcp_object) (L := tcp_laws) h t pl buf m b e l t1 t2 Hw Htw Hwf Hl E1 E2)
    as (n & tr & ph & Hr & Htl & Hph & Hv & Hvt & Hqn & Hst & Hqt). cbn in Hqt.
  exists n, tr, ph. split_and!; [done..| |].
  - intros q N1 N2 N3. rewrite Hqt by lia.
    rewrite (load_store _ _ _ _ _ H2), (load_store _ _ _ _ _ H1).
    by rewrite !decide_False by lia.
  - unfold TcpPacketLittleEndian.get_tcp_header_length. rewrite Hqt by lia.
    rewrite (load_store _ _ _ _ _ H2), decide_True by lia. cbn [mbind option_bind]. f_equal.
    destruct Htw as (Hs & a' & Ha' & Hwh). rewrite Ha in Ha'. injection Ha' as <-.
    unfold a2, a1. rewrite nibble_lor by apply u8_is_u8. rewrite nibble_lor by done.
    assert (Hsh : 0 <= Z.shiftr a 4 < 16).
    { rewrite Z.shiftr_div_pow2 by lia. unfold is_u8 in Ua. Z.div_mod_to_equations. lia. }
    rewrite S1, Hwh, (u16_id (4 * Z.shiftr a 4)) by (unfold is_u16; lia).
    rewrite (Z.mul_comm 4), Z.div_mul by lia. rewrite (u8_id (Z.shiftr a 4)) by (unfold is_u8; lia).
    rewrite (Z.mod_small (Z.shiftr a 4)) by lia.
    assert (u8 (u16 (msize l) / 4) mod 16 = u16 (msize l) / 4 mod 16) as ->.
    { unfold u8. change 256 with (16 * 16). rewrite Z.rem_mul_r by lia.
      by rewrite (Z.mul_comm 16), Z.mod_add, Z.mod_mod by lia. }
    by rewrite (Z.lor_comm _ (Z.shiftr a 4)), Z.lor_assoc, Z.lor_diag.
Qed.

(** With 40 bytes of payload the offset of a header without options becomes 15. *)
Lemma tcp_new_packet_by_payload_witness :
  let p := FullPacket.mk (69 :: repeat 7 19) (repeat 80 20) [] [] in
  exists n tr, Ipv4TcpFatPacket.new_packet_by_payload p (repeat 1 100) 0 40 =
      Some (FullPacket.mk n tr (repeat 1 40) []) /\
    TcpPacketLittleEndian.get_tcp_header_length tr = Some 15.
Proof.
  intros p. destruct (tcp_new_packet_by_payload p (repeat 1 100) 0 40 (repeat 1 40) 80)
    as (n & tr & ph & H & _ & _ & _ & _ & _ & _ & Hl).
  - split; [vm_compute; discriminate|exists 69; by split].
  - split; [vm_compute; discriminate|exists 80; by split].
  - reflexivity.
  - split_and!; [concrete|done|vm_compute; discriminate|done|concrete|done|vm_compute; discriminate|concrete|done].
  - reflexivity.
  - exists n, tr. split; [exact H|exact Hl].
Defined.

(** * Carrying a TCP packet through the tunnel *)

Section Carry.

(** A header without options, with new addresses and length. *)
Lemma regenerate_20 nh a src dst len :
  bytes nh -> msize nh = 20 -> load nh 0 = Some a -> Z.land a 15 = 5 ->
  bytes src -> bytes dst -> msize src = 4 -> msize dst = 4 ->
  exists v n, Ipv4PacketView.make nh 0 (msize nh) = Some v /\
    regenerate_object nh v src dst len = Some n /\ bytes n /\ msize n = 20 /\
    Ipv4PacketLittleEndian.get_src_addr n = Some src /\
    Ipv4PacketLittleEndian.get_dst_addr n = Some dst /\
    (forall q, ~ (2 <= q < 4) -> ~ (10 <= q < 20) -> load n q = load nh q).
Proof.
  intros Hb Hs Ha Hihl Bs Bd Ls Ld.
  assert (Hm : forall h, msize h = 20 -> load h 0 = Some a ->
    Ipv4PacketView.make h 0 (msize h) = Some (Ipv4PacketView.mk 0 20 0)).
  { intros h Hh Hl. unfold Ipv4PacketView.make, Ipv4PacketView.parse_packet, Ipv4PacketView.ihl_at.
    rewrite Hl. cbn [mbind option_bind]. by rewrite Hihl. }
  destruct (blit_in nh 12 src) as [h1 H1]; [lia..|]. pose proof (blit_size _ _ _ _ H1) as S1.
  destruct (blit_in h1 16 dst) as [h2 H2]; [lia..|]. pose proof (blit_size _ _ _ _ H2) as S2.
  destruct (store16_in h2 2 len) as [h3 H3]; [lia..|]. pose proof (store16_size _ _ _ _ H3) as S3.
  assert (B3 : bytes h3) by (eapply store16_bytes, H3; eapply blit_bytes, H2; [|done];
    by eapply blit_bytes, H1).
  destruct (view_checksum_20 h3 B3) as (n & Hn & Bn & Sn & Hq & _); [lia|].
  exists (Ipv4PacketView.mk 0 20 0), n. split; [by apply Hm|].
  assert (Hload : forall q, ~ (2 <= q < 4) -> ~ (10 <= q < 20) -> load n q = load nh q).
  { intros q N1 N2. rewrite Hq by lia.
    rewrite (load_store16 _ _ _ _ _ H3), (load_blit _ _ _ _ _ H2), (load_blit _ _ _ _ _ H1).
    by rewrite !decide_False by lia. }
  split.
  - unfold regenerate_object, regenerate_object_bytes, Ipv4PacketView.to_bytes. cbn
      [Ipv4PacketView.header_ Ipv4PacketView.additional_header_ Ipv4PacketView.add_header_size_].
    replace (20 + 0) with (msize nh) by lia. rewrite range_full. cbn [mbind option_bind].
    rewrite (Hm nh) by done. cbn [mbind option_bind].
    unfold Ipv4PacketView.set_src_addr, Ipv4PacketView.set_dst_addr, Ipv4PacketView.set_ip_total_length,
      NetAddr.to_bytes. cbn [Ipv4PacketView.header_]. rewrite !Z.add_0_l, H1. cbn [mbind option_bind].
    rewrite H2. cbn [mbind option_bind]. rewrite H3. cbn [mbind option_bind]. rewrite Hn.
    cbn [mbind option_bind]. apply ip_make_whole. split; [lia|]. exists a.
    rewrite Hload by lia. split; [done|lia].
  - split_and!; [done|done| | |done].
    + unfold Ipv4PacketLittleEndian.get_src_addr, NetAddr.of_range.
      rewrite (range_ext n h3) by (lia || (intros; apply Hq; lia)).
      rewrite (range_store16_ne _ _ _ _ _ _ H3), (range_blit_ne _ _ _ _ _ _ H2) by lia.
      replace 16 with (12 + msize src) by lia. apply (range_blit nh); [lia|done|lia].
    + unfold Ipv4PacketLittleEndian.get_dst_addr, NetAddr.of_range.
      rewrite (range_ext n h3) by (lia || (intros; apply Hq; lia)).
      rewrite (range_store16_ne _ _ _ _ _ _ H3) by lia.
      replace 20 with (16 + msize dst) by lia. apply (range_blit h1); [lia|done|lia].
Qed.

(** Or-ing a header's own length into its offset changes nothing. *)
Lemma own_length h :
  bytes h -> tcp_whole h ->
  TcpPacketLittleEndian.set_transport_length h (u16 (msize h)) = Some h.
Proof.
  intros Hb (Hs & a & Ha & Hw). unfold TcpPacketLittleEndian.set_transport_length.
  rewrite Ha. cbn [mbind option_bind]. pose proof (load_u8 _ _ _ Hb Ha) as Ua.
  assert (Hsh : 0 <= Z.shiftr a 4 < 16).
  { rewrite Z.shiftr_div_pow2 by lia. unfold is_u8 in Ua. Z.div_mod_to_equations. lia. }
  rewrite Hw, u16_id by (unfold is_u16; lia).
  rewrite (Z.mul_comm 4), Z.div_mul by lia. rewrite (u8_id (Z.shiftr a 4)) by (unfold is_u8; lia).
  assert (u8 (Z.lor a (Z.shiftl (Z.shiftr a 4) 4)) = a) as ->.
  { apply Z.eqb_eq. revert a Ua Ha Hw Hsh. intros a Ua _ _ _. revert a Ua. apply forall_u8. by vm_compute. }
  rewrite store_in by lia. f_equal. apply list_insert_id.
  unfold load in Ha. by rewrite decide_True in Ha by lia.
Qed.

(** What becomes of a TCP header in the tunnel, octet by octet.  Every octet is kept but for
    the ports, which are not part of this, the checksum, and the two octets around the flags:
    of the first the data offset stays, and the reserved bits and NS are cleared; of the
    second a header with NS comes out with SYN set, and others with all eight flags as they
    were. *)
Definition carried (t tr : mem) : Prop :=
  msize tr = msize t /\
  (forall i, 4 <= i -> i <> 12 -> i <> 13 -> i <> 16 -> i <> 17 -> load tr i = load t i) /\
  exists a c, load t 12 = Some a /\ load t 13 = Some c /\
    load tr 12 = Some (Z.land a 240) /\
    load tr 13 = Some (if Z.testbit a 0 then Z.lor c 2 else c).

(** A header without NS and reserved bits is carried whole. *)
Lemma carried_whole t tr a :
  carried t tr -> load t 12 = Some a -> Z.land a 15 = 0 -> is_u8 a ->
  forall i, 4 <= i -> i <> 16 -> i <> 17 -> load tr i = load t i.
Proof.
  intros (_ & Hq & a' & c & Ha' & Hc & H12 & H13) Ha Hz Ua i Hi H16 H17. rewrite Ha in Ha'. injection Ha' as <-.
  assert (E : Z.land a 240 = a /\ Z.testbit a 0 = false).
  { assert (forallb (fun a => implb (Z.land a 15 =? 0) ((Z.land a 240 =? a) && negb (Z.testbit a 0)))
      (seqZ 0 256) = true) as F by (by vm_compute).
    rewrite forallb_forall in F. specialize (F a ltac:(apply list_elem_of_In, elem_of_seqZ; unfold is_u8 in Ua; lia)).
    rewrite Hz in F. apply andb_true_iff in F as [->%Z.eqb_eq ->%negb_true_iff]. done. }
  destruct E as [E1 E2]. rewrite E1, <- Ha in H12. rewrite E2, <- Hc in H13.
  destruct (decide (i = 12)) as [->|]; [done|]. destruct (decide (i = 13)) as [->|]; [done|]. by apply Hq.
Qed.

(** The fields that the getters of the code read alike in both: that of the flags takes NS for
    SYN. *)
Definition carried_fields : list (mem -> option Z) :=
  [TcpPacketLittleEndian.get_tcp_seq_number; TcpPacketLittleEndian.get_tcp_ack_number;
   TcpPacketLittleEndian.get_tcp_header_length; TcpPacketLittleEndian.get_tcp_flags;
   TcpPacketLittleEndian.get_tcp_window_size; TcpPacketLittleEndian.get_tcp_urgent_pointer].

(** The getters of a header of at least 20 bytes are defined. *)
Lemma tcp_fields_in h :
  bytes h -> tcp_whole h ->
  exists seq ack off fl win urg opts,
    TcpPacketLittleEndian.get_tcp_seq_number h = Some seq /\
    TcpPacketLittleEndian.get_tcp_ack_number h = Some ack /\
    TcpPacketLittleEndian.get_tcp_header_length h = Some off /\
    TcpPacketLittleEndian.get_tcp_flags h = Some fl /\
    TcpPacketLittleEndian.get_tcp_window_size h = Some win /\
    TcpPacketLittleEndian.get_tcp_urgent_pointer h = Some urg /\
    range h 20 (msize h) = Some opts /\
    is_u32 seq /\ is_u32 ack /\ 0 <= off < 16 /\ 0 <= fl < 256 /\ is_u16 win /\ is_u16 urg /\
    msize h = 4 * off /\ msize opts = msize h - 20.
Proof.
  intros Hb (Hs & a & Ha & Hw). pose proof (load_u8 _ _ _ Hb Ha) as Ua.
  assert (Hsh : 0 <= Z.shiftr a 4 < 16).
  { rewrite Z.shiftr_div_pow2 by lia. unfold is_u8 in Ua. Z.div_mod_to_equations. lia. }
  destruct (load32 h 4) as [seq|] eqn:Hseq; cycle 1.
  { exfalso. revert Hseq. unfold load32.
    destruct (load_is_Some h 4) as [? ->]; [lia|]. destruct (load_is_Some h (4 + 1)) as [? ->]; [lia|].
    destruct (load_is_Some h (4 + 2)) as [? ->]; [lia|]. by destruct (load_is_Some h (4 + 3)) as [? ->]; [lia|]. }
  destruct (load32 h 8) as [ack|] eqn:Hack; cycle 1.
  { exfalso. revert Hack. unfold load32.
    destruct (load_is_Some h 8) as [? ->]; [lia|]. destruct (load_is_Some h (8 + 1)) as [? ->]; [lia|].
    destruct (load_is_Some h (8 + 2)) as [? ->]; [lia|]. by destruct (load_is_Some h (8 + 3)) as [? ->]; [lia|]. }
  destruct (load_is_Some h 13) as [c Hc]; [lia|].
  destruct (load16_in h 14) as [win Hwin]; [lia..|]. destruct (load16_in h 18) as [urg Hurg]; [lia..|].
  destruct (range_halves h 20) as (l & opts & _ & Hopts & _); [lia|].
  destruct (range_Some _ _ _ _ Hopts) as (_ & _ & So & _).
  assert (Hfl : TcpPacketLittleEndian.get_tcp_flags h =
    Some (TcpFlagsObject.of_short (u16 (Z.lor (Z.shiftl (Z.land a 1) 1) c)))).
  { unfold TcpPacketLittleEndian.get_tcp_flags. by rewrite Ha, Hc. }
  exists seq, ack, (Z.shiftr a 4), (TcpFlagsObject.of_short (u16 (Z.lor (Z.shiftl (Z.land a 1) 1) c))),
    win, urg, opts.
  split_and!; try done || lia.
  - unfold TcpPacketLittleEndian.get_tcp_header_length. by rewrite Ha.
  - by eapply load32_is_u32.
  - by eapply load32_is_u32.
  - apply (view_flags_low h (TcpPacketView.mk 0 20 0)); [done|]. exact Hfl.
  - apply (view_flags_low h (TcpPacketView.mk 0 20 0)); [done|]. exact Hfl.
  - by eapply load16_is_u16.
  - by eapply load16_is_u16.
Qed.

(** The two octets that are generated from the data offset and the flags of a header. *)
Lemma flag_octets a c :
  is_u8 a -> is_u8 c ->
  let fl := TcpFlagsObject.of_short (u16 (Z.lor (Z.shiftl (Z.land a 1) 1) c)) in
  u8 (Z.lor (Z.lor (Z.shiftl (Z.shiftr a 4) 4) 0) (Z.land (TcpFlagsObject.get_ns fl) 1)) = Z.land a 240 /\
  TcpFlagsObject.get_without_ns fl = if Z.testbit a 0 then Z.lor c 2 else c.
Proof.
  intros Ua Uc fl.
  assert (Hn : Z.land a 1 = Z.b2z (Z.testbit a 0)).
  { pose proof (land1_bit a 0 ltac:(lia)) as E. by rewrite Z.shiftr_0_r in E. }
  assert (Hc : forall n, n = false \/ n = true -> forall c, is_u8 c ->
    let fl := u16 (Z.lor (Z.shiftl (Z.b2z n) 1) c) in
    ((TcpFlagsObject.get_ns fl =? 0) &&
     (TcpFlagsObject.get_without_ns fl =? if n then Z.lor c 2 else c)) = true).
  { intros n [-> | ->]; apply forall_u8; by vm_compute. }
  specialize (Hc (Z.testbit a 0) ltac:(by destruct (Z.testbit a 0); auto) c Uc).
  apply andb_true_iff in Hc as [H0%Z.eqb_eq H1%Z.eqb_eq].
  unfold fl, TcpFlagsObject.of_short. rewrite Hn, H0, H1. split; [|done].
  apply Z.eqb_eq. clear fl Hn H0 H1 c Uc. revert a Ua. apply forall_u8. by vm_compute.
Qed.

Lemma tcp_to_view h :
  tcp_whole h -> TcpPacketLittleEndian.to_view h = Some (TcpPacketView.mk 0 20 (msize h - 20)).
Proof.
  intros (Hs & a & Ha & Hw). unfold TcpPacketLittleEndian.to_view, TcpPacketView.make,
    TcpPacketView.parse_packet. change (0 + 12) with 12. rewrite Ha. cbn [mbind option_bind].
  do 2 f_equal. change default_tcp_size with 20. change default_tcp_quart_size with 5. lia.
Qed.

(** Collecting a header's metadata and generating a header from it carries its octets
    ([carried]) and the options; the ports are the ones asked for. *)
Lemma carry_ok h sp dp :
  bytes h -> tcp_whole h -> is_u16 sp -> is_u16 dp ->
  exists pd h1, t_collect (TransportObject := tcp_object) h = Some pd /\
    t_generate (TransportObject := tcp_object) pd 0 (msize pd) sp dp = Some h1 /\
    bytes h1 /\ tcp_whole h1 /\ msize h1 = msize h /\
    TcpPacketLittleEndian.get_tcp_src_port h1 = Some sp /\
    TcpPacketLittleEndian.get_tcp_dst_port h1 = Some dp /\
    carried h h1 /\
    range h1 20 (msize h1) = range h 20 (msize h).
Proof.
  intros Hb Hw Hsp Hdp.
  destruct (tcp_fields_in h Hb Hw) as (seq & ack & off & fl & win & urg & opts & Hseq & Hack & Hoff &
    Hfl & Hwin & Hurg & Hopts & Useq & Uack & Uoff & Ufl & Uwin & Uurg & Sh & So).
  pose proof (range_bytes _ _ _ _ Hb Hopts) as Bo.
  assert (Hmin : 20 <= msize h) by apply Hw.
  set (v := TcpPacketView.mk 0 20 (msize h - 20)).
  assert (Ho : range h (20 + 0) (20 + (msize h - 20)) = Some opts).
  { by replace (20 + (msize h - 20)) with (msize h) by lia. }
  assert (Hs : exists s, QTunnelTCPViewScheme.generate_object_bytes h v = Some s).
  { unfold QTunnelTCPViewScheme.generate_object_bytes.
    assert (TcpPacketView.get_tcp_seq_number h v = Some seq) as -> by exact Hseq.
    assert (TcpPacketView.get_tcp_ack_number h v = Some ack) as -> by exact Hack.
    assert (TcpPacketView.get_tcp_flags h v = Some fl) as -> by exact Hfl.
    assert (TcpPacketView.get_tcp_header_length h v = Some off) as -> by exact Hoff.
    assert (TcpPacketView.get_tcp_window_size h v = Some win) as -> by exact Hwin.
    assert (TcpPacketView.get_tcp_urgent_pointer h v = Some urg) as -> by exact Hurg.
    unfold TcpPacketView.get_tcp_options. cbn [mbind option_bind v TcpPacketView.options_
      TcpPacketView.tcp_options_size]. rewrite Z.add_0_r in Ho. rewrite Ho. by eexists. }
  destruct Hs as [pd Hpd].
  destruct (tcp_scheme_fields h v pd opts Hb Hpd) as (F1 & F2 & F3 & F4 & F5 & F6 & F7 & _).
  { exact Ho. }
  { lia. }
  destruct (QTunnelTCPViewScheme.get_options (QTunnelTCPViewScheme.make 0 (msize pd))) as [ob oe] eqn:Eo.
  destruct (tcp_generate_fields pd sp dp seq ack off fl win urg ob oe opts)
    as (h1 & Hg & G1 & G2 & G3 & G4 & G5 & G6 & G7 & _ & G9 & G10 & G11 & G12 & G13 & G14); [done..| |done|done|done|].
  { lia. }
  assert (Hw1 : tcp_whole h1).
  { split; [lia|]. unfold TcpPacketLittleEndian.get_tcp_header_length in G5.
    apply bind_Some in G5 as (a & Ha & [= Hoa]). exists a. split; [done|lia]. }
  exists pd, h1. split_and!; [| |by apply G12|done|lia|done|done| |congruence].
  - cbn [t_collect tcp_object]. rewrite tcp_to_view by done. exact Hpd.
  - cbn [t_generate tcp_object]. rewrite Eo, F1, F2, F3, F4, F5, F6.
    assert (TcpPacketView.get_tcp_seq_number h v = Some seq) as -> by exact Hseq.
    assert (TcpPacketView.get_tcp_ack_number h v = Some ack) as -> by exact Hack.
    assert (TcpPacketView.get_tcp_flags h v = Some fl) as -> by exact Hfl.
    assert (TcpPacketView.get_tcp_header_length h v = Some off) as -> by exact Hoff.
    assert (TcpPacketView.get_tcp_window_size h v = Some win) as -> by exact Hwin.
    assert (TcpPacketView.get_tcp_urgent_pointer h v = Some urg) as -> by exact Hurg.
    cbn [mbind option_bind]. unfold TcpPacketLittleEndian.generate_object. rewrite Hg.
    cbn [mbind option_bind]. by apply tcp_make_whole.
  - destruct (load_is_Some h 12) as [a Ha]; [lia|]. destruct (load_is_Some h 13) as [c Hc]; [lia|].
    unfold TcpPacketLittleEndian.get_tcp_header_length, TcpPacketLittleEndian.get_tcp_flags in Hoff, Hfl.
    rewrite Ha in Hoff, Hfl. rewrite Hc in Hfl. injection Hoff as <-. injection Hfl as <-.
    pose proof (load_u8 _ _ _ Hb Ha) as Ua. pose proof (load_u8 _ _ _ Hb Hc) as Uc.
    destruct (flag_octets a c Ua Uc) as [E12 E13]. split; [lia|]. split.
    + assert (B1 : bytes h1) by (by apply G12). intros i Hi H12 H13 H16 H17.
      destruct (decide (i < 8)); [by apply (load32_octets h h1 4 seq); [..|lia]|].
      destruct (decide (i < 12)); [by apply (load32_octets h h1 8 ack); [..|lia]|].
      destruct (decide (i < 16)); [by apply (load16_octets h h1 14 win); [..|lia]|].
      destruct (decide (i < 20)); [by apply (load16_octets h h1 18 urg); [..|lia]|].
      destruct (decide (i < msize h)); [|by rewrite !load_None by lia].
      destruct (range_Some _ _ _ _ Hopts) as (_ & _ & _ & R0).
      destruct (range_Some _ _ _ _ G9) as (_ & _ & _ & R1).
      replace i with (20 + (i - 20)) by lia. by rewrite <- R0, <- R1 by lia.
    + exists a, c. split_and!; [done|done|by rewrite G13, E12|by rewrite G14, E13].
Qed.

End Carry.

Lemma tcp_whole_size h : bytes h -> tcp_whole h -> 20 <= msize h <= 60.
Proof.
  intros B1 (Hm & a1 & Ha1 & Hlen). pose proof (load_u8 _ _ _ B1 Ha1) as U1.
  split; [done|]. rewrite Z.shiftr_div_pow2 in Hlen by lia. change (2 ^ 4) with 16 in Hlen.
  unfold is_u8 in U1. Z.div_mod_to_equations. lia.
Qed.

(** A header whose octets were carried, up to the checksum that is written afterwards. *)
Lemma carried_keep t h tr :
  carried t h -> msize tr = msize h -> (forall q, q <> 16 -> q <> 17 -> load tr q = load h q) ->
  carried t tr.
Proof.
  intros (Hs & Hq & a & c & H) St Hqt. split; [lia|]. split.
  - intros i Hi H12 H13 H16 H17. rewrite Hqt by done. by apply Hq.
  - exists a, c. by rewrite !Hqt by lia.
Qed.

(** The getters of the code do not tell them apart. *)
Lemma carried_getters t tr : bytes t -> carried t tr -> Forall (fun g => g tr = g t) carried_fields.
Proof.
  intros Bt (Hs & Hq & a & c & Ha & Hc & H12 & H13).
  pose proof (load_u8 _ _ _ Bt Ha) as Ua. pose proof (load_u8 _ _ _ Bt Hc) as Uc.
  destruct (flag_octets a c Ua Uc) as [E12 E13].
  unfold carried_fields. rewrite !Forall_cons. split_and!.
  - apply (load32_ext t tr 4). intros i Hi. apply Hq; lia.
  - apply (load32_ext t tr 8). intros i Hi. apply Hq; lia.
  - unfold TcpPacketLittleEndian.get_tcp_header_length. rewrite H12, Ha. cbn [mbind option_bind]. f_equal.
    apply Z.eqb_eq. revert a Ua Ha H12 H13 E12 E13.
    enough (P : forall a, is_u8 a -> (Z.shiftr (Z.land a 240) 4 =? Z.shiftr a 4) = true) by (intros; by apply P).
    apply forall_u8. by vm_compute.
  - unfold TcpPacketLittleEndian.get_tcp_flags. rewrite H12, H13, Ha, Hc. cbn [mbind option_bind]. f_equal.
    pose proof (land1_bit a 0 ltac:(lia)) as E. rewrite Z.shiftr_0_r in E.
    rewrite <- Z.land_assoc, E. change (Z.land 240 1) with 0. rewrite Z.land_0_r.
    destruct (Z.testbit a 0); [|done]. change (Z.shiftl 0 1) with 0.
    change (Z.shiftl (Z.b2z true) 1) with 2. rewrite Z.lor_0_l. unfold TcpFlagsObject.of_short. by rewrite (Z.lor_comm c 2).
  - apply (load16_ext t tr 14); apply Hq; lia.
  - apply (load16_ext t tr 18); apply Hq; lia.
  - by apply Forall_nil.
Qed.

(** Outside the checksum a header's fields and options are determined. *)
Lemma carried_ext tr h :
  msize tr = msize h -> (forall q, q <> 16 -> q <> 17 -> load tr q = load h q) ->
  Forall (fun g => g tr = g h) carried_fields /\
  range tr 20 (msize tr) = range h 20 (msize h) /\
  TcpPacketLittleEndian.get_tcp_src_port tr = TcpPacketLittleEndian.get_tcp_src_port h /\
  TcpPacketLittleEndian.get_tcp_dst_port tr = TcpPacketLittleEndian.get_tcp_dst_port h.
Proof.
  intros Hs Hq. split_and!.
  - unfold carried_fields. rewrite !Forall_cons. split_and!.
    + apply (load32_ext h tr 4). intros i Hi. apply Hq; lia.
    + apply (load32_ext h tr 8). intros i Hi. apply Hq; lia.
    + unfold TcpPacketLittleEndian.get_tcp_header_length. by rewrite (Hq 12) by lia.
    + unfold TcpPacketLittleEndian.get_tcp_flags. by rewrite (Hq 12), (Hq 13) by lia.
    + apply (load16_ext h tr 14); apply Hq; lia.
    + apply (load16_ext h tr 18); apply Hq; lia.
    + by apply Forall_nil.
  - rewrite Hs. apply range_ext; [done|]. intros i Hi. apply Hq; lia.
  - apply (load16_ext h tr 0); apply Hq; lia.
  - apply (load16_ext h tr 2); apply Hq; lia.
Qed.

(** The header [n] is [h] with another length, checksum and addresses. *)
Definition keeps_header (h n : mem) : Prop :=
  bytes n /\ msize n = 20 /\ forall q, ~ (2 <= q < 4) -> ~ (10 <= q < 20) -> load n q = load h q.

(** [new_packet_by_this] from a template header without options: a header with the
    addresses of the proxy data in front of the generated transport header [t1], which
    recomputing the length turns into [t2], and the payload. *)
Lemma rebuild_ok {T : TransportObject} {L : TransportLaws T} pr px m b e l a t1 t2 :
  let nh := FullPacket.net pr in
  bytes (QTunnelProxy.source_addr px) -> msize (QTunnelProxy.source_addr px) = 4 ->
  bytes (QTunnelProxy.dst_addr px) -> msize (QTunnelProxy.dst_addr px) = 4 ->
  bytes nh -> msize nh = 20 -> load nh 0 = Some a -> Z.land a 15 = 5 ->
  bytes l -> msize t1 + msize l < 65516 -> range m b e = Some l ->
  t_generate (QTunnelProxy.proto_data px) 0 (msize (QTunnelProxy.proto_data px))
    (QTunnelProxy.source_port px) (QTunnelProxy.dst_port px) = Some t1 ->
  bytes t1 -> t_whole t1 -> Z.even (msize t1) = true -> t_min_size <= msize t1 ->
  t_set_transport_length t1 (u16 (msize t1)) = Some t2 ->
  exists n tr ph,
    FullPacket.new_packet_by_this pr px m b e = Some (FullPacket.mk n tr l []) /\
    Ipv4PacketLittleEndian.get_src_addr n = Some (QTunnelProxy.source_addr px) /\
    Ipv4PacketLittleEndian.get_dst_addr n = Some (QTunnelProxy.dst_addr px) /\
    Ipv4PacketLittleEndian.get_ip_total_length n = Some (msize (n ++ tr ++ l)) /\
    receiver_pseudo n = Some ph /\ verifies (total n) /\ verifies (total ph + total (tr ++ l)) /\
    (keeps_header nh n /\ bytes tr) /\ msize tr = msize t1 /\
    (forall q, q <> checksum_at -> q <> checksum_at + 1 -> load tr q = load t2 q).
Proof.
  destruct pr as [nh nt np nb], px as [pn pt src sp dst dp pd].
  cbn [FullPacket.net QTunnelProxy.source_addr QTunnelProxy.source_port QTunnelProxy.dst_addr
    QTunnelProxy.dst_port QTunnelProxy.proto_data].
  intros Bs Ls Bd Ld Hbn Hsn Ha Hihl Bl Sl Hl Eg B1 W1 Ev1 M1 E2.
  destruct (regenerate_20 nh a src dst (u16 (msize t1 + msize l)) Hbn Hsn Ha Hihl Bs Bd Ls Ld)
    as (v & n0 & Ev & En & Bn0 & Sn0 & As & Ad & Hq0).
  pose proof (msize_nonneg l) as Nl. pose proof (msize_nonneg t1) as N1.
  destruct (refresh_ok n0 t1 l [] t2)
    as (n & tr & ph & Hr & Htl & Hph & Hv & Hvt & Bn & Sn & Hqn & Bt & St & Hqt); [|done|].
  { unfold packet_wf. cbn. rewrite Sn0. split_and!; try done || lia. }
  exists n, tr, ph. split_and!; [| | | |done|done| | |done|done|done].
  - unfold FullPacket.new_packet_by_this, QTunnelProxy.get_proto_data_bytes, QTunnelProtoData.to_bytes,
      QTunnelProxy.get_src_port, QTunnelProxy.get_dst_port, QTunnelProxy.get_src_addr,
      QTunnelProxy.get_dst_addr, Ipv4PacketLittleEndian.to_bytes.
    cbn [QTunnelProxy.proto_data QTunnelProxy.source_addr QTunnelProxy.source_port
      QTunnelProxy.dst_addr QTunnelProxy.dst_port FullPacket.net].
    rewrite Eg. cbn [mbind option_bind]. rewrite t_to_bytes_law. cbn [mbind option_bind].
    rewrite Ev. cbn [mbind option_bind]. rewrite Z.sub_0_r.
    destruct (range_Some _ _ _ _ Hl) as (_ & _ & <- & _). rewrite En.
    cbn [mbind option_bind]. rewrite (of_parts_whole n0 t1 m b e l);
      [cbn [mbind option_bind]; exact Hr| |done|done|done].
    split; [lia|]. exists a. rewrite Hq0 by lia. split; [done|lia].
  - unfold Ipv4PacketLittleEndian.get_src_addr, NetAddr.of_range.
    rewrite (range_ext n n0 12 16) by (lia || (intros; apply Hqn; lia)). exact As.
  - unfold Ipv4PacketLittleEndian.get_dst_addr, NetAddr.of_range.
    rewrite (range_ext n n0 16 20) by (lia || (intros; apply Hqn; lia)). exact Ad.
  - rewrite Htl, !msize_app, u16_id by (unfold is_u16; lia). f_equal. lia.
  - rewrite total_app, Z.add_assoc by (by rewrite St). done.
  - split_and!; [done|lia|]. intros q Q1 Q2. rewrite Hqn by lia. by apply Hq0.
Qed.

(** [new_packet_by_this] on collected metadata, and the transport header it starts from. *)
Lemma tcp_rebuilt ps pr px m b e l a :
  bytes (FullPacket.transport ps) -> tcp_whole (FullPacket.transport ps) ->
  Ipv4TcpFatPacket.collect_proto_data ps = Some (QTunnelProxy.proto_data px) ->
  is_u16 (QTunnelProxy.source_port px) -> is_u16 (QTunnelProxy.dst_port px) ->
  bytes (QTunnelProxy.source_addr px) -> msize (QTunnelProxy.source_addr px) = 4 ->
  bytes (QTunnelProxy.dst_addr px) -> msize (QTunnelProxy.dst_addr px) = 4 ->
  bytes (FullPacket.net pr) -> msize (FullPacket.net pr) = 20 ->
  load (FullPacket.net pr) 0 = Some a -> Z.land a 15 = 5 ->
  bytes l -> msize l < 65000 -> range m b e = Some l ->
  exists h1 n tr ph,
    t_generate (TransportObject := tcp_object) (QTunnelProxy.proto_data px) 0
      (msize (QTunnelProxy.proto_data px)) (QTunnelProxy.source_port px) (QTunnelProxy.dst_port px)
      = Some h1 /\ bytes h1 /\ tcp_whole h1 /\ (keeps_header (FullPacket.net pr) n /\ bytes tr) /\
    msize tr = msize h1 /\
    Ipv4TcpFatPacket.new_packet_by_this pr px m b e = Some (FullPacket.mk n tr l []) /\
    Ipv4TcpFatPacket.new_packet_bytes_by_this pr px m b e = Some (n ++ tr ++ l) /\
    carried (FullPacket.transport ps) tr /\
    range tr 20 (msize tr) = range (FullPacket.transport ps) 20 (msize (FullPacket.transport ps)) /\
    TcpPacketLittleEndian.get_tcp_src_port tr = Some (QTunnelProxy.source_port px) /\
    TcpPacketLittleEndian.get_tcp_dst_port tr = Some (QTunnelProxy.dst_port px) /\
    Ipv4PacketLittleEndian.get_src_addr n = Some (QTunnelProxy.source_addr px) /\
    Ipv4PacketLittleEndian.get_dst_addr n = Some (QTunnelProxy.dst_addr px) /\
    Ipv4TcpFatPacket.get_full_packet_length (FullPacket.mk n tr l []) = Some (msize (n ++ tr ++ l)) /\
    receiver_pseudo n = Some ph /\ verifies (total n) /\ verifies (total ph + total (tr ++ l)).
Proof.
  intros Hb Hw Hc Hsp Hdp Bs Ls Bd Ld Hbn Hsn Ha Hihl Bl Sl Hl.
  destruct (carry_ok _ _ _ Hb Hw Hsp Hdp) as (pd & h1 & Ec & Eg & B1 & W1 & S1 & P1 & P2 & F & O).
  unfold Ipv4TcpFatPacket.collect_proto_data, FullPacket.collect_proto_data in Hc.
  rewrite Ec in Hc. cbn [mbind option_bind] in Hc. unfold QTunnelProtoData.make in Hc.
  rewrite range_full in Hc. apply (inj Some) in Hc. rewrite Hc in Eg.
  destruct (rebuild_ok (T := tcp_object) (L := tcp_laws) pr px m b e l a h1 h1)
    as (n & tr & ph & Hnew & As & Ad & Htl & Hph & Hv & Hvt & [Kn Btr] & St & Hqt); try done.
  { pose proof (tcp_whole_size h1 B1 W1). lia. }
  { destruct W1 as (_ & a1 & _ & ->). by rewrite Z.even_mul. }
  { apply W1. }
  { by apply own_length. }
  cbn [checksum_at tcp_laws] in Hqt.
  destruct (carried_ext tr h1 St Hqt) as (F' & O' & P1' & P2').
  exists h1, n, tr, ph.
  split_and!; [exact Eg|done|done|exact Kn|exact Btr|done|exact Hnew| | |by rewrite O', O|by rewrite P1'|by rewrite P2'|done|done|done|done|done|done].
  - unfold Ipv4TcpFatPacket.new_packet_bytes_by_this, FullPacket.new_packet_bytes_by_this.
    rewrite Hnew. cbn [mbind option_bind]. unfold FullPacket.bytes, Ipv4PacketLittleEndian.to_bytes,
      DataPacketLittleEndian.to_bytes.
    cbn [FullPacket.net FullPacket.transport FullPacket.payload FullPacket.data_].
    rewrite t_to_bytes_law. cbn [mbind option_bind].
    repeat (rewrite range_full; cbn [mbind option_bind]). done.
  - by apply (carried_keep _ h1).
Qed.

(** A TCP packet goes through the tunnel: the metadata the sender collects from its
    header, put into the proxy data, makes the receiver build from its own IPv4
    header a packet with the sender's TCP header as [carried] says, the ports and addresses of
    the proxy data and the given payload; its lengths and both checksums are right, and
    [new_packet_bytes_by_this] is its bytes. *)
Theorem tcp_packet_carried ps pr px m b e l a :
  bytes (FullPacket.transport ps) -> tcp_whole (FullPacket.transport ps) ->
  Ipv4TcpFatPacket.collect_proto_data ps = Some (QTunnelProxy.proto_data px) ->
  is_u16 (QTunnelProxy.source_port px) -> is_u16 (QTunnelProxy.dst_port px) ->
  bytes (QTunnelProxy.source_addr px) -> msize (QTunnelProxy.source_addr px) = 4 ->
  bytes (QTunnelProxy.dst_addr px) -> msize (QTunnelProxy.dst_addr px) = 4 ->
  bytes (FullPacket.net pr) -> msize (FullPacket.net pr) = 20 ->
  load (FullPacket.net pr) 0 = Some a -> Z.land a 15 = 5 ->
  bytes l -> msize l < 65000 -> range m b e = Some l ->
  exists n tr ph,
    Ipv4TcpFatPacket.new_packet_by_this pr px m b e = Some (FullPacket.mk n tr l []) /\
    Ipv4TcpFatPacket.new_packet_bytes_by_this pr px m b e = Some (n ++ tr ++ l) /\
    carried (FullPacket.transport ps) tr /\
    range tr 20 (msize tr) = range (FullPacket.transport ps) 20 (msize (FullPacket.transport ps)) /\
    TcpPacketLittleEndian.get_tcp_src_port tr = Some (QTunnelProxy.source_port px) /\
    TcpPacketLittleEndian.get_tcp_dst_port tr = Some (QTunnelProxy.dst_port px) /\
    Ipv4PacketLittleEndian.get_src_addr n = Some (QTunnelProxy.source_addr px) /\
    Ipv4PacketLittleEndian.get_dst_addr n = Some (QTunnelProxy.dst_addr px) /\
    Ipv4TcpFatPacket.get_full_packet_length (FullPacket.mk n tr l []) = Some (msize (n ++ tr ++ l)) /\
    receiver_pseudo n = Some ph /\ verifies (total n) /\ verifies (total ph + total (tr ++ l)).
Proof.
  intros. destruct (tcp_rebuilt ps pr px m b e l a) as (h1 & n & tr & ph & _ & _ & _ & _ & _ & R); [done..|].
  by exists n, tr, ph.
Qed.

Lemma tcp_packet_carried_witness :
  exists pd n tr,
    Ipv4TcpFatPacket.collect_proto_data (FullPacket.mk [] (repeat 80 20) [] []) = Some pd /\
    Ipv4TcpFatPacket.new_packet_by_this (FullPacket.mk (69 :: repeat 7 19) [] [] [])
      (QTunnelProxy.mk IPv4 TCP [10; 0; 0; 2] 443 [8; 8; 8; 8] 50000 pd) [1; 2; 3] 0 3
      = Some (FullPacket.mk n tr [1; 2; 3] []) /\
    TcpPacketLittleEndian.get_tcp_dst_port tr = Some 50000.
Proof.
  eexists.
  destruct (tcp_packet_carried (FullPacket.mk [] (repeat 80 20) [] [])
    (FullPacket.mk (69 :: repeat 7 19) [] [] [])
    (QTunnelProxy.mk IPv4 TCP [10; 0; 0; 2] 443 [8; 8; 8; 8] 50000
      [0; 15; 80; 80; 80; 80; 80; 80; 80; 80; 0; 80; 5; 80; 80; 80; 80])
    [1; 2; 3] 0 3 [1; 2; 3] 69) as (n & tr & ph & H & _ & _ & _ & _ & Hd & _);
    [concrete|split; [vm_compute; discriminate|exists 80; by split]|reflexivity|concrete|concrete
    |concrete|reflexivity|concrete|reflexivity|concrete|reflexivity|reflexivity|reflexivity
    |concrete|reflexivity|reflexivity|].
  exists n, tr. split; [reflexivity|]. split; [exact H|exact Hd].
Defined.

(** The same for UDP. *)
Lemma udp_rebuilt ps pr px m b e l a :
  bytes (FullPacket.transport ps) -> 8 <= msize (FullPacket.transport ps) ->
  Ipv4UdpFatPacket.collect_proto_data ps = Some (QTunnelProxy.proto_data px) ->
  is_u16 (QTunnelProxy.source_port px) -> is_u16 (QTunnelProxy.dst_port px) ->
  bytes (QTunnelProxy.source_addr px) -> msize (QTunnelProxy.source_addr px) = 4 ->
  bytes (QTunnelProxy.dst_addr px) -> msize (QTunnelProxy.dst_addr px) = 4 ->
  bytes (FullPacket.net pr) -> msize (FullPacket.net pr) = 20 ->
  load (FullPacket.net pr) 0 = Some a -> Z.land a 15 = 5 ->
  bytes l -> msize l < 65000 -> range m b e = Some l ->
  exists h1 n tr ph,
    t_generate (TransportObject := udp_object) (QTunnelProxy.proto_data px) 0
      (msize (QTunnelProxy.proto_data px)) (QTunnelProxy.source_port px) (QTunnelProxy.dst_port px)
      = Some h1 /\ bytes h1 /\ msize h1 = 8 /\ (keeps_header (FullPacket.net pr) n /\ bytes tr) /\
    msize tr = msize h1 /\
    Ipv4UdpFatPacket.new_packet_by_this pr px m b e = Some (FullPacket.mk n tr l []) /\
    UdpPacketLittleEndian.get_udp_src_port tr = Some (QTunnelProxy.source_port px) /\
    UdpPacketLittleEndian.get_udp_dst_port tr = Some (QTunnelProxy.dst_port px) /\
    UdpPacketLittleEndian.get_udp_length tr = Some 8 /\
    Ipv4PacketLittleEndian.get_src_addr n = Some (QTunnelProxy.source_addr px) /\
    Ipv4PacketLittleEndian.get_dst_addr n = Some (QTunnelProxy.dst_addr px) /\
    Ipv4UdpFatPacket.get_full_packet_length (FullPacket.mk n tr l []) = Some (msize (n ++ tr ++ l)) /\
    receiver_pseudo n = Some ph /\ verifies (total n) /\ verifies (total ph + total (tr ++ l)).
Proof.
  intros Hb Hsz Hc Hsp Hdp Bs Ls Bd Ld Hbn Hsn Ha Hihl Bl Sl Hl.
  destruct (load16_in (FullPacket.transport ps) 4) as [len Hlen]; [lia..|].
  set (sp := QTunnelProxy.source_port px) in *. set (dp := QTunnelProxy.dst_port px) in *.
  assert (Hpd : QTunnelProxy.proto_data px = [0; 2; octet 1 len; octet 0 len]).
  { revert Hc. unfold Ipv4UdpFatPacket.collect_proto_data, FullPacket.collect_proto_data.
    cbn [t_collect udp_object]. unfold QTunnelUDPViewScheme.generate_object_bytes.
    assert (UdpPacketView.get_udp_length (FullPacket.transport ps)
      (UdpPacketLittleEndian.to_view (FullPacket.transport ps)) = Some len) as -> by exact Hlen.
    cbn [mbind option_bind]. unfold QTunnelProtoData.make. rewrite range_full. by intros [= <-]. }
  set (t1 := UdpPacketLittleEndian.generate_object_bytes sp dp len).
  assert (B1 : bytes t1).
  { unfold t1, UdpPacketLittleEndian.generate_object_bytes.
    repeat first [apply Forall_cons_2 | apply Forall_nil_2]; auto with qvpn; by unfold is_u8. }
  destruct (store16_in t1 4 8) as [t2 H2]; [done..|].
  assert (Eg : t_generate (TransportObject := udp_object) (QTunnelProxy.proto_data px) 0
    (msize (QTunnelProxy.proto_data px)) sp dp = Some t1).
  { rewrite Hpd. cbn [t_generate udp_object]. unfold QTunnelUDPViewScheme.get_length.
    assert (load16 [0; 2; octet 1 len; octet 0 len] 2 = Some len) as Hg.
    { refine (f_equal Some (cat16_octets _ _)). by eapply load16_is_u16. }
    change (QTunnelUDPViewScheme.data_ _ + 2) with 2. rewrite Hg. done. }
  destruct (rebuild_ok (T := udp_object) (L := udp_laws) pr px m b e l a t1 t2)
    as (n & tr & ph & Hnew & As & Ad & Htl & Hph & Hv & Hvt & [Kn Btr] & St & Hqt); try done.
  { change (msize t1) with 8. lia. }
  exists t1, n, tr, ph. cbn in Hqt.
  split_and!; [exact Eg|done|done|exact Kn|exact Btr|done|exact Hnew| | | |done|done|done|done|done|done].
  - unfold UdpPacketLittleEndian.get_udp_src_port. rewrite (load16_ext t1 tr 0).
    + refine (f_equal Some (cat16_octets _ Hsp)).
    + rewrite Hqt by lia. rewrite (load_store16 _ _ _ _ _ H2). by rewrite !decide_False by lia.
    + rewrite Hqt by lia. rewrite (load_store16 _ _ _ _ _ H2). by rewrite !decide_False by lia.
  - unfold UdpPacketLittleEndian.get_udp_dst_port. rewrite (load16_ext t1 tr 2).
    + refine (f_equal Some (cat16_octets _ Hdp)).
    + rewrite Hqt by lia. rewrite (load_store16 _ _ _ _ _ H2). by rewrite !decide_False by lia.
    + rewrite Hqt by lia. rewrite (load_store16 _ _ _ _ _ H2). by rewrite !decide_False by lia.
  - unfold UdpPacketLittleEndian.get_udp_length. rewrite (load16_ext t2 tr 4) by (apply Hqt; lia).
    apply (load16_store16 t1); [by concrete|done].
Qed.

(** A UDP packet goes through the tunnel the same way, with its ports, addresses,
    payload and checksums; but [recalculate_lengths] overwrites the datagram's length,
    carried by the metadata, with 8, the size of the header alone. *)
Theorem udp_packet_carried ps pr px m b e l a :
  bytes (FullPacket.transport ps) -> 8 <= msize (FullPacket.transport ps) ->
  Ipv4UdpFatPacket.collect_proto_data ps = Some (QTunnelProxy.proto_data px) ->
  is_u16 (QTunnelProxy.source_port px) -> is_u16 (QTunnelProxy.dst_port px) ->
  bytes (QTunnelProxy.source_addr px) -> msize (QTunnelProxy.source_addr px) = 4 ->
  bytes (QTunnelProxy.dst_addr px) -> msize (QTunnelProxy.dst_addr px) = 4 ->
  bytes (FullPacket.net pr) -> msize (FullPacket.net pr) = 20 ->
  load (FullPacket.net pr) 0 = Some a -> Z.land a 15 = 5 ->
  bytes l -> msize l < 65000 -> range m b e = Some l ->
  exists n tr ph,
    Ipv4UdpFatPacket.new_packet_by_this pr px m b e = Some (FullPacket.mk n tr l []) /\
    UdpPacketLittleEndian.get_udp_src_port tr = Some (QTunnelProxy.source_port px) /\
    UdpPacketLittleEndian.get_udp_dst_port tr = Some (QTunnelProxy.dst_port px) /\
    UdpPacketLittleEndian.get_udp_length tr = Some 8 /\
    Ipv4PacketLittleEndian.get_src_addr n = Some (QTunnelProxy.source_addr px) /\
    Ipv4PacketLittleEndian.get_dst_addr n = Some (QTunnelProxy.dst_addr px) /\
    Ipv4UdpFatPacket.get_full_packet_length (FullPacket.mk n tr l []) = Some (msize (n ++ tr ++ l)) /\
    receiver_pseudo n = Some ph /\ verifies (total n) /\ verifies (total ph + total (tr ++ l)).
Proof.
  intros. destruct (udp_rebuilt ps pr px m b e l a) as (h1 & n & tr & ph & _ & _ & _ & _ & _ & R); [done..|].
  by exists n, tr, ph.
Qed.

Lemma udp_packet_carried_witness :
  exists n tr,
    Ipv4UdpFatPacket.new_packet_by_this (FullPacket.mk (69 :: repeat 7 19) [] [] [])
      (QTunnelProxy.mk IPv4 UDP [10; 0; 0; 2] 53 [8; 8; 8; 8] 4660 [0; 2; 0; 11]) [1; 2; 3] 0 3
      = Some (FullPacket.mk n tr [1; 2; 3] []) /\
    UdpPacketLittleEndian.get_udp_length tr = Some 8.
Proof.
  destruct (udp_packet_carried (FullPacket.mk [] [18; 52; 0; 53; 0; 11; 0; 0] [] [])
    (FullPacket.mk (69 :: repeat 7 19) [] [] [])
    (QTunnelProxy.mk IPv4 UDP [10; 0; 0; 2] 53 [8; 8; 8; 8] 4660 [0; 2; 0; 11])
    [1; 2; 3] 0 3 [1; 2; 3] 69) as (n & tr & ph & H & _ & _ & Hd & _);
    [concrete|vm_compute; discriminate|reflexivity|concrete|concrete
    |concrete|reflexivity|concrete|reflexivity|concrete|reflexivity|reflexivity|reflexivity
    |concrete|reflexivity|reflexivity|].
  exists n, tr. split; [exact H|exact Hd].
Defined.

(** Parsing a UDP packet from its bytes puts everything after the IPv4 header into the
    transport: the payload is empty. *)
Lemma udp_of_bytes_swallows m b e p :
  0 <= b -> e - b < 65536 -> Ipv4UdpFatPacket.of_bytes m b e = Some p ->
  FullPacket.payload p = [] /\
  range m (b + Ipv4PacketLittleEndian.get_size (FullPacket.net p)) e = Some (FullPacket.transport p).
Proof.
  intros Hb0 He H. unfold Ipv4UdpFatPacket.of_bytes, FullPacket.of_bytes in H.
  apply bind_Some in H as (n & Hn & (tr & Htr & (d & Hd & [= <-])%bind_Some)%bind_Some).
  cbn in Htr, Hd |- *.
  unfold UdpPacketLittleEndian.make, UdpPacketLittleEndian.parse_packet in Htr.
  apply bind_Some in Htr as (l & Hl & [= <-]). cbn [app] in *. split; [|done].
  destruct (range_Some _ _ _ _ Hl) as (Ho & _ & Hs & _).
  pose proof (u16_is_u16 (msize n)) as Hu. unfold Ipv4PacketLittleEndian.get_size, is_u16 in *.
  unfold UdpPacketLittleEndian.get_size in Hd.
  rewrite (u16_id (msize l)) in Hd by (unfold is_u16; pose proof (msize_nonneg l); lia).
  unfold DataPacketLittleEndian.make in Hd.
  replace (b + u16 (msize n) + msize l) with e in Hd by lia. by apply range_nil in Hd.
Qed.

(** And [bytes()] of a UDP packet appends to what an earlier call left: called twice, it
    answers the packet twice. *)
Example udp_bytes_twice :
  (p ← Ipv4UdpFatPacket.of_parts (69 :: repeat 7 19) 0 20 [0; 1; 0; 2; 0; 8; 0; 0] 0 8 [5; 6] 0 2;
   '(p, _) ← Ipv4UdpFatPacket.bytes p;
   '(p, (b, e)) ← Ipv4UdpFatPacket.bytes p;
   l ← range (FullPacket.data_ p) b e; Some (msize l)) = Some 60.
Proof. reflexivity. Qed.
