(* ===== verification/PacketView.v ===== *)
(** Packets over one buffer: the specialisations of [FullPacket] that the program uses
    (src/QVPN/QVPN Lib/include/qvpn_structures.hpp).

    [Ipv4TcpPacket_View] and [Ipv4UdpPacket_View] are three views into the caller's
    buffer, the packet a capture loop parses; [Ipv4TcpPacket] and [Ipv4UdpPacket] own the
    buffer that their views look into.  Their bodies are the same text over the
    transport view, written once over the class [TransportView].  The theorems relate
    them to the packets of [FullPacket], which keep the three parts apart. *)
From S2P Require Import Prelude Checksum Addr Transport Ipv4 Tcp Udp QTunnel FullPacket.

(** What the packet uses of its transport view; [tv_object] is the view's [ObjectType]. *)
Class TransportView := {
  tv_object : TransportObject;
  tv : Type;
  tv_set_data : mem -> Z -> Z -> option tv;
  tv_get_size : tv -> Z;
  tv_to_bytes : tv -> Z * Z;
  tv_set_transport_length : mem -> tv -> Z -> option mem;
  tv_recalculate_transport_checksum : mem -> tv -> mem -> Z -> Z -> option mem;
  (** The scheme's bytes of the header. *)
  tv_collect : mem -> tv -> option mem;
  (** What [set_qtunnel_proto_data] does with the scheme in [[begin, end)]. *)
  tv_apply : mem -> tv -> Z -> Z -> option (mem * tv);
  (** Whether the constructor from parts first builds views of the parts. *)
  tv_parses_parts : bool }.

#[global] Instance tcp_view : TransportView := {|
  tv_object := tcp_object;
  tv := TcpPacketView.t;
  tv_set_data := TcpPacketView.set_data;
  tv_get_size := TcpPacketView.get_size;
  tv_to_bytes := TcpPacketView.to_bytes;
  tv_set_transport_length := TcpPacketView.set_transport_length;
  tv_recalculate_transport_checksum := TcpPacketView.recalculate_transport_checksum;
  tv_collect m v :=
    tcp_view ← TcpPacketView.to_view m v;
    QTunnelTCPViewScheme.generate_object_bytes m tcp_view;
  tv_apply m v begin_ end_ :=
    let scheme := QTunnelTCPViewScheme.make begin_ end_ in
    seq ← QTunnelTCPViewScheme.get_seq m scheme;
    m ← TcpPacketView.set_tcp_seq_number m v seq;
    ack ← QTunnelTCPViewScheme.get_ack m scheme;
    m ← TcpPacketView.set_tcp_ack_number m v ack;
    flags ← QTunnelTCPViewScheme.get_flags m scheme;
    m ← TcpPacketView.set_tcp_flags m v flags;
    offset ← QTunnelTCPViewScheme.get_offset m scheme;
    m ← TcpPacketView.set_tcp_offset m v offset;
    window ← QTunnelTCPViewScheme.get_window m scheme;
    m ← TcpPacketView.set_tcp_window m v window;
    urgent ← QTunnelTCPViewScheme.get_urgent_pointer m scheme;
    m ← TcpPacketView.set_tcp_urgent m v urgent;
    let '(opt_b, opt_e) := QTunnelTCPViewScheme.get_options scheme in
    TcpPacketView.set_tcp_options m v opt_b opt_e;
  tv_parses_parts := true |}.

#[global] Instance udp_view : TransportView := {|
  tv_object := udp_object;
  tv := UdpPacketView.t;
  tv_set_data _ b e := Some (UdpPacketView.set_data b e);
  tv_get_size := UdpPacketView.get_size;
  tv_to_bytes := UdpPacketView.to_bytes;
  tv_set_transport_length := UdpPacketView.set_transport_length;
  tv_recalculate_transport_checksum := UdpPacketView.recalculate_transport_checksum;
  tv_collect m v :=
    let view := UdpPacketView.to_view v in
    QTunnelUDPViewScheme.generate_object_bytes m view;
  tv_apply m v begin_ end_ := let scheme := QTunnelUDPViewScheme.make begin_ end_ in Some (m, v);
  tv_parses_parts := false |}.

(** The VIEW specialisations: three views into a buffer [m]. *)
Module PacketView.

Record t (T : TransportView) := mk {
  net : Ipv4PacketView.t; transport : tv; payload : DataPacketView.t }.
Arguments mk {T}. Arguments net {T}. Arguments transport {T}. Arguments payload {T}.

Section Operations.
Context {T : TransportView}.

(** [FullPacket(begin, end)]. *)
Definition of_bytes (m : mem) (begin_ end_ : Z) : option (t T) :=
  n ← Ipv4PacketView.make m begin_ end_;
  tr ← tv_set_data m (begin_ + Ipv4PacketView.get_size n) end_;
  let d := DataPacketView.make (begin_ + Ipv4PacketView.get_size n + tv_get_size tr) end_ in
  Some (mk n tr d).

(** The constructor from three ranges. *)
Definition of_parts (m : mem) (net_begin net_end t_begin t_end data_begin data_end : Z) : option (t T) :=
  n ← Ipv4PacketView.make m net_begin net_end;
  tr ← tv_set_data m t_begin t_end;
  Some (mk n tr (DataPacketView.make data_begin data_end)).

Definition bytes (p : t T) : Z * Z :=
  let '(b1, e1) := Ipv4PacketView.to_bytes (net p) in
  let '(b2, e2) := tv_to_bytes (transport p) in
  let '(b3, e3) := DataPacketView.to_bytes (payload p) in
  (b1, e3).

Definition get_full_packet_length (m : mem) (p : t T) : option Z :=
  Ipv4PacketView.get_ip_total_length m (net p).

Definition recalculate_checksums (m : mem) (p : t T) : option mem :=
  m ← Ipv4PacketView.recalculate_ip_checksum m (net p);
  total_length ← Ipv4PacketView.get_ip_total_length m (net p);
  header_length ← Ipv4PacketView.get_ip_header_length m (net p);
  let length := u16 (total_length - header_length * 4) in
  let '(b, e) := DataPacketView.get_payload (payload p) in
  src ← Ipv4PacketView.get_ip_source m (net p);
  dst ← Ipv4PacketView.get_ip_dest m (net p);
  protocol ← Ipv4PacketView.get_ip_protocol m (net p);
  pseudo ← TransportIpv4PseudoHeader.of_addrs src dst protocol length;
  tv_recalculate_transport_checksum m (transport p) pseudo b e.

Definition recalculate_lengths (m : mem) (p : t T) : option mem :=
  let '(nb, ne) := Ipv4PacketView.to_bytes (net p) in
  let '(tb, te) := tv_to_bytes (transport p) in
  let '(db, de) := DataPacketView.to_bytes (payload p) in
  let n_size := ne - nb in
  let t_size := te - tb in
  let d_size := de - db in
  m ← Ipv4PacketView.set_ip_total_length m (net p) (u16 (n_size + t_size + d_size));
  tv_set_transport_length m (transport p) (u16 t_size).

Definition collect_proto_data (m : mem) (p : t T) : option QTunnelProtoData.t :=
  bytes ← tv_collect m (transport p);
  QTunnelProtoData.make bytes 0 (msize bytes).

(** Both overloads; [m] is the memory that holds the packet and the metadata. *)
Definition set_qtunnel_proto_data (m : mem) (p : t T) (begin_ end_ : Z) : option (mem * t T) :=
  '(m, tr) ← tv_apply m (transport p) begin_ end_; Some (m, mk (net p) tr (payload p)).

End Operations.

End PacketView.

(** The OBJECT specialisations: the buffer and the views into it.  Moving the object
    moves the buffer, and the views stay valid. *)
Module PacketObject.

Record t (T : TransportView) := mk { data_ : mem; views : PacketView.t T }.
Arguments mk {T}. Arguments data_ {T}. Arguments views {T}.

Section Operations.
Context {T : TransportView}.

(** The [set_data] calls that end both constructors. *)
Definition set_views (data_ : mem) : option (t T) :=
  views ← PacketView.of_bytes data_ 0 (msize data_);
  Some (mk data_ views).

Definition of_bytes (m : mem) (begin_ end_ : Z) : option (t T) :=
  data_ ← range m begin_ end_; set_views data_.

Definition of_parts (mn : mem) (net_begin net_end : Z) (mt : mem) (t_begin t_end : Z)
    (md : mem) (data_begin data_end : Z) : option (t T) :=
  _ ← (if tv_parses_parts then
         _ ← Ipv4PacketView.make mn net_begin net_end;
         _ ← tv_set_data mt t_begin t_end; Some tt
       else Some tt);
  l1 ← range mn net_begin net_end;
  l2 ← range mt t_begin t_end;
  l3 ← range md data_begin data_end;
  let data_ := (([] ++ l1) ++ l2) ++ l3 in
  set_views data_.

(** The range of [data_]. *)
Definition bytes (p : t T) : Z * Z := PacketView.bytes (views p).

Definition get_full_packet_length (p : t T) : option Z :=
  PacketView.get_full_packet_length (data_ p) (views p).
Definition recalculate_checksums (p : t T) : option (t T) :=
  m ← PacketView.recalculate_checksums (data_ p) (views p); Some (mk m (views p)).
Definition recalculate_lengths (p : t T) : option (t T) :=
  m ← PacketView.recalculate_lengths (data_ p) (views p); Some (mk m (views p)).
Definition set_transport_length (p : t T) (length : Z) : option (t T) :=
  m ← tv_set_transport_length (data_ p) (PacketView.transport (views p)) length;
  Some (mk m (views p)).
Definition collect_proto_data (p : t T) : option QTunnelProtoData.t :=
  PacketView.collect_proto_data (data_ p) (views p).

(** The metadata in [md] are in the memory behind the packet's own. *)
Definition set_qtunnel_proto_data (p : t T) (md : mem) (begin_ end_ : Z) : option (t T) :=
  let size := msize (data_ p) in
  '(m, views) ← PacketView.set_qtunnel_proto_data (data_ p ++ md) (views p) (size + begin_) (size + end_);
  data_ ← range m 0 size;
  Some (mk data_ views).

(** The packets a view over [m] makes; those of an object are over its [data_]. *)
Definition new_packet_by_payload_view (m : mem) (p : PacketView.t T) (md : mem)
    (begin_ end_ : Z) : option (t T) :=
  let '(n_b, n_e) := Ipv4PacketView.to_bytes (PacketView.net p) in
  let '(t_b, t_e) := tv_to_bytes (PacketView.transport p) in
  fp ← of_parts m n_b n_e m t_b t_e md begin_ end_;
  let size := u16 (end_ - begin_) in
  fp ← set_transport_length fp size;
  fp ← recalculate_lengths fp;
  recalculate_checksums fp.

Definition new_packet_by_this_view (m : mem) (p : PacketView.t T) (proxy_data : QTunnelProxy.t)
    (md : mem) (begin_ end_ : Z) : option (t T) :=
  let data_size := end_ - begin_ in
  let '(pd_b, pd_e) := QTunnelProxy.get_proto_data_bytes proxy_data in
  t_header ← t_generate (TransportObject := tv_object) (QTunnelProxy.proto_data proxy_data) pd_b pd_e
               (QTunnelProxy.get_src_port proxy_data) (QTunnelProxy.get_dst_port proxy_data);
  let '(t_b, t_e) := t_to_bytes (TransportObject := tv_object) t_header in
  let t_size := t_e - t_b in
  let total_size := t_size + data_size in
  let '(old_n_b, old_n_e) := Ipv4PacketView.to_bytes (PacketView.net p) in
  old_n_header ← Ipv4PacketView.make m old_n_b old_n_e;
  n_header ← regenerate_object m old_n_header (QTunnelProxy.get_src_addr proxy_data)
               (QTunnelProxy.get_dst_addr proxy_data) (u16 total_size);
  let '(n_b, n_e) := Ipv4PacketLittleEndian.to_bytes n_header in
  fp ← of_parts n_header n_b n_e t_header t_b t_e md begin_ end_;
  fp ← recalculate_lengths fp;
  recalculate_checksums fp.

Definition new_packet_bytes_by_this_view (m : mem) (p : PacketView.t T) (proxy_data : QTunnelProxy.t)
    (md : mem) (begin_ end_ : Z) : option mem :=
  fp ← new_packet_by_this_view m p proxy_data md begin_ end_;
  let '(b, e) := bytes fp in
  range (data_ fp) b e.

Definition new_packet_by_payload (p : t T) := new_packet_by_payload_view (data_ p) (views p).
Definition new_packet_by_this (p : t T) := new_packet_by_this_view (data_ p) (views p).
Definition new_packet_bytes_by_this (p : t T) := new_packet_bytes_by_this_view (data_ p) (views p).

End Operations.

End PacketObject.

(** The four names of the program. *)
Module Ipv4TcpPacket_View.
Definition t := PacketView.t tcp_view.
Definition of_bytes := PacketView.of_bytes (T := tcp_view).
Definition bytes := PacketView.bytes (T := tcp_view).
Definition get_full_packet_length := PacketView.get_full_packet_length (T := tcp_view).
Definition recalculate_checksums := PacketView.recalculate_checksums (T := tcp_view).
Definition recalculate_lengths := PacketView.recalculate_lengths (T := tcp_view).
Definition collect_proto_data := PacketView.collect_proto_data (T := tcp_view).
Definition of_parts := PacketView.of_parts (T := tcp_view).
Definition set_qtunnel_proto_data := PacketView.set_qtunnel_proto_data (T := tcp_view).
Definition new_packet_by_payload := PacketObject.new_packet_by_payload_view (T := tcp_view).
Definition new_packet_by_this := PacketObject.new_packet_by_this_view (T := tcp_view).
Definition new_packet_bytes_by_this := PacketObject.new_packet_bytes_by_this_view (T := tcp_view).
End Ipv4TcpPacket_View.

Module Ipv4UdpPacket_View.
Definition t := PacketView.t udp_view.
Definition of_bytes := PacketView.of_bytes (T := udp_view).
Definition bytes := PacketView.bytes (T := udp_view).
Definition get_full_packet_length := PacketView.get_full_packet_length (T := udp_view).
Definition recalculate_checksums := PacketView.recalculate_checksums (T := udp_view).
Definition recalculate_lengths := PacketView.recalculate_lengths (T := udp_view).
Definition collect_proto_data := PacketView.collect_proto_data (T := udp_view).
Definition of_parts := PacketView.of_parts (T := udp_view).
Definition set_qtunnel_proto_data := PacketView.set_qtunnel_proto_data (T := udp_view).
Definition new_packet_by_payload := PacketObject.new_packet_by_payload_view (T := udp_view).
Definition new_packet_by_this := PacketObject.new_packet_by_this_view (T := udp_view).
Definition new_packet_bytes_by_this := PacketObject.new_packet_bytes_by_this_view (T := udp_view).
End Ipv4UdpPacket_View.

Module Ipv4TcpPacket.
Definition t := PacketObject.t tcp_view.
Definition of_bytes := PacketObject.of_bytes (T := tcp_view).
Definition of_parts := PacketObject.of_parts (T := tcp_view).
Definition bytes := PacketObject.bytes (T := tcp_view).
Definition get_full_packet_length := PacketObject.get_full_packet_length (T := tcp_view).
Definition recalculate_checksums := PacketObject.recalculate_checksums (T := tcp_view).
Definition recalculate_lengths := PacketObject.recalculate_lengths (T := tcp_view).
Definition collect_proto_data := PacketObject.collect_proto_data (T := tcp_view).
Definition set_qtunnel_proto_data := PacketObject.set_qtunnel_proto_data (T := tcp_view).
Definition new_packet_by_payload := PacketObject.new_packet_by_payload (T := tcp_view).
Definition new_packet_by_this := PacketObject.new_packet_by_this (T := tcp_view).
Definition new_packet_bytes_by_this := PacketObject.new_packet_bytes_by_this (T := tcp_view).
End Ipv4TcpPacket.

Module Ipv4UdpPacket.
Definition t := PacketObject.t udp_view.
Definition of_bytes := PacketObject.of_bytes (T := udp_view).
Definition of_parts := PacketObject.of_parts (T := udp_view).
Definition bytes := PacketObject.bytes (T := udp_view).
Definition get_full_packet_length := PacketObject.get_full_packet_length (T := udp_view).
Definition recalculate_checksums := PacketObject.recalculate_checksums (T := udp_view).
Definition recalculate_lengths := PacketObject.recalculate_lengths (T := udp_view).
Definition collect_proto_data := PacketObject.collect_proto_data (T := udp_view).
Definition set_qtunnel_proto_data := PacketObject.set_qtunnel_proto_data (T := udp_view).
Definition new_packet_by_payload := PacketObject.new_packet_by_payload (T := udp_view).
Definition new_packet_by_this := PacketObject.new_packet_by_this (T := udp_view).
Definition new_packet_bytes_by_this := PacketObject.new_packet_bytes_by_this (T := udp_view).
End Ipv4UdpPacket.

(** * What the packet needs of a transport view *)

(** Over a header anywhere in a buffer, the view does to the buffer what the object does
    to the header. *)
Class TransportViewLaws (T : TransportView) := {
  tv_laws :: TransportLaws tv_object;
  (** Headers that the view delimits as the object does. *)
  tv_whole : mem -> Prop;
  tv_whole_wf h : bytes h -> tv_whole h ->
    @t_whole tv_object tv_laws h /\ Z.even (msize h) = true /\
    @t_min_size tv_object tv_laws <= msize h <= 60;
  (** The view over the [n] bytes from [p]. *)
  tv_at : Z -> Z -> tv;
  tv_set_data_law pre post h e : bytes h -> tv_whole h ->
    tv_set_data (inside pre post h) (msize pre) e = Some (tv_at (msize pre) (msize h));
  tv_get_size_law p h : bytes h -> tv_whole h -> tv_get_size (tv_at p (msize h)) = msize h;
  tv_to_bytes_law p h : tv_whole h -> tv_to_bytes (tv_at p (msize h)) = (p, p + msize h);
  tv_length_law pre post h n : refines_in pre post
    (@t_set_transport_length tv_object h n) (tv_set_transport_length (inside pre post h) (tv_at (msize pre) (msize h)) n);
  (** The sizes for which the checksums agree. *)
  tv_sized : Z -> Prop;
  tv_sized_law h : bytes h -> tv_whole h -> tv_sized (msize h);
  tv_checksum_law pre post h ph b e m' b' e' d :
    bytes (inside pre post h) -> bytes ph -> Z.even (msize ph) = true ->
    tv_sized (msize h) -> bytes m' ->
    e <= msize pre \/ msize pre + msize h <= b ->
    range (inside pre post h) b e = Some d -> range m' b' e' = Some d ->
    msize ph + msize h + msize d < 131000 ->
    refines_in pre post (@t_recalculate_transport_checksum tv_object h ph m' b' e')
      (tv_recalculate_transport_checksum (inside pre post h) (tv_at (msize pre) (msize h)) ph b e);
  tv_collect_law pre post h : bytes h -> tv_whole h ->
    refines (@t_collect tv_object h) (tv_collect (inside pre post h) (tv_at (msize pre) (msize h))) }.

(** A length or-ed into the high nibble of a byte is cut to a byte with it. *)
Lemma u8_lor_high a k : u8 (Z.lor a (Z.shiftl k 4)) = u8 (Z.lor a (Z.shiftl (u8 k) 4)).
Proof.
  apply Z.bits_inj'. intros i Hi. unfold u8. change 256 with (2 ^ 8).
  destruct (Z.lt_ge_cases i 8) as [Hl|Hl]; [|by rewrite !Z.mod_pow2_bits_high by lia].
  rewrite !Z.mod_pow2_bits_low, !Z.lor_spec, !Z.shiftl_spec by lia. f_equal.
  destruct (Z.lt_ge_cases i 4); [by rewrite !Z.testbit_neg_r by lia|].
  by rewrite Z.mod_pow2_bits_low by lia.
Qed.

Lemma tcp_whole_wf h :
  bytes h -> tcp_whole h -> tcp_whole h /\ Z.even (msize h) = true /\ 20 <= msize h <= 60.
Proof.
  intros Hb Hw. pose proof (tcp_whole_size h Hb Hw) as Hs. split_and!; [done| |lia..].
  destruct Hw as (_ & a & _ & ->). by rewrite Z.even_mul.
Qed.

(** The getters of the scheme's fields, for a view at the start and one inside. *)
Lemma tcp_view_fields_inside pre post h n :
  Forall (fun g => refines (g h (TcpPacketView.mk 0 20 n))
      (g (inside pre post h) (TcpPacketView.mk (msize pre) (msize pre + 20) n)))
    [TcpPacketView.get_tcp_seq_number; TcpPacketView.get_tcp_ack_number; TcpPacketView.get_tcp_flags;
     TcpPacketView.get_tcp_header_length; TcpPacketView.get_tcp_window_size;
     TcpPacketView.get_tcp_urgent_pointer].
Proof.
  rewrite !Forall_cons. split_and!; try apply Forall_nil_2.
  all: repeat match goal with |- refines (?f _ _) _ => unfold f end;
    unfold TcpPacketView.at_; cbn; eauto 30 with refine.
Qed.

#[global] Program Instance tcp_view_laws : TransportViewLaws tcp_view := {|
  tv_laws := tcp_laws;
  tv_whole := tcp_whole;
  tv_at p n := TcpPacketView.mk p (p + 20) (n - 20);
  tv_sized n := Z.even n = true /\ 20 <= n |}.
Next Obligation. exact tcp_whole_wf. Qed.
Next Obligation.
  intros pre post h e Hb (Hs & a & Ha & Hl). cbn. unfold TcpPacketView.set_data, TcpPacketView.parse_packet.
  rewrite (load_inside _ _ _ _ _ Ha). cbn [mbind option_bind].
  change default_tcp_size with 20. change default_tcp_quart_size with 5. do 2 f_equal. lia.
Qed.
Next Obligation.
  intros p h Hb Hw. pose proof (tcp_whole_size h Hb Hw). cbn. unfold TcpPacketView.get_size.
  cbn [TcpPacketView.tcp_options_size]. unfold TcpPacketView.tcp_header_size.
  rewrite u16_id by (unfold is_u16; lia). lia.
Qed.
Next Obligation.
  intros p h Hw. cbn. unfold TcpPacketView.to_bytes. cbn. f_equal. lia.
Qed.
Next Obligation.
  intros pre post h n. cbn. unfold TcpPacketLittleEndian.set_transport_length,
    TcpPacketView.set_transport_length, TcpPacketView.at_. cbn.
  intros h' (a & Ha & H)%bind_Some. rewrite (load_inside _ _ _ _ _ Ha). cbn [mbind option_bind].
  rewrite <- (store_inside pre post _ _ _ _ H). f_equal. by rewrite u8_lor_high.
Qed.
Next Obligation. intros h Hb Hw. by destruct (tcp_whole_wf h Hb Hw) as (_ & ? & ? & _). Qed.
Next Obligation.
  intros pre post h ph b e m' b' e' d Hm Hph Eph (Eh & Hl) Hm' Hout Hd Hd' Hsz h' H.
  change (TcpPacketLittleEndian.recalculate_transport_checksum h ph m' b' e' = Some h') in H.
  pose proof Hm as Hm2. apply bytes_app in Hm2 as [Hpre [Hh Hpost]%bytes_app].
  apply (tcp_view_recalculate pre post h ph b e d); try done.
  destruct (store16_in h 16 0) as [h0 H0]; [lia..|].
  rewrite (tcp_checksum_eq h h0 ph _ b e d) by done. by rewrite (tcp_checksum_eq h h0 ph m' b' e' d) in H.
Qed.
Next Obligation.
  intros pre post h Hb Hw pd. pose proof Hw as (Hs & a & Ha & Hl). change (t_collect h) with
    (tcp_view ← TcpPacketLittleEndian.to_view h; QTunnelTCPViewScheme.generate_object_bytes h tcp_view).
  rewrite tcp_to_view by done. cbn [mbind option_bind]. cbn [tv_collect tcp_view tv_at].
  unfold TcpPacketView.to_view, TcpPacketView.make, TcpPacketView.parse_packet.
  cbn [TcpPacketView.tcp_header_].
  rewrite (load_inside _ _ _ _ _ Ha). cbn [mbind option_bind].
  change default_tcp_size with 20. change default_tcp_quart_size with 5.
  replace (msize pre + 20 + (Z.shiftr a 4 - 5) * 4 - (msize pre + 20)) with (msize h - 20) by lia.
  revert pd. change (refines (QTunnelTCPViewScheme.generate_object_bytes h (TcpPacketView.mk 0 20 (msize h - 20)))
    (QTunnelTCPViewScheme.generate_object_bytes (inside pre post h)
      (TcpPacketView.mk (msize pre) (msize pre + 20) (msize h - 20)))).
  unfold QTunnelTCPViewScheme.generate_object_bytes, TcpPacketView.get_tcp_options.
  cbn [TcpPacketView.options_ TcpPacketView.tcp_options_size].
  replace (msize pre + 20 + (msize h - 20)) with (msize pre + (20 + (msize h - 20))) by lia.
  replace (msize pre + (20 + (msize h - 20)) - (msize pre + 20)) with (20 + (msize h - 20) - 20) by lia.
  pose proof (tcp_view_fields_inside pre post h (msize h - 20)) as F. rewrite !Forall_cons in F.
  destruct F as (F1 & F2 & F3 & F4 & F5 & F6 & _).
  repeat (apply refines_bind; [done|intros]). apply refines_bind; [|intros; apply refines_refl].
  apply range_refines.
Qed.

#[global] Program Instance udp_view_laws : TransportViewLaws udp_view := {|
  tv_laws := udp_laws;
  tv_whole h := msize h = 8;
  tv_at p _ := UdpPacketView.mk p;
  tv_sized n := n = 8 |}.
Next Obligation. intros h _ Hs. cbn. rewrite Hs. split_and!; done. Qed.
Next Obligation. done. Qed.
Next Obligation. intros p h _ Hs. cbn. by rewrite Hs. Qed.
Next Obligation. intros p h Hs. cbn. by rewrite Hs. Qed.
Next Obligation. intros pre post h n. cbn. apply store16_refines. Qed.
Next Obligation. done. Qed.
Next Obligation.
  intros pre post h ph b e m' b' e' d Hm Hph Eph Hl Hm' Hout Hd Hd' Hsz h' H.
  change (msize h = 8) in Hl.
  change (UdpPacketLittleEndian.recalculate_transport_checksum h ph m' b' e' = Some h') in H.
  pose proof Hm as Hm2. apply bytes_app in Hm2 as [Hpre [Hh Hpost]%bytes_app].
  apply (udp_view_recalculate pre post h ph b e d); try done.
  destruct (store16_in h 6 0) as [h0 H0]; [lia..|].
  rewrite (udp_checksum_eq h h0 ph _ b e d) by (done || by rewrite Hl).
  by rewrite (udp_checksum_eq h h0 ph m' b' e' d) in H by (done || by rewrite Hl).
Qed.
Next Obligation.
  intros pre post h _ _.
  change (refines (QTunnelUDPViewScheme.generate_object_bytes h (UdpPacketView.mk 0))
    (QTunnelUDPViewScheme.generate_object_bytes (inside pre post h) (UdpPacketView.mk (msize pre)))).
  unfold QTunnelUDPViewScheme.generate_object_bytes, UdpPacketView.get_udp_length. cbn.
  eauto with refine.
Qed.

(** * The packet over a buffer refines the packet in parts *)

(** A buffer that holds a packet with an IPv4 header of 20 bytes, and the views over it. *)
Definition packet_in (pre post n t l : mem) : mem := pre ++ n ++ t ++ l ++ post.
Definition views_at {T : TransportView} {L : TransportViewLaws T} (p : Z) (t l : mem) : PacketView.t T :=
  PacketView.mk (Ipv4PacketView.mk p (p + 20) 0) (tv_at (p + 20) (msize t))
    (DataPacketView.mk (p + 20 + msize t) (msize l)).

Lemma packet_in_net pre post n t l : packet_in pre post n t l = inside pre (t ++ l ++ post) n.
Proof. done. Qed.
Lemma packet_in_transport pre post n t l : packet_in pre post n t l = inside (pre ++ n) (l ++ post) t.
Proof. unfold packet_in, inside. by rewrite <- !app_assoc. Qed.
Lemma packet_in_payload pre post n t l : packet_in pre post n t l = inside (pre ++ n ++ t) post l.
Proof. unfold packet_in, inside. by rewrite <- !app_assoc. Qed.

Lemma packet_in_bytes pre post n t l :
  bytes (packet_in pre post n t l) <-> bytes pre /\ bytes n /\ bytes t /\ bytes l /\ bytes post.
Proof. unfold packet_in. rewrite !bytes_app. tauto. Qed.

(** The getters that the checksum reads. *)
Lemma net_getters_inside pre post n :
  let v := Ipv4PacketView.mk (msize pre) (msize pre + 20) 0 in
  refines (Ipv4PacketLittleEndian.get_ip_total_length n)
    (Ipv4PacketView.get_ip_total_length (inside pre post n) v) /\
  refines (Ipv4PacketLittleEndian.get_ip_header_length n)
    (Ipv4PacketView.get_ip_header_length (inside pre post n) v) /\
  refines (Ipv4PacketLittleEndian.get_ip_source n) (Ipv4PacketView.get_ip_source (inside pre post n) v) /\
  refines (Ipv4PacketLittleEndian.get_ip_dest n) (Ipv4PacketView.get_ip_dest (inside pre post n) v) /\
  refines (Ipv4PacketLittleEndian.get_ip_protocol n) (Ipv4PacketView.get_ip_protocol (inside pre post n) v).
Proof. intros v. split_and!; refine_getter. Qed.

(** The pseudo-header of a header's own addresses. *)
Lemma pseudo_12 n src dst protocol length ph :
  bytes n -> 20 <= msize n -> Ipv4PacketLittleEndian.get_ip_source n = Some src ->
  Ipv4PacketLittleEndian.get_ip_dest n = Some dst ->
  Ipv4PacketLittleEndian.get_ip_protocol n = Some protocol ->
  TransportIpv4PseudoHeader.of_addrs src dst protocol length = Some ph ->
  bytes ph /\ msize ph = 12.
Proof.
  intros Bn Sn Hs Hd Hp Hph.
  destruct (get_ip_source_in n Bn Sn) as (s & Hs' & Bs & Ls). rewrite Hs in Hs'. injection Hs' as ->.
  destruct (get_ip_dest_in n Bn Sn) as (d & Hd' & Bd & Ld). rewrite Hd in Hd'. injection Hd' as ->.
  rewrite pseudo_of_addrs in Hph by done. apply (inj Some) in Hph as <-.
  apply pseudo_wf; eauto using load_u8.
Qed.

Section Refinement.
Context {T : TransportView} {L : TransportViewLaws T}.

(** Parsing a buffer finds the parts. *)
Lemma of_bytes_ok pre post n t l :
  ip_whole n -> msize n = 20 -> bytes t -> tv_whole t ->
  PacketView.of_bytes (packet_in pre post n t l) (msize pre) (msize pre + 20 + msize t + msize l) =
  Some (views_at (msize pre) t l).
Proof.
  intros (_ & a & Ha & Hl) Sn Bt Wt. unfold PacketView.of_bytes, Ipv4PacketView.make,
    Ipv4PacketView.parse_packet, Ipv4PacketView.ihl_at.
  pose proof (load_inside pre (t ++ l ++ post) n 0 a Ha) as H0. rewrite Z.add_0_r in H0.
  rewrite packet_in_net, H0. cbn [mbind option_bind].
  change default_ip_bytes with 20. change default_ip_quart_size with 5.
  replace (msize pre + 20 + (Z.land a 15 - 5) - (msize pre + 20)) with 0 by lia.
  change (Ipv4PacketView.get_size _) with 20. rewrite <- packet_in_net, packet_in_transport.
  replace (msize pre + 20) with (msize (pre ++ n)) by (rewrite msize_app; lia).
  rewrite tv_set_data_law by done. cbn [mbind option_bind].
  rewrite tv_get_size_law by done. unfold views_at, DataPacketView.make.
  rewrite msize_app, Sn. do 2 f_equal. f_equal. lia.
Qed.

(** The ranges of the parts. *)
Lemma views_bytes p t l :
  tv_whole t -> PacketView.bytes (views_at p t l) = (p, p + 20 + msize t + msize l).
Proof.
  intros Wt. unfold PacketView.bytes, views_at. cbn [PacketView.net PacketView.transport PacketView.payload].
  by rewrite tv_to_bytes_law.
Qed.

Lemma checksums_refine pre post n t l buf n' t' pl' buf' :
  bytes (packet_in pre post n t l) -> msize n = 20 -> tv_sized (msize t) ->
  packet_wf (T := tv_object) (FullPacket.mk n t l buf) ->
  FullPacket.recalculate_checksums (T := tv_object) (FullPacket.mk n t l buf) =
    Some (FullPacket.mk n' t' pl' buf') ->
  PacketView.recalculate_checksums (packet_in pre post n t l) (views_at (msize pre) t l) =
    Some (packet_in pre post n' t' l).
Proof.
  intros Hb Sn St Hwf H.
  destruct (checksums_ok _ Hwf) as (n1 & t1 & ph1 & Hc & _ & _ & _ & Bn & Sn' & _ & Bt & St' & _).
  rewrite Hc in H. injection H as <- <- <- <-. cbn in Bn, Sn', Bt, St'.
  apply packet_in_bytes in Hb as (Bpre & _ & _ & Bl & Bpost).
  destruct Hwf as (_ & _ & _ & Bt0 & _ & _ & _ & Hsz).
  cbn [FullPacket.net FullPacket.transport FullPacket.payload FullPacket.data_] in *.
  unfold FullPacket.recalculate_checksums in Hc. cbn [FullPacket.net FullPacket.transport
    FullPacket.payload FullPacket.data_] in Hc.
  apply bind_Some in Hc as (n2 & Hn & (tl & Htl & (hl & Hhl & Hc)%bind_Some)%bind_Some).
  unfold DataPacketLittleEndian.get_payload in Hc.
  apply bind_Some in Hc as (src & Hsrc & (dst & Hdst & (pr & Hpr & (ph & Hph & (t2 & Ht & Hc)%bind_Some)
    %bind_Some)%bind_Some)%bind_Some). injection Hc as -> ->.
  unfold PacketView.recalculate_checksums, views_at.
  cbn [PacketView.net PacketView.transport PacketView.payload].
  rewrite packet_in_net.
  rewrite (view_recalculate pre (t ++ l ++ post) n (Ipv4PacketView.mk (msize pre) (msize pre + 20) 0)
    eq_refl eq_refl Sn n1 Hn).
  cbn [mbind option_bind].
  destruct (net_getters_inside pre (t ++ l ++ post) n1) as (G1 & G2 & G3 & G4 & G5).
  rewrite (G1 _ Htl). cbn [mbind option_bind]. rewrite (G2 _ Hhl). cbn [mbind option_bind].
  unfold DataPacketView.get_payload. cbn [DataPacketView.data_ DataPacketView.data_size_].
  rewrite (G3 _ Hsrc). cbn [mbind option_bind]. rewrite (G4 _ Hdst). cbn [mbind option_bind].
  rewrite (G5 _ Hpr). cbn [mbind option_bind]. rewrite Hph. cbn [mbind option_bind].
  destruct (pseudo_12 n1 src dst pr (u16 (tl - hl * 4)) ph) as [Bph Sph]; [done|lia|done..|].
  rewrite <- packet_in_net, !packet_in_transport.
  replace (msize pre + 20) with (msize (pre ++ n1)) by (rewrite msize_app; lia).
  apply (tv_checksum_law (pre ++ n1) (l ++ post) t ph _ _ l 0 (msize l) l); try done.
  - rewrite <- packet_in_transport. by apply packet_in_bytes.
  - by rewrite Sph.
  - right. lia.
  - rewrite <- packet_in_transport, packet_in_payload.
    replace (msize (pre ++ n1) + msize t) with (msize (pre ++ n1 ++ t)) by (rewrite !msize_app; lia).
    apply range_inside_all.
  - apply range_full.
  - lia.
Qed.

Lemma lengths_refine pre post n t l buf n' t' pl' buf' :
  msize n = 20 -> tv_whole t ->
  FullPacket.recalculate_lengths (T := tv_object) (FullPacket.mk n t l buf) =
    Some (FullPacket.mk n' t' pl' buf') ->
  PacketView.recalculate_lengths (packet_in pre post n t l) (views_at (msize pre) t l) =
    Some (packet_in pre post n' t' l).
Proof.
  intros Sn Wt H. unfold FullPacket.recalculate_lengths in H.
  cbn [FullPacket.net FullPacket.transport FullPacket.payload FullPacket.data_
    Ipv4PacketLittleEndian.to_bytes DataPacketLittleEndian.to_bytes] in H.
  rewrite (t_to_bytes_law t), !Z.sub_0_r, Sn in H.
  apply bind_Some in H as (n1 & Hn & (t1 & Ht & [= <- <- <- <-])%bind_Some).
  pose proof (store16_size _ _ _ _ Hn) as Sn1.
  unfold PacketView.recalculate_lengths, views_at, Ipv4PacketView.to_bytes, DataPacketView.to_bytes.
  cbn [PacketView.net PacketView.transport PacketView.payload Ipv4PacketView.header_
    Ipv4PacketView.additional_header_ Ipv4PacketView.add_header_size_ DataPacketView.data_
    DataPacketView.data_size_].
  rewrite tv_to_bytes_law by done.
  replace (msize pre + 20 + 0 - msize pre + (msize pre + 20 + msize t - (msize pre + 20)) +
    (msize pre + 20 + msize t + msize l - (msize pre + 20 + msize t))) with (20 + msize t + msize l) by lia.
  replace (msize pre + 20 + msize t - (msize pre + 20)) with (msize t) by lia.
  unfold Ipv4PacketView.set_ip_total_length. cbn [Ipv4PacketView.header_].
  rewrite packet_in_net, (store16_inside _ _ _ _ _ _ Hn). cbn [mbind option_bind].
  rewrite <- packet_in_net, !packet_in_transport.
  replace (msize pre + 20) with (msize (pre ++ n1)) by (rewrite msize_app; lia).
  by apply (tv_length_law (pre ++ n1) (l ++ post)).
Qed.

(** The constructor from the three parts. *)
Lemma of_parts_ok n t m b e l :
  ip_whole n -> msize n = 20 -> bytes t -> tv_whole t -> range m b e = Some l ->
  PacketObject.of_parts n 0 (msize n) t 0 (msize t) m b e =
    Some (PacketObject.mk (n ++ t ++ l) (views_at 0 t l)).
Proof.
  intros Wn Sn Bt Wt Hl. unfold PacketObject.of_parts, PacketObject.set_views.
  pose proof (of_bytes_ok [] [] n t l Wn Sn Bt Wt) as Hp.
  pose proof (tv_set_data_law [] [] t (msize t) Bt Wt) as Ht. rewrite inside_nil in Ht.
  change (msize []) with 0 in *. rewrite !range_full, Hl, Ht. cbn [mbind option_bind].
  assert (Hm : exists v, Ipv4PacketView.make n 0 (msize n) = Some v).
  { destruct Wn as (_ & a & Ha & _). unfold Ipv4PacketView.make, Ipv4PacketView.parse_packet,
      Ipv4PacketView.ihl_at. rewrite Ha. by eexists. }
  destruct Hm as [v ->]. cbn [mbind option_bind app].
  assert (E : packet_in [] [] n t l = (n ++ t) ++ l) by (unfold packet_in; by rewrite app_nil_r, <- app_assoc).
  rewrite E in Hp. replace (0 + 20 + msize t + msize l) with (msize ((n ++ t) ++ l)) in Hp
    by (rewrite !msize_app; lia).
  rewrite <- app_assoc. rewrite <- app_assoc in Hp. 
  destruct tv_parses_parts; cbn [mbind option_bind]; by rewrite Hp.
Qed.

(** The way every constructor of a new packet ends. *)
Lemma refresh_refine n t l buf n' t' pl' buf' :
  packet_wf (T := tv_object) (FullPacket.mk n t l buf) -> msize n = 20 -> tv_whole t ->
  (fp ← FullPacket.recalculate_lengths (T := tv_object) (FullPacket.mk n t l buf);
   FullPacket.recalculate_checksums (T := tv_object) fp) = Some (FullPacket.mk n' t' pl' buf') ->
  (fp ← PacketObject.recalculate_lengths (PacketObject.mk (n ++ t ++ l) (views_at 0 t l));
   PacketObject.recalculate_checksums fp) = Some (PacketObject.mk (n' ++ t' ++ l) (views_at 0 t l)).
Proof.
  intros Hwf Sn Wt H. pose proof Hwf as (Bn & En & Hn20 & Bt & Et & Mt & Bl & Hsz).
  cbn [FullPacket.net FullPacket.transport FullPacket.payload FullPacket.data_] in *.
  apply bind_Some in H as ([n1 t1 l1 b1] & H1 & H2).
  assert (El : forall x y, x ++ y ++ l = packet_in [] [] x y l) by (intros; unfold packet_in; by rewrite app_nil_r).
  pose proof (lengths_refine [] [] _ _ _ _ _ _ _ _ Sn Wt H1) as R1.
  unfold FullPacket.recalculate_lengths in H1.
  cbn [FullPacket.net FullPacket.transport FullPacket.payload FullPacket.data_
    Ipv4PacketLittleEndian.to_bytes DataPacketLittleEndian.to_bytes] in H1.
  rewrite (t_to_bytes_law t) in H1.
  apply bind_Some in H1 as (n2 & Hn & (t2 & Ht & [= -> -> -> ->])%bind_Some).
  pose proof (store16_size _ _ _ _ Hn) as Sn1. pose proof (store16_bytes _ _ _ _ Bn Hn) as Bn1.
  destruct (t_length_law t (u16 (msize t - 0)) Bt Mt) as (t3 & Ht3 & Bt1 & St1).
  rewrite Ht in Ht3. apply (inj Some) in Ht3 as <-.
  assert (Ev : views_at 0 t l1 = views_at 0 t1 l1) by (unfold views_at; by rewrite St1).
  unfold PacketObject.recalculate_lengths, PacketObject.recalculate_checksums.
  cbn [PacketObject.data_ PacketObject.views].
  rewrite El. change (msize []) with 0 in R1. rewrite R1. cbn [mbind option_bind PacketObject.data_ PacketObject.views].
  rewrite Ev. 
  pose proof (checksums_refine [] [] n1 t1 l1 b1 n' t' pl' buf') as R2. change (msize []) with 0 in R2.
  rewrite R2; [cbn [mbind option_bind]; by rewrite El| | | | |done].
  - apply packet_in_bytes. split_and!; try done; by apply Forall_nil.
  - lia.
  - rewrite St1. by apply tv_sized_law.
  - unfold packet_wf. cbn. rewrite Sn1, St1. split_and!; done || lia.
Qed.

(** A new IPv4 header depends only on the bytes of the old one. *)
Lemma regenerate_inside pre post n src dst len :
  msize n = 20 ->
  regenerate_object (inside pre post n) (Ipv4PacketView.mk (msize pre) (msize pre + 20) 0) src dst len =
  regenerate_object n (Ipv4PacketView.mk 0 20 0) src dst len.
Proof.
  intros Sn. unfold regenerate_object, regenerate_object_bytes, Ipv4PacketView.to_bytes.
  cbn [Ipv4PacketView.header_ Ipv4PacketView.additional_header_ Ipv4PacketView.add_header_size_].
  assert (range (inside pre post n) (msize pre) (msize pre + 20 + 0) = Some n) as ->.
  { replace (msize pre + 20 + 0) with (msize pre + msize n) by lia. apply range_inside_all. }
  replace (20 + 0) with (msize n) by lia. by rewrite range_full.
Qed.

Lemma make_20 pre post n e a :
  msize n = 20 -> load n 0 = Some a -> Z.land a 15 = 5 ->
  Ipv4PacketView.make (inside pre post n) (msize pre) e =
    Some (Ipv4PacketView.mk (msize pre) (msize pre + 20) 0).
Proof.
  intros Sn Ha Hi. unfold Ipv4PacketView.make, Ipv4PacketView.parse_packet, Ipv4PacketView.ihl_at.
  pose proof (load_inside pre post n 0 a Ha) as H0. rewrite Z.add_0_r in H0. rewrite H0.
  cbn [mbind option_bind]. rewrite Hi. change default_ip_bytes with 20.
  change default_ip_quart_size with 5. do 2 f_equal. lia.
Qed.

(** [new_packet_by_this]: where the packet in parts makes one, so does the view. *)
Lemma new_packet_refine pr pre post t l0 px m b e l a t1 n' t' pl' buf' :
  let nh := FullPacket.net pr in
  bytes (QTunnelProxy.source_addr px) -> msize (QTunnelProxy.source_addr px) = 4 ->
  bytes (QTunnelProxy.dst_addr px) -> msize (QTunnelProxy.dst_addr px) = 4 ->
  bytes nh -> msize nh = 20 -> load nh 0 = Some a -> Z.land a 15 = 5 ->
  bytes l -> msize t1 + msize l < 65516 -> range m b e = Some l ->
  t_generate (TransportObject := tv_object) (QTunnelProxy.proto_data px) 0
    (msize (QTunnelProxy.proto_data px)) (QTunnelProxy.source_port px) (QTunnelProxy.dst_port px) = Some t1 ->
  bytes t1 -> tv_whole t1 ->
  FullPacket.new_packet_by_this (T := tv_object) pr px m b e = Some (FullPacket.mk n' t' pl' buf') ->
  PacketObject.new_packet_by_this_view (packet_in pre post nh t l0) (views_at (msize pre) t l0) px m b e =
    Some (PacketObject.mk (n' ++ t' ++ l) (views_at 0 t1 l)).
Proof.
  destruct pr as [nh nt np nb], px as [pn pt src sp dst dp pd].
  cbn [FullPacket.net QTunnelProxy.source_addr QTunnelProxy.source_port QTunnelProxy.dst_addr
    QTunnelProxy.dst_port QTunnelProxy.proto_data].
  intros Bs Ls Bd Ld Hbn Hsn Ha Hihl Bl Sl Hl Eg B1 W1 H.
  destruct (tv_whole_wf t1 B1 W1) as (Wt & Et & Mt).
  destruct (regenerate_20 nh a src dst (u16 (msize t1 + msize l)) Hbn Hsn Ha Hihl Bs Bd Ls Ld)
    as (v & n0 & Ev & En & Bn0 & Sn0 & As & Ad & Hq0).
  assert (Hw0 : ip_whole n0).
  { split; [lia|]. exists a. rewrite Hq0 by lia. split; [done|lia]. }
  assert (v = Ipv4PacketView.mk 0 20 0) as ->.
  { pose proof (make_20 [] [] nh (msize nh) a Hsn Ha Hihl) as Hv. rewrite inside_nil in Hv.
    change (msize []) with 0 in Hv. rewrite Ev in Hv. by injection Hv. }
  destruct (range_Some _ _ _ _ Hl) as (_ & _ & Se & _).
  unfold FullPacket.new_packet_by_this, PacketObject.new_packet_by_this_view in *.
  unfold QTunnelProxy.get_proto_data_bytes, QTunnelProtoData.to_bytes,
      QTunnelProxy.get_src_port, QTunnelProxy.get_dst_port, QTunnelProxy.get_src_addr,
      QTunnelProxy.get_dst_addr, Ipv4PacketLittleEndian.to_bytes in *.
  cbn [QTunnelProxy.proto_data QTunnelProxy.source_addr QTunnelProxy.source_port
      QTunnelProxy.dst_addr QTunnelProxy.dst_port FullPacket.net] in *.
  rewrite Eg in H |- *. cbn [mbind option_bind] in H |- *. rewrite !t_to_bytes_law in H |- *.
  cbn [mbind option_bind] in H |- *.
  rewrite Ev in H. cbn [mbind option_bind] in H. rewrite Z.sub_0_r in H |- *. rewrite <- Se, En in H.
  rewrite <- Se. cbn [mbind option_bind] in H.
  unfold views_at at 1 2. cbn [PacketView.net Ipv4PacketView.to_bytes].
  unfold Ipv4PacketView.to_bytes.
  cbn [Ipv4PacketView.header_ Ipv4PacketView.additional_header_ Ipv4PacketView.add_header_size_].
  rewrite packet_in_net, (make_20 _ _ nh _ a) by done. cbn [mbind option_bind].
  rewrite regenerate_inside, En by done. cbn [mbind option_bind].
  rewrite (of_parts_whole n0 t1 m b e l) in H by done. cbn [mbind option_bind] in H.
  rewrite (of_parts_ok n0 t1 m b e l) by done. cbn [mbind option_bind].
  apply (refresh_refine n0 t1 l [] n' t' pl' buf'); [|done|done|exact H].
  unfold packet_wf. cbn. rewrite Sn0. pose proof (msize_nonneg l). split_and!; done || lia.
Qed.

End Refinement.

(** C38: For a packet whose IPv4 header has 20 bytes, six operations of the packet over a
    buffer are those of the packet in parts: parsing the buffer gives views of the header,
    the transport header and the payload; [bytes()] spans the three; collecting the metadata
    and reading the length give the same; and recomputing the checksums, or the lengths, does
    inside the buffer what it does to the three separate objects, and leaves the bytes around
    the packet alone.  (With options the two differ: see [ipv4_view_span].) *)
Theorem packet_view_refines {T : TransportView} {L : TransportViewLaws T} pre post n t l :
  let m := packet_in pre post n t l in
  let v := views_at (msize pre) t l in
  let fat := FullPacket.mk n t l [] in
  bytes m -> ip_whole n -> msize n = 20 -> tv_whole t -> msize t + msize l < 65516 ->
  PacketView.of_bytes m (msize pre) (msize m - msize post) = Some v /\
  (let '(b, e) := PacketView.bytes v in range m b e) = Some (n ++ t ++ l) /\
  refines (FullPacket.collect_proto_data (T := tv_object) fat) (PacketView.collect_proto_data m v) /\
  refines (FullPacket.get_full_packet_length fat) (PacketView.get_full_packet_length m v) /\
  (exists n' t', FullPacket.recalculate_checksums (T := tv_object) fat = Some (FullPacket.mk n' t' l []) /\
     PacketView.recalculate_checksums m v = Some (packet_in pre post n' t' l)) /\
  (exists n' t', FullPacket.recalculate_lengths (T := tv_object) fat = Some (FullPacket.mk n' t' l []) /\
     PacketView.recalculate_lengths m v = Some (packet_in pre post n' t' l)).
Proof.
  intros m v fat Hb Wn Sn Wt Hsz. pose proof Hb as (Bpre & Bn & Bt & Bl & Bpost)%packet_in_bytes.
  destruct (tv_whole_wf t Bt Wt) as (Wo & Et & Mt). pose proof (msize_nonneg l).
  assert (Hwf : packet_wf (T := tv_object) fat).
  { unfold packet_wf, fat. cbn. rewrite Sn. split_and!; done || lia. }
  assert (Sm : msize m = msize pre + 20 + msize t + msize l + msize post).
  { unfold m, packet_in. rewrite !msize_app. lia. }
  split_and!.
  - rewrite Sm. replace (_ - msize post) with (msize pre + 20 + msize t + msize l) by lia.
    by apply of_bytes_ok.
  - unfold v. rewrite views_bytes by done. unfold m.
    replace (packet_in pre post n t l) with (inside pre post (n ++ t ++ l))
      by (unfold inside, packet_in; by rewrite <- !app_assoc).
    replace (msize pre + 20 + msize t + msize l) with (msize pre + msize (n ++ t ++ l))
      by (rewrite !msize_app; lia). apply range_inside_all.
  - intros pd (x & Hx & Hpd)%bind_Some. unfold PacketView.collect_proto_data, m, v, views_at.
    cbn [PacketView.transport]. rewrite packet_in_transport.
    replace (msize pre + 20) with (msize (pre ++ n)) by (rewrite msize_app; lia).
    by rewrite (tv_collect_law (pre ++ n) (l ++ post) t Bt Wt _ Hx).
  - apply (net_getters_inside pre (t ++ l ++ post) n).
  - destruct (checksums_ok fat Hwf) as (n' & t' & ph & Hc & _). exists n', t'. split; [exact Hc|].
    apply (checksums_refine pre post n t l [] n' t' l []); try done. by apply tv_sized_law.
  - destruct (store16_in n 2 (u16 (msize n - 0 + (msize t - 0) + (msize l - 0)))) as [n' Hn]; [lia..|].
    destruct (t_length_law t (u16 (msize t - 0)) Bt (proj1 Mt)) as (t' & Ht & _).
    assert (Hl : FullPacket.recalculate_lengths (T := tv_object) fat = Some (FullPacket.mk n' t' l [])).
    { unfold FullPacket.recalculate_lengths, fat.
      cbn [FullPacket.net FullPacket.transport FullPacket.payload FullPacket.data_
        Ipv4PacketLittleEndian.to_bytes DataPacketLittleEndian.to_bytes].
      rewrite (t_to_bytes_law t). unfold Ipv4PacketLittleEndian.set_ip_total_length. rewrite Hn.
      cbn [mbind option_bind]. by rewrite Ht. }
    exists n', t'. split; [exact Hl|]. by apply (lengths_refine pre post n t l [] n' t' l []).
Qed.

Lemma packet_view_refines_witness :
  let n := 69 :: repeat 7 19 in let t := repeat 80 20 in
  exists n' t', PacketView.recalculate_checksums (T := tcp_view) (packet_in [1; 2] [9] n t [1; 2; 3])
    (views_at 2 t [1; 2; 3]) = Some (packet_in [1; 2] [9] n' t' [1; 2; 3]).
Proof.
  intros n t. destruct (packet_view_refines (T := tcp_view) [1; 2] [9] n t [1; 2; 3])
    as (_ & _ & _ & _ & (n' & t' & _ & H) & _).
  - concrete.
  - split; [vm_compute; discriminate|exists 69; by split].
  - reflexivity.
  - split; [vm_compute; discriminate|exists 80; by split].
  - reflexivity.
  - exists n', t'. exact H.
Defined.

(** * Carrying packets through the tunnel, in buffers *)

(** An IPv4 header of 20 bytes has no options. *)
Lemma ip_whole_20 n : ip_whole n -> msize n = 20 -> exists a, load n 0 = Some a /\ Z.land a 15 = 5.
Proof. intros (_ & a & Ha & Hl) Hs. exists a. split; [done|lia]. Qed.

(** Collecting from a buffer is collecting from the transport header in it. *)
Lemma collect_view_ok {T : TransportView} {L : TransportViewLaws T} pre post n t l p pd :
  ip_whole n -> msize n = 20 -> bytes t -> tv_whole t ->
  PacketView.of_bytes (packet_in pre post n t l) (msize pre) (msize pre + 20 + msize t + msize l) = Some p ->
  t_collect (TransportObject := tv_object) t = Some pd ->
  PacketView.collect_proto_data (packet_in pre post n t l) p = Some pd.
Proof.
  intros Wn Sn Bt Wt Hp Hpd. rewrite of_bytes_ok in Hp by done. apply (inj Some) in Hp as <-.
  unfold PacketView.collect_proto_data, views_at. cbn [PacketView.transport]. rewrite packet_in_transport.
  replace (msize pre + 20) with (msize (pre ++ n)) by (rewrite msize_app; lia).
  rewrite (tv_collect_law (pre ++ n) (l ++ post) t Bt Wt _ Hpd). cbn [mbind option_bind].
  unfold QTunnelProtoData.make. by rewrite range_full.
Qed.

(** The bytes of the new packet are those of the packet in parts. *)
Lemma new_bytes_refine {T : TransportView} {L : TransportViewLaws T} pre post n t l0 p px m b e l h1 n' tr :
  bytes n -> ip_whole n -> msize n = 20 -> bytes t -> tv_whole t ->
  PacketView.of_bytes (packet_in pre post n t l0) (msize pre) (msize pre + 20 + msize t + msize l0) = Some p ->
  bytes (QTunnelProxy.source_addr px) -> msize (QTunnelProxy.source_addr px) = 4 ->
  bytes (QTunnelProxy.dst_addr px) -> msize (QTunnelProxy.dst_addr px) = 4 ->
  bytes l -> msize l < 65000 -> range m b e = Some l ->
  t_generate (TransportObject := tv_object) (QTunnelProxy.proto_data px) 0
    (msize (QTunnelProxy.proto_data px)) (QTunnelProxy.source_port px) (QTunnelProxy.dst_port px) = Some h1 ->
  bytes h1 -> tv_whole h1 -> msize n' = 20 -> msize tr = msize h1 ->
  FullPacket.new_packet_by_this (T := tv_object) (FullPacket.mk n t l0 []) px m b e =
    Some (FullPacket.mk n' tr l []) ->
  PacketObject.new_packet_bytes_by_this_view (packet_in pre post n t l0) p px m b e = Some (n' ++ tr ++ l).
Proof.
  intros Bn Wn Sn Bt Wt Hp Bs Ls Bd Ld Bl Sl Hl Eg B1 W1 Sn' Str Hnew.
  rewrite of_bytes_ok in Hp by done. apply (inj Some) in Hp as <-.
  destruct (ip_whole_20 n Wn Sn) as (a & Ha & Hihl).
  destruct (tv_whole_wf h1 B1 W1) as (_ & _ & M1).
  unfold PacketObject.new_packet_bytes_by_this_view.
  rewrite (new_packet_refine (FullPacket.mk n t l0 []) pre post t l0 px m b e l a h1 n' tr l [])
    by (done || (cbn; lia)).
  cbn [mbind option_bind PacketObject.data_]. unfold PacketObject.bytes. cbn [PacketObject.views].
  rewrite views_bytes by done.
  replace (0 + 20 + msize h1 + msize l) with (msize (n' ++ tr ++ l)) by (rewrite !msize_app; lia).
  by rewrite range_full.
Qed.

(** What a TCP packet in a capture buffer gives to the tunnel, and the header that the
    tunnel makes of it. *)
Lemma tcp_collected pre post n t l p pd sp dp :
  bytes t -> tcp_whole t -> ip_whole n -> msize n = 20 -> is_u16 sp -> is_u16 dp ->
  Ipv4TcpPacket_View.of_bytes (packet_in pre post n t l) (msize pre)
    (msize pre + 20 + msize t + msize l) = Some p ->
  Ipv4TcpPacket_View.collect_proto_data (packet_in pre post n t l) p = Some pd ->
  exists h1, t_collect (TransportObject := tcp_object) t = Some pd /\
    t_generate (TransportObject := tcp_object) pd 0 (msize pd) sp dp = Some h1 /\
    bytes h1 /\ tcp_whole h1 /\ msize h1 = msize t /\
    TcpPacketLittleEndian.get_tcp_src_port h1 = Some sp /\
    TcpPacketLittleEndian.get_tcp_dst_port h1 = Some dp /\
    carried t h1 /\
    range h1 20 (msize h1) = range t 20 (msize t).
Proof.
  intros Bt Wt Wn Sn Hsp Hdp Hp Hc. destruct (carry_ok _ _ _ Bt Wt Hsp Hdp) as (pd' & h1 & Ec & R).
  pose proof (collect_view_ok (T := tcp_view) pre post n t l p pd' Wn Sn Bt Wt Hp Ec) as Hpd.
  unfold Ipv4TcpPacket_View.collect_proto_data in Hc. rewrite Hpd in Hc. apply (inj Some) in Hc as ->.
  by exists h1.
Qed.

Lemma udp_collected pre post n t l p pd :
  bytes t -> msize t = 8 -> ip_whole n -> msize n = 20 ->
  Ipv4UdpPacket_View.of_bytes (packet_in pre post n t l) (msize pre)
    (msize pre + 20 + msize t + msize l) = Some p ->
  Ipv4UdpPacket_View.collect_proto_data (packet_in pre post n t l) p = Some pd ->
  t_collect (TransportObject := udp_object) t = Some pd.
Proof.
  intros Bt Wt Wn Sn Hp Hc.
  assert (Hpd : exists pd, t_collect (TransportObject := udp_object) t = Some pd).
  { destruct (load16_in t 4) as [len Hlen]; [lia..|]. exists [0; 2; octet 1 len; octet 0 len].
    cbn [t_collect udp_object]. unfold QTunnelUDPViewScheme.generate_object_bytes.
    assert (UdpPacketView.get_udp_length t (UdpPacketLittleEndian.to_view t) = Some len) as -> by exact Hlen.
    done. }
  destruct Hpd as (pd' & Ec).
  pose proof (collect_view_ok (T := udp_view) pre post n t l p pd' Wn Sn Bt Wt Hp Ec) as Hpd.
  unfold Ipv4UdpPacket_View.collect_proto_data in Hc. rewrite Hpd in Hc. by apply (inj Some) in Hc as ->.
Qed.

(** The packet [packet] carries the TCP header [t] and the payload [l] from [src] and the
    source port of [px] to the destination of [px], and a receiver accepts it. *)
Definition carries (px : QTunnelProxy.t) (src : list Z) (t l packet : mem) : Prop :=
  exists n tr ph, packet = n ++ tr ++ l /\
    carried t tr /\
    range tr 20 (msize tr) = range t 20 (msize t) /\
    TcpPacketLittleEndian.get_tcp_src_port tr = Some (QTunnelProxy.source_port px) /\
    TcpPacketLittleEndian.get_tcp_dst_port tr = Some (QTunnelProxy.dst_port px) /\
    Ipv4PacketLittleEndian.get_src_addr n = Some src /\
    Ipv4PacketLittleEndian.get_dst_addr n = Some (QTunnelProxy.dst_addr px) /\
    Ipv4PacketLittleEndian.get_ip_total_length n = Some (msize packet) /\
    receiver_pseudo n = Some ph /\ verifies (total n) /\ verifies (total ph + total (tr ++ l)).

Lemma tcp_whole_carried tr t :
  bytes t -> tcp_whole t -> carried t tr -> tcp_whole tr.
Proof.
  intros Bt (Mt & c & Hc & St) C. pose proof C as (Hs & _).
  pose proof (carried_getters t tr Bt C) as F. rewrite Forall_forall in F.
  pose proof (F TcpPacketLittleEndian.get_tcp_header_length ltac:(set_solver)) as Hf.
  unfold TcpPacketLittleEndian.get_tcp_header_length in Hf. rewrite Hc in Hf. cbn [mbind option_bind] in Hf.
  apply bind_Some in Hf as (c' & Hc' & [= E]). split; [lia|]. exists c'. split; [done|lia].
Qed.

(** What the receiver builds in its capture buffer from collected metadata. *)
Lemma tcp_view_rebuilt t pre post n l0 t0 p px m b e l :
  bytes t -> tcp_whole t -> t_collect (TransportObject := tcp_object) t = Some (QTunnelProxy.proto_data px) ->
  is_u16 (QTunnelProxy.source_port px) -> is_u16 (QTunnelProxy.dst_port px) ->
  bytes (QTunnelProxy.source_addr px) -> msize (QTunnelProxy.source_addr px) = 4 ->
  bytes (QTunnelProxy.dst_addr px) -> msize (QTunnelProxy.dst_addr px) = 4 ->
  bytes n -> ip_whole n -> msize n = 20 -> bytes t0 -> tcp_whole t0 ->
  Ipv4TcpPacket_View.of_bytes (packet_in pre post n t0 l0) (msize pre)
    (msize pre + 20 + msize t0 + msize l0) = Some p ->
  bytes l -> msize l < 65000 -> range m b e = Some l ->
  exists n2 tr ph,
    Ipv4TcpPacket_View.new_packet_bytes_by_this (packet_in pre post n t0 l0) p px m b e =
      Some (n2 ++ tr ++ l) /\ keeps_header n n2 /\ bytes tr /\ tcp_whole tr /\
    carried t tr /\
    range tr 20 (msize tr) = range t 20 (msize t) /\
    TcpPacketLittleEndian.get_tcp_src_port tr = Some (QTunnelProxy.source_port px) /\
    TcpPacketLittleEndian.get_tcp_dst_port tr = Some (QTunnelProxy.dst_port px) /\
    Ipv4PacketLittleEndian.get_src_addr n2 = Some (QTunnelProxy.source_addr px) /\
    Ipv4PacketLittleEndian.get_dst_addr n2 = Some (QTunnelProxy.dst_addr px) /\
    Ipv4PacketLittleEndian.get_ip_total_length n2 = Some (msize (n2 ++ tr ++ l)) /\
    receiver_pseudo n2 = Some ph /\ verifies (total n2) /\ verifies (total ph + total (tr ++ l)).
Proof.
  intros Bt Wt Ec Hsp Hdp Bs Ls Bd Ld Bn Wn Sn Bt0 Wt0 Hp Bl Sl Hl.
  destruct (ip_whole_20 n Wn Sn) as (a & Ha & Hihl).
  destruct (tcp_rebuilt (FullPacket.mk [] t [] []) (FullPacket.mk n t0 l0 []) px m b e l a)
    as (h1 & n2 & tr & ph & Eg & B1 & W1 & [Kn Btr] & St & Hnew & _ & F & O & P1 & P2 & As & Ad & Tl & R);
    try done.
  { unfold Ipv4TcpFatPacket.collect_proto_data, FullPacket.collect_proto_data. cbn [FullPacket.transport].
    rewrite Ec. cbn [mbind option_bind]. unfold QTunnelProtoData.make. by rewrite range_full. }
  pose proof Kn as (_ & S2 & _).
  exists n2, tr, ph. split_and!; try done; [|by apply (tcp_whole_carried tr t)|apply R..].
  by apply (new_bytes_refine (T := tcp_view) pre post n t0 l0 p px m b e l h1).
Qed.

(** C11: A TCP packet goes through the tunnel: the metadata that the sender collects from
    the packet in its capture buffer, put into the proxy data, makes the receiver build
    from the packet in its own buffer the bytes of a packet with the sender's TCP header,
    the ports and addresses of the proxy data and the given payload; the total length is its
    size and a receiver's sums over both headers verify.  The header is compared octet by
    octet ([carried]): besides the ports and the checksum all octets are the sender's, but the
    reserved bits and NS are cleared, and a header with NS comes out with SYN set. *)
Theorem tcp_view_carried pre post n t l0 p pre' post' n' t' l' p' px m b e l :
  bytes t -> tcp_whole t -> ip_whole n -> msize n = 20 ->
  Ipv4TcpPacket_View.of_bytes (packet_in pre post n t l0) (msize pre)
    (msize pre + 20 + msize t + msize l0) = Some p ->
  Ipv4TcpPacket_View.collect_proto_data (packet_in pre post n t l0) p = Some (QTunnelProxy.proto_data px) ->
  is_u16 (QTunnelProxy.source_port px) -> is_u16 (QTunnelProxy.dst_port px) ->
  bytes (QTunnelProxy.source_addr px) -> msize (QTunnelProxy.source_addr px) = 4 ->
  bytes (QTunnelProxy.dst_addr px) -> msize (QTunnelProxy.dst_addr px) = 4 ->
  bytes n' -> ip_whole n' -> msize n' = 20 -> bytes t' -> tcp_whole t' ->
  Ipv4TcpPacket_View.of_bytes (packet_in pre' post' n' t' l') (msize pre')
    (msize pre' + 20 + msize t' + msize l') = Some p' ->
  bytes l -> msize l < 65000 -> range m b e = Some l ->
  exists n2 tr ph,
    Ipv4TcpPacket_View.new_packet_bytes_by_this (packet_in pre' post' n' t' l') p' px m b e =
      Some (n2 ++ tr ++ l) /\
    carried t tr /\
    range tr 20 (msize tr) = range t 20 (msize t) /\
    TcpPacketLittleEndian.get_tcp_src_port tr = Some (QTunnelProxy.source_port px) /\
    TcpPacketLittleEndian.get_tcp_dst_port tr = Some (QTunnelProxy.dst_port px) /\
    Ipv4PacketLittleEndian.get_src_addr n2 = Some (QTunnelProxy.source_addr px) /\
    Ipv4PacketLittleEndian.get_dst_addr n2 = Some (QTunnelProxy.dst_addr px) /\
    Ipv4PacketLittleEndian.get_ip_total_length n2 = Some (msize (n2 ++ tr ++ l)) /\
    receiver_pseudo n2 = Some ph /\ verifies (total n2) /\ verifies (total ph + total (tr ++ l)).
Proof.
  intros Bt Wt Wn Sn Hp Hc Hsp Hdp Bs Ls Bd Ld Bn' Wn' Sn' Bt' Wt' Hp' Bl Sl Hl.
  destruct (tcp_collected pre post n t l0 p _ _ _ Bt Wt Wn Sn Hsp Hdp Hp Hc) as (_ & Ec & _).
  destruct (tcp_view_rebuilt t pre' post' n' l' t' p' px m b e l)
    as (n2 & tr & ph & Hnew & _ & _ & _ & R); try done.
  by exists n2, tr, ph.
Qed.

Lemma tcp_view_carried_witness :
  let n := 69 :: repeat 7 19 in let t := repeat 80 20 in
  exists n2 tr,
    Ipv4TcpPacket_View.new_packet_bytes_by_this (packet_in [] [] n t [5; 6])
      (views_at (T := tcp_view) 0 t [5; 6])
      (QTunnelProxy.mk IPv4 TCP [10; 0; 0; 2] 443 [8; 8; 8; 8] 50000
        [0; 15; 80; 80; 80; 80; 80; 80; 80; 80; 0; 80; 5; 80; 80; 80; 80]) [1; 2; 3] 0 3
      = Some (n2 ++ tr ++ [1; 2; 3]) /\
    TcpPacketLittleEndian.get_tcp_dst_port tr = Some 50000.
Proof.
  intros n t.
  destruct (tcp_view_carried [] [0; 0] n t [9]
    (views_at (T := tcp_view) 0 t [9])
    [] [] n t [5; 6]
    (views_at (T := tcp_view) 0 t [5; 6])
    (QTunnelProxy.mk IPv4 TCP [10; 0; 0; 2] 443 [8; 8; 8; 8] 50000
      [0; 15; 80; 80; 80; 80; 80; 80; 80; 80; 0; 80; 5; 80; 80; 80; 80])
    [1; 2; 3] 0 3 [1; 2; 3]) as (n2 & tr & ph & H & _ & _ & _ & Hd & _);
    [concrete
    |(split; [vm_compute; discriminate|exists 80; by split])
    |(split; [vm_compute; discriminate|exists 69; by split])
    |reflexivity
    |reflexivity
    |reflexivity
    |concrete
    |concrete
    |concrete
    |reflexivity
    |concrete
    |reflexivity
    |concrete
    |(split; [vm_compute; discriminate|exists 69; by split])
    |reflexivity
    |concrete
    |(split; [vm_compute; discriminate|exists 80; by split])
    |reflexivity
    |concrete
    |reflexivity
    |reflexivity|].
  exists n2, tr. split; [exact H|exact Hd].
Defined.

(** C36: A UDP packet goes through the tunnel the same way; the length of the datagram the
    metadata carry is overwritten with 8, the size of the header alone. *)
Theorem udp_view_carried pre post n t l0 p pre' post' n' t' l' p' px m b e l :
  bytes t -> msize t = 8 -> ip_whole n -> msize n = 20 ->
  Ipv4UdpPacket_View.of_bytes (packet_in pre post n t l0) (msize pre)
    (msize pre + 20 + msize t + msize l0) = Some p ->
  Ipv4UdpPacket_View.collect_proto_data (packet_in pre post n t l0) p = Some (QTunnelProxy.proto_data px) ->
  is_u16 (QTunnelProxy.source_port px) -> is_u16 (QTunnelProxy.dst_port px) ->
  bytes (QTunnelProxy.source_addr px) -> msize (QTunnelProxy.source_addr px) = 4 ->
  bytes (QTunnelProxy.dst_addr px) -> msize (QTunnelProxy.dst_addr px) = 4 ->
  bytes n' -> ip_whole n' -> msize n' = 20 -> bytes t' -> msize t' = 8 ->
  Ipv4UdpPacket_View.of_bytes (packet_in pre' post' n' t' l') (msize pre')
    (msize pre' + 20 + msize t' + msize l') = Some p' ->
  bytes l -> msize l < 65000 -> range m b e = Some l ->
  exists n2 tr ph,
    Ipv4UdpPacket_View.new_packet_bytes_by_this (packet_in pre' post' n' t' l') p' px m b e =
      Some (n2 ++ tr ++ l) /\
    UdpPacketLittleEndian.get_udp_src_port tr = Some (QTunnelProxy.source_port px) /\
    UdpPacketLittleEndian.get_udp_dst_port tr = Some (QTunnelProxy.dst_port px) /\
    UdpPacketLittleEndian.get_udp_length tr = Some 8 /\
    Ipv4PacketLittleEndian.get_src_addr n2 = Some (QTunnelProxy.source_addr px) /\
    Ipv4PacketLittleEndian.get_dst_addr n2 = Some (QTunnelProxy.dst_addr px) /\
    Ipv4PacketLittleEndian.get_ip_total_length n2 = Some (msize (n2 ++ tr ++ l)) /\
    receiver_pseudo n2 = Some ph /\ verifies (total n2) /\ verifies (total ph + total (tr ++ l)).
Proof.
  intros Bt Wt Wn Sn Hp Hc Hsp Hdp Bs Ls Bd Ld Bn' Wn' Sn' Bt' Wt' Hp' Bl Sl Hl.
  pose proof (udp_collected pre post n t l0 p _ Bt Wt Wn Sn Hp Hc) as Ec.
  destruct (ip_whole_20 n' Wn' Sn') as (a & Ha & Hihl).
  destruct (udp_rebuilt (FullPacket.mk n t l0 []) (FullPacket.mk n' t' l' []) px m b e l a)
    as (h1 & n2 & tr & ph & Eg & B1 & W1 & [(_ & S2 & _) _] & St & Hnew & P1 & P2 & P3 & As & Ad & Tl & R);
    try done.
  { cbn. lia. }
  { unfold Ipv4UdpFatPacket.collect_proto_data, FullPacket.collect_proto_data. cbn [FullPacket.transport].
    rewrite Ec. cbn [mbind option_bind]. unfold QTunnelProtoData.make. by rewrite range_full. }
  exists n2, tr, ph. split_and!; try done; [|apply R..].
  by apply (new_bytes_refine (T := udp_view) pre' post' n' t' l' p' px m b e l h1).
Qed.

Lemma udp_view_carried_witness :
  let n := 69 :: repeat 7 19 in
  exists n2 tr,
    Ipv4UdpPacket_View.new_packet_bytes_by_this (packet_in [] [] n (repeat 7 8) [5; 6])
      (views_at (T := udp_view) 0 (repeat 7 8) [5; 6])
      (QTunnelProxy.mk IPv4 UDP [10; 0; 0; 2] 53 [8; 8; 8; 8] 4660 [0; 2; 0; 11]) [1; 2; 3] 0 3
      = Some (n2 ++ tr ++ [1; 2; 3]) /\
    UdpPacketLittleEndian.get_udp_length tr = Some 8.
Proof.
  intros n.
  destruct (udp_view_carried [] [0; 0] n [18; 52; 0; 53; 0; 11; 0; 0] [9]
    (views_at (T := udp_view) 0 (repeat 7 8) [9])
    [] [] n (repeat 7 8) [5; 6]
    (views_at (T := udp_view) 0 (repeat 7 8) [5; 6])
    (QTunnelProxy.mk IPv4 UDP [10; 0; 0; 2] 53 [8; 8; 8; 8] 4660 [0; 2; 0; 11])
    [1; 2; 3] 0 3 [1; 2; 3]) as (n2 & tr & ph & H & _ & _ & Hd & _);
    [concrete
    |reflexivity
    |(split; [vm_compute; discriminate|exists 69; by split])
    |reflexivity
    |reflexivity
    |reflexivity
    |concrete
    |concrete
    |concrete
    |reflexivity
    |concrete
    |reflexivity
    |concrete
    |(split; [vm_compute; discriminate|exists 69; by split])
    |reflexivity
    |concrete
    |reflexivity
    |reflexivity
    |concrete
    |reflexivity
    |reflexivity|].
  exists n2, tr. split; [exact H|exact Hd].
Defined.

(** The metadata of a UDP packet change nothing, those of a TCP packet its state: here two
    packets of which the second one takes the numbers, flags and window of the first. *)
Lemma udp_metadata_ignored m p b e : Ipv4UdpPacket_View.set_qtunnel_proto_data m p b e = Some (m, p).
Proof. by destruct p. Qed.

Definition bare_tcp (l : mem) : mem :=
  [69; 0; 0; 41; 0; 0; 64; 0; 64; 6; 0; 0; 10; 0; 0; 1; 10; 0; 0; 2] ++ [1; 187; 16; 146] ++ l ++ [7].

Lemma tcp_metadata_applied :
  let first := bare_tcp [0; 0; 0; 5; 0; 0; 0; 9; 80; 24; 1; 0; 0; 0; 0; 0] in
  let second := bare_tcp [0; 0; 0; 1; 0; 0; 0; 1; 80; 16; 2; 2; 3; 3; 0; 0] in
  (p1 ← Ipv4TcpPacket.of_bytes first 0 41; data ← Ipv4TcpPacket.collect_proto_data p1;
   let '(b, e) := QTunnelProtoData.to_bytes data in
   p2 ← Ipv4TcpPacket.of_bytes second 0 41;
   p2 ← Ipv4TcpPacket.set_qtunnel_proto_data p2 data b e;
   Some (PacketObject.data_ p2)) =
  Some (bare_tcp [0; 0; 0; 5; 0; 0; 0; 9; 80; 24; 1; 0; 3; 3; 0; 0]).
Proof. vm_compute. reflexivity. Qed.
