(* ===== verification/Print.v ===== *)
(** The texts that the loops of client and server print of every packet:
    [ip_to_friendly_view], [to_tcp_friendly_view], [to_udp_friendly_view]
    (src/QVPN/QVPN Lib/src/qvpn_structures.cpp) and [to_packet_friendly_view]
    (include/qvpn_structures.hpp).

    Printing changes nothing, but it does not end for every packet: the answer is [None]
    when the code reads outside the buffer and when the loop over the options does not end.
    The loop gets one turn more than there are option bytes; [options_loop_terminates]
    shows that a run that has not ended then never ends; a reversed range is never printed. *)
From S2P Require Import Prelude Checksum Addr Transport TcpOptions Ipv4 Tcp Udp FullPacket PacketView.

(** [std::to_string] of an [int]. *)
Definition dec_int (z : Z) : string := if z <? 0 then ("-" +:+ dec (- z))%string else dec z.

Section Print.
Context (T : QVPNVerboser.tables).

(** * Headers *)

(** What [ip_to_friendly_view] of both classes writes; they differ in the last line. *)
Definition ip_text (version words dscp ecn total_length id flags offset ttl protocol checksum : Z)
    (src dst : list Z) (last_line : string) : string :=
  ("IPv4 Header: " +:+ endl +:+
   "Version : " +:+ dec version +:+ " Header Length: " +:+ dec words +:+ "/" +:+ dec (words * 4) +:+
   "  (words/bytes)" +:+ " DSCP: " +:+ dec dscp +:+ " ECN: " +:+ dec ecn +:+
   " Total length: " +:+ dec total_length +:+ endl +:+
   "ID: " +:+ dec id +:+ " Flags: " +:+ QVPNVerboser.ipv4_flags flags +:+
   " Fragment Offset: " +:+ dec offset +:+ endl +:+
   "TTL: " +:+ dec ttl +:+ " Protocol: " +:+ QVPNVerboser.transport_verbose T protocol +:+
   " Checksum: 0x" +:+ hex checksum +:+ endl +:+
   "Source IP: " +:+ QVPNVerboser.addr_verbose T src +:+ endl +:+
   "Dest IP: " +:+ QVPNVerboser.addr_verbose T dst +:+ endl +:+ last_line +:+ endl +:+ endl)%string.

Definition Ipv4PacketLittleEndian_ip_to_friendly_view (header_ : mem) : option string :=
  src ← Ipv4PacketLittleEndian.get_src_addr header_;
  dst ← Ipv4PacketLittleEndian.get_dst_addr header_;
  version ← Ipv4PacketLittleEndian.get_ip_version header_;
  words ← Ipv4PacketLittleEndian.get_ip_header_length header_;
  dscp ← Ipv4PacketLittleEndian.get_ip_dscp header_;
  ecn ← Ipv4PacketLittleEndian.get_ip_ecn header_;
  total_length ← Ipv4PacketLittleEndian.get_ip_total_length header_;
  id ← Ipv4PacketLittleEndian.get_ip_id header_;
  flags ← Ipv4PacketLittleEndian.get_ip_flags header_;
  offset ← Ipv4PacketLittleEndian.get_ip_offset header_;
  ttl ← Ipv4PacketLittleEndian.get_ip_ttl header_;
  protocol ← Ipv4PacketLittleEndian.get_ip_protocol header_;
  checksum ← Ipv4PacketLittleEndian.get_ip_checksum header_;
  Some (ip_text version words dscp ecn total_length id flags offset ttl protocol checksum src dst
          ("Additional header size: " +:+ dec (msize header_ - 20) +:+ " bytes")%string).

Definition Ipv4PacketView_ip_to_friendly_view (m : mem) (v : Ipv4PacketView.t) : option string :=
  src ← Ipv4PacketView.get_src_addr m v;
  dst ← Ipv4PacketView.get_dst_addr m v;
  version ← Ipv4PacketView.get_ip_version m v;
  words ← Ipv4PacketView.get_ip_header_length m v;
  dscp ← Ipv4PacketView.get_ip_dscp m v;
  ecn ← Ipv4PacketView.get_ip_ecn m v;
  total_length ← Ipv4PacketView.get_ip_total_length m v;
  id ← Ipv4PacketView.get_ip_id m v;
  flags ← Ipv4PacketView.get_ip_flags m v;
  offset ← Ipv4PacketView.get_ip_offset m v;
  ttl ← Ipv4PacketView.get_ip_ttl m v;
  protocol ← Ipv4PacketView.get_ip_protocol m v;
  checksum ← Ipv4PacketView.get_ip_checksum m v;
  Some (ip_text version words dscp ecn total_length id flags offset ttl protocol checksum src dst
          ("Additional header size:" +:+ dec_int (Ipv4PacketView.add_header_size_ v) +:+ " bytes")%string).

(** The loop over the options, with enough turns. *)
Definition options_text (m : mem) (opt_b opt_e : Z) : option string :=
  outcome_option (TcpOptionsView.options_friendly_view T (S (Z.to_nat (opt_e - opt_b))) m opt_b opt_e).

(** What [to_tcp_friendly_view] of both classes writes; the view ends one line twice. *)
Definition tcp_text (src_port dst_port seq ack words reserved flags window checksum urgent size : Z)
    (size_end options : string) : string :=
  ("TCP Header:" +:+ endl +:+
   "Source port: " +:+ dec src_port +:+ " Dest port: " +:+ dec dst_port +:+ endl +:+
   "Seq: " +:+ dec seq +:+ endl +:+ "Ack: " +:+ dec ack +:+ endl +:+
   "Length: " +:+ dec words +:+ "/" +:+ dec (words * 4) +:+ " (words/bytes)" +:+
   " Reserverd: " +:+ dec reserved +:+ " Flags: " +:+ QVPNVerboser.tcp_flags flags +:+
   " Window size: " +:+ dec window +:+ endl +:+
   "Checksum: 0x" +:+ hex checksum +:+ " Urgent: " +:+ dec urgent +:+ endl +:+
   "Options size: " +:+ dec size +:+ " bytes" +:+ size_end +:+
   "Options: " +:+ options +:+ endl +:+ endl)%string.

Definition TcpPacketLittleEndian_to_tcp_friendly_view (header_ : mem) : option string :=
  src_port ← TcpPacketLittleEndian.get_tcp_src_port header_;
  dst_port ← TcpPacketLittleEndian.get_tcp_dst_port header_;
  seq ← TcpPacketLittleEndian.get_tcp_seq_number header_;
  ack ← TcpPacketLittleEndian.get_tcp_ack_number header_;
  words ← TcpPacketLittleEndian.get_tcp_header_length header_;
  reserved ← TcpPacketLittleEndian.get_tcp_reserved header_;
  flags ← TcpPacketLittleEndian.get_tcp_flags header_;
  window ← TcpPacketLittleEndian.get_tcp_window_size header_;
  checksum ← TcpPacketLittleEndian.get_tcp_checksum header_;
  urgent ← TcpPacketLittleEndian.get_tcp_urgent_pointer header_;
  let '(opt_b, opt_e) := TcpPacketLittleEndian.get_tcp_options header_ in
  options ← options_text header_ opt_b opt_e;
  Some (tcp_text src_port dst_port seq ack words reserved flags window checksum urgent (opt_e - opt_b)
          endl options).

Definition TcpPacketView_to_tcp_friendly_view (m : mem) (v : TcpPacketView.t) : option string :=
  src_port ← TcpPacketView.get_tcp_src_port m v;
  dst_port ← TcpPacketView.get_tcp_dst_port m v;
  seq ← TcpPacketView.get_tcp_seq_number m v;
  ack ← TcpPacketView.get_tcp_ack_number m v;
  words ← TcpPacketView.get_tcp_header_length m v;
  reserved ← TcpPacketView.get_tcp_reserved m v;
  flags ← TcpPacketView.get_tcp_flags m v;
  window ← TcpPacketView.get_tcp_window_size m v;
  checksum ← TcpPacketView.get_tcp_checksum m v;
  urgent ← TcpPacketView.get_tcp_urgent_pointer m v;
  let '(opt_b, opt_e) := TcpPacketView.get_tcp_options v in
  options ← options_text m opt_b opt_e;
  Some (tcp_text src_port dst_port seq ack words reserved flags window checksum urgent (opt_e - opt_b)
          (endl +:+ endl)%string options).

(** [to_udp_friendly_view] of both classes. *)
Definition udp_text (src_port dst_port length checksum : Z) : string :=
  ("UDP Header:" +:+ endl +:+ "Src port: " +:+ dec src_port +:+ " Dst port: " +:+ dec dst_port +:+ endl +:+
   "Length: " +:+ dec length +:+ "Checksum: 0x" +:+ hex checksum +:+ endl +:+ endl)%string.

Definition UdpPacketLittleEndian_to_udp_friendly_view (header_ : mem) : option string :=
  src_port ← UdpPacketLittleEndian.get_udp_src_port header_;
  dst_port ← UdpPacketLittleEndian.get_udp_dst_port header_;
  length ← UdpPacketLittleEndian.get_udp_length header_;
  checksum ← UdpPacketLittleEndian.get_udp_checksum header_;
  Some (udp_text src_port dst_port length checksum).

Definition UdpPacketView_to_udp_friendly_view (m : mem) (v : UdpPacketView.t) : option string :=
  src_port ← UdpPacketView.get_udp_src_port m v;
  dst_port ← UdpPacketView.get_udp_dst_port m v;
  length ← UdpPacketView.get_udp_length m v;
  checksum ← UdpPacketView.get_udp_checksum m v;
  Some (udp_text src_port dst_port length checksum).

(** * Packets *)

(** [ss << net << transport << data << std::endl]. *)
Definition packet_text (net transport data : string) : string :=
  (net +:+ transport +:+ data +:+ endl)%string.

Definition Ipv4TcpFatPacket_to_packet_friendly_view (p : FullPacket.t) : option string :=
  net ← Ipv4PacketLittleEndian_ip_to_friendly_view (FullPacket.net p);
  transport ← TcpPacketLittleEndian_to_tcp_friendly_view (FullPacket.transport p);
  Some (packet_text net transport (DataPacketLittleEndian.to_data_friendly_view (FullPacket.payload p))).
Definition Ipv4UdpFatPacket_to_packet_friendly_view (p : FullPacket.t) : option string :=
  net ← Ipv4PacketLittleEndian_ip_to_friendly_view (FullPacket.net p);
  transport ← UdpPacketLittleEndian_to_udp_friendly_view (FullPacket.transport p);
  Some (packet_text net transport (DataPacketLittleEndian.to_data_friendly_view (FullPacket.payload p))).

Definition Ipv4TcpPacket_View_to_packet_friendly_view (m : mem) (p : Ipv4TcpPacket_View.t) : option string :=
  net ← Ipv4PacketView_ip_to_friendly_view m (PacketView.net p);
  transport ← TcpPacketView_to_tcp_friendly_view m (PacketView.transport p);
  Some (packet_text net transport (DataPacketView.to_data_friendly_view (PacketView.payload p))).
Definition Ipv4UdpPacket_View_to_packet_friendly_view (m : mem) (p : Ipv4UdpPacket_View.t) : option string :=
  net ← Ipv4PacketView_ip_to_friendly_view m (PacketView.net p);
  transport ← UdpPacketView_to_udp_friendly_view m (PacketView.transport p);
  Some (packet_text net transport (DataPacketView.to_data_friendly_view (PacketView.payload p))).

(** The objects over a buffer of their own print through their views. *)
Definition Ipv4TcpPacket_to_packet_friendly_view (p : Ipv4TcpPacket.t) : option string :=
  Ipv4TcpPacket_View_to_packet_friendly_view (PacketObject.data_ p) (PacketObject.views p).
Definition Ipv4UdpPacket_to_packet_friendly_view (p : Ipv4UdpPacket.t) : option string :=
  Ipv4UdpPacket_View_to_packet_friendly_view (PacketObject.data_ p) (PacketObject.views p).

Definition DummyFullPacket_to_packet_friendly_view : string :=
  "That`s a dummy packet. If you see this, you doing something wrong."%string.

End Print.

(** * What prints *)

(** The headers of a buffer that reaches far enough are read inside it. *)
Ltac read_inside m :=
  repeat first
    [ match goal with |- context [load m ?p] => destruct (load_is_Some m p) as [? ->]; [lia|] end
    | match goal with |- context [range m ?b ?e] => rewrite (range_in m b e) by lia end
    | progress cbn [mbind option_bind] ].

Lemma ip_view_prints T m v :
  0 <= Ipv4PacketView.header_ v -> Ipv4PacketView.header_ v + 20 <= msize m ->
  exists text, Ipv4PacketView_ip_to_friendly_view T m v = Some text.
Proof.
  intros Hp Hs. destruct v as [p a n]. cbn in Hp, Hs. unfold Ipv4PacketView_ip_to_friendly_view,
    Ipv4PacketView.get_src_addr, Ipv4PacketView.get_dst_addr, NetAddr.of_range, Ipv4PacketView.get_ip_version,
    Ipv4PacketView.get_ip_header_length, Ipv4PacketView.get_ip_dscp, Ipv4PacketView.get_ip_ecn,
    Ipv4PacketView.get_ip_total_length, Ipv4PacketView.get_ip_id, Ipv4PacketView.get_ip_flags,
    Ipv4PacketView.get_ip_offset, Ipv4PacketView.get_ip_ttl, Ipv4PacketView.get_ip_protocol,
    Ipv4PacketView.get_ip_checksum, Ipv4PacketView.at_, load16.
  cbn [Ipv4PacketView.header_ Ipv4PacketView.add_header_size_].
  read_inside m. by eexists.
Qed.

(** The options of a TCP header are a sequence of well-formed ones. *)
Definition options_wf (t : mem) : Prop :=
  exists l, Forall opt_wf l /\ range t 20 (msize t) = Some (options_bytes l).

Lemma options_text_wf T m b e l :
  Forall opt_wf l -> range m b e = Some (options_bytes l) -> e - b < 2 ^ 64 ->
  options_text T m b e = Some (String.concat ", " (map (opt_word T) l)).
Proof.
  intros Hw H H64. destruct (range_Some _ _ _ _ H) as ([_ Hbe] & _).
  unfold options_text. by rewrite (options_printed T m b e l) by (done || lia).
Qed.

Lemma tcp_view_prints T m v :
  0 <= TcpPacketView.tcp_header_ v -> TcpPacketView.tcp_header_ v + 20 <= msize m ->
  is_Some (options_text T m (TcpPacketView.options_ v)
    (TcpPacketView.options_ v + TcpPacketView.tcp_options_size v)) ->
  exists text, TcpPacketView_to_tcp_friendly_view T m v = Some text.
Proof.
  intros Hp Hs [text Ht]. destruct v as [p o n]. cbn in Hp, Hs, Ht. unfold TcpPacketView_to_tcp_friendly_view,
    TcpPacketView.get_tcp_src_port, TcpPacketView.get_tcp_dst_port, TcpPacketView.get_tcp_seq_number,
    TcpPacketView.get_tcp_ack_number, TcpPacketView.get_tcp_header_length, TcpPacketView.get_tcp_reserved,
    TcpPacketView.get_tcp_flags, TcpPacketView.get_tcp_window_size, TcpPacketView.get_tcp_checksum,
    TcpPacketView.get_tcp_urgent_pointer, TcpPacketView.get_tcp_options, TcpPacketView.at_, load16, load32.
  cbn [TcpPacketView.tcp_header_ TcpPacketView.options_ TcpPacketView.tcp_options_size].
  read_inside m. rewrite Ht. by eexists.
Qed.

(** A captured TCP packet prints when its options are well-formed, and does not when the
    loop over them does not end. *)
Lemma captured_prints T pre post n t l :
  msize n = 20 -> 20 <= msize t <= 60 -> options_wf t ->
  exists text, Ipv4TcpPacket_View_to_packet_friendly_view T (packet_in pre post n t l)
    (views_at (T := tcp_view) (msize pre) t l) = Some text.
Proof.
  intros Sn St (opts & Hw & Ho). set (m := packet_in pre post n t l).
  assert (Sm : msize pre + 20 + msize t <= msize m).
  { unfold m, packet_in. rewrite !msize_app. pose proof (msize_nonneg l). pose proof (msize_nonneg post). lia. }
  pose proof (msize_nonneg pre). unfold Ipv4TcpPacket_View_to_packet_friendly_view, views_at.
  cbn [PacketView.net PacketView.transport PacketView.payload].
  change (tv_at (msize pre + 20) (msize t))
    with (TcpPacketView.mk (msize pre + 20) (msize pre + 20 + 20) (msize t - 20)).
  destruct (ip_view_prints T m (Ipv4PacketView.mk (msize pre) (msize pre + 20) 0)) as [net ->]; [done|cbn; lia|].
  cbn [mbind option_bind].
  destruct (tcp_view_prints T m (TcpPacketView.mk (msize pre + 20) (msize pre + 20 + 20) (msize t - 20)))
    as [transport ->]; [cbn; lia|cbn; lia| |by eexists].
  cbn [TcpPacketView.options_ TcpPacketView.tcp_options_size].
  rewrite (options_text_wf T m _ _ opts Hw); [by eexists| |lia].
  unfold m. rewrite packet_in_transport.
  pose proof (range_inside (pre ++ n) (l ++ post) t 20 (msize t) _ Ho) as R. rewrite msize_app, Sn in R.
  by replace (msize pre + 20 + 20 + (msize t - 20)) with (msize pre + 20 + msize t) by lia.
Qed.

Lemma captured_hangs T pre post n t l :
  msize n = 20 -> msize t < 2 ^ 64 -> stuck t 20 (msize t - 20) 0 ->
  Ipv4TcpPacket_View_to_packet_friendly_view T (packet_in pre post n t l)
    (views_at (T := tcp_view) (msize pre) t l) = None.
Proof.
  intros Sn H64 Hs. set (m := packet_in pre post n t l). pose proof (stuck_size _ _ _ _ Hs).
  assert (Hm : options_text T m (msize pre + 20 + 20) (msize pre + 20 + 20 + (msize t - 20)) = None).
  { pose proof (stuck_inside (pre ++ n) (l ++ post) t 20 _ 0 Hs) as S. rewrite msize_app, Sn in S.
    unfold options_text, TcpOptionsView.options_friendly_view, m. rewrite packet_in_transport.
    replace (msize pre + 20 + 20 + (msize t - 20) - (msize pre + 20 + 20)) with (msize t - 20) by lia.
    rewrite u64_small by lia. by rewrite (stuck_runs T _ _ _ 0 S). }
  assert (Ht : TcpPacketView_to_tcp_friendly_view T m
    (TcpPacketView.mk (msize pre + 20) (msize pre + 20 + 20) (msize t - 20)) = None).
  { unfold TcpPacketView_to_tcp_friendly_view, TcpPacketView.get_tcp_options.
    cbn [TcpPacketView.options_ TcpPacketView.tcp_options_size]. rewrite Hm.
    repeat match goal with |- mbind _ ?x = None => destruct x; [cbn [mbind option_bind]|done] end. done. }
  unfold Ipv4TcpPacket_View_to_packet_friendly_view, views_at.
  cbn [PacketView.net PacketView.transport PacketView.payload].
  change (tv_at (msize pre + 20) (msize t))
    with (TcpPacketView.mk (msize pre + 20) (msize pre + 20 + 20) (msize t - 20)).
  destruct (Ipv4PacketView_ip_to_friendly_view _ _ _); [|done]. cbn [mbind option_bind]. by rewrite Ht.
Qed.
