(* ===== verification/NoNet.v ===== *)
(** Packets without an IPv4 header: the specialisations of [NoNetPacket] in
    src/QVPN/QVPN Lib/include/qvpn_structures.hpp.  Their owner keeps the addresses and hands
    them to the methods that compute a checksum.

    As with [FullPacket], the specialisations repeat one text over different transport
    classes.  [NoNetPacket] is that text over [TransportObject] (a header and a payload of
    their own), [NoNetView] over [TransportView] (two views into a buffer), [NoNetObject] the
    packet that owns the buffer of its views. *)
From S2P Require Import Prelude Checksum Addr Transport Ipv4 Tcp Udp QTunnel FullPacket PacketView Print.

(** [TransportIpv4PseudoHeader pseudo(src.to_ipv4(), dst.to_ipv4(), protocol, length)]; [None]
    inside for a source that is not an IPv4 address: nothing is computed then. *)
Definition pseudo_of (protocol : Z) (src dst : list Z) (length : Z) : option (option mem) :=
  if NetAddr.get_addr_family src =? IPv4 then
    src4 ← NetAddr.to_ipv4 src;
    dst4 ← NetAddr.to_ipv4 dst;
    pseudo ← TransportIpv4PseudoHeader.of_addrs src4 dst4 protocol length;
    Some (Some pseudo)
  else Some None.

(** * Header and payload apart *)

Module NoNetPacket.

(** The two base subobjects and the buffer of [bytes()]. *)
Record t := mk { transport : mem; payload : mem; data_ : mem }.

Section Operations.
Context {T : TransportObject} (t_proto : Z).

Definition of_bytes (m : mem) (begin_ end_ : Z) : option t :=
  tr ← t_make m begin_ end_;
  d ← DataPacketLittleEndian.make m (begin_ + t_get_size tr) end_;
  Some (mk tr d []).

Definition of_parts (mt : mem) (transport_begin transport_end : Z) (md : mem) (begin_ end_ : Z) :
    option t :=
  tr ← t_make mt transport_begin transport_end;
  d ← DataPacketLittleEndian.make md begin_ end_;
  Some (mk tr d []).

(** The copies go behind what [data_] holds already. *)
Definition bytes (p : t) : option (t * (Z * Z)) :=
  let '(t_b, t_e) := t_to_bytes (transport p) in
  let '(d_b, d_e) := DataPacketLittleEndian.to_bytes (payload p) in
  l1 ← range (transport p) t_b t_e;
  l2 ← range (payload p) d_b d_e;
  let buf := data_ p ++ l1 ++ l2 in
  Some (mk (transport p) (payload p) buf, (0, msize buf)).

Definition recalculate_checksums (p : t) (src dst : list Z) (length : Z) : option t :=
  let '(b, e) := DataPacketLittleEndian.get_payload (payload p) in
  pseudo ← pseudo_of t_proto src dst length;
  match pseudo with
  | Some pseudo =>
      tr ← t_recalculate_transport_checksum (transport p) pseudo (payload p) b e;
      Some (mk tr (payload p) (data_ p))
  | None => Some p
  end.

Definition set_transport_length (p : t) (length : Z) : option t :=
  tr ← t_set_transport_length (transport p) length; Some (mk tr (payload p) (data_ p)).

Definition new_packet_by_payload (p : t) (src dst : list Z) (length : Z) (m : mem) (begin_ end_ : Z) :
    option t :=
  let '(t_b, t_e) := t_to_bytes (transport p) in
  np ← of_parts (transport p) t_b t_e m begin_ end_;
  let size := u16 (end_ - begin_) in
  np ← set_transport_length np size;
  recalculate_checksums np src dst length.

Definition recalculate_lengths (p : t) : option t :=
  let '(t_b, t_e) := t_to_bytes (transport p) in
  let '(d_b, d_e) := DataPacketLittleEndian.to_bytes (payload p) in
  let t_size := t_e - t_b in
  let d_size := d_e - d_b in
  set_transport_length p (u16 t_size).

Definition new_packet_by_this (p : t) (proxy_data : QTunnelProxy.t) (m : mem) (begin_ end_ : Z) :
    option t :=
  let src := QTunnelProxy.get_src_addr proxy_data in
  let dst := QTunnelProxy.get_dst_addr proxy_data in
  let data_size := end_ - begin_ in
  let '(pd_b, pd_e) := QTunnelProxy.get_proto_data_bytes proxy_data in
  t_header ← t_generate (QTunnelProxy.proto_data proxy_data) pd_b pd_e
               (QTunnelProxy.get_src_port proxy_data) (QTunnelProxy.get_dst_port proxy_data);
  let '(t_b, t_e) := t_to_bytes t_header in
  let t_size := t_e - t_b in
  let total_size := t_size + data_size in
  nnp ← of_parts t_header t_b t_e m begin_ end_;
  nnp ← recalculate_lengths nnp;
  recalculate_checksums nnp src dst (u16 total_size).

Definition new_packet_bytes_by_this (p : t) (proxy_data : QTunnelProxy.t) (m : mem)
    (begin_ end_ : Z) : option mem :=
  nnp ← new_packet_by_this p proxy_data m begin_ end_;
  '(nnp, (b, e)) ← bytes nnp;
  range (data_ nnp) b e.

End Operations.

End NoNetPacket.

Module NoNetPacketTcpFatObject.
Definition of_bytes := NoNetPacket.of_bytes (T := tcp_object).
Definition of_parts := NoNetPacket.of_parts (T := tcp_object).
Definition bytes := NoNetPacket.bytes (T := tcp_object).
Definition recalculate_checksums := NoNetPacket.recalculate_checksums (T := tcp_object) TCP.
Definition new_packet_by_payload := NoNetPacket.new_packet_by_payload (T := tcp_object) TCP.
Definition recalculate_lengths := NoNetPacket.recalculate_lengths (T := tcp_object).
Definition new_packet_by_this := NoNetPacket.new_packet_by_this (T := tcp_object) TCP.
Definition new_packet_bytes_by_this := NoNetPacket.new_packet_bytes_by_this (T := tcp_object) TCP.
Definition set_seq_ack_flags (p : NoNetPacket.t) (seq ack flags : Z) : option NoNetPacket.t :=
  h ← TcpPacketLittleEndian.set_tcp_seq_number (NoNetPacket.transport p) seq;
  h ← TcpPacketLittleEndian.set_tcp_ack_number h ack;
  h ← TcpPacketLittleEndian.set_tcp_flags h flags;
  Some (NoNetPacket.mk h (NoNetPacket.payload p) (NoNetPacket.data_ p)).
Definition to_packet_friendly_view (N : QVPNVerboser.tables) (p : NoNetPacket.t) : option string :=
  text ← TcpPacketLittleEndian_to_tcp_friendly_view N (NoNetPacket.transport p);
  Some (text +:+ endl)%string.
End NoNetPacketTcpFatObject.

Module NoNetPacketUdpFatObject.
Definition of_bytes := NoNetPacket.of_bytes (T := udp_object).
Definition of_parts := NoNetPacket.of_parts (T := udp_object).
Definition bytes := NoNetPacket.bytes (T := udp_object).
Definition recalculate_checksums := NoNetPacket.recalculate_checksums (T := udp_object) UDP.
Definition new_packet_by_payload := NoNetPacket.new_packet_by_payload (T := udp_object) UDP.
Definition recalculate_lengths := NoNetPacket.recalculate_lengths (T := udp_object).
Definition new_packet_by_this := NoNetPacket.new_packet_by_this (T := udp_object) UDP.
Definition new_packet_bytes_by_this := NoNetPacket.new_packet_bytes_by_this (T := udp_object) UDP.
Definition set_seq_ack_flags (p : NoNetPacket.t) (seq ack flags : Z) : NoNetPacket.t := p.
Definition to_packet_friendly_view (p : NoNetPacket.t) : option string :=
  text ← UdpPacketLittleEndian_to_udp_friendly_view (NoNetPacket.transport p);
  Some (text +:+ endl)%string.
End NoNetPacketUdpFatObject.

(** * Two views into a buffer *)

Module NoNetView.

Record t (T : TransportView) := mk { transport : tv; payload : DataPacketView.t }.
Arguments mk {T}. Arguments transport {T}. Arguments payload {T}.

Section Operations.
Context {T : TransportView} (t_proto : Z).

Definition of_bytes (m : mem) (begin_ end_ : Z) : option (t T) :=
  tr ← tv_set_data m begin_ end_;
  Some (mk tr (DataPacketView.make (begin_ + tv_get_size tr) end_)).

(** Two ranges of one buffer, from which [bytes()] takes everything in between. *)
Definition of_parts (m : mem) (transport_begin transport_end begin_ end_ : Z) : option (t T) :=
  tr ← tv_set_data m transport_begin transport_end;
  Some (mk tr (DataPacketView.make begin_ end_)).

Definition bytes (p : t T) : Z * Z :=
  let '(t_b, t_e) := tv_to_bytes (transport p) in
  let '(d_b, d_e) := DataPacketView.to_bytes (payload p) in
  (t_b, d_e).

Definition recalculate_checksums (m : mem) (p : t T) (src dst : list Z) (length : Z) : option mem :=
  let '(b, e) := DataPacketView.get_payload (payload p) in
  pseudo ← pseudo_of t_proto src dst length;
  match pseudo with
  | Some pseudo => tv_recalculate_transport_checksum m (transport p) pseudo b e
  | None => Some m
  end.

Definition recalculate_lengths (m : mem) (p : t T) : option mem :=
  let '(t_b, t_e) := tv_to_bytes (transport p) in
  let '(d_b, d_e) := DataPacketView.to_bytes (payload p) in
  let t_size := t_e - t_b in
  let d_size := d_e - d_b in
  tv_set_transport_length m (transport p) (u16 t_size).

End Operations.

End NoNetView.

(** * The packet that owns the buffer of its views *)

Module NoNetObject.

Record t (T : TransportView) := mk { data_ : mem; views : NoNetView.t T }.
Arguments mk {T}. Arguments data_ {T}. Arguments views {T}.

Section Operations.
(** The constructor from parts is not the same in the two specialisations. *)
Context {T : TransportView} (t_proto : Z)
  (of_parts : mem -> Z -> Z -> mem -> Z -> Z -> option (t T)).

Definition bytes (p : t T) : Z * Z := NoNetView.bytes (views p).
Definition recalculate_checksums (p : t T) (src dst : list Z) (length : Z) : option (t T) :=
  m ← NoNetView.recalculate_checksums t_proto (data_ p) (views p) src dst length;
  Some (mk m (views p)).
Definition recalculate_lengths (p : t T) : option (t T) :=
  m ← NoNetView.recalculate_lengths (data_ p) (views p); Some (mk m (views p)).
Definition set_transport_length (p : t T) (length : Z) : option (t T) :=
  m ← tv_set_transport_length (data_ p) (NoNetView.transport (views p)) length;
  Some (mk m (views p)).

(** The packets that a view over [m] makes; those of an object are over its [data_]. *)
Definition new_packet_by_payload_view (m : mem) (p : NoNetView.t T) (src dst : list Z) (length : Z)
    (md : mem) (begin_ end_ : Z) : option (t T) :=
  let '(t_b, t_e) := tv_to_bytes (NoNetView.transport p) in
  np ← of_parts m t_b t_e md begin_ end_;
  let size := u16 (end_ - begin_) in
  np ← set_transport_length np size;
  recalculate_checksums np src dst length.

Definition new_packet_by_this_view (m : mem) (p : NoNetView.t T) (proxy_data : QTunnelProxy.t)
    (md : mem) (begin_ end_ : Z) : option (t T) :=
  let src := QTunnelProxy.get_src_addr proxy_data in
  let dst := QTunnelProxy.get_dst_addr proxy_data in
  let data_size := end_ - begin_ in
  let '(pd_b, pd_e) := QTunnelProxy.get_proto_data_bytes proxy_data in
  t_header ← t_generate (TransportObject := tv_object) (QTunnelProxy.proto_data proxy_data) pd_b pd_e
               (QTunnelProxy.get_src_port proxy_data) (QTunnelProxy.get_dst_port proxy_data);
  let '(t_b, t_e) := t_to_bytes (TransportObject := tv_object) t_header in
  let t_size := t_e - t_b in
  let total_size := t_size + data_size in
  nnp ← of_parts t_header t_b t_e md begin_ end_;
  nnp ← recalculate_lengths nnp;
  recalculate_checksums nnp src dst (u16 total_size).

Definition new_packet_bytes_by_this_view (m : mem) (p : NoNetView.t T) (proxy_data : QTunnelProxy.t)
    (md : mem) (begin_ end_ : Z) : option mem :=
  nnp ← new_packet_by_this_view m p proxy_data md begin_ end_;
  let '(b, e) := bytes nnp in
  range (data_ nnp) b e.

Definition new_packet_by_payload (p : t T) := new_packet_by_payload_view (data_ p) (views p).
Definition new_packet_by_this (p : t T) := new_packet_by_this_view (data_ p) (views p).
Definition new_packet_bytes_by_this (p : t T) := new_packet_bytes_by_this_view (data_ p) (views p).

End Operations.

End NoNetObject.

(** [NoNetPacket<TcpPacket_View, DataPacket_View, OBJECT>]. *)
Module NoNetPacketTcpObject.
Definition t := NoNetObject.t tcp_view.
Definition set_views (data_ : mem) : option t :=
  views ← NoNetView.of_bytes data_ 0 (msize data_); Some (NoNetObject.mk data_ views).
Definition of_bytes (m : mem) (begin_ end_ : Z) : option t :=
  data_ ← range m begin_ end_; set_views data_.
Definition of_parts (mt : mem) (transport_begin transport_end : Z) (md : mem) (begin_ end_ : Z) :
    option t :=
  l1 ← range mt transport_begin transport_end;
  l2 ← range md begin_ end_;
  let data_ := ([] ++ l1) ++ l2 in
  set_views data_.
Definition bytes := NoNetObject.bytes (T := tcp_view).
Definition recalculate_checksums := NoNetObject.recalculate_checksums (T := tcp_view) TCP.
Definition new_packet_by_payload := NoNetObject.new_packet_by_payload TCP of_parts.
Definition recalculate_lengths := NoNetObject.recalculate_lengths (T := tcp_view).
Definition new_packet_by_this := NoNetObject.new_packet_by_this TCP of_parts.
Definition new_packet_bytes_by_this := NoNetObject.new_packet_bytes_by_this TCP of_parts.
Definition set_seq_ack_flags (p : t) (seq ack flags : Z) : option t :=
  let v := NoNetView.transport (NoNetObject.views p) in
  m ← TcpPacketView.set_tcp_seq_number (NoNetObject.data_ p) v seq;
  m ← TcpPacketView.set_tcp_ack_number m v ack;
  m ← TcpPacketView.set_tcp_flags m v flags;
  Some (NoNetObject.mk m (NoNetObject.views p)).
Definition to_packet_friendly_view (N : QVPNVerboser.tables) (p : t) : option string :=
  text ← TcpPacketView_to_tcp_friendly_view N (NoNetObject.data_ p)
           (NoNetView.transport (NoNetObject.views p));
  Some (text +:+ endl)%string.
End NoNetPacketTcpObject.

(** [NoNetPacket<UdpPacket_View, DataPacket_View, OBJECT>]. *)
Module NoNetPacketUdpObject.
Definition t := NoNetObject.t udp_view.

(** A pointer into the vector of the packet or into the range of the caller; the difference of
    pointers into different arrays is undefined. *)
Inductive array := OWN | CALLER.
#[global] Instance array_eq_dec : EqDecision array.
Proof. solve_decision. Defined.
Definition ptr_sub (q p : array * Z) : option Z :=
  if decide (q.1 = p.1) then Some (q.2 - p.2) else None.

(** The range is copied, and the views are set on the range, so the methods of the
    result work on the caller's buffer. *)
Definition of_bytes (m : mem) (begin_ end_ : Z) : option t :=
  data_ ← range m begin_ end_;
  views ← NoNetView.of_bytes m begin_ end_;
  Some (NoNetObject.mk data_ views).

(** [DataPacket_View::set_data(begin + size, data_.data() + data_.size())], where [begin] is the
    caller's: the view subtracts the two. *)
Definition of_parts (mt : mem) (transport_begin transport_end : Z) (md : mem) (begin_ end_ : Z) :
    option t :=
  l1 ← range mt transport_begin transport_end;
  l2 ← range md begin_ end_;
  let data_ := ([] ++ l1) ++ l2 in
  let tr := UdpPacketView.set_data 0 (msize data_) in
  let payload_begin := (CALLER, begin_ + UdpPacketView.get_size tr) in
  size ← ptr_sub (OWN, msize data_) payload_begin;
  Some (NoNetObject.mk data_ (NoNetView.mk (T := udp_view) tr (DataPacketView.mk payload_begin.2 size))).
Definition bytes := NoNetObject.bytes (T := udp_view).
(** Over the buffer [m] into which the views of [p] look. *)
Definition recalculate_checksums (m : mem) (p : t) := NoNetView.recalculate_checksums UDP m (NoNetObject.views p).
Definition recalculate_lengths (m : mem) (p : t) := NoNetView.recalculate_lengths m (NoNetObject.views p).
Definition to_packet_friendly_view (m : mem) (p : t) : option string :=
  text ← UdpPacketView_to_udp_friendly_view m (NoNetView.transport (NoNetObject.views p));
  Some (text +:+ endl)%string.
Definition new_packet_by_payload := NoNetObject.new_packet_by_payload_view UDP of_parts.
Definition new_packet_by_this := NoNetObject.new_packet_by_this_view UDP of_parts.
Definition new_packet_bytes_by_this := NoNetObject.new_packet_bytes_by_this_view UDP of_parts.
Definition set_seq_ack_flags (p : t) (seq ack flags : Z) : t := p.
End NoNetPacketUdpObject.

(** [NoNetPacket<TcpPacket_View, DataPacket_View, VIEW>]. *)
Module NoNetPacketTcpView.
Definition t := NoNetView.t tcp_view.
Definition of_bytes := NoNetView.of_bytes (T := tcp_view).
Definition of_parts := NoNetView.of_parts (T := tcp_view).
Definition bytes := NoNetView.bytes (T := tcp_view).
Definition recalculate_checksums := NoNetView.recalculate_checksums (T := tcp_view) TCP.
Definition new_packet_by_payload :=
  NoNetObject.new_packet_by_payload_view TCP NoNetPacketTcpObject.of_parts.
Definition recalculate_lengths := NoNetView.recalculate_lengths (T := tcp_view).
Definition new_packet_by_this := NoNetObject.new_packet_by_this_view TCP NoNetPacketTcpObject.of_parts.
Definition new_packet_bytes_by_this :=
  NoNetObject.new_packet_bytes_by_this_view TCP NoNetPacketTcpObject.of_parts.
Definition set_seq_ack_flags (m : mem) (p : t) (seq ack flags : Z) : option mem :=
  let v := NoNetView.transport p in
  m ← TcpPacketView.set_tcp_seq_number m v seq;
  m ← TcpPacketView.set_tcp_ack_number m v ack;
  TcpPacketView.set_tcp_flags m v flags.
Definition to_packet_friendly_view (N : QVPNVerboser.tables) (m : mem) (p : t) : option string :=
  text ← TcpPacketView_to_tcp_friendly_view N m (NoNetView.transport p);
  Some (text +:+ endl)%string.
End NoNetPacketTcpView.

(** [NoNetPacket<UdpPacket_View, DataPacket_View, VIEW>]. *)
Module NoNetPacketUdpView.
Definition t := NoNetView.t udp_view.
Definition of_bytes := NoNetView.of_bytes (T := udp_view).
Definition of_parts := NoNetView.of_parts (T := udp_view).
Definition bytes := NoNetView.bytes (T := udp_view).
Definition recalculate_checksums := NoNetView.recalculate_checksums (T := udp_view) UDP.
Definition new_packet_by_payload :=
  NoNetObject.new_packet_by_payload_view UDP NoNetPacketUdpObject.of_parts.
Definition recalculate_lengths := NoNetView.recalculate_lengths (T := udp_view).
Definition new_packet_by_this := NoNetObject.new_packet_by_this_view UDP NoNetPacketUdpObject.of_parts.
Definition new_packet_bytes_by_this :=
  NoNetObject.new_packet_bytes_by_this_view UDP NoNetPacketUdpObject.of_parts.
Definition set_seq_ack_flags (m : mem) (p : t) (seq ack flags : Z) : mem := m.
Definition to_packet_friendly_view (m : mem) (p : t) : option string :=
  text ← UdpPacketView_to_udp_friendly_view m (NoNetView.transport p);
  Some (text +:+ endl)%string.
End NoNetPacketUdpView.

(** * Checksums *)

Lemma pseudo_of_ipv4 protocol src dst length :
  msize src = 4 -> msize dst = 4 ->
  pseudo_of protocol src dst length =
    Some (Some (src ++ dst ++ [0; protocol; octet 1 length; octet 0 length])).
Proof.
  intros Ls Ld. destruct (list4 src Ls) as (a & b & c & d & ->).
  by destruct (list4 dst Ld) as (a' & b' & c' & d' & ->).
Qed.

Lemma pseudo_of_other protocol src dst length :
  msize src <> 4 -> pseudo_of protocol src dst length = Some None.
Proof.
  intros Hs. unfold pseudo_of, NetAddr.get_addr_family. rewrite (proj2 (Z.eqb_neq _ _) Hs).
  by destruct (msize src =? 16).
Qed.

(** The protocol numbers are bytes. *)
Lemma is_u8_TCP : is_u8 TCP. Proof. by unfold is_u8, TCP. Qed.
Lemma is_u8_UDP : is_u8 UDP. Proof. by unfold is_u8, UDP. Qed.
#[local] Hint Resolve is_u8_TCP is_u8_UDP : core.

(** The pseudo-header of a packet between two hosts. *)
Definition pseudo_between (protocol : Z) (src dst : list Z) (length : Z) : mem :=
  src ++ dst ++ [0; protocol; octet 1 length; octet 0 length].

Section Fat.
Context {T : TransportObject} {L : TransportLaws T} (t_proto : Z) (Hproto : is_u8 t_proto).
Context (src dst : list Z) (Bs : bytes src) (Bd : bytes dst) (Ls : msize src = 4) (Ld : msize dst = 4).

(** A header with an even size and a payload of bytes. *)
Definition nonet_wf (t l : mem) : Prop :=
  bytes t /\ Z.even (msize t) = true /\ t_min_size <= msize t /\ bytes l /\
  msize t + msize l < 130000.

Lemma nonet_checksums_ok t l buf length :
  nonet_wf t l ->
  exists tr,
    NoNetPacket.recalculate_checksums t_proto (NoNetPacket.mk t l buf) src dst length =
      Some (NoNetPacket.mk tr l buf) /\
    t_recalculate_transport_checksum t (pseudo_between t_proto src dst length) l 0 (msize l) = Some tr /\
    verifies (total (pseudo_between t_proto src dst length) + total (tr ++ l)) /\
    bytes tr /\ msize tr = msize t /\
    (forall q, q <> checksum_at -> q <> checksum_at + 1 -> load tr q = load t q).
Proof.
  intros (Bt & Et & Mt & Bl & Hsz). set (ph := pseudo_between t_proto src dst length).
  destruct (pseudo_wf src dst t_proto length Bs Bd Ls Ld Hproto) as [Bph Sph].
  destruct (t_checksum_law t ph l 0 (msize l) l) as (tr & Hc & Btr & Str & Hq & Hv);
    [done|done|done|by unfold ph, pseudo_between; rewrite Sph|done|done|apply range_full
    |unfold ph, pseudo_between; lia|].
  exists tr. rewrite total_app, Z.add_assoc by (by rewrite Str). split_and!; try done.
  unfold NoNetPacket.recalculate_checksums, DataPacketLittleEndian.get_payload.
  cbn [NoNetPacket.payload NoNetPacket.transport NoNetPacket.data_].
  rewrite pseudo_of_ipv4 by done. fold (pseudo_between t_proto src dst length). fold ph.
  cbn [mbind option_bind]. by rewrite Hc.
Qed.

(** [new_packet_by_this]: the generated header [t1], which telling it its own size turns into
    [t2], and the payload. *)
Lemma nonet_rebuild_ok p px m b e l t1 t2 :
  QTunnelProxy.source_addr px = src -> QTunnelProxy.dst_addr px = dst ->
  t_generate (QTunnelProxy.proto_data px) 0 (msize (QTunnelProxy.proto_data px))
    (QTunnelProxy.source_port px) (QTunnelProxy.dst_port px) = Some t1 ->
  t_whole t1 -> nonet_wf t1 l -> range m b e = Some l ->
  t_set_transport_length t1 (u16 (msize t1)) = Some t2 ->
  exists tr, let length := u16 (msize t1 + msize l) in
    t_recalculate_transport_checksum t2 (pseudo_between t_proto src dst length) l 0 (msize l) = Some tr /\
    NoNetPacket.new_packet_by_this t_proto p px m b e = Some (NoNetPacket.mk tr l []) /\
    NoNetPacket.new_packet_bytes_by_this t_proto p px m b e = Some (tr ++ l) /\
    verifies (total (pseudo_between t_proto src dst length) + total (tr ++ l)) /\
    msize tr = msize t1 /\ msize t2 = msize t1 /\
    (forall q, q <> checksum_at -> q <> checksum_at + 1 -> load tr q = load t2 q).
Proof.
  destruct px as [pn pt s sp d dp pd].
  cbn [QTunnelProxy.source_addr QTunnelProxy.source_port QTunnelProxy.dst_addr
    QTunnelProxy.dst_port QTunnelProxy.proto_data].
  intros -> -> Eg W1 (B1 & E1 & M1 & Bl & Hsz) Hl E2.
  destruct (t_length_law t1 (u16 (msize t1)) B1 M1) as (t2' & E2' & B2 & S2).
  rewrite E2 in E2'. apply (inj Some) in E2' as <-.
  destruct (nonet_checksums_ok t2 l [] (u16 (msize t1 + msize l)))
    as (tr & Hr & Hc & Hv & Btr & Str & Hq).
  { unfold nonet_wf. rewrite S2. done. }
  exists tr. assert (Hnew : NoNetPacket.new_packet_by_this t_proto p
    (QTunnelProxy.mk pn pt src sp dst dp pd) m b e = Some (NoNetPacket.mk tr l [])).
  { unfold NoNetPacket.new_packet_by_this, QTunnelProxy.get_proto_data_bytes, QTunnelProtoData.to_bytes,
      QTunnelProxy.get_src_port, QTunnelProxy.get_dst_port, QTunnelProxy.get_src_addr,
      QTunnelProxy.get_dst_addr.
    cbn [QTunnelProxy.proto_data QTunnelProxy.source_addr QTunnelProxy.source_port
      QTunnelProxy.dst_addr QTunnelProxy.dst_port].
    rewrite Eg. cbn [mbind option_bind]. rewrite t_to_bytes_law. cbn [mbind option_bind].
    destruct (range_Some _ _ _ _ Hl) as (_ & _ & Se & _).
    unfold NoNetPacket.of_parts, DataPacketLittleEndian.make. rewrite t_make_law, Hl by done.
    cbn [mbind option_bind]. unfold NoNetPacket.recalculate_lengths, NoNetPacket.set_transport_length,
      DataPacketLittleEndian.to_bytes.
    cbn [NoNetPacket.transport NoNetPacket.payload NoNetPacket.data_].
    rewrite t_to_bytes_law, !Z.sub_0_r, E2, <- Se. cbn [mbind option_bind]. exact Hr. }
  split_and!; [done|exact Hnew| |done|lia|lia|done].
  unfold NoNetPacket.new_packet_bytes_by_this. rewrite Hnew. cbn [mbind option_bind].
  unfold NoNetPacket.bytes, DataPacketLittleEndian.to_bytes.
  cbn [NoNetPacket.transport NoNetPacket.payload NoNetPacket.data_].
  rewrite t_to_bytes_law, !range_full. cbn [mbind option_bind NoNetPacket.data_ app]. by rewrite range_full.
Qed.

End Fat.

(** * The views over a buffer do what the packet in parts does *)

Section Views.
Context {T : TransportView} {L : TransportViewLaws T} (t_proto : Z) (Hproto : is_u8 t_proto).
Context (src dst : list Z) (Bs : bytes src) (Bd : bytes dst) (Ls : msize src = 4) (Ld : msize dst = 4).

(** A buffer that holds a header and its payload, and the views over it. *)
Definition nonet_in (pre post t l : mem) : mem := pre ++ t ++ l ++ post.
Definition nonet_views (p : Z) (t l : mem) : NoNetView.t T :=
  NoNetView.mk (tv_at p (msize t)) (DataPacketView.mk (p + msize t) (msize l)).

Lemma nonet_in_transport pre post t l : nonet_in pre post t l = inside pre (l ++ post) t.
Proof. done. Qed.

Lemma nonet_of_bytes_ok pre post t l :
  bytes t -> tv_whole t ->
  NoNetView.of_bytes (nonet_in pre post t l) (msize pre) (msize pre + msize t + msize l) =
    Some (nonet_views (msize pre) t l).
Proof.
  intros Bt Wt. unfold NoNetView.of_bytes. rewrite nonet_in_transport, tv_set_data_law by done.
  cbn [mbind option_bind]. rewrite tv_get_size_law by done. unfold nonet_views, DataPacketView.make.
  do 3 f_equal. lia.
Qed.

Lemma nonet_views_bytes p t l :
  tv_whole t -> NoNetView.bytes (nonet_views p t l) = (p, p + msize t + msize l).
Proof. intros Wt. unfold NoNetView.bytes, nonet_views. cbn. by rewrite tv_to_bytes_law. Qed.

Lemma nonet_checksums_refine pre post t l length tr :
  bytes (nonet_in pre post t l) -> tv_sized (msize t) -> msize t + msize l < 130000 ->
  t_recalculate_transport_checksum (TransportObject := tv_object) t
    (pseudo_between t_proto src dst length) l 0 (msize l) = Some tr ->
  NoNetView.recalculate_checksums t_proto (nonet_in pre post t l) (nonet_views (msize pre) t l)
    src dst length = Some (nonet_in pre post tr l).
Proof.
  intros Hb St Hsz Hc. pose proof Hb as (_ & (_ & (Bl & _)%bytes_app)%bytes_app)%bytes_app.
  unfold NoNetView.recalculate_checksums, nonet_views, DataPacketView.get_payload.
  cbn [NoNetView.payload NoNetView.transport DataPacketView.data_ DataPacketView.data_size_].
  rewrite pseudo_of_ipv4 by done. cbn [mbind option_bind].
  fold (pseudo_between t_proto src dst length).
  destruct (pseudo_wf src dst t_proto length Bs Bd Ls Ld Hproto) as [Bph Sph].
  apply (tv_checksum_law pre (l ++ post) t (pseudo_between t_proto src dst length) _ _ l 0 (msize l) l);
    try done.
  - unfold pseudo_between. by rewrite Sph.
  - right. lia.
  - pose proof (range_inside_all (pre ++ t) post l) as R. unfold inside in *.
    rewrite msize_app, <- !app_assoc in R. exact R.
  - apply range_full.
  - unfold pseudo_between. lia.
Qed.

Lemma nonet_lengths_refine pre post t l t' :
  tv_whole t -> t_set_transport_length (TransportObject := tv_object) t (u16 (msize t)) = Some t' ->
  NoNetView.recalculate_lengths (nonet_in pre post t l) (nonet_views (msize pre) t l) =
    Some (nonet_in pre post t' l).
Proof.
  intros Wt Ht. unfold NoNetView.recalculate_lengths, nonet_views, DataPacketView.to_bytes.
  cbn [NoNetView.payload NoNetView.transport].
  rewrite tv_to_bytes_law by done.
  replace (msize pre + msize t - msize pre) with (msize t) by lia.
  by apply (tv_length_law pre (l ++ post)).
Qed.

End Views.

(** The object's constructor from parts, and what [new_packet_by_this] of the object and of the
    view makes of the header [t1]. *)
Lemma tcp_object_of_parts t m b e l :
  bytes t -> tcp_whole t -> range m b e = Some l ->
  NoNetPacketTcpObject.of_parts t 0 (msize t) m b e =
    Some (NoNetObject.mk (t ++ l) (nonet_views (T := tcp_view) 0 t l)).
Proof.
  intros Bt Wt Hl. unfold NoNetPacketTcpObject.of_parts, NoNetPacketTcpObject.set_views.
  rewrite range_full, Hl. cbn [mbind option_bind app].
  pose proof (nonet_of_bytes_ok (T := tcp_view) [] [] t l Bt Wt) as H. unfold nonet_in in H.
  rewrite app_nil_r in H. cbn [app] in H. change (msize []) with 0 in H.
  replace (0 + msize t + msize l) with (msize (t ++ l)) in H by (rewrite msize_app; lia).
  by rewrite H.
Qed.

Lemma tcp_object_new_packet mv v px m b e l src dst t1 t2 tr :
  QTunnelProxy.source_addr px = src -> QTunnelProxy.dst_addr px = dst ->
  bytes src -> bytes dst -> msize src = 4 -> msize dst = 4 ->
  t_generate (TransportObject := tcp_object) (QTunnelProxy.proto_data px) 0
    (msize (QTunnelProxy.proto_data px)) (QTunnelProxy.source_port px) (QTunnelProxy.dst_port px) = Some t1 ->
  bytes t1 -> tcp_whole t1 -> bytes l -> msize t1 + msize l < 130000 -> range m b e = Some l ->
  t_set_transport_length (TransportObject := tcp_object) t1 (u16 (msize t1)) = Some t2 ->
  t_recalculate_transport_checksum (TransportObject := tcp_object) t2
    (pseudo_between TCP src dst (u16 (msize t1 + msize l))) l 0 (msize l) = Some tr ->
  msize t2 = msize t1 -> msize tr = msize t1 ->
  NoNetPacketTcpView.new_packet_bytes_by_this mv v px m b e = Some (tr ++ l).
Proof.
  intros <- <- Bs Bd Ls Ld Eg B1 W1 Bl Hsz Hl E2 Hc S2 Str.
  destruct (range_Some _ _ _ _ Hl) as (_ & _ & Se & _).
  destruct (tcp_whole_wf t1 B1 W1) as (_ & E1 & M1).
  assert (B2 : bytes t2).
  { destruct (@t_length_law tcp_object tcp_laws t1 (u16 (msize t1)) B1 (proj1 M1)) as (t2' & E2' & Bt2 & _).
    rewrite E2 in E2'. by apply (inj Some) in E2' as <-. }
  unfold NoNetPacketTcpView.new_packet_bytes_by_this, NoNetObject.new_packet_bytes_by_this_view,
    NoNetObject.new_packet_by_this_view, QTunnelProxy.get_proto_data_bytes, QTunnelProtoData.to_bytes,
    QTunnelProxy.get_src_port, QTunnelProxy.get_dst_port, QTunnelProxy.get_src_addr, QTunnelProxy.get_dst_addr.
  change (@tv_object tcp_view) with tcp_object. rewrite Eg. cbn [mbind option_bind].
  rewrite t_to_bytes_law, Z.sub_0_r, <- Se. cbn [mbind option_bind].
  rewrite (tcp_object_of_parts t1 m b e l) by done. cbn [mbind option_bind].
  assert (El : forall x, x ++ l = nonet_in [] [] x l) by (intros; unfold nonet_in; by rewrite app_nil_r).
  unfold NoNetObject.recalculate_lengths, NoNetObject.recalculate_checksums.
  cbn [NoNetObject.data_ NoNetObject.views]. rewrite El.
  pose proof (nonet_lengths_refine (T := tcp_view) [] [] t1 l t2 W1 E2) as R1.
  change (msize []) with 0 in R1. rewrite R1. cbn [mbind option_bind NoNetObject.data_ NoNetObject.views].
  assert (Ev : nonet_views (T := tcp_view) 0 t1 l = nonet_views (T := tcp_view) 0 t2 l)
    by (unfold nonet_views; by rewrite S2).
  rewrite Ev at 1.
  pose proof (nonet_checksums_refine (T := tcp_view) TCP is_u8_TCP (QTunnelProxy.source_addr px)
    (QTunnelProxy.dst_addr px) Bs Bd Ls Ld [] [] t2 l (u16 (msize t1 + msize l)) tr) as R2.
  change (msize []) with 0 in R2.
  rewrite R2; [|by rewrite <- El; apply Forall_app|rewrite S2; split; [exact E1|apply M1]|lia|exact Hc].
  cbn [mbind option_bind]. unfold NoNetObject.bytes. cbn [NoNetObject.data_ NoNetObject.views].
  rewrite (nonet_views_bytes (T := tcp_view)) by done. rewrite <- El.
  replace (0 + msize t1 + msize l) with (msize (tr ++ l)) by (rewrite msize_app; lia). by rewrite range_full.
Qed.

(** A TCP packet whose owner keeps the addresses: from metadata collected elsewhere, all
    three TCP classes make the same bytes, whatever packet makes them: a segment with the
    sequence and acknowledgement numbers, data offset, flags, window, urgent pointer and
    options of the collected header, the ports of the proxy data and the given payload,
    whose sum verifies with the pseudo-header of the addresses of the proxy data and the
    segment's own length. *)
Theorem nonet_tcp_carried ps px p po mv v m b e l :
  let src := QTunnelProxy.source_addr px in let dst := QTunnelProxy.dst_addr px in
  let t := FullPacket.transport ps in
  bytes t -> tcp_whole t ->
  Ipv4TcpFatPacket.collect_proto_data ps = Some (QTunnelProxy.proto_data px) ->
  is_u16 (QTunnelProxy.source_port px) -> is_u16 (QTunnelProxy.dst_port px) ->
  bytes src -> msize src = 4 -> bytes dst -> msize dst = 4 ->
  bytes l -> msize l < 65000 -> range m b e = Some l ->
  exists tr,
    NoNetPacketTcpFatObject.new_packet_bytes_by_this p px m b e = Some (tr ++ l) /\
    NoNetPacketTcpObject.new_packet_bytes_by_this po px m b e = Some (tr ++ l) /\
    NoNetPacketTcpView.new_packet_bytes_by_this mv v px m b e = Some (tr ++ l) /\
    carried t tr /\
    range tr 20 (msize tr) = range t 20 (msize t) /\
    TcpPacketLittleEndian.get_tcp_src_port tr = Some (QTunnelProxy.source_port px) /\
    TcpPacketLittleEndian.get_tcp_dst_port tr = Some (QTunnelProxy.dst_port px) /\
    verifies (total (pseudo_between TCP src dst (msize (tr ++ l))) + total (tr ++ l)).
Proof.
  intros src dst t Hb Hw Hc Hsp Hdp Bs Ls Bd Ld Bl Sl Hl.
  destruct (carry_ok _ _ _ Hb Hw Hsp Hdp) as (pd & h1 & Ec & Eg & B1 & W1 & S1 & P1 & P2 & F & O).
  unfold Ipv4TcpFatPacket.collect_proto_data, FullPacket.collect_proto_data in Hc. fold t in Hc.
  rewrite Ec in Hc. cbn [mbind option_bind] in Hc. unfold QTunnelProtoData.make in Hc.
  rewrite range_full in Hc. apply (inj Some) in Hc. rewrite Hc in Eg.
  destruct (tcp_whole_wf h1 B1 W1) as (_ & E1 & M1). pose proof (msize_nonneg l).
  assert (E2 := own_length h1 B1 W1).
  destruct (nonet_rebuild_ok (T := tcp_object) (L := tcp_laws) TCP is_u8_TCP src dst Bs Bd Ls Ld
    p px m b e l h1 h1) as (tr & Hcs & _ & Hfat & Hv & Str & _ & Hqt); try done.
  { unfold nonet_wf. cbn. split_and!; done || lia. }
  assert (Hview : forall mv v, NoNetPacketTcpView.new_packet_bytes_by_this mv v px m b e = Some (tr ++ l)).
  { intros mv' v'. apply (tcp_object_new_packet mv' v' px m b e l src dst h1 h1); done || lia. }
  cbn [checksum_at tcp_laws] in Hqt.
  destruct (carried_ext tr h1 Str Hqt) as (F' & O' & P1' & P2').
  exists tr. split_and!; [exact Hfat|exact (Hview (NoNetObject.data_ po) (NoNetObject.views po))|apply Hview| |by rewrite O', O|by rewrite P1'|by rewrite P2'|].
  - by apply (carried_keep _ h1).
  - rewrite msize_app, Str. rewrite u16_id in Hv by (unfold is_u16; lia). exact Hv.
Qed.

Lemma nonet_tcp_carried_witness :
  let px := QTunnelProxy.mk IPv4 TCP [10; 0; 0; 2] 443 [8; 8; 8; 8] 50000
      [0; 15; 80; 80; 80; 80; 80; 80; 80; 80; 0; 80; 5; 80; 80; 80; 80] in
  let v := nonet_views (T := tcp_view) 0 (repeat 80 20) [9] in
  exists tr,
    NoNetPacketTcpView.new_packet_bytes_by_this (repeat 80 20 ++ [9]) v px [1; 2; 3] 0 3
      = Some (tr ++ [1; 2; 3]) /\
    TcpPacketLittleEndian.get_tcp_dst_port tr = Some 50000.
Proof.
  intros px v.
  destruct (nonet_tcp_carried (FullPacket.mk [] (repeat 80 20) [] []) px (NoNetPacket.mk [] [] [])
    (NoNetObject.mk (repeat 80 20 ++ [9]) v) (repeat 80 20 ++ [9]) v [1; 2; 3] 0 3 [1; 2; 3])
    as (tr & _ & _ & H & _ & _ & _ & Hd & _);
    [concrete|split; [vm_compute; discriminate|exists 80; by split]|reflexivity|concrete|concrete
    |concrete|reflexivity|concrete|reflexivity|concrete|reflexivity|reflexivity|].
  exists tr. split; [exact H|exact Hd].
Defined.

(** * UDP *)

(** The object over a buffer cannot be built from parts: its payload view begins in the caller's
    range and ends in the vector, and the difference of the two pointers is undefined.  So
    the UDP classes over views make no packets at all. *)
Theorem nonet_udp_never_built :
  (forall mt tb te md b e, NoNetPacketUdpObject.of_parts mt tb te md b e = None) /\
  (forall m p src dst length md b e,
     NoNetPacketUdpView.new_packet_by_payload m p src dst length md b e = None) /\
  (forall m p px md b e, NoNetPacketUdpView.new_packet_bytes_by_this m p px md b e = None).
Proof.
  assert (H : forall mt tb te md b e, NoNetPacketUdpObject.of_parts mt tb te md b e = None).
  { intros. unfold NoNetPacketUdpObject.of_parts.
    destruct (range mt tb te); [|done]. by destruct (range md b e). }
  split_and!; [exact H| |].
  - intros. unfold NoNetPacketUdpView.new_packet_by_payload, NoNetObject.new_packet_by_payload_view.
    destruct (tv_to_bytes _). by rewrite H.
  - intros. unfold NoNetPacketUdpView.new_packet_bytes_by_this, NoNetObject.new_packet_bytes_by_this_view,
      NoNetObject.new_packet_by_this_view.
    destruct (QTunnelProxy.get_proto_data_bytes px), (t_generate _ _ _ _ _); [|done].
    cbn [mbind option_bind]. destruct (t_to_bytes _). by rewrite H.
Qed.

(** The object from one range keeps a copy that nothing reads: its views stay in the range. *)
Lemma nonet_udp_views_caller m b e p :
  NoNetPacketUdpObject.of_bytes m b e = Some p ->
  NoNetObject.views p = NoNetView.mk (T := udp_view) (UdpPacketView.mk b)
    (DataPacketView.mk (b + 8) (e - (b + 8))).
Proof.
  intros (d & _ & (w & Hw & [= <-])%bind_Some)%bind_Some. cbn [NoNetObject.views].
  injection Hw as <-. done.
Qed.

(** * The fat objects *)

(** [bytes()] of either kind, called twice, answers the packet twice. *)
Lemma nonet_bytes_twice {T : TransportObject} {L : TransportLaws T} t l :
  (p ← NoNetPacket.bytes (NoNetPacket.mk t l []);
   '(p, (b, e)) ← NoNetPacket.bytes (fst p);
   range (NoNetPacket.data_ p) b e) = Some ((t ++ l) ++ t ++ l).
Proof.
  unfold NoNetPacket.bytes, DataPacketLittleEndian.to_bytes.
  cbn [NoNetPacket.transport NoNetPacket.payload NoNetPacket.data_]. rewrite t_to_bytes_law, !range_full.
  cbn [mbind option_bind NoNetPacket.transport NoNetPacket.payload NoNetPacket.data_ fst].
  rewrite t_to_bytes_law, !range_full. cbn [mbind option_bind NoNetPacket.data_ app]. by rewrite range_full.
Qed.

(** Only IPv4 addresses have a checksum: with another source nothing changes. *)
Lemma nonet_no_ipv4 {T : TransportObject} t_proto p src dst length :
  msize src <> 4 -> NoNetPacket.recalculate_checksums t_proto p src dst length = Some p.
Proof.
  intros Hs. unfold NoNetPacket.recalculate_checksums, DataPacketLittleEndian.get_payload.
  by rewrite pseudo_of_other.
Qed.

(** A UDP packet from its bytes: the header object takes all of them. *)
Lemma nonet_udp_of_bytes_swallows m b e p :
  e - b < 65536 -> NoNetPacketUdpFatObject.of_bytes m b e = Some p ->
  NoNetPacket.payload p = [] /\ range m b e = Some (NoNetPacket.transport p).
Proof.
  intros He (tr & Htr & (d & Hd & [= <-])%bind_Some)%bind_Some.
  cbn in Htr, Hd |- *. unfold UdpPacketLittleEndian.make, UdpPacketLittleEndian.parse_packet in Htr.
  apply bind_Some in Htr as (l & Hl & [= <-]). cbn [app] in *. split; [|done].
  destruct (range_Some _ _ _ _ Hl) as (Ho & _ & Hs & _). unfold UdpPacketLittleEndian.get_size in Hd.
  rewrite (u16_id (msize l)) in Hd by (unfold is_u16; pose proof (msize_nonneg l); lia).
  unfold DataPacketLittleEndian.make in Hd.
  replace (b + msize l) with e in Hd by lia. by apply range_nil in Hd.
Qed.
