(* ===== verification/SocketFilter.v ===== *)
(** The socket filter of the Linux build: the eBPF program
    [QVPN Socket Filter/src/Linux/bpf/bpf_filter.c], the key it looks up, and
    [QVPN_SocketFilter] with [socket_filter_wrapper], which install that key.

    The kernel's side (the two BPF helpers, the hash map and the layout of the
    header structures of [linux/ip.h], [linux/tcp.h], [linux/udp.h]) is not code of
    this repository: it is the class [KernelOps], and what is relied on is the class
    [KernelLaws].  Machine integers are those of a little-endian host. *)
From S2P Require Import Prelude Addr.

(** A number as a little-endian host reads it from memory, and the host-to-network
    conversions of [arpa/inet.h] there. *)
Definition host16 (a b : Z) : Z := cat16 b a.
Definition host32 (a b c d : Z) : Z := cat32 d c b a.
Definition htons (v : Z) : Z := host16 (octet 1 v) (octet 0 v).
Definition htonl (v : Z) : Z := host32 (octet 3 v) (octet 2 v) (octet 1 v) (octet 0 v).

(** [struct filter_key], packed, so the map compares exactly these fields. *)
Module filter_key.

Record t := mk {
  net_proto : Z; transport_proto : Z;
  src_ip : Z; src_port : Z; dst_ip : Z; dst_port : Z }.

End filter_key.

#[global] Instance filter_key_eq_dec : EqDecision filter_key.t.
Proof. solve_decision. Defined.

(** What the program and its loader call in the kernel: [bpf_skb_load_bytes] with
    [None] for a negative result, the map of one entry, and the fields of the header
    structures. *)
Class KernelOps := {
  bpf_skb_load_bytes : list Z -> Z -> Z -> option (list Z);
  bpf_map : Type;
  bpf_map_empty : bpf_map;
  bpf_map_lookup_elem : bpf_map -> filter_key.t -> option Z;
  bpf_map__update_elem : bpf_map -> filter_key.t -> Z -> bpf_map;
  iphdr_version : list Z -> Z; iphdr_protocol : list Z -> Z;
  iphdr_saddr : list Z -> Z; iphdr_daddr : list Z -> Z;
  tcphdr_source : list Z -> Z; tcphdr_dest : list Z -> Z;
  udphdr_source : list Z -> Z; udphdr_dest : list Z -> Z }.

(** [sizeof] of the three structures. *)
Definition sizeof_iphdr : Z := 20.
Definition sizeof_tcphdr : Z := 20.
Definition sizeof_udphdr : Z := 8.

(** The documented behaviour: a load copies the bytes or fails as a whole; the map of
    a freshly loaded object is empty and its single entry can be set; the fields
    lie where RFC 791, 9293 and 768 put them. *)
Class KernelLaws (K : KernelOps) : Prop := {
  load_bytes_law skb off len : bpf_skb_load_bytes skb off len = range skb off (off + len);
  map_empty_law k : bpf_map_lookup_elem bpf_map_empty k = None;
  map_update_law k v k' :
    bpf_map_lookup_elem (bpf_map__update_elem bpf_map_empty k v) k' =
    if decide (k = k') then Some v else None;
  iphdr_law b0 b1 b2 b3 b4 b5 b6 b7 b8 b9 b10 b11 s0 s1 s2 s3 d0 d1 d2 d3 :
    let ip := [b0; b1; b2; b3; b4; b5; b6; b7; b8; b9; b10; b11; s0; s1; s2; s3; d0; d1; d2; d3] in
    bytes ip ->
    iphdr_version ip = Z.shiftr b0 4 /\ iphdr_protocol ip = b9 /\
    iphdr_saddr ip = host32 s0 s1 s2 s3 /\ iphdr_daddr ip = host32 d0 d1 d2 d3;
  tcphdr_law s0 s1 d0 d1 l :
    let tcp := s0 :: s1 :: d0 :: d1 :: l in
    msize tcp = sizeof_tcphdr -> bytes tcp ->
    tcphdr_source tcp = host16 s0 s1 /\ tcphdr_dest tcp = host16 d0 d1;
  udphdr_law s0 s1 d0 d1 l :
    let udp := s0 :: s1 :: d0 :: d1 :: l in
    msize udp = sizeof_udphdr -> bytes udp ->
    udphdr_source udp = host16 s0 s1 /\ udphdr_dest udp = host16 d0 d1 }.

(** * The eBPF program *)

(** [filter_by_addr_port_ipv4]; [-1] accepts, [0] rejects.  The two [bpf_printk]
    traces are left out. *)
Definition filter_by_addr_port_ipv4 `{KernelOps} (filter_map : bpf_map) (skb : list Z) : Z :=
  match bpf_skb_load_bytes skb 0 sizeof_iphdr with
  | None => 0
  | Some ip =>
      let net := u8 (iphdr_version ip) in
      let transport := iphdr_protocol ip in
      let src := iphdr_saddr ip in
      let dst := iphdr_daddr ip in
      let ports :=
        if transport =? TCP then
          tcp ← bpf_skb_load_bytes skb sizeof_iphdr sizeof_tcphdr;
          Some (tcphdr_source tcp, tcphdr_dest tcp)
        else if transport =? UDP then
          udp ← bpf_skb_load_bytes skb sizeof_iphdr sizeof_udphdr;
          Some (udphdr_source udp, udphdr_dest udp)
        else Some (0, 0) in
      match ports with
      | None => 0
      | Some (src_port, dst_port) =>
          let key := filter_key.mk net transport src src_port dst dst_port in
          match bpf_map_lookup_elem filter_map key with
          | Some valid => if valid =? 0 then 0 else -1
          | None => 0
          end
      end
  end.

Definition filter_by_addr_port_ipv6 (skb : list Z) : Z := 0.

Definition filter_by_addr_port `{KernelOps} (filter_map : bpf_map) (skb : list Z) : Z :=
  match bpf_skb_load_bytes skb 0 sizeof_iphdr with
  | None => 0
  | Some ip =>
      if iphdr_version ip =? 4 then filter_by_addr_port_ipv4 filter_map skb
      else if iphdr_version ip =? 6 then filter_by_addr_port_ipv6 skb
      else 0
  end.

(** * The key *)

(** [QVPNServerSocketData], the server's view of a connection. *)
Module QVPNServerSocketData.

Record t := mk {
  net_proto : Z; transport_proto : Z;
  client_local_addr : list Z; server_local_addr : list Z; local_port : Z;
  remote_addr : list Z; remote_port : Z }.

End QVPNServerSocketData.

(** [QVPN_SocketFilter].  The class has no initialiser for [filter_]: [init] is the
    indeterminate value it starts from. *)
Module QVPN_SocketFilter.

Import filter_key.

Definition ipv4 (f : t) : t :=
  mk IPv4 (transport_proto f) (src_ip f) (src_port f) (dst_ip f) (dst_port f).
Definition ipv6 (f : t) : t :=
  mk IPv6 (transport_proto f) (src_ip f) (src_port f) (dst_ip f) (dst_port f).
Definition net_ver (f : t) (net : Z) : t :=
  mk net (transport_proto f) (src_ip f) (src_port f) (dst_ip f) (dst_port f).
Definition tcp (f : t) : t :=
  mk (net_proto f) TCP (src_ip f) (src_port f) (dst_ip f) (dst_port f).
Definition udp (f : t) : t :=
  mk (net_proto f) UDP (src_ip f) (src_port f) (dst_ip f) (dst_port f).
Definition custom_protocol (f : t) (proto : Z) : t :=
  mk (net_proto f) proto (src_ip f) (src_port f) (dst_ip f) (dst_port f).
Definition src_port (f : t) (port : Z) : t :=
  mk (net_proto f) (transport_proto f) (src_ip f) (htons port) (dst_ip f) (dst_port f).
Definition dst_port (f : t) (port : Z) : t :=
  mk (net_proto f) (transport_proto f) (src_ip f) (filter_key.src_port f) (dst_ip f) (htons port).
Definition src (f : t) (addr : list Z) : option t :=
  if NetAddr.get_addr_family addr =? IPv4 then
    a ← NetAddr.to_uint addr;
    Some (mk (net_proto f) (transport_proto f) (htonl a) (filter_key.src_port f) (dst_ip f)
             (filter_key.dst_port f))
  else Some f.
Definition dst (f : t) (addr : list Z) : option t :=
  if NetAddr.get_addr_family addr =? IPv4 then
    a ← NetAddr.to_uint addr;
    Some (mk (net_proto f) (transport_proto f) (src_ip f) (filter_key.src_port f) (htonl a)
             (filter_key.dst_port f))
  else Some f.
Definition get_filters (f : t) : t := f.

(** The common part of the two constructors. *)
Definition of_connection (init : t) (net transport : Z) (local : list Z) (lport : Z)
    (remote : list Z) (rport : Z) : option t :=
  ips ← (if net =? IPv4 then
           d ← NetAddr.to_uint local; s ← NetAddr.to_uint remote; Some (htonl s, htonl d)
         else Some (src_ip init, dst_ip init));
  Some (mk net transport (fst ips) (htons rport) (snd ips) (htons lport)).

Definition make (init : t) (s : QVPNSocketData.t) : option t :=
  of_connection init (QVPNSocketData.net_proto s) (QVPNSocketData.transport_proto s)
    (QVPNSocketData.local_addr s) (QVPNSocketData.local_port s)
    (QVPNSocketData.remote_addr s) (QVPNSocketData.remote_port s).

Definition make_server (init : t) (s : QVPNServerSocketData.t) : option t :=
  of_connection init (QVPNServerSocketData.net_proto s) (QVPNServerSocketData.transport_proto s)
    (QVPNServerSocketData.server_local_addr s) (QVPNServerSocketData.local_port s)
    (QVPNServerSocketData.remote_addr s) (QVPNServerSocketData.remote_port s).

End QVPN_SocketFilter.

(** [socket_filter_wrapper], when every call of libbpf succeeds (a failure is only
    printed): the map of the object it loads. *)
Definition socket_filter_wrapper `{KernelOps} (f : filter_key.t) : bpf_map :=
  let filter := QVPN_SocketFilter.get_filters f in
  let allow := 1 in
  bpf_map__update_elem bpf_map_empty filter allow.

(** * What the filter decides *)

(** The bytes of [skb] name the connection's remote end as their source and its local end as
    their destination, with a TCP or UDP header at offset [h]. *)
Definition connection_at (h : Z) (s : QVPNSocketData.t) (skb : list Z) : Prop :=
  let hdr := if QVPNSocketData.transport_proto s =? TCP then sizeof_tcphdr else sizeof_udphdr in
  h + hdr <= msize skb /\
  (b ← load skb 0; Some (Z.shiftr b 4)) = Some (QVPNSocketData.net_proto s) /\
  load skb 9 = Some (QVPNSocketData.transport_proto s) /\
  range skb 12 16 = Some (QVPNSocketData.remote_addr s) /\
  range skb 16 20 = Some (QVPNSocketData.local_addr s) /\
  load16 skb h = Some (QVPNSocketData.remote_port s) /\
  load16 skb (h + 2) = Some (QVPNSocketData.local_port s).

#[global] Instance connection_at_dec h s skb : Decision (connection_at h s skb).
Proof. unfold connection_at. apply _. Defined.

(** The length that an IPv4 header gives itself (RFC 791), and the packets of the connection:
    the transport header is behind the whole IPv4 header, its options included. *)
Definition header_length (skb : list Z) : Z :=
  match load skb 0 with Some b => 4 * Z.land b 15 | None => 0 end.
Definition from_connection (s : QVPNSocketData.t) (skb : list Z) : Prop :=
  sizeof_iphdr <= header_length skb /\ connection_at (header_length skb) s skb.

#[global] Instance from_connection_dec s skb : Decision (from_connection s skb).
Proof. unfold from_connection. apply _. Defined.

Lemma cat16_inj a b c d :
  is_u8 a -> is_u8 b -> is_u8 c -> is_u8 d -> cat16 a b = cat16 c d -> a = c /\ b = d.
Proof. unfold is_u8. intros ????. rewrite !cat16_spec by done. lia. Qed.

Lemma octets_cat32 a b c d :
  bytes [a; b; c; d] ->
  octet 3 (cat32 a b c d) = a /\ octet 2 (cat32 a b c d) = b /\
  octet 1 (cat32 a b c d) = c /\ octet 0 (cat32 a b c d) = d.
Proof.
  intros H. pose proof (cat32_is_u32 a b c d) as Hu. apply cat32_octets in Hu.
  apply cat32_inj in Hu; [tauto| |done].
  repeat constructor; apply octet_u8; lia.
Qed.

Lemma bytes_rev4 a b c d : bytes [a; b; c; d] -> bytes [d; c; b; a].
Proof. unfold bytes. rewrite !Forall_cons. tauto. Qed.

(** A key in network order equals what the program reads exactly when the bytes are
    those of the address, or of the port. *)
Lemma htonl_bytes a b c d x y z t v :
  bytes [a; b; c; d] -> bytes [x; y; z; t] ->
  load32 [x; y; z; t] 0 = Some v ->
  htonl v = host32 a b c d <-> [a; b; c; d] = [x; y; z; t].
Proof.
  intros Ha Hx [= <-]. unfold htonl, host32.
  destruct (octets_cat32 x y z t Hx) as (->&->&->&->). split.
  - intros Heq. apply cat32_inj in Heq as (?&?&?&?); [congruence| |]; by apply bytes_rev4.
  - by intros [= -> -> -> ->].
Qed.

Lemma htons_bytes a b v :
  is_u8 a -> is_u8 b -> is_u16 v -> htons v = host16 a b <-> cat16 a b = v.
Proof.
  intros Ha Hb Hv. unfold htons, host16. split.
  - intros H. apply cat16_inj in H as [<- <-]; auto with qvpn. by apply cat16_octets.
  - intros <-. by destruct (octets_cat16 a b) as [-> ->].
Qed.

(** A packet long enough for the IPv4 header, and its first bytes. *)
Lemma long_packet skb :
  sizeof_iphdr <= msize skb ->
  exists b0 b1 b2 b3 b4 b5 b6 b7 b8 b9 b10 b11 s0 s1 s2 s3 d0 d1 d2 d3 r,
    skb = [b0; b1; b2; b3; b4; b5; b6; b7; b8; b9; b10; b11; s0; s1; s2; s3; d0; d1; d2; d3] ++ r.
Proof.
  unfold sizeof_iphdr, msize. intros H.
  do 20 (destruct skb as [|? skb]; [simpl in H; lia|]). by repeat eexists.
Qed.

Lemma range_short skb b e : msize skb < e -> range skb b e = None.
Proof. intros H. unfold range. rewrite decide_False by lia. done. Qed.

(** A connection over IPv4, as the client and the server create them. *)
Definition ipv4_connection (s : QVPNSocketData.t) : Prop :=
  QVPNSocketData.net_proto s = IPv4 /\
  (QVPNSocketData.transport_proto s = TCP \/ QVPNSocketData.transport_proto s = UDP) /\
  msize (QVPNSocketData.local_addr s) = 4 /\ bytes (QVPNSocketData.local_addr s) /\
  msize (QVPNSocketData.remote_addr s) = 4 /\ bytes (QVPNSocketData.remote_addr s) /\
  is_u16 (QVPNSocketData.local_port s) /\ is_u16 (QVPNSocketData.remote_port s).

(** The installed key is the one the program computes from a packet exactly when the
    packet's addresses and ports are those of the connection. *)
Lemma key_matches init s f tr s0 s1 s2 s3 d0 d1 d2 d3 p0 p1 q0 q1 :
  ipv4_connection s -> QVPN_SocketFilter.make init s = Some f ->
  bytes [s0; s1; s2; s3] -> bytes [d0; d1; d2; d3] -> bytes [p0; p1; q0; q1] ->
  f = filter_key.mk 4 tr (host32 s0 s1 s2 s3) (host16 p0 p1) (host32 d0 d1 d2 d3) (host16 q0 q1) <->
  QVPNSocketData.transport_proto s = tr /\
  QVPNSocketData.remote_addr s = [s0; s1; s2; s3] /\
  QVPNSocketData.local_addr s = [d0; d1; d2; d3] /\
  QVPNSocketData.remote_port s = cat16 p0 p1 /\ QVPNSocketData.local_port s = cat16 q0 q1.
Proof.
  destruct s as [np t la lp ra rp]. unfold ipv4_connection, QVPN_SocketFilter.make. cbn.
  intros (-> & _ & Hla & Hbl & Hra & Hbr & Hlp & Hrp) Hf Hs Hd Hp.
  apply list4 in Hla as (a & b & c & d & ->). apply list4 in Hra as (x & y & z & w & ->).
  injection Hf as <-. unfold bytes in Hp. rewrite !Forall_cons in Hp.
  destruct Hp as (?&?&?&?&_).
  pose proof (htonl_bytes s0 s1 s2 s3 x y z w _ Hs Hbr eq_refl) as K1.
  pose proof (htonl_bytes d0 d1 d2 d3 a b c d _ Hd Hbl eq_refl) as K2.
  pose proof (htons_bytes p0 p1 rp ltac:(done) ltac:(done) Hrp) as K3.
  pose proof (htons_bytes q0 q1 lp ltac:(done) ltac:(done) Hlp) as K4.
  split.
  - intros [= -> E1 E2 E3 E4]. apply K1 in E1. apply K2 in E3. apply K3 in E2. apply K4 in E4.
    by rewrite E1, E2, E3, E4.
  - intros (-> & E1 & E2 & E3 & E4). f_equal; [apply K1|apply K3|apply K2|apply K4]; done.
Qed.

(** ** One packet through the program *)
Section Filter.
Context {K : KernelOps} {L : KernelLaws K}.

(** The decision on a key: the map's entry is looked up. *)
Definition verdict (filter_map : bpf_map) (key : filter_key.t) : Z :=
  match bpf_map_lookup_elem filter_map key with
  | Some valid => if valid =? 0 then 0 else -1
  | None => 0
  end.

Lemma filter_short filter_map skb :
  msize skb < sizeof_iphdr -> filter_by_addr_port filter_map skb = 0.
Proof.
  intros H. unfold filter_by_addr_port. rewrite load_bytes_law, range_short; [done|].
  unfold sizeof_iphdr in *. lia.
Qed.

Context (b0 b1 b2 b3 b4 b5 b6 b7 b8 b9 b10 b11 s0 s1 s2 s3 d0 d1 d2 d3 : Z).
Let ip := [b0; b1; b2; b3; b4; b5; b6; b7; b8; b9; b10; b11; s0; s1; s2; s3; d0; d1; d2; d3].
Context (Hip : bytes ip).


Lemma load_header skb r : skb = ip ++ r -> bpf_skb_load_bytes skb 0 sizeof_iphdr = Some ip.
Proof.
  intros ->. rewrite load_bytes_law. change (0 + sizeof_iphdr) with (msize ip).
  apply range_app_l.
Qed.

Lemma header_fields :
  iphdr_version ip = Z.shiftr b0 4 /\ iphdr_protocol ip = b9 /\
  iphdr_saddr ip = host32 s0 s1 s2 s3 /\ iphdr_daddr ip = host32 d0 d1 d2 d3.
Proof. by apply iphdr_law. Qed.

(** Not version 4: rejected. *)
Lemma filter_version filter_map r :
  Z.shiftr b0 4 <> 4 -> filter_by_addr_port filter_map (ip ++ r) = 0.
Proof.
  intros H. unfold filter_by_addr_port. rewrite (load_header _ r) by done.
  destruct header_fields as (-> & _).
  rewrite (proj2 (Z.eqb_neq _ _) H). by destruct (_ =? 6).
Qed.

(** Version 4: no transport header, no acceptance. *)
Lemma filter_truncated filter_map r :
  b9 = TCP \/ b9 = UDP ->
  msize r < (if b9 =? TCP then sizeof_tcphdr else sizeof_udphdr) ->
  filter_by_addr_port filter_map (ip ++ r) = 0.
Proof.
  intros Hb Hr. unfold filter_by_addr_port, filter_by_addr_port_ipv4.
  rewrite (load_header _ r) by done. destruct header_fields as (_ & -> & _).
  rewrite !load_bytes_law.
  destruct Hb as [-> | ->]; cbn [Z.eqb TCP UDP Pos.eqb] in *;
    (rewrite range_short; [by repeat case_match|]); rewrite msize_app; change (msize ip) with 20;
    unfold sizeof_iphdr, sizeof_tcphdr, sizeof_udphdr in *; lia.
Qed.


(** The transport header starts with the ports. *)
Lemma load_transport p0 p1 q0 q1 r n :
  bytes (p0 :: p1 :: q0 :: q1 :: r) -> 4 <= n <= msize (p0 :: p1 :: q0 :: q1 :: r) ->
  exists l,
    bpf_skb_load_bytes (ip ++ p0 :: p1 :: q0 :: q1 :: r) sizeof_iphdr n =
      Some (p0 :: p1 :: q0 :: q1 :: l) /\
    msize (p0 :: p1 :: q0 :: q1 :: l) = n /\ bytes (p0 :: p1 :: q0 :: q1 :: l).
Proof.
  intros Hr Hn. rewrite load_bytes_law. change sizeof_iphdr with (msize ip).
  rewrite range_app_r by lia. rewrite Z.sub_diag, Z.add_simpl_l.
  assert (H : range (p0 :: p1 :: q0 :: q1 :: r) 0 n =
              Some (p0 :: p1 :: q0 :: q1 :: take (Z.to_nat (n - 4)) r)).
  { rewrite range_in by lia. rewrite Z.sub_0_r, drop_0.
    by replace (Z.to_nat n) with (4 + Z.to_nat (n - 4))%nat by lia. }
  rewrite H. eexists. split_and!; [done| |by eapply range_bytes].
  apply range_Some in H as (_ & _ & H & _). lia.
Qed.

(** Version 4: the key looked up. *)
Lemma filter_ports filter_map p0 p1 q0 q1 r :
  Z.shiftr b0 4 = 4 -> b9 = TCP \/ b9 = UDP -> bytes (p0 :: p1 :: q0 :: q1 :: r) ->
  (if b9 =? TCP then sizeof_tcphdr else sizeof_udphdr) <= msize (p0 :: p1 :: q0 :: q1 :: r) ->
  filter_by_addr_port filter_map (ip ++ p0 :: p1 :: q0 :: q1 :: r) =
  verdict filter_map (filter_key.mk 4 b9 (host32 s0 s1 s2 s3) (host16 p0 p1)
                        (host32 d0 d1 d2 d3) (host16 q0 q1)).
Proof.
  intros Hv Hb Hr Hsz. unfold filter_by_addr_port, filter_by_addr_port_ipv4.
  rewrite (load_header _ (p0 :: p1 :: q0 :: q1 :: r)) by done.
  destruct header_fields as (-> & -> & -> & ->). rewrite Hv.
  change (u8 4) with 4. cbn [Z.eqb Pos.eqb].
  destruct Hb as [Hb|Hb]; rewrite Hb in *; cbn [Z.eqb TCP UDP Pos.eqb] in *.
  - destruct (load_transport _ _ _ _ _ sizeof_tcphdr Hr) as (l & -> & Hl & Hbl); [done|].
    cbn [mbind option_bind]. by destruct (tcphdr_law _ _ _ _ l Hl Hbl) as [-> ->].
  - destruct (load_transport _ _ _ _ _ sizeof_udphdr Hr) as (l & -> & Hl & Hbl); [done|].
    cbn [mbind option_bind]. by destruct (udphdr_law _ _ _ _ l Hl Hbl) as [-> ->].
Qed.

(** Another protocol: looked up with both ports zero. *)
Lemma filter_portless filter_map r :
  Z.shiftr b0 4 = 4 -> b9 <> TCP -> b9 <> UDP ->
  filter_by_addr_port filter_map (ip ++ r) =
  verdict filter_map (filter_key.mk 4 b9 (host32 s0 s1 s2 s3) 0 (host32 d0 d1 d2 d3) 0).
Proof.
  intros Hv Ht%Z.eqb_neq Hu%Z.eqb_neq. unfold filter_by_addr_port, filter_by_addr_port_ipv4.
  rewrite (load_header _ r) by done.
  destruct header_fields as (-> & -> & -> & ->). rewrite Hv, Ht, Hu. done.
Qed.

Lemma connection_at_ip s p0 p1 q0 q1 r :
  connection_at sizeof_iphdr s (ip ++ p0 :: p1 :: q0 :: q1 :: r) <->
  (if QVPNSocketData.transport_proto s =? TCP then sizeof_tcphdr else sizeof_udphdr)
    <= msize (p0 :: p1 :: q0 :: q1 :: r) /\
  Z.shiftr b0 4 = QVPNSocketData.net_proto s /\ b9 = QVPNSocketData.transport_proto s /\
  [s0; s1; s2; s3] = QVPNSocketData.remote_addr s /\ [d0; d1; d2; d3] = QVPNSocketData.local_addr s /\
  cat16 p0 p1 = QVPNSocketData.remote_port s /\ cat16 q0 q1 = QVPNSocketData.local_port s.
Proof.
  unfold connection_at, sizeof_iphdr. rewrite msize_app. change (msize ip) with 20.
  set (t := p0 :: p1 :: q0 :: q1 :: r).
  assert (range (ip ++ t) 12 16 = Some [s0; s1; s2; s3]) as ->
    by exact (range_inside [] t ip 12 16 [s0; s1; s2; s3] eq_refl).
  assert (range (ip ++ t) 16 20 = Some [d0; d1; d2; d3]) as ->
    by exact (range_inside [] t ip 16 20 [d0; d1; d2; d3] eq_refl).
  change (load (ip ++ t) 0) with (Some b0). change (load (ip ++ t) 9) with (Some b9).
  change (load16 (ip ++ t) 20) with (Some (cat16 p0 p1)).
  change (load16 (ip ++ t) (20 + 2)) with (Some (cat16 q0 q1)).
  cbn [mbind option_bind].
  split; intros (Hsz & ? & ? & ? & ? & ? & ?); (split; [lia|]); split_and!; congruence.
Qed.

End Filter.

(** The verdict with one key installed. *)
Lemma verdict_installed `{KernelLaws} f key :
  verdict (socket_filter_wrapper f) key = if decide (f = key) then -1 else 0.
Proof.
  unfold verdict, socket_filter_wrapper, QVPN_SocketFilter.get_filters.
  rewrite map_update_law. by case_decide.
Qed.



(** The key's protocol is that of the connection. *)
Lemma key_transport init s f :
  QVPN_SocketFilter.make init s = Some f ->
  filter_key.transport_proto f = QVPNSocketData.transport_proto s.
Proof.
  destruct s as [np tr la lp ra rp]. unfold QVPN_SocketFilter.make, QVPN_SocketFilter.of_connection. cbn.
  destruct (_ =? _); cbn [mbind option_bind].
  - destruct (NetAddr.to_uint la); [|done]. destruct (NetAddr.to_uint ra); [|done]. by intros [= <-].
  - by intros [= <-].
Qed.

Lemma four_bytes r : 4 <= msize r -> exists p0 p1 q0 q1 r', r = p0 :: p1 :: q0 :: q1 :: r'.
Proof.
  intros H. do 4 (destruct r as [|? r]; [unfold msize in H; simpl in H; lia|]). by repeat eexists.
Qed.

(** The header of a packet of the connection. *)
Lemma connection_at_header s b0 b1 b2 b3 b4 b5 b6 b7 b8 b9 l r :
  let skb := [b0; b1; b2; b3; b4; b5; b6; b7; b8; b9] ++ l ++ r in
  length l = 10%nat -> connection_at sizeof_iphdr s skb ->
  Z.shiftr b0 4 = QVPNSocketData.net_proto s /\ b9 = QVPNSocketData.transport_proto s /\
  (if b9 =? TCP then sizeof_tcphdr else sizeof_udphdr) <= msize r.
Proof.
  intros skb Hl (Hsz & [= Hv] & [= Ht] & _). subst skb. rewrite <- Ht in Hsz.
  split_and!; [done..|]. revert Hsz. rewrite !msize_app. unfold sizeof_iphdr.
  change (msize [b0; b1; b2; b3; b4; b5; b6; b7; b8; b9]) with 10.
  unfold msize at 1. rewrite Hl. lia.
Qed.

(** A packet of another protocol than the key's is rejected. *)
Lemma filter_other_protocol `{KernelLaws} f b0 b1 b2 b3 b4 b5 b6 b7 b8 b9 b10 b11
    s0 s1 s2 s3 d0 d1 d2 d3 r :
  let ip := [b0; b1; b2; b3; b4; b5; b6; b7; b8; b9; b10; b11; s0; s1; s2; s3; d0; d1; d2; d3] in
  bytes ip -> bytes r -> Z.shiftr b0 4 = 4 -> filter_key.transport_proto f <> b9 ->
  filter_by_addr_port (socket_filter_wrapper f) (ip ++ r) = 0.
Proof.
  intros ip Hip Hr Hv Hf.
  destruct (decide (b9 = TCP \/ b9 = UDP)) as [Hb|Hb].
  - destruct (decide (msize r < if b9 =? TCP then sizeof_tcphdr else sizeof_udphdr)) as [Hl|Hl].
    { by apply filter_truncated. }
    destruct (four_bytes r) as (p0&p1&q0&q1&r'&->).
    { revert Hl. unfold sizeof_tcphdr, sizeof_udphdr. case_match; lia. }
    unfold ip. rewrite filter_ports, verdict_installed, decide_False; [done| |done..|lia].
    by intros ->.
  - unfold ip. rewrite filter_portless, verdict_installed, decide_False; [done| |done|done|tauto..].
    by intros ->.
Qed.

(** What the program decides: it takes every IPv4 header to have 20 bytes. *)
Lemma filter_decides `{KernelLaws} init s f skb :
  ipv4_connection s -> QVPN_SocketFilter.make init s = Some f -> bytes skb ->
  filter_by_addr_port (socket_filter_wrapper f) skb =
  if decide (connection_at sizeof_iphdr s skb) then -1 else 0.
Proof.
  intros Hs Hf Hb. destruct (decide (msize skb < sizeof_iphdr)) as [Hl|Hl].
  { rewrite filter_short by done. rewrite decide_False; [done|]. intros (Hsz & _).
    revert Hsz. unfold sizeof_tcphdr, sizeof_udphdr. case_match; lia. }
  destruct (long_packet skb) as (b0&b1&b2&b3&b4&b5&b6&b7&b8&b9&b10&b11&s0&s1&s2&s3&d0&d1&d2&d3&r&->);
    [lia|].
  apply bytes_app in Hb as [Hip Hr].
  pose proof (connection_at_header s b0 b1 b2 b3 b4 b5 b6 b7 b8 b9
    [b10; b11; s0; s1; s2; s3; d0; d1; d2; d3] r eq_refl) as Hh. cbn [app] in Hh.
  pose proof Hs as (Hnp & Htr & _). rewrite Hnp in Hh.
  destruct (decide (Z.shiftr b0 4 = 4)) as [Hv|Hv]; cycle 1.
  { rewrite filter_version, decide_False; [done| |done|done]. intros Hc. by destruct (Hh Hc). }
  destruct (decide (b9 = QVPNSocketData.transport_proto s)) as [Hb9|Hb9]; cycle 1.
  { rewrite decide_False by (intros Hc; by destruct (Hh Hc) as (_ & ? & _)).
    apply filter_other_protocol; [done..|]. rewrite (key_transport _ _ _ Hf). congruence. }
  destruct (decide (msize r < if b9 =? TCP then sizeof_tcphdr else sizeof_udphdr)) as [Hr'|Hr'].
  { rewrite decide_False by (intros Hc; destruct (Hh Hc) as (_ & _ & ?); lia).
    apply filter_truncated; [done| |done]. by rewrite Hb9. }
  destruct (four_bytes r) as (p0&p1&q0&q1&r'&->).
  { revert Hr'. unfold sizeof_tcphdr, sizeof_udphdr. case_match; lia. }
  rewrite filter_ports; [|done|done|by rewrite Hb9|done|lia]. rewrite verdict_installed.
  apply decide_ext.
  rewrite (connection_at_ip _ _ _ _ _ _ _ _ _ _ _ _ _ _ _ _ _ _ _ _), Hnp.
  rewrite (key_matches init s f _ s0 s1 s2 s3 d0 d1 d2 d3 p0 p1 q0 q1 Hs Hf).
  - split; [intros (?&?&?&?&?)|intros (?&?&?&?&?&?&?)]; split_and!;
      first [congruence|exact Hv|rewrite <- Hb9; lia].
  - by apply (range_bytes _ 12 16 _ Hip).
  - by apply (range_bytes _ 16 20 _ Hip).
  - unfold bytes in *. rewrite !Forall_cons in Hr. destruct Hr as (?&?&?&?&_). by repeat apply Forall_cons_2.
Qed.

(** C33: The filter a client installs for an IPv4 connection.  Of the packets whose IPv4
    header has 20 bytes it accepts ([-1]) exactly those of the connection's remote end to
    its local end, and rejects ([0]) every other one.  A packet whose header has another
    length is accepted exactly when it would belong to the connection if its ports were
    at offset 20; so one of the connection with options in its header is accepted exactly
    when the first four bytes of its options happen to be the two ports. *)
Theorem connection_filter_exact `{KernelLaws} init s f skb :
  ipv4_connection s -> QVPN_SocketFilter.make init s = Some f -> bytes skb ->
  let decision := filter_by_addr_port (socket_filter_wrapper f) skb in
  (header_length skb = sizeof_iphdr ->
     decision = if decide (from_connection s skb) then -1 else 0) /\
  (decision = if decide (connection_at sizeof_iphdr s skb) then -1 else 0) /\
  (from_connection s skb -> header_length skb <> sizeof_iphdr ->
     (decision = -1 <->
      load16 skb 20 = Some (QVPNSocketData.remote_port s) /\
      load16 skb 22 = Some (QVPNSocketData.local_port s))).
Proof.
  intros Hs Hf Hb decision. pose proof (filter_decides init s f skb Hs Hf Hb) as E. fold decision in E.
  split_and!; [|done|].
  - intros Hh. rewrite E. apply decide_ext. unfold from_connection. rewrite Hh. split; [|tauto]. by split.
  - intros [Hh (Hsz & C)] Hne. rewrite E. unfold connection_at in *. unfold sizeof_iphdr in *. cbn [Z.add] in *.
    destruct C as (C1 & C2 & C3 & C4 & _). case_decide as D; [tauto|]. split; [done|]. intros P. exfalso.
    apply D. split_and!; try tauto. lia.
Qed.

(** The verdict of the program on a packet of at least 20 bytes, by cases. *)
Lemma filter_cases `{KernelLaws} m b0 b1 b2 b3 b4 b5 b6 b7 b8 b9 b10 b11
    s0 s1 s2 s3 d0 d1 d2 d3 r :
  let ip := [b0; b1; b2; b3; b4; b5; b6; b7; b8; b9; b10; b11; s0; s1; s2; s3; d0; d1; d2; d3] in
  bytes ip -> bytes r ->
  filter_by_addr_port m (ip ++ r) = 0 \/
  exists sp dp, Z.shiftr b0 4 = 4 /\
    filter_by_addr_port m (ip ++ r) =
    verdict m (filter_key.mk 4 b9 (host32 s0 s1 s2 s3) sp (host32 d0 d1 d2 d3) dp).
Proof.
  intros ip Hip Hr.
  destruct (decide (Z.shiftr b0 4 = 4)) as [Hv|Hv]; [|left; by apply filter_version].
  destruct (decide (b9 = TCP \/ b9 = UDP)) as [Hb|Hb].
  - destruct (decide (msize r < if b9 =? TCP then sizeof_tcphdr else sizeof_udphdr)) as [Hl|Hl].
    { left. by apply filter_truncated. }
    destruct (four_bytes r) as (p0&p1&q0&q1&r'&->).
    { revert Hl. unfold sizeof_tcphdr, sizeof_udphdr. case_match; lia. }
    right. exists (host16 p0 p1), (host16 q0 q1). split; [done|].
    apply filter_ports; [done..|lia].
  - right. exists 0, 0. split; [done|]. apply filter_portless; [done|done|tauto..].
Qed.

(** A filter installed for anything but an IPv4 connection rejects every packet: the
    program knows no IPv6 headers, and an IPv4 packet has another key. *)
Theorem other_connection_blocked `{KernelLaws} init s f skb :
  QVPNSocketData.net_proto s <> IPv4 -> QVPN_SocketFilter.make init s = Some f -> bytes skb ->
  filter_by_addr_port (socket_filter_wrapper f) skb = 0.
Proof.
  intros Hs Hf Hb. destruct (decide (msize skb < sizeof_iphdr)) as [Hl|Hl].
  { by apply filter_short. }
  destruct (long_packet skb) as (b0&b1&b2&b3&b4&b5&b6&b7&b8&b9&b10&b11&s0&s1&s2&s3&d0&d1&d2&d3&r&->);
    [lia|].
  apply bytes_app in Hb as [Hip Hr].
  destruct (filter_cases (socket_filter_wrapper f) b0 b1 b2 b3 b4 b5 b6 b7 b8 b9 b10 b11
    s0 s1 s2 s3 d0 d1 d2 d3 r Hip Hr) as [?|(sp & dp & _ & ->)]; [done|].
  rewrite verdict_installed, decide_False; [done|]. intros ->. revert Hf.
  unfold QVPN_SocketFilter.make, QVPN_SocketFilter.of_connection.
  rewrite (proj2 (Z.eqb_neq _ _) Hs). cbn [mbind option_bind fst snd]. by intros [= ?].
Qed.

(** A kernel that behaves as documented, for the concrete runs below. *)
#[local] Instance sample_kernel : KernelOps := {|
  bpf_skb_load_bytes skb off len := range skb off (off + len);
  bpf_map := option (filter_key.t * Z);
  bpf_map_empty := None;
  bpf_map_lookup_elem m k := '(k', v) ← m; if decide (k' = k) then Some v else None;
  bpf_map__update_elem m k v := Some (k, v);
  iphdr_version ip := Z.shiftr (nth 0 ip 0) 4;
  iphdr_protocol ip := nth 9 ip 0;
  iphdr_saddr ip := host32 (nth 12 ip 0) (nth 13 ip 0) (nth 14 ip 0) (nth 15 ip 0);
  iphdr_daddr ip := host32 (nth 16 ip 0) (nth 17 ip 0) (nth 18 ip 0) (nth 19 ip 0);
  tcphdr_source t := host16 (nth 0 t 0) (nth 1 t 0);
  tcphdr_dest t := host16 (nth 2 t 0) (nth 3 t 0);
  udphdr_source t := host16 (nth 0 t 0) (nth 1 t 0);
  udphdr_dest t := host16 (nth 2 t 0) (nth 3 t 0) |}.

#[local] Instance sample_laws : KernelLaws sample_kernel.
Proof. by split. Qed.

(** A UDP datagram from port 53 of 8.8.8.8 to port 4660 of 10.0.0.2. *)
Definition sample_connection : QVPNSocketData.t :=
  QVPNSocketData.mk IPv4 UDP [10; 0; 0; 2] 4660 [8; 8; 8; 8] 53.
Definition sample_skb : list Z :=
  [69; 0; 0; 28; 0; 0; 0; 0; 64; 17; 0; 0; 8; 8; 8; 8; 10; 0; 0; 2; 0; 53; 18; 52; 0; 8; 0; 0].
Definition sample_key : filter_key.t := filter_key.mk 0 0 0 0 0 0.

(** The same datagram with four bytes of options. *)
Definition sample_options : list Z := 70 :: drop 1 (take 20 sample_skb) ++ [1; 1; 1; 0] ++ drop 20 sample_skb.

(** The plain datagram is accepted, and the one with options is not, although it is one of the
    connection: its ports are looked for in the options. *)
Lemma connection_filter_exact_witness :
  exists f, QVPN_SocketFilter.make sample_key sample_connection = Some f /\
    filter_by_addr_port (socket_filter_wrapper f) sample_skb = -1 /\
    from_connection sample_connection sample_options /\
    filter_by_addr_port (socket_filter_wrapper f) sample_options <> -1.
Proof.
  eexists. split; [reflexivity|].
  assert (C : ipv4_connection sample_connection).
  { split_and!; [done|by right|done|by concrete|done|by concrete|by concrete..]. }
  assert (O : from_connection sample_connection sample_options).
  { split; [vm_compute; discriminate|]. split_and!; [vm_compute; discriminate|reflexivity..]. }
  split; [|split; [exact O|]].
  - exact (proj1 (connection_filter_exact sample_key sample_connection _ sample_skb C eq_refl ltac:(by concrete)) eq_refl).
  - intros D. destruct (proj1 (proj2 (proj2 (connection_filter_exact sample_key sample_connection _ sample_options C eq_refl
      ltac:(by concrete))) O ltac:(discriminate)) D) as [P _]. discriminate P.
Defined.

(** A packet that is not of the connection is accepted when its options are the ports. *)
Example options_misread : exists f, QVPN_SocketFilter.make sample_key sample_connection = Some f /\
  let skb := 70 :: drop 1 (take 20 sample_skb) ++ [0; 53; 18; 52] ++ [9; 9; 9; 9; 0; 8; 0; 0] in
  filter_by_addr_port (socket_filter_wrapper f) skb = -1 /\ ~ from_connection sample_connection skb.
Proof.
  eexists. split; [reflexivity|]. cbv zeta. split; [by vm_compute|]. intros (_ & _ & _ & _ & _ & _ & P & _).
  discriminate P.
Qed.

Lemma other_connection_blocked_witness :
  exists f, QVPN_SocketFilter.make sample_key
      (QVPNSocketData.mk IPv6 UDP (replicate 16 1) 4660 (replicate 16 2) 53) = Some f /\
    filter_by_addr_port (socket_filter_wrapper f) sample_skb = 0.
Proof.
  eexists. split; [reflexivity|].
  by apply (other_connection_blocked sample_key
    (QVPNSocketData.mk IPv6 UDP (replicate 16 1) 4660 (replicate 16 2) 53) _ sample_skb);
    [|reflexivity|concrete].
Defined.
