(* ===== verification/Tables.v ===== *)
(** The hash tables of the server: the hash functions and comparisons of
    src/QVPN/QVPN Lib/include/qvpn_lib.hpp and src/QVPN/QVPN Lib/src/qvpn_lib.cpp with which the
    driver keys its tables, and the tables themselves, [std::unordered_map].

    The models of the other files use finite maps for these tables.  Here a table is an array of
    buckets, a lookup hashes the text of the key and compares with [operator==], and
    [server_table_refines] shows that on the keys of the server it is that finite map. *)
From S2P Require Import Prelude Addr Transport Settings SocketFilter.

#[local] Arguments String.append !_ _ /.

(** * Texts of keys *)

(** [FriendlyViewPolicy]: [multiple] is [FRIENDLY_VIEW_MULTIPLE_LINES].  The overloads that write to a
    stream append the same text. *)
Module FriendlyViewPolicy.

Definition line_end (multiple : bool) : string := if multiple then endl else EmptyString.
Definition value_delimiter (multiple : bool) : string := if multiple then EmptyString else " ".
Definition label (l delimiter : string) : string := (l +:+ ":" +:+ delimiter)%string.
Definition value (multiple : bool) (v delimiter : string) : string :=
  (v +:+ delimiter +:+ line_end multiple)%string.
Definition label_value (multiple : bool) (l v label_delimiter value_delimiter : string) : string :=
  (l +:+ ":" +:+ label_delimiter +:+ v +:+ value_delimiter +:+ line_end multiple)%string.
(** With the default delimiters. *)
Definition field (multiple : bool) (l v : string) : string :=
  label_value multiple l v " " (value_delimiter multiple).

End FriendlyViewPolicy.

Module SocketKey.

Definition to_friendly_view (multiple : bool) (d : QVPNSocketData.t) : string :=
  let p := FriendlyViewPolicy.field multiple in
  (p "IP" (dec (QVPNSocketData.net_proto d)) +:+ p "TProto" (dec (QVPNSocketData.transport_proto d)) +:+
   p "Local socket data" (NetAddr.to_string (QVPNSocketData.local_addr d) +:+ ":" +:+ dec (QVPNSocketData.local_port d)) +:+
   p "Remote socket data" (NetAddr.to_string (QVPNSocketData.remote_addr d) +:+ ":" +:+ dec (QVPNSocketData.remote_port d)))%string.

End SocketKey.

Module ServerKey.
Import QVPNServerSocketData.

Definition to_string (d : t) : string :=
  ("(" +:+ dec (net_proto d) +:+ "," +:+ dec (transport_proto d) +:+ ") (Client data:" +:+
   NetAddr.to_string (client_local_addr d) +:+ ":" +:+ dec (local_port d) +:+ "<=>" +:+
   NetAddr.to_string (server_local_addr d) +:+ ":" +:+ dec (local_port d) +:+ ")-" +:+
   NetAddr.to_string (remote_addr d) +:+ ":" +:+ dec (remote_port d))%string.

Definition to_friendly_view (multiple : bool) (d : t) : string :=
  let p := FriendlyViewPolicy.field multiple in
  (p "IP" (dec (net_proto d)) +:+ p "TProto" (dec (transport_proto d)) +:+
   p "Client local socket data" (NetAddr.to_string (client_local_addr d) +:+ ":" +:+ dec (local_port d)) +:+
   p "Server local socket data" (NetAddr.to_string (server_local_addr d) +:+ ":" +:+ dec (local_port d)) +:+
   p "Remote socket data" (NetAddr.to_string (remote_addr d) +:+ ":" +:+ dec (remote_port d)))%string.

(** [a && b] that evaluates [b] only if [a] holds. *)
Definition and_then (a b : option bool) : option bool :=
  a ← a; if (a : bool) then b else Some false.

Definition eqb (d other : t) : option bool :=
  and_then (Some (net_proto d =? net_proto other))
  (and_then (Some (transport_proto d =? transport_proto other))
  (and_then (NetAddr.eqb (client_local_addr d) (client_local_addr other))
  (and_then (NetAddr.eqb (server_local_addr d) (server_local_addr other))
  (and_then (Some (local_port d =? local_port other))
  (and_then (NetAddr.eqb (remote_addr d) (remote_addr other))
    (Some (remote_port d =? remote_port other))))))).

End ServerKey.

(** The specialisations of [std::hash] and [NetAddrHasher], over the hash of strings. *)
Section Hashes.
Context (hash_string : string -> Z).

Definition hash_socket_data (d : QVPNSocketData.t) : Z := hash_string (QVPNSocketData.to_string d).
Definition hash_server_socket_data (d : QVPNServerSocketData.t) : Z := hash_string (ServerKey.to_string d).
Definition hash_net_addr (addr : list Z) : Z := hash_string (NetAddr.to_string addr).
Definition hash_ipv4_address (addr : list Z) : option Z := text ← IPv4Address.to_string addr; Some (hash_string text).

End Hashes.

#[global] Instance server_socket_data_eq_dec : EqDecision QVPNServerSocketData.t.
Proof. solve_decision. Defined.

#[global] Program Instance server_socket_data_countable : Countable QVPNServerSocketData.t :=
  inj_countable'
    (fun k => (QVPNServerSocketData.net_proto k, QVPNServerSocketData.transport_proto k,
       (QVPNServerSocketData.client_local_addr k, QVPNServerSocketData.server_local_addr k),
       (QVPNServerSocketData.local_port k, QVPNServerSocketData.remote_addr k,
        QVPNServerSocketData.remote_port k)))
    (fun '(n, t, (c, s), (lp, r, rp)) => QVPNServerSocketData.mk n t c s lp r rp) _.
Next Obligation. by intros []. Qed.

(** * Keys and their texts *)

(** Two texts that go on with a character that [p] excludes after their longest runs of
    characters that [p] allows. *)
Lemma runs_equal p a b c d r s :
  all_chars p a = true -> all_chars p b = true -> p c = false -> p d = false ->
  (a +:+ String c r = b +:+ String d s)%string -> a = b /\ c = d /\ r = s.
Proof.
  revert b. induction a as [|x a IH]; intros [|y b]; cbn [all_chars String.append].
  - intros _ _ _ _ [= -> ->]. done.
  - intros _ [Hy _]%andb_true_iff Hc _ [= -> _]. congruence.
  - intros [Hx _]%andb_true_iff _ _ Hd [= -> _]. congruence.
  - intros [_ Ha]%andb_true_iff [_ Hb]%andb_true_iff Hc Hd [= -> E].
    destruct (IH b Ha Hb Hc Hd E) as (-> & -> & ->). done.
Qed.

Definition address_char (c : Ascii.ascii) : bool := is_digit c || Ascii.eqb c dot.

Lemma dec_inj a b : 0 <= a -> 0 <= b -> dec a = dec b -> a = b.
Proof.
  intros Ha Hb E. destruct (dec_digits a Ha) as (_ & H1 & _), (dec_digits b Hb) as (_ & H2 & _).
  rewrite E, H2 in H1. by injection H1 as ->.
Qed.

Lemma dec_run n : 0 <= n -> all_chars is_digit (dec n) = true.
Proof. intros Hn. by destruct (dec_digits n Hn). Qed.

Lemma dotted_run l : bytes l -> all_chars address_char (dotted l) = true.
Proof.
  induction 1 as [|b l Hb _ IH]; [done|]. cbn [dotted]. rewrite !all_chars_append, IH.
  rewrite andb_true_r. revert b Hb. apply forall_u8. by vm_compute.
Qed.

Lemma prefix_run p n s : all_chars p s = true -> all_chars p (String.substring 0 n s) = true.
Proof.
  revert s. induction n as [|n IH]; intros [|c s]; cbn; [done..|].
  intros [-> Hs]%andb_true_iff. by apply IH.
Qed.

Lemma address_run l : bytes l -> all_chars address_char (NetAddr.to_string l) = true.
Proof.
  intros Hl%dotted_run. unfold NetAddr.to_string, drop_last. case_match; [done|]. by apply prefix_run.
Qed.

(** The addresses of keys. *)
Definition key_address (l : list Z) : Prop := bytes l /\ 2 <= msize l <= 16.

Lemma address_text_inj a b :
  key_address a -> key_address b -> NetAddr.to_string a = NetAddr.to_string b -> a = b.
Proof.
  intros [Ha Hsa] [Hb Hsb] E. pose proof (parse_net_addr_to_string a Ha ltac:(lia)) as H1.
  pose proof (parse_net_addr_to_string b Hb ltac:(lia)) as H2. rewrite E, H2 in H1. by injection H1 as ->.
Qed.

(** A number or an address in front of a separator. *)
Lemma number_field a b c r s :
  0 <= a -> 0 <= b -> is_digit c = false ->
  (dec a +:+ String c r = dec b +:+ String c s)%string -> a = b /\ r = s.
Proof.
  intros Ha Hb Hc E. apply (runs_equal is_digit) in E as (E & _ & ->); [|by apply dec_run|by apply dec_run|done|done].
  by apply dec_inj in E.
Qed.

Lemma address_field a b c r s :
  key_address a -> key_address b -> address_char c = false ->
  (NetAddr.to_string a +:+ String c r = NetAddr.to_string b +:+ String c s)%string -> a = b /\ r = s.
Proof.
  intros Ha Hb Hc E. apply (runs_equal address_char) in E as (E & _ & ->); [|apply address_run, Ha|apply address_run, Hb|done|done].
  by apply address_text_inj in E.
Qed.

(** A key of the server: numbers, addresses of the client and of the remote side of the size
    that the protocol prescribes, and the address of the raw socket, which [connect] leaves in
    4 bytes over IPv4 and cut to 6 over IPv6. *)
Definition family_size (net : Z) : Z := if net =? IPv4 then 4 else 16.
Definition local_addr_size (net : Z) : Z := if net =? IPv4 then 4 else 6.
Definition server_key (k : QVPNServerSocketData.t) : Prop :=
  0 <= QVPNServerSocketData.net_proto k /\ 0 <= QVPNServerSocketData.transport_proto k /\
  0 <= QVPNServerSocketData.local_port k /\ 0 <= QVPNServerSocketData.remote_port k /\
  let address a := bytes a /\ msize a = family_size (QVPNServerSocketData.net_proto k) in
  address (QVPNServerSocketData.client_local_addr k) /\
  address (QVPNServerSocketData.remote_addr k).

(** A key that is stored has the address of a connected socket, which is not all zeros. *)
Definition stored_key (k : QVPNServerSocketData.t) : Prop :=
  let local := QVPNServerSocketData.server_local_addr k in
  server_key k /\ bytes local /\ msize local = local_addr_size (QVPNServerSocketData.net_proto k) /\
  Exists (fun b => b <> 0) local.

(** A key that is looked for may have no such address: the 16 zeros it starts with, when no
    socket could be made or bound, or what [bind] leaves, when it could not be connected. *)
Definition searched_key (k : QVPNServerSocketData.t) : Prop :=
  let local := QVPNServerSocketData.server_local_addr k in
  server_key k /\ bytes local /\
  (msize local = local_addr_size (QVPNServerSocketData.net_proto k) \/
   local_addr_size (QVPNServerSocketData.net_proto k) <= msize local <= 16 /\ Forall (fun b => b = 0) local).

Lemma stored_searched_key k : stored_key k -> searched_key k.
Proof. intros (? & ? & ? & _). split_and!; auto. Qed.

Lemma family_address net a : bytes a /\ msize a = family_size net -> key_address a.
Proof. unfold family_size, key_address. intros [? ->]. split; [done|]. destruct (net =? IPv4); lia. Qed.

Lemma local_address k : searched_key k -> key_address (QVPNServerSocketData.server_local_addr k).
Proof.
  intros (_ & Hb & H). split; [done|]. unfold local_addr_size in H. destruct (_ =? IPv4); lia.
Qed.

(** The text of a key determines it: two keys never have the same hash text. *)
Lemma server_text_inj a b :
  searched_key a -> searched_key b -> ServerKey.to_string a = ServerKey.to_string b -> a = b.
Proof.
  intros Ka Kb. pose proof (local_address a Ka) as Hs. pose proof (local_address b Kb) as Hs'.
  destruct Ka as [(Hn & Ht & Hlp & Hrp & Hc%family_address & Hr%family_address) _].
  destruct Kb as [(Hn' & Ht' & Hlp' & Hrp' & Hc'%family_address & Hr'%family_address) _].
  destruct a as [n t cl sl lp ra rp], b as [n' t' cl' sl' lp' ra' rp'].
  cbn [QVPNServerSocketData.net_proto QVPNServerSocketData.transport_proto QVPNServerSocketData.client_local_addr
    QVPNServerSocketData.server_local_addr QVPNServerSocketData.local_port QVPNServerSocketData.remote_addr
    QVPNServerSocketData.remote_port] in *.
  unfold ServerKey.to_string. cbn [QVPNServerSocketData.net_proto QVPNServerSocketData.transport_proto QVPNServerSocketData.client_local_addr
    QVPNServerSocketData.server_local_addr QVPNServerSocketData.local_port QVPNServerSocketData.remote_addr
    QVPNServerSocketData.remote_port].
  cbn [String.append]. intros [= E].
  apply number_field in E as [<- E]; [|done..]. apply number_field in E as [<- E]; [|done..].
  injection E as E. apply address_field in E as [<- E]; [|done..]. apply number_field in E as [<- E]; [|done..].
  injection E as E. apply address_field in E as [<- E]; [|done..]. apply number_field in E as [_ E]; [|done..].
  injection E as E. apply address_field in E as [<- E]; [|done..]. by apply dec_inj in E as <-.
Qed.

Lemma and_then_dec (P : Prop) `{Decision P} b :
  ServerKey.and_then (Some (bool_decide P)) b = if decide P then b else Some false.
Proof. unfold ServerKey.and_then. cbn. case_bool_decide; by case_decide. Qed.

Lemma eqb_dec (a b : Z) : (a =? b) = bool_decide (a = b).
Proof. destruct (Z.eqb_spec a b); case_bool_decide; done. Qed.

(** Zeros against an address that is not all zeros differ where both have a byte. *)
Lemma zeros_differ a b :
  Forall (fun x => x = 0) a -> Exists (fun x => x <> 0) b -> msize b <= msize a -> NetAddr.eqb a b = Some false.
Proof.
  intros Ha. revert b. induction Ha as [|x a -> _ IH]; intros [|y b] Hb; rewrite ?msize_cons; intros Hs.
  - by apply Exists_nil in Hb.
  - pose proof (msize_nonneg b). change (msize []) with 0 in Hs. lia.
  - by apply Exists_nil in Hb.
  - cbn [NetAddr.eqb]. destruct (Z.eqb_spec 0 y) as [<-|]; [|done].
    apply IH; [by apply Exists_cons in Hb as [|]|lia].
Qed.

Lemma local_eqb net a b :
  (msize a = local_addr_size net \/ local_addr_size net <= msize a <= 16 /\ Forall (fun x => x = 0) a) ->
  msize b = local_addr_size net -> Exists (fun x => x <> 0) b ->
  NetAddr.eqb a b = Some (bool_decide (a = b)).
Proof.
  intros [Ha|[Hs Ha]] Hb Hz; [apply net_addr_eqb_same; congruence|].
  rewrite bool_decide_false; [apply zeros_differ; [done|done|lia]|].
  intros ->. apply Exists_exists in Hz as (x & Hx & Hn). rewrite Forall_forall in Ha. by apply Ha in Hx.
Qed.

(** A key that is looked for against one that is stored: [operator==] is defined and is
    equality. *)
Lemma server_eqb a b :
  searched_key a -> stored_key b -> ServerKey.eqb a b = Some (bool_decide (a = b)).
Proof.
  destruct a as [n t cl sl lp ra rp], b as [n' t' cl' sl' lp' ra' rp'].
  intros ((_ & _ & _ & _ & [_ Hc] & [_ Hr]) & _ & Hs) ((_ & _ & _ & _ & [_ Hc'] & [_ Hr']) & _ & Hs' & Hz).
  cbn [QVPNServerSocketData.net_proto QVPNServerSocketData.client_local_addr QVPNServerSocketData.server_local_addr
    QVPNServerSocketData.remote_addr] in *.
  unfold ServerKey.eqb. cbn [QVPNServerSocketData.net_proto QVPNServerSocketData.transport_proto QVPNServerSocketData.client_local_addr
    QVPNServerSocketData.server_local_addr QVPNServerSocketData.local_port QVPNServerSocketData.remote_addr
    QVPNServerSocketData.remote_port].
  rewrite !eqb_dec, and_then_dec. destruct (decide (n = n')) as [<-|]; [|rewrite bool_decide_false; congruence].
  rewrite (local_eqb n sl sl'), !net_addr_eqb_same by congruence. rewrite !and_then_dec.
  repeat (case_decide; [subst|rewrite bool_decide_false; congruence]).
  case_bool_decide; [subst; by rewrite bool_decide_true|by rewrite bool_decide_false by congruence].
Qed.

(** * The table *)

Section HashTable.
Context {K V : Type} `{EqDecision K, Countable K} (hash : K -> Z) (key_equal : K -> K -> option bool).

(** [std::unordered_map]: an element lies in the bucket of its hash. *)
Abbreviation hash_table := (list (list (K * V))).
Definition bucket_of (t : hash_table) (k : K) : nat := Z.to_nat (hash k mod Z.of_nat (length t)).

Fixpoint find_in (bucket : list (K * V)) (k : K) : option (option V) :=
  match bucket with
  | [] => Some None
  | (k', v) :: bucket => same ← key_equal k k'; if (same : bool) then Some (Some v) else find_in bucket k
  end.
(** [map[k] = v]: the element with the key gets the value, or a new one is put in front. *)
Fixpoint set_in (bucket : list (K * V)) (k : K) (v : V) : option (list (K * V)) :=
  match bucket with
  | [] => Some [(k, v)]
  | (k', v') :: bucket =>
      same ← key_equal k k';
      if (same : bool) then Some ((k', v) :: bucket) else bucket ← set_in bucket k v; Some ((k', v') :: bucket)
  end.
Fixpoint erase_in (bucket : list (K * V)) (k : K) : option (list (K * V)) :=
  match bucket with
  | [] => Some []
  | (k', v') :: bucket =>
      same ← key_equal k k';
      if (same : bool) then Some bucket else bucket ← erase_in bucket k; Some ((k', v') :: bucket)
  end.

Definition table_find (t : hash_table) (k : K) : option (option V) :=
  bucket ← t !! bucket_of t k; find_in bucket k.
Definition table_set (t : hash_table) (k : K) (v : V) : option hash_table :=
  bucket ← t !! bucket_of t k; bucket ← set_in bucket k v; Some (<[bucket_of t k := bucket]> t).
Definition table_erase (t : hash_table) (k : K) : option hash_table :=
  bucket ← t !! bucket_of t k; bucket ← erase_in bucket k; Some (<[bucket_of t k := bucket]> t).

(** The elements of all buckets go into [n] new ones. *)
Definition table_rehash (n : nat) (t : hash_table) : option hash_table :=
  foldr (fun e t' => t' ← t'; table_set t' (fst e) (snd e)) (Some (replicate n [])) (mjoin t).

Section Refinement.
(** The keys that are stored, and those that are looked for. *)
Context (W Q : K -> Prop).
Context (stored_searched : forall a, W a -> Q a).
Context (key_equal_law : forall a b, Q a -> W b -> key_equal a b = Some (bool_decide (a = b))).

Definition bucket_ok (b : list (K * V)) : Prop := NoDup (fst <$> b) /\ Forall (fun e => W (fst e)) b.

Lemma find_in_spec b k :
  bucket_ok b -> Q k -> find_in b k = Some ((list_to_map b : gmap K V) !! k).
Proof.
  intros [_ Hb] Hk. induction Hb as [|[k' v] b Hk' _ IH]; [f_equal; symmetry; apply lookup_empty|].
  cbn [find_in fst list_to_map foldr] in *. rewrite key_equal_law by done. cbn [mbind option_bind].
  case_bool_decide as E; [subst; by rewrite lookup_insert_eq|]. by rewrite lookup_insert_ne.
Qed.

Lemma set_in_spec b k v :
  bucket_ok b -> W k ->
  exists b', set_in b k v = Some b' /\ bucket_ok b' /\
    (forall k', k' ∈ fst <$> b' <-> k' = k \/ k' ∈ fst <$> b) /\
    (list_to_map b' : gmap K V) = <[k := v]> (list_to_map b).
Proof.
  intros [Hn Hb] Hk. induction Hb as [|[k' v'] b Hk' Hb IH].
  - exists [(k, v)]. split_and!; [done| |intros k'; cbn; by rewrite list_elem_of_singleton, elem_of_nil; tauto|done].
    split; [apply NoDup_singleton|by repeat constructor].
  - cbn [fmap list_fmap fst] in *. apply NoDup_cons in Hn as [Hni Hn]. cbn [set_in].
    rewrite key_equal_law by auto. cbn [mbind option_bind]. case_bool_decide as E.
    + subst k'. exists ((k, v) :: b). split_and!; [done| | |].
      * split; cbn [fmap list_fmap fst]; [by apply NoDup_cons|by constructor].
      * intros k'. cbn. rewrite !elem_of_cons. tauto.
      * cbn. by rewrite insert_insert_eq.
    + destruct (IH Hn) as (b' & -> & [Hn' Hb'] & Hk2 & Hm). exists ((k', v') :: b'). split_and!; [done| | |].
      * split; cbn [fmap list_fmap fst]; [|by constructor]. apply NoDup_cons. split; [|done].
        rewrite Hk2. intros [->|]; done.
      * intros k2. cbn. rewrite !elem_of_cons, Hk2. tauto.
      * cbn [list_to_map foldr fst snd]. rewrite Hm. by apply insert_insert_ne.
Qed.

Lemma erase_in_spec b k :
  bucket_ok b -> Q k ->
  exists b', erase_in b k = Some b' /\ bucket_ok b' /\
    (forall k', k' ∈ fst <$> b' -> k' ∈ fst <$> b) /\
    (list_to_map b' : gmap K V) = delete k (list_to_map b).
Proof.
  intros [Hn Hb] Hk. induction Hb as [|[k' v'] b Hk' Hb IH].
  - exists []. split_and!; [done|by split|done|symmetry; apply delete_empty].
  - cbn [fmap list_fmap fst] in *. apply NoDup_cons in Hn as [Hni Hn]. cbn [erase_in].
    rewrite key_equal_law by done. cbn [mbind option_bind]. case_bool_decide as E.
    + subst k'. exists b. split_and!; [done|by split|intros; cbn; by apply list_elem_of_further|].
      symmetry. apply delete_insert_id. by apply not_elem_of_list_to_map.
    + destruct (IH Hn) as (b' & -> & [Hn' Hb'] & Hk2 & Hm). exists ((k', v') :: b'). split_and!; [done| | |].
      * split; cbn [fmap list_fmap fst]; [|by constructor]. apply NoDup_cons. split; [|done]. intros ?%Hk2. done.
      * intros k2. cbn. rewrite !elem_of_cons. intros [->|?%Hk2]; tauto.
      * cbn [list_to_map foldr fst snd]. rewrite Hm. by rewrite delete_insert_ne.
Qed.

(** The table has the elements of the map, each in the bucket of its key. *)
Record represents (t : hash_table) (m : gmap K V) : Prop := {
  rep_size : (0 < length t)%nat;
  rep_bucket i b : t !! i = Some b -> bucket_ok b /\ forall k, k ∈ fst <$> b -> bucket_of t k = i;
  rep_lookup k b : Q k -> t !! bucket_of t k = Some b -> (list_to_map b : gmap K V) !! k = m !! k;
  rep_keys k : is_Some (m !! k) -> W k }.

Lemma bucket_exists t k : (0 < length t)%nat -> exists b, t !! bucket_of t k = Some b.
Proof.
  intros Hl. apply lookup_lt_is_Some_2. unfold bucket_of.
  pose proof (Z.mod_pos_bound (hash k) (Z.of_nat (length t)) ltac:(lia)). lia.
Qed.

Lemma bucket_of_insert t i b k : bucket_of (<[i := b]> t) k = bucket_of t k.
Proof. unfold bucket_of. by rewrite length_insert. Qed.

Lemma empty_represents n : (0 < n)%nat -> represents (replicate n []) ∅.
Proof.
  intros Hn. split.
  - by rewrite length_replicate.
  - intros i b [-> _]%lookup_replicate. split; [by split; constructor|]. intros k []%elem_of_nil.
  - intros k b _ [-> _]%lookup_replicate. done.
  - intros k [v Hv]. by rewrite lookup_empty in Hv.
Qed.

Lemma find_represents t m k : represents t m -> Q k -> table_find t k = Some (m !! k).
Proof.
  intros [Hl Hb Hm _] Hk. unfold table_find. destruct (bucket_exists t k Hl) as [b Eb]. rewrite Eb.
  cbn [mbind option_bind]. destruct (Hb _ _ Eb) as [Hok _]. by rewrite find_in_spec, Hm.
Qed.

(** A change of the bucket of [k] that changes nothing but what is found for [k]. *)
Lemma update_represents t m m' k b b' :
  represents t m -> (is_Some (m' !! k) -> W k) -> t !! bucket_of t k = Some b -> bucket_ok b' ->
  (forall k', k' ∈ fst <$> b' -> k' = k \/ k' ∈ fst <$> b) ->
  (forall k', Q k' -> (list_to_map b' : gmap K V) !! k' = if decide (k' = k) then m' !! k else (list_to_map b : gmap K V) !! k') ->
  (forall k', k' <> k -> m' !! k' = m !! k') ->
  represents (<[bucket_of t k := b']> t) m'.
Proof.
  intros [Hl Hb Hm Hk] Wk Eb Hok Hkeys Hb' Hm'. split.
  - by rewrite length_insert.
  - intros i b2 Hi. destruct (decide (i = bucket_of t k)) as [->|Hne].
    + rewrite list_lookup_insert_eq in Hi by (by eapply lookup_lt_Some). injection Hi as <-. split; [done|].
      intros k' [->|Hk']%Hkeys; rewrite bucket_of_insert; [done|]. by apply (Hb _ _ Eb).
    + rewrite list_lookup_insert_ne in Hi by done. destruct (Hb _ _ Hi) as [? Hbk]. split; [done|].
      intros k' Hk'. rewrite bucket_of_insert. by apply Hbk.
  - intros k' b2 Wk'. rewrite bucket_of_insert. intros Hi.
    destruct (decide (bucket_of t k' = bucket_of t k)) as [E|Hne].
    + rewrite E, list_lookup_insert_eq in Hi by (by eapply lookup_lt_Some). injection Hi as <-. rewrite Hb' by done.
      case_decide as D; [by subst|]. rewrite Hm' by done. apply Hm; [done|by rewrite E].
    + rewrite list_lookup_insert_ne in Hi by done. rewrite Hm' by (by intros ->). by apply Hm.
  - intros k' Hs. destruct (decide (k' = k)) as [->|Hne]; [by apply Wk|]. apply Hk. by rewrite <- Hm'.
Qed.

Lemma set_represents t m k v :
  represents t m -> W k -> exists t', table_set t k v = Some t' /\ represents t' (<[k := v]> m).
Proof.
  intros Hr Wk. destruct (bucket_exists t k (rep_size _ _ Hr)) as [b Eb]. unfold table_set. rewrite Eb.
  cbn [mbind option_bind]. destruct (rep_bucket _ _ Hr _ _ Eb) as [Hok _].
  destruct (set_in_spec b k v Hok Wk) as (b' & -> & Hok' & Hk' & Hm'). eexists. split; [reflexivity|].
  eapply update_represents; [done|done|done|done|by intros k' ?%Hk'| |].
  - intros k' _. rewrite Hm'. case_decide as D; [subst; by rewrite !lookup_insert_eq|by rewrite lookup_insert_ne].
  - intros k' Hne. by rewrite lookup_insert_ne.
Qed.

Lemma erase_represents t m k :
  represents t m -> Q k -> exists t', table_erase t k = Some t' /\ represents t' (delete k m).
Proof.
  intros Hr Wk. destruct (bucket_exists t k (rep_size _ _ Hr)) as [b Eb]. unfold table_erase. rewrite Eb.
  cbn [mbind option_bind]. destruct (rep_bucket _ _ Hr _ _ Eb) as [Hok _].
  destruct (erase_in_spec b k Hok Wk) as (b' & -> & Hok' & Hk' & Hm'). eexists. split; [reflexivity|].
  eapply update_represents; [done|by rewrite lookup_delete_eq; intros []|done|done|intros k' ?%Hk'; by right| |].
  - intros k' _. rewrite Hm'. case_decide as D; [subst; by rewrite !lookup_delete_eq|by rewrite lookup_delete_ne].
  - intros k' Hne. by rewrite lookup_delete_ne.
Qed.

(** Rehashing keeps the map: the elements of all buckets are those of the map. *)
Lemma joined_lookup t j b k :
  t !! j = Some b -> (forall i b', t !! i = Some b' -> i <> j -> k ∉ fst <$> b') ->
  (list_to_map (mjoin t) : gmap K V) !! k = (list_to_map b : gmap K V) !! k.
Proof.
  revert j. induction t as [|b0 t IH]; intros j Hj Hi; [done|]. cbn [mjoin list_join]. rewrite list_to_map_app.
  destruct j as [|j].
  - injection Hj as ->. destruct ((list_to_map b : gmap K V) !! k) eqn:E; [by apply lookup_union_Some_l|].
    rewrite lookup_union_r by done. apply not_elem_of_list_to_map_1. rewrite list_elem_of_fmap. intros (e & -> & He).
    apply list_elem_of_join in He as (b' & He & [i Hb']%list_elem_of_lookup).
    apply (Hi (S i) b' Hb' ltac:(lia)), list_elem_of_fmap. by exists e.
  - rewrite lookup_union_r by (apply not_elem_of_list_to_map_1, (Hi 0%nat b0); done).
    apply (IH j Hj). intros i b' Hb' Hne. apply (Hi (S i) b' Hb'). lia.
Qed.

Lemma rehash_represents n t m :
  (0 < n)%nat -> represents t m -> exists t', table_rehash n t = Some t' /\ represents t' m.
Proof.
  intros Hn Hr.
  assert (Hall : Forall (fun e : K * V => W (fst e)) (mjoin t)).
  { apply Forall_forall. intros e He. apply list_elem_of_join in He as (b & He & [i Hb]%list_elem_of_lookup).
    destruct (rep_bucket _ _ Hr _ _ Hb) as [[_ Hw] _]. rewrite Forall_forall in Hw. by apply Hw. }
  assert (E : (list_to_map (mjoin t) : gmap K V) = m).
  { apply map_eq. intros k. destruct (bucket_exists t k (rep_size _ _ Hr)) as [b Eb].
    rewrite (joined_lookup t (bucket_of t k) b k Eb).
    - destruct (m !! k) eqn:Em; [rewrite <- Em; apply (rep_lookup _ _ Hr); [apply stored_searched, (rep_keys _ _ Hr); by eexists|done]|].
      destruct ((list_to_map b : gmap K V) !! k) as [v|] eqn:Ev; [|done].
      apply elem_of_list_to_map_2 in Ev as He. destruct (rep_bucket _ _ Hr _ _ Eb) as [[_ Hw] _].
      rewrite Forall_forall in Hw. rewrite (rep_lookup _ _ Hr k b (stored_searched _ (Hw _ He)) Eb) in Ev. congruence.
    - intros i b' Hb' Hne Hin. destruct (rep_bucket _ _ Hr _ _ Hb') as [_ Hk]. by apply Hne, eq_sym, Hk. }
  rewrite <- E. unfold table_rehash. clear E Hr m. induction Hall as [|e l He _ IH].
  - eexists. split; [reflexivity|by apply empty_represents].
  - destruct IH as (t' & Et & Hr). cbn [foldr]. rewrite Et. cbn [mbind option_bind].
    by apply set_represents.
Qed.

(** A history of the table: what its lookups answer, and the table it ends with. *)
Inductive operation : Type :=
  | Find (k : K)
  | Set_ (k : K) (v : V)
  | Erase (k : K)
  | Rehash (n : nat).

Fixpoint run_table (ops : list operation) (t : hash_table) : option (list (option V) * hash_table) :=
  match ops with
  | [] => Some ([], t)
  | Find k :: ops => a ← table_find t k; '(l, t) ← run_table ops t; Some (a :: l, t)
  | Set_ k v :: ops => t ← table_set t k v; run_table ops t
  | Erase k :: ops => t ← table_erase t k; run_table ops t
  | Rehash n :: ops => t ← table_rehash n t; run_table ops t
  end.

Fixpoint run_map (ops : list operation) (m : gmap K V) : list (option V) * gmap K V :=
  match ops with
  | [] => ([], m)
  | Find k :: ops => let '(l, m') := run_map ops m in (m !! k :: l, m')
  | Set_ k v :: ops => run_map ops (<[k := v]> m)
  | Erase k :: ops => run_map ops (delete k m)
  | Rehash n :: ops => run_map ops m
  end.

Definition operation_ok (o : operation) : Prop :=
  match o with Find k | Erase k => Q k | Set_ k _ => W k | Rehash n => (0 < n)%nat end.

Lemma run_refines ops t m :
  Forall operation_ok ops -> represents t m ->
  exists t', run_table ops t = Some (fst (run_map ops m), t') /\ represents t' (snd (run_map ops m)).
Proof.
  intros Ho. revert t m. induction Ho as [|o ops Hk _ IH]; intros t m Hr; [by exists t|].
  destruct o as [k|k v|k|n]; cbn [run_table run_map operation_ok] in *.
  - rewrite (find_represents t m k) by done. cbn [mbind option_bind]. destruct (IH t m Hr) as (t' & -> & Hr').
    cbn [mbind option_bind]. destruct (run_map ops m). by exists t'.
  - destruct (set_represents t m k v Hr Hk) as (t1 & -> & Hr1). by apply IH.
  - destruct (erase_represents t m k Hr Hk) as (t1 & -> & Hr1). by apply IH.
  - destruct (rehash_represents n t m Hk Hr) as (t1 & -> & Hr1). by apply IH.
Qed.

End Refinement.
End HashTable.

(** * The tables of the server *)

Section ServerTables.
Context {V : Type} (hash_string : string -> Z).

(** C15: Whatever the hash of strings is, and however often the table grows, a table that the server
    keys by its connections answers every history of lookups, assignments and erasures as the
    finite map does, and no comparison reads behind an address.  The keys that are stored have
    the address of a connected raw socket, in 4 bytes over IPv4 and 6 over IPv6 and not all
    zeros; those that are looked for and erased may have instead the zeros of a socket that
    could not be made, bound or connected. *)
Theorem server_table_refines (ops : list (@operation QVPNServerSocketData.t V)) n :
  (0 < n)%nat -> Forall (operation_ok stored_key searched_key) ops ->
  exists t,
    run_table (hash_server_socket_data hash_string) ServerKey.eqb ops (replicate n []) =
      Some (fst (run_map ops ∅), t) /\
    represents (hash_server_socket_data hash_string) stored_key searched_key t (snd (run_map ops ∅)).
Proof.
  intros Hn Ho. apply run_refines; [apply stored_searched_key|apply server_eqb|done|by apply empty_represents].
Qed.

End ServerTables.

(** Why a stored address must not be all zeros: the key that a search begins with would be
    compared with it beyond its end.  And keys of different sizes that agree as far as the
    shorter goes break the contract of the table: these two are equal in one order, undefined in
    the other, and have different texts to hash. *)
Definition short_key : QVPNServerSocketData.t :=
  QVPNServerSocketData.mk IPv4 TCP [10; 0; 0; 1] [10; 0; 0; 2] 5000 [1; 2; 3; 4] 80.
Definition with_local (k : QVPNServerSocketData.t) (local : list Z) : QVPNServerSocketData.t :=
  QVPNServerSocketData.mk (QVPNServerSocketData.net_proto k) (QVPNServerSocketData.transport_proto k)
    (QVPNServerSocketData.client_local_addr k) local (QVPNServerSocketData.local_port k)
    (QVPNServerSocketData.remote_addr k) (QVPNServerSocketData.remote_port k).

Lemma mixed_keys_break_contract :
  let long_key := with_local short_key ([10; 0; 0; 2] ++ replicate 12 0) in
  ServerKey.eqb short_key long_key = Some true /\ ServerKey.eqb long_key short_key = None /\
  ServerKey.to_string short_key <> ServerKey.to_string long_key /\
  ServerKey.eqb (with_local short_key NetAddr.default) (with_local short_key [0; 0; 0; 0]) = None.
Proof. split_and!; [reflexivity|reflexivity|vm_compute; discriminate|reflexivity]. Qed.

Lemma short_key_ok : stored_key short_key.
Proof.
  unfold stored_key, server_key, family_size, local_addr_size. cbn. split_and!; try concrete.
Qed.

Lemma unset_key_ok : searched_key (with_local short_key NetAddr.default).
Proof.
  unfold searched_key, server_key, family_size, local_addr_size. cbn. split_and!; try concrete.
Qed.

Lemma server_table_refines_witness :
  let unset := with_local short_key NetAddr.default in
  exists t,
    run_table (hash_server_socket_data (fun s => Z.of_nat (String.length s))) ServerKey.eqb
      [Find short_key; Set_ short_key 3%nat; Rehash 7; Find unset; Find short_key; Erase short_key; Find short_key]
      (replicate 2 []) =
      Some ([None; None; Some 3%nat; None], t) /\
    represents (hash_server_socket_data (fun s => Z.of_nat (String.length s))) stored_key searched_key t ∅.
Proof.
  intros unset. pose proof short_key_ok as Hs. pose proof (stored_searched_key _ Hs) as Hk. pose proof unset_key_ok as Hu.
  apply (server_table_refines (fun s => Z.of_nat (String.length s))
    [Find short_key; Set_ short_key 3%nat; Rehash 7; Find unset; Find short_key; Erase short_key; Find short_key] 2 ltac:(lia)).
  repeat (apply Forall_cons; split; [first [exact Hk|exact Hs|exact Hu|cbn; lia]|]). by apply Forall_nil.
Defined.
