(* ===== verification/Forward.v ===== *)
(** What the server makes of a decoded packet: the headers and the packet that
    [QVPNServerDriver::vpn_request_loop_iteration] sends through the raw socket of the
    connection (src/QVPN/QVPN Lib/include/qvpn_driver.hpp). *)
From S2P Require Import Prelude Checksum Addr Transport Ipv4 Tcp Udp QTunnel FullPacket PacketView SocketFilter.

Module QVPNServerForward.

(** The variants of header and packet objects.  A dummy header has no bytes. *)
Inductive NetPacketObjectType : Type :=
  | NetIpv4 (h : mem)
  | NetDummy.
Inductive TransportPacketObjectType : Type :=
  | TransportTcp (h : mem)
  | TransportUdp (h : mem)
  | TransportDummy.
Inductive FullPacketObjectType : Type :=
  | FullTcp (p : Ipv4TcpPacket.t)
  | FullUdp (p : Ipv4UdpPacket.t)
  | FullDummy.

(** The key of a decoded packet, and [connect_to_server_impl_]'s update of it with the
    address of the raw socket. *)
Definition connection_key (decoded_data : QTunnelProxy.t) : QVPNServerSocketData.t :=
  QVPNServerSocketData.mk
    (QTunnelProxy.get_net_proto decoded_data) (QTunnelProxy.get_transport_proto decoded_data)
    (QTunnelProxy.get_src_addr decoded_data) NetAddr.default
    (QTunnelProxy.get_src_port decoded_data)
    (QTunnelProxy.get_dst_addr decoded_data) (QTunnelProxy.get_dst_port decoded_data).
Definition set_server_local_addr (key : QVPNServerSocketData.t) (addr : list Z) :
    QVPNServerSocketData.t :=
  QVPNServerSocketData.mk (QVPNServerSocketData.net_proto key)
    (QVPNServerSocketData.transport_proto key) (QVPNServerSocketData.client_local_addr key) addr
    (QVPNServerSocketData.local_port key) (QVPNServerSocketData.remote_addr key)
    (QVPNServerSocketData.remote_port key).

Section Generate.
Context {S : Type} `{IPv4GenStrategyLike S}.

Definition generate_net_header (ip4_strategy : S) (data : QTunnelProxy.t)
    (key : QVPNServerSocketData.t) (total_len : Z) (dont_fragment more_fragment : bool)
    (offset : Z) : option (NetPacketObjectType * S) :=
  if QTunnelProxy.get_net_proto data =? IPv4 then
    '(obj, ip4_strategy) ← generate_object ip4_strategy
       (QVPNServerSocketData.server_local_addr key) (QTunnelProxy.get_dst_addr data)
       (QTunnelProxy.get_transport_proto data) total_len dont_fragment more_fragment offset;
    Some (NetIpv4 obj, ip4_strategy)
  else Some (NetDummy, ip4_strategy).

(** The scheme's getters and the generator are those of [new_packet_by_this], with the
    ports of the key and of the proxy data. *)
Definition generate_transport_header (data : QTunnelProxy.t) (key : QVPNServerSocketData.t) :
    option TransportPacketObjectType :=
  let '(b, e) := QTunnelProxy.get_proto_data_bytes data in
  if QTunnelProxy.get_transport_proto data =? TCP then
    obj ← t_generate (TransportObject := tcp_object) (QTunnelProxy.proto_data data) b e
            (QVPNServerSocketData.local_port key) (QTunnelProxy.get_dst_port data);
    Some (TransportTcp obj)
  else if QTunnelProxy.get_transport_proto data =? UDP then
    obj ← t_generate (TransportObject := udp_object) (QTunnelProxy.proto_data data) b e
            (QVPNServerSocketData.local_port key) (QTunnelProxy.get_dst_port data);
    Some (TransportUdp obj)
  else Some TransportDummy.

(** [std::visit] of [get_transport_length]. *)
Definition get_transport_length (t : TransportPacketObjectType) : option Z :=
  match t with
  | TransportTcp h => TcpPacketLittleEndian.get_transport_length h
  | TransportUdp h => UdpPacketLittleEndian.get_transport_length h
  | TransportDummy => Some 0
  end.

(** [to_view().to_bytes()] of a variant: a buffer and two offsets into it. *)
Definition net_view_bytes (n : NetPacketObjectType) : option (mem * Z * Z) :=
  match n with
  | NetIpv4 h =>
      net_view ← Ipv4PacketLittleEndian.to_view h;
      let '(b, e) := Ipv4PacketView.to_bytes net_view in Some (h, b, e)
  | NetDummy => Some ([], 0, 0)
  end.
Definition transport_view_bytes (t : TransportPacketObjectType) : option (mem * Z * Z) :=
  match t with
  | TransportTcp h =>
      t_view ← TcpPacketLittleEndian.to_view h;
      let '(b, e) := TcpPacketView.to_bytes t_view in Some (h, b, e)
  | TransportUdp h =>
      let '(b, e) := UdpPacketView.to_bytes (UdpPacketLittleEndian.to_view h) in Some (h, b, e)
  | TransportDummy => Some ([], 0, 0)
  end.

Definition generate_full_packet (data : QTunnelProxy.t) (net : NetPacketObjectType)
    (transport : TransportPacketObjectType) (m : mem) (begin_ end_ : Z) :
    option FullPacketObjectType :=
  let t_proto := QTunnelProxy.get_transport_proto data in
  if t_proto =? TCP then
    '(nm, n_b, n_e) ← net_view_bytes net;
    '(tm, t_b, t_e) ← transport_view_bytes transport;
    p ← Ipv4TcpPacket.of_parts nm n_b n_e tm t_b t_e m begin_ end_; Some (FullTcp p)
  else if t_proto =? UDP then
    '(nm, n_b, n_e) ← net_view_bytes net;
    '(tm, t_b, t_e) ← transport_view_bytes transport;
    p ← Ipv4UdpPacket.of_parts nm n_b n_e tm t_b t_e m begin_ end_; Some (FullUdp p)
  else Some FullDummy.

(** The visitor at the end of [generate_sender_packet]; its result is not used. *)
Definition recalculate_checksums (packet : FullPacketObjectType) : option FullPacketObjectType :=
  match packet with
  | FullTcp p =>
      p ← Ipv4TcpPacket.recalculate_checksums p;
      full_size ← Ipv4TcpPacket.get_full_packet_length p; Some (FullTcp p)
  | FullUdp p =>
      p ← Ipv4UdpPacket.recalculate_checksums p;
      full_size ← Ipv4UdpPacket.get_full_packet_length p; Some (FullUdp p)
  | FullDummy => Some FullDummy
  end.

Definition generate_sender_packet (ip4_strategy : S) (data : QTunnelProxy.t)
    (key : QVPNServerSocketData.t) (m : mem) (begin_ end_ : Z) :
    option (FullPacketObjectType * S) :=
  let packet_data_size := u16 (end_ - begin_) in
  t_header ← generate_transport_header data key;
  t_size ← get_transport_length t_header;
  '(n_header, ip4_strategy) ← generate_net_header ip4_strategy data key
      (u16 (t_size + packet_data_size)) true false 0;
  packet ← generate_full_packet data n_header t_header m begin_ end_;
  packet ← recalculate_checksums packet;
  Some (packet, ip4_strategy).

End Generate.

(** What the raw socket sends: the visitor of [bytes()]. *)
Definition packet_bytes (packet : FullPacketObjectType) : option mem :=
  match packet with
  | FullTcp p => let '(b, e) := Ipv4TcpPacket.bytes p in range (PacketObject.data_ p) b e
  | FullUdp p => let '(b, e) := Ipv4UdpPacket.bytes p in range (PacketObject.data_ p) b e
  | FullDummy => Some []
  end.

End QVPNServerForward.

(** * The packet object *)

Import QVPNServerForward.

(** Building the packet from its parts and recomputing the checksums. *)
Lemma object_ok {T : TransportView} {L : TransportViewLaws T} h t m b e l :
  bytes h -> ip_whole h -> msize h = 20 -> bytes t -> tv_whole t -> bytes l ->
  msize t + msize l < 65516 -> range m b e = Some l ->
  exists n tr ph,
    (p ← PacketObject.of_parts h 0 (msize h) t 0 (msize t) m b e;
     PacketObject.recalculate_checksums p) = Some (PacketObject.mk (n ++ tr ++ l) (views_at 0 t l)) /\
    (let '(b', e') := PacketView.bytes (views_at 0 t l) in range (n ++ tr ++ l) b' e') =
      Some (n ++ tr ++ l) /\
    receiver_pseudo n = Some ph /\ verifies (total n) /\ verifies (total ph + total tr + total l) /\
    msize n = 20 /\ (forall q, q <> 10 -> q <> 11 -> load n q = load h q) /\ msize tr = msize t /\
    (forall q, q <> @checksum_at tv_object tv_laws -> q <> @checksum_at tv_object tv_laws + 1 ->
       load tr q = load t q).
Proof.
  intros Bh Wh Sh Bt Wt Bl Sz Hl. destruct (tv_whole_wf t Bt Wt) as (Wo & Et & Mt).
  assert (Hwf : packet_wf (T := tv_object) (FullPacket.mk h t l [])).
  { unfold packet_wf. cbn. rewrite Sh. pose proof (msize_nonneg l). split_and!; done || lia. }
  destruct (checksums_ok _ Hwf) as (n & tr & ph & Hr & Hph & Hv & Hvt & Bn & Sn & Hqn & _ & St & Hqt).
  cbn [FullPacket.net FullPacket.transport FullPacket.payload FullPacket.data_] in *.
  exists n, tr, ph. split_and!; try done; [| |lia].
  - rewrite (of_parts_ok h t m b e l) by done. cbn [mbind option_bind].
    unfold PacketObject.recalculate_checksums. cbn [PacketObject.data_ PacketObject.views].
    pose proof (checksums_refine [] [] h t l [] n tr l []) as R. change (msize []) with 0 in R.
    assert (El : forall x y, x ++ y ++ l = packet_in [] [] x y l) by (intros; unfold packet_in; by rewrite app_nil_r).
    rewrite El, R; [cbn [mbind option_bind]; by rewrite El| |done|by apply tv_sized_law|done|done].
    apply packet_in_bytes. split_and!; try done; by apply Forall_nil.
  - rewrite views_bytes by done.
    replace (0 + 20 + msize t + msize l) with (msize (n ++ tr ++ l)) by (rewrite !msize_app; lia).
    apply range_full.
Qed.

(** * The IPv4 header *)

(** The header of a forwarded packet, as an object and through its view. *)
Lemma net_header_ok last px key local len :
  QTunnelProxy.net_protocol px = IPv4 -> is_u16 last -> is_u8 (QTunnelProxy.transport_protocol px) ->
  bytes (QTunnelProxy.dst_addr px) -> msize (QTunnelProxy.dst_addr px) = 4 ->
  bytes local -> msize local = 4 -> QVPNServerSocketData.server_local_addr key = local ->
  0 <= len < 65516 ->
  exists h s', generate_net_header (IPv4DefaultGenStrategy.mk last) px key len true false 0 =
      Some (NetIpv4 h, s') /\ net_view_bytes (NetIpv4 h) = Some (h, 0, msize h) /\
    ip_whole h /\ bytes h /\ msize h = 20 /\
    Ipv4PacketLittleEndian.get_ip_header_length h = Some 5 /\
    Ipv4PacketLittleEndian.get_ip_total_length h = Some (len + 20) /\
    Ipv4PacketLittleEndian.get_ip_protocol h = Some (QTunnelProxy.transport_protocol px) /\
    Ipv4PacketLittleEndian.get_src_addr h = Some local /\
    Ipv4PacketLittleEndian.get_dst_addr h = Some (QTunnelProxy.dst_addr px).
Proof.
  intros Hnet Hlast Hp Bd Ld Bl Ll Hk Hlen.
  destruct (ipv4_generate_fields last local (QTunnelProxy.dst_addr px)
    (QTunnelProxy.transport_protocol px) len true false 0)
    as (h & Hg & Bh & Sh & _ & Hihl & Htl & _ & _ & _ & _ & Hpr & Hs & Hd & _); try done.
  assert (Hw : ip_whole h).
  { split; [lia|]. unfold Ipv4PacketLittleEndian.get_ip_header_length in Hihl.
    apply bind_Some in Hihl as (a & Ha & [= E]). exists a. split; [done|lia]. }
  eexists h, _. split; [|split_and!; try done].
  - unfold generate_net_header, QTunnelProxy.get_net_proto, QTunnelProxy.get_dst_addr,
      QTunnelProxy.get_transport_proto. rewrite Hnet, Hk, Z.eqb_refl. unfold generate_object.
    rewrite Hg. cbn [mbind option_bind]. by rewrite ip_make_whole.
  - unfold net_view_bytes, Ipv4PacketLittleEndian.to_view, Ipv4PacketView.make,
      Ipv4PacketView.parse_packet, Ipv4PacketView.ihl_at.
    unfold Ipv4PacketLittleEndian.get_ip_header_length in Hihl.
    apply bind_Some in Hihl as (a & Ha & [= E]). rewrite Ha. cbn [mbind option_bind]. rewrite E.
    by rewrite Sh.
Qed.

(** The checksums change neither the lengths nor the addresses. *)
Lemma ip_fields_ext n h :
  msize n = msize h -> 20 <= msize h -> (forall q, q <> 10 -> q <> 11 -> load n q = load h q) ->
  Ipv4PacketLittleEndian.get_ip_total_length n = Ipv4PacketLittleEndian.get_ip_total_length h /\
  Ipv4PacketLittleEndian.get_src_addr n = Ipv4PacketLittleEndian.get_src_addr h /\
  Ipv4PacketLittleEndian.get_dst_addr n = Ipv4PacketLittleEndian.get_dst_addr h.
Proof.
  intros Hs Hm Hq. split_and!.
  - apply (load16_ext h n 2); apply Hq; lia.
  - apply range_ext; [lia|]. intros i Hi. apply Hq; lia.
  - apply range_ext; [lia|]. intros i Hi. apply Hq; lia.
Qed.

(** * TCP *)

(** Lengths and bytes of a transport header the tunnel has restored. *)
Lemma tcp_header_ok h :
  bytes h -> tcp_whole h ->
  get_transport_length (TransportTcp h) = Some (msize h) /\
  transport_view_bytes (TransportTcp h) = Some (h, 0, msize h).
Proof.
  intros Hb Hw. pose proof (tcp_whole_size h Hb Hw). pose proof Hw as (Hs & a & Ha & Hl). split.
  - cbn [get_transport_length]. unfold TcpPacketLittleEndian.get_transport_length,
      TcpPacketLittleEndian.get_tcp_header_length. rewrite Ha. cbn [mbind option_bind].
    rewrite u16_id by (unfold is_u16; lia). f_equal. lia.
  - cbn [transport_view_bytes]. rewrite tcp_to_view by done. cbn [mbind option_bind].
    unfold TcpPacketView.to_bytes. cbn [TcpPacketView.tcp_header_ TcpPacketView.options_
      TcpPacketView.tcp_options_size]. by replace (20 + (msize h - 20)) with (msize h) by lia.
Qed.

(** The packet sent for a TCP header [h1] generated from the proxy data. *)
Lemma tcp_sender_ok last px local m b e l h1 :
  let key := set_server_local_addr (connection_key px) local in
  QTunnelProxy.net_protocol px = IPv4 -> QTunnelProxy.transport_protocol px = TCP ->
  bytes (QTunnelProxy.dst_addr px) -> msize (QTunnelProxy.dst_addr px) = 4 ->
  bytes local -> msize local = 4 -> is_u16 last ->
  bytes l -> msize l < 65000 -> range m b e = Some l ->
  t_generate (TransportObject := tcp_object) (QTunnelProxy.proto_data px) 0
    (msize (QTunnelProxy.proto_data px)) (QTunnelProxy.source_port px) (QTunnelProxy.dst_port px) = Some h1 ->
  bytes h1 -> tcp_whole h1 ->
  exists n tr ph s',
    generate_sender_packet (IPv4DefaultGenStrategy.mk last) px key m b e =
      Some (FullTcp (PacketObject.mk (n ++ tr ++ l) (views_at (T := tcp_view) 0 h1 l)), s') /\
    packet_bytes (FullTcp (PacketObject.mk (n ++ tr ++ l) (views_at (T := tcp_view) 0 h1 l))) =
      Some (n ++ tr ++ l) /\
    Ipv4PacketLittleEndian.get_src_addr n = Some local /\
    Ipv4PacketLittleEndian.get_dst_addr n = Some (QTunnelProxy.dst_addr px) /\
    Ipv4PacketLittleEndian.get_ip_total_length n = Some (msize (n ++ tr ++ l)) /\
    (receiver_pseudo n = Some ph /\ verifies (total n) /\ verifies (total ph + total (tr ++ l))) /\
    msize n = 20 /\ msize tr = msize h1 /\ (forall q, q <> 16 -> q <> 17 -> load tr q = load h1 q).
Proof.
  intros key Hnet Htp Bd Ld Bl Ll Hlast Bp Sl Hl Eg B1 W1.
  pose proof (tcp_whole_size h1 B1 W1) as Z1. pose proof (msize_nonneg l) as Nl.
  destruct (tcp_header_ok h1 B1 W1) as [T1 T2].
  destruct (net_header_ok last px key local (msize h1 + msize l) Hnet Hlast)
    as (h & s' & G & V & Wh & Bh & Sh & _ & Tl & _ & As & Ad); [rewrite Htp; by unfold is_u8, TCP|done..|lia|].
  destruct (object_ok (T := tcp_view) h h1 m b e l) as (n & tr & ph & Hr & Hb & Hph & Hv & Hvt & Sn & Hqn & St & Hqt);
    [done..|lia|done|].
  destruct (ip_fields_ext n h) as (E1 & E2 & E3); [lia|lia|done|].
  assert (Htl : Ipv4PacketLittleEndian.get_ip_total_length n = Some (msize (n ++ tr ++ l))).
  { rewrite E1, Tl, !msize_app. f_equal. lia. }
  apply bind_Some in Hr as (p & Hp & Hr).
  exists n, tr, ph, s'. split_and!; [|exact Hb|by rewrite E2|by rewrite E3|done|done|done| |done|done|exact Hqt].
  - unfold generate_sender_packet, generate_transport_header, QTunnelProxy.get_proto_data_bytes,
      QTunnelProtoData.to_bytes, QTunnelProxy.get_transport_proto, QTunnelProxy.get_dst_port.
    rewrite Htp, Z.eqb_refl. cbn [key set_server_local_addr connection_key QVPNServerSocketData.local_port].
    unfold QTunnelProxy.get_src_port. rewrite Eg. cbn [mbind option_bind]. rewrite T1.
    cbn [mbind option_bind]. destruct (range_Some _ _ _ _ Hl) as (_ & _ & <- & _).
    rewrite (u16_id (msize l)), u16_id by (unfold is_u16; lia). fold key. rewrite G.
    cbn [mbind option_bind]. unfold generate_full_packet, QTunnelProxy.get_transport_proto.
    rewrite Htp, Z.eqb_refl, V. cbn [mbind option_bind]. rewrite T2. cbn [mbind option_bind].
    unfold Ipv4TcpPacket.of_parts. rewrite Hp. cbn [mbind option_bind recalculate_checksums].
    unfold Ipv4TcpPacket.recalculate_checksums. rewrite Hr. cbn [mbind option_bind].
    assert (exists full, Ipv4TcpPacket.get_full_packet_length
      (PacketObject.mk (n ++ tr ++ l) (views_at (T := tcp_view) 0 h1 l)) = Some full) as [full ->]; [|done].
    eexists. apply (net_getters_inside [] (tr ++ l) n). exact Htl.
  - rewrite total_app, Z.add_assoc; [done|]. rewrite St. destruct W1 as (_ & a1 & _ & ->).
    by rewrite Z.even_mul.
Qed.

(** C12: The server forwards a TCP packet: from the metadata that the client collected of a
    captured packet, the bytes the server sends have the client's TCP header, octet for octet
    besides ports and checksum, except that the reserved bits and NS are cleared and a header
    with NS leaves with SYN set ([carried]); they go from the address of the connection's socket and the client's
    port to the destination the client named, with the client's payload; their total length is their size and a receiver's
    sums over the header and over pseudo-header, transport header and payload verify. *)
Theorem tcp_forwarded last pre post n0 t l0 p px local m b e l :
  bytes t -> tcp_whole t -> ip_whole n0 -> msize n0 = 20 ->
  Ipv4TcpPacket_View.of_bytes (packet_in pre post n0 t l0) (msize pre)
    (msize pre + 20 + msize t + msize l0) = Some p ->
  Ipv4TcpPacket_View.collect_proto_data (packet_in pre post n0 t l0) p = Some (QTunnelProxy.proto_data px) ->
  QTunnelProxy.net_protocol px = IPv4 -> QTunnelProxy.transport_protocol px = TCP ->
  is_u16 (QTunnelProxy.source_port px) -> is_u16 (QTunnelProxy.dst_port px) ->
  bytes (QTunnelProxy.dst_addr px) -> msize (QTunnelProxy.dst_addr px) = 4 ->
  bytes local -> msize local = 4 -> is_u16 last ->
  bytes l -> msize l < 65000 -> range m b e = Some l ->
  exists packet n tr ph s',
    generate_sender_packet (IPv4DefaultGenStrategy.mk last) px
      (set_server_local_addr (connection_key px) local) m b e = Some (packet, s') /\
    packet_bytes packet = Some (n ++ tr ++ l) /\
    carried t tr /\
    range tr 20 (msize tr) = range t 20 (msize t) /\
    TcpPacketLittleEndian.get_tcp_src_port tr = Some (QTunnelProxy.source_port px) /\
    TcpPacketLittleEndian.get_tcp_dst_port tr = Some (QTunnelProxy.dst_port px) /\
    Ipv4PacketLittleEndian.get_src_addr n = Some local /\
    Ipv4PacketLittleEndian.get_dst_addr n = Some (QTunnelProxy.dst_addr px) /\
    Ipv4PacketLittleEndian.get_ip_total_length n = Some (msize (n ++ tr ++ l)) /\
    receiver_pseudo n = Some ph /\ verifies (total n) /\ verifies (total ph + total (tr ++ l)).
Proof.
  intros Bt Wt Wn Sn Hp Hc Hnet Htp Hsp Hdp Bd Ld Bl Ll Hlast Bp Sl Hl.
  destruct (tcp_collected pre post n0 t l0 p _ _ _ Bt Wt Wn Sn Hsp Hdp Hp Hc)
    as (h1 & _ & Eg & B1 & W1 & S1 & P1 & P2 & F & O).
  destruct (tcp_sender_ok last px local m b e l h1) as (n & tr & ph & s' & Hs & Hb & As & Ad & Tl & R & _ & St & Hqt);
    try done.
  destruct (carried_ext tr h1 St Hqt) as (F' & O' & P1' & P2').
  exists (FullTcp (PacketObject.mk (n ++ tr ++ l) (views_at (T := tcp_view) 0 h1 l))), n, tr, ph, s'.
  split_and!; [exact Hs|exact Hb|by apply (carried_keep _ h1)
    |by rewrite O', O|by rewrite P1'|by rewrite P2'|done|done|done|apply R..].
Qed.

Lemma tcp_forwarded_witness :
  let px := QTunnelProxy.mk IPv4 TCP [10; 0; 0; 2] 50000 [8; 8; 8; 8] 443
    [0; 15; 80; 80; 80; 80; 80; 80; 80; 80; 0; 80; 5; 80; 80; 80; 80] in
  exists packet n tr s',
    generate_sender_packet (IPv4DefaultGenStrategy.mk 0) px
      (set_server_local_addr (connection_key px) [192; 0; 2; 7]) [1; 2; 3] 0 3 = Some (packet, s') /\
    packet_bytes packet = Some (n ++ tr ++ [1; 2; 3]) /\
    Ipv4PacketLittleEndian.get_src_addr n = Some [192; 0; 2; 7].
Proof.
  intros px.
  destruct (tcp_forwarded 0 [] [0] (69 :: repeat 7 19) (repeat 80 20) [9]
    (views_at (T := tcp_view) 0 (repeat 80 20) [9]) px [192; 0; 2; 7] [1; 2; 3] 0 3 [1; 2; 3])
    as (packet & n & tr & ph & s' & H & Hb & _ & _ & _ & _ & Hs & _);
    [concrete|split; [vm_compute; discriminate|exists 80; by split]
    |split; [vm_compute; discriminate|exists 69; by split]|reflexivity|reflexivity|reflexivity|reflexivity|reflexivity
    |concrete|concrete|concrete|reflexivity|concrete|reflexivity|concrete|concrete|reflexivity|reflexivity|].
  exists packet, n, tr, s'. split; [exact H|split; [exact Hb|exact Hs]].
Defined.

(** * UDP *)

(** The two ways the code reads an address agree. *)
Lemma ip_source_range h src :
  msize src = 4 -> Ipv4PacketLittleEndian.get_src_addr h = Some src ->
  Ipv4PacketLittleEndian.get_ip_source h = Some src.
Proof.
  intros Ls H. destruct (list4 src Ls) as (x & y & z & w & ->).
  destruct (range_Some _ _ _ _ H) as (_ & _ & _ & Hi). unfold Ipv4PacketLittleEndian.get_ip_source.
  pose proof (Hi 0 ltac:(done)) as H0. pose proof (Hi 1 ltac:(done)) as H1.
  pose proof (Hi 2 ltac:(done)) as H2. pose proof (Hi 3 ltac:(done)) as H3.
  change (12 + 0) with 12 in H0. change (12 + 1) with 13 in H1.
  change (12 + 2) with 14 in H2. change (12 + 3) with 15 in H3.
  by rewrite <- H0, <- H1, <- H2, <- H3.
Qed.

Lemma ip_dest_range h dst :
  msize dst = 4 -> Ipv4PacketLittleEndian.get_dst_addr h = Some dst ->
  Ipv4PacketLittleEndian.get_ip_dest h = Some dst.
Proof.
  intros Ls H. destruct (list4 dst Ls) as (x & y & z & w & ->).
  destruct (range_Some _ _ _ _ H) as (_ & _ & _ & Hi). unfold Ipv4PacketLittleEndian.get_ip_dest.
  pose proof (Hi 0 ltac:(done)) as H0. pose proof (Hi 1 ltac:(done)) as H1.
  pose proof (Hi 2 ltac:(done)) as H2. pose proof (Hi 3 ltac:(done)) as H3.
  change (16 + 0) with 16 in H0. change (16 + 1) with 17 in H1.
  change (16 + 2) with 18 in H2. change (16 + 3) with 19 in H3.
  by rewrite <- H0, <- H1, <- H2, <- H3.
Qed.

(** The pseudo-header of RFC 768 for a datagram of [len] bytes, and its sum. *)
Definition pseudo (src dst : list Z) (protocol len : Z) : mem :=
  src ++ dst ++ [0; protocol; octet 1 len; octet 0 len].

Lemma total_pseudo src dst protocol len :
  msize src = 4 -> msize dst = 4 -> is_u16 len ->
  total (pseudo src dst protocol len) = total src + total dst + protocol + len.
Proof.
  intros Ls Ld Hl. unfold pseudo. rewrite !total_app by (by rewrite ?Ls, ?Ld).
  rewrite !total_cons2, octet1, octet0. unfold is_u16 in Hl. change (total []) with 0.
  Z.div_mod_to_equations. lia.
Qed.

(** Two sums that differ by less than 65535 do not both verify. *)
Lemma verifies_unique x d : 0 < d < 65535 -> verifies x -> ~ verifies (x - d).
Proof.
  unfold verifies, ones_sum. intros Hd Hx Hy.
  destruct (Z.eqb_spec x 0); [done|]. destruct (Z.eqb_spec (x - d) 0); [done|].
  Z.div_mod_to_equations. lia.
Qed.

(** The bytes of a generated UDP header. *)
Lemma udp_header_ok sp dp len :
  let h := UdpPacketLittleEndian.generate_object_bytes sp dp len in
  is_u16 sp -> is_u16 dp -> is_u16 len ->
  bytes h /\ msize h = 8 /\ UdpPacketLittleEndian.get_udp_src_port h = Some sp /\
  UdpPacketLittleEndian.get_udp_dst_port h = Some dp /\ UdpPacketLittleEndian.get_udp_length h = Some len /\
  get_transport_length (TransportUdp h) = Some (u16 (len * 4)) /\
  transport_view_bytes (TransportUdp h) = Some (h, 0, 8).
Proof.
  intros h Hs Hd Hl.
  assert (L : UdpPacketLittleEndian.get_udp_length h = Some len)
    by (refine (f_equal Some (cat16_octets _ Hl))).
  split_and!; [|done| | |done| |done].
  - unfold h, UdpPacketLittleEndian.generate_object_bytes.
    repeat first [apply Forall_cons_2 | apply Forall_nil_2]; auto with qvpn; by unfold is_u8.
  - refine (f_equal Some (cat16_octets _ Hs)).
  - refine (f_equal Some (cat16_octets _ Hd)).
  - cbn [get_transport_length]. unfold UdpPacketLittleEndian.get_transport_length. by rewrite L.
Qed.

(** What the tunnel collects of a UDP header and generates from it. *)
Lemma udp_carry_ok t len pd sp dp :
  load16 t 4 = Some len -> t_collect (TransportObject := udp_object) t = Some pd ->
  t_generate (TransportObject := udp_object) pd 0 (msize pd) sp dp =
    Some (UdpPacketLittleEndian.generate_object_bytes sp dp len).
Proof.
  intros Hlen Hc. cbn [t_collect udp_object] in Hc.
  unfold QTunnelUDPViewScheme.generate_object_bytes in Hc.
  assert (UdpPacketView.get_udp_length t (UdpPacketLittleEndian.to_view t) = Some len) as E by exact Hlen.
  rewrite E in Hc. cbn [mbind option_bind] in Hc. apply (inj Some) in Hc as <-.
  cbn [t_generate udp_object]. unfold QTunnelUDPViewScheme.get_length.
  assert (load16 [octet 1 2; octet 0 2; octet 1 len; octet 0 len] 2 = Some len) as Hg.
  { refine (f_equal Some (cat16_octets _ _)). by eapply load16_is_u16. }
  change (QTunnelUDPViewScheme.data_ _ + 2) with 2. rewrite Hg. done.
Qed.

(** The packet sent for a UDP header generated from the proxy data: the length of the
    transport is taken as four times the length field. *)
Lemma udp_sender_ok last px local m b e l :
  let key := set_server_local_addr (connection_key px) local in
  let h1 := UdpPacketLittleEndian.generate_object_bytes (QTunnelProxy.source_port px)
    (QTunnelProxy.dst_port px) (8 + msize l) in
  QTunnelProxy.net_protocol px = IPv4 -> QTunnelProxy.transport_protocol px = UDP ->
  is_u16 (QTunnelProxy.source_port px) -> is_u16 (QTunnelProxy.dst_port px) ->
  bytes (QTunnelProxy.dst_addr px) -> msize (QTunnelProxy.dst_addr px) = 4 ->
  bytes local -> msize local = 4 -> is_u16 last ->
  bytes l -> msize l < 13000 -> range m b e = Some l ->
  t_generate (TransportObject := udp_object) (QTunnelProxy.proto_data px) 0
    (msize (QTunnelProxy.proto_data px)) (QTunnelProxy.source_port px) (QTunnelProxy.dst_port px) = Some h1 ->
  exists n tr s',
    generate_sender_packet (IPv4DefaultGenStrategy.mk last) px key m b e =
      Some (FullUdp (PacketObject.mk (n ++ tr ++ l) (views_at (T := udp_view) 0 h1 l)), s') /\
    packet_bytes (FullUdp (PacketObject.mk (n ++ tr ++ l) (views_at (T := udp_view) 0 h1 l))) =
      Some (n ++ tr ++ l) /\
    Ipv4PacketLittleEndian.get_src_addr n = Some local /\
    Ipv4PacketLittleEndian.get_dst_addr n = Some (QTunnelProxy.dst_addr px) /\
    Ipv4PacketLittleEndian.get_ip_total_length n = Some (52 + 5 * msize l) /\ msize n = 20 /\
    verifies (total (pseudo local (QTunnelProxy.dst_addr px) UDP (32 + 5 * msize l)) + total tr + total l) /\
    msize tr = 8 /\ (forall q, q <> 6 -> q <> 7 -> load tr q = load h1 q).
Proof.
  intros key h1 Hnet Htp Hsp Hdp Bd Ld Bl Ll Hlast Bp Sl Hl Eg. pose proof (msize_nonneg l) as Nl.
  destruct (udp_header_ok (QTunnelProxy.source_port px) (QTunnelProxy.dst_port px) (8 + msize l))
    as (B1 & S1 & P1 & P2 & L1 & T1 & T2); [done|done|unfold is_u16; lia|].
  fold h1 in B1, S1, P1, P2, L1, T1, T2.
  rewrite u16_id in T1 by (unfold is_u16; lia).
  destruct (net_header_ok last px key local ((8 + msize l) * 4 + msize l) Hnet Hlast)
    as (h & s' & G & V & Wh & Bh & Sh & Hihl & Tl & Hpr & As & Ad);
    [rewrite Htp; by unfold is_u8, UDP|done..|lia|].
  destruct (object_ok (T := udp_view) h h1 m b e l)
    as (n & tr & ph & Hr & Hb & Hph & Hv & Hvt & Sn' & Hqn & St & Hqt);
    [done..|rewrite S1; lia|done|].
  destruct (ip_fields_ext n h) as (E1 & E2 & E3); [lia|lia|done|].
  apply bind_Some in Hr as (pk & Hpk & Hr).
  exists n, tr, s'.
  split_and!; [|exact Hb|by rewrite E2|by rewrite E3|rewrite E1, Tl; f_equal; lia|done| |lia|exact Hqt].
  - unfold generate_sender_packet, generate_transport_header, QTunnelProxy.get_proto_data_bytes,
      QTunnelProtoData.to_bytes, QTunnelProxy.get_transport_proto, QTunnelProxy.get_dst_port.
    rewrite Htp. change (UDP =? TCP) with false. cbv iota. rewrite Z.eqb_refl.
    cbn [key set_server_local_addr connection_key QVPNServerSocketData.local_port].
    unfold QTunnelProxy.get_src_port. rewrite Eg. cbn [mbind option_bind]. rewrite T1.
    cbn [mbind option_bind]. destruct (range_Some _ _ _ _ Hl) as (_ & _ & <- & _).
    rewrite (u16_id (msize l)), u16_id by (unfold is_u16; lia). fold key. rewrite G.
    cbn [mbind option_bind]. unfold generate_full_packet, QTunnelProxy.get_transport_proto.
    rewrite Htp. change (UDP =? TCP) with false. cbv iota. rewrite Z.eqb_refl, V.
    cbn [mbind option_bind]. rewrite T2, <- S1. cbn [mbind option_bind].
    unfold Ipv4UdpPacket.of_parts. rewrite Hpk. cbn [mbind option_bind recalculate_checksums].
    unfold Ipv4UdpPacket.recalculate_checksums. rewrite Hr. cbn [mbind option_bind].
    assert (exists full, Ipv4UdpPacket.get_full_packet_length
      (PacketObject.mk (n ++ tr ++ l) (views_at (T := udp_view) 0 h1 l)) = Some full) as [full ->]; [|done].
    eexists. apply (net_getters_inside [] (tr ++ l) n). rewrite E1. exact Tl.
  - assert (Hph' : receiver_pseudo n =
      Some (pseudo local (QTunnelProxy.dst_addr px) UDP (32 + 5 * msize l))).
    { unfold receiver_pseudo. rewrite (ip_source_range n local), (ip_dest_range n (QTunnelProxy.dst_addr px))
        by (done || congruence). cbn [mbind option_bind].
      unfold Ipv4PacketLittleEndian.get_ip_protocol, Ipv4PacketLittleEndian.get_ip_header_length in *.
      rewrite !Hqn, Hpr by lia. cbn [mbind option_bind]. rewrite E1, Tl. cbn [mbind option_bind].
      apply bind_Some in Hihl as (a & Ha & [= Ea]). rewrite Ha. cbn [mbind option_bind]. rewrite Ea, Htp.
      replace ((8 + msize l) * 4 + msize l + 20 - 5 * 4) with (32 + 5 * msize l) by lia.
      by rewrite u16_id by (unfold is_u16; lia). }
    rewrite Hph in Hph'. apply (inj Some) in Hph' as ->. exact Hvt.
Qed.

(** C40: The server cannot forward UDP.  From the metadata of a datagram whose length field
    counts its header and payload, the server builds a packet with the right ports,
    addresses, length field and payload, but it takes four times the datagram's length for
    the size of the transport header: the total length of the IPv4 header exceeds the
    packet by 24 bytes and four times the payload, and the UDP checksum, computed with
    that length, does not verify at a receiver. *)
Theorem udp_forwarded_rejected last pre post n0 t l0 p px local m b e l :
  bytes t -> msize t = 8 -> ip_whole n0 -> msize n0 = 20 ->
  Ipv4UdpPacket_View.of_bytes (packet_in pre post n0 t l0) (msize pre)
    (msize pre + 20 + msize t + msize l0) = Some p ->
  Ipv4UdpPacket_View.collect_proto_data (packet_in pre post n0 t l0) p = Some (QTunnelProxy.proto_data px) ->
  load16 t 4 = Some (8 + msize l) ->
  QTunnelProxy.net_protocol px = IPv4 -> QTunnelProxy.transport_protocol px = UDP ->
  is_u16 (QTunnelProxy.source_port px) -> is_u16 (QTunnelProxy.dst_port px) ->
  bytes (QTunnelProxy.dst_addr px) -> msize (QTunnelProxy.dst_addr px) = 4 ->
  bytes local -> msize local = 4 -> is_u16 last ->
  bytes l -> msize l < 13000 -> range m b e = Some l ->
  exists packet n tr s',
    generate_sender_packet (IPv4DefaultGenStrategy.mk last) px
      (set_server_local_addr (connection_key px) local) m b e = Some (packet, s') /\
    packet_bytes packet = Some (n ++ tr ++ l) /\
    UdpPacketLittleEndian.get_udp_src_port tr = Some (QTunnelProxy.source_port px) /\
    UdpPacketLittleEndian.get_udp_dst_port tr = Some (QTunnelProxy.dst_port px) /\
    UdpPacketLittleEndian.get_udp_length tr = Some (msize (tr ++ l)) /\
    Ipv4PacketLittleEndian.get_src_addr n = Some local /\
    Ipv4PacketLittleEndian.get_dst_addr n = Some (QTunnelProxy.dst_addr px) /\
    Ipv4PacketLittleEndian.get_ip_total_length n = Some (msize (n ++ tr ++ l) + 24 + 4 * msize l) /\
    ~ verifies (total (pseudo local (QTunnelProxy.dst_addr px) UDP (msize (tr ++ l))) + total (tr ++ l)).
Proof.
  intros Bt Wt Wn Sn Hp Hc Hlen Hnet Htp Hsp Hdp Bd Ld Bl Ll Hlast Bp Sl Hl. pose proof (msize_nonneg l) as Nl.
  pose proof (udp_collected pre post n0 t l0 p _ Bt Wt Wn Sn Hp Hc) as Ec.
  pose proof (udp_carry_ok t _ _ (QTunnelProxy.source_port px) (QTunnelProxy.dst_port px) Hlen Ec) as Eg.
  destruct (udp_sender_ok last px local m b e l) as (n & tr & s' & Hs & Hb & As & Ad & Tl & Sn' & Hv & St & Hqt);
    [done..|].
  destruct (udp_header_ok (QTunnelProxy.source_port px) (QTunnelProxy.dst_port px) (8 + msize l))
    as (_ & _ & P1 & P2 & L1 & _); [done|done|unfold is_u16; lia|].
  set (h1 := UdpPacketLittleEndian.generate_object_bytes _ _ _) in *.
  assert (Hpl : msize (tr ++ l) = 8 + msize l) by (rewrite msize_app; lia).
  eexists _, n, tr, s'. split_and!; [exact Hs|exact Hb| | | |done|done| |].
  - rewrite <- P1. apply (load16_ext h1 tr 0); apply Hqt; lia.
  - rewrite <- P2. apply (load16_ext h1 tr 2); apply Hqt; lia.
  - rewrite Hpl, <- L1. apply (load16_ext h1 tr 4); apply Hqt; lia.
  - rewrite Tl, !msize_app. f_equal. lia.
  - rewrite Hpl, total_pseudo by (done || (unfold is_u16; lia)).
    rewrite total_pseudo in Hv by (done || (unfold is_u16; lia)).
    rewrite total_app by (by rewrite St).
    replace (total local + total (QTunnelProxy.dst_addr px) + UDP + (8 + msize l) + (total tr + total l))
      with (total local + total (QTunnelProxy.dst_addr px) + UDP + (32 + 5 * msize l) + total tr + total l
            - (24 + 4 * msize l)) by lia.
    apply verifies_unique; [lia|done].
Qed.

Lemma udp_forwarded_rejected_witness :
  let px := QTunnelProxy.mk IPv4 UDP [10; 0; 0; 2] 4660 [8; 8; 8; 8] 53 [0; 2; 0; 11] in
  exists packet n tr s',
    generate_sender_packet (IPv4DefaultGenStrategy.mk 0) px
      (set_server_local_addr (connection_key px) [192; 0; 2; 7]) [1; 2; 3] 0 3 = Some (packet, s') /\
    Ipv4PacketLittleEndian.get_ip_total_length n = Some (msize (n ++ tr ++ [1; 2; 3]) + 36).
Proof.
  intros px.
  destruct (udp_forwarded_rejected 0 [] [0] (69 :: repeat 7 19) [18; 52; 0; 53; 0; 11; 0; 0] [9]
    (views_at (T := udp_view) 0 (repeat 7 8) [9]) px [192; 0; 2; 7] [1; 2; 3] 0 3 [1; 2; 3])
    as (packet & n & tr & s' & H & _ & _ & _ & _ & _ & _ & Ht & _);
    [concrete|reflexivity|split; [vm_compute; discriminate|exists 69; by split]|reflexivity|reflexivity|reflexivity
    |reflexivity|reflexivity|reflexivity
    |concrete|concrete|concrete|reflexivity|concrete|reflexivity|concrete|concrete|reflexivity|reflexivity|].
  exists packet, n, tr, s'. split; [exact H|]. rewrite Ht. f_equal. change (msize [1; 2; 3]) with 3. lia.
Defined.
