(* ===== verification/Client.v ===== *)
(** The capture loops of the Windows client
    (src/QVPN/QVPN Lib/include/Windows/windivert_ext.hpp) and the parser they share
    ([PacketPreParser] in src/QVPN/QVPN Lib/include/qvpn_tools.hpp).

    An iteration is a function of the capture buffer and of the driver.  What WinDivert
    does - it fills the buffer, recomputes checksums and sends - is outside: the
    buffer and its length are arguments, [WinDivertHelperCalcChecksums] is a parameter and the
    packet handed to [WinDivertSend] is the result. *)
From S2P Require Import Prelude Checksum Addr Transport TcpOptions Ipv4 Tcp Udp QTunnel FullPacket PacketView Print PacketManager Layers SafeReceive Driver SocketFilter Forward.

Module PacketPreParser.

(** [std::variant<Ipv4TcpPacketView, Ipv4UdpPacketView, DummyPacket>]. *)
Inductive FullPacketType : Type :=
  | TcpPacketOf (p : Ipv4TcpPacket_View.t)
  | UdpPacketOf (p : Ipv4UdpPacket_View.t)
  | DummyPacket.

Definition pre_parse_ipv4 (m : mem) (begin_ end_ : Z) : option FullPacketType :=
  packet ← Ipv4PacketView.make m begin_ end_;
  proto ← Ipv4PacketView.get_ip_protocol m packet;
  if proto =? TCP then p ← Ipv4TcpPacket_View.of_bytes m begin_ end_; Some (TcpPacketOf p)
  else if proto =? UDP then p ← Ipv4UdpPacket_View.of_bytes m begin_ end_; Some (UdpPacketOf p)
  else Some DummyPacket.

Definition pre_parse (m : mem) (begin_ end_ : Z) : option FullPacketType :=
  a ← load m begin_;
  let ip_ver := Z.land (Z.shiftr a 4) 15 in
  if ip_ver =? IPv4 then pre_parse_ipv4 m begin_ end_
  else Some DummyPacket.

(** The visitors of the loops; the answers of a dummy packet are those of
    [DummyNetPacket], [DummyTransportPacket] and [DummyDataPacket]. *)
Definition get_protocol_version (m : mem) (package : FullPacketType) : option Z :=
  match package with
  | TcpPacketOf p => Ipv4PacketView.get_protocol_version m (PacketView.net p)
  | UdpPacketOf p => Ipv4PacketView.get_protocol_version m (PacketView.net p)
  | DummyPacket => Some NET_UNDEFINED
  end.
Definition get_transport_protocol (m : mem) (package : FullPacketType) : option Z :=
  match package with
  | TcpPacketOf p => Ipv4PacketView.get_transport_protocol m (PacketView.net p)
  | UdpPacketOf p => Ipv4PacketView.get_transport_protocol m (PacketView.net p)
  | DummyPacket => Some TRANSPORT_UNDEFINED
  end.
Definition get_src_addr (m : mem) (package : FullPacketType) : option (list Z) :=
  match package with
  | TcpPacketOf p => Ipv4PacketView.get_src_addr m (PacketView.net p)
  | UdpPacketOf p => Ipv4PacketView.get_src_addr m (PacketView.net p)
  | DummyPacket => Some NetAddr.default
  end.
Definition get_dst_addr (m : mem) (package : FullPacketType) : option (list Z) :=
  match package with
  | TcpPacketOf p => Ipv4PacketView.get_dst_addr m (PacketView.net p)
  | UdpPacketOf p => Ipv4PacketView.get_dst_addr m (PacketView.net p)
  | DummyPacket => Some NetAddr.default
  end.
Definition get_src_port (m : mem) (package : FullPacketType) : option Z :=
  match package with
  | TcpPacketOf p => TcpPacketView.get_src_port m (PacketView.transport p)
  | UdpPacketOf p => UdpPacketView.get_src_port m (PacketView.transport p)
  | DummyPacket => Some 0
  end.
Definition get_dst_port (m : mem) (package : FullPacketType) : option Z :=
  match package with
  | TcpPacketOf p => TcpPacketView.get_dst_port m (PacketView.transport p)
  | UdpPacketOf p => UdpPacketView.get_dst_port m (PacketView.transport p)
  | DummyPacket => Some 0
  end.
(** The null range of a dummy packet is empty. *)
Definition get_payload (package : FullPacketType) : Z * Z :=
  match package with
  | TcpPacketOf p => DataPacketView.get_payload (PacketView.payload p)
  | UdpPacketOf p => DataPacketView.get_payload (PacketView.payload p)
  | DummyPacket => (0, 0)
  end.
Definition bytes (package : FullPacketType) : Z * Z :=
  match package with
  | TcpPacketOf p => Ipv4TcpPacket_View.bytes p
  | UdpPacketOf p => Ipv4UdpPacket_View.bytes p
  | DummyPacket => (0, 0)
  end.
Definition collect_proto_data (m : mem) (package : FullPacketType) : option QTunnelProtoData.t :=
  match package with
  | TcpPacketOf p => Ipv4TcpPacket_View.collect_proto_data m p
  | UdpPacketOf p => Ipv4UdpPacket_View.collect_proto_data m p
  | DummyPacket => Some QTunnelProtoData.empty
  end.
Definition new_packet_bytes_by_this (m : mem) (package : FullPacketType) (proxy_data : QTunnelProxy.t)
    (md : mem) (begin_ end_ : Z) : option mem :=
  match package with
  | TcpPacketOf p => Ipv4TcpPacket_View.new_packet_bytes_by_this m p proxy_data md begin_ end_
  | UdpPacketOf p => Ipv4UdpPacket_View.new_packet_bytes_by_this m p proxy_data md begin_ end_
  | DummyPacket => Some []
  end.

Definition to_packet_friendly_view (T : QVPNVerboser.tables) (m : mem) (package : FullPacketType) :
    option string :=
  match package with
  | TcpPacketOf p => Ipv4TcpPacket_View_to_packet_friendly_view T m p
  | UdpPacketOf p => Ipv4UdpPacket_View_to_packet_friendly_view T m p
  | DummyPacket => Some DummyFullPacket_to_packet_friendly_view
  end.

End PacketPreParser.

Module WinDivertClientVPNNetDriver.
Import PacketPreParser.

(** The proxy data of a captured packet and the range of its payload. *)
Definition outgoing_proxy (packet : mem) (package : FullPacketType) : option (QTunnelProxy.t * (Z * Z)) :=
  ver ← get_protocol_version packet package;
  transport_proto ← get_transport_protocol packet package;
  ip_src ← get_src_addr packet package;
  port_src ← get_src_port packet package;
  ip_dest ← get_dst_addr packet package;
  port_dst ← get_dst_port packet package;
  qtunnel_proto_data ← collect_proto_data packet package;
  let proxy_data := QTunnelProxy.mk ver transport_proto ip_src port_src ip_dest port_dst qtunnel_proto_data in
  Some (proxy_data, get_payload package).

(** One iteration of [outgoing_capture_loop] after a successful [WinDivertRecv].  It prints
    the packet before it sends it. *)
Definition outgoing_iteration `{Socket} (T : QVPNVerboser.tables) (d : TunnelDriver.t) (s : socket)
    (packet : mem) (packet_len : Z) : option (TunnelDriver.t * socket * bool) :=
  package ← pre_parse packet 0 packet_len;
  '(proxy_data, (data_b, data_e)) ← outgoing_proxy packet package;
  text ← to_packet_friendly_view T packet package;
  QVPNClientDriver.encode_and_send d s proxy_data packet data_b data_e.

(** What an iteration of [incoming_capture_loop] hands to [WinDivertSend]: a buffer, where
    the packet starts in it and the length argument. *)
Inductive injection : Type :=
  | Send (buffer : mem) (start len : Z)
  | Nothing.

(** The bytes that [WinDivertSend] reads: as many as its length argument says, from the
    pointer on; [None] when the buffer ends before. *)
Definition injected (i : injection) : option mem :=
  match i with Send buffer start len => range buffer start (start + len) | Nothing => Some [] end.

Section Incoming.
Context (T : QVPNVerboser.tables).
Context (arrange : list (Z * PacketBuilder.t) -> list (Z * PacketBuilder.t)).
Context (WinDivertHelperCalcChecksums : mem -> mem).
(** [sizeof(inj_packet)], the size of the variant of views, which the code passes as the
    length of the packet. *)
Context (sizeof_inj_packet : Z).

Definition inject (packet : mem) (package : FullPacketType) (decoded_data : QTunnelData.t) :
    option injection :=
  if negb (QTunnelProxy.check_validity (QTunnelData.proxy decoded_data)) then Some Nothing
  else
    let '(b, e) := QTunnelData.get_raw_data decoded_data in
    proxy_data ← QTunnelProxy.create (QTunnelData.proxy decoded_data);
    inj_p_bytes ← new_packet_bytes_by_this packet package proxy_data (QTunnelData.data_ decoded_data) b e;
    inj_packet ← pre_parse inj_p_bytes 0 (msize inj_p_bytes);
    text ← to_packet_friendly_view T inj_p_bytes inj_packet;
    let '(res_b, res_e) := bytes inj_packet in
    res ← range inj_p_bytes res_b res_e;
    inj_p_bytes ← blit inj_p_bytes res_b (WinDivertHelperCalcChecksums res);
    text ← to_packet_friendly_view T inj_p_bytes inj_packet;
    Some (Send inj_p_bytes res_b sizeof_inj_packet).

Definition incoming_iteration (d : TunnelDriver.t) (packet : mem) (packet_len : Z) :
    option (injection * TunnelDriver.t) :=
  package ← pre_parse packet 0 packet_len;
  let '(data_b, data_e) := get_payload package in
  let data_size := data_e - data_b in
  if data_size =? 0 then Some (Send packet 0 (msize packet), d)
  else
    text ← to_packet_friendly_view T packet package;
    '(decoded_data, d) ← QVPNClientDriver.decode_data arrange d packet data_b data_e;
    match decoded_data with
    | Some decoded_data => res ← inject packet package decoded_data; Some (res, d)
    | None => Some (Nothing, d)
    end.

End Incoming.

End WinDivertClientVPNNetDriver.

(** * What a capture loop makes of a TCP packet *)

(** The payload of a packet in a buffer. *)
Lemma packet_payload_range post n t l :
  msize n = 20 ->
  range (packet_in [] post n t l) (20 + msize t) (20 + msize t + msize l) = Some l.
Proof.
  intros Sn. replace (20 + msize t) with (msize (n ++ t)) by (rewrite msize_app; lia).
  unfold packet_in. cbn [app]. rewrite (app_assoc n). apply range_inside_all.
Qed.

(** The metadata collected of a header is a well-formed block. *)
Lemma tcp_collect_wf t pd :
  bytes t -> tcp_whole t -> t_collect (TransportObject := tcp_object) t = Some pd ->
  QTunnelProtoData.wf pd /\ msize pd <= 57.
Proof.
  intros Bt Wt Hc. pose proof (tcp_whole_size t Bt Wt) as St. cbn [t_collect tcp_object] in Hc.
  rewrite tcp_to_view in Hc by done. cbn [mbind option_bind] in Hc.
  unfold QTunnelTCPViewScheme.generate_object_bytes in Hc.
  apply bind_Some in Hc as (seq & _ & (ack & _ & (fl & _ & (off & _ & (win & _ & (urg & _ & Hc)
    %bind_Some)%bind_Some)%bind_Some)%bind_Some)%bind_Some).
  unfold TcpPacketView.get_tcp_options in Hc. cbn [TcpPacketView.options_ TcpPacketView.tcp_options_size] in Hc.
  apply bind_Some in Hc as (opts & Ho & Hc). apply (inj Some) in Hc.
  destruct (range_Some _ _ _ _ Ho) as (_ & _ & So & _).
  replace (20 + (msize t - 20) - 20) with (msize opts) in Hc by lia.
  assert (E : u16 (u16 (u16 (0 + (4 + 4 + 2)) + (1 + 2 + 2)) + u16 (msize opts)) = 15 + msize opts).
  { rewrite (u16_id (msize opts)) by (unfold is_u16; lia). apply u16_id. unfold is_u16. lia. }
  rewrite E in Hc. cbn [app] in Hc. subst pd. split; [|rewrite !msize_cons; lia].
  match goal with |- QTunnelProtoData.wf (_ :: _ :: ?r) =>
    assert (Hr : msize r = 15 + msize opts) by (rewrite !msize_cons; lia);
    exists r; rewrite Hr end.
  split; [done|lia].
Qed.

(** The getters of the views of a packet in a buffer are those of its parts. *)
Lemma net_fields_at pre post n :
  let m := inside pre post n in let v := Ipv4PacketView.mk (msize pre) (msize pre + 20) 0 in
  refines (Ipv4PacketLittleEndian.get_protocol_version n) (Ipv4PacketView.get_protocol_version m v) /\
  refines (Ipv4PacketLittleEndian.get_transport_protocol n) (Ipv4PacketView.get_transport_protocol m v) /\
  refines (Ipv4PacketLittleEndian.get_src_addr n) (Ipv4PacketView.get_src_addr m v) /\
  refines (Ipv4PacketLittleEndian.get_dst_addr n) (Ipv4PacketView.get_dst_addr m v).
Proof.
  intros m v. unfold Ipv4PacketLittleEndian.get_protocol_version, Ipv4PacketView.get_protocol_version,
    Ipv4PacketLittleEndian.get_transport_protocol, Ipv4PacketView.get_transport_protocol.
  split_and!; refine_getter.
Qed.

Lemma tcp_ports_at pre post t k :
  let m := inside pre post t in let v := TcpPacketView.mk (msize pre) (msize pre + 20) k in
  refines (TcpPacketLittleEndian.get_tcp_src_port t) (TcpPacketView.get_src_port m v) /\
  refines (TcpPacketLittleEndian.get_tcp_dst_port t) (TcpPacketView.get_dst_port m v).
Proof.
  intros m v. unfold TcpPacketView.get_src_port, TcpPacketView.get_dst_port. split; refine_getter.
Qed.

(** An IPv4 header over a TCP segment, as the capture loops get it. *)
Definition tcp_packet (n t : mem) : Prop :=
  bytes n /\ ip_whole n /\ msize n = 20 /\ Ipv4PacketLittleEndian.get_ip_version n = Some IPv4 /\
  Ipv4PacketLittleEndian.get_ip_protocol n = Some TCP /\ bytes t /\ tcp_whole t.

Import PacketPreParser WinDivertClientVPNNetDriver.

(** Parsing finds the views. *)
Lemma pre_parse_tcp post n t l :
  tcp_packet n t ->
  pre_parse (packet_in [] post n t l) 0 (20 + msize t + msize l) =
    Some (TcpPacketOf (views_at (T := tcp_view) 0 t l)).
Proof.
  intros (Bn & Wn & Sn & Hv & Hp & Bt & Wt). destruct (ip_whole_20 n Wn Sn) as (a & Ha & Hihl).
  unfold Ipv4PacketLittleEndian.get_ip_version in Hv. rewrite Ha in Hv. injection Hv as Hv.
  unfold pre_parse. pose proof (load_inside [] (t ++ l ++ post) n 0 a Ha) as H0.
  change (msize [] + 0) with 0 in H0. rewrite packet_in_net, H0. cbn [mbind option_bind].
  rewrite Hv. change (Z.land IPv4 15 =? IPv4) with true. cbv iota. unfold pre_parse_ipv4.
  change 0 with (msize []) at 1. rewrite (make_20 [] (t ++ l ++ post) n _ a) by done.
  cbn [mbind option_bind].
  assert (Ipv4PacketView.get_ip_protocol (inside [] (t ++ l ++ post) n)
    (Ipv4PacketView.mk (msize []) (msize [] + 20) 0) = Some TCP) as ->.
  { by apply (net_getters_inside [] (t ++ l ++ post) n). }
  cbn [mbind option_bind]. change (TCP =? TCP) with true. cbv iota.
  rewrite <- packet_in_net. unfold Ipv4TcpPacket_View.of_bytes.
  pose proof (of_bytes_ok (T := tcp_view) [] post n t l Wn Sn Bt Wt) as H.
  change (msize []) with 0 in H. rewrite Z.add_0_l in H. change (msize []) with 0. by rewrite H.
Qed.

(** The addresses, ports and metadata of a TCP packet. *)
Definition tcp_fields (n t src dst : mem) (sp dp : Z) (pd : mem) : Prop :=
  Ipv4PacketLittleEndian.get_src_addr n = Some src /\ Ipv4PacketLittleEndian.get_dst_addr n = Some dst /\
  TcpPacketLittleEndian.get_tcp_src_port t = Some sp /\ TcpPacketLittleEndian.get_tcp_dst_port t = Some dp /\
  t_collect (TransportObject := tcp_object) t = Some pd /\
  Prelude.bytes src /\ msize src = 4 /\ Prelude.bytes dst /\ msize dst = 4 /\ is_u16 sp /\ is_u16 dp /\
  QTunnelProtoData.wf pd /\ msize pd <= 57.

Lemma tcp_fields_of n t : tcp_packet n t -> exists src dst sp dp pd, tcp_fields n t src dst sp dp pd.
Proof.
  intros (Bn & Wn & Sn & Hv & Hp & Bt & Wt). pose proof (tcp_whole_size t Bt Wt) as St.
  destruct (load16_in t 0) as [sp Hsp]; [lia..|]. destruct (load16_in t 2) as [dp Hdp]; [lia..|].
  destruct (range n 12 16) as [src|] eqn:Hs; [|by rewrite range_in in Hs by lia].
  destruct (range n 16 20) as [dst|] eqn:Hd; [|by rewrite range_in in Hd by lia].
  destruct (range_Some _ _ _ _ Hs) as (_ & _ & Ls & _). destruct (range_Some _ _ _ _ Hd) as (_ & _ & Ld & _).
  destruct (carry_ok t 0 0 Bt Wt) as (pd & _ & Ec & _); [done..|].
  destruct (tcp_collect_wf t pd Bt Wt Ec) as [Wpd Spd].
  exists src, dst, sp, dp, pd. split_and!; try done.
  - by apply (range_bytes _ _ _ _ Bn Hs).
  - by apply (range_bytes _ _ _ _ Bn Hd).
  - by eapply load16_is_u16.
  - by eapply load16_is_u16.
Qed.

(** The visitors read them from the buffer. *)
Lemma captured_tcp post n t l src dst sp dp pd :
  let m := packet_in [] post n t l in let v := TcpPacketOf (views_at (T := tcp_view) 0 t l) in
  tcp_packet n t -> tcp_fields n t src dst sp dp pd ->
  get_protocol_version m v = Some IPv4 /\ get_transport_protocol m v = Some TCP /\
  get_src_addr m v = Some src /\ get_dst_addr m v = Some dst /\
  get_src_port m v = Some sp /\ get_dst_port m v = Some dp /\ collect_proto_data m v = Some pd /\
  get_payload v = (20 + msize t, 20 + msize t + msize l).
Proof.
  intros m v (Bn & Wn & Sn & Hv & Hp & Bt & Wt) (Hs & Hd & Hsp & Hdp & Ec & _).
  unfold v, get_protocol_version, get_transport_protocol, get_src_addr, get_src_port, get_dst_addr,
    get_dst_port, get_payload, collect_proto_data, views_at.
  cbn [PacketView.net PacketView.transport PacketView.payload].
  destruct (net_fields_at [] (t ++ l ++ post) n) as (F1 & F2 & F3 & F4).
  rewrite <- packet_in_net in F1, F2, F3, F4. change (msize []) with 0 in *.
  destruct (tcp_ports_at n (l ++ post) t (msize t - 20)) as [P1 P2]. rewrite Sn in P1, P2.
  pose proof (collect_view_ok (T := tcp_view) [] post n t l _ pd Wn Sn Bt Wt
    (of_bytes_ok (T := tcp_view) [] post n t l Wn Sn Bt Wt) Ec) as Hc.
  split_and!; [by apply F1|by apply F2|by apply F3|by apply F4|by apply P1|by apply P2|exact Hc|done].
Qed.

(** The proxy data of a TCP connection over IPv4 whose metadata is that of [t]. *)
Definition tcp_proxy (px : QTunnelProxy.t) (t : mem) : Prop :=
  proxy_wf px /\ QTunnelProxy.net_protocol px = IPv4 /\ QTunnelProxy.transport_protocol px = TCP /\
  Prelude.bytes (QTunnelProxy.source_addr px) /\ msize (QTunnelProxy.source_addr px) = 4 /\
  Prelude.bytes (QTunnelProxy.dst_addr px) /\ msize (QTunnelProxy.dst_addr px) = 4 /\
  Prelude.bytes t /\ tcp_whole t /\
  t_collect (TransportObject := tcp_object) t = Some (QTunnelProxy.proto_data px) /\
  msize (proxy_bytes px) <= 71.

Lemma tcp_proxy_of t src dst sp dp pd :
  Prelude.bytes src -> msize src = 4 -> Prelude.bytes dst -> msize dst = 4 -> is_u16 sp -> is_u16 dp ->
  QTunnelProtoData.wf pd -> msize pd <= 57 -> Prelude.bytes t -> tcp_whole t ->
  t_collect (TransportObject := tcp_object) t = Some pd ->
  tcp_proxy (QTunnelProxy.mk IPv4 TCP src sp dst dp pd) t.
Proof.
  intros. unfold tcp_proxy, proxy_wf, proxy_bytes. rewrite !msize_app, !msize_cons. cbn -[msize].
  change (msize []) with 0. split_and!; try done; [by left|lia].
Qed.

Lemma tcp_proxy_fields n t src dst sp dp pd :
  tcp_packet n t -> tcp_fields n t src dst sp dp pd -> tcp_proxy (QTunnelProxy.mk IPv4 TCP src sp dst dp pd) t.
Proof.
  intros (_ & _ & _ & _ & _ & Bt & Wt) (_ & _ & _ & _ & Ec & Bs & Ls & Bd & Ld & Usp & Udp & Wpd & Spd).
  by apply tcp_proxy_of.
Qed.

(** The proxy data and the payload of a captured packet. *)
Lemma outgoing_tcp post n t l src dst sp dp pd :
  tcp_packet n t -> tcp_fields n t src dst sp dp pd ->
  outgoing_proxy (packet_in [] post n t l) (TcpPacketOf (views_at (T := tcp_view) 0 t l)) =
    Some (QTunnelProxy.mk IPv4 TCP src sp dst dp pd, (20 + msize t, 20 + msize t + msize l)).
Proof.
  intros H F. destruct (captured_tcp post n t l _ _ _ _ _ H F) as (F1 & F2 & F3 & F4 & F5 & F6 & F7 & F8).
  unfold outgoing_proxy.
  rewrite F1. cbn [mbind option_bind]. rewrite F2. cbn [mbind option_bind]. rewrite F3. cbn [mbind option_bind].
  rewrite F5. cbn [mbind option_bind]. rewrite F4. cbn [mbind option_bind]. rewrite F6. cbn [mbind option_bind].
  rewrite F7. cbn [mbind option_bind]. by rewrite F8.
Qed.

(** [create] of decoded proxy data copies it, [create_and_inverse_addrs] is defined. *)
Lemma create_same px : QTunnelProxy.create px = Some px.
Proof.
  destruct px. unfold QTunnelProxy.create, QTunnelProxy.get_proto_data_bytes, QTunnelProtoData.to_bytes,
    QTunnelProxy.make, QTunnelProtoData.make. by rewrite range_full.
Qed.

Lemma create_inverse px : exists px', QTunnelProxy.create_and_inverse_addrs px = Some px'.
Proof.
  destruct px. unfold QTunnelProxy.create_and_inverse_addrs, QTunnelProxy.get_proto_data_bytes,
    QTunnelProtoData.to_bytes, QTunnelProxy.make, QTunnelProtoData.make. rewrite range_full. by eexists.
Qed.

(** A buffer overwritten as a whole. *)
Lemma blit_all m l : msize l = msize m -> blit m 0 l = Some l.
Proof.
  intros Hs. destruct (blit_in m 0 l) as [m' H]; [lia|lia|]. rewrite H. f_equal.
  pose proof (range_blit m 0 l m' ltac:(lia) H ltac:(lia)) as R. rewrite Z.add_0_l, Hs in R.
  rewrite <- (blit_size _ _ _ _ H), range_full in R. by apply (inj Some) in R.
Qed.

(** [WinDivertHelperCalcChecksums] writes the checksum fields of the headers, nothing else,
    and a packet whose sums were right still has right ones. *)
Definition writes_checksums (calc : mem -> mem) : Prop :=
  forall n t l, tcp_packet n t -> exists n' t', calc (n ++ t ++ l) = n' ++ t' ++ l /\
    msize n' = msize n /\ msize t' = msize t /\
    (forall q, q <> 10 -> q <> 11 -> load n' q = load n q) /\
    (forall q, q <> 16 -> q <> 17 -> load t' q = load t q) /\
    (forall ph, receiver_pseudo n = Some ph -> verifies (total n) -> verifies (total ph + total (t ++ l)) ->
     verifies (total n') /\ verifies (total ph + total (t' ++ l))).

(** The pseudo-header does not look at the checksum. *)
Lemma receiver_pseudo_ext n h :
  (forall q, q <> 10 -> q <> 11 -> load n q = load h q) -> receiver_pseudo n = receiver_pseudo h.
Proof.
  intros Hq. unfold receiver_pseudo, Ipv4PacketLittleEndian.get_ip_source, Ipv4PacketLittleEndian.get_ip_dest,
    Ipv4PacketLittleEndian.get_ip_protocol, Ipv4PacketLittleEndian.get_ip_total_length,
    Ipv4PacketLittleEndian.get_ip_header_length, load16.
  by rewrite !(Hq _) by lia.
Qed.

(** A packet that carries a header still does after the checksums have been written. *)
Lemma carries_calc calc px src t l n tr ph :
  writes_checksums calc -> tcp_packet n tr -> carried t tr ->
  range tr 20 (msize tr) = range t 20 (msize t) ->
  TcpPacketLittleEndian.get_tcp_src_port tr = Some (QTunnelProxy.source_port px) ->
  TcpPacketLittleEndian.get_tcp_dst_port tr = Some (QTunnelProxy.dst_port px) ->
  Ipv4PacketLittleEndian.get_src_addr n = Some src ->
  Ipv4PacketLittleEndian.get_dst_addr n = Some (QTunnelProxy.dst_addr px) ->
  Ipv4PacketLittleEndian.get_ip_total_length n = Some (msize (n ++ tr ++ l)) ->
  receiver_pseudo n = Some ph -> verifies (total n) -> verifies (total ph + total (tr ++ l)) ->
  carries px src t l (calc (n ++ tr ++ l)).
Proof.
  intros Hcalc Hp C O P1 P2 As Ad Tl Hph V1 V2.
  destruct (Hcalc n tr l Hp) as (n' & t' & E & Sn & St & Qn & Qt & V).
  destruct (carried_ext t' tr St Qt) as (_ & O' & P1' & P2').
  destruct (ip_fields_ext n' n) as (E1 & E2 & E3); [done|by destruct Hp as (_ & _ & -> & _)|done|].
  exists n', t', ph. rewrite E, E1, E2, E3, O', P1', P2', (receiver_pseudo_ext n' n Qn).
  split_and!; try done; [by apply (carried_keep _ tr)|by rewrite Tl, !msize_app, Sn, St|by apply (V ph)..].
Qed.

(** A packet is injected as it is when its own length is handed over; of a longer one the
    first bytes are. *)
Lemma injected_whole packet size : injected (Send packet 0 size) = Some packet <-> size = msize packet.
Proof.
  cbn [injected]. rewrite Z.add_0_l. split; [|intros ->; apply range_full].
  intros (_ & _ & Hs & _)%range_Some. lia.
Qed.

Lemma injected_part packet size :
  injected (Send packet 0 size) =
  if decide (0 <= size <= msize packet) then Some (take (Z.to_nat size) packet) else None.
Proof.
  cbn [injected]. unfold range. rewrite Z.add_0_l, Z.sub_0_r, drop_0. repeat case_decide; done || lia.
Qed.

(** The options are carried, so the packet prints where the sender's did. *)
Lemma options_wf_ext tr t :
  range tr 20 (msize tr) = range t 20 (msize t) -> options_wf t -> options_wf tr.
Proof. intros E (l & Hw & H). exists l. by rewrite E. Qed.

Lemma friendly_tcp T post n t l :
  msize n = 20 -> 20 <= msize t <= 60 -> options_wf t ->
  exists text, to_packet_friendly_view T (packet_in [] post n t l)
    (TcpPacketOf (views_at (T := tcp_view) 0 t l)) = Some text.
Proof. apply (captured_prints T []). Qed.

(** What the client hands to WinDivert for decoded data: the packet that carries it, with the
    checksums WinDivert computes, and [size] as its length. *)
Lemma inject_tcp T calc size post n t part px t' l :
  writes_checksums calc ->
  tcp_packet n t -> tcp_proxy px t' -> options_wf t' -> Prelude.bytes l -> msize l < 65000 ->
  exists packet,
    inject T calc size (packet_in [] post n t part) (TcpPacketOf (views_at (T := tcp_view) 0 t part))
      (QTunnelData.mk px l) = Some (Send packet 0 size) /\
    carries px (QTunnelProxy.source_addr px) t' l packet /\ msize packet = 20 + msize t' + msize l.
Proof.
  intros Hcalc (Bn & Wn & Sn & Hv & Hp & Bt & Wt)
    (Wpx & Hnet & Htp & Bs & Ls & Bd & Ld & Bt' & Wt' & Ec & _) Ho Bl Sl.
  destruct Wpx as (_ & _ & Usp & Udp & _).
  pose proof (of_bytes_ok (T := tcp_view) [] post n t part Wn Sn Bt Wt) as Hof.
  destruct (tcp_view_rebuilt t' [] post n part t _ px l 0 (msize l) l Bt' Wt' Ec Usp Udp Bs Ls Bd Ld Bn Wn Sn
    Bt Wt Hof Bl Sl (range_full l)) as (n2 & tr & ph & Hnew & (Bn2 & Sn2 & Kn) & Btr & Wtr & R).
  assert (Hp2 : tcp_packet n2 tr).
  { split_and!; try done.
    - destruct Wn as (_ & a & Ha & E). split; [lia|]. exists a. rewrite Kn, Sn2 by lia. split; [done|lia].
    - unfold Ipv4PacketLittleEndian.get_ip_version. by rewrite Kn by lia.
    - unfold Ipv4PacketLittleEndian.get_ip_protocol. by rewrite Kn by lia. }
  pose proof R as (C & O & P1 & P2 & As & Ad & Tl & Hph & V1 & V2).
  exists (calc (n2 ++ tr ++ l)). split_and!; [|by apply (carries_calc calc px _ t' l n2 tr ph)|]; cycle 1.
  { destruct (Hcalc n2 tr l Hp2) as (n3 & t3 & -> & Sn3 & St3 & _). destruct C as [St _].
    rewrite !msize_app. lia. }
  unfold inject, QTunnelProxy.check_validity. cbn [QTunnelData.proxy QTunnelData.data_].
  rewrite Hnet, Htp. change (IPv4 =? IPv4) with true. change (TCP =? TCP) with true. cbn [negb].
  unfold QTunnelData.get_raw_data. cbn [QTunnelData.data_]. rewrite create_same. cbn [mbind option_bind].
  unfold new_packet_bytes_by_this. change (msize []) with 0 in Hnew. rewrite Hnew. cbn [mbind option_bind].
  pose proof (pre_parse_tcp [] n2 tr l Hp2) as Hpp. unfold packet_in in Hpp. cbn [app] in Hpp.
  rewrite app_nil_r in Hpp.
  replace (msize (n2 ++ tr ++ l)) with (20 + msize tr + msize l) by (rewrite !msize_app; lia).
  rewrite Hpp. cbn [mbind option_bind].
  assert (Hb : bytes (TcpPacketOf (views_at (T := tcp_view) 0 tr l)) = (0, msize (n2 ++ tr ++ l))).
  { cbn [bytes]. unfold Ipv4TcpPacket_View.bytes. rewrite views_bytes by done. rewrite !msize_app. f_equal. lia. }
  assert (Hor : options_wf tr) by (apply (options_wf_ext tr t'); [apply R|done]).
  destruct (friendly_tcp T [] n2 tr l Sn2 ltac:(by apply tcp_whole_size) Hor) as [text1 Pr1].
  unfold packet_in in Pr1. cbn [app] in Pr1. rewrite app_nil_r in Pr1. rewrite Pr1. cbn [mbind option_bind].
  rewrite Hb, range_full. cbn [mbind option_bind].
  destruct (Hcalc n2 tr l Hp2) as (n3 & t3 & Ec3 & Sn3 & St3 & Qn3 & Qt3 & _).
  rewrite blit_all by (rewrite Ec3, !msize_app; lia). cbn [mbind option_bind].
  destruct (carried_ext t3 tr St3 Qt3) as (_ & O3 & _).
  destruct (friendly_tcp T [] n3 t3 l ltac:(lia) ltac:(rewrite St3; by apply tcp_whole_size) (options_wf_ext _ _ O3 Hor))
    as [text2 Pr2].
  unfold packet_in in Pr2. cbn [app] in Pr2. rewrite app_nil_r, <- Ec3 in Pr2.
  assert (Ev : views_at (T := tcp_view) 0 t3 l = views_at (T := tcp_view) 0 tr l) by (unfold views_at; by rewrite St3).
  rewrite Ev in Pr2. rewrite Pr2. done.
Qed.

Section Incoming.
Context (arrange : list (Z * PacketBuilder.t) -> list (Z * PacketBuilder.t)).
Context (arrange_perm : forall l, arrange l ≡ₚ l).

(** An iteration of the incoming loop over a packet whose payload is one part. *)
Lemma incoming_tcp T calc size post n t r id px t' l :
  let x := proxy_bytes px ++ l in
  let part := QLayer.record (frame id 0 (msize x) x) in
  writes_checksums calc -> tcp_packet n t -> options_wf t -> tcp_proxy px t' -> options_wf t' ->
  Prelude.bytes l -> msize l < 65000 -> is_u8 id -> receiver_ready r ->
  QVPNPacketManager.lookup (QVPNPacketManager.packets_ r) id = None ->
  exists packet r',
    incoming_iteration T arrange calc size (TunnelDriver.mk default_layers r) (packet_in [] post n t part)
      (20 + msize t + msize part) = Some (Send packet 0 size, TunnelDriver.mk default_layers r') /\
    carries px (QTunnelProxy.source_addr px) t' l packet /\ msize packet = 20 + msize t' + msize l /\
    receiver_ready r' /\
    forall k, QVPNPacketManager.lookup (QVPNPacketManager.packets_ r') k =
              QVPNPacketManager.lookup (QVPNPacketManager.packets_ r) k.
Proof.
  intros x part Hcalc Hp Ho Hpx Ho' Bl Sl Hid Hr Hfree.
  destruct (inject_tcp T calc size post n t part px t' l Hcalc Hp Hpx Ho' Bl Sl) as (packet & Hinj & Hc & Hsz).
  assert (Hx : msize x = msize (proxy_bytes px) + msize l) by apply msize_app.
  assert (Spx : msize (proxy_bytes px) <= 71) by apply Hpx.
  assert (Sn : msize n = 20) by apply Hp.
  destruct (decode_whole arrange arrange_perm r (packet_in [] post n t part) (20 + msize t)
    (20 + msize t + msize part) id px l) as (r' & HD & Hr' & Hk'); [apply Hpx| |done|fold x; lia|done|done|].
  { by apply packet_payload_range. }
  exists packet, r'. split_and!; try done. unfold incoming_iteration. rewrite pre_parse_tcp by done.
  cbn [mbind option_bind]. unfold get_payload at 1, views_at at 1. cbn [PacketView.payload].
  unfold DataPacketView.get_payload. cbn [DataPacketView.data_ DataPacketView.data_size_].
  rewrite Z.add_0_l. unfold QVPNClientDriver.decode_data.
  destruct (Z.eqb_spec (20 + msize t + msize part - (20 + msize t)) 0) as [E|_].
  { unfold part in E. rewrite record_frame_size in E. pose proof (msize_nonneg x). lia. }
  destruct (friendly_tcp T post n t part Sn ltac:(apply tcp_whole_size; apply Hp) Ho) as [text ->]. cbn [mbind option_bind].
  rewrite HD. cbn [mbind option_bind]. by rewrite Hinj.
Qed.

End Incoming.
