(* ===== verification/Installer.v ===== *)
(** The TCP handshake that the server can make for a client: [ConnectionInstaller] of
    src/QVPN/QVPN Lib/include/qvpn_driver.hpp, and the socket that takes the connection over,
    [QVPN_Socket::append_socket_to_connection] (src/Linux/qvpn_net_tools.cpp) with
    [SocketAppendToConnection] (include/Linux/qvpn_net_tools.hpp).

    The raw socket and the kernel's repair interface are the classes [RawSocketOps] and
    [RepairSocket]; what they answer is arbitrary.  The numbers are those of a little-endian
    host.  In the driver the call of [install_connection] is commented out. *)
From S2P Require Import Prelude Checksum Addr Transport Ipv4 Tcp Udp PacketManager QTunnel FullPacket PacketView SafeReceive SocketFilter Forward Client Print NoNet.

(** * Repairing a socket *)

(** [SocketRepairStatus]; the text of the error is left out. *)
Record SocketRepairStatus := mkRepair { rs_success : bool; rs_status : Z }.

(** The system calls of the repair: [TCP_REPAIR] with a number, [TCP_REPAIR_QUEUE] with a
    queue, [TCP_QUEUE_SEQ], [bind] and [connect]. *)
Inductive tcp_queue := TCP_SEND_QUEUE | TCP_RECV_QUEUE.
Inductive repair_call :=
  | SetRepair (value : Z)
  | SetRepairQueue (queue : tcp_queue)
  | SetQueueSeq (seq : Z)
  | Bind (addr : list Z) (port : Z)
  | Connect (addr : list Z) (port : Z).

(** A socket of the kernel: the protocol it was made for, and a system call on it, which
    answers nothing on success and [errno] on failure. *)
Class RepairSocket := {
  socket : Type;
  transport_proto : socket -> Z;
  system_call : socket -> repair_call -> option Z * socket }.

(** The value of the enumerator in [netinet/tcp.h]. *)
Definition TCP_ESTABLISHED : Z := 1.

Section Repair.
Context `{RepairSocket}.

(** [if (call < 0) return SocketRepairStatus{ false, errno, ... }], call after call. *)
Fixpoint checked_calls (sock : socket) (calls : list repair_call) : SocketRepairStatus * socket :=
  match calls with
  | [] => (mkRepair true 0, sock)
  | c :: calls =>
      let '(res, sock) := system_call sock c in
      match res with
      | Some errno => (mkRepair false errno, sock)
      | None => checked_calls sock calls
      end
  end.

Definition repair_calls (connection_data : QVPNSocketData.t) (local_isn remote_isn : Z) :
    list repair_call :=
  let seq := u32 (local_isn + 1) in
  let rcv_nxt := u32 (remote_isn + 1) in
  [SetRepair 1; SetRepairQueue TCP_SEND_QUEUE; SetQueueSeq seq;
   SetRepairQueue TCP_RECV_QUEUE; SetQueueSeq rcv_nxt;
   Bind (QVPNSocketData.local_addr connection_data) (QVPNSocketData.local_port connection_data);
   Connect (QVPNSocketData.remote_addr connection_data) (QVPNSocketData.remote_port connection_data);
   SetRepair TCP_ESTABLISHED; SetRepair 0].

(** [SocketAppendToConnection<TCP>::operator()]. *)
Definition socket_append_tcp (sock : socket) (connection_data : QVPNSocketData.t)
    (local_isn remote_isn : Z) : SocketRepairStatus * socket :=
  checked_calls sock (repair_calls connection_data local_isn remote_isn).

(** [SocketAppendToConnection<UDP>::operator()]. *)
Definition socket_append_udp (sock : socket) (connection_data : QVPNSocketData.t) :
    SocketRepairStatus * socket := (mkRepair true 0, sock).

Definition append_socket_to_connection (sock : socket) (connection_data : QVPNSocketData.t)
    (local_isn remote_isn : Z) : SocketRepairStatus * socket :=
  if transport_proto sock =? TCP then socket_append_tcp sock connection_data local_isn remote_isn
  else if transport_proto sock =? UDP then socket_append_udp sock connection_data
  else (mkRepair false (-1), sock).

End Repair.

(** * The installers *)

(** What they use of the raw socket; [send] and [receive] are system calls. *)
Class RawSocketOps := {
  raw_socket : Type;
  raw_send : raw_socket -> mem -> NetStatus * raw_socket;
  raw_receive : raw_socket -> ReceiveData * raw_socket;
  get_socket_data : raw_socket -> QVPNSocketData.t }.

(** [TCPFlags]. *)
Definition SYN : Z := 2.
Definition ACK : Z := 16.
Definition SYN_ACK : Z := 18.

(** [NetTools::hton] of a [UInt] and of a [UShort]. *)
Definition hton32 (num : Z) : Z := htonl num.
Definition hton16 (num : Z) : Z := htons num.

(** [generate_transport_header] of both installers. *)
Definition generate_transport_header (data : QTunnelProxy.t) (seq ack flags : Z) : option mem :=
  let '(b, e) := QTunnelProxy.get_proto_data_bytes data in
  let pd := QTunnelProxy.proto_data data in
  let scheme := QTunnelTCPViewScheme.make b e in
  let '(opt_b, opt_e) := QTunnelTCPViewScheme.get_options scheme in
  offset ← QTunnelTCPViewScheme.get_offset pd scheme;
  window ← QTunnelTCPViewScheme.get_window pd scheme;
  urgent ← QTunnelTCPViewScheme.get_urgent_pointer pd scheme;
  TcpPacketLittleEndian.generate_object pd (QTunnelProxy.get_src_port data)
    (QTunnelProxy.get_dst_port data) seq ack offset (u8 flags) window urgent opt_b opt_e.

(** The data of the connection that the shadow socket joins. *)
Definition shadow_data (r_sock_data : QVPNSocketData.t) (local_addr : list Z) (port : Z) :
    QVPNSocketData.t :=
  QVPNSocketData.mk (QVPNSocketData.net_proto r_sock_data) (QVPNSocketData.transport_proto r_sock_data)
    local_addr port (QVPNSocketData.remote_addr r_sock_data) (QVPNSocketData.remote_port r_sock_data).

(** [ConnectionInstaller<IPv4, TCP, ...>]. *)
Module ConnectionInstallerIPv4.

Definition generate_net_header (data : QTunnelProxy.t) (key : QVPNServerSocketData.t)
    (total_length : Z) : option mem :=
  let strategy := IPv4DefaultGenStrategy.mk 0 in
  '(obj, _) ← generate_object strategy (QVPNServerSocketData.server_local_addr key)
    (QTunnelProxy.get_dst_addr data) TCP total_length true false 0;
  Some obj.

(** The packet without payload that both steps build around a header of their own. *)
Definition generate_packet (data : QTunnelProxy.t) (key : QVPNServerSocketData.t)
    (seq ack flags : Z) : option Ipv4TcpPacket.t :=
  tcp ← generate_transport_header data seq ack flags;
  let '(bt, et) := TcpPacketLittleEndian.to_bytes tcp in
  let size := et - bt in
  ipv4 ← generate_net_header data key (u16 size);
  let '(b4, e4) := Ipv4PacketLittleEndian.to_bytes ipv4 in
  fp ← Ipv4TcpPacket.of_parts ipv4 b4 e4 tcp bt et [] 0 0;
  Ipv4TcpPacket.recalculate_checksums fp.

Definition packet_bytes (fp : Ipv4TcpPacket.t) : option mem :=
  let '(b, e) := Ipv4TcpPacket.bytes fp in range (PacketObject.data_ fp) b e.

Definition generate_syn (data : QTunnelProxy.t) (key : QVPNServerSocketData.t) :
    option Ipv4TcpPacket.t :=
  let '(b, e) := QTunnelProxy.get_proto_data_bytes data in
  seq ← QTunnelTCPViewScheme.get_seq (QTunnelProxy.proto_data data) (QTunnelTCPViewScheme.make b e);
  generate_packet data key (u32 (hton32 seq - hton16 2)) 0 SYN.

Definition generate_ack (data : QTunnelProxy.t) (key : QVPNServerSocketData.t) (server_seq : Z) :
    option Ipv4TcpPacket.t :=
  let '(b, e) := QTunnelProxy.get_proto_data_bytes data in
  seq ← QTunnelTCPViewScheme.get_seq (QTunnelProxy.proto_data data) (QTunnelTCPViewScheme.make b e);
  generate_packet data key (u32 (hton32 seq - hton16 1)) (hton32 (u32 (server_seq + 1))) ACK.

Section Install.
Context `{RepairSocket} `{RawSocketOps}.

Definition install_connection (data : QTunnelProxy.t) (key : QVPNServerSocketData.t)
    (raw : raw_socket) (sock : socket) : option (NetStatus * raw_socket * socket) :=
  let '(b, e) := QTunnelProxy.get_proto_data_bytes data in
  seq ← QTunnelTCPViewScheme.get_seq (QTunnelProxy.proto_data data) (QTunnelTCPViewScheme.make b e);
  fp_syn ← generate_syn data key;
  syn ← packet_bytes fp_syn;
  let '(syn_res, raw) := raw_send raw syn in
  if negb (success syn_res) then Some (syn_res, raw, sock)
  else
    let '(rec_data, raw) := raw_receive raw in
    if negb (success (rd_status rec_data)) then Some (rd_status rec_data, raw, sock)
    else
      fp_syn_ack ← Ipv4TcpPacket.of_bytes (rd_data rec_data) 0 (rd_size rec_data);
      let m := PacketObject.data_ fp_syn_ack in
      let v := PacketView.transport (PacketObject.views fp_syn_ack) in
      f ← TcpPacketView.get_flags m v;
      let flags := Z.land f SYN_ACK in
      ack ← TcpPacketView.get_tcp_ack_number m v;
      server_seq ← TcpPacketView.get_tcp_seq_number m v;
      src_port ← TcpPacketView.get_src_port (PacketObject.data_ fp_syn)
                   (PacketView.transport (PacketObject.views fp_syn));
      let sock_data := shadow_data (get_socket_data raw) (QVPNServerSocketData.server_local_addr key)
                         src_port in
      let '(r_res, sock) :=
        append_socket_to_connection sock sock_data (hton32 seq) (hton32 server_seq) in
      if negb (rs_success r_res)
      then Some (mkStatus (rs_success r_res) (rs_status r_res), raw, sock)
      else if negb (flags =? SYN_ACK) then Some (mkStatus false (-1), raw, sock)
      else
        fp_ack ← generate_ack data key server_seq;
        ack_bytes ← packet_bytes fp_ack;
        let '(ack_res, raw) := raw_send raw ack_bytes in
        Some (ack_res, raw, sock).

End Install.

End ConnectionInstallerIPv4.

(** [ConnectionInstaller<NET_UNDEFINED, TCP, ...>]: the kernel adds the IPv4 header to what is
    sent, and received packets have one. *)
Module ConnectionInstallerNoNet.

Definition generate_packet (data : QTunnelProxy.t) (r_sock_data : QVPNSocketData.t)
    (seq ack flags : Z) : option NoNetPacketTcpObject.t :=
  tcp ← generate_transport_header data seq ack flags;
  let '(bt, et) := TcpPacketLittleEndian.to_bytes tcp in
  let size := et - bt in
  fp ← NoNetPacketTcpObject.of_parts tcp bt et [] 0 0;
  NoNetPacketTcpObject.recalculate_checksums fp (QVPNSocketData.local_addr r_sock_data)
    (QVPNSocketData.remote_addr r_sock_data) (u16 size).

Definition packet_bytes (fp : NoNetPacketTcpObject.t) : option mem :=
  let '(b, e) := NoNetPacketTcpObject.bytes fp in range (NoNetObject.data_ fp) b e.

Definition generate_syn (data : QTunnelProxy.t) (r_sock_data : QVPNSocketData.t) :
    option NoNetPacketTcpObject.t :=
  let '(b, e) := QTunnelProxy.get_proto_data_bytes data in
  seq ← QTunnelTCPViewScheme.get_seq (QTunnelProxy.proto_data data) (QTunnelTCPViewScheme.make b e);
  generate_packet data r_sock_data (u32 (hton32 seq - hton16 2)) 0 SYN.

(** The acknowledgement number is the sum of the one that was received and a swapped one. *)
Definition generate_ack (data : QTunnelProxy.t) (r_sock_data : QVPNSocketData.t)
    (server_seq server_ack : Z) : option NoNetPacketTcpObject.t :=
  let '(b, e) := QTunnelProxy.get_proto_data_bytes data in
  seq ← QTunnelTCPViewScheme.get_seq (QTunnelProxy.proto_data data) (QTunnelTCPViewScheme.make b e);
  generate_packet data r_sock_data (u32 (hton32 seq - hton16 1))
    (u32 (server_ack + hton32 (u32 (server_seq + 1)))) ACK.

Section Install.
Context `{RepairSocket} `{RawSocketOps}.

Definition install_connection (data : QTunnelProxy.t) (key : QVPNServerSocketData.t)
    (raw : raw_socket) (sock : socket) : option (NetStatus * raw_socket * socket) :=
  let '(b, e) := QTunnelProxy.get_proto_data_bytes data in
  seq ← QTunnelTCPViewScheme.get_seq (QTunnelProxy.proto_data data) (QTunnelTCPViewScheme.make b e);
  fp_syn ← generate_syn data (get_socket_data raw);
  syn ← packet_bytes fp_syn;
  let '(syn_res, raw) := raw_send raw syn in
  if negb (success syn_res) then Some (syn_res, raw, sock)
  else
    let '(rec_data, raw) := raw_receive raw in
    if negb (success (rd_status rec_data)) then Some (rd_status rec_data, raw, sock)
    else
      fp_syn_ack ← PacketPreParser.pre_parse (rd_data rec_data) 0 (rd_size rec_data);
      proto_data ← PacketPreParser.collect_proto_data (rd_data rec_data) fp_syn_ack;
      let '(p_b, p_e) := QTunnelProtoData.to_bytes proto_data in
      let scheme_syn_ack := QTunnelTCPViewScheme.make p_b p_e in
      f ← QTunnelTCPViewScheme.get_flags proto_data scheme_syn_ack;
      let flags := Z.land f SYN_ACK in
      server_seq ← QTunnelTCPViewScheme.get_seq proto_data scheme_syn_ack;
      server_ack ← QTunnelTCPViewScheme.get_ack proto_data scheme_syn_ack;
      src_port ← TcpPacketView.get_src_port (NoNetObject.data_ fp_syn)
                   (NoNetView.transport (NoNetObject.views fp_syn));
      let sock_data := shadow_data (get_socket_data raw) (QVPNServerSocketData.server_local_addr key)
                         src_port in
      let '(r_res, sock) := append_socket_to_connection sock sock_data seq (u32 (server_seq + 1)) in
      if negb (rs_success r_res)
      then Some (mkStatus (rs_success r_res) (rs_status r_res), raw, sock)
      else if negb (flags =? SYN_ACK) then Some (mkStatus false (-1), raw, sock)
      else
        fp_ack ← generate_ack data (get_socket_data raw) server_seq server_ack;
        ack_bytes ← packet_bytes fp_ack;
        let '(ack_res, raw) := raw_send raw ack_bytes in
        Some (ack_res, raw, sock).

End Install.

End ConnectionInstallerNoNet.

(** The general template: nothing is done, and that succeeds. *)
Definition install_connection_any {R S : Type} (raw : R) (sock : S) : NetStatus * R * S :=
  (mkStatus true 0, raw, sock).

(** * The driver's dispatch over the protocols *)

Module QVPNServerConnect.
Section Connect.
Context `{RepairSocket} `{RawSocketOps}.

(** [estabilish_connection<Net, Transport>]: the answer of the installer of the two. *)
Definition estabilish_connection_tcp (data : QTunnelProxy.t) (key : QVPNServerSocketData.t)
    (raw : raw_socket) (sock : socket) : option (bool * raw_socket * socket) :=
  '(res, raw, sock) ← ConnectionInstallerIPv4.install_connection data key raw sock;
  Some (success res, raw, sock).
Definition estabilish_connection_udp (raw : raw_socket) (sock : socket) :
    option (bool * raw_socket * socket) :=
  let '(res, raw, sock) := install_connection_any raw sock in Some (success res, raw, sock).

Definition connection_wrapper_transport_ipv4 (data : QTunnelProxy.t) (key : QVPNServerSocketData.t)
    (raw : raw_socket) (sock : socket) : option (bool * raw_socket * socket) :=
  let t_proto := QTunnelProxy.get_transport_proto data in
  if t_proto =? TCP then estabilish_connection_tcp data key raw sock
  else if t_proto =? UDP then estabilish_connection_udp raw sock
  else Some (false, raw, sock).

Definition connection_wrapper_transport_ipv6 (data : QTunnelProxy.t) (key : QVPNServerSocketData.t)
    (raw : raw_socket) (sock : socket) : option (bool * raw_socket * socket) :=
  Some (false, raw, sock).

Definition connection_wrapper_net (data : QTunnelProxy.t) (key : QVPNServerSocketData.t)
    (raw : raw_socket) (sock : socket) : option (bool * raw_socket * socket) :=
  let net_p := QTunnelProxy.get_net_proto data in
  if net_p =? IPv4 then connection_wrapper_transport_ipv4 data key raw sock
  else if net_p =? IPv6 then connection_wrapper_transport_ipv6 data key raw sock
  else Some (false, raw, sock).

(** [while (!con)], for at most [fuel] turns: nothing inside when they were not enough. *)
Fixpoint install_connection_by_protocols (fuel : nat) (data : QTunnelProxy.t)
    (key : QVPNServerSocketData.t) (raw : raw_socket) (sock : socket) :
    option (option (raw_socket * socket)) :=
  match fuel with
  | O => Some None
  | S fuel =>
      '((con, raw, sock) : bool * raw_socket * socket) ← connection_wrapper_net data key raw sock;
      if con then Some (Some (raw, sock))
      else install_connection_by_protocols fuel data key raw sock
  end.

End Connect.
End QVPNServerConnect.

(** * What the packets of the handshake say *)

Lemma hton32_u32 v : is_u32 (hton32 v).
Proof. unfold hton32, htonl, host32, cat32. apply u32_is_u32. Qed.

(** The scheme over collected metadata reads the fields of the header. *)
Lemma collected_scheme t pd :
  bytes t -> tcp_whole t -> t_collect (TransportObject := tcp_object) t = Some pd ->
  let sc := QTunnelTCPViewScheme.make 0 (msize pd) in
  exists seq off win urg opts ob oe,
    TcpPacketLittleEndian.get_tcp_seq_number t = Some seq /\
    QTunnelTCPViewScheme.get_seq pd sc = Some seq /\
    QTunnelTCPViewScheme.get_offset pd sc = Some off /\
    QTunnelTCPViewScheme.get_window pd sc = Some win /\
    QTunnelTCPViewScheme.get_urgent_pointer pd sc = Some urg /\
    QTunnelTCPViewScheme.get_options sc = (ob, oe) /\ range pd ob oe = Some opts /\ bytes opts /\
    0 <= off < 16 /\ is_u16 win /\ is_u16 urg /\ msize t = 4 * off /\ msize opts = msize t - 20.
Proof.
  intros Hb Hw Hc sc.
  destruct (tcp_fields_in t Hb Hw) as (seq & ack & off & fl & win & urg & opts & Hseq & Hack & Hoff &
    Hfl & Hwin & Hurg & Hopts & Useq & Uack & Uoff & Ufl & Uwin & Uurg & Sh & So).
  assert (Hmin : 20 <= msize t) by apply Hw.
  cbn [t_collect tcp_object] in Hc. rewrite tcp_to_view in Hc by done. cbn [mbind option_bind] in Hc.
  destruct (tcp_scheme_fields t _ pd opts Hb Hc) as (F1 & _ & _ & F4 & F5 & F6 & F7 & _).
  { unfold TcpPacketView.get_tcp_options. cbn [TcpPacketView.options_ TcpPacketView.tcp_options_size].
    by replace (20 + (msize t - 20)) with (msize t) by lia. }
  { lia. }
  destruct (QTunnelTCPViewScheme.get_options (QTunnelTCPViewScheme.make 0 (msize pd))) as [ob oe] eqn:Eo.
  exists seq, off, win, urg, opts, ob, oe. split_and!; try done || lia.
  - rewrite <- Hseq. exact F1.
  - rewrite <- Hoff. exact F4.
  - rewrite <- Hwin. exact F5.
  - rewrite <- Hurg. exact F6.
  - by eapply range_bytes.
Qed.

(** The header of a step: the numbers and flags it asks for, the ports of the proxy data, the
    size of the client's header. *)
Lemma transport_header_ok t px seq ack flags :
  bytes t -> tcp_whole t ->
  t_collect (TransportObject := tcp_object) t = Some (QTunnelProxy.proto_data px) ->
  is_u16 (QTunnelProxy.source_port px) -> is_u16 (QTunnelProxy.dst_port px) ->
  is_u32 seq -> is_u32 ack -> 0 <= flags < 256 ->
  exists h, generate_transport_header px seq ack flags = Some h /\
    bytes h /\ tcp_whole h /\ msize h = msize t /\
    TcpPacketLittleEndian.get_tcp_seq_number h = Some seq /\
    TcpPacketLittleEndian.get_tcp_ack_number h = Some ack /\
    TcpPacketLittleEndian.get_tcp_flags h = Some flags /\
    TcpPacketLittleEndian.get_tcp_src_port h = Some (QTunnelProxy.source_port px) /\
    TcpPacketLittleEndian.get_tcp_dst_port h = Some (QTunnelProxy.dst_port px).
Proof.
  intros Hb Hw Hc Hsp Hdp Useq Uack Hf.
  destruct (collected_scheme t _ Hb Hw Hc) as (sq & off & win & urg & opts & ob & oe & _ & _ & Eoff & Ewin &
    Eurg & Eo & Ho & Bo & Uoff & Uwin & Uurg & Sh & So).
  destruct (tcp_generate_fields (QTunnelProxy.proto_data px) (QTunnelProxy.source_port px)
    (QTunnelProxy.dst_port px) seq ack off flags win urg ob oe opts)
    as (h & Hg & G1 & G2 & G3 & G4 & G5 & G6 & G7 & _ & G9 & G10 & G11 & G12 & _); [done..|lia|done|done|done|].
  assert (Hmin : 20 <= msize t) by apply Hw.
  assert (Wh : tcp_whole h).
  { split; [lia|]. unfold TcpPacketLittleEndian.get_tcp_header_length in G5.
    apply bind_Some in G5 as (a & Ha & [= Hoa]). exists a. split; [done|lia]. }
  exists h. split_and!; try done; [|by apply G12|lia|].
  - unfold generate_transport_header, QTunnelProxy.get_proto_data_bytes, QTunnelProtoData.to_bytes.
    rewrite Eo, Eoff, Ewin, Eurg. cbn [mbind option_bind]. unfold TcpPacketLittleEndian.generate_object.
    unfold QTunnelProxy.get_src_port, QTunnelProxy.get_dst_port. rewrite u8_id by (unfold is_u8; lia).
    rewrite Hg. cbn [mbind option_bind]. by apply tcp_make_whole.
  - rewrite G11. apply flags_back; [lia|]. unfold TcpFlagsObject.get_ns.
    rewrite Z.shiftr_div_pow2, Z.div_small by lia. done.
Qed.

(** A segment without payload from the server's address and the client's port to the client's
    destination, that a receiver accepts. *)
Definition handshake_segment (px : QTunnelProxy.t) (local : list Z) (packet : mem)
    (seq ack flags : Z) : Prop :=
  exists n tr ph, packet = n ++ tr /\
    TcpPacketLittleEndian.get_tcp_seq_number tr = Some seq /\
    TcpPacketLittleEndian.get_tcp_ack_number tr = Some ack /\
    TcpPacketLittleEndian.get_tcp_flags tr = Some flags /\
    TcpPacketLittleEndian.get_tcp_src_port tr = Some (QTunnelProxy.source_port px) /\
    TcpPacketLittleEndian.get_tcp_dst_port tr = Some (QTunnelProxy.dst_port px) /\
    Ipv4PacketLittleEndian.get_src_addr n = Some local /\
    Ipv4PacketLittleEndian.get_dst_addr n = Some (QTunnelProxy.dst_addr px) /\
    Ipv4PacketLittleEndian.get_ip_total_length n = Some (msize packet) /\
    receiver_pseudo n = Some ph /\ verifies (total n) /\ verifies (total ph + total tr).

Lemma handshake_packet_ok t px key local seq ack flags :
  bytes t -> tcp_whole t ->
  t_collect (TransportObject := tcp_object) t = Some (QTunnelProxy.proto_data px) ->
  is_u16 (QTunnelProxy.source_port px) -> is_u16 (QTunnelProxy.dst_port px) ->
  bytes (QTunnelProxy.dst_addr px) -> msize (QTunnelProxy.dst_addr px) = 4 ->
  bytes local -> msize local = 4 -> QVPNServerSocketData.server_local_addr key = local ->
  is_u32 seq -> is_u32 ack -> 0 <= flags < 256 ->
  exists fp packet, ConnectionInstallerIPv4.generate_packet px key seq ack flags = Some fp /\
    ConnectionInstallerIPv4.packet_bytes fp = Some packet /\
    handshake_segment px local packet seq ack flags.
Proof.
  intros Hb Hw Hc Hsp Hdp Bd Ld Bl Ll Hk Useq Uack Hf.
  destruct (transport_header_ok t px seq ack flags) as (h1 & Eg & B1 & W1 & S1 & G1 & G2 & G3 & G4 & G5);
    [done..|].
  pose proof (tcp_whole_size h1 B1 W1) as Z1.
  destruct (ipv4_generate_fields 0 local (QTunnelProxy.dst_addr px) TCP (msize h1) true false 0)
    as (h & Hg & Bh & Sh & _ & Hihl & Htl & _ & _ & _ & _ & _ & Hs & Hd & _);
    [done..|by unfold is_u8, TCP|lia|done|].
  assert (Wh : ip_whole h).
  { split; [lia|]. unfold Ipv4PacketLittleEndian.get_ip_header_length in Hihl.
    apply bind_Some in Hihl as (a & Ha & [= E]). exists a. split; [done|lia]. }
  destruct (object_ok (T := tcp_view) h h1 [] 0 0 [])
    as (n & tr & ph & Hr & Hpb & Hph & Hv & Hvt & Sn & Hqn & St & Hqt);
    [done..|by apply Forall_nil|change (msize []) with 0; lia|done|].
  destruct (ip_fields_ext n h) as (E1 & E2 & E3); [lia|lia|done|].
  destruct (carried_ext tr h1 St Hqt) as (F & _ & P1 & P2). rewrite Forall_forall in F.
  exists (PacketObject.mk (n ++ tr ++ []) (views_at (T := tcp_view) 0 h1 [])), (n ++ tr).
  split_and!.
  - unfold ConnectionInstallerIPv4.generate_packet. rewrite Eg. cbn [mbind option_bind].
    unfold TcpPacketLittleEndian.to_bytes, ConnectionInstallerIPv4.generate_net_header.
    rewrite Hk, Z.sub_0_r, u16_id by (unfold is_u16; lia). unfold QTunnelProxy.get_dst_addr, generate_object.
    rewrite Hg. cbn [mbind option_bind]. rewrite ip_make_whole by done. cbn [mbind option_bind].
    exact Hr.
  - rewrite app_nil_r in Hpb |- *. exact Hpb.
  - exists n, tr, ph. split; [done|]. split_and!; try done.
    + rewrite <- G1. apply F. unfold carried_fields. rewrite !elem_of_cons. auto.
    + rewrite <- G2. apply F. unfold carried_fields. rewrite !elem_of_cons. auto.
    + rewrite <- G3. apply F. unfold carried_fields. rewrite !elem_of_cons. auto.
    + by rewrite P1.
    + by rewrite P2.
    + by rewrite E2.
    + by rewrite E3.
    + rewrite E1, Htl, msize_app. f_equal. lia.
    + change (total []) with 0 in Hvt. by rewrite Z.add_0_r in Hvt.
Qed.

(** The packets of the handshake are valid segments of the connection, but they cannot open
    it.  The client's sequence number is byte-swapped before it is lowered by a swapped
    2 (in the SYN) and a swapped 1 (in the ACK): the two numbers are 256 apart, where a
    peer that got the SYN expects its number plus one; and the ACK acknowledges the
    byte-swapped number of the peer. *)
Theorem handshake_out_of_order t px key local server_seq :
  bytes t -> tcp_whole t ->
  t_collect (TransportObject := tcp_object) t = Some (QTunnelProxy.proto_data px) ->
  is_u16 (QTunnelProxy.source_port px) -> is_u16 (QTunnelProxy.dst_port px) ->
  bytes (QTunnelProxy.dst_addr px) -> msize (QTunnelProxy.dst_addr px) = 4 ->
  bytes local -> msize local = 4 -> QVPNServerSocketData.server_local_addr key = local ->
  exists seq fp_syn fp_ack syn ack,
    TcpPacketLittleEndian.get_tcp_seq_number t = Some seq /\
    ConnectionInstallerIPv4.generate_syn px key = Some fp_syn /\
    ConnectionInstallerIPv4.packet_bytes fp_syn = Some syn /\
    ConnectionInstallerIPv4.generate_ack px key server_seq = Some fp_ack /\
    ConnectionInstallerIPv4.packet_bytes fp_ack = Some ack /\
    let iss := u32 (hton32 seq - 512) in
    handshake_segment px local syn iss 0 SYN /\
    handshake_segment px local ack (u32 (iss + 256)) (hton32 (u32 (server_seq + 1))) ACK /\
    u32 (iss + 256) <> u32 (iss + 1).
Proof.
  intros Hb Hw Hc Hsp Hdp Bd Ld Bl Ll Hk.
  destruct (collected_scheme t _ Hb Hw Hc) as (seq & _ & _ & _ & _ & _ & _ & Hseq & Eseq & _).
  set (iss := u32 (hton32 seq - 512)).
  assert (Hack : u32 (hton32 seq - 256) = u32 (iss + 256)).
  { unfold iss, u32. rewrite Zplus_mod_idemp_l. f_equal. lia. }
  destruct (handshake_packet_ok t px key local iss 0 SYN)
    as (fp_syn & syn & Es & Ps & Vs); [done..|apply u32_is_u32|done|by unfold SYN|].
  destruct (handshake_packet_ok t px key local (u32 (iss + 256)) (hton32 (u32 (server_seq + 1))) ACK)
    as (fp_ack & ack & Ea & Pa & Va); [done..|apply u32_is_u32|apply hton32_u32|by unfold ACK|].
  exists seq, fp_syn, fp_ack, syn, ack. cbv zeta. fold iss. split_and!; try done.
  - unfold ConnectionInstallerIPv4.generate_syn, QTunnelProxy.get_proto_data_bytes, QTunnelProtoData.to_bytes.
    rewrite Eseq. exact Es.
  - unfold ConnectionInstallerIPv4.generate_ack, QTunnelProxy.get_proto_data_bytes, QTunnelProtoData.to_bytes.
    rewrite Eseq. cbn [mbind option_bind]. change (hton16 1) with 256. rewrite Hack. exact Ea.
  - unfold u32. intros E. Z.div_mod_to_equations. lia.
Qed.

Lemma handshake_out_of_order_witness :
  let px := QTunnelProxy.mk IPv4 TCP [10; 0; 0; 2] 50000 [8; 8; 8; 8] 443
    [0; 15; 1; 2; 3; 4; 80; 80; 80; 80; 0; 80; 5; 80; 80; 80; 80] in
  let key := QVPNServerForward.set_server_local_addr (QVPNServerForward.connection_key px) [192; 0; 2; 7] in
  exists fp_syn syn,
    ConnectionInstallerIPv4.generate_syn px key = Some fp_syn /\
    ConnectionInstallerIPv4.packet_bytes fp_syn = Some syn /\
    handshake_segment px [192; 0; 2; 7] syn 67305473 0 SYN.
Proof.
  intros px key.
  destruct (handshake_out_of_order ([80; 80; 80; 80; 1; 2; 3; 4] ++ repeat 80 12) px key [192; 0; 2; 7] 5)
    as (seq & fp_syn & fp_ack & syn & ack & Hs & Es & Ps & _ & _ & V & _);
    [concrete|split; [vm_compute; discriminate|exists 80; by split]|reflexivity|concrete|concrete|concrete
    |reflexivity|concrete|reflexivity|reflexivity|].
  exists fp_syn, syn. split; [exact Es|]. split; [exact Ps|].
  assert (seq = 16909060) as -> by (vm_compute in Hs; congruence). exact V.
Defined.

(** * What the repair leaves behind *)

(** A kernel that gives any answers, and remembers what it was asked. *)
Definition recorded : RepairSocket := {|
  socket := list repair_call * list (option Z);
  transport_proto _ := TCP;
  system_call s c :=
    match snd s with
    | [] => (None, (fst s ++ [c], []))
    | r :: rs => (r, (fst s ++ [c], rs))
    end |}.

Lemma checked_recorded calls made answers :
  exists res made' rest,
    checked_calls (H := recorded) (made, answers) calls = (res, (made ++ made', rest)) /\
    ((rs_success res = true /\ made' = calls /\ Forall (eq None) (take (length calls) answers)) \/
     (rs_success res = false /\ exists k, (k < length calls)%nat /\ made' = take (S k) calls /\
        Forall (eq None) (take k answers) /\ answers !! k = Some (Some (rs_status res)))).
Proof.
  revert made answers. induction calls as [|c calls IH]; intros made answers.
  { exists (mkRepair true 0), [], answers. rewrite app_nil_r. split; [done|]. left. by split_and!. }
  cbn [checked_calls system_call recorded fst snd].
  destruct answers as [|[e|] answers].
  - destruct (IH (made ++ [c]) []) as (res & made' & rest & E & C). rewrite E, <- app_assoc.
    exists res, (c :: made'), rest. split; [done|].
    destruct C as [(? & -> & _)|(? & k & _ & _ & _ & ?)]; [|done]. left. by split_and!.
  - exists (mkRepair false e), [c], answers. split; [done|]. right. split; [done|]. exists 0%nat.
    cbn. split_and!; [lia|done|apply Forall_nil_2|done].
  - destruct (IH (made ++ [c]) answers) as (res & made' & rest & E & C). rewrite E, <- app_assoc.
    exists res, (c :: made'), rest. split; [done|].
    destruct C as [(? & -> & F)|(? & k & Hk & -> & F & Hr)].
    + left. split_and!; try done. cbn. by apply Forall_cons_2.
    + right. split; [done|]. exists (S k). cbn. split_and!; [lia|done|by apply Forall_cons_2|done].
Qed.

(** Whether a socket is in repair mode after calls that succeeded. *)
Definition repair_mode (calls : list repair_call) : bool :=
  foldl (fun on c => match c with SetRepair v => negb (v =? 0) | _ => on end) false calls.

(** Appending a TCP socket to a connection makes the nine calls in order until one fails.
    When all succeed the socket is out of repair mode; when one after the first fails, its
    [errno] is the answer and nothing turns the mode off again: the socket is left in it. *)
Theorem append_left_in_repair answers connection_data local_isn remote_isn :
  let calls := repair_calls connection_data local_isn remote_isn in
  exists res made rest,
    append_socket_to_connection (H := recorded) ([], answers) connection_data local_isn remote_isn =
      (res, (made, rest)) /\
    ((rs_success res = true /\ made = calls /\ repair_mode made = false) \/
     (rs_success res = false /\ exists k, (k < 9)%nat /\ made = take (S k) calls /\
        Forall (eq None) (take k answers) /\ answers !! k = Some (Some (rs_status res)) /\
        repair_mode (take k calls) = bool_decide (0 < k)%nat)).
Proof.
  intros calls. destruct (checked_recorded calls [] answers) as (res & made & rest & E & C).
  exists res, made, rest. split; [exact E|].
  destruct C as [(? & -> & _)|(? & k & Hk & -> & F & Hr)]; [by left|right].
  split; [done|]. exists k. split_and!; try done. change (length calls) with 9%nat in Hk.
  do 9 (destruct k; [done|]). lia.
Qed.

(** * The order of the steps *)

Section Order.
Context `{RepairSocket} `{RawSocketOps}.

(** Every answer of the installer, with the sockets it leaves: it fails with the shadow socket
    untouched when the SYN is not sent or nothing comes back; otherwise the shadow socket
    has been appended to the connection, whatever the flags that came back. *)
Theorem install_outcomes px key raw sock st raw' sock' :
  ConnectionInstallerIPv4.install_connection px key raw sock = Some (st, raw', sock') ->
  exists fp_syn syn syn_res raw1,
    ConnectionInstallerIPv4.generate_syn px key = Some fp_syn /\
    ConnectionInstallerIPv4.packet_bytes fp_syn = Some syn /\ raw_send raw syn = (syn_res, raw1) /\
    ((success syn_res = false /\ st = syn_res /\ raw' = raw1 /\ sock' = sock) \/
     exists rec raw2, success syn_res = true /\ raw_receive raw1 = (rec, raw2) /\
       ((success (rd_status rec) = false /\ st = rd_status rec /\ raw' = raw2 /\ sock' = sock) \/
        exists sock_data local_isn remote_isn res,
          success (rd_status rec) = true /\
          append_socket_to_connection sock sock_data local_isn remote_isn = (res, sock') /\
          ((rs_success res = false /\ success st = false /\ raw' = raw2) \/
           (rs_success res = true /\ st = mkStatus false (-1) /\ raw' = raw2) \/
           exists ack, rs_success res = true /\ raw_send raw2 ack = (st, raw')))).
Proof.
  unfold ConnectionInstallerIPv4.install_connection, QTunnelProxy.get_proto_data_bytes, QTunnelProtoData.to_bytes.
  intros (seq & _ & (fp_syn & Hfp & (syn & Hsyn & E)%bind_Some)%bind_Some)%bind_Some.
  exists fp_syn, syn. destruct (raw_send raw syn) as [syn_res raw1] eqn:Hs. exists syn_res, raw1.
  do 3 (split; [done|]). destruct (success syn_res) eqn:S1; cbn [negb] in E; [right|left; by injection E as <- <- <-].
  destruct (raw_receive raw1) as [rec raw2] eqn:Hr. exists rec, raw2. do 2 (split; [done|]).
  destruct (success (rd_status rec)) eqn:S2; cbn [negb] in E; [right|left; by injection E as <- <- <-].
  apply bind_Some in E as (p & _ & (f & _ & (ack & _ & (sq & _ & (port & _ & E)%bind_Some)%bind_Some)%bind_Some)%bind_Some).
  set (sd := shadow_data _ _ _) in E. exists sd, (hton32 seq), (hton32 sq).
  destruct (append_socket_to_connection sock sd (hton32 seq) (hton32 sq)) as [res sock1] eqn:Ha.
  exists res. split; [done|].
  destruct (rs_success res) eqn:S3; cbn [negb] in E; cycle 1.
  { injection E as <- <- <-. split; [done|]. left. by cbn. }
  destruct (Z.land f SYN_ACK =? SYN_ACK); cbn [negb] in E; cycle 1.
  { injection E as <- <- <-. split; [done|]. right. by left. }
  apply bind_Some in E as (fp_ack & _ & (ab & _ & E)%bind_Some).
  destruct (raw_send raw2 ab) as [ack_res raw3] eqn:Hk. injection E as <- <- <-.
  split; [done|]. right. right. by exists ab.
Qed.

End Order.

(** * Without a network header *)

(** The metadata of a reply that is neither TCP nor UDP over IPv4 are empty, and the installer
    reads their flags all the same. *)
Lemma dummy_reply_undefined `{RepairSocket} `{RawSocketOps} px key raw sock rec raw1 raw2 syn_res :
  (forall syn, raw_send raw syn = (syn_res, raw1)) -> success syn_res = true ->
  raw_receive raw1 = (rec, raw2) -> success (rd_status rec) = true ->
  PacketPreParser.pre_parse (rd_data rec) 0 (rd_size rec) = Some PacketPreParser.DummyPacket ->
  ConnectionInstallerNoNet.install_connection px key raw sock = None.
Proof.
  intros Hs S1 Hr S2 Hp. unfold ConnectionInstallerNoNet.install_connection,
    QTunnelProxy.get_proto_data_bytes, QTunnelProtoData.to_bytes.
  destruct (QTunnelTCPViewScheme.get_seq _ _); [|done]. cbn [mbind option_bind].
  destruct (ConnectionInstallerNoNet.generate_syn _ _) as [fp|]; [|done]. cbn [mbind option_bind].
  destruct (ConnectionInstallerNoNet.packet_bytes fp) as [syn|]; [|done]. cbn [mbind option_bind].
  rewrite Hs, S1. cbn [negb]. rewrite Hr, S2. cbn [negb]. by rewrite Hp.
Qed.

(** * The loop of the driver *)

(** Only TCP and UDP over IPv4 can end the loop: for any other protocol it runs for ever,
    whatever the sockets answer. *)
Lemma other_protocols_never_connect `{RepairSocket} `{RawSocketOps} fuel px key raw sock :
  QTunnelProxy.net_protocol px <> IPv4 \/
  (QTunnelProxy.transport_protocol px <> TCP /\ QTunnelProxy.transport_protocol px <> UDP) ->
  QVPNServerConnect.install_connection_by_protocols fuel px key raw sock = Some None.
Proof.
  intros Hp. revert raw sock. induction fuel as [|fuel IH]; intros raw sock; [done|].
  cbn [QVPNServerConnect.install_connection_by_protocols].
  assert (QVPNServerConnect.connection_wrapper_net px key raw sock = Some (false, raw, sock)) as ->.
  { unfold QVPNServerConnect.connection_wrapper_net, QTunnelProxy.get_net_proto,
      QVPNServerConnect.connection_wrapper_transport_ipv4, QTunnelProxy.get_transport_proto.
    destruct (Z.eqb_spec (QTunnelProxy.net_protocol px) IPv4), (Z.eqb_spec (QTunnelProxy.transport_protocol px) TCP),
      (Z.eqb_spec (QTunnelProxy.transport_protocol px) UDP), (Z.eqb_spec (QTunnelProxy.net_protocol px) IPv6);
      intuition congruence. }
  cbn [mbind option_bind]. apply IH.
Qed.
