(* ===== verification/Sockets.v ===== *)
(** The sockets of the Linux build: [QVPN_Socket], [QVPN_RawSocket], [QVPNMetaSocketData],
    [QVPNNetTools] and the helpers in [details] (src/QVPN/QVPN Lib/src/Linux/qvpn_net_tools.cpp,
    include/Linux/qvpn_net_tools.hpp).

    A socket object is a descriptor and what the object believes about its connection; the
    connection itself is in the kernel, which is the class [SysSockets]: one function per
    system call, with any answers.  What is relied on of the descriptor table is the class
    [SysLaws].  A method is a computation in the monad [io]: it threads the kernel's state
    and is [None] where the code is undefined. *)
From S2P Require Import Prelude Addr SafeReceive SocketFilter Installer Driver.

(** * The kernel *)

(** The options the code sets. *)
Inductive sockopt : Type :=
  | IpHdrIncl (optval : Z)
  | RcvTimeo (tv_sec tv_usec : Z)
  | AttachBpf (prog_fd : Z)
  | TcpRepair (value : Z)
  | TcpRepairQueue (queue : tcp_queue)
  | TcpQueueSeq (seq : Z).

(** A call answers its result; one that fills in a name answers the whole name, or nothing
    when it fails.  [socket_filter_wrapper] loads the program through libbpf and answers
    the descriptor of the program. *)
Class SysSockets := {
  kernel : Type;
  errno : kernel -> Z;
  sys_socket : Z -> Z -> Z -> kernel -> Z * kernel;
  sys_connect : Z -> mem -> kernel -> Z * kernel;
  sys_bind : Z -> mem -> kernel -> Z * kernel;
  sys_listen : Z -> Z -> kernel -> Z * kernel;
  sys_accept : Z -> kernel -> Z * option mem * kernel;
  sys_getsockname : Z -> kernel -> option mem * kernel;
  sys_getpeername : Z -> kernel -> option mem * kernel;
  sys_send : Z -> mem -> Z -> kernel -> Z * kernel;
  sys_recv : Z -> Z -> Z -> kernel -> Z * mem * kernel;
  sys_sendto : Z -> mem -> Z -> mem -> kernel -> Z * kernel;
  sys_shutdown : Z -> kernel -> Z * kernel;
  sys_close : Z -> kernel -> Z * kernel;
  sys_setsockopt : Z -> sockopt -> kernel -> Z * kernel;
  load_filter : filter_key.t -> kernel -> Z * kernel }.

Definition io `{SysSockets} (A : Type) : Type := kernel -> option (A * kernel).

#[global] Instance io_ret `{SysSockets} : MRet io := fun A x k => Some (x, k).
#[global] Instance io_bind `{SysSockets} : MBind io :=
  fun A B f m k => match m k with Some (x, k) => f x k | None => None end.

Definition call `{SysSockets} {A} (c : kernel -> A * kernel) : io A := fun k => Some (c k).
Definition lift `{SysSockets} {A} (o : option A) : io A :=
  fun k => match o with Some x => Some (x, k) | None => None end.
Definition get_errno `{SysSockets} : io Z := fun k => Some (errno k, k).

(** Numbers in the memory of a little-endian host. *)
Definition le16 (v : Z) : mem := [octet 0 v; octet 1 v].
Definition le32 (v : Z) : mem := [octet 0 v; octet 1 v; octet 2 v; octet 3 v].
Definition ntohs (v : Z) : Z := htons v.

Definition AF_INET : Z := 2.
Definition AF_INET6 : Z := 10.
Definition SOCK_STREAM : Z := 1.
Definition SOCK_DGRAM : Z := 2.
Definition SOCK_RAW : Z := 3.
Definition IPPROTO_TCP : Z := 6.
Definition IPPROTO_UDP : Z := 17.

(** [struct sockaddr_in] and [struct sockaddr_in6] with their other members zero. *)
Definition sockaddr_in (sin_family sin_port s_addr : Z) : mem :=
  le16 sin_family ++ le16 sin_port ++ le32 s_addr ++ replicate 8 0.
Definition sockaddr_in6 (sin6_family sin6_port : Z) (sin6_addr : mem) : mem :=
  le16 sin6_family ++ le16 sin6_port ++ replicate 4 0 ++ sin6_addr ++ replicate 4 0.

(** [sin_port] and [sin6_port], as the host reads them. *)
Definition sin_port (name : mem) : option Z := a ← load name 2; b ← load name 3; Some (host16 a b).

(** What a call leaves in a name buffer of [len] bytes, and in the length it was given. *)
Definition name_out (buf : mem) (len : Z) (name : option mem) : option (mem * Z) :=
  match name with
  | None => Some (buf, len)
  | Some name => buf ← blit buf 0 (take (Z.to_nat len) name); Some (buf, msize name)
  end.

Definition getsockname `{SysSockets} (fd : Z) (buf : mem) (len : Z) : io (mem * Z) :=
  name ← call (sys_getsockname fd); lift (name_out buf len name).
Definition getpeername `{SysSockets} (fd : Z) (buf : mem) (len : Z) : io (mem * Z) :=
  name ← call (sys_getpeername fd); lift (name_out buf len name).

(** [NetData]. *)
Record NetData := mkNetData { nd_success : bool; nd_status : Z; nd_addr : list Z; nd_port : Z }.

(** * Connecting and binding *)

Module details.
Section Calls.
Context `{SysSockets}.

Definition connect_ipv4 (socket : Z) (addr : list Z) (port : Z) : io NetData :=
  a ← lift (IPv4Address.to_uint addr);
  let serverAddr := sockaddr_in AF_INET (htons port) (htonl a) in
  res ← call (sys_connect socket serverAddr);
  err ← (if res =? -1 then get_errno else mret 0);
  '(localAddr, _) ← getsockname socket (replicate 16 0) 16;
  net_addr ← lift (NetAddr.of_range localAddr 4 (4 + IPv4Address.get_addr_size addr));
  port ← lift (sin_port localAddr);
  mret (mkNetData (res =? 0) err net_addr (ntohs port)).

(** The number of bytes taken as the local address is [IPv6Address::get_addr_size]. *)
Definition connect_ipv6 (socket : Z) (addr : list Z) (port : Z) : io NetData :=
  let serverAddr := sockaddr_in6 AF_INET6 (htons port) (IPv6Address.to_bytes addr) in
  res ← call (sys_connect socket serverAddr);
  '(localAddr, _) ← getsockname socket (replicate 28 0) 28;
  net_addr ← lift (NetAddr.of_range localAddr 8 (8 + IPv6Address.get_addr_size addr));
  err ← (if res =? -1 then get_errno else mret 0);
  mret (mkNetData (res =? 0) err net_addr port).

Definition qvpn_connect_ (socket : Z) (addr : list Z) (port : Z) : io NetData :=
  let addr_family := NetAddr.get_addr_family addr in
  if addr_family =? IPv4 then
    addr ← lift (NetAddr.to_ipv4 addr); connect_ipv4 socket addr port
  else if addr_family =? IPv6 then
    addr ← lift (NetAddr.to_ipv6 addr); connect_ipv6 socket addr port
  else mret (mkNetData false 0 NetAddr.default 0).

(** The length given to [getsockname] is 4. *)
Definition bind_ipv4 (socket : Z) (addr : list Z) (port : Z) : io NetData :=
  a ← lift (IPv4Address.to_uint addr);
  let serverAddr := sockaddr_in AF_INET (htons port) (htonl a) in
  res ← call (sys_bind socket serverAddr);
  err ← (if res =? -1 then get_errno else mret 0);
  '(serverAddr, _) ← getsockname socket serverAddr 4;
  net_addr ← lift (NetAddr.of_range serverAddr 4 (4 + IPv4Address.get_addr_size addr));
  mret (mkNetData (res =? 0) err net_addr port).

Definition bind_ipv6 (socket : Z) (addr : list Z) (port : Z) : io NetData :=
  let serverAddr := sockaddr_in6 AF_INET6 (htons port) (IPv6Address.to_bytes addr) in
  res ← call (sys_bind socket serverAddr);
  err ← (if res =? -1 then get_errno else mret 0);
  '(serverAddr, _) ← getsockname socket serverAddr 28;
  net_addr ← lift (NetAddr.of_range serverAddr 8 (8 + IPv6Address.get_addr_size addr));
  mret (mkNetData (res =? 0) err net_addr port).

Definition qvpn_bind_ (socket : Z) (addr : list Z) (port : Z) : io NetData :=
  let addr_family := NetAddr.get_addr_family addr in
  if addr_family =? IPv4 then
    addr ← lift (NetAddr.to_ipv4 addr); bind_ipv4 socket addr port
  else if addr_family =? IPv6 then
    addr ← lift (NetAddr.to_ipv6 addr); bind_ipv6 socket addr port
  else mret (mkNetData false (-1) NetAddr.default 0).

End Calls.
End details.

(** * The tables of constants *)

(** [operator[]] of the maps answers a zero for a key they do not have. *)
Module QVPNMetaSocketData.

Definition families_ : gmap Z Z := {[IPv4 := AF_INET; IPv6 := AF_INET6]}.
Definition types_ : gmap Z Z := {[TCP := SOCK_STREAM; UDP := SOCK_DGRAM]}.
Definition raw_types_ : gmap Z Z := {[TCP := SOCK_RAW; UDP := SOCK_RAW]}.
Definition protos_ : gmap Z Z := {[TCP := IPPROTO_TCP; UDP := IPPROTO_UDP]}.
Definition raw_protos_ : gmap Z Z := {[TCP := IPPROTO_TCP; UDP := IPPROTO_UDP]}.

Definition get_socket_family (net_proto : Z) : Z := default 0 (families_ !! net_proto).
Definition get_socket_type (t_proto : Z) : Z := default 0 (types_ !! t_proto).
Definition get_socket_proto (t_proto : Z) : Z := default 0 (protos_ !! t_proto).
Definition get_raw_socket_type (t_proto : Z) : Z := default 0 (raw_types_ !! t_proto).
Definition get_raw_socket_proto (t_proto : Z) : Z := default 0 (raw_protos_ !! t_proto).

End QVPNMetaSocketData.

(** [QVPNSocketSettings]. *)
Module QVPNSocketSettings.

Record t := mk { ip_header_ : bool; recv_timeout_ : Z }.

Definition ip_header (s : t) : bool := ip_header_ s.
Definition receive_timeout_ms (s : t) : Z := recv_timeout_ s.

End QVPNSocketSettings.

(** * The socket of the tunnel *)

Module QVPN_Socket.

Definition buffer_size : Z := 65536.

Record t := mk { socket_ : Z; socket_data_ : QVPNSocketData.t }.

Definition no_data : QVPNSocketData.t := QVPNSocketData.mk 0 0 NetAddr.default 0 NetAddr.default 0.

(** The default constructor; [NULL] is 0, the descriptor of the standard input. *)
Definition default : t := mk 0 no_data.

(** The constructors for an existing descriptor. *)
Definition of_ipv4 (socket : Z) (remote_addr : list Z) (remote_port : Z) (local_addr : list Z)
    (local_port transport_proto : Z) : t :=
  mk socket (QVPNSocketData.mk IPv4 transport_proto (NetAddr.of_ipv4 local_addr) local_port
    (NetAddr.of_ipv4 remote_addr) remote_port).
Definition of_ipv6 (socket : Z) (remote_addr : list Z) (remote_port : Z) (local_addr : list Z)
    (local_port transport_proto : Z) : t :=
  mk socket (QVPNSocketData.mk IPv6 transport_proto (NetAddr.of_ipv6 local_addr) local_port
    (NetAddr.of_ipv6 remote_addr) remote_port).
Definition make (socket : Z) (remote_addr : list Z) (remote_port : Z) (local_addr : list Z)
    (local_port transport_proto : Z) : t :=
  mk socket (QVPNSocketData.mk (NetAddr.get_addr_family remote_addr) transport_proto local_addr
    local_port remote_addr remote_port).

Definition is_valid (s : t) : bool := negb (socket_ s <? 0).
Definition get_socket_data (s : t) : QVPNSocketData.t := socket_data_ s.
Definition get_local_addr (s : t) : list Z := QVPNSocketData.local_addr (socket_data_ s).
Definition get_local_port (s : t) : Z := QVPNSocketData.local_port (socket_data_ s).
Definition get_remote_addr (s : t) : list Z := QVPNSocketData.remote_addr (socket_data_ s).
Definition get_remote_port (s : t) : Z := QVPNSocketData.remote_port (socket_data_ s).
Definition get_transport_protocol (s : t) : Z := QVPNSocketData.transport_proto (socket_data_ s).

(** What a successful [connect] or [bind] records. *)
Definition with_connection (s : t) (net_proto : Z) (remote_addr : list Z) (remote_port : Z)
    (local_addr : list Z) (local_port : Z) : t :=
  mk (socket_ s) (QVPNSocketData.mk net_proto (get_transport_protocol s) local_addr local_port
    remote_addr remote_port).

Section Methods.
Context `{SysSockets}.

Definition create (sock_family sock_type sock_proto : Z) : io t :=
  socket_ ← call (sys_socket sock_family sock_type sock_proto);
  let transport_proto :=
    if sock_proto =? IPPROTO_TCP then TCP
    else if sock_proto =? IPPROTO_UDP then UDP else TRANSPORT_UNDEFINED in
  let net_proto :=
    if sock_family =? AF_INET then IPv4
    else if sock_family =? AF_INET6 then IPv6 else NET_UNDEFINED in
  mret (mk socket_ (QVPNSocketData.mk net_proto transport_proto NetAddr.default 0 NetAddr.default 0)).

Definition create_socket_by_args (s : t) (sock_family sock_type sock_proto : Z) : io t :=
  fd ← call (sys_socket sock_family sock_type sock_proto); mret (mk fd (socket_data_ s)).

Definition connect (s : t) (addr : list Z) (port : Z) : io (NetStatus * t) :=
  data ← details.qvpn_connect_ (socket_ s) addr port;
  let status := mkStatus (nd_success data) (nd_status data) in
  mret (status,
    if success status then
      with_connection s (NetAddr.get_addr_family (nd_addr data)) addr port (nd_addr data) (nd_port data)
    else s).

Definition bind (s : t) (addr : list Z) (port : Z) : io (NetStatus * t) :=
  data ← details.qvpn_bind_ (socket_ s) addr port;
  let status := mkStatus (nd_success data) (nd_status data) in
  mret (status,
    if success status then
      with_connection s (NetAddr.get_addr_family addr) addr port (nd_addr data) (nd_port data)
    else s).

Definition check_connected (s : t) : io bool :=
  name ← call (sys_getpeername (socket_ s));
  mret (match name with Some _ => true | None => false end).

Definition shutdown (s : t) : io NetStatus :=
  res ← call (sys_shutdown (socket_ s)); mret (mkStatus (res =? 0) res).
Definition close_socket (s : t) : io unit := _ ← call (sys_close (socket_ s)); mret tt.
Definition disconnect (s : t) : io NetStatus := mret (mkStatus true 0).

(** As in the code: a connected socket is left alone. *)
Definition disconnect_if_connected (s : t) : io unit :=
  connected ← check_connected s;
  if (connected : bool) then mret tt else (_ ← disconnect s; mret tt).

Definition reconnect (s : t) (addr : list Z) (port : Z) : io (NetStatus * t) :=
  connected ← check_connected s;
  s ← (if (connected : bool) then
         _ ← shutdown s;
         _ ← close_socket s;
         let family := NetAddr.get_addr_family (get_local_addr s) in
         let proto := get_transport_protocol s in
         fd ← call (sys_socket (QVPNMetaSocketData.get_socket_family family)
                      (QVPNMetaSocketData.get_socket_type proto)
                      (QVPNMetaSocketData.get_socket_proto proto));
         mret (mk fd (socket_data_ s))
       else mret s);
  connect s addr port.

Definition listen (s : t) (con_limit : Z) : io NetStatus :=
  res ← call (sys_listen (socket_ s) con_limit); mret (mkStatus (res =? 0) res).

(** [part] are the bytes of the range. *)
Definition send (s : t) (part : mem) (flags : Z) : io NetStatus :=
  res ← call (sys_send (socket_ s) part flags);
  if res =? -1 then err ← get_errno; mret (mkStatus false err) else mret (mkStatus true 0).

Definition receive (s : t) (flags : Z) : io ReceiveData :=
  '(res, data) ← call (sys_recv (socket_ s) buffer_size flags);
  buff ← lift (blit (replicate (Z.to_nat buffer_size) 0) 0 data);
  status ← (if 0 <? res then mret (mkStatus true 0) else err ← get_errno; mret (mkStatus false err));
  mret (mkReceive status res buff).

(** [SocketAccept] for IPv4 and IPv6.  The remote port is taken as it is in the name. *)
Definition accept_ipv4 (socket t_proto : Z) : io t :=
  '((sock, peer) : Z * option mem) ← call (sys_accept socket);
  '(clientAddr, clientAddrLen) ← lift (name_out (replicate 16 0) 16 peer);
  '(sock_addr, _) ← getsockname sock (replicate 16 0) 16;
  '(clientAddr, _) ← getpeername sock clientAddr clientAddrLen;
  net_addr ← lift (NetAddr.of_range sock_addr 4 8);
  addr ← lift (NetAddr.of_range clientAddr 4 8);
  port ← lift (sin_port clientAddr);
  local_port ← lift (sin_port sock_addr);
  mret (make sock addr port net_addr (ntohs local_port) t_proto).

Definition accept_ipv6 (socket t_proto : Z) : io t :=
  '((sock, peer) : Z * option mem) ← call (sys_accept socket);
  '(clientAddr, clientAddrLen) ← lift (name_out (replicate 28 0) 28 peer);
  '(sock_addr, _) ← getsockname sock (replicate 28 0) 28;
  '(clientAddr, _) ← getpeername sock clientAddr clientAddrLen;
  net_addr ← lift (NetAddr.of_range sock_addr 8 24);
  addr ← lift (NetAddr.of_range clientAddr 8 24);
  port ← lift (sin_port clientAddr);
  local_port ← lift (sin_port sock_addr);
  mret (make sock addr port net_addr (ntohs local_port) t_proto).

Definition socket_accept (socket net_proto t_proto : Z) : io t :=
  if net_proto =? IPv4 then accept_ipv4 socket t_proto
  else if net_proto =? IPv6 then accept_ipv6 socket t_proto
  else mret default.

Definition accept (s : t) : io t :=
  socket_accept (socket_ s) (NetAddr.get_addr_family (get_local_addr s)) (get_transport_protocol s).

(** [SocketSendTo] for IPv4 and IPv6. *)
Definition send_to_ipv4 (socket : Z) (addr : list Z) (port : Z) (part : mem) (flags : Z) :
    io NetStatus :=
  a ← lift (NetAddr.to_uint addr);
  res ← call (sys_sendto socket part flags (sockaddr_in AF_INET (htons port) (htonl a)));
  if res <=? 0 then err ← get_errno; mret (mkStatus false err) else mret (mkStatus true 0).

Definition send_to_ipv6 (socket : Z) (addr : list Z) (port : Z) (part : mem) (flags : Z) :
    io NetStatus :=
  sin6_addr ← lift (blit (replicate 16 0) 0 (NetAddr.to_bytes addr));
  res ← call (sys_sendto socket part flags (sockaddr_in6 AF_INET6 (htons port) sin6_addr));
  if res <=? 0 then err ← get_errno; mret (mkStatus false err) else mret (mkStatus true 0).

Definition send_to (s : t) (addr : list Z) (port : Z) (part : mem) (flags : Z) : io NetStatus :=
  let net_proto := NetAddr.get_addr_family addr in
  if net_proto =? IPv4 then send_to_ipv4 (socket_ s) addr port part flags
  else if net_proto =? IPv6 then send_to_ipv6 (socket_ s) addr port part flags
  else mret (mkStatus false 0).

(** All of the timeout goes into the microseconds. *)
Definition apply_settings (s : t) (settings : QVPNSocketSettings.t) : io unit :=
  let optval := if QVPNSocketSettings.ip_header settings then 1 else 0 in
  _ ← call (sys_setsockopt (socket_ s) (IpHdrIncl optval));
  let timeout := QVPNSocketSettings.receive_timeout_ms settings in
  _ ← call (sys_setsockopt (socket_ s) (RcvTimeo 0 timeout));
  mret tt.

(** The repair of [Installer] on this socket: its class [RepairSocket] is the socket with the
    kernel.  [qvpn_bind_] and [qvpn_connect_] are defined for every address, so the last
    branch is not taken. *)
Definition repair_option (s : t) (k : kernel) (o : sockopt) : option Z * (t * kernel) :=
  let '(res, k) := sys_setsockopt (socket_ s) o k in
  (if res <? 0 then Some (errno k) else None, (s, k)).

Definition repair_address (s : t) (k : kernel) (m : io NetData) : option Z * (t * kernel) :=
  match m k with
  | Some (data, k) => (if nd_success data then None else Some (nd_status data), (s, k))
  | None => (Some (-1), (s, k))
  end.

Definition repair_socket : RepairSocket := {|
  Installer.socket := t * kernel;
  Installer.transport_proto := fun '(s, _) => get_transport_protocol s;
  system_call := fun '(s, k) c =>
    match c with
    | SetRepair value => repair_option s k (TcpRepair value)
    | SetRepairQueue queue => repair_option s k (TcpRepairQueue queue)
    | SetQueueSeq seq => repair_option s k (TcpQueueSeq seq)
    | Bind addr port => repair_address s k (details.qvpn_bind_ (socket_ s) addr port)
    | Connect addr port => repair_address s k (details.qvpn_connect_ (socket_ s) addr port)
    end |}.

Definition append_socket_to_connection (s : t) (connection_data : QVPNSocketData.t)
    (local_isn remote_isn : Z) : io SocketRepairStatus :=
  fun k =>
    let '(status, (_, k)) :=
      Installer.append_socket_to_connection (H := repair_socket) (s, k) connection_data
        local_isn remote_isn in
    Some (status, k).

End Methods.
End QVPN_Socket.

(** * The raw socket *)

(** Its methods repeat the text of [QVPN_Socket], but for the constants of [reconnect], the
    timeout of [apply_settings], and [filter]. *)
Module QVPN_RawSocket.

Definition t : Type := QVPN_Socket.t.
Definition default : t := QVPN_Socket.default.
Definition of_ipv4 := QVPN_Socket.of_ipv4.
Definition of_ipv6 := QVPN_Socket.of_ipv6.
Definition make := QVPN_Socket.make.
Definition is_valid := QVPN_Socket.is_valid.
Definition get_socket_data := QVPN_Socket.get_socket_data.
Definition get_local_addr := QVPN_Socket.get_local_addr.
Definition get_local_port := QVPN_Socket.get_local_port.
Definition get_remote_addr := QVPN_Socket.get_remote_addr.
Definition get_remote_port := QVPN_Socket.get_remote_port.
Definition get_transport_protocol := QVPN_Socket.get_transport_protocol.

Section Methods.
Context `{SysSockets}.

Definition create (sock_family sock_type sock_proto : Z) : io t :=
  QVPN_Socket.create sock_family sock_type sock_proto.
Definition create_socket_by_args (s : t) (sock_family sock_type sock_proto : Z) : io t :=
  QVPN_Socket.create_socket_by_args s sock_family sock_type sock_proto.
Definition connect (s : t) (addr : list Z) (port : Z) : io (NetStatus * t) :=
  QVPN_Socket.connect s addr port.
Definition bind (s : t) (addr : list Z) (port : Z) : io (NetStatus * t) :=
  QVPN_Socket.bind s addr port.
Definition accept (s : t) : io t := QVPN_Socket.accept s.
Definition listen (s : t) (con_limit : Z) : io NetStatus := QVPN_Socket.listen s con_limit.
Definition send (s : t) (part : mem) (flags : Z) : io NetStatus := QVPN_Socket.send s part flags.
Definition receive (s : t) (flags : Z) : io ReceiveData := QVPN_Socket.receive s flags.
Definition send_to (s : t) (addr : list Z) (port : Z) (part : mem) (flags : Z) : io NetStatus :=
  QVPN_Socket.send_to s addr port part flags.
Definition disconnect (s : t) : io NetStatus := QVPN_Socket.disconnect s.
Definition check_connected (s : t) : io bool := QVPN_Socket.check_connected s.
Definition disconnect_if_connected (s : t) : io unit := QVPN_Socket.disconnect_if_connected s.
Definition shutdown (s : t) : io NetStatus := QVPN_Socket.shutdown s.
Definition close_socket (s : t) : io unit := QVPN_Socket.close_socket s.

Definition reconnect (s : t) (addr : list Z) (port : Z) : io (NetStatus * t) :=
  connected ← check_connected s;
  s ← (if (connected : bool) then
         _ ← shutdown s;
         _ ← close_socket s;
         let family := NetAddr.get_addr_family (get_local_addr s) in
         let proto := get_transport_protocol s in
         fd ← call (sys_socket (QVPNMetaSocketData.get_socket_family family)
                      (QVPNMetaSocketData.get_raw_socket_type proto)
                      (QVPNMetaSocketData.get_raw_socket_proto proto));
         mret (QVPN_Socket.mk fd (QVPN_Socket.socket_data_ s))
       else mret s);
  connect s addr port.

Definition microsecs_in_sec : Z := 1000000.

Definition apply_settings (s : t) (settings : QVPNSocketSettings.t) : io unit :=
  let optval := if QVPNSocketSettings.ip_header settings then 1 else 0 in
  _ ← call (sys_setsockopt (QVPN_Socket.socket_ s) (IpHdrIncl optval));
  let timeout := QVPNSocketSettings.receive_timeout_ms settings in
  let tv_sec := Z.quot timeout microsecs_in_sec in
  let tv_usec := Z.rem timeout microsecs_in_sec in
  _ ← call (sys_setsockopt (QVPN_Socket.socket_ s) (RcvTimeo tv_sec tv_usec));
  mret tt.

Definition safe_recv := @SafeReceiveData.safe_recv.

Definition filter (s : t) (f : filter_key.t) : io unit :=
  prog_fd ← call (load_filter (QVPN_SocketFilter.get_filters f));
  _ ← call (sys_setsockopt (QVPN_Socket.socket_ s) (AttachBpf prog_fd));
  mret tt.

End Methods.
End QVPN_RawSocket.

Module QVPNNetTools.
Section Tools.
Context `{SysSockets}.

Definition create_socket (net_proto t_proto : Z) : io QVPN_Socket.t :=
  QVPN_Socket.create (QVPNMetaSocketData.get_socket_family net_proto)
    (QVPNMetaSocketData.get_socket_type t_proto) (QVPNMetaSocketData.get_socket_proto t_proto).

Definition create_raw_socket (net_proto t_proto : Z) : io QVPN_RawSocket.t :=
  let sock_s := QVPNSocketSettings.mk false 0 in
  sock ← QVPN_RawSocket.create (QVPNMetaSocketData.get_socket_family net_proto)
    (QVPNMetaSocketData.get_raw_socket_type t_proto)
    (QVPNMetaSocketData.get_raw_socket_proto t_proto);
  _ ← QVPN_RawSocket.apply_settings sock sock_s;
  mret sock.

(** The status of the repair is not looked at. *)
Definition create_socket_by_connection (net_proto t_proto : Z) (connection_data : QVPNSocketData.t)
    (local_isn remote_isn : Z) : io QVPN_Socket.t :=
  sock ← create_socket net_proto t_proto;
  _ ← QVPN_Socket.append_socket_to_connection sock connection_data local_isn remote_isn;
  mret sock.

(** [init] is the indeterminate value of the filter's member. *)
Definition create_socket_filter (init : filter_key.t) (s_data : QVPNSocketData.t) :
    option filter_key.t := QVPN_SocketFilter.make init s_data.
Definition create_server_socket_filter (init : filter_key.t) (s_data : QVPNServerSocketData.t) :
    option filter_key.t := QVPN_SocketFilter.make_server init s_data.

End Tools.

(** [ntoh] of a [UShort] and of a [UInt], [hton] and [ntoh] of a [ULong]; the other two are
    [hton16] and [hton32] of [Installer]. *)
Definition ntoh16 (num : Z) : Z := htons num.
Definition ntoh32 (num : Z) : Z := htonl num.
Definition hton64 (num : Z) : Z :=
  Z.lor (Z.shiftl (htonl (u32 num)) 32) (htonl (u32 (Z.shiftr num 32))).
Definition ntoh64 (num : Z) : Z := hton64 num.

End QVPNNetTools.

(** The client driver's use of its socket: [connect] and [reconnect] to the address of the
    settings.  The driver's class [Socket] is this socket together with the kernel. *)
Module ClientSocket.
Section Client.
Context `{SysSockets}.
Context (addr : list Z) (port : Z).

Definition connect (s : QVPN_Socket.t) : io (bool * QVPN_Socket.t) :=
  '((res, s) : NetStatus * QVPN_Socket.t) ← QVPN_Socket.connect s addr port; mret (success res, s).
Definition reconnect (s : QVPN_Socket.t) : io (bool * QVPN_Socket.t) :=
  '((res, s) : NetStatus * QVPN_Socket.t) ← QVPN_Socket.reconnect s addr port; mret (success res, s).
Definition disconnect (s : QVPN_Socket.t) : io bool :=
  _ ← QVPN_Socket.shutdown s;
  _ ← QVPN_Socket.close_socket s;
  res ← QVPN_Socket.disconnect s;
  mret (success res).
Definition base_send_data (s : QVPN_Socket.t) (part : mem) : io bool :=
  res ← QVPN_Socket.send s part 0; mret (success res).

(** Both methods are defined ([reconnect_spec], [send_spec] below), so the default is never
    taken. *)
Definition linux_socket : Socket := {|
  socket := QVPN_Socket.t * kernel;
  sock_send := fun '(s, k) part =>
    match base_send_data s part k with Some (res, k) => (res, (s, k)) | None => (false, (s, k)) end;
  sock_reconnect := fun '(s, k) =>
    match reconnect s k with Some ((res, s), k) => (res, (s, k)) | None => (false, (s, k)) end |}.

End Client.
End ClientSocket.

(** * Reasoning about computations *)

(** [m] is defined in [k], and its result and the state after it satisfy [Q]. *)
Definition wp `{SysSockets} {A} (m : io A) (Q : A -> kernel -> Prop) (k : kernel) : Prop :=
  exists x k', m k = Some (x, k') /\ Q x k'.

Section Wp.
Context `{SysSockets}.

Lemma wp_ret {A} (x : A) (Q : A -> kernel -> Prop) k : Q x k -> wp (mret x) Q k.
Proof. intros HQ. by exists x, k. Qed.

Lemma wp_bind {A B} (m : io A) (f : A -> io B) Q k :
  wp m (fun x => wp (f x) Q) k -> wp (m ≫= f) Q k.
Proof.
  intros (x & k1 & E & y & k2 & E2 & HQ). exists y, k2. split; [|done].
  unfold mbind, io_bind. by rewrite E.
Qed.

Lemma wp_call {A} (c : kernel -> A * kernel) Q k :
  (forall x k', c k = (x, k') -> Q x k') -> wp (call c) Q k.
Proof. intros HQ. destruct (c k) as [x k'] eqn:E. exists x, k'. unfold call. rewrite E. auto. Qed.

Lemma wp_lift {A} (o : option A) x (Q : A -> kernel -> Prop) k :
  o = Some x -> Q x k -> wp (lift o) Q k.
Proof. intros -> HQ. by exists x, k. Qed.

Lemma wp_errno (Q : Z -> kernel -> Prop) k : Q (errno k) k -> wp get_errno Q k.
Proof. intros HQ. by exists (errno k), k. Qed.

Lemma wp_mono {A} (m : io A) (P Q : A -> kernel -> Prop) k :
  wp m P k -> (forall x k', P x k' -> Q x k') -> wp m Q k.
Proof. intros (x & k' & E & HP) HPQ. exists x, k'. auto. Qed.

Lemma wp_eq {A} (m : io A) (Q : A -> kernel -> Prop) k :
  wp m Q k -> wp m (fun x k' => m k = Some (x, k') /\ Q x k') k.
Proof. intros (x & k' & E & HQ). by exists x, k'. Qed.

(** A run of a sequence is a run of its parts. *)
Lemma run_bind_inv {A B} (m : io A) (f : A -> io B) k y k' :
  (m ≫= f) k = Some (y, k') -> exists x k1, m k = Some (x, k1) /\ f x k1 = Some (y, k').
Proof. unfold mbind, io_bind. destruct (m k) as [[x k1]|]; [|done]. eauto. Qed.

Lemma run_call {A} (c : kernel -> A * kernel) k x k' : call c k = Some (x, k') -> c k = (x, k').
Proof. unfold call. congruence. Qed.

Lemma run_lift {A} (o : option A) k x k' : lift o k = Some (x, k') -> o = Some x /\ k' = k.
Proof. unfold lift. destruct o; [|done]. by intros [= -> ->]. Qed.

Lemma run_ret {A} (x : A) k y k' : (mret x : io A) k = Some (y, k') -> y = x /\ k' = k.
Proof. by intros [= -> ->]. Qed.

(** What is known of every run is known of a given one. *)
Lemma wp_run {A} (m : io A) Q k x k' : wp m Q k -> m k = Some (x, k') -> Q x k'.
Proof. intros (y & k2 & E & HQ). rewrite E. by intros [= -> ->]. Qed.

End Wp.

(** The documented behaviour of the descriptor table: [socket] and [accept] answer -1 or a new
    descriptor, and the second only while the process has room for it; [close] removes a
    descriptor; loading a program adds descriptors within the limit; the other calls leave the table alone.  A
    descriptor that is not open cannot be received from. *)
Class SysLaws (K : SysSockets) := {
  limit : nat;
  fds : kernel -> gset Z;
  fds_law k fd : fd ∈ fds k -> 0 <= fd;
  socket_law d t p k r k' :
    sys_socket d t p k = (r, k') ->
    (r = -1 /\ fds k' = fds k) \/
    (0 <= r /\ (r ∉ fds k) /\ fds k' = {[r]} ∪ fds k /\ (size (fds k') <= limit)%nat);
  accept_law fd k r name k' :
    sys_accept fd k = (r, name, k') ->
    (r = -1 /\ fds k' = fds k) \/
    (0 <= r /\ (r ∉ fds k) /\ fds k' = {[r]} ∪ fds k /\ (size (fds k') <= limit)%nat);
  load_filter_law f k r k' :
    load_filter f k = (r, k') ->
    fds k ⊆ fds k' /\ ((size (fds k) <= limit)%nat -> (size (fds k') <= limit)%nat);
  close_law fd k r k' : sys_close fd k = (r, k') -> fds k' = fds k ∖ {[fd]};
  connect_law fd name k r k' : sys_connect fd name k = (r, k') -> fds k' = fds k;
  bind_law fd name k r k' : sys_bind fd name k = (r, k') -> fds k' = fds k;
  listen_law fd n k r k' : sys_listen fd n k = (r, k') -> fds k' = fds k;
  getsockname_law fd k r k' : sys_getsockname fd k = (r, k') -> fds k' = fds k;
  getpeername_law fd k r k' : sys_getpeername fd k = (r, k') -> fds k' = fds k;
  send_law fd m f k r k' : sys_send fd m f k = (r, k') -> fds k' = fds k;
  recv_law fd n f k r k' : sys_recv fd n f k = (r, k') -> fds k' = fds k;
  recv_closed_law fd n f k : (fd ∉ fds k) -> fst (fst (sys_recv fd n f k)) = -1;
  shutdown_law fd k r k' : sys_shutdown fd k = (r, k') -> fds k' = fds k;
  setsockopt_law fd o k r k' : sys_setsockopt fd o k = (r, k') -> fds k' = fds k }.

(** A descriptor that is new to a table can be taken out again. *)
Lemma forget_new (X : gset Z) r : (r ∉ X) -> X ∖ {[r]} = X.
Proof. intros Hr. by apply difference_disjoint_L, disjoint_singleton_r. Qed.

Lemma forget_new' (X : gset Z) r : (r ∉ X) -> ({[r]} ∪ X) ∖ {[r]} = X.
Proof.
  intros Hr. rewrite difference_union_distr_l_L, difference_diag_L, (left_id_L ∅ (∪)).
  by apply forget_new.
Qed.

(** One step of a computation: a bind, a system call with its law, a test of a result. *)
Ltac wp_step :=
  lazymatch goal with
  | |- wp (mret _) _ _ => refine (wp_ret _ _ _ _)
  | |- wp (mbind _ _) _ _ => refine (wp_bind _ _ _ _ _)
  | |- wp (call _) _ _ => let E := fresh "Hsys" in refine (wp_call _ _ _ _); intros ? ? E
  | |- wp get_errno _ _ => refine (wp_errno _ _ _)
  | |- wp (if ?b then _ else _) _ _ => destruct b eqn:?
  end; cbv beta.

Section Specs.
Context {K : SysSockets} {L : SysLaws K}.

Lemma name_out_size buf len name :
  0 <= len <= msize buf -> exists buf' len', name_out buf len name = Some (buf', len') /\
    msize buf' = msize buf /\ (len = 4 -> range buf' 4 8 = range buf 4 8).
Proof.
  intros Hl. destruct name as [name|]; [|by exists buf, len].
  assert (Ht : msize (take (Z.to_nat len) name) <= len) by (unfold msize; rewrite length_take; lia).
  destruct (blit_in buf 0 (take (Z.to_nat len) name)) as [buf' Hb]; [lia..|].
  exists buf', (msize name). unfold name_out. rewrite Hb. split_and!; [done|by eapply blit_size|].
  intros ->. eapply range_blit_ne; [exact Hb|]. right. lia.
Qed.

Lemma getsockname_spec fd buf len k (Q : mem * Z -> kernel -> Prop) :
  0 <= len <= msize buf ->
  (forall buf' len' k', msize buf' = msize buf -> (len = 4 -> range buf' 4 8 = range buf 4 8) ->
    fds k' = fds k -> Q (buf', len') k') ->
  wp (getsockname fd buf len) Q k.
Proof.
  intros Hl HQ. unfold getsockname. do 2 wp_step.
  destruct (name_out_size buf len x Hl) as (buf' & len' & E & S & R).
  eapply wp_lift; [exact E|]. eapply HQ; eauto using getsockname_law.
Qed.

Lemma getname_fds fd buf len k x k' :
  getsockname fd buf len k = Some (x, k') \/ getpeername fd buf len k = Some (x, k') -> fds k' = fds k.
Proof.
  intros [E|E]; apply run_bind_inv in E as (name & k1 & E1%run_call & [_ ->]%run_lift);
    [by eapply getsockname_law|by eapply getpeername_law].
Qed.

(** The address and the port of a name of the right size. *)
Lemma name_addr buf b e : 0 <= b <= e -> e <= msize buf -> exists l, NetAddr.of_range buf b e = Some l /\ msize l = e - b.
Proof.
  intros Hb He. assert (Hl := range_in buf b e Hb He). eexists. split; [exact Hl|].
  by apply range_Some in Hl as (_ & _ & ? & _).
Qed.

Lemma name_port buf : 4 <= msize buf -> exists p, sin_port buf = Some p.
Proof.
  intros Hs. unfold sin_port. destruct (load_is_Some buf 2) as [a ->]; [lia|].
  destruct (load_is_Some buf 3) as [b ->]; [lia|]. by eexists.
Qed.

Lemma uint4 addr : msize addr = 4 -> exists a, IPv4Address.to_uint addr = Some a.
Proof. intros (a & b & c & d & ->)%list4. by eexists. Qed.

Lemma family_size addr f :
  NetAddr.get_addr_family addr = f -> (f = IPv4 -> msize addr = 4) /\ (f = IPv6 -> msize addr = 16).
Proof.
  unfold NetAddr.get_addr_family. intros <-. repeat case_match; rewrite ?Z.eqb_eq in *; split; (done || lia).
Qed.

Lemma to_ipv4_size addr : msize addr = 4 -> NetAddr.to_ipv4 addr = Some addr.
Proof. intros (a & b & c & d & ->)%list4. done. Qed.

Lemma to_ipv6_size addr :
  msize addr = 16 -> exists addr6, NetAddr.to_ipv6 addr = Some addr6 /\ msize addr6 = 16.
Proof.
  intros Hs. unfold NetAddr.to_ipv6, IPv6Address.of_bytes.
  assert (Hr := range_in addr 0 16 ltac:(lia) ltac:(lia)). rewrite Hr. cbn [mbind option_bind].
  destruct (blit_in IPv6Address.default 0 (take (Z.to_nat (16 - 0)) (drop (Z.to_nat 0) addr)))
    as [a6 H6]; [lia|apply range_Some in Hr as (_ & _ & -> & _); by vm_compute|].
  exists a6. split; [done|]. by rewrite (blit_size _ _ _ _ H6).
Qed.

(** What connecting or binding tells about the local end: its address is as long as the
    address was given, except that six bytes of an IPv6 address are kept. *)
Definition local_size (addr : list Z) : Z := if NetAddr.get_addr_family addr =? IPv4 then 4 else 6.

Definition named (addr : list Z) (k : kernel) (d : NetData) (k' : kernel) : Prop :=
  fds k' = fds k /\ (nd_success d = true -> msize (nd_addr d) = local_size addr).

Lemma errno_if (b : bool) (Q : Z -> kernel -> Prop) k :
  (forall e, Q e k) -> wp (if b then get_errno else mret 0) Q k.
Proof. intros HQ. destruct b; wp_step; apply HQ. Qed.

Lemma connect_call_spec fd addr port k : wp (details.qvpn_connect_ fd addr port) (named addr k) k.
Proof.
  unfold details.qvpn_connect_, named, local_size.
  destruct (NetAddr.get_addr_family addr =? IPv4) eqn:E4; [|destruct (_ =? IPv6) eqn:E6].
  - apply Z.eqb_eq, family_size in E4 as [E4 _]. specialize (E4 eq_refl).
    wp_step. eapply wp_lift; [by apply to_ipv4_size|]. unfold details.connect_ipv4.
    destruct (uint4 addr E4) as [a Ha]. wp_step. eapply wp_lift; [done|]. do 3 wp_step.
    apply errno_if. intros err. wp_step.
    apply getsockname_spec; [by split|]. intros buf len k2 Hs _ Hf. cbv beta iota.
    destruct (name_addr buf 4 8) as (la & Hla & Sla); [lia|rewrite Hs; by vm_compute|].
    destruct (name_port buf) as [lp Hlp]; [rewrite Hs; by vm_compute|].
    do 2 (wp_step; eapply wp_lift; [done|]). wp_step. cbn [nd_success nd_addr].
    rewrite Hf. split; [by eapply connect_law|lia].
  - apply Z.eqb_eq, family_size in E6 as [_ E6]. specialize (E6 eq_refl).
    destruct (to_ipv6_size addr E6) as (a6 & H6 & S6).
    wp_step. eapply wp_lift; [done|]. unfold details.connect_ipv6. do 3 wp_step.
    apply getsockname_spec; [by split|]. intros buf len k2 Hs _ Hf. cbv beta iota.
    destruct (name_addr buf 8 14) as (la & Hla & Sla); [lia|rewrite Hs; by vm_compute|].
    wp_step. eapply wp_lift; [done|]. wp_step. apply errno_if. intros err. wp_step.
    cbn [nd_success nd_addr]. rewrite Hf. split; [by eapply connect_law|lia].
  - wp_step. done.
Qed.

Lemma bind_call_spec fd addr port k : wp (details.qvpn_bind_ fd addr port) (named addr k) k.
Proof.
  unfold details.qvpn_bind_, named, local_size.
  destruct (NetAddr.get_addr_family addr =? IPv4) eqn:E4; [|destruct (_ =? IPv6) eqn:E6].
  - apply Z.eqb_eq, family_size in E4 as [E4 _]. specialize (E4 eq_refl).
    wp_step. eapply wp_lift; [by apply to_ipv4_size|]. unfold details.bind_ipv4.
    destruct (uint4 addr E4) as [a Ha]. wp_step. eapply wp_lift; [done|]. do 3 wp_step.
    apply errno_if. intros err. wp_step.
    apply getsockname_spec; [by split|]. intros buf len k2 Hs _ Hf. cbv beta iota.
    destruct (name_addr buf 4 8) as (la & Hla & Sla); [lia|rewrite Hs; by vm_compute|].
    wp_step. eapply wp_lift; [done|]. wp_step. cbn [nd_success nd_addr].
    rewrite Hf. split; [by eapply bind_law|lia].
  - apply Z.eqb_eq, family_size in E6 as [_ E6]. specialize (E6 eq_refl).
    destruct (to_ipv6_size addr E6) as (a6 & H6 & S6).
    wp_step. eapply wp_lift; [done|]. unfold details.bind_ipv6. do 3 wp_step.
    apply errno_if. intros err. wp_step.
    assert (Sn : msize (sockaddr_in6 AF_INET6 (htons port) a6) = 28).
    { unfold sockaddr_in6. rewrite !msize_app, S6. by vm_compute. }
    apply getsockname_spec; [unfold IPv6Address.to_bytes; lia|].
    intros buf len k2 Hs _ Hf. cbv beta iota. unfold IPv6Address.to_bytes in Hs.
    destruct (name_addr buf 8 14) as (la & Hla & Sla); [lia|lia|].
    wp_step. eapply wp_lift; [done|]. wp_step. cbn [nd_success nd_addr].
    rewrite Hf. split; [by eapply bind_law|lia].
  - wp_step. done.
Qed.

(** What a socket is after a successful connect or bind. *)
Definition records (s : QVPN_Socket.t) (addr : list Z) (port : Z) (ok : bool) (s' : QVPN_Socket.t) : Prop :=
  QVPN_Socket.socket_ s' = QVPN_Socket.socket_ s /\
  QVPN_Socket.get_transport_protocol s' = QVPN_Socket.get_transport_protocol s /\
  if ok then
    QVPN_Socket.get_remote_addr s' = addr /\ QVPN_Socket.get_remote_port s' = port /\
    msize (QVPN_Socket.get_local_addr s') = local_size addr
  else s' = s.

Lemma connect_spec s addr port k :
  wp (QVPN_Socket.connect s addr port)
    (fun '(st, s') k' => fds k' = fds k /\ records s addr port (success st) s') k.
Proof.
  unfold QVPN_Socket.connect. wp_step. eapply wp_mono; [apply connect_call_spec|].
  intros [[] st a p] k' [Hf Hn]; cbv beta; wp_step; split; try done. cbn.
  split_and!; try done. by apply Hn.
Qed.

Lemma bind_spec s addr port k :
  wp (QVPN_Socket.bind s addr port)
    (fun '(st, s') k' => fds k' = fds k /\ records s addr port (success st) s') k.
Proof.
  unfold QVPN_Socket.bind. wp_step. eapply wp_mono; [apply bind_call_spec|].
  intros [[] st a p] k' [Hf Hn]; cbv beta; wp_step; split; try done. cbn.
  split_and!; try done. by apply Hn.
Qed.

(** [reconnect] gives up the old descriptor before it asks for a new one. *)
Lemma reconnect_spec s addr port k :
  wp (QVPN_Socket.reconnect s addr port)
    (fun '(st, s') k' =>
       fds k' ∖ {[QVPN_Socket.socket_ s']} = fds k ∖ {[QVPN_Socket.socket_ s]} /\
       QVPN_Socket.get_transport_protocol s' = QVPN_Socket.get_transport_protocol s /\
       (success st = true ->
          QVPN_Socket.get_remote_addr s' = addr /\ QVPN_Socket.get_remote_port s' = port)) k.
Proof.
  unfold QVPN_Socket.reconnect, QVPN_Socket.check_connected. do 4 wp_step.
  apply getpeername_law in Hsys. rewrite <- Hsys. clear Hsys. rename k' into k1.
  wp_step. apply (wp_mono _ (fun s1 k2 =>
    fds k2 ∖ {[QVPN_Socket.socket_ s1]} = fds k1 ∖ {[QVPN_Socket.socket_ s]} /\
    QVPN_Socket.get_transport_protocol s1 = QVPN_Socket.get_transport_protocol s)).
  - destruct x; [|by wp_step]. unfold QVPN_Socket.shutdown, QVPN_Socket.close_socket.
    do 11 wp_step. cbn [QVPN_Socket.socket_]. split; [|done].
    apply shutdown_law in Hsys. apply close_law in Hsys0. rewrite Hsys in Hsys0.
    apply socket_law in Hsys1 as [[-> E]|(Hr & Hn & E & _)]; rewrite E, Hsys0.
    + apply forget_new. intros [?%fds_law _]%elem_of_difference. lia.
    + rewrite Hsys0 in Hn. by apply forget_new'.
  - cbv beta. intros s1 k2 [Hf Ht]. eapply wp_mono; [apply connect_spec|].
    intros [st s'] k3 (Hf2 & E & Ht2 & Hok). rewrite E, Hf2, Hf, Ht2, Ht. split_and!; try done.
    intros Hs. rewrite Hs in Hok. by destruct Hok as (? & ? & _).
Qed.

(** The socket that [accept] makes has a new descriptor, or none. *)
Definition accepted (k : kernel) (client : QVPN_Socket.t) (k' : kernel) : Prop :=
  (QVPN_Socket.socket_ client = -1 /\ fds k' = fds k) \/
  ((QVPN_Socket.socket_ client ∉ fds k) /\ fds k' = {[QVPN_Socket.socket_ client]} ∪ fds k).

Lemma accept_fds s k client k' :
  msize (QVPN_Socket.get_local_addr s) = 4 \/ msize (QVPN_Socket.get_local_addr s) = 16 ->
  QVPN_Socket.accept s k = Some (client, k') -> accepted k client k'.
Proof.
  unfold QVPN_Socket.accept, QVPN_Socket.socket_accept, NetAddr.get_addr_family.
  intros [-> | ->]; cbn [Z.eqb Pos.eqb IPv4 IPv6];
    [unfold QVPN_Socket.accept_ipv4|unfold QVPN_Socket.accept_ipv6]; intros E;
    apply run_bind_inv in E as ([fd peer] & k1 & E1%run_call & E);
    apply run_bind_inv in E as ([buf len] & k2 & [_ ->]%run_lift & E);
    apply run_bind_inv in E as ([name1 l1] & k3 & E3 & E); apply run_bind_inv in E as ([name2 l2] & k4 & E4 & E);
    apply run_bind_inv in E as (la & k5 & [_ ->]%run_lift & E); apply run_bind_inv in E as (ra & k6 & [_ ->]%run_lift & E);
    apply run_bind_inv in E as (rp & k7 & [_ ->]%run_lift & E); apply run_bind_inv in E as (lp & k8 & [_ ->]%run_lift & E);
    apply run_ret in E as [-> ->]; unfold accepted; cbn [QVPN_Socket.make QVPN_Socket.socket_];
    rewrite (getname_fds _ _ _ _ _ _ (or_intror E4)), (getname_fds _ _ _ _ _ _ (or_introl E3));
    apply accept_law in E1 as [[-> ->]|(_ & ? & -> & _)]; auto.
Qed.

Lemma send_spec s part flags k :
  wp (QVPN_Socket.send s part flags) (fun _ k' => fds k' = fds k) k.
Proof.
  unfold QVPN_Socket.send. do 2 wp_step. apply send_law in Hsys. repeat wp_step; done.
Qed.

Lemma create_spec d t p k :
  wp (QVPN_Socket.create d t p) (fun s k' =>
    fds k ⊆ fds k' /\ ((size (fds k) <= limit)%nat -> (size (fds k') <= limit)%nat) /\
    (QVPN_Socket.is_valid s = true ->
       (QVPN_Socket.socket_ s ∉ fds k) /\ QVPN_Socket.socket_ s ∈ fds k' /\
       (size (fds k') <= limit)%nat)) k.
Proof.
  unfold QVPN_Socket.create. do 3 wp_step.
  unfold QVPN_Socket.is_valid. cbn [QVPN_Socket.socket_].
  apply socket_law in Hsys as [[-> ->]|(Hr & Hn & -> & Hl)]; [by split_and!|].
  split_and!; [set_solver|done|]. intros _. split_and!; [done|set_solver|done].
Qed.

Lemma settings_spec s st k : wp (QVPN_RawSocket.apply_settings s st) (fun _ k' => fds k' = fds k) k.
Proof.
  unfold QVPN_RawSocket.apply_settings. do 5 wp_step.
  by rewrite (setsockopt_law _ _ _ _ _ Hsys0), (setsockopt_law _ _ _ _ _ Hsys).
Qed.

Lemma filter_spec s f k :
  wp (QVPN_RawSocket.filter s f) (fun _ k' =>
    fds k ⊆ fds k' /\ ((size (fds k) <= limit)%nat -> (size (fds k') <= limit)%nat)) k.
Proof.
  unfold QVPN_RawSocket.filter. do 5 wp_step.
  rewrite (setsockopt_law _ _ _ _ _ Hsys0). by eapply load_filter_law.
Qed.

End Specs.

(** * A kernel *)

(** The smallest kernel that obeys the laws: a table of at most eight descriptors, whose
    sockets all have the same name. *)
Section Sample.

Definition sample_name : mem := sockaddr_in AF_INET (htons 4444) (htonl 167772161).

Definition fresh_fd (X : gset Z) : Z := foldr Z.max 0 (elements X) + 1.

Definition live (X : gset Z) : gset Z := filter (fun fd : Z => 0 <= fd) X.

Definition open_fd (X : gset Z) : Z * gset Z :=
  if decide (size (live X) < 8)%nat then (fresh_fd X, {[fresh_fd X]} ∪ X)
  else (-1, X).

#[local] Instance sample_kernel : SysSockets := {|
  kernel := gset Z;
  errno _ := 24;
  sys_socket _ _ _ X := open_fd X;
  sys_connect _ _ X := (0, X);
  sys_bind _ _ X := (0, X);
  sys_listen _ _ X := (0, X);
  sys_accept _ X := let '(r, X) := open_fd X in (r, Some sample_name, X);
  sys_getsockname _ X := (Some sample_name, X);
  sys_getpeername _ X := (Some sample_name, X);
  sys_send _ m _ X := (msize m, X);
  sys_recv fd _ _ X := (if decide (fd ∈ live X) then (1, [7]) else (-1, []), X);
  sys_sendto _ m _ _ X := (msize m, X);
  sys_shutdown _ X := (0, X);
  sys_close fd X := (0, X ∖ {[fd]});
  sys_setsockopt _ _ X := (0, X);
  load_filter _ X := (3, X) |}.

Lemma fresh_fd_above X fd : fd ∈ X -> fd < fresh_fd X.
Proof.
  intros Hfd%elem_of_elements. unfold fresh_fd. induction Hfd as [? l|? ? ? ? IH]; cbn [foldr]; lia.
Qed.

Lemma fresh_fd_pos X : 0 <= fresh_fd X.
Proof. unfold fresh_fd. induction (elements X); cbn [foldr]; lia. Qed.

Lemma open_fd_law (X Y : gset Z) r :
  open_fd X = (r, Y) ->
  (r = -1 /\ live Y = live X) \/
  (0 <= r /\ (r ∉ live X) /\ live Y = {[r]} ∪ live X /\ (size (live Y) <= 8)%nat).
Proof.
  intros E. unfold open_fd in E. case_decide as Hs; injection E as <- <-; [right|by left].
  assert (Hn : fresh_fd X ∉ live X).
  { intros [_ Hin]%elem_of_filter. apply fresh_fd_above in Hin. lia. }
  assert (Hf : live ({[fresh_fd X]} ∪ X) = {[fresh_fd X]} ∪ live X).
  { pose proof (fresh_fd_pos X). unfold live. apply set_eq. intros x.
    rewrite elem_of_filter, !elem_of_union, !elem_of_singleton, elem_of_filter. intuition (subst; auto). }
  split_and!; [apply fresh_fd_pos|done|done|]. rewrite Hf, size_union, size_singleton; [lia|].
  by apply disjoint_singleton_l.
Qed.

Lemma live_close X fd : live (X ∖ {[fd]}) = live X ∖ {[fd]}.
Proof. unfold live. apply set_eq. intros x. rewrite !elem_of_filter, !elem_of_difference, elem_of_filter. tauto. Qed.

#[local] Instance sample_laws : SysLaws sample_kernel.
Proof.
  refine {| limit := 8; fds := live |}; cbn; try (by intros; simplify_eq).
  - by intros X fd [? _]%elem_of_filter.
  - intros _ _ _ X r Y. apply open_fd_law.
  - intros _ X r name Y. destruct (open_fd X) as [r0 X0] eqn:E. intros [= <- <- <-]. by apply open_fd_law.
  - intros fd X r Y [= <- <-]. apply live_close.
  - intros fd _ _ X Hfd. by rewrite decide_False.
Defined.

End Sample.

(** * What the sockets do *)

Section Client.
Context {K : SysSockets} {L : SysLaws K}.
Context (addr : list Z) (port : Z).

(** What reconnecting, once or often, does to the socket and the kernel. *)
Definition reconnected (p p' : QVPN_Socket.t * kernel) (ok : bool) : Prop :=
  fds (snd p') ∖ {[QVPN_Socket.socket_ (fst p')]} = fds (snd p) ∖ {[QVPN_Socket.socket_ (fst p)]} /\
  QVPN_Socket.get_transport_protocol (fst p') = QVPN_Socket.get_transport_protocol (fst p) /\
  (ok = true ->
     QVPN_Socket.get_remote_addr (fst p') = addr /\ QVPN_Socket.get_remote_port (fst p') = port).

Lemma sock_reconnect_spec p :
  let '(ok, p') := @sock_reconnect (ClientSocket.linux_socket addr port) p in reconnected p p' ok.
Proof.
  destruct p as [s k]. cbn. unfold ClientSocket.reconnect.
  destruct (reconnect_spec s addr port k) as ([st s'] & k' & E & Hs).
  unfold mbind, io_bind. rewrite E. exact Hs.
Qed.

Lemma reconnect_loop_spec n p :
  let '(ok, p') := QVPNClientDriver.reconnect_loop (H := ClientSocket.linux_socket addr port) n p in
  reconnected p p' ok.
Proof.
  revert p. induction n as [|n IH]; intros p; cbn [QVPNClientDriver.reconnect_loop]; [done|].
  unfold QVPNClientDriver.reconnect. pose proof (sock_reconnect_spec p) as H1.
  destruct (@sock_reconnect _ p) as [[] p1]; [done|].
  specialize (IH p1). destruct (QVPNClientDriver.reconnect_loop n p1) as [ok p2].
  destruct H1 as (F1 & T1 & _), IH as (F2 & T2 & O2). split_and!; [|congruence|done].
  by rewrite F2, F1.
Qed.

(** C26: However often the client has to try, reconnecting leaves it with one descriptor: all
    others are as they were, and the one it had is closed or still its own.  The socket
    keeps its transport protocol, and after a success it names the server it was
    given. *)
Theorem reconnect_owns_one_descriptor n s k ok s' k' :
  QVPNClientDriver.try_reconnect (H := ClientSocket.linux_socket addr port) n (s, k) = (ok, (s', k')) ->
  fds k' ∖ {[QVPN_Socket.socket_ s']} = fds k ∖ {[QVPN_Socket.socket_ s]} /\
  QVPN_Socket.get_transport_protocol s' = QVPN_Socket.get_transport_protocol s /\
  (ok = true -> QVPN_Socket.get_remote_addr s' = addr /\ QVPN_Socket.get_remote_port s' = port).
Proof.
  unfold QVPNClientDriver.try_reconnect. intros E.
  pose proof (reconnect_loop_spec (Z.to_nat n) (s, k)) as H. rewrite E in H. exact H.
Qed.

(** C27: A socket that was bound or connected to an IPv6 address keeps six bytes of its own address.
    It then has no address family: a listening one answers every [accept] with the default
    socket, whose descriptor is 0 and valid, without asking the kernel, and a connected one
    reconnects with a socket of family 0. *)
Theorem ipv6_address_cut s k st s' k' :
  msize addr = 16 -> success st = true ->
  QVPN_Socket.bind s addr port k = Some ((st, s'), k') \/
  QVPN_Socket.connect s addr port k = Some ((st, s'), k') ->
  msize (QVPN_Socket.get_local_addr s') = 6 /\
  (forall k1, QVPN_Socket.accept s' k1 = Some (QVPN_Socket.default, k1)) /\
  QVPN_Socket.is_valid QVPN_Socket.default = true /\
  QVPNMetaSocketData.get_socket_family (NetAddr.get_addr_family (QVPN_Socket.get_local_addr s')) = 0.
Proof.
  intros Ha Hst Hrun.
  assert (Hr : records s addr port (success st) s').
  { destruct Hrun as [E|E]; [pose proof (wp_run _ _ _ _ _ (bind_spec s addr port k) E) as [_ Hr]
                            |pose proof (wp_run _ _ _ _ _ (connect_spec s addr port k) E) as [_ Hr]]; exact Hr. }
  rewrite Hst in Hr. destruct Hr as (_ & _ & _ & _ & Hl).
  unfold local_size, NetAddr.get_addr_family in Hl. rewrite Ha in Hl. cbn in Hl.
  assert (Hf : NetAddr.get_addr_family (QVPN_Socket.get_local_addr s') = NET_UNDEFINED)
    by (unfold NetAddr.get_addr_family; by rewrite Hl).
  split_and!; [done| |done|by rewrite Hf].
  intros k1. unfold QVPN_Socket.accept. by rewrite Hf.
Qed.

End Client.

Lemma run_bind `{SysSockets} {A B} (m : io A) (f : A -> io B) k x k' :
  m k = Some (x, k') -> (m ≫= f) k = f x k'.
Proof. intros E. unfold mbind, io_bind. by rewrite E. Qed.

Lemma htons_is_u16 v : is_u16 (htons v).
Proof. apply cat16_is_u16. Qed.

Lemma htons_htons v : is_u16 v -> htons (htons v) = v.
Proof.
  intros Hv. transitivity (host16 (octet 0 v) (octet 1 v)); [|by apply cat16_octets].
  apply htons_bytes; [by apply octet_u8|by apply octet_u8|apply htons_is_u16|done].
Qed.

Lemma htons_fixed v : is_u16 v -> htons v = v <-> octet 0 v = octet 1 v.
Proof.
  intros Hv. rewrite <- (cat16_octets v Hv) at 2. unfold htons, host16. split.
  - intros [? ?]%cat16_inj; try done; by apply octet_u8.
  - by intros ->.
Qed.

(** A whole name is put into a buffer of its size. *)
Lemma name_out_whole buf name :
  msize buf = msize name -> name_out buf (msize name) (Some name) = Some (name, msize name).
Proof.
  intros Hs. unfold name_out.
  assert (Ht : take (Z.to_nat (msize name)) name = name) by (apply take_ge; unfold msize; lia).
  rewrite Ht. destruct (blit_in buf 0 name) as [buf' Hb]; [lia..|]. rewrite Hb. cbn [mbind option_bind].
  do 2 f_equal. apply mem_ext; [by rewrite (blit_size _ _ _ _ Hb)|].
  intros i Hi. rewrite (load_blit _ _ _ _ _ Hb), decide_True; [f_equal; lia|].
  rewrite (blit_size _ _ _ _ Hb) in Hi. lia.
Qed.

Lemma sin_port_spec a p : is_u16 p -> sin_port (sockaddr_in AF_INET p a) = Some p.
Proof.
  intros Hp. transitivity (Some (host16 (octet 0 p) (octet 1 p))); [done|].
  f_equal. by apply cat16_octets.
Qed.

(** [accept] takes the remote port as it is in memory: the socket object has it with its two
    bytes swapped, and right only if they are equal. *)
Lemma accepted_port_swapped `{SysSockets} s fd k1 k2 k3 k4 la lp ra rp :
  let local := sockaddr_in AF_INET (htons lp) la in
  let peer := sockaddr_in AF_INET (htons rp) ra in
  NetAddr.get_addr_family (QVPN_Socket.get_local_addr s) = IPv4 ->
  sys_accept (QVPN_Socket.socket_ s) k1 = (fd, Some peer, k2) ->
  sys_getsockname fd k2 = (Some local, k3) -> sys_getpeername fd k3 = (Some peer, k4) ->
  is_u16 rp -> is_u16 lp ->
  QVPN_Socket.accept s k1 =
    Some (QVPN_Socket.make fd (le32 ra) (htons rp) (le32 la) lp (QVPN_Socket.get_transport_protocol s), k4) /\
  (htons rp = rp <-> octet 0 rp = octet 1 rp).
Proof.
  intros local peer Hf Ha Hs Hp Hrp Hlp. split; [|by apply htons_fixed].
  assert (Hname : forall n a, name_out (replicate 16 0) 16 (Some (sockaddr_in AF_INET n a)) =
    Some (sockaddr_in AF_INET n a, 16)) by (intros n a; exact (name_out_whole (replicate 16 0) (sockaddr_in AF_INET n a) eq_refl)).
  assert (Hagain : name_out peer 16 (Some peer) = Some (peer, 16)) by exact (name_out_whole peer peer eq_refl).
  unfold QVPN_Socket.accept, QVPN_Socket.socket_accept. rewrite Hf. cbn [Z.eqb IPv4 Pos.eqb].
  unfold QVPN_Socket.accept_ipv4, getsockname, getpeername.
  erewrite run_bind; [|unfold call; by rewrite Ha]. cbv beta iota.
  erewrite run_bind; [|unfold lift, peer; by rewrite Hname]. cbv beta iota.
  erewrite run_bind; [|erewrite run_bind; [unfold lift, local; by rewrite Hname|unfold call; by rewrite Hs]].
  cbv beta iota.
  erewrite run_bind; [|erewrite run_bind; [unfold lift; fold peer; by rewrite Hagain|unfold call; by rewrite Hp]].
  cbv beta iota.
  do 2 (erewrite run_bind; [|reflexivity]).
  subst local peer. do 2 (erewrite run_bind; [|unfold lift; by rewrite sin_port_spec by apply htons_is_u16]).
  unfold ntohs. by rewrite htons_htons.
Qed.

(** The timeouts the two classes ask for: the raw socket's is a valid one of that many
    microseconds, the other one is out of range from a second on. *)
Lemma timeouts `{SysSockets} timeout :
  0 <= timeout ->
  let tv_sec := Z.quot timeout QVPN_RawSocket.microsecs_in_sec in
  let tv_usec := Z.rem timeout QVPN_RawSocket.microsecs_in_sec in
  0 <= tv_usec < 1000000 /\ tv_sec * 1000000 + tv_usec = timeout /\
  (forall s b k, exists k1, QVPN_RawSocket.apply_settings s (QVPNSocketSettings.mk b timeout) k =
     Some (tt, snd (sys_setsockopt (QVPN_Socket.socket_ s) (RcvTimeo tv_sec tv_usec) k1))) /\
  (forall s b k, exists k1, QVPN_Socket.apply_settings s (QVPNSocketSettings.mk b timeout) k =
     Some (tt, snd (sys_setsockopt (QVPN_Socket.socket_ s) (RcvTimeo 0 timeout) k1))).
Proof.
  intros Ht tv_sec tv_usec. subst tv_sec tv_usec. unfold QVPN_RawSocket.microsecs_in_sec.
  split_and!; [apply Z.rem_bound_pos; lia..|pose proof (Z.quot_rem' timeout 1000000); lia| |].
  - intros s b k. unfold QVPN_RawSocket.apply_settings, mbind, io_bind, call.
    destruct (sys_setsockopt _ _ _) as [r k1]. exists k1. cbn [QVPNSocketSettings.receive_timeout_ms QVPNSocketSettings.recv_timeout_].
    unfold QVPN_RawSocket.microsecs_in_sec. by destruct (sys_setsockopt _ _ k1).
  - intros s b k. unfold QVPN_Socket.apply_settings, mbind, io_bind, call.
    destruct (sys_setsockopt _ _ _) as [r k1]. exists k1. cbn [QVPNSocketSettings.receive_timeout_ms QVPNSocketSettings.recv_timeout_].
    by destruct (sys_setsockopt _ _ k1).
Qed.

(** * Witnesses *)

Lemma reconnect_owns_one_descriptor_witness :
  exists s' k',
    QVPNClientDriver.try_reconnect (H := ClientSocket.linux_socket (H := sample_kernel) [10; 0; 0; 9] 443) 20
      (QVPN_Socket.make 5 [10; 0; 0; 9] 443 [10; 0; 0; 1] 4444 TCP, {[1; 5]}) = (true, (s', k')) /\
    QVPN_Socket.socket_ s' = 2 /\ QVPN_Socket.get_remote_port s' = 443.
Proof.
  eexists _, _. split; [vm_compute; reflexivity|]. split; [reflexivity|].
  by eapply (reconnect_owns_one_descriptor (L := sample_laws) [10; 0; 0; 9] 443 20
    (QVPN_Socket.make 5 [10; 0; 0; 9] 443 [10; 0; 0; 1] 4444 TCP) {[1; 5]} true); [vm_compute; reflexivity|].
Defined.

Lemma ipv6_address_cut_witness :
  exists s', QVPN_Socket.bind (H := sample_kernel) QVPN_Socket.default (repeat 0 16) 443 {[1; 5]} =
      Some ((mkStatus true 0, s'), {[1; 5]}) /\
    QVPN_Socket.accept (H := sample_kernel) s' {[1; 5]} = Some (QVPN_Socket.default, {[1; 5]}).
Proof.
  eexists. split; [vm_compute; reflexivity|].
  eapply (ipv6_address_cut (L := sample_laws) (repeat 0 16) 443 QVPN_Socket.default {[1; 5]} (mkStatus true 0));
    [reflexivity|reflexivity|left; vm_compute; reflexivity].
Defined.
