(* ===== verification/WinSockets.v ===== *)
(** The sockets of the Windows build, which is the build of the client: [QVPN_Socket],
    [QVPN_RawSocket], [QVPNNetTools] and the helpers in [details]
    (src/QVPN/QVPN Lib/src/Windows/qvpn_net_tools.cpp, include/Windows/qvpn_net_tools.hpp), and
    [QVPN_SocketFilter] of that build (src/Windows/qvpn_socket_filters.cpp).

    They are the classes of [Sockets] over Winsock, which is the class [Winsock]: the calls of
    [SysSockets] with their error in [WSAGetLastError].  [connect] reads behind the local
    variable that holds its name; what lies there is a parameter, [behind], and the
    theorems hold for each. *)
From S2P Require Import Prelude Addr SafeReceive SocketFilter Installer Driver Sockets.

(** * Winsock *)

Inductive win_option : Type :=
  | WinIpHdrIncl (optval : Z)
  | WinRcvTimeo (milliseconds : Z).

(** [errno] of [win_calls] is that of the C library, which Winsock does not set; its
    [sys_setsockopt] and [load_filter] are not called. *)
Class Winsock := {
  win_calls :: SysSockets;
  wsa_startup : kernel -> Z * kernel;
  wsa_cleanup : kernel -> Z * kernel;
  wsa_last_error : kernel -> Z;
  win_setsockopt : Z -> win_option -> kernel -> Z * kernel }.

Definition get_last_error `{Winsock} : io Z := fun k => Some (wsa_last_error k, k).

(** [SOCKET] is unsigned, of 64 bits. *)
Definition INVALID_SOCKET : Z := 18446744073709551615.
Definition SOCKET_ERROR : Z := -1.
Definition WIN_AF_INET6 : Z := 23.

(** What a call leaves in a name buffer and in the length it was given: a buffer that is too
    small is an error, and is left as it is. *)
Definition win_name_out (buf : mem) (len : Z) (name : option mem) : option (mem * Z) :=
  match name with
  | Some name => if msize name <=? len then buf ← blit buf 0 name; Some (buf, msize name) else Some (buf, len)
  | None => Some (buf, len)
  end.

Definition win_getsockname `{Winsock} (fd : Z) (buf : mem) (len : Z) : io (mem * Z) :=
  name ← call (sys_getsockname fd); lift (win_name_out buf len name).
Definition win_getpeername `{Winsock} (fd : Z) (buf : mem) (len : Z) : io (mem * Z) :=
  name ← call (sys_getpeername fd); lift (win_name_out buf len name).

(** * Connecting and binding *)

Module Win_details.
Section Calls.
Context `{Winsock} (behind : mem).

(** The length of the name, not of the address, is added to the place of the address. *)
Definition connect_ipv4 (socket : Z) (addr : list Z) (port : Z) : io NetData :=
  a ← lift (IPv4Address.to_uint addr);
  let serverAddr := sockaddr_in AF_INET (htons port) (htonl a) in
  res ← call (sys_connect socket serverAddr);
  err ← (if res =? SOCKET_ERROR then get_last_error else mret 0);
  '(localAddr, localAddrLen) ← win_getsockname socket (replicate 16 0) 16;
  net_addr ← lift (NetAddr.of_range (localAddr ++ behind) 4 (4 + localAddrLen));
  port ← lift (sin_port localAddr);
  mret (mkNetData (res =? 0) err net_addr (ntohs port)).

Definition connect_ipv6 (socket : Z) (addr : list Z) (port : Z) : io NetData :=
  let serverAddr := sockaddr_in6 WIN_AF_INET6 (htons port) (IPv6Address.to_bytes addr) in
  res ← call (sys_connect socket serverAddr);
  '(localAddr, localAddrLen) ← win_getsockname socket (replicate 28 0) 28;
  net_addr ← lift (NetAddr.of_range (localAddr ++ behind) 8 (8 + localAddrLen));
  err ← (if negb (res =? 0) then get_last_error else mret 0);
  mret (mkNetData (res =? 0) err net_addr port).

Definition qvpn_connect_ (socket : Z) (addr : list Z) (port : Z) : io NetData :=
  let addr_family := NetAddr.get_addr_family addr in
  if addr_family =? IPv4 then
    addr ← lift (NetAddr.to_ipv4 addr); connect_ipv4 socket addr port
  else if addr_family =? IPv6 then
    addr ← lift (NetAddr.to_ipv6 addr); connect_ipv6 socket addr port
  else mret (mkNetData false 0 NetAddr.default 0).

(** The length given to [getsockname] is 4. *)
Definition bind_ipv4 (socket : Z) (addr : list Z) (port : Z) : io NetData :=
  a ← lift (IPv4Address.to_uint addr);
  let serverAddr := sockaddr_in AF_INET (htons port) (htonl a) in
  res ← call (sys_bind socket serverAddr);
  err ← (if res =? SOCKET_ERROR then get_last_error else mret 0);
  '(serverAddr, addr_len) ← win_getsockname socket serverAddr 4;
  net_addr ← lift (NetAddr.of_range (serverAddr ++ behind) 4 (4 + addr_len));
  mret (mkNetData (res =? 0) err net_addr port).

Definition bind_ipv6 (socket : Z) (addr : list Z) (port : Z) : io NetData :=
  let serverAddr := sockaddr_in6 WIN_AF_INET6 (htons port) (IPv6Address.to_bytes addr) in
  res ← call (sys_bind socket serverAddr);
  err ← (if res =? SOCKET_ERROR then get_last_error else mret 0);
  '(serverAddr, addr_len) ← win_getsockname socket serverAddr 28;
  net_addr ← lift (NetAddr.of_range (serverAddr ++ behind) 8 (8 + addr_len));
  mret (mkNetData (res =? 0) err net_addr port).

Definition qvpn_bind_ (socket : Z) (addr : list Z) (port : Z) : io NetData :=
  let addr_family := NetAddr.get_addr_family addr in
  if addr_family =? IPv4 then
    addr ← lift (NetAddr.to_ipv4 addr); bind_ipv4 socket addr port
  else if addr_family =? IPv6 then
    addr ← lift (NetAddr.to_ipv6 addr); bind_ipv6 socket addr port
  else mret (mkNetData false 0 NetAddr.default 0).

End Calls.
End Win_details.

(** * The table of constants *)

(** The maps of [QVPNMetaSocketData] but for the number of the IPv6 family. *)
Module Win_MetaSocketData.

Definition families_ : gmap Z Z := {[IPv4 := AF_INET; IPv6 := WIN_AF_INET6]}.

Definition get_socket_family (net_proto : Z) : Z := default 0 (families_ !! net_proto).
Definition get_socket_type := QVPNMetaSocketData.get_socket_type.
Definition get_socket_proto := QVPNMetaSocketData.get_socket_proto.
Definition get_raw_socket_type := QVPNMetaSocketData.get_raw_socket_type.
Definition get_raw_socket_proto := QVPNMetaSocketData.get_raw_socket_proto.

End Win_MetaSocketData.

(** * The socket of the tunnel *)

(** The object and its getters are those of [Sockets.QVPN_Socket]; its [wsa_data_] is written
    and never read. *)
Module Win_Socket.

Definition t : Type := QVPN_Socket.t.
Definition buffer_size : Z := 65536.

Definition default : t := QVPN_Socket.default.
Definition of_ipv4 := QVPN_Socket.of_ipv4.
Definition of_ipv6 := QVPN_Socket.of_ipv6.
Definition make := QVPN_Socket.make.

Definition is_valid (s : t) : bool := negb (QVPN_Socket.socket_ s =? INVALID_SOCKET).
Definition get_socket_data := QVPN_Socket.get_socket_data.
Definition get_local_addr := QVPN_Socket.get_local_addr.
Definition get_local_port := QVPN_Socket.get_local_port.
Definition get_remote_addr := QVPN_Socket.get_remote_addr.
Definition get_remote_port := QVPN_Socket.get_remote_port.
Definition get_transport_protocol := QVPN_Socket.get_transport_protocol.

(** What a successful [connect] or [bind] records; the network protocol stays. *)
Definition with_connection (s : t) (remote_addr : list Z) (remote_port : Z) (local_addr : list Z)
    (local_port : Z) : t :=
  QVPN_Socket.with_connection s (QVPNSocketData.net_proto (QVPN_Socket.socket_data_ s))
    remote_addr remote_port local_addr local_port.

Section Methods.
Context `{Winsock} (behind : mem).

(** The data of a new socket, of both classes. *)
Definition new_data (sock_family sock_proto : Z) : QVPNSocketData.t :=
  let transport_proto :=
    if sock_proto =? IPPROTO_TCP then TCP
    else if sock_proto =? IPPROTO_UDP then UDP else TRANSPORT_UNDEFINED in
  let net_proto :=
    if sock_family =? AF_INET then IPv4
    else if sock_family =? WIN_AF_INET6 then IPv6 else NET_UNDEFINED in
  QVPNSocketData.mk net_proto transport_proto NetAddr.default 0 NetAddr.default 0.

(** [init] is the indeterminate value of [socket_], which stays when [WSAStartup] fails. *)
Definition create (init sock_family sock_type sock_proto : Z) : io t :=
  result ← call wsa_startup;
  if result =? 0 then
    socket_ ← call (sys_socket sock_family sock_type sock_proto);
    mret (QVPN_Socket.mk socket_ (new_data sock_family sock_proto))
  else mret (QVPN_Socket.mk init QVPN_Socket.no_data).

Definition create_socket_by_args (s : t) (sock_family sock_type sock_proto : Z) : io t :=
  fd ← call (sys_socket sock_family sock_type sock_proto);
  mret (QVPN_Socket.mk fd (QVPN_Socket.socket_data_ s)).

Definition connect (s : t) (addr : list Z) (port : Z) : io (NetStatus * t) :=
  data ← Win_details.qvpn_connect_ behind (QVPN_Socket.socket_ s) addr port;
  let status := mkStatus (nd_success data) (nd_status data) in
  mret (status,
    if success status then with_connection s addr port (nd_addr data) (nd_port data) else s).

Definition bind (s : t) (addr : list Z) (port : Z) : io (NetStatus * t) :=
  data ← Win_details.qvpn_bind_ behind (QVPN_Socket.socket_ s) addr port;
  let status := mkStatus (nd_success data) (nd_status data) in
  mret (status,
    if success status then with_connection s addr port (nd_addr data) (nd_port data) else s).

(** The buffer is a [sockaddr_in]: [getpeername] fails with a name that it does not hold. *)
Definition check_connected (s : t) : io bool :=
  name ← call (sys_getpeername (QVPN_Socket.socket_ s));
  mret (match name with Some name => msize name <=? msize (sockaddr_in 0 0 0) | None => false end).

Definition shutdown (s : t) : io NetStatus :=
  res ← call (sys_shutdown (QVPN_Socket.socket_ s)); mret (mkStatus (res =? 0) res).
Definition close_socket (s : t) : io unit :=
  _ ← call (sys_close (QVPN_Socket.socket_ s)); mret tt.
Definition disconnect (s : t) : io NetStatus := _ ← call wsa_cleanup; mret (mkStatus true 0).

Definition disconnect_if_connected (s : t) : io unit :=
  connected ← check_connected s;
  if (connected : bool) then mret tt else (_ ← disconnect s; mret tt).

Definition reconnect (s : t) (addr : list Z) (port : Z) : io (NetStatus * t) :=
  connected ← check_connected s;
  s ← (if (connected : bool) then
         _ ← shutdown s;
         _ ← close_socket s;
         let family := NetAddr.get_addr_family (get_local_addr s) in
         let proto := get_transport_protocol s in
         fd ← call (sys_socket (Win_MetaSocketData.get_socket_family family)
                      (Win_MetaSocketData.get_socket_type proto)
                      (Win_MetaSocketData.get_socket_proto proto));
         mret (QVPN_Socket.mk fd (QVPN_Socket.socket_data_ s))
       else mret s);
  connect s addr port.

(** The error is looked up and not answered. *)
Definition listen (s : t) (con_limit : Z) : io NetStatus :=
  res ← call (sys_listen (QVPN_Socket.socket_ s) con_limit);
  _ ← (if negb (res =? 0) then get_last_error else mret 0);
  mret (mkStatus (res =? 0) res).

Definition send (s : t) (part : mem) (flags : Z) : io NetStatus :=
  res ← call (sys_send (QVPN_Socket.socket_ s) part flags);
  if res =? SOCKET_ERROR then err ← get_last_error; mret (mkStatus false err)
  else mret (mkStatus true 0).

Definition receive (s : t) (flags : Z) : io ReceiveData :=
  '(res, data) ← call (sys_recv (QVPN_Socket.socket_ s) buffer_size flags);
  buff ← lift (blit (replicate (Z.to_nat buffer_size) 0) 0 data);
  status ← (if 0 <? res then mret (mkStatus true 0)
            else err ← get_last_error; mret (mkStatus false err));
  mret (mkReceive status res buff).

(** [SocketAccept] for IPv4 and IPv6.  For IPv6 the end of both addresses is a name's length
    behind their beginning; the two variables are followed by [behind]. *)
Definition accept_ipv4 (socket t_proto : Z) : io t :=
  '((sock, peer) : Z * option mem) ← call (sys_accept socket);
  '(clientAddr, clientAddrLen) ← lift (win_name_out (replicate 16 0) 16 peer);
  '(sock_addr, _) ← win_getsockname sock (replicate 16 0) 16;
  '(clientAddr, _) ← win_getpeername sock clientAddr clientAddrLen;
  net_addr ← lift (NetAddr.of_range sock_addr 4 8);
  addr ← lift (NetAddr.of_range clientAddr 4 8);
  port ← lift (sin_port clientAddr);
  local_port ← lift (sin_port sock_addr);
  mret (make sock addr port net_addr (ntohs local_port) t_proto).

Definition accept_ipv6 (socket t_proto : Z) : io t :=
  '((sock, peer) : Z * option mem) ← call (sys_accept socket);
  '(clientAddr, clientAddrLen) ← lift (win_name_out (replicate 28 0) 28 peer);
  '(sock_addr, addr_len) ← win_getsockname sock (replicate 28 0) 28;
  '(clientAddr, _) ← win_getpeername sock clientAddr clientAddrLen;
  net_addr ← lift (NetAddr.of_range (sock_addr ++ behind) 8 (8 + addr_len));
  addr ← lift (NetAddr.of_range (clientAddr ++ behind) 8 (8 + addr_len));
  port ← lift (sin_port clientAddr);
  local_port ← lift (sin_port sock_addr);
  mret (make sock addr port net_addr (ntohs local_port) t_proto).

Definition socket_accept (socket net_proto t_proto : Z) : io t :=
  if net_proto =? IPv4 then accept_ipv4 socket t_proto
  else if net_proto =? IPv6 then accept_ipv6 socket t_proto
  else mret default.

Definition accept (s : t) : io t :=
  socket_accept (QVPN_Socket.socket_ s) (NetAddr.get_addr_family (get_local_addr s))
    (get_transport_protocol s).

(** [SocketSendTo] for IPv4 and IPv6. *)
Definition send_to_ipv4 (socket : Z) (addr : list Z) (port : Z) (part : mem) (flags : Z) :
    io NetStatus :=
  a ← lift (NetAddr.to_uint addr);
  res ← call (sys_sendto socket part flags (sockaddr_in AF_INET (htons port) (htonl a)));
  if res =? SOCKET_ERROR then err ← get_last_error; mret (mkStatus false err)
  else mret (mkStatus true 0).

Definition send_to_ipv6 (socket : Z) (addr : list Z) (port : Z) (part : mem) (flags : Z) :
    io NetStatus :=
  sin6_addr ← lift (blit (replicate 16 0) 0 (NetAddr.to_bytes addr));
  res ← call (sys_sendto socket part flags (sockaddr_in6 WIN_AF_INET6 (htons port) sin6_addr));
  if res =? SOCKET_ERROR then err ← get_last_error; mret (mkStatus false err)
  else mret (mkStatus true 0).

Definition send_to (s : t) (addr : list Z) (port : Z) (part : mem) (flags : Z) : io NetStatus :=
  let net_proto := NetAddr.get_addr_family addr in
  if net_proto =? IPv4 then send_to_ipv4 (QVPN_Socket.socket_ s) addr port part flags
  else if net_proto =? IPv6 then send_to_ipv6 (QVPN_Socket.socket_ s) addr port part flags
  else mret (mkStatus false 0).

Definition apply_settings (s : t) (settings : QVPNSocketSettings.t) : io unit :=
  let optval := if QVPNSocketSettings.ip_header settings then 1 else 0 in
  _ ← call (win_setsockopt (QVPN_Socket.socket_ s) (WinIpHdrIncl optval));
  let timeout := QVPNSocketSettings.receive_timeout_ms settings in
  _ ← call (win_setsockopt (QVPN_Socket.socket_ s) (WinRcvTimeo timeout));
  mret tt.

Definition safe_recv := @SafeReceiveData.safe_recv.

(** Not supported on this platform. *)
Definition append_socket_to_connection (s : t) (connection_data : QVPNSocketData.t)
    (local_isn remote_isn : Z) : io SocketRepairStatus := mret (mkRepair false (-1)).

End Methods.
End Win_Socket.

(** * The raw socket *)

(** Its other methods repeat the text of [Win_Socket]. *)
Module Win_RawSocket.

Definition t : Type := QVPN_Socket.t.
Definition default : t := QVPN_Socket.default.
Definition of_ipv4 := QVPN_Socket.of_ipv4.
Definition of_ipv6 := QVPN_Socket.of_ipv6.
Definition make := QVPN_Socket.make.

(** [socket_ < 0]; a [SOCKET] is unsigned. *)
Definition is_valid (s : t) : bool := negb (u64 (QVPN_Socket.socket_ s) <? 0).
Definition get_socket_data := QVPN_Socket.get_socket_data.
Definition get_local_addr := QVPN_Socket.get_local_addr.
Definition get_local_port := QVPN_Socket.get_local_port.
Definition get_remote_addr := QVPN_Socket.get_remote_addr.
Definition get_remote_port := QVPN_Socket.get_remote_port.
Definition get_transport_protocol := QVPN_Socket.get_transport_protocol.

(** The network protocol is that of the local address. *)
Definition with_connection (s : t) (remote_addr : list Z) (remote_port : Z) (local_addr : list Z)
    (local_port : Z) : t :=
  QVPN_Socket.with_connection s (NetAddr.get_addr_family local_addr)
    remote_addr remote_port local_addr local_port.

Section Methods.
Context `{Winsock} (behind : mem).

Definition create (sock_family sock_type sock_proto : Z) : io t :=
  socket_ ← call (sys_socket sock_family sock_type sock_proto);
  mret (QVPN_Socket.mk socket_ (Win_Socket.new_data sock_family sock_proto)).
Definition create_socket_by_args (s : t) (sock_family sock_type sock_proto : Z) : io t :=
  Win_Socket.create_socket_by_args s sock_family sock_type sock_proto.

Definition connect (s : t) (addr : list Z) (port : Z) : io (NetStatus * t) :=
  data ← Win_details.qvpn_connect_ behind (QVPN_Socket.socket_ s) addr port;
  let status := mkStatus (nd_success data) (nd_status data) in
  mret (status,
    if success status then with_connection s addr port (nd_addr data) (nd_port data) else s).

Definition bind (s : t) (addr : list Z) (port : Z) : io (NetStatus * t) :=
  data ← Win_details.qvpn_bind_ behind (QVPN_Socket.socket_ s) addr port;
  let status := mkStatus (nd_success data) (nd_status data) in
  mret (status,
    if success status then with_connection s addr port (nd_addr data) (nd_port data) else s).

Definition accept (s : t) : io t := Win_Socket.accept behind s.
Definition send (s : t) (part : mem) (flags : Z) : io NetStatus := Win_Socket.send s part flags.
Definition send_to (s : t) (addr : list Z) (port : Z) (part : mem) (flags : Z) : io NetStatus :=
  Win_Socket.send_to s addr port part flags.
Definition check_connected (s : t) : io bool := Win_Socket.check_connected s.
Definition shutdown (s : t) : io NetStatus := Win_Socket.shutdown s.
Definition close_socket (s : t) : io unit := Win_Socket.close_socket s.
Definition apply_settings (s : t) (settings : QVPNSocketSettings.t) : io unit :=
  Win_Socket.apply_settings s settings.

Definition listen (s : t) (con_limit : Z) : io NetStatus :=
  res ← call (sys_listen (QVPN_Socket.socket_ s) con_limit);
  _ ← (if res =? SOCKET_ERROR then get_last_error else mret 0);
  mret (mkStatus (res =? 0) res).

(** The error is taken from [errno]. *)
Definition receive (s : t) (flags : Z) : io ReceiveData :=
  '(res, data) ← call (sys_recv (QVPN_Socket.socket_ s) Win_Socket.buffer_size flags);
  buff ← lift (blit (replicate (Z.to_nat Win_Socket.buffer_size) 0) 0 data);
  status ← (if 0 <? res then mret (mkStatus true 0) else err ← get_errno; mret (mkStatus false err));
  mret (mkReceive status res buff).

Definition disconnect (s : t) : io NetStatus := mret (mkStatus true 0).
Definition disconnect_if_connected (s : t) : io unit :=
  connected ← check_connected s;
  if (connected : bool) then mret tt else (_ ← disconnect s; mret tt).

Definition reconnect (s : t) (addr : list Z) (port : Z) : io (NetStatus * t) :=
  connected ← check_connected s;
  s ← (if (connected : bool) then
         _ ← shutdown s;
         _ ← close_socket s;
         let family := NetAddr.get_addr_family (get_local_addr s) in
         let proto := get_transport_protocol s in
         fd ← call (sys_socket (Win_MetaSocketData.get_socket_family family)
                      (Win_MetaSocketData.get_raw_socket_type proto)
                      (Win_MetaSocketData.get_raw_socket_proto proto));
         mret (QVPN_Socket.mk fd (QVPN_Socket.socket_data_ s))
       else mret s);
  connect s addr port.

Definition safe_recv := @SafeReceiveData.safe_recv.

(** It only prints that there are no filters. *)
Definition filter (s : t) (f : filter_key.t) : io unit := mret tt.

End Methods.
End Win_RawSocket.

(** * The filter and the tools *)

(** The setters are those of [SocketFilter.QVPN_SocketFilter]; the constructors take the local
    end for the source and leave the order of the bytes alone. *)
Module Win_SocketFilter.

Definition of_connection (init : filter_key.t) (net transport : Z) (local : list Z) (lport : Z)
    (remote : list Z) (rport : Z) : option filter_key.t :=
  ips ← (if net =? IPv4 then
           s ← NetAddr.to_uint local; d ← NetAddr.to_uint remote; Some (s, d)
         else Some (filter_key.src_ip init, filter_key.dst_ip init));
  Some (filter_key.mk net transport (fst ips) lport (snd ips) rport).

Definition make (init : filter_key.t) (s : QVPNSocketData.t) : option filter_key.t :=
  of_connection init (QVPNSocketData.net_proto s) (QVPNSocketData.transport_proto s)
    (QVPNSocketData.local_addr s) (QVPNSocketData.local_port s)
    (QVPNSocketData.remote_addr s) (QVPNSocketData.remote_port s).

Definition make_server (init : filter_key.t) (s : QVPNServerSocketData.t) : option filter_key.t :=
  of_connection init (QVPNServerSocketData.net_proto s) (QVPNServerSocketData.transport_proto s)
    (QVPNServerSocketData.server_local_addr s) (QVPNServerSocketData.local_port s)
    (QVPNServerSocketData.remote_addr s) (QVPNServerSocketData.remote_port s).

Definition ipv4 := QVPN_SocketFilter.ipv4.
Definition ipv6 := QVPN_SocketFilter.ipv6.
Definition net_ver := QVPN_SocketFilter.net_ver.
Definition src := QVPN_SocketFilter.src.
Definition dst := QVPN_SocketFilter.dst.
Definition src_port := QVPN_SocketFilter.src_port.
Definition dst_port := QVPN_SocketFilter.dst_port.
Definition tcp := QVPN_SocketFilter.tcp.
Definition udp := QVPN_SocketFilter.udp.
Definition custom_protocol := QVPN_SocketFilter.custom_protocol.
Definition get_filters := QVPN_SocketFilter.get_filters.

End Win_SocketFilter.

Module Win_NetTools.
Section Tools.
Context `{Winsock}.

Definition create_socket (init net_proto t_proto : Z) : io Win_Socket.t :=
  Win_Socket.create init (Win_MetaSocketData.get_socket_family net_proto)
    (Win_MetaSocketData.get_socket_type t_proto) (Win_MetaSocketData.get_socket_proto t_proto).

Definition create_raw_socket (net_proto t_proto : Z) : io Win_RawSocket.t :=
  let sock_s := QVPNSocketSettings.mk false 0 in
  sock ← Win_RawSocket.create (Win_MetaSocketData.get_socket_family net_proto)
    (Win_MetaSocketData.get_raw_socket_type t_proto)
    (Win_MetaSocketData.get_raw_socket_proto t_proto);
  _ ← Win_RawSocket.apply_settings sock sock_s;
  mret sock.

End Tools.

Definition create_socket_filter := Win_SocketFilter.make.
Definition create_server_socket_filter := Win_SocketFilter.make_server.

Definition hton16 (num : Z) : Z := htons num.
Definition ntoh16 (num : Z) : Z := htons num.
Definition hton32 (num : Z) : Z := htonl num.
Definition ntoh32 (num : Z) : Z := htonl num.

End Win_NetTools.

(** The client driver's use of its socket, as [ClientSocket] over the other build. *)
Module Win_ClientSocket.
Section Client.
Context `{Winsock} (behind : mem).
Context (addr : list Z) (port : Z).

Definition connect (s : Win_Socket.t) : io (bool * Win_Socket.t) :=
  '((res, s) : NetStatus * Win_Socket.t) ← Win_Socket.connect behind s addr port;
  mret (success res, s).
Definition reconnect (s : Win_Socket.t) : io (bool * Win_Socket.t) :=
  '((res, s) : NetStatus * Win_Socket.t) ← Win_Socket.reconnect behind s addr port;
  mret (success res, s).
Definition base_send_data (s : Win_Socket.t) (part : mem) : io bool :=
  res ← Win_Socket.send s part 0; mret (success res).

(** For an IPv4 server and a [behind] of four bytes both methods are defined
    ([win_connect_spec], [win_reconnect_spec] below), and the default is not taken. *)
Definition windows_socket : Socket := {|
  socket := QVPN_Socket.t * kernel;
  sock_send := fun '(s, k) part =>
    match base_send_data s part k with Some (res, k) => (res, (s, k)) | None => (false, (s, k)) end;
  sock_reconnect := fun '(s, k) =>
    match reconnect s k with Some ((res, s), k) => (res, (s, k)) | None => (false, (s, k)) end |}.

End Client.
End Win_ClientSocket.

(** * Connecting to an IPv4 server *)

(** The documented behaviour of Winsock: a socket has the family it was made with, which
    connecting and asking for names do not change; the name of a socket is a [sockaddr_in] or a
    [sockaddr_in6], and a peer's name is the latter only when the socket has that family; a call on no socket fails, and a socket of the IPv6 family refuses
    a name of sixteen bytes as too short. *)
Class WinsockLaws (W : Winsock) := {
  family : kernel -> Z -> Z;
  win_socket_law d t p k r k' :
    sys_socket d t p k = (r, k') -> r = INVALID_SOCKET \/ family k' r = d;
  win_connect_law fd name k r k' :
    sys_connect fd name k = (r, k') ->
    (forall fd2, family k' fd2 = family k fd2) /\
    (fd = INVALID_SOCKET \/ (family k fd = WIN_AF_INET6 /\ msize name = 16) -> r = SOCKET_ERROR);
  win_getsockname_law fd k name k' :
    sys_getsockname fd k = (name, k') ->
    (forall fd2, family k' fd2 = family k fd2) /\
    (forall n, name = Some n -> msize n = 16 \/ msize n = 28);
  win_getpeername_law fd k name k' :
    sys_getpeername fd k = (name, k') ->
    (forall fd2, family k' fd2 = family k fd2) /\
    (forall n, name = Some n -> msize n = 16 \/ (msize n = 28 /\ family k fd = WIN_AF_INET6));
  win_accept_law fd k r name k' :
    sys_accept fd k = (r, name, k') -> forall n, name = Some n -> msize n = 16 \/ msize n = 28 }.

Section Specs.
Context {W : Winsock} {L : WinsockLaws W}.

Lemma sockaddr_in_size f p a : msize (sockaddr_in f p a) = 16.
Proof. done. Qed.

(** The length that a buffer of sixteen bytes ends up with is sixteen, whatever happens. *)
Lemma name16 buf0 name :
  msize buf0 = 16 -> (forall n, name = Some n -> msize n = 16 \/ msize n = 28) ->
  exists buf, win_name_out buf0 16 name = Some (buf, 16) /\ msize buf = 16.
Proof.
  intros H0 Hn. destruct name as [n|]; [|by eexists].
  unfold win_name_out. destruct (Hn n eq_refl) as [E|E]; rewrite E; cbn [Z.leb Z.compare Pos.compare Pos.compare_cont].
  - destruct (blit_in buf0 0 n) as [buf Hb]; [lia..|].
    rewrite Hb. exists buf. split; [done|]. by rewrite (blit_size _ _ _ _ Hb).
  - by eexists.
Qed.

(** What the program does once the address is one of IPv4. *)
Lemma connect_call socket addr port behind :
  msize addr = 4 -> exists a,
  Win_details.qvpn_connect_ behind socket addr port =
    (res ← call (sys_connect socket (sockaddr_in AF_INET (htons port) (htonl a)));
     err ← (if res =? SOCKET_ERROR then get_last_error else mret 0);
     '(localAddr, localAddrLen) ← win_getsockname socket (replicate 16 0) 16;
     net_addr ← lift (NetAddr.of_range (localAddr ++ behind) 4 (4 + localAddrLen));
     port ← lift (sin_port localAddr);
     mret (mkNetData (res =? 0) err net_addr (ntohs port))).
Proof. intros (a & b & c & d & ->)%list4. by eexists. Qed.

(** The twenty bytes from the beginning of the name. *)
Lemma behind_name buf behind : msize buf = 16 ->
  match NetAddr.of_range (buf ++ behind) 4 (4 + 16) with
  | Some l => 4 <= msize behind /\ msize l = 16
  | None => msize behind < 4
  end.
Proof.
  intros Hb. pose proof (msize_nonneg behind). unfold NetAddr.of_range. destruct (range _ _ _) as [l|] eqn:E.
  - apply range_Some in E as (_ & E & Hl & _). rewrite msize_app in E. lia.
  - destruct (decide (4 <= msize behind)); [|lia].
    rewrite range_in in E; [done|lia|rewrite msize_app; lia].
Qed.

(** A connection to an IPv4 server, with four bytes behind the name. *)
Lemma win_connect_spec behind s addr port k :
  msize addr = 4 -> 4 <= msize behind ->
  wp (Win_Socket.connect behind s addr port) (fun '(st, s') k' =>
    (forall fd, family k' fd = family k fd) /\
    QVPN_Socket.socket_ s' = QVPN_Socket.socket_ s /\
    (success st = true ->
       msize (QVPN_Socket.get_local_addr s') = 16 /\ QVPN_Socket.get_remote_addr s' = addr) /\
    (success st = false -> s' = s) /\
    (QVPN_Socket.socket_ s = INVALID_SOCKET \/ family k (QVPN_Socket.socket_ s) = WIN_AF_INET6 ->
       success st = false)) k.
Proof.
  intros Ha Hb. unfold Win_Socket.connect.
  destruct (connect_call (QVPN_Socket.socket_ s) addr port behind Ha) as [a ->].
  do 3 wp_step. apply win_connect_law in Hsys as [Hf Hr]. wp_step.
  apply (wp_mono _ (fun _ k1 => forall fd, family k1 fd = family k' fd)).
  { destruct (_ =? SOCKET_ERROR); [by exists (wsa_last_error k'), k'|by wp_step]. }
  intros err k1 Hf1. unfold win_getsockname. do 3 wp_step.
  apply win_getsockname_law in Hsys as [Hf2 Hn]. destruct (name16 (replicate 16 0) _ eq_refl Hn) as (buf & Ho & Sb).
  eapply wp_lift; [exact Ho|]. cbv beta iota. pose proof (behind_name buf behind Sb) as Hl.
  destruct (NetAddr.of_range _ 4 (4 + 16)) as [l|]; [|lia]. destruct Hl as [_ Sl].
  destruct (name_port buf) as [lp Hlp]; [lia|].
  do 2 (wp_step; eapply wp_lift; [done|]). do 2 wp_step. cbn [nd_success nd_status nd_addr nd_port success].
  split_and!.
  - intros fd. by rewrite Hf2, Hf1, Hf.
  - by destruct (_ =? 0).
  - by destruct (_ =? 0).
  - by destruct (_ =? 0).
  - intros Hd. rewrite Hr; [done|]. destruct Hd; [by left|by right].
Qed.

Lemma connect_undefined behind s addr port k :
  msize addr = 4 -> msize behind < 4 -> Win_Socket.connect behind s addr port k = None.
Proof.
  intros Ha Hb. unfold Win_Socket.connect.
  destruct (connect_call (QVPN_Socket.socket_ s) addr port behind Ha) as [a ->].
  unfold mbind, io_bind, call. destruct (sys_connect _ _ k) as [r k1].
  set (e := if r =? SOCKET_ERROR then get_last_error else mret 0).
  assert (He : exists err, e k1 = Some (err, k1)) by (subst e; destruct (_ =? _); by eexists).
  destruct He as [err ->]. unfold win_getsockname, mbind, io_bind, call.
  destruct (sys_getsockname _ k1) as [name k2] eqn:E. apply win_getsockname_law in E as [_ Hn].
  destruct (name16 (replicate 16 0) _ eq_refl Hn) as (buf & Ho & Sb). unfold lift at 1. rewrite Ho.
  pose proof (behind_name buf behind Sb) as Hl. destruct (NetAddr.of_range _ _ _) as [l|]; [lia|done].
Qed.

(** A socket that no IPv4 server can be reached with: its local address has the size of an
    IPv6 address, and its descriptor is none or one of that family. *)
Definition no_ipv4 (s : QVPN_Socket.t) (k : kernel) : Prop :=
  QVPN_Socket.socket_ s = INVALID_SOCKET \/ family k (QVPN_Socket.socket_ s) = WIN_AF_INET6.

Definition is_connected (s : QVPN_Socket.t) (k : kernel) : Prop :=
  is_Some (fst (sys_getpeername (QVPN_Socket.socket_ s) k)).

Lemma win_reconnect_spec behind s addr port k :
  msize addr = 4 -> 4 <= msize behind -> msize (QVPN_Socket.get_local_addr s) = 16 ->
  no_ipv4 s k \/ is_connected s k ->
  wp (Win_Socket.reconnect behind s addr port) (fun '(st, s') k' =>
    success st = false /\ msize (QVPN_Socket.get_local_addr s') = 16 /\ no_ipv4 s' k') k.
Proof.
  intros Ha Hb Hl Hs. unfold Win_Socket.reconnect, Win_Socket.check_connected. do 4 wp_step.
  set (connected := match x with Some name => msize name <=? msize (sockaddr_in 0 0 0) | None => false end).
  assert (Hc : connected = false -> no_ipv4 s k').
  { intros Hx. pose proof (win_getpeername_law _ _ _ _ Hsys) as [Hf Hn]. unfold no_ipv4. rewrite Hf.
    destruct Hs as [?|[n E]]; [done|]. rewrite Hsys in E. cbn in E. subst x.
    destruct (Hn n eq_refl) as [En|[_ ?]]; [|by right].
    apply Z.leb_gt in Hx. change (msize (sockaddr_in 0 0 0)) with 16 in Hx. lia. }
  wp_step. apply (wp_mono _ (fun s1 k1 => QVPN_Socket.socket_data_ s1 = QVPN_Socket.socket_data_ s /\ no_ipv4 s1 k1)).
  - destruct connected; [|wp_step; split; [done|by apply Hc]].
    unfold Win_Socket.shutdown, Win_Socket.close_socket. do 11 wp_step. split; [done|].
    unfold no_ipv4. cbn [QVPN_Socket.socket_].
    apply win_socket_law in Hsys2 as [->| ->]; [by left|right].
    unfold Win_Socket.get_local_addr, NetAddr.get_addr_family. by rewrite Hl.
  - cbv beta. intros s1 k1 [Hd Hn]. eapply wp_mono; [by apply win_connect_spec|].
    intros [st s'] k2 (Hf & _ & _ & Hfail & Hno). specialize (Hno Hn). rewrite (Hfail Hno).
    split_and!; [done| |].
    + unfold QVPN_Socket.get_local_addr in *. by rewrite Hd.
    + unfold no_ipv4. by rewrite Hf.
Qed.

Lemma win_reconnect_loop behind addr port n s k :
  msize addr = 4 -> 4 <= msize behind -> msize (QVPN_Socket.get_local_addr s) = 16 ->
  no_ipv4 s k \/ is_connected s k ->
  fst (QVPNClientDriver.reconnect_loop (H := Win_ClientSocket.windows_socket behind addr port) n (s, k)) = false.
Proof.
  intros Ha Hb. revert s k. induction n as [|n IH]; intros s k Hl Hs; cbn [QVPNClientDriver.reconnect_loop]; [done|].
  unfold QVPNClientDriver.reconnect. cbn. unfold Win_ClientSocket.reconnect.
  destruct (win_reconnect_spec behind s addr port k Ha Hb Hl Hs) as ([st s1] & k1 & E & Hf & Hl1 & Hn).
  unfold mbind, io_bind. rewrite E. cbn. rewrite Hf. apply IH; [done|by left].
Qed.

(** C9: Connecting to an IPv4 server reads twenty bytes of a name that has sixteen: the language
    gives it no meaning.  Where four more bytes can be read, it is defined, and a connection
    that is made records sixteen bytes as the local address. *)
Theorem connect_reads_behind_name behind s addr port k :
  msize addr = 4 ->
  (is_Some (Win_Socket.connect behind s addr port k) <-> 4 <= msize behind) /\
  (forall st s' k', Win_Socket.connect behind s addr port k = Some ((st, s'), k') -> success st = true ->
     NetAddr.get_addr_family (QVPN_Socket.get_local_addr s') = IPv6 /\ QVPN_Socket.get_remote_addr s' = addr).
Proof.
  intros Ha. destruct (decide (4 <= msize behind)) as [Hb|Hb].
  - destruct (win_connect_spec behind s addr port k Ha Hb) as ([st s'] & k' & E & _ & _ & Hok & _).
    rewrite E. split; [by split|]. intros st0 s0 k0 [= <- <- <-] Hst. destruct (Hok Hst) as [Hl ?].
    split; [|done]. unfold NetAddr.get_addr_family. by rewrite Hl.
  - rewrite (connect_undefined behind s addr port k Ha) by lia. split; [|done].
    split; [by intros [? ?]|lia].
Qed.

(** C8: The client on Windows never reconnects.  Whatever is read behind the name, a client that
    has connected to an IPv4 server keeps its descriptor in an object with an IPv6 address:
    while the connection stands, each of its attempts closes it or gives the new socket of the IPv6
    family the name of an IPv4 server, and every attempt fails. *)
Theorem windows_client_never_reconnects behind addr port s0 k0 st s k0' k n :
  msize addr = 4 -> 4 <= msize behind ->
  Win_Socket.connect behind s0 addr port k0 = Some ((st, s), k0') -> success st = true ->
  is_connected s k ->
  fst (QVPNClientDriver.try_reconnect (H := Win_ClientSocket.windows_socket behind addr port) n (s, k)) = false.
Proof.
  intros Ha Hb E Hst Hc. unfold QVPNClientDriver.try_reconnect.
  destruct (wp_run _ _ _ _ _ (win_connect_spec behind s0 addr port k0 Ha Hb) E) as (_ & _ & Hok & _).
  apply win_reconnect_loop; [done..|by apply Hok|by right].
Qed.

(** * The server's side *)

Lemma le32_address x y z t : bytes [x; y; z; t] -> le32 (htonl (cat32 x y z t)) = [x; y; z; t].
Proof.
  intros Hb. unfold htonl. destruct (octets_cat32 x y z t Hb) as (->&->&->&->).
  unfold le32, host32. by destruct (octets_cat32 t z y x (bytes_rev4 _ _ _ _ Hb)) as (->&->&->&->).
Qed.

(** A buffer of four bytes is too small for every name, so the name stays what it was. *)
Lemma name4 buf name :
  (forall n, name = Some n -> msize n = 16 \/ msize n = 28) -> win_name_out buf 4 name = Some (buf, 4).
Proof. intros Hn. destruct name as [n|]; [|done]. unfold win_name_out. by destruct (Hn n eq_refl) as [->| ->]. Qed.

Lemma bound_name f p a behind :
  NetAddr.of_range (sockaddr_in f p a ++ behind) 4 (4 + 4) = Some (le32 a).
Proof. exact (range_inside_all (le16 f ++ le16 p) (replicate 8 0 ++ behind) (le32 a)). Qed.

(** Binding to an IPv4 address is defined, and records the address it was given. *)
Lemma win_bind_spec behind s addr port k :
  msize addr = 4 -> bytes addr ->
  wp (Win_Socket.bind behind s addr port) (fun '(st, s') _ =>
    QVPN_Socket.socket_ s' = QVPN_Socket.socket_ s /\
    (success st = true ->
       QVPN_Socket.get_local_addr s' = addr /\ QVPN_Socket.get_local_port s' = port)) k.
Proof.
  intros Ha Hb. pose proof (list4 addr Ha) as (x & y & z & t & ->).
  unfold Win_Socket.bind, Win_details.qvpn_bind_, Win_details.bind_ipv4. cbn -[htonl cat32 sockaddr_in Z.eqb].
  change (NetAddr.get_addr_family [x; y; z; t] =? IPv4) with true. cbv beta iota.
  do 2 wp_step. eapply wp_lift; [done|]. wp_step. eapply wp_lift; [done|]. do 3 wp_step.
  apply (wp_mono _ (fun _ _ => True)).
  { destruct (_ =? SOCKET_ERROR); [by exists (wsa_last_error k'), k'|by wp_step]. }
  intros err k1 _. unfold win_getsockname. do 3 wp_step.
  apply win_getsockname_law in Hsys0 as [_ Hn]. eapply wp_lift; [by apply name4|]. cbv beta iota.
  wp_step. eapply wp_lift; [apply bound_name|]. do 2 wp_step.
  cbn [nd_success nd_status nd_addr nd_port success]. split; [by destruct (_ =? 0)|].
  destruct (_ =? 0); [|done]. intros _. split; [|done]. exact (le32_address x y z t Hb).
Qed.

(** What an IPv4 listener accepts has two whole addresses. *)
Lemma win_accept_spec behind s k :
  NetAddr.get_addr_family (QVPN_Socket.get_local_addr s) = IPv4 ->
  wp (Win_Socket.accept behind s) (fun c _ =>
    msize (QVPN_Socket.get_local_addr c) = 4 /\ msize (QVPN_Socket.get_remote_addr c) = 4 /\
    QVPN_Socket.get_transport_protocol c = QVPN_Socket.get_transport_protocol s) k.
Proof.
  intros Hf. unfold Win_Socket.accept, Win_Socket.socket_accept, Win_Socket.get_local_addr.
  rewrite Hf. change (IPv4 =? IPv4) with true. cbv beta iota. unfold Win_Socket.accept_ipv4.
  do 2 wp_step. destruct x as [fd peer]. wp_step. pose proof (win_accept_law _ _ _ _ _ Hsys) as Hp.
  destruct (name16 (replicate 16 0) peer eq_refl Hp) as (b1 & E1 & S1).
  eapply wp_lift; [exact E1|]. cbv beta iota. unfold win_getsockname, win_getpeername. do 3 wp_step.
  apply win_getsockname_law in Hsys0 as [_ Hn]. destruct (name16 (replicate 16 0) _ eq_refl Hn) as (b2 & E2 & S2).
  eapply wp_lift; [exact E2|]. cbv beta iota. do 3 wp_step.
  apply win_getpeername_law in Hsys0 as [_ Hn3]. destruct (name16 b1 x0 S1) as (b3 & E3 & S3).
  { intros n E. by destruct (Hn3 n E) as [?|[? _]]; [left|right]. }
  eapply wp_lift; [exact E3|]. cbv beta iota.
  destruct (name_addr b2 4 8) as (la & Ela & Sla); [lia|lia|].
  destruct (name_addr b3 4 8) as (ra & Era & Sra); [lia|lia|].
  destruct (name_port b3) as [rp Erp]; [lia|]. destruct (name_port b2) as [lp Elp]; [lia|].
  do 4 (wp_step; eapply wp_lift; [done|]). wp_step. cbn. by rewrite Sla, Sra.
Qed.

(** A raw socket is valid even if there is no socket. *)
Lemma raw_socket_always_valid s : Win_RawSocket.is_valid s = true.
Proof.
  unfold Win_RawSocket.is_valid, u64.
  pose proof (Z.mod_pos_bound (QVPN_Socket.socket_ s) 18446744073709551616 ltac:(lia)).
  by destruct (Z.ltb_spec (QVPN_Socket.socket_ s mod 18446744073709551616) 0); [lia|].
Qed.

End Specs.

(** * A Winsock *)

(** The smallest one that obeys the laws: the families of its sockets, in the order in which they
    were made, and those that are connected. *)
Section Sample.

Definition win_name : mem := sockaddr_in AF_INET (htons 5000) (htonl 167772162).

#[local] Instance sample_calls : SysSockets := {|
  kernel := list Z * gset Z;
  errno _ := 0;
  sys_socket d _ _ '(fs, cs) := (Z.of_nat (length fs), (fs ++ [d], cs));
  sys_connect fd name '(fs, cs) :=
    if (fd =? INVALID_SOCKET) || ((default 0 (fs !! Z.to_nat fd) =? WIN_AF_INET6) && (msize name =? 16))
    then (-1, (fs, cs)) else (0, (fs, {[fd]} ∪ cs));
  sys_bind _ _ k := (0, k);
  sys_listen _ _ k := (0, k);
  sys_accept _ '(fs, cs) := (Z.of_nat (length fs), Some win_name, (fs ++ [AF_INET], cs));
  sys_getsockname _ k := (Some win_name, k);
  sys_getpeername fd '(fs, cs) := (if decide (fd ∈ cs) then Some win_name else None, (fs, cs));
  sys_send _ m _ k := (msize m, k);
  sys_recv _ _ _ k := (1, [7], k);
  sys_sendto _ m _ _ k := (msize m, k);
  sys_shutdown _ k := (0, k);
  sys_close fd '(fs, cs) := (0, (fs, cs ∖ {[fd]}));
  sys_setsockopt _ _ k := (0, k);
  load_filter _ k := (3, k) |}.

#[local] Instance sample_winsock : Winsock := {|
  win_calls := sample_calls;
  wsa_startup k := (0, k);
  wsa_cleanup k := (0, k);
  wsa_last_error _ := 10014;
  win_setsockopt _ _ k := (0, k) |}.

#[local] Instance sample_winsock_laws : WinsockLaws sample_winsock.
Proof.
  refine {| family := fun k fd => default 0 (fst k !! Z.to_nat fd) |}; cbn.
  - intros d _ _ [fs cs] r k [= <- <-]. right. cbn. rewrite Nat2Z.id, lookup_app_r by done.
    by rewrite Nat.sub_diag.
  - intros fd name [fs cs] r k E. cbn in *.
    destruct (fd =? INVALID_SOCKET) eqn:E1; cbn in E; [by injection E as <- <-|].
    destruct (_ =? WIN_AF_INET6) eqn:E2, (msize name =? 16) eqn:E3; cbn in E; injection E as <- <-;
      (split; [done|]); try done; rewrite ?Z.eqb_eq, ?Z.eqb_neq in *; intuition congruence.
  - intros _ k name k' [= <- <-]. split; [done|]. intros n [= <-]. by left.
  - intros fd [fs cs] name k' [= <- <-]. split; [done|]. intros n. case_decide; [|done]. intros [= <-]. by left.
  - intros _ [fs cs] r name k' [= <- <- <-] n [= <-]. by left.
Defined.

End Sample.

(** * Witnesses *)

Definition sample_connected : QVPN_Socket.t :=
  QVPN_Socket.mk 0 (QVPNSocketData.mk IPv4 TCP [10; 0; 0; 2; 0; 0; 0; 0; 0; 0; 0; 0; 1; 2; 3; 4] 5000 [10; 0; 0; 1] 443).

Lemma connect_reads_behind_name_witness :
  Win_Socket.connect (H := sample_winsock) [1; 2; 3] sample_connected [10; 0; 0; 1] 443 ([AF_INET], ∅) = None.
Proof.
  destruct (connect_reads_behind_name (L := sample_winsock_laws) [1; 2; 3] sample_connected [10; 0; 0; 1] 443 ([AF_INET], ∅))
    as [[H _] _]; [done|].
  destruct (Win_Socket.connect _ _ _ _ _); [|done]. exfalso.
  by assert (4 <= msize [1; 2; 3]) as ? by (apply H; by eexists).
Defined.

Lemma windows_client_never_reconnects_witness :
  let s0 := QVPN_Socket.mk 0 (Win_Socket.new_data AF_INET IPPROTO_TCP) in
  Win_Socket.connect (H := sample_winsock) [1; 2; 3; 4] s0 [10; 0; 0; 1] 443 ([AF_INET], ∅) =
    Some ((mkStatus true 0, sample_connected), ([AF_INET], {[0]})) /\
  fst (QVPNClientDriver.try_reconnect
    (H := Win_ClientSocket.windows_socket (H := sample_winsock) [1; 2; 3; 4] [10; 0; 0; 1] 443) 20
    (sample_connected, ([AF_INET], {[0]}))) = false.
Proof.
  intros s0.
  assert (E : Win_Socket.connect (H := sample_winsock) [1; 2; 3; 4] s0 [10; 0; 0; 1] 443 ([AF_INET], ∅) =
    Some ((mkStatus true 0, sample_connected), ([AF_INET], {[0]}))) by (vm_compute; reflexivity).
  split; [exact E|].
  eapply (windows_client_never_reconnects (L := sample_winsock_laws) [1; 2; 3; 4] [10; 0; 0; 1] 443 s0);
    [done|done|exact E|done|by eexists].
Defined.
