(* ===== verification/Server.v ===== *)
(** The server's loops over connections: [vpn_request_loop_iteration], [process_socket_],
    [vpn_response_loop_iteration], [listen_response_sockets_] of [QVPNServerDriver]
    (src/QVPN/QVPN Lib/include/qvpn_driver.hpp).

    One server object serves all clients: it has one packet manager, one generator of
    IPv4 identifiers and one table of sockets that wait for responses; the thread of a client
    has its own table of connections.  What the operating system answers - whether a raw
    socket opens, binds and connects, which address it gets, whether a send succeeds - is
    an argument of a step; what is handed to it is part of the result.

    The tables are hash maps over [QVPNServerSocketData].  Here they are finite maps; on the
    keys of the server this is what the hash maps are ([server_table_refines] in [Tables]). *)
From S2P Require Import Prelude Checksum Addr Transport TcpOptions Ipv4 Tcp Udp TlsRecord QTunnel FullPacket PacketView Print PacketManager Layers SafeReceive Driver SocketFilter Tables Forward Client.

Module QVPNServer.
Import QVPNServerForward.

(** A client's socket and a raw socket with its shadow, by the names the server gives them. *)
Abbreviation client := nat.
Abbreviation raw := nat.

(** The members of the server that packets change. *)
Record t := mk {
  driver_ : TunnelDriver.t;
  ip4_strategy : IPv4DefaultGenStrategy.t;
  response_sockets_ : gmap QVPNServerSocketData.t (client * raw) }.

Definition with_driver (s : t) (d : TunnelDriver.t) : t := mk d (ip4_strategy s) (response_sockets_ s).
Definition with_strategy (s : t) (st : IPv4DefaultGenStrategy.t) : t :=
  mk (driver_ s) st (response_sockets_ s).
Definition with_responses (s : t) (m : gmap QVPNServerSocketData.t (client * raw)) : t :=
  mk (driver_ s) (ip4_strategy s) m.

(** What creating a raw socket comes to: the socket, whether it is valid, bound and
    connected, and the local address it then has. *)
Record attempt := mk_attempt {
  new_socket : raw; is_valid : bool; bind_success : bool; connect_success : bool;
  local_addr : list Z }.

Abbreviation sock_map := (gmap QVPNServerSocketData.t raw).

Definition add_to_response_socket_map (s : t) (response_socket : client) (raw_socket : raw)
    (remote_key : QVPNServerSocketData.t) : t :=
  match response_sockets_ s !! remote_key with
  | None => with_responses s (<[remote_key := (response_socket, raw_socket)]> (response_sockets_ s))
  | Some _ => s
  end.

Definition drop_response_socket_ (s : t) (key : QVPNServerSocketData.t) : t :=
  with_responses s (delete key (response_sockets_ s)).

Definition connect_to_server_impl_ (s : t) (response_socket : client) (key : QVPNServerSocketData.t)
    (socks : sock_map) (a : attempt) : t * QVPNServerSocketData.t * sock_map :=
  if negb (is_valid a) then (s, key, socks)
  else if negb (bind_success a) then (s, key, socks)
  else
    let key := set_server_local_addr key (local_addr a) in
    match socks !! key with
    | Some _ => (s, key, socks)
    | None =>
        if negb (connect_success a) then (s, key, socks)
        else (add_to_response_socket_map s response_socket (new_socket a) key, key,
              <[key := new_socket a]> socks)
    end.

Definition connect_if_not_to_server (s : t) (response_socket : client) (key : QVPNServerSocketData.t)
    (socks : sock_map) (a : attempt) : t * QVPNServerSocketData.t * sock_map :=
  connect_to_server_impl_ s response_socket key socks a.

(** The visitor of [is_reset_connection_packet]. *)
Definition is_reset_connection_packet (packet : FullPacketObjectType) : option bool :=
  match packet with
  | FullTcp p => TcpPacketView.is_reset_connection_packet (PacketObject.data_ p)
                   (PacketView.transport (PacketObject.views p))
  | FullUdp p => Some (UdpPacketView.is_reset_connection_packet (PacketObject.data_ p)
                   (PacketView.transport (PacketObject.views p)))
  | FullDummy => Some false
  end.

Definition to_packet_friendly_view (T : QVPNVerboser.tables) (packet : FullPacketObjectType) :
    option string :=
  match packet with
  | FullTcp p => Ipv4TcpPacket_to_packet_friendly_view T p
  | FullUdp p => Ipv4UdpPacket_to_packet_friendly_view T p
  | FullDummy => Some DummyFullPacket_to_packet_friendly_view
  end.

(** What the environment does for one object, and what the body of the loop comes to:
    the next object or a [return]. *)
Record world := mk_world { opening : attempt; send_success : bool }.
Inductive flow : Type := Next | Return (status : bool).

Section Requests.
Context (T : QVPNVerboser.tables).
Context (arrange : list (Z * PacketBuilder.t) -> list (Z * PacketBuilder.t)).

(** The part after the table has been asked: build, print, send, and drop on a reset. *)
Definition forward (s : t) (key : QVPNServerSocketData.t) (original_proxy_data : QTunnelProxy.t)
    (payload : mem) (b e : Z) (server_socket : raw) (w : world) :
    option (flow * list (raw * mem) * t) :=
  '(packet, st) ← generate_sender_packet (ip4_strategy s) original_proxy_data key payload b e;
  let s := with_strategy s st in
  text ← to_packet_friendly_view T packet;
  sent ← packet_bytes packet;
  if negb (send_success w) then Some (Return true, [(server_socket, sent)], s)
  else
    reset ← is_reset_connection_packet packet;
    if (reset : bool) then Some (Return true, [(server_socket, sent)], drop_response_socket_ s key)
    else Some (Next, [(server_socket, sent)], s).

(** The body of the loop of [vpn_request_loop_iteration] for the object [[data_b, data_e)]. *)
Definition request_object (s : t) (client_socket : client) (socks : sock_map) (m : mem)
    (data_b data_e : Z) (w : world) : option (flow * list (raw * mem) * t * sock_map) :=
  '(decoded_data, d) ← QVPNServerDriver.decode_data arrange (driver_ s) m data_b data_e;
  let s := with_driver s d in
  match decoded_data with
  | None => Some (Return true, [], s, socks)
  | Some decoded_data =>
      original_proxy_data ← QTunnelProxy.create (QTunnelData.proxy decoded_data);
      proxy_data ← QTunnelProxy.create_and_inverse_addrs (QTunnelData.proxy decoded_data);
      let key := connection_key (QTunnelData.proxy decoded_data) in
      let '(s, key, socks) := connect_if_not_to_server s client_socket key socks (opening w) in
      let '(b, e) := QTunnelData.get_raw_data decoded_data in
      match socks !! key with
      | None => Some (Return false, [], s, socks)
      | Some server_socket =>
          '(f, sent, s) ← forward s key original_proxy_data (QTunnelData.data_ decoded_data) b e
                            server_socket w;
          Some (f, sent, s, socks)
      end
  end.

(** The loop over the objects [i], [i + 1], ...; the list has one world per object. *)
Fixpoint request_objects (s : t) (client_socket : client) (socks : sock_map)
    (rd : SafeReceiveData.t) (i : nat) (ws : list world) :
    option (bool * list (raw * mem) * t * sock_map) :=
  match ws with
  | [] => Some (true, [], s, socks)
  | w :: ws =>
      '(b, e) ← SafeReceiveData.get_object_bytes rd i;
      '(f, sent, s, socks) ← request_object s client_socket socks (SafeReceiveData.data rd) b e w;
      match f with
      | Return status => Some (status, sent, s, socks)
      | Next =>
          '(status, sent', s, socks) ← request_objects s client_socket socks rd (S i) ws;
          Some (status, sent ++ sent', s, socks)
      end
  end.

(** [receive_data] is what [safe_recv] returned; [worlds] gives the world of each object. *)
Definition vpn_request_loop_iteration (s : t) (client_socket : client) (socks : sock_map)
    (receive_data : SafeReceiveData.t) (worlds : nat -> world) :
    option (bool * list (raw * mem) * t * sock_map) :=
  if negb (success (SafeReceiveData.get_status receive_data)) then Some (true, [], s, socks)
  else
    let num := SafeReceiveData.get_objects_num receive_data in
    request_objects s client_socket socks receive_data 0 (map worlds (seq 0 (Z.to_nat num))).

(** [process_socket_] on what [safe_recv] returns one after the other: [None] in the third
    place when the loop still runs at the end of the list. *)
Fixpoint process_socket_ (s : t) (client_socket : client) (socks : sock_map)
    (received : list (SafeReceiveData.t * (nat -> world))) :
    option (list (raw * mem) * t * option sock_map) :=
  match received with
  | [] => Some ([], s, Some socks)
  | (rd, ws) :: received =>
      '(status, sent, s, socks) ← vpn_request_loop_iteration s client_socket socks rd ws;
      if (status : bool) then
        '(sent', s, rest) ← process_socket_ s client_socket socks received;
        Some (sent ++ sent', s, rest)
      else Some (sent, s, None)
  end.

End Requests.

(** * Responses *)

Section Responses.
Context (T : QVPNVerboser.tables) `{Socket}.
Import PacketPreParser.

Definition is_reset (m : mem) (response : FullPacketType) : option bool :=
  match response with
  | TcpPacketOf p => TcpPacketView.is_reset_connection_packet m (PacketView.transport p)
  | UdpPacketOf p => Some (UdpPacketView.is_reset_connection_packet m (PacketView.transport p))
  | DummyPacket => Some false
  end.

(** The proxy data of a response and the range of its payload. *)
Definition response_proxy (key : QVPNServerSocketData.t) (m : mem) (response : FullPacketType) :
    option (QTunnelProxy.t * (Z * Z)) :=
  proto_data ← collect_proto_data m response;
  net ← get_protocol_version m response;
  transport ← get_transport_protocol m response;
  src ← get_src_addr m response;
  src_port ← get_src_port m response;
  let dst := QVPNServerSocketData.client_local_addr key in
  let dst_port := QVPNServerSocketData.local_port key in
  Some (QTunnelProxy.mk net transport src src_port dst dst_port proto_data, get_payload response).

(** [vpn_response_loop_iteration]; [socket] is the client's socket of the entry. *)
Definition vpn_response_loop_iteration (s : t) (sk : socket) (key : QVPNServerSocketData.t)
    (m : mem) (begin_ end_ : Z) : option (t * socket) :=
  response ← pre_parse m begin_ end_;
  text ← PacketPreParser.to_packet_friendly_view T m response;
  '(new_proxy_data, (data_b, data_e)) ← response_proxy key m response;
  '(d, sk) ← QVPNServerDriver.encode_and_send (driver_ s) sk new_proxy_data m data_b data_e;
  let s := with_driver s d in
  r ← is_reset m response;
  if (r : bool) then Some (drop_response_socket_ s key, sk) else Some (s, sk).

(** One pass of [listen_response_sockets_] over the entries in the order [keys]: the raw
    socket of an entry gives a buffer or fails; [sockets] are the clients' sockets. *)
Fixpoint listen_response_sockets_ (s : t) (sockets : client -> socket)
    (receive : raw -> option mem) (keys : list QVPNServerSocketData.t) :
    option (t * (client -> socket)) :=
  match keys with
  | [] => Some (s, sockets)
  | key :: keys =>
      match response_sockets_ s !! key with
      | None => listen_response_sockets_ s sockets receive keys
      | Some (resp_sock, raw_socket) =>
          match receive raw_socket with
          | None => listen_response_sockets_ s sockets receive keys
          | Some m =>
              '(s, sk) ← vpn_response_loop_iteration s (sockets resp_sock) key m 0 (msize m);
              listen_response_sockets_ s (fun c => if Nat.eqb c resp_sock then sk else sockets c)
                receive keys
          end
      end
  end.

End Responses.

End QVPNServer.

(** * Connections *)

Import QVPNServerForward QVPNServer.

(** The key under which the connection of a packet is kept, once the raw socket has an
    address. *)
Definition socket_key (px : QTunnelProxy.t) (w : world) : QVPNServerSocketData.t :=
  set_server_local_addr (connection_key px) (local_addr (opening w)).

(** The raw socket opens, and connects if the client has no socket for the key yet. *)
Definition opens (w : world) (known : option raw) : Prop :=
  is_valid (opening w) = true /\ bind_success (opening w) = true /\
  (known = None -> connect_success (opening w) = true).

(** The tables after the socket for a key has been looked for, and the socket. *)
Definition registered (s : t) (c : client) (socks : sock_map) (key : QVPNServerSocketData.t)
    (fresh : raw) : t * sock_map * raw :=
  match socks !! key with
  | Some known => (s, socks, known)
  | None => (add_to_response_socket_map s c fresh key, <[key := fresh]> socks, fresh)
  end.

Lemma connected s c px socks w :
  let key := socket_key px w in
  let '(s1, socks1, server_socket) := registered s c socks key (new_socket (opening w)) in
  opens w (socks !! key) ->
  connect_if_not_to_server s c (connection_key px) socks (opening w) = (s1, key, socks1) /\
  socks1 !! key = Some server_socket /\
  driver_ s1 = driver_ s /\ ip4_strategy s1 = ip4_strategy s.
Proof.
  intros key. unfold registered, opens. destruct (socks !! key) as [known|] eqn:E; intros (Hv & Hb & Hc);
    unfold connect_if_not_to_server, connect_to_server_impl_; rewrite Hv, Hb; cbn [negb];
    fold (socket_key px w) key; rewrite E.
  - done.
  - rewrite Hc by done. cbn [negb]. split_and!; [done|by apply lookup_insert_eq| |];
      unfold add_to_response_socket_map; by destruct (response_sockets_ s !! key).
Qed.

(** What a request does to the client's table, if that is a hash table: the lookup and the
    assignment of [connect_to_server_impl_], and the [contains] of the iteration. *)
Definition connect_operations (key : QVPNServerSocketData.t) (socks : sock_map) (a : attempt) :
    list (@operation QVPNServerSocketData.t raw) :=
  if negb (is_valid a) || negb (bind_success a) then [Find key]
  else
    let key := set_server_local_addr key (local_addr a) in
    match socks !! key with
    | Some _ => [Find key; Find key]
    | None => if negb (connect_success a) then [Find key; Find key]
              else [Find key; Set_ key (new_socket a); Find key]
    end.

(** The local address of an attempt: a connected socket has one, a bound one zeros at least. *)
Definition attempt_address (net : Z) (a : attempt) : Prop :=
  bytes (local_addr a) /\
  if connect_success a
  then msize (local_addr a) = local_addr_size net /\ Exists (fun b => b <> 0) (local_addr a)
  else local_addr_size net <= msize (local_addr a) <= 16 /\ Forall (fun b => b = 0) (local_addr a).

#[local] Ltac all_ok H :=
  split; [repeat (apply Forall_cons; split; [exact H|]); by apply Forall_nil|done].

(** These are operations for which [server_table_refines] holds, and they make of the table what
    the code makes of it. *)
Lemma request_history s c px socks a s' key' socks' :
  bytes (QTunnelProxy.source_addr px) -> bytes (QTunnelProxy.dst_addr px) -> proxy_wf px ->
  attempt_address (QTunnelProxy.net_protocol px) a ->
  connect_if_not_to_server s c (connection_key px) socks a = (s', key', socks') ->
  Forall (operation_ok stored_key searched_key) (connect_operations (connection_key px) socks a) /\
  snd (run_map (connect_operations (connection_key px) socks a) socks) = socks'.
Proof.
  intros Bs Bd (Hsz & Ht & Hsp & Hdp & _) [Bl Hl] E.
  assert (Hk : forall local, server_key (set_server_local_addr (connection_key px) local)).
  { intros local. unfold is_u8, is_u16 in *. unfold server_key, family_size. cbn.
    unfold QTunnelProxy.get_net_proto, QTunnelProxy.get_transport_proto, QTunnelProxy.get_src_port,
      QTunnelProxy.get_dst_port, QTunnelProxy.get_src_addr, QTunnelProxy.get_dst_addr.
    destruct Hsz as [(-> & -> & ->)|(-> & -> & ->)]; split_and!; done || lia. }
  assert (Hd : searched_key (connection_key px)).
  { split; [exact (Hk NetAddr.default)|]. split; [concrete|]. right. cbn. unfold QTunnelProxy.get_net_proto.
    unfold local_addr_size. destruct Hsz as [[-> _]|[-> _]]; (split; [vm_compute; split; discriminate|by repeat constructor]). }
  assert (Ha : searched_key (set_server_local_addr (connection_key px) (local_addr a))).
  { split; [apply Hk|]. split; [exact Bl|]. cbn. unfold QTunnelProxy.get_net_proto.
    destruct (connect_success a); [left|right]; apply Hl. }
  assert (Hst : connect_success a = true -> stored_key (set_server_local_addr (connection_key px) (local_addr a))).
  { intros Hc. rewrite Hc in Hl. split_and!; [apply Hk|exact Bl|apply Hl..]. }
  revert E. unfold connect_if_not_to_server, connect_to_server_impl_, connect_operations.
  destruct (is_valid a), (bind_success a); cbn [negb orb]; [|by intros [= <- <- <-]; all_ok Hd..].
  destruct (socks !! _); [intros [= <- <- <-]; by all_ok Ha|].
  destruct (connect_success a); cbn [negb]; intros [= <- <- <-]; [|by all_ok Ha].
  specialize (Hst eq_refl). split; [|done]. repeat (apply Forall_cons; split; [first [exact Ha|exact Hst]|]).
  by apply Forall_nil.
Qed.

(** The reset flag of the packet that is sent is that of the header it is made of. *)
Lemma reset_of_packet n tr h1 l :
  msize n = 20 -> msize tr = msize h1 -> (forall q, q <> 16 -> q <> 17 -> load tr q = load h1 q) ->
  refines (TcpPacketLittleEndian.is_reset_connection_packet h1)
    (is_reset_connection_packet (FullTcp (PacketObject.mk (n ++ tr ++ l) (views_at (T := tcp_view) 0 h1 l)))).
Proof.
  intros Sn St Hq r Hr. unfold is_reset_connection_packet, views_at.
  cbn [PacketObject.data_ PacketObject.views PacketView.transport].
  assert (Ht : TcpPacketLittleEndian.is_reset_connection_packet tr = Some r).
  { revert Hr. unfold TcpPacketLittleEndian.is_reset_connection_packet, TcpPacketLittleEndian.get_tcp_flags.
    by rewrite (Hq 12), (Hq 13) by lia. }
  assert (R : refines (TcpPacketLittleEndian.is_reset_connection_packet tr)
    (TcpPacketView.is_reset_connection_packet (inside n l tr) (TcpPacketView.mk (msize n) (msize n + 20) (msize h1 - 20))))
    by refine_getter.
  specialize (R r Ht). rewrite Sn in R. exact R.
Qed.

(** * Requests *)

(** A reset ends the iteration and takes the key out of the table of responses. *)
Definition flow_of (reset : bool) : flow := if reset then Return true else Next.
Definition responses_after (reset : bool) (key : QVPNServerSocketData.t)
    (m : gmap QVPNServerSocketData.t (client * raw)) : gmap QVPNServerSocketData.t (client * raw) :=
  if reset then delete key m else m.

(** Building, sending and dropping. *)
Lemma forward_tcp T s key px local m b e l server_socket w t reset :
  tcp_proxy px t -> options_wf t -> bytes local -> msize local = 4 ->
  key = set_server_local_addr (connection_key px) local ->
  is_u16 (IPv4DefaultGenStrategy.last_id_ (ip4_strategy s)) ->
  bytes l -> msize l < 65000 -> range m b e = Some l -> send_success w = true ->
  TcpPacketLittleEndian.is_reset_connection_packet t = Some reset ->
  exists packet s', forward T s key px m b e server_socket w =
      Some (flow_of reset, [(server_socket, packet)], s') /\ carries px local t l packet /\
    driver_ s' = driver_ s /\ response_sockets_ s' = responses_after reset key (response_sockets_ s).
Proof.
  intros (Wpx & Hnet & Htp & _ & _ & Bd & Ld & Bt & Wt & Hc & _) Ho Bl Ll -> Hlast Bp Sl Hl Hok Hr.
  destruct Wpx as (_ & _ & Usp & Udp & _).
  destruct (carry_ok t _ _ Bt Wt Usp Udp) as (pd & h1 & Ec & Eg & B1 & W1 & S1 & P1 & P2 & F & O).
  rewrite Hc in Ec. apply (inj Some) in Ec as <-.
  destruct (tcp_sender_ok _ px local m b e l h1 Hnet Htp Bd Ld Bl Ll Hlast Bp Sl Hl Eg B1 W1)
    as (n & tr & ph & st & Hs & Hb & As & Ad & Tl & (R1 & R2 & R3) & Sn & St & Hqt).
  destruct (carried_ext tr h1 St Hqt) as (F' & O' & P1' & P2').
  exists (n ++ tr ++ l), (with_responses (with_strategy s st)
    (responses_after reset (set_server_local_addr (connection_key px) local) (response_sockets_ s))).
  split_and!; [| |done|done].
  - unfold forward. destruct (ip4_strategy s) as [last]. cbn [IPv4DefaultGenStrategy.last_id_] in Hs.
    rewrite Hs. cbn [mbind option_bind].
    destruct (friendly_tcp T [] n tr l Sn ltac:(rewrite St; by apply tcp_whole_size)) as [text Htext].
    { apply (options_wf_ext tr t); [by rewrite O', O|done]. }
    unfold packet_in in Htext. cbn [app] in Htext. rewrite app_nil_r in Htext.
    assert (Ev : views_at (T := tcp_view) 0 tr l = views_at (T := tcp_view) 0 h1 l) by (unfold views_at; by rewrite St).
    rewrite Ev in Htext. cbn [PacketPreParser.to_packet_friendly_view] in Htext.
    unfold to_packet_friendly_view, Ipv4TcpPacket_to_packet_friendly_view.
    cbn [PacketObject.data_ PacketObject.views]. rewrite Htext. cbn [mbind option_bind]. rewrite Hb. cbn [mbind option_bind]. rewrite Hok. cbn [negb].
    assert (Hr1 : TcpPacketLittleEndian.is_reset_connection_packet h1 = Some reset).
    { revert Hr. unfold TcpPacketLittleEndian.is_reset_connection_packet.
      pose proof (carried_getters t h1 Bt F) as Fg. rewrite Forall_forall in Fg.
      by rewrite <- (Fg TcpPacketLittleEndian.get_tcp_flags) by set_solver. }
    rewrite (reset_of_packet n tr h1 l Sn St Hqt reset Hr1).
    cbn [mbind option_bind]. by destruct reset.
  - exists n, tr, ph. split_and!; try done; [|by rewrite O', O|by rewrite P1'|by rewrite P2'].
    by apply (carried_keep _ h1).
Qed.

(** The receiving half of the server is ready for a packet with the identifier [id]. *)
Definition server_ready (s : t) (id : Z) : Prop :=
  exists r, driver_ s = TunnelDriver.mk default_layers r /\ receiver_ready r /\
    QVPNPacketManager.lookup (QVPNPacketManager.packets_ r) id = None.

(** The driver has no part in the tables. *)
Lemma registered_with_driver s d c socks key fresh :
  registered (with_driver s d) c socks key fresh =
  let '(s1, socks1, server_socket) := registered s c socks key fresh in
  (with_driver s1 d, socks1, server_socket).
Proof.
  unfold registered. destruct (socks !! key); [done|]. unfold add_to_response_socket_map.
  cbn [with_driver response_sockets_]. by destruct (response_sockets_ s !! key).
Qed.

Lemma registered_strategy s c socks key fresh :
  let '(s1, _, _) := registered s c socks key fresh in ip4_strategy s1 = ip4_strategy s.
Proof.
  unfold registered. destruct (socks !! key); [done|]. unfold add_to_response_socket_map.
  by destruct (response_sockets_ s !! key).
Qed.

Section Ready.
Context (T : QVPNVerboser.tables).
Context (arrange : list (Z * PacketBuilder.t) -> list (Z * PacketBuilder.t)).
Context (arrange_perm : forall l, arrange l ≡ₚ l).

Lemma request_object_tcp s c socks m b e id px t l w reset :
  let x := proxy_bytes px ++ l in
  let key := socket_key px w in
  tcp_proxy px t -> options_wf t -> bytes l -> msize l < 65000 -> is_u8 id -> 10 + msize x < 65536 ->
  range m b e = Some (QLayer.record (frame id 0 (msize x) x)) -> server_ready s id ->
  is_u16 (IPv4DefaultGenStrategy.last_id_ (ip4_strategy s)) ->
  bytes (local_addr (opening w)) -> msize (local_addr (opening w)) = 4 ->
  opens w (socks !! key) -> send_success w = true ->
  TcpPacketLittleEndian.is_reset_connection_packet t = Some reset ->
  let '(s1, socks1, server_socket) := registered s c socks key (new_socket (opening w)) in
  exists packet s', request_object T arrange s c socks m b e w =
      Some (flow_of reset, [(server_socket, packet)], s', socks1) /\
    carries px (local_addr (opening w)) t l packet /\ server_ready s' id /\
    response_sockets_ s' = responses_after reset key (response_sockets_ s1).
Proof.
  intros x key Hpx Ho Bl Sl Hid Hx Hm (r & Hd & Hr & Hfree) Hlast Bloc Lloc Hop Hok Hrst.
  destruct (decode_whole arrange arrange_perm r m b e id px l) as (r' & HD & Hr' & Hk'); try done; [apply Hpx|].
  pose proof (connected (with_driver s (TunnelDriver.mk default_layers r')) c px socks w) as HC.
  cbv zeta in HC. fold key in HC. rewrite registered_with_driver in HC.
  pose proof (registered_strategy s c socks key (new_socket (opening w))) as Hst.
  destruct (registered s c socks key (new_socket (opening w))) as [[s1 socks1] server_socket].
  destruct (HC Hop) as (C1 & C2 & _).
  destruct (forward_tcp T (with_driver s1 (TunnelDriver.mk default_layers r')) key px
    (local_addr (opening w)) l 0 (msize l) l server_socket w t reset)
    as (packet & s' & F1 & F2 & F3 & F4); try done; [cbn; by rewrite Hst|apply range_full|].
  exists packet, s'. split_and!; [|done| |done].
  - unfold request_object, QVPNServerDriver.decode_data. rewrite Hd, HD. cbn [mbind option_bind].
    cbn [QTunnelData.proxy QTunnelData.data_]. rewrite create_same. cbn [mbind option_bind].
    destruct (create_inverse px) as [px' ->]. cbn [mbind option_bind]. rewrite C1.
    unfold QTunnelData.get_raw_data. cbn [QTunnelData.data_]. rewrite C2, F1. done.
  - exists r'. rewrite F3, Hk'. done.
Qed.

(** C1: A captured TCP packet reaches the Internet.  The client's capture loop turns the
    packet of headers [n], [t], with well-formed options, and payload [l] in its buffer into
    one part and hands it to its socket.  However the network cuts the part into chunks, and with up to 19 failing
    receive calls, the server's [safe_recv] returns it, and the iteration over it sends one
    packet through the raw socket of the connection, opened now or known before: its TCP
    header is the captured one octet for octet, besides ports and checksum, except that the
    reserved bits and NS are cleared and a header with NS leaves with SYN set ([carried]); it
    goes from the address of the raw socket and the captured source port to the captured
    destination with the captured payload, and a receiver's sums verify.  The tables are those with the connection
    registered, without the responses' entry when the packet resets the connection, and the
    server is ready for the next packet. *)
Theorem tcp_request_forwarded post n t l sc s reset :
  tcp_packet n t -> options_wf t -> bytes l -> msize l < 65000 ->
  msize l < QVPNPacketManager.data_max_size sc ->
  is_u8 (QVPNPacketManager.last_packet_id_ sc) ->
  server_ready s (QVPNPacketManager.last_packet_id_ sc) ->
  is_u16 (IPv4DefaultGenStrategy.last_id_ (ip4_strategy s)) ->
  TcpPacketLittleEndian.is_reset_connection_packet t = Some reset ->
  exists px part d',
    (Ipv4PacketLittleEndian.get_src_addr n = Some (QTunnelProxy.source_addr px) /\
    Ipv4PacketLittleEndian.get_dst_addr n = Some (QTunnelProxy.dst_addr px) /\
    TcpPacketLittleEndian.get_tcp_src_port t = Some (QTunnelProxy.source_port px) /\
    TcpPacketLittleEndian.get_tcp_dst_port t = Some (QTunnelProxy.dst_port px)) /\
    (forall (K : Socket) (sock sock1 : socket), sock_send sock part = (true, sock1) ->
     WinDivertClientVPNNetDriver.outgoing_iteration T (TunnelDriver.mk default_layers sc) sock
       (packet_in [] post n t l) (20 + msize t + msize l) = Some (d', sock1, false)) /\
    part <> [] /\
    forall rs more k fuel c socks worlds, SafeReceive.feeds part k rs -> k < 20 ->
    let w := worlds 0%nat in let key := socket_key px w in
    opens w (socks !! key) -> send_success w = true ->
    bytes (local_addr (opening w)) -> msize (local_addr (opening w)) = 4 ->
    let '(s1, socks1, server_socket) := registered s c socks key (new_socket (opening w)) in
    exists rd packet s',
      SafeReceiveData.safe_recv (S fuel) (rs ++ more) = SafeReceiveData.Returned rd more /\
    vpn_request_loop_iteration T arrange s c socks rd worlds =
        Some (true, [(server_socket, packet)], s', socks1) /\
    carries px (local_addr (opening w)) t l packet /\
    server_ready s' (QVPNPacketManager.last_packet_id_ sc) /\
    response_sockets_ s' = responses_after reset key (response_sockets_ s1).
Proof.
  intros Hp Ho Bl Sl Hmax Hid Hs Hlast Hrst.
  destruct (tcp_fields_of n t Hp) as (src & dst & sp & dp & pd & Hf).
  pose proof (outgoing_tcp post n t l _ _ _ _ _ Hp Hf) as O.
  set (px := QTunnelProxy.mk IPv4 TCP src sp dst dp pd) in *.
  assert (Hpx : tcp_proxy px t) by (by apply (tcp_proxy_fields n t)).
  pose proof Hp as (Bn & Wn & Sn & _ & _ & Bt & Wt). set (x := proxy_bytes px ++ l).
  assert (Hx : msize x = msize (proxy_bytes px) + msize l) by apply msize_app.
  pose proof Hpx as (Wpx & _ & _ & _ & _ & _ & _ & _ & _ & _ & Spx).
  set (id := QVPNPacketManager.last_packet_id_ sc) in *.
  set (fr := frame id 0 (msize x) x).
  assert (Hl : range (packet_in [] post n t l) (20 + msize t) (20 + msize t + msize l) = Some l).
  { by apply packet_payload_range. }
  destruct (encode_whole sc px (packet_in [] post n t l) (20 + msize t) (20 + msize t + msize l) l)
    as (sc' & HE); [done|done|done|fold x; lia|]. fold x id fr in HE.
  exists px, (QLayer.record fr), (TunnelDriver.mk default_layers sc'). split_and!; [apply Hf..| |done|].
  - intros K sock sock1 Hsend. unfold WinDivertClientVPNNetDriver.outgoing_iteration.
    rewrite pre_parse_tcp by done. cbn [mbind option_bind]. rewrite O. cbn [mbind option_bind].
    destruct (friendly_tcp T post n t l Sn ltac:(by apply tcp_whole_size) Ho) as [text ->]. cbn [mbind option_bind]. by rewrite (client_send_one _ _ _ _ _ _ _ _ HE), Hsend.
  - intros rs more k fuel c socks worlds Hfeeds Hk w key Hop Hok Bloc Lloc.
    pose proof (request_object_tcp s c socks (QLayer.record fr) 0 (msize (QLayer.record fr)) id px t l w
      reset Hpx Ho Bl Sl Hid ltac:(fold x; lia) (range_full _) Hs Hlast Bloc Lloc Hop Hok Hrst) as R.
    cbv zeta in R. fold key in R.
    destruct (registered s c socks key (new_socket (opening w))) as [[s1 socks1] server_socket].
    destruct R as (packet & s' & R1 & R2 & R3 & R4). unfold QLayer.record in Hfeeds.
    destruct (safe_recv_loop_feeds TLS12 APPLICATION_DATA fr fuel more _ k rs
      ltac:(subst fr; unfold frame; rewrite msize_app; change (msize (PacketBuilderData.to_bytes _)) with 5; lia)
      Hfeeds [] SafeReceiveData.empty SFR_NO_DATA 20) as (st & H & Hst); [done|by left|done|].
    eexists _, packet, s'. split_and!; [exact H| |done|done|done].
    unfold vpn_request_loop_iteration, SafeReceiveData.get_status, SafeReceiveData.get_objects_num.
    cbn [SafeReceiveData.net_status SafeReceiveData.separators length]. rewrite Hst. cbn [negb].
    change (map worlds (seq 0 (Z.to_nat (Z.of_nat 1)))) with [w]. cbn [request_objects].
    unfold SafeReceiveData.get_object_bytes. cbn [SafeReceiveData.separators lookup list_lookup mbind option_bind
      SafeReceiveData.data].  change (TLS13_RecordLittleEndian.generate_object_bytes TLS12 APPLICATION_DATA fr)
      with (QLayer.record fr). rewrite R1. by destruct reset.
Qed.
End Ready.

(** * Responses *)




(** C18: One packet stops the responses of all clients.  When the raw socket of a connection
    receives a TCP packet with an option of length zero, the loop that prints its options
    runs forever, and with it the one thread that serves every connection: the pass does
    not come to an end, whatever the other keys are. *)
Theorem zero_length_option_stops_responses T `{K : Socket} s (sockets : client -> socket) receive key c r keys n t l :
  tcp_packet n t -> stuck t 20 (msize t - 20) 0 ->
  response_sockets_ s !! key = Some (c, r) -> receive r = Some (packet_in [] [] n t l) ->
  listen_response_sockets_ T s sockets receive (key :: keys) = None /\
  forall fuel, TcpOptionsView.options_friendly_view T fuel (packet_in [] [] n t l) 40 (20 + msize t) = Running.
Proof.
  intros Hp Hs Hk Hr. assert (Sn : msize n = 20) by apply Hp.
  assert (St : 20 <= msize t <= 60) by (apply tcp_whole_size; apply Hp). split.
  - cbn [listen_response_sockets_]. rewrite Hk, Hr. unfold vpn_response_loop_iteration.
    replace (msize (packet_in [] [] n t l)) with (20 + msize t + msize l)
      by (unfold packet_in; cbn [app]; rewrite app_nil_r, !msize_app; lia).
    rewrite pre_parse_tcp by done. cbn [mbind option_bind PacketPreParser.to_packet_friendly_view].
    pose proof (captured_hangs T [] [] n t l Sn ltac:(lia) Hs) as H. change (msize []) with 0 in H. by rewrite H.
  - intros fuel. pose proof (stuck_inside n (l ++ []) t 20 _ 0 Hs) as S. rewrite Sn in S.
    unfold TcpOptionsView.options_friendly_view.
    replace (20 + msize t - 40) with (msize t - 20) by lia. rewrite u64_small by lia.
    change (packet_in [] [] n t l) with (inside n (l ++ []) t).
    by rewrite (stuck_runs T _ _ _ 0 S).
Qed.

(** * The tables as a state machine *)

#[local] Abbreviation response_map := (gmap QVPNServerSocketData.t (client * raw)).

(** The table of responses and the table of the client [c]: a request opens a socket for a
    key that the client does not have, or drops the responses of one that it has. *)
Inductive table_step (c : client) : response_map * sock_map -> response_map * sock_map -> Prop :=
  | table_register responses socks key fresh :
      socks !! key = None ->
      table_step c (responses, socks)
        (match responses !! key with
         | None => <[key := (c, fresh)]> responses
         | Some _ => responses
         end, <[key := fresh]> socks)
  | table_drop responses socks key :
      is_Some (socks !! key) -> table_step c (responses, socks) (delete key responses, socks).

#[local] Hint Constructors table_step rtc : core.

Lemma connect_steps s c key socks a s1 key1 socks1 :
  connect_if_not_to_server s c key socks a = (s1, key1, socks1) ->
  rtc (table_step c) (response_sockets_ s, socks) (response_sockets_ s1, socks1).
Proof.
  unfold connect_if_not_to_server, connect_to_server_impl_, add_to_response_socket_map.
  repeat case_match; intros [= <- <- <-]; try done; apply rtc_once;
    match goal with E : socks !! ?k = None |- _ =>
      pose proof (table_register c (response_sockets_ s) socks k (new_socket a) E) as R end;
    by simplify_option_eq.
Qed.

Lemma forward_steps T s c key px m b e server_socket w socks f sent s' :
  socks !! key = Some server_socket -> forward T s key px m b e server_socket w = Some (f, sent, s') ->
  rtc (table_step c) (response_sockets_ s, socks) (response_sockets_ s', socks).
Proof.
  intros Hk H. unfold forward in H. apply bind_Some in H as ([packet st] & _ & H).
  apply bind_Some in H as (text & _ & H). apply bind_Some in H as (bs & _ & H). destruct (negb _); [by injection H as <- <- <-|].
  apply bind_Some in H as ([] & _ & [= <- <- <-]); [|done]. apply rtc_once. cbn. eauto.
Qed.

Section Steps.
Context (T : QVPNVerboser.tables).
Context (arrange : list (Z * PacketBuilder.t) -> list (Z * PacketBuilder.t)).

Lemma request_object_steps s c socks m b e w f sent s' socks' :
  request_object T arrange s c socks m b e w = Some (f, sent, s', socks') ->
  rtc (table_step c) (response_sockets_ s, socks) (response_sockets_ s', socks').
Proof.
  intros H. unfold request_object in H. apply bind_Some in H as ([[dd|] d] & _ & H);
    [|by injection H as <- <- <- <-].
  apply bind_Some in H as (px & _ & H). apply bind_Some in H as (px' & _ & H).
  destruct (connect_if_not_to_server _ _ _ _ _) as [[s1 key] socks1] eqn:E.
  pose proof (connect_steps _ _ _ _ _ _ _ _ E) as R. cbn [with_driver response_sockets_] in R.
  cbn in H. destruct (socks1 !! key) as [server_socket|] eqn:Hk; [|by injection H as <- <- <- <-].
  apply bind_Some in H as ([[f1 sent1] s2] & Hf & [= <- <- <- <-]).
  etrans; [exact R|]. eapply forward_steps; [exact Hk|exact Hf].
Qed.

Lemma request_objects_steps c rd ws : forall s socks i status sent s' socks',
  request_objects T arrange s c socks rd i ws = Some (status, sent, s', socks') ->
  rtc (table_step c) (response_sockets_ s, socks) (response_sockets_ s', socks').
Proof.
  induction ws as [|w ws IH]; intros s socks i status sent s' socks' H; cbn [request_objects] in H;
    [by injection H as <- <- <- <-|].
  apply bind_Some in H as ([b e] & _ & H).
  apply bind_Some in H as ([[[f sent1] s1] socks1] & H1 & H). apply request_object_steps in H1.
  destruct f; [|by injection H as <- <- <- <-].
  apply bind_Some in H as ([[[st sent2] s2] socks2] & H2 & [= <- <- <- <-]).
  etrans; [exact H1|]. by eapply IH.
Qed.

Lemma iteration_steps s c socks rd worlds status sent s' socks' :
  vpn_request_loop_iteration T arrange s c socks rd worlds = Some (status, sent, s', socks') ->
  rtc (table_step c) (response_sockets_ s, socks) (response_sockets_ s', socks').
Proof.
  unfold vpn_request_loop_iteration. case_match; [by intros [= <- <- <- <-]|]. apply request_objects_steps.
Qed.

Lemma process_steps c received : forall s socks sent s' rest,
  process_socket_ T arrange s c socks received = Some (sent, s', rest) ->
  exists socks', rtc (table_step c) (response_sockets_ s, socks) (response_sockets_ s', socks') /\
    (rest = Some socks' \/ rest = None).
Proof.
  induction received as [|[rd ws] received IH]; intros s socks sent s' rest H; cbn [process_socket_] in H.
  - injection H as <- <- <-. eauto.
  - apply bind_Some in H as ([[[status sent1] s1] socks1] & H1 & H). apply iteration_steps in H1.
    destruct status.
    + apply bind_Some in H as ([[sent2 s2] rest2] & H2 & [= <- <- <-]).
      destruct (IH _ _ _ _ _ H2) as (socks' & R & Hr). exists socks'. split; [by etrans|done].
    + injection H as <- <- <-. eauto.
Qed.

End Steps.

(** A connection whose responses are dropped while the client still has its socket. *)
Definition forgotten (key : QVPNServerSocketData.t) (st : response_map * sock_map) : Prop :=
  st.1 !! key = None /\ is_Some (st.2 !! key).

Lemma forgotten_step c key st st' : table_step c st st' -> forgotten key st -> forgotten key st'.
Proof.
  unfold forgotten. intros [responses socks k fresh Hk|responses socks k Hk] [Hr Hs]; cbn in *.
  - assert (k <> key) by (intros ->; by rewrite Hk in Hs; destruct Hs). split.
    + destruct (responses !! k); [done|]. by apply lookup_insert_None.
    + by apply lookup_insert_is_Some'; right.
  - split; [|done]. by apply lookup_delete_None; right.
Qed.

Lemma rtc_keeps {A} (R : relation A) (P : A -> Prop) x y :
  (forall x y, R x y -> P x -> P y) -> rtc R x y -> P x -> P y.
Proof. intros H. induction 1; eauto. Qed.

(** C17: Once a packet has reset a connection, its responses are never awaited again: the
    server drops the entry of the connection but the client's table keeps its socket, so
    whatever packets of the client follow, for a new connection with the same
    endpoints too, the entry stays absent as long as the client's loop runs, and a pass of
    the response loop over this key does nothing. *)
Theorem reset_connection_never_answers T arrange `{K : Socket} s c socks key server_socket received sent s' rest :
  socks !! key = Some server_socket ->
  process_socket_ T arrange (drop_response_socket_ s key) c socks received = Some (sent, s', rest) ->
  response_sockets_ s' !! key = None /\
  forall (sockets : client -> socket) receive,
    listen_response_sockets_ T s' sockets receive [key] = Some (s', sockets).
Proof.
  intros Hk H. destruct (process_steps T arrange c received _ _ _ _ _ H) as (socks' & R & _).
  assert (F : forgotten key (response_sockets_ s', socks')).
  { refine (rtc_keeps _ (forgotten key) _ _ (forgotten_step c key) R _). split; [by apply lookup_delete_None; left|by exists server_socket]. }
  destruct F as [F _]. change (response_sockets_ s' !! key = None) in F. split; [done|].
  intros sockets receive. cbn [listen_response_sockets_]. by rewrite F.
Qed.

(** * Several clients *)

(** The server and the tables of the clients whose loops run.  An iteration of a loop is
    one step; the table of a client is gone when its loop ends, which closes its descriptor.
    Clients have the number under which they were accepted as their name, which no code
    looks at; [descriptor] is what an entry of the table of responses has of its client. *)
Record system := mk_system {
  server : t;
  clients : client -> option sock_map;
  next_client : nat;
  descriptor : client -> Z }.

Definition set_client {A} (f : client -> A) (c : client) (a : A) : client -> A :=
  fun d => if decide (d = c) then a else f d.

Section System.
Context (T : QVPNVerboser.tables).
Context (arrange : list (Z * PacketBuilder.t) -> list (Z * PacketBuilder.t)) `{Socket}.

(** [accept] answers a descriptor that is not open, so no running client has it; the entries of
    clients that have gone may. *)
Inductive system_step : system -> system -> Prop :=
  | step_accept s clients n descriptor fd :
      (forall d, is_Some (clients d) -> descriptor d <> fd) ->
      system_step (mk_system s clients n descriptor)
        (mk_system s (set_client clients n (Some ∅)) (S n) (set_client descriptor n fd))
  | step_request s clients n descriptor c socks rd worlds status sent s' socks' :
      clients c = Some socks ->
      vpn_request_loop_iteration T arrange s c socks rd worlds = Some (status, sent, s', socks') ->
      system_step (mk_system s clients n descriptor)
        (mk_system s' (set_client clients c (if status : bool then Some socks' else None)) n descriptor)
  | step_response s clients n descriptor key c r sk m begin_ end_ s' sk' :
      response_sockets_ s !! key = Some (c, r) ->
      vpn_response_loop_iteration T s sk key m begin_ end_ = Some (s', sk') ->
      system_step (mk_system s clients n descriptor) (mk_system s' clients n descriptor).

(** A server that has not accepted anybody. *)
Definition started (s : t) (descriptor : client -> Z) : system := mk_system s (fun _ => None) 0 descriptor.

(** Responses for a running client are awaited on the socket its requests go out on. *)
Definition owns (responses : response_map) (c : client) (socks : sock_map) : Prop :=
  forall key r, responses !! key = Some (c, r) -> socks !! key = Some r.

(** Only accepted clients run or have entries, running ones have descriptors of their own, and
    the tables agree. *)
Record consistent (sys : system) : Prop := {
  names_entries : forall key c r, response_sockets_ (server sys) !! key = Some (c, r) -> (c < next_client sys)%nat;
  names_clients : forall c, is_Some (clients sys c) -> (c < next_client sys)%nat;
  own_descriptors : forall c d, is_Some (clients sys c) -> is_Some (clients sys d) ->
    descriptor sys c = descriptor sys d -> c = d;
  own_tables : forall c socks, clients sys c = Some socks -> owns (response_sockets_ (server sys)) c socks }.

Lemma owns_step c st st' : table_step c st st' -> owns st.1 c st.2 -> owns st'.1 c st'.2.
Proof.
  intros [responses socks key fresh Hk|responses socks key Hk] Ho k r Hr; cbn in *.
  - destruct (responses !! key) as [[d r']|] eqn:E.
    + assert (k <> key) by (intros ->; apply Ho in Hr; by rewrite Hr in Hk).
      apply lookup_insert_Some. right. split; [done|by apply Ho].
    + apply lookup_insert_Some in Hr as [[-> [= ->]]|[Hne Hr]]; apply lookup_insert_Some; [by left|].
      right. split; [done|by apply Ho].
  - apply lookup_delete_Some in Hr as [_ Hr]. by apply Ho.
Qed.

(** A client's steps leave the entries of another alone, or drop them. *)
Definition others (c : client) (st st' : response_map * sock_map) : Prop :=
  forall key d r, d <> c -> st'.1 !! key = Some (d, r) -> st.1 !! key = Some (d, r).

Lemma others_steps c st st' : rtc (table_step c) st st' -> others c st st'.
Proof.
  induction 1 as [|x y z Hxy _ IH]; [by intros key d r _ ?|]. intros key d r Hd Hr. apply IH in Hr; [|done].
  destruct Hxy as [responses socks k fresh Hk|responses socks k Hk]; cbn in *.
  - destruct (responses !! k); [done|]. by apply lookup_insert_Some in Hr as [[_ [= <- _]]|[_ ?]].
  - by apply lookup_delete_Some in Hr as [_ ?].
Qed.

Lemma response_tables s sk key m begin_ end_ s' sk' :
  vpn_response_loop_iteration T s sk key m begin_ end_ = Some (s', sk') ->
  exists reset, response_sockets_ s' = responses_after reset key (response_sockets_ s).
Proof.
  intros Hi. unfold vpn_response_loop_iteration in Hi.
  apply bind_Some in Hi as (response & _ & Hi). apply bind_Some in Hi as (text & _ & Hi).
  apply bind_Some in Hi as ([px [db de]] & _ & Hi).
  apply bind_Some in Hi as ([d sk1] & _ & Hi). apply bind_Some in Hi as (reset & _ & Hi). exists reset.
  by destruct reset; injection Hi as <- <-.
Qed.

(** An entry is the one it was, or the client's that made the steps. *)
Lemma entries_steps c st st' key d r :
  rtc (table_step c) st st' -> st'.1 !! key = Some (d, r) -> d = c \/ st.1 !! key = Some (d, r).
Proof.
  intros R Hk. destruct (decide (d = c)) as [->|Hd]; [by left|]. right. by apply (others_steps c _ _ R).
Qed.

Lemma step_consistent sys sys' : system_step sys sys' -> consistent sys -> consistent sys'.
Proof.
  intros [s cl n fd0 fd Hfd|s cl n fd c socks rd worlds status sent s' socks' Hc Hi
    |s cl n fd key c r sk m b e s' sk' Hr Hi] [N1 N2 D O]; cbn in *.
  - split; cbn; unfold set_client.
    + intros key c r Hk. apply N1 in Hk. lia.
    + intros c. case_decide; [lia|]. intros Hc%N2. lia.
    + intros c d. repeat case_decide; subst; try done; [|intros Hc _ E; by apply Hfd in Hc|by apply D].
      intros _ Hd E. by apply Hfd in Hd.
    + intros c socks. case_decide; [|by apply O]. intros [= <-] key r Hk%N1. lia.
  - apply iteration_steps in Hi.
    assert (R : forall d, is_Some (set_client cl c (if status then Some socks' else None) d) -> is_Some (cl d)).
    { intros d. unfold set_client. case_decide; [intros _; subst d; by rewrite Hc|done]. }
    split; cbn.
    + intros key d r Hk. destruct (entries_steps c _ _ key d r Hi Hk) as [-> |Hk']; [apply N2; by rewrite Hc|].
      by apply N1 in Hk'.
    + intros d Hd. by apply N2, R.
    + intros d1 d2 H1 H2. by apply D; apply R.
    + intros d socks0 Hd. unfold set_client in Hd. case_decide as E.
      * subst d. destruct status; [injection Hd as <-|done].
        refine (rtc_keeps _ (fun st => owns st.1 c st.2) _ _ (owns_step c) Hi _). by apply O.
      * intros key r Hk. apply (O d socks0 Hd). by apply (others_steps c _ _ Hi key d r E).
  - destruct (response_tables _ _ _ _ _ _ _ _ Hi) as [reset E].
    assert (R : forall k v, response_sockets_ s' !! k = Some v -> response_sockets_ s !! k = Some v).
    { intros k v. rewrite E. destruct reset; [|done]. unfold responses_after. by intros [_ ?]%lookup_delete_Some. }
    split; cbn; [|done|done|].
    + intros k d r' Hk%R. by apply N1 in Hk.
    + intros d socks0 Hd k r' Hk%R. by apply (O d socks0 Hd).
Qed.

(** C13: However the loops of the clients and of the responses take turns, and whatever
    descriptors [accept] reuses, an entry of the table of responses that has the descriptor of a
    running client is either that client's own, and then the responses are awaited on the raw
    socket that the client's table has for the connection, or it was left behind by a client
    whose loop has ended. *)
Theorem tables_consistent s fd sys key c r d socks :
  response_sockets_ s = ∅ -> rtc system_step (started s fd) sys ->
  response_sockets_ (server sys) !! key = Some (c, r) -> clients sys d = Some socks ->
  descriptor sys c = descriptor sys d ->
  (c = d /\ socks !! key = Some r) \/ (c <> d /\ clients sys c = None).
Proof.
  intros He R Hk Hd E.
  assert (C : consistent sys).
  { refine (rtc_keeps _ consistent _ _ step_consistent R _).
    split; cbn; [by rewrite He|intros ? [? [=]]|intros ? ? [? [=]]|done]. }
  destruct (clients sys c) as [socks'|] eqn:Ec; [left|right].
  - assert (c = d) as -> by (apply (own_descriptors sys C); [by rewrite Ec|by rewrite Hd|done]).
    split; [done|]. by apply (own_tables sys C d).
  - split; [|done]. intros ->. by rewrite Hd in Ec.
Qed.

End System.

(** * Examples *)

(** A TCP packet from 10.0.0.2 to 8.8.8.8, a raw socket at 192.0.2.7 and a server. *)
Definition example_net : mem := [69; 0; 0; 43; 0; 1; 64; 0; 64; 6; 0; 0; 10; 0; 0; 2; 8; 8; 8; 8].
Definition example_world : world := mk_world (mk_attempt 3%nat true true true [192; 0; 2; 7]) true.
Definition example_server : t :=
  mk (TunnelDriver.mk default_layers QVPNPacketManager.initial) (IPv4DefaultGenStrategy.mk 0) ∅.

Lemma example_packet : tcp_packet example_net (repeat 80 20).
Proof.
  split; [concrete|]. split; [split; [vm_compute; discriminate|exists 69; by split]|].
  split; [reflexivity|]. split; [reflexivity|]. split; [reflexivity|]. split; [concrete|].
  split; [vm_compute; discriminate|exists 80; by split].
Qed.

Lemma example_options : options_wf (repeat 80 20).
Proof. by exists []. Qed.


Lemma example_ready : server_ready example_server 0.
Proof. exists QVPNPacketManager.initial. split; [done|]. split; [split; [apply initial_wf|done]|done]. Qed.

Lemma tcp_request_forwarded_witness :
  exists part rd packet s' socks',
    SafeReceiveData.safe_recv 1 [mkReceive (mkStatus true 0) (msize part) part] =
      SafeReceiveData.Returned rd [] /\
    vpn_request_loop_iteration QVPNVerboser.initial_tables (fun l => l) example_server 1%nat ∅ rd (fun _ => example_world) =
      Some (true, [(3%nat, packet)], s', socks').
Proof.
  destruct (tcp_request_forwarded QVPNVerboser.initial_tables (fun l => l) (fun l => Permutation_refl l) [0] example_net (repeat 80 20)
    [1; 2; 3] QVPNPacketManager.initial example_server false example_packet example_options)
    as (px & part & d' & _ & _ & Hne & R);
    [concrete|reflexivity|reflexivity|concrete|exact example_ready|concrete|reflexivity|].
  destruct (R [mkReceive (mkStatus true 0) (msize part) part] [] 0 0%nat 1%nat ∅ (fun _ => example_world))
    as (rd & packet & s' & H1 & H2 & _);
    [apply feeds_last; [reflexivity|apply range_full|exact Hne]|lia| |reflexivity|concrete|reflexivity|].
  - split; [reflexivity|split; [reflexivity|reflexivity]].
  - exists part, rd, packet, s'. eexists. split; [exact H1|exact H2].
Defined.

(** A socket that keeps what it is given. *)
Definition example_socket : Socket :=
  {| socket := mem; sock_send s m := (true, s ++ m); sock_reconnect s := (true, s) |}.

Definition example_key : QVPNServerSocketData.t :=
  QVPNServerSocketData.mk IPv4 TCP [10; 0; 0; 2] [192; 0; 2; 7] 50000 [8; 8; 8; 8] 443.


(** The record of the client's packet, as [safe_recv] returns it. *)
Definition example_received : SafeReceiveData.t :=
  let px := QTunnelProxy.mk IPv4 TCP [10; 0; 0; 2] 50000 [8; 8; 8; 8] 443
    [0; 15; 80; 80; 80; 80; 80; 80; 80; 80; 0; 80; 5; 80; 80; 80; 80] in
  let x := proxy_bytes px ++ [1; 2; 3] in
  let part := QLayer.record (frame 0 0 (msize x) x) in
  SafeReceiveData.mk (mkStatus true 0) [(0, msize part)] part.
(** The client sends on with the socket it has, and no response is awaited. *)
Lemma reset_connection_never_answers_witness :
  exists sent s' socks',
    process_socket_ QVPNVerboser.initial_tables (fun l => l) (drop_response_socket_ example_server example_key) 1%nat
      {[example_key := 3%nat]} [(example_received, fun _ => example_world)] = Some (sent, s', Some socks') /\
    map fst sent = [3%nat] /\ response_sockets_ s' !! example_key = None.
Proof.
  assert (T : match process_socket_ QVPNVerboser.initial_tables (fun l => l) (drop_response_socket_ example_server example_key) 1%nat
    {[example_key := 3%nat]} [(example_received, fun _ => example_world)] with
    | Some (sent, _, Some _) => map fst sent | _ => [] end = [3%nat]) by reflexivity.
  destruct (process_socket_ QVPNVerboser.initial_tables (fun l => l) (drop_response_socket_ example_server example_key) 1%nat
    {[example_key := 3%nat]} [(example_received, fun _ => example_world)]) as [[[sent s'] [socks'|]]|] eqn:E;
    [|discriminate T..].
  exists sent, s', socks'. split; [reflexivity|]. split; [exact T|].
  refine (proj1 (@reset_connection_never_answers QVPNVerboser.initial_tables (fun l => l) example_socket example_server 1%nat
      {[example_key := 3%nat]} example_key 3%nat _ sent s' (Some socks') _ E)). by apply lookup_singleton_eq.
Defined.

(** A server accepts a client, the client opens a connection and then leaves because no raw
    socket opens for its next packet, and another client is accepted that gets its
    descriptor: the entry of the first one stays. *)
Definition failing_world : world := mk_world (mk_attempt 0%nat false false false []) false.
Definition example_iteration (w : world) (s : t) (socks : sock_map) :
    option (bool * list (raw * mem) * t * sock_map) :=
  vpn_request_loop_iteration QVPNVerboser.initial_tables (fun l => l) s 0%nat socks example_received (fun _ => w).

Lemma example_run :
  exists sys, rtc (@system_step QVPNVerboser.initial_tables (fun l => l) example_socket)
      (started example_server (fun _ => 7)) sys /\
    response_sockets_ (server sys) !! example_key = Some (0%nat, 3%nat) /\
    clients sys 1%nat = Some ∅ /\ descriptor sys 0%nat = 4 /\ descriptor sys 1%nat = 4.
Proof.
  assert (T : match example_iteration example_world example_server ∅ with
    | Some (true, _, s1, socks1) =>
        match example_iteration failing_world s1 socks1 with
        | Some (false, _, s2, _) => response_sockets_ s2 !! example_key
        | _ => None
        end
    | _ => None
    end = Some (0%nat, 3%nat)) by reflexivity.
  destruct (example_iteration example_world example_server ∅) as [[[[[] sent1] s1] socks1]|] eqn:E1;
    [|discriminate T|discriminate T].
  destruct (example_iteration failing_world s1 socks1) as [[[[[] sent2] s2] socks2]|] eqn:E2;
    [discriminate T| |discriminate T].
  eexists. split.
  { eapply rtc_l; [apply (step_accept _ _ _ _ _ _ 4); intros d Hd; by destruct Hd|].
    eapply rtc_l; [eapply step_request with (c := 0%nat); [reflexivity|exact E1]|].
    eapply rtc_l; [eapply step_request with (c := 0%nat); [reflexivity|exact E2]|].
    apply rtc_once. apply (step_accept _ _ _ _ _ _ 4). intros d. unfold set_client.
    repeat case_decide; intros Hd; by destruct Hd. }
  split_and!; [exact T|done|done|done].
Qed.

Lemma tables_consistent_witness :
  exists sys, rtc (@system_step QVPNVerboser.initial_tables (fun l => l) example_socket)
      (started example_server (fun _ => 7)) sys /\
    response_sockets_ (server sys) !! example_key = Some (0%nat, 3%nat) /\
    clients sys 1%nat = Some ∅ /\ descriptor sys 0%nat = descriptor sys 1%nat /\ clients sys 0%nat = None.
Proof.
  destruct example_run as (sys & R & Hk & Hd & D0 & D1).
  destruct (tables_consistent QVPNVerboser.initial_tables (fun l => l) example_server (fun _ => 7) sys
    example_key 0%nat 3%nat 1%nat ∅ eq_refl R Hk Hd (eq_trans D0 (eq_sym D1))) as [[E _]|[_ Hc]];
    [discriminate E|].
  exists sys. split_and!; [exact R|exact Hk|exact Hd|by rewrite D0, D1|exact Hc].
Defined.

(** A connection with the same addresses and ports already awaited for another client: the
    second client's packets go out on a socket of its own, its responses to the first. *)
Example second_client_unanswered :
  let s := with_responses example_server {[example_key := (2%nat, 7%nat)]} in
  match vpn_request_loop_iteration QVPNVerboser.initial_tables (fun l => l) s 1%nat ∅ example_received (fun _ => example_world) with
  | Some (true, [(r, _)], s', socks') => Some (r, socks' !! example_key, response_sockets_ s' !! example_key)
  | _ => None
  end = Some (3%nat, Some 3%nat, Some (2%nat, 7%nat)).
Proof. reflexivity. Qed.

Lemma zero_length_option_stops_responses_witness :
  let t := repeat 80 12 ++ [96; 16] ++ repeat 0 6 ++ [2; 0; 0; 0] in
  let s := with_responses example_server {[example_key := (2%nat, 7%nat)]} in
  @listen_response_sockets_ QVPNVerboser.initial_tables example_socket s (fun _ => [])
    (fun _ => Some (packet_in [] [] example_net t [1; 2])) [example_key] = None.
Proof.
  intros t s.
  apply (@zero_length_option_stops_responses QVPNVerboser.initial_tables example_socket s (fun _ => [])
    (fun _ => Some (packet_in [] [] example_net t [1; 2])) example_key 2%nat 7%nat [] example_net t [1; 2]);
    [|apply stuck_here; [reflexivity|reflexivity]|reflexivity|reflexivity].
  destruct example_packet as (P1 & P2 & P3 & P4 & P5 & _). split; [exact P1|split; [exact P2|split; [exact P3|
    split; [exact P4|split; [exact P5|split; [concrete|split; [vm_compute; discriminate|exists 96; by split]]]]]]].
Defined.
