(* ===== verification/Dummies.v ===== *)
(** The packets that stand for a protocol the program does not know: [DummyNetPacket],
    [DummyTransportPacket], [DummyDataPacket], and the dummy specialisations of [FullPacket] and
    [NoNetPacket] (src/QVPN/QVPN Lib/include/qvpn_structures.hpp,
    src/QVPN/QVPN Lib/src/qvpn_structures.cpp).

    They have no state, so a method that changes nothing is the identity of [unit]; a range of two
    null pointers is [(0, 0)].  [dummy_visited] shows that the visitors of [PacketPreParser]
    answer for a dummy packet what these methods answer. *)
From S2P Require Import Prelude Addr Transport QTunnel PacketView Print SocketFilter Forward Client Server.

Definition dummy_text : string := "This is dummy packet. If you see this, you did something wrong.".
Definition null_range : Z * Z := (0, 0).

Module DummyNetPacket.
Definition t : Type := unit.
Definition make : t := tt.
Definition of_range (m : mem) (begin_ end_ : Z) : t := tt.
Definition get_size (p : t) : Z := 0.
Definition get_src_addr (p : t) : list Z := NetAddr.default.
Definition get_dst_addr (p : t) : list Z := NetAddr.default.
Definition to_net_bytes (p : t) : Z * Z := null_range.
Definition set_src_addr (p : t) (src : list Z) : t := p.
Definition set_dst_addr (p : t) (dst : list Z) : t := p.
Definition get_protocol_version (p : t) : Z := NET_UNDEFINED.
Definition get_transport_protocol (p : t) : Z := TRANSPORT_UNDEFINED.
Definition recalculate_ip_checksum (p : t) : t := p.
Definition to_net_friendly_view (p : t) : string := dummy_text.
Definition set_data (p : t) (m : mem) (begin_ end_ : Z) : t := p.
Definition to_bytes (p : t) : Z * Z := null_range.
Definition to_object (p : t) : t := make.
Definition to_view (p : t) : t := make.
Definition to_net_object (p : t) : t := make.
Definition to_net_view (p : t) : t := make.
End DummyNetPacket.

Module DummyTransportPacket.
Definition t : Type := unit.
Definition make : t := tt.
Definition of_range (m : mem) (begin_ end_ : Z) : t := tt.
Definition get_src_port (p : t) : Z := 0.
Definition get_dst_port (p : t) : Z := 0.
Definition get_transport_length (p : t) : Z := 0.
Definition to_transport_bytes (p : t) : Z * Z := null_range.
Definition set_dst_port (p : t) (port : Z) : t := p.
Definition set_src_port (p : t) (port : Z) : t := p.
Definition set_transport_length (p : t) (length : Z) : t := p.
Definition recalculate_transport_checksum (p : t) (pseudo_header m : mem) (begin_ end_ : Z) : t := p.
Definition set_transport_checksum (p : t) (checksum : Z) : t := p.
Definition get_size (p : t) : Z := 0.
Definition get_sender_number (p : t) : Z := 0.
Definition get_receiver_number (p : t) : Z := 0.
Definition get_flags (p : t) : Z := 0.
Definition is_reset_connection_packet (p : t) : bool := false.
Definition set_sender_number (p : t) (number : Z) : t := p.
Definition set_receiver_number (p : t) (number : Z) : t := p.
Definition set_flags (p : t) (flags : Z) : t := p.
Definition to_transport_friendly_view (p : t) : string := dummy_text.
Definition set_data (p : t) (m : mem) (begin_ end_ : Z) : t := p.
Definition to_bytes (p : t) : Z * Z := null_range.
Definition to_object (p : t) : t := make.
Definition to_view (p : t) : t := make.
Definition to_transport_object (p : t) : t := make.
Definition to_transport_view (p : t) : t := make.
End DummyTransportPacket.

(** Its [ObjectType] and [ViewType] are those of [DummyTransportPacket]. *)
Module DummyDataPacket.
Definition t : Type := unit.
Definition make : t := tt.
Definition of_range (m : mem) (begin_ end_ : Z) : t := tt.
Definition get_payload (p : t) : Z * Z := null_range.
Definition set_payload (p : t) (m : mem) (begin_ end_ : Z) : t := p.
Definition set_data (p : t) (m : mem) (begin_ end_ : Z) : t := p.
Definition to_data_friendly_view (p : t) : string := dummy_text.
Definition to_data_bytes (p : t) : Z * Z := null_range.
Definition to_bytes (p : t) : Z * Z := null_range.
Definition get_size (p : t) : Z := 0.
Definition to_object (p : t) : DummyTransportPacket.t := DummyTransportPacket.make.
Definition to_view (p : t) : DummyTransportPacket.t := DummyTransportPacket.make.
Definition to_data_object (p : t) : DummyTransportPacket.t := DummyTransportPacket.make.
Definition to_data_view (p : t) : DummyTransportPacket.t := DummyTransportPacket.make.
End DummyDataPacket.

(** [FullPacket<DummyNetPacket, DummyTransportPacket, DummyDataPacket, OBJECT>]. *)
Module DummyFullPacket.
Record t := mk { net : DummyNetPacket.t; transport : DummyTransportPacket.t; payload : DummyDataPacket.t }.
Definition make : t := mk DummyNetPacket.make DummyTransportPacket.make DummyDataPacket.make.
Definition of_bytes (m : mem) (begin_ end_ : Z) : t := make.
Definition of_parts (mn : mem) (net_begin net_end : Z) (mt : mem) (t_begin t_end : Z)
    (md : mem) (data_begin data_end : Z) : t :=
  mk (DummyNetPacket.of_range mn net_begin net_end) (DummyTransportPacket.of_range mt t_begin t_end)
    (DummyDataPacket.of_range md data_begin data_end).
Definition bytes (p : t) : Z * Z := null_range.
Definition get_full_packet_length (p : t) : Z := 0.
Definition recalculate_checksums (p : t) : t := p.
Definition recalculate_lengths (p : t) : t := p.
Definition new_packet_by_this (p : t) (proxy_data : QTunnelProxy.t) (m : mem) (begin_ end_ : Z) : t := make.
Definition collect_proto_data (p : t) : QTunnelProtoData.t := QTunnelProtoData.empty.
Definition new_packet_bytes_by_this (p : t) (proxy_data : QTunnelProxy.t) (m : mem) (begin_ end_ : Z) : mem := [].
Definition set_qtunnel_proto_data (p : t) (m : mem) (begin_ end_ : Z) : t := p.
Definition to_packet_friendly_view (p : t) : string := DummyFullPacket_to_packet_friendly_view.
End DummyFullPacket.

(** [NoNetPacket<DummyTransportPacket, DummyDataPacket, OBJECT>]. *)
Module NoNetDummyPacketObject.
Record t := mk { transport : DummyTransportPacket.t; payload : DummyDataPacket.t }.
Definition of_bytes (m : mem) (begin_ end_ : Z) : t := mk DummyTransportPacket.make DummyDataPacket.make.
Definition of_parts (mt : mem) (transport_begin transport_end : Z) (m : mem) (begin_ end_ : Z) : t :=
  mk DummyTransportPacket.make DummyDataPacket.make.
Definition bytes (p : t) : Z * Z := null_range.
Definition recalculate_checksums (p : t) (src dst : list Z) (length : Z) : t := p.
Definition new_packet_by_payload (p : t) (src dst : list Z) (length : Z) (m : mem) (begin_ end_ : Z) : t :=
  of_bytes m begin_ end_.
Definition recalculate_lengths (p : t) : t := p.
Definition new_packet_by_this (p : t) (proxy_data : QTunnelProxy.t) (m : mem) (begin_ end_ : Z) : t :=
  of_bytes m begin_ end_.
Definition new_packet_bytes_by_this (p : t) (proxy_data : QTunnelProxy.t) (m : mem) (begin_ end_ : Z) : mem := [].
Definition set_seq_ack_flags (p : t) (seq ack flags : Z) : t := p.
Definition to_packet_friendly_view (p : t) : string :=
  "This is a dummy packet. If you see this, you do something wrong." +:+ String (Ascii.ascii_of_nat 10) EmptyString.
End NoNetDummyPacketObject.

(** The visitors of the loops answer for a dummy packet as its methods do, whatever the buffer
    holds. *)
Lemma dummy_visited T m px md b e :
  let p := DummyFullPacket.of_bytes m b e in
  let n := DummyFullPacket.net p in
  let tr := DummyFullPacket.transport p in
  PacketPreParser.get_protocol_version m PacketPreParser.DummyPacket = Some (DummyNetPacket.get_protocol_version n) /\
  PacketPreParser.get_transport_protocol m PacketPreParser.DummyPacket = Some (DummyNetPacket.get_transport_protocol n) /\
  PacketPreParser.get_src_addr m PacketPreParser.DummyPacket = Some (DummyNetPacket.get_src_addr n) /\
  PacketPreParser.get_dst_addr m PacketPreParser.DummyPacket = Some (DummyNetPacket.get_dst_addr n) /\
  PacketPreParser.get_src_port m PacketPreParser.DummyPacket = Some (DummyTransportPacket.get_src_port tr) /\
  PacketPreParser.get_dst_port m PacketPreParser.DummyPacket = Some (DummyTransportPacket.get_dst_port tr) /\
  PacketPreParser.get_payload PacketPreParser.DummyPacket = DummyDataPacket.get_payload (DummyFullPacket.payload p) /\
  PacketPreParser.bytes PacketPreParser.DummyPacket = DummyFullPacket.bytes p /\
  PacketPreParser.collect_proto_data m PacketPreParser.DummyPacket = Some (DummyFullPacket.collect_proto_data p) /\
  PacketPreParser.new_packet_bytes_by_this m PacketPreParser.DummyPacket px md b e =
    Some (DummyFullPacket.new_packet_bytes_by_this p px md b e) /\
  PacketPreParser.to_packet_friendly_view T m PacketPreParser.DummyPacket =
    Some (DummyFullPacket.to_packet_friendly_view p) /\
  QVPNServer.is_reset m PacketPreParser.DummyPacket =
    Some (DummyTransportPacket.is_reset_connection_packet tr).
Proof. by split_and!. Qed.
