(* ===== verification/Connections.v ===== *)
(** The server's raw sockets: [connect_to_server_impl_], the constructor and the end of
    [process_socket_] of [QVPNServerDriver] (src/QVPN/QVPN Lib/include/qvpn_driver.hpp)
    over the sockets of the kernel.

    [Server] leaves open what opening a raw socket comes to: its steps take an [attempt].
    Here the attempt is made, with the system calls in the order of the code, and shown to be
    one; and the descriptors that the requests leave behind are counted. *)
From S2P Require Import Prelude Addr Transport SafeReceive SocketFilter Settings Ipv4 PacketManager QTunnel TlsHello Layers Driver Handshake Forward Sockets Server.

Module ServerConnections.
Import QVPNServerForward.

(** The value of [sys/socket.h]. *)
Definition SOMAXCONN : Z := 4096.

(** A connection's sockets. *)
Record PackedSocket := mk { shadow_socket : QVPN_Socket.t; raw_socket : QVPN_RawSocket.t }.

(** The name that [Server] gives to a raw socket is its descriptor. *)
Definition raw_id (s : QVPN_RawSocket.t) : nat := Z.to_nat (QVPN_Socket.socket_ s).
Definition raws (sock_map : gmap QVPNServerSocketData.t PackedSocket) :
    gmap QVPNServerSocketData.t nat := (fun p => raw_id (raw_socket p)) <$> sock_map.

Section Connect.
Context `{SysSockets}.
(** The indeterminate value of a filter before its constructor. *)
Context (init : filter_key.t).

Definition connect_to_server_impl_ (s : QVPNServer.t) (response_socket : nat)
    (key : QVPNServerSocketData.t) (sock_map : gmap QVPNServerSocketData.t PackedSocket) :
    io (QVPNServer.t * QVPNServerSocketData.t * gmap QVPNServerSocketData.t PackedSocket) :=
  let family := NetAddr.get_addr_family (QVPNServerSocketData.remote_addr key) in
  let proto := QVPNServerSocketData.transport_proto key in
  raw_socket ← QVPNNetTools.create_raw_socket family proto;
  shadow_socket ← QVPNNetTools.create_socket family proto;
  _ ← QVPN_RawSocket.apply_settings raw_socket (QVPNSocketSettings.mk true 1000000);
  if negb (QVPN_RawSocket.is_valid raw_socket) then mret (s, key, sock_map) else
  '((bind_res, raw_socket) : NetStatus * QVPN_RawSocket.t) ←
    QVPN_RawSocket.bind raw_socket NetAddr.default (QVPNServerSocketData.local_port key);
  if negb (success bind_res) then mret (s, key, sock_map) else
  '((res, raw_socket) : NetStatus * QVPN_RawSocket.t) ←
    QVPN_RawSocket.connect raw_socket (QVPNServerSocketData.remote_addr key)
      (QVPNServerSocketData.remote_port key);
  let key := set_server_local_addr key (QVPN_RawSocket.get_local_addr raw_socket) in
  match sock_map !! key with
  | Some _ => mret (s, key, sock_map)
  | None =>
      s_filter ← lift (QVPNNetTools.create_server_socket_filter init key);
      _ ← QVPN_RawSocket.filter raw_socket s_filter;
      if negb (success res) then mret (s, key, sock_map)
      else
        mret (QVPNServer.add_to_response_socket_map s response_socket (raw_id raw_socket) key, key,
              <[key := mk shadow_socket raw_socket]> sock_map)
  end.

(** The constructor's loop: the sockets that could be made and bound. *)
Fixpoint make_vpn_sockets (addrs : list QVPNConnectionEntity.t) : io (list QVPN_Socket.t) :=
  match addrs with
  | [] => mret []
  | i :: addrs =>
      sock ← QVPNNetTools.create_socket (QVPNConnectionEntity.get_net_proto i) (QVPNConnectionEntity.get_transport_proto i);
      if negb (QVPN_Socket.is_valid sock) then make_vpn_sockets addrs else
      '((b_res, sock) : NetStatus * QVPN_Socket.t) ←
        QVPN_Socket.bind sock (QVPNConnectionEntity.get_ip_address i) (QVPNConnectionEntity.get_port i);
      if negb (success b_res) then make_vpn_sockets addrs
      else rest ← make_vpn_sockets addrs; mret (sock :: rest)
  end.

(** The last lines of [process_socket_]. *)
Definition close_client (client_socket : QVPN_Socket.t) : io unit :=
  _ ← QVPN_Socket.shutdown client_socket;
  _ ← QVPN_Socket.close_socket client_socket;
  _ ← QVPN_Socket.disconnect client_socket;
  mret tt.

(** [listen] and [accept] of the accepting loop: [None] when [listen] fails. *)
Definition listen_and_accept (socket : QVPN_Socket.t) : io (option QVPN_Socket.t) :=
  res ← QVPN_Socket.listen socket SOMAXCONN;
  if success res then client_socket ← QVPN_Socket.accept socket; mret (Some client_socket)
  else mret None.

(** ** The loop of a client *)

Context (T : QVPNVerboser.tables).
Context (arrange : list (Z * PacketBuilder.t) -> list (Z * PacketBuilder.t)).

(** [safe_recv] with the calls of [receive] that it makes; [calls] is their number, which the
    network decides. *)
Fixpoint receives (calls : nat) (s : QVPN_Socket.t) : io (list ReceiveData) :=
  match calls with
  | O => mret []
  | S calls => rd ← QVPN_Socket.receive s 0; rest ← receives calls s; mret (rd :: rest)
  end.
Definition safe_recv (fuel calls : nat) (s : QVPN_Socket.t) : io SafeReceiveData.t :=
  rs ← receives calls s;
  lift (match SafeReceiveData.safe_recv fuel rs with
        | SafeReceiveData.Returned rd [] => Some rd
        | _ => None
        end).

(** The body of [vpn_request_loop_iteration] for one object, from the decoded packet on: the
    number is that of the objects whose raw socket was found. *)
Definition forward (s : QVPNServer.t) (key : QVPNServerSocketData.t) (original_proxy_data : QTunnelProxy.t)
    (payload : mem) (b e : Z) (server_socket : QVPN_RawSocket.t) : io (QVPNServer.flow * QVPNServer.t) :=
  '((packet, st) : FullPacketObjectType * IPv4DefaultGenStrategy.t) ←
    lift (generate_sender_packet (QVPNServer.ip4_strategy s) original_proxy_data key payload b e);
  let s := QVPNServer.with_strategy s st in
  _ ← lift (QVPNServer.to_packet_friendly_view T packet);
  res ← lift (packet_bytes packet);
  send_status ← QVPN_RawSocket.send server_socket res 0;
  if negb (success send_status) then mret (QVPNServer.Return true, s)
  else
    reset ← lift (QVPNServer.is_reset_connection_packet packet);
    if (reset : bool) then mret (QVPNServer.Return true, QVPNServer.drop_response_socket_ s key)
    else mret (QVPNServer.Next, s).

Definition request_object (s : QVPNServer.t) (client : nat) (sock_map : gmap QVPNServerSocketData.t PackedSocket)
    (m : mem) (data_b data_e : Z) :
    io (QVPNServer.flow * nat * QVPNServer.t * gmap QVPNServerSocketData.t PackedSocket) :=
  '((decoded_data, d) : option QTunnelData.t * TunnelDriver.t) ←
    lift (QVPNServerDriver.decode_data arrange (QVPNServer.driver_ s) m data_b data_e);
  let s := QVPNServer.with_driver s d in
  match decoded_data with
  | None => mret (QVPNServer.Return true, 0%nat, s, sock_map)
  | Some decoded_data =>
      original_proxy_data ← lift (QTunnelProxy.create (QTunnelData.proxy decoded_data));
      _ ← lift (QTunnelProxy.create_and_inverse_addrs (QTunnelData.proxy decoded_data));
      '((s, key, sock_map) : QVPNServer.t * QVPNServerSocketData.t * gmap QVPNServerSocketData.t PackedSocket) ←
        connect_to_server_impl_ s client (connection_key (QTunnelData.proxy decoded_data)) sock_map;
      let '(b, e) := QTunnelData.get_raw_data decoded_data in
      match sock_map !! key with
      | None => mret (QVPNServer.Return false, 0%nat, s, sock_map)
      | Some p =>
          '((f, s) : QVPNServer.flow * QVPNServer.t) ←
            forward s key original_proxy_data (QTunnelData.data_ decoded_data) b e (raw_socket p);
          mret (f, 1%nat, s, sock_map)
      end
  end.

(** The loop over the objects from the [i]-th on, of which there are [n]. *)
Fixpoint request_objects (s : QVPNServer.t) (client : nat) (sock_map : gmap QVPNServerSocketData.t PackedSocket)
    (rd : SafeReceiveData.t) (i n : nat) :
    io (bool * nat * QVPNServer.t * gmap QVPNServerSocketData.t PackedSocket) :=
  match n with
  | O => mret (true, 0%nat, s, sock_map)
  | S n =>
      '((b, e) : Z * Z) ← lift (SafeReceiveData.get_object_bytes rd i);
      '((f, found, s, sock_map) : QVPNServer.flow * nat * QVPNServer.t * gmap QVPNServerSocketData.t PackedSocket) ←
        request_object s client sock_map (SafeReceiveData.data rd) b e;
      match f with
      | QVPNServer.Return status => mret (status, found, s, sock_map)
      | QVPNServer.Next =>
          '((status, found', s, sock_map) : bool * nat * QVPNServer.t * gmap QVPNServerSocketData.t PackedSocket) ←
            request_objects s client sock_map rd (S i) n;
          mret (status, (found + found')%nat, s, sock_map)
      end
  end.

Definition vpn_request_loop_iteration (fuel calls : nat) (s : QVPNServer.t) (client : nat)
    (client_socket : QVPN_Socket.t) (sock_map : gmap QVPNServerSocketData.t PackedSocket) :
    io (bool * nat * QVPNServer.t * gmap QVPNServerSocketData.t PackedSocket) :=
  receive_data ← safe_recv fuel calls client_socket;
  if negb (success (SafeReceiveData.get_status receive_data)) then mret (true, 0%nat, s, sock_map)
  else request_objects s client sock_map receive_data 0
         (Z.to_nat (SafeReceiveData.get_objects_num receive_data)).

(** A turn of the loop in [process_socket_]; after the last one the client's socket is closed, and
    its table is gone. *)
Definition process_turn (fuel calls : nat) (s : QVPNServer.t) (client : nat) (client_socket : QVPN_Socket.t)
    (sock_map : gmap QVPNServerSocketData.t PackedSocket) :
    io (nat * QVPNServer.t * option (gmap QVPNServerSocketData.t PackedSocket)) :=
  '((status, found, s, sock_map) : bool * nat * QVPNServer.t * gmap QVPNServerSocketData.t PackedSocket) ←
    vpn_request_loop_iteration fuel calls s client client_socket sock_map;
  if (status : bool) then mret (found, s, Some sock_map)
  else _ ← close_client client_socket; mret (found, s, None).

End Connect.

(** The server's sockets as the authorization asks for them.  [receive] is defined when the
    kernel writes no more than it was allowed to; [reconnect] is not called by the server. *)
Section Accept.
Context `{SysSockets} `{Randomness}.

Definition server_socket : Socket := ClientSocket.linux_socket NetAddr.default 0.

Definition run_unit (m : io unit) (s : QVPN_Socket.t) (k : kernel) : QVPN_Socket.t * kernel :=
  match m k with Some (_, k) => (s, k) | None => (s, k) end.

#[local] Instance server_auth : AuthSocket (H := server_socket) := {|
  sock_receive := fun p : @socket server_socket => let '(s, k) := p in
    match QVPN_Socket.receive s 0 k with
    | Some (rd, k) => (rd, (s, k)) | None => (mkReceive (mkStatus false 0) (-1) [], (s, k)) end;
  sock_shutdown := fun p : @socket server_socket => let '(s, k) := p in
    run_unit (_ ← QVPN_Socket.shutdown s; mret tt) s k;
  sock_disconnect := fun p : @socket server_socket => let '(s, k) := p in
    run_unit (_ ← QVPN_Socket.disconnect s; mret tt) s k;
  sock_close := fun p : @socket server_socket => let '(s, k) := p in
    run_unit (QVPN_Socket.close_socket s) s k |}.

(** The body of [listen_response_sockets_] for the entry of a client's socket and a raw one. *)
Definition response_turn (T : QVPNVerboser.tables) (s : QVPNServer.t) (key : QVPNServerSocketData.t)
    (resp_sock : QVPN_Socket.t) (raw_socket : QVPN_RawSocket.t) : io QVPNServer.t :=
  rec_data ← QVPN_RawSocket.receive raw_socket 0;
  if success (rd_status rec_data) then
    (fun k =>
       match QVPNServer.vpn_response_loop_iteration (H := server_socket) T s ((resp_sock, k) : @socket server_socket)
               key (rd_data rec_data) 0 (rd_size rec_data) with
       | Some (s, (_, k)) => Some (s, k)
       | None => None
       end) : io QVPNServer.t
  else mret s.

(** An iteration of the accepting loop: nothing when [listen] fails, otherwise what became of
    the client and its socket. *)
Definition listen_iteration (check_user : mem -> bool) (d : draws) (listener : QVPN_Socket.t)
    (k : kernel) : option (option (ServerAuth.verdict * QVPN_Socket.t) * kernel) :=
  '((client_socket, k) : option QVPN_Socket.t * kernel) ← listen_and_accept listener k;
  match client_socket with
  | None => Some (None, k)
  | Some client_socket =>
      '((v, (client_socket, k)) : ServerAuth.verdict * (QVPN_Socket.t * kernel)) ←
        ServerAuth.accept_client (H0 := server_socket) check_user d ((client_socket, k) : @socket server_socket);
      Some (Some (v, client_socket), k)
  end.

End Accept.
End ServerConnections.

Import QVPNServerForward ServerConnections.

(** * What a request does to the descriptors *)

Section Requests.
Context {K : SysSockets} {L : SysLaws K}.
Context (init : filter_key.t).

(** The descriptors of [k] are still there in [k'], within the limit if they were before. *)
Definition grown (k k' : kernel) : Prop :=
  fds k ⊆ fds k' /\ ((size (fds k) <= limit)%nat -> (size (fds k') <= limit)%nat).

#[local] Instance grown_preorder : PreOrder grown.
Proof. split; [by intros k; split|]. intros k1 k2 k3 [S1 W1] [S2 W2]. split; [by etrans|auto]. Qed.

Lemma same_grown k k' : fds k' = fds k -> grown k k'.
Proof. unfold grown. by intros ->. Qed.

(** What a socket just made is, in the state after a few more calls. *)
Definition fresh_in (k0 k : kernel) (s : QVPN_Socket.t) : Prop :=
  QVPN_Socket.is_valid s = true ->
  (QVPN_Socket.socket_ s ∉ fds k0) /\ QVPN_Socket.socket_ s ∈ fds k /\ (size (fds k) <= limit)%nat.

Lemma fresh_grown k0 k k' s : fresh_in k0 k s -> grown k k' -> fresh_in k0 k' s.
Proof. intros Hf [Hs Hl] Hv. destruct (Hf Hv) as (? & ? & ?). split_and!; [done|by apply Hs|by apply Hl]. Qed.

Lemma create_raw_spec f p k :
  wp (QVPNNetTools.create_raw_socket f p) (fun s k' => grown k k' /\ fresh_in k k' s) k.
Proof.
  unfold QVPNNetTools.create_raw_socket. wp_step. eapply wp_mono; [apply create_spec|].
  intros s k1 (Hs & Hl & Hv). cbv beta. wp_step. eapply wp_mono; [apply settings_spec|].
  intros ? k2 E. cbv beta in E |- *. wp_step. split; [split|]; rewrite ?E; try done.
  intros V. rewrite E. auto.
Qed.

Lemma create_shadow_spec f p k : wp (QVPNNetTools.create_socket f p) (fun _ k' => grown k k') k.
Proof. eapply wp_mono; [apply create_spec|]. by intros s k' (? & ? & _). Qed.

Lemma to_uint_total addr : is_Some (NetAddr.to_uint addr).
Proof.
  unfold NetAddr.to_uint. destruct (_ =? IPv4) eqn:E; [|by eexists].
  apply Z.eqb_eq, family_size in E as [Ea _]. destruct (uint4 addr (Ea eq_refl)) as [a Ha]. by exists a.
Qed.

Lemma filter_total key : is_Some (QVPNNetTools.create_server_socket_filter init key).
Proof.
  unfold QVPNNetTools.create_server_socket_filter, QVPN_SocketFilter.make_server, QVPN_SocketFilter.of_connection.
  destruct (to_uint_total (QVPNServerSocketData.server_local_addr key)) as [a ->].
  destruct (to_uint_total (QVPNServerSocketData.remote_addr key)) as [b ->].
  destruct (_ =? _); by eexists.
Qed.

(** The keys of a table name a local address that a connected raw socket had, so none has the
    16 zero bytes that a key starts with. *)
Definition addressed (sock_map : gmap QVPNServerSocketData.t PackedSocket) : Prop :=
  forall key, is_Some (sock_map !! key) -> msize (QVPNServerSocketData.server_local_addr key) <> 16.

(** The attempt that a run makes: its parts are the results of the calls, in their order. *)
Definition attempted (key : QVPNServerSocketData.t) (k : kernel) (a : QVPNServer.attempt) : Prop :=
  let family := NetAddr.get_addr_family (QVPNServerSocketData.remote_addr key) in
  let proto := QVPNServerSocketData.transport_proto key in
  exists raw k1 shadow k2 u k3,
    QVPNNetTools.create_raw_socket family proto k = Some (raw, k1) /\
    QVPNNetTools.create_socket family proto k1 = Some (shadow, k2) /\
    QVPN_RawSocket.apply_settings raw (QVPNSocketSettings.mk true 1000000) k2 = Some (u, k3) /\
    QVPNServer.is_valid a = QVPN_RawSocket.is_valid raw /\
    (QVPNServer.is_valid a = true ->
     exists bind_res raw1 k4,
       QVPN_RawSocket.bind raw NetAddr.default (QVPNServerSocketData.local_port key) k3 =
         Some ((bind_res, raw1), k4) /\
       QVPNServer.bind_success a = success bind_res /\
       (QVPNServer.bind_success a = true ->
        exists res raw2 k5,
          QVPN_RawSocket.connect raw1 (QVPNServerSocketData.remote_addr key)
            (QVPNServerSocketData.remote_port key) k4 = Some ((res, raw2), k5) /\
          QVPNServer.connect_success a = success res /\ QVPNServer.new_socket a = raw_id raw2 /\
          QVPNServer.local_addr a = QVPN_RawSocket.get_local_addr raw2)).

(** The whole of [connect_to_server_impl_]: it is [connect_to_server_impl_] of [Server] for
    the attempt that was made; a valid raw socket has a descriptor that was not open
    before and stays open. *)
Lemma connect_to_server_spec s c key socks k :
  wp (connect_to_server_impl_ init s c key socks) (fun '(s', key', socks') k' =>
    exists a, attempted key k a /\
      QVPNServer.connect_to_server_impl_ s c key (raws socks) a = (s', key', raws socks') /\
      grown k k' /\
      (QVPNServer.is_valid a = true -> exists fd, (fd ∉ fds k) /\ fd ∈ fds k' /\ (size (fds k') <= limit)%nat) /\
      (addressed socks -> addressed socks')) k.
Proof.
  unfold connect_to_server_impl_. cbv zeta. wp_step. eapply wp_mono; [apply wp_eq, create_raw_spec|].
  intros raw k1 [R1 [G1 F1]]. cbv beta. wp_step. eapply wp_mono; [apply wp_eq, create_shadow_spec|].
  intros shadow k2 [R2 G2]. cbv beta. apply (fresh_grown k k1 k2) in F1; [|done].
  wp_step. eapply wp_mono; [apply wp_eq, settings_spec|]. intros u k3 [R3 E3%same_grown]. cbv beta.
  apply (fresh_grown k k2 k3) in F1; [|done].
  assert (G3 : grown k k3) by exact (transitivity G1 (transitivity G2 E3)). clear G1 G2 E3.
  unfold QVPN_RawSocket.is_valid. destruct (QVPN_Socket.is_valid raw) eqn:Ev; cbn [negb].
  2:{ wp_step. exists (QVPNServer.mk_attempt 0 false false false []). split_and!; try done.
      by exists raw, k1, shadow, k2, u, k3. }
  destruct (F1 Ev) as (Fn & Fi & Fl). clear F1.
  wp_step. eapply wp_mono; [apply wp_eq, bind_spec|]. intros [bind_res raw1] k4 [R4 [E4%same_grown _]]. cbv beta iota.
  assert (G4 : grown k3 k4) by exact E4. clear E4.
  destruct (success bind_res) eqn:Eb; cbn [negb].
  2:{ wp_step. exists (QVPNServer.mk_attempt 0 true false false []). split_and!; try done;
      [|by transitivity k3|].
      - exists raw, k1, shadow, k2, u, k3. split_and!; try done. intros _. by exists bind_res, raw1, k4.
      - intros _. exists (QVPN_Socket.socket_ raw). split_and!; [done|by apply G4|by apply G4]. }
  wp_step. eapply wp_mono; [apply wp_eq, connect_spec|]. intros [res raw2] k5 [R5 [E5%same_grown N5]]. cbv beta iota.
  assert (G5 : grown k3 k5) by exact (transitivity G4 E5). clear G4 E5.
  set (a := QVPNServer.mk_attempt (raw_id raw2) true true (success res) (QVPN_Socket.get_local_addr raw2)).
  assert (Hat : attempted key k a).
  { exists raw, k1, shadow, k2, u, k3. split_and!; try done. intros _. exists bind_res, raw1, k4.
    split_and!; try done. intros _. by exists res, raw2, k5. }
  clear R1 R2 R3 R4 R5.
  assert (Hfd : forall k', grown k3 k' -> grown k k' /\ (QVPNServer.is_valid a = true ->
    exists fd, (fd ∉ fds k) /\ fd ∈ fds k' /\ (size (fds k') <= limit)%nat)).
  { intros k' G. split; [exact (transitivity G3 G)|]. intros _. exists (QVPN_Socket.socket_ raw).
    split_and!; [done|by apply G|by apply G]. }
  change (QVPN_RawSocket.get_local_addr raw2) with (QVPN_Socket.get_local_addr raw2).
  set (key' := set_server_local_addr key (QVPN_Socket.get_local_addr raw2)).
  assert (Hl : raws socks !! key' = (fun p => raw_id (raw_socket p)) <$> socks !! key') by apply lookup_fmap.
  destruct (socks !! key') as [known|] eqn:Ek; cbn [fmap option_fmap option_map] in Hl.
  - wp_step. exists a. destruct (Hfd k5 G5) as [Hg Hn]. split_and!; try done.
    unfold QVPNServer.connect_to_server_impl_. cbn. fold key'. by rewrite Hl.
  - destruct (filter_total key') as [f Hf]. wp_step. eapply wp_lift; [exact Hf|]. wp_step.
    eapply wp_mono; [apply filter_spec|]. intros ? k6 G6. cbv beta. cbv beta in G6.
    destruct (Hfd k6 (transitivity G5 G6)) as [Hg Hn].
    destruct (success res) eqn:Es; cbn [negb]; wp_step; exists a; split_and!; try done;
      [| |unfold QVPNServer.connect_to_server_impl_; cbn; fold key'; by rewrite Hl].
    + unfold QVPNServer.connect_to_server_impl_. cbn. fold key'. rewrite Hl.
      unfold raws. by rewrite fmap_insert.
    + intros Ha key2 [p Hp]. destruct (decide (key' = key2)) as [<-|Hne].
      * destruct N5 as (_ & _ & _ & _ & Hsz). cbn. rewrite Hsz. unfold local_size. by case_match.
      * apply Ha. rewrite lookup_insert_ne in Hp by done. by eexists.
Qed.

(** C24: Opening a raw socket over the kernel is always defined, and it is the step of [Server]
    for the attempt that the calls make ([attempted]: whether the socket is valid, bound and
    connected, and its address, are what creating, binding and connecting answered, in this
    order): the tables of the server change as they do there, with a raw socket named by its
    descriptor.  No descriptor is closed. *)
Theorem connect_refines s c key socks k :
  exists s' key' socks' k' a,
    connect_to_server_impl_ init s c key socks k = Some ((s', key', socks'), k') /\
    attempted key k a /\
    QVPNServer.connect_to_server_impl_ s c key (raws socks) a = (s', key', raws socks') /\
    fds k ⊆ fds k'.
Proof.
  destruct (connect_to_server_spec s c key socks k) as ([[s' key'] socks'] & k' & E & a & Hat & Ha & [Hg _] & _).
  by exists s', key', socks', k', a.
Qed.

(** A key that was found is not the one the search began with, so there was a socket. *)
Lemma found_opened s c px socks k s' key' socks' k' :
  addressed socks ->
  connect_to_server_impl_ init s c (connection_key px) socks k = Some ((s', key', socks'), k') ->
  is_Some (socks' !! key') ->
  grown k k' /\ exists fd, (fd ∉ fds k) /\ fd ∈ fds k' /\ (size (fds k') <= limit)%nat.
Proof.
  intros Ha E Hs.
  destruct (wp_run _ _ _ _ _ (connect_to_server_spec s c (connection_key px) socks k) E)
    as (a & _ & Hc & Hg & Hv & _). split; [done|]. apply Hv.
  destruct (QVPNServer.is_valid a) eqn:Ev; [done|]. exfalso.
  unfold QVPNServer.connect_to_server_impl_ in Hc. rewrite Ev in Hc. cbn [negb] in Hc.
  injection Hc as <- <- Hr.
  assert (Hk : is_Some (raws socks !! connection_key px)).
  { rewrite Hr. unfold raws. rewrite lookup_fmap. destruct Hs as [p ->]. by eexists. }
  unfold raws in Hk. rewrite lookup_fmap in Hk. apply fmap_is_Some, Ha in Hk. by apply Hk.
Qed.

(** [n] descriptors at least are new, and the others are still there. *)
Definition counted (n : nat) (k k' : kernel) : Prop :=
  grown k k' /\ (n <= size (fds k' ∖ fds k))%nat /\ ((0 < n)%nat -> (size (fds k') <= limit)%nat).

Lemma counted_none k k' : grown k k' -> counted 0 k k'.
Proof. intros Hg. split_and!; [done|lia|lia]. Qed.

Lemma counted_same k k' : fds k' = fds k -> counted 0 k k'.
Proof. intros E. by apply counted_none, same_grown. Qed.

Lemma counted_trans n m k1 k2 k3 : counted n k1 k2 -> counted m k2 k3 -> counted (n + m) k1 k3.
Proof.
  intros (G1 & N1 & L1) (G2 & N2 & L2). pose proof G1 as [S1 _]. pose proof G2 as [S2 W2].
  split; [by transitivity k2|]. split.
  - assert (Hd : (fds k2 ∖ fds k1) ## (fds k3 ∖ fds k2)).
    { apply elem_of_disjoint. by intros x [Hx _]%elem_of_difference [_ ?]%elem_of_difference. }
    assert (Hs : (fds k2 ∖ fds k1) ∪ (fds k3 ∖ fds k2) ⊆ fds k3 ∖ fds k1).
    { intros x. rewrite elem_of_union, !elem_of_difference. intros [[? ?]|[? ?]]; auto. }
    apply subseteq_size in Hs. rewrite size_union in Hs by done. lia.
  - intros Hp. destruct (decide (0 < m)%nat); [by apply L2|]. apply W2, L1. lia.
Qed.

(** A search that finds the raw socket has opened one. *)
Lemma found_counted s c px socks k s' key' socks' k' :
  addressed socks ->
  connect_to_server_impl_ init s c (connection_key px) socks k = Some ((s', key', socks'), k') ->
  counted (if decide (is_Some (socks' !! key')) then 1 else 0) k k' /\ addressed socks'.
Proof.
  intros Ha E. split.
  - destruct (wp_run _ _ _ _ _ (connect_to_server_spec s c (connection_key px) socks k) E) as (a & _ & _ & Hg & _).
    case_decide as Hs; [|by apply counted_none].
    destruct (found_opened _ _ _ _ _ _ _ _ _ Ha E Hs) as (_ & fd & Hn & Hi & Hl). split_and!; [done| |done].
    assert (Hone : {[fd]} ⊆ fds k' ∖ fds k) by (apply singleton_subseteq_l, elem_of_difference; by split).
    apply subseteq_size in Hone. by rewrite size_singleton in Hone.
  - destruct (wp_run _ _ _ _ _ (connect_to_server_spec s c (connection_key px) socks k) E)
      as (a & _ & _ & _ & _ & Hk). by apply Hk.
Qed.

Context (T : QVPNVerboser.tables).
Context (arrange : list (Z * PacketBuilder.t) -> list (Z * PacketBuilder.t)).

Lemma send_run_fds (s : QVPN_RawSocket.t) m k x k' : QVPN_RawSocket.send s m 0 k = Some (x, k') -> fds k' = fds k.
Proof. intros E. exact (wp_run _ _ _ _ _ (send_spec s m 0 k) E). Qed.

Lemma receive_run_fds (s : QVPN_Socket.t) k rd k' : QVPN_Socket.receive s 0 k = Some (rd, k') -> fds k' = fds k.
Proof.
  unfold QVPN_Socket.receive. intros ([r data] & k1 & E1%run_call & E)%run_bind_inv.
  apply recv_law in E1. apply run_bind_inv in E as (buf & k2 & [_ ->]%run_lift & E).
  apply run_bind_inv in E as (st & k3 & E3 & [_ ->]%run_ret). destruct (0 <? r).
  - by apply run_ret in E3 as [_ ->].
  - apply run_bind_inv in E3 as (e & k4 & [= _ <-] & [_ ->]%run_ret). done.
Qed.

Lemma receives_run_fds n s : forall k rs k', receives n s k = Some (rs, k') -> fds k' = fds k.
Proof.
  induction n as [|n IH]; intros k rs k' E; cbn [receives] in E; [by apply run_ret in E as [_ ->]|].
  apply run_bind_inv in E as (rd & k1 & E1%receive_run_fds & E).
  apply run_bind_inv in E as (rest & k2 & E2%IH & [_ ->]%run_ret). congruence.
Qed.

Lemma safe_recv_run_fds fuel n s k rd k' : safe_recv fuel n s k = Some (rd, k') -> fds k' = fds k.
Proof. by intros (rs & k1 & E1%receives_run_fds & [_ ->]%run_lift)%run_bind_inv. Qed.

Lemma forward_run_fds s key px m b e p k x k' :
  forward T s key px m b e p k = Some (x, k') -> fds k' = fds k.
Proof.
  unfold forward. intros ([packet st] & k1 & [_ ->]%run_lift & E)%run_bind_inv. cbv zeta in E.
  apply run_bind_inv in E as (text & k2 & [_ ->]%run_lift & E).
  apply run_bind_inv in E as (res & k3 & [_ ->]%run_lift & E).
  apply run_bind_inv in E as (status & k4 & E4%send_run_fds & E).
  destruct (negb _); [by apply run_ret in E as [_ ->]|].
  apply run_bind_inv in E as (reset & k5 & [_ ->]%run_lift & E).
  by destruct reset; apply run_ret in E as [_ ->].
Qed.

Lemma request_object_counts s c socks m b e k f found s' socks' k' :
  addressed socks ->
  request_object init T arrange s c socks m b e k = Some ((f, found, s', socks'), k') ->
  counted found k k' /\ addressed socks'.
Proof.
  intros Ha. unfold request_object. intros ([decoded d] & k1 & [_ ->]%run_lift & E)%run_bind_inv.
  destruct decoded as [decoded|];
    [|apply run_ret in E as [E ->]; injection E as -> -> -> ->; split; [by apply counted_same|done]].
  apply run_bind_inv in E as (px & k2 & [_ ->]%run_lift & E).
  apply run_bind_inv in E as (px2 & k3 & [_ ->]%run_lift & E).
  apply run_bind_inv in E as ([[s1 key] socks1] & k4 & E4 & E).
  apply found_counted in E4 as [C4 A4]; [|done]. destruct (QTunnelData.get_raw_data decoded) as [rb re].
  destruct (socks1 !! key) as [p|] eqn:Ek.
  - rewrite decide_True in C4 by (by eexists).
    apply run_bind_inv in E as ([f1 s2] & k5 & E5%forward_run_fds & [E ->]%run_ret). injection E as -> -> -> ->.
    split; [|done]. apply (counted_trans 1 0 k k4); [done|by apply counted_same].
  - rewrite decide_False in C4 by (by intros []).
    apply run_ret in E as [E ->]. by injection E as -> -> -> ->.
Qed.

Lemma request_objects_counts c rd n : forall s socks i k status found s' socks' k',
  addressed socks ->
  request_objects init T arrange s c socks rd i n k = Some ((status, found, s', socks'), k') ->
  counted found k k' /\ addressed socks'.
Proof.
  induction n as [|n IH]; intros s socks i k status found s' socks' k' Ha E; cbn [request_objects] in E.
  - apply run_ret in E as [E ->]. injection E as -> -> -> ->. split; [by apply counted_same|done].
  - apply run_bind_inv in E as ([b e] & k1 & [_ ->]%run_lift & E).
    apply run_bind_inv in E as ([[[f found1] s1] socks1] & k2 & E2 & E).
    apply request_object_counts in E2 as [C2 A2]; [|done]. destruct f.
    + apply run_bind_inv in E as ([[[st found2] s2] socks2] & k3 & E3 & [E ->]%run_ret).
      apply IH in E3 as [C3 A3]; [|done]. injection E as -> -> -> ->. split; [by eapply counted_trans|done].
    + apply run_ret in E as [E ->]. by injection E as -> -> -> ->.
Qed.

Lemma iteration_counts fuel calls s c client socks k status found s' socks' k' :
  addressed socks ->
  vpn_request_loop_iteration init T arrange fuel calls s c client socks k = Some ((status, found, s', socks'), k') ->
  counted found k k' /\ addressed socks'.
Proof.
  intros Ha. unfold vpn_request_loop_iteration. intros (rd & k1 & E1%safe_recv_run_fds & E)%run_bind_inv.
  assert (C1 : counted 0 k k1) by (by apply counted_same). destruct (negb _).
  - apply run_ret in E as [E ->]. by injection E as -> -> -> ->.
  - apply request_objects_counts in E as [C2 A2]; [|done]. split; [|done]. by apply (counted_trans 0 found k k1).
Qed.

Lemma close_run_fds client k x k' :
  close_client client k = Some (x, k') -> fds k' = fds k ∖ {[QVPN_Socket.socket_ client]}.
Proof.
  unfold close_client, QVPN_Socket.shutdown, QVPN_Socket.close_socket, QVPN_Socket.disconnect.
  intros (st & k1 & (r & k2 & E2%run_call & [_ ->]%run_ret)%run_bind_inv & E)%run_bind_inv.
  apply run_bind_inv in E as (u & k3 & (r3 & k4 & E4%run_call & [_ ->]%run_ret)%run_bind_inv & E).
  apply run_bind_inv in E as (st5 & k5 & [_ ->]%run_ret & [_ ->]%run_ret).
  by rewrite (close_law _ _ _ _ E4), (shutdown_law _ _ _ _ E2).
Qed.

(** A turn: if it was the last one, the client's descriptor is closed after all else. *)
Lemma turn_counts fuel calls s c client socks k found s' rest k' :
  addressed socks ->
  process_turn init T arrange fuel calls s c client socks k = Some ((found, s', rest), k') ->
  exists k1, counted found k k1 /\
    match rest with
    | Some socks' => k' = k1 /\ addressed socks'
    | None => fds k' = fds k1 ∖ {[QVPN_Socket.socket_ client]}
    end.
Proof.
  intros Ha. unfold process_turn. intros ([[[status found1] s1] socks1] & k1 & E1 & E)%run_bind_inv.
  apply iteration_counts in E1 as [C1 A1]; [|done]. exists k1. destruct status.
  - apply run_ret in E as [E ->]. by injection E as -> -> ->.
  - apply run_bind_inv in E as (u & k2 & E2%close_run_fds & [E ->]%run_ret). by injection E as -> -> ->.
Qed.

(** Without a descriptor for the raw socket the iteration ends the tunnel of the client. *)
Lemma no_descriptor_ends_tunnel s c socks m b e w f sent s' socks' :
  QVPNServer.is_valid (QVPNServer.opening w) = false ->
  (forall key, is_Some (socks !! key) -> msize (QVPNServerSocketData.server_local_addr key) <> 16) ->
  QVPNServer.request_object T arrange s c socks m b e w = Some (f, sent, s', socks') ->
  sent = [] /\ socks' = socks /\ exists status, f = QVPNServer.Return status.
Proof.
  intros Hv Ha. unfold QVPNServer.request_object.
  intros ([decoded d] & _ & E)%bind_Some. destruct decoded as [decoded|]; [|injection E as <- <- <- <-; eauto].
  apply bind_Some in E as (px & _ & E). apply bind_Some in E as (px2 & _ & E).
  unfold QVPNServer.connect_if_not_to_server, QVPNServer.connect_to_server_impl_ in E.
  rewrite Hv in E. cbn [negb] in E. destruct (QTunnelData.get_raw_data decoded) as [rb re].
  destruct (socks !! connection_key (QTunnelData.proxy decoded)) eqn:Ek; [|injection E as <- <- <- <-; eauto].
  exfalso. eapply Ha; [by eexists|done].
Qed.

End Requests.

(** * What the accepting loop does to the descriptors *)

Section Accepting.
Context {K : SysSockets} {L : SysLaws K} {R : Randomness}.

(** The socket that is left is the one after [receive], or after [send], and a rejected one is
    closed besides. *)
Definition last_socket `{AuthSocket} (s s1 : socket) : Prop :=
  s1 = snd (sock_receive s) \/ exists m, s1 = snd (sock_send (snd (sock_receive s)) m).

Lemma accept_client_cases `{AuthSocket} check_user d s v s' :
  ServerAuth.accept_client check_user d s = Some (v, s') ->
  exists s1, last_socket s s1 /\
    ((v = ServerAuth.Rejected /\ s' = sock_close (sock_disconnect (sock_shutdown s1))) \/
     (exists u, v = ServerAuth.Accepted u /\ s' = s1 /\
        success (rd_status (fst (sock_receive s))) = true)).
Proof.
  unfold ServerAuth.accept_client, ServerAuth.reject, last_socket.
  destruct (sock_receive s) as [rd s0]. cbn [fst snd]. intros E.
  destruct (success (rd_status rd)) eqn:Es; cbn [negb] in E;
    [|injection E as <- <-; exists s0; split; [by left|by left]].
  repeat lazymatch type of E with
    | Some _ = Some _ => fail
    | (if negb ?b then _ else _) = _ => destruct b; cbn [negb] in E
    | (let '(_, _) := ?p in _) = _ => destruct p eqn:?
    | (if ?b then _ else _) = _ => destruct b
    | (_ ≫= _) = Some _ => apply bind_Some in E as (? & _ & E)
    end; injection E as <- <-;
    try (exists s0; split; [by left|by left]).
  all: match goal with H : sock_send _ ?m = (_, ?s1) |- _ =>
    exists s1; split; [right; exists m; by rewrite H|first [by left|right; by eexists]] end.
Qed.

(** The descriptors after each call of the authorization. *)
Lemma receive_fds (s : QVPN_Socket.t) k :
  let '(rd, (s1, k1)) := @sock_receive server_socket server_auth (s, k) in
  s1 = s /\ fds k1 = fds k /\ ((QVPN_Socket.socket_ s ∉ fds k) -> success (rd_status rd) = false).
Proof.
  cbn. unfold QVPN_Socket.receive, mbind, io_bind, call, lift.
  destruct (sys_recv _ _ _ k) as [[r data] k2] eqn:E.
  destruct (blit _ 0 data) as [buf|]; [|done].
  assert (Hbad : (QVPN_Socket.socket_ s ∉ fds k) -> r = -1).
  { intros Hn. pose proof (recv_closed_law _ QVPN_Socket.buffer_size 0 _ Hn) as Hr. by rewrite E in Hr. }
  apply recv_law in E. destruct (0 <? r) eqn:Er; cbn; split_and!; try done.
  intros Hn. rewrite (Hbad Hn) in Er. done.
Qed.

Lemma send_fds (s : QVPN_Socket.t) k m :
  let '(_, (s1, k1)) := @sock_send server_socket (s, k) m in s1 = s /\ fds k1 = fds k.
Proof.
  cbn. unfold ClientSocket.base_send_data.
  destruct (send_spec s m 0 k) as (st & k1 & E & Hf). by rewrite (run_bind _ _ _ _ _ E).
Qed.

Lemma close_fds (s : QVPN_Socket.t) k :
  let '(s1, k1) := @sock_close server_socket server_auth
    (sock_disconnect (AuthSocket := server_auth) (sock_shutdown (AuthSocket := server_auth) (s, k))) in
  s1 = s /\ fds k1 = fds k ∖ {[QVPN_Socket.socket_ s]}.
Proof.
  cbn. unfold run_unit, QVPN_Socket.close_socket, QVPN_Socket.disconnect, QVPN_Socket.shutdown, mbind, io_bind, call.
  destruct (sys_shutdown _ k) as [r k1] eqn:E1. cbn.
  destruct (sys_close _ k1) as [r2 k2] eqn:E2. cbn.
  by rewrite (close_law _ _ _ _ E2), (shutdown_law _ _ _ _ E1).
Qed.

(** What the authorization of a client leaves of its descriptor. *)
Lemma accept_client_fds check_user d s k v s' k' :
  ServerAuth.accept_client (H0 := server_socket) (H1 := server_auth) check_user d (s, k) = Some (v, (s', k')) ->
  s' = s /\
  match v with
  | ServerAuth.Rejected => fds k' = fds k ∖ {[QVPN_Socket.socket_ s]}
  | ServerAuth.Accepted _ => fds k' = fds k /\ QVPN_Socket.socket_ s ∈ fds k
  end.
Proof.
  intros Hrun. destruct (accept_client_cases (H := server_socket) (H0 := server_auth) check_user d (s, k) v (s', k') Hrun)
    as ([s1 k1] & Hlast & Hv).
  pose proof (receive_fds s k) as Hr. unfold last_socket in Hlast.
  destruct (@sock_receive server_socket server_auth (s, k)) as [rd [s0 k0]]. cbn [fst snd] in Hlast, Hv.
  destruct Hr as (-> & Hk0 & Hbad).
  assert (Hs1 : s1 = s /\ fds k1 = fds k).
  { destruct Hlast as [[= -> ->]|[m Hm]]; [done|]. pose proof (send_fds s k0 m) as Hs.
    destruct (@sock_send server_socket (s, k0) m) as [ok [s2 k2]]. injection Hm as -> ->.
    destruct Hs as [-> Hs]. by rewrite Hs. }
  destruct Hs1 as [-> Hk1]. destruct Hv as [[-> E]|(u & -> & E & Hok)].
  - pose proof (close_fds s k1) as Hc. rewrite <- E in Hc. by rewrite Hk1 in Hc.
  - injection E as -> ->. split_and!; [done|done|]. destruct (decide (QVPN_Socket.socket_ s ∈ fds k)) as [|Hn]; [done|].
    rewrite (Hbad Hn) in Hok. done.
Qed.

Lemma listen_accept_run listener k c k' :
  listen_and_accept listener k = Some (c, k') ->
  exists k1, fds k1 = fds k /\
    match c with
    | None => k' = k1
    | Some client => QVPN_Socket.accept listener k1 = Some (client, k')
    end.
Proof.
  unfold listen_and_accept, QVPN_Socket.listen. intros (st & k1 & E1 & E)%run_bind_inv.
  apply run_bind_inv in E1 as (r & k2 & E1%run_call & E2%run_ret). destruct E2 as [-> ->].
  apply listen_law in E1. exists k2. split; [done|]. cbn [success] in E. destruct (r =? 0).
  - apply run_bind_inv in E as (client & k3 & E3 & [-> ->]%run_ret). done.
  - by apply run_ret in E as [-> ->].
Qed.

Lemma listen_descriptors check_user d listener k r k' :
  msize (QVPN_Socket.get_local_addr listener) = 4 \/ msize (QVPN_Socket.get_local_addr listener) = 16 ->
  listen_iteration check_user d listener k = Some (r, k') ->
  match r with
  | Some (ServerAuth.Accepted _, client) =>
      (QVPN_Socket.socket_ client ∉ fds k) /\ fds k' = {[QVPN_Socket.socket_ client]} ∪ fds k
  | _ => fds k' = fds k
  end.
Proof.
  intros Hsz. unfold listen_iteration. intros ([c k1] & Hl & E)%bind_Some.
  destruct (listen_accept_run _ _ _ _ Hl) as (k2 & Hk & Hc). destruct c as [client|].
  2:{ injection E as <- <-. by rewrite Hc. }
  apply bind_Some in E as ([v [client' k3]] & Hv & [= <- <-]).
  apply accept_fds in Hc as Hac; [|done]. unfold accepted in Hac. rewrite Hk in Hac.
  apply accept_client_fds in Hv as [-> Hv]. destruct v as [|u].
  - rewrite Hv. destruct Hac as [[-> ->]|[Hn ->]]; [|by apply forget_new'].
    apply forget_new. intros ?%fds_law. lia.
  - destruct Hv as [-> Hin]. destruct Hac as [[E E2]|Hac]; [|done].
    rewrite E in Hin. apply fds_law in Hin. lia.
Qed.

(** C25: An iteration of the accepting loop on a socket with a whole address: a client that is turned
    away leaves the descriptors as they were, and one that is accepted leaves its own, which
    was not open before. *)
Theorem accepting_keeps_descriptors check_user d listener k r k' :
  msize (QVPN_Socket.get_local_addr listener) = 4 \/ msize (QVPN_Socket.get_local_addr listener) = 16 ->
  listen_iteration check_user d listener k = Some (r, k') ->
  match r with
  | Some (ServerAuth.Accepted _, client) =>
      (QVPN_Socket.socket_ client ∉ fds k) /\ fds k' = {[QVPN_Socket.socket_ client]} ∪ fds k
  | _ => fds k' = fds k
  end.
Proof. apply listen_descriptors. Qed.

(** A listener bound to an IPv6 address takes the standard input for its client, and closes it
    when the authorization fails. *)
Lemma ipv6_listener_closes_stdin check_user d s addr port k st s' k1 r k2 v client k3 :
  msize addr = 16 -> success st = true -> QVPN_Socket.bind s addr port k = Some ((st, s'), k1) ->
  listen_iteration check_user d s' k2 = Some (r, k3) -> r = Some (v, client) ->
  client = QVPN_Socket.default /\ (v = ServerAuth.Rejected -> fds k3 = fds k2 ∖ {[0]}).
Proof.
  intros Ha Hst Hb E ->.
  pose proof (wp_run _ _ _ _ _ (bind_spec s addr port k) Hb) as [_ Hr]. rewrite Hst in Hr.
  destruct Hr as (_ & _ & _ & _ & Hl). unfold local_size, NetAddr.get_addr_family in Hl. rewrite Ha in Hl.
  unfold listen_iteration in E. apply bind_Some in E as ([c k4] & Hla & E).
  destruct (listen_accept_run _ _ _ _ Hla) as (k5 & Hk & Hc). destruct c as [cl|]; [|done].
  apply bind_Some in E as ([v' [client' k6]] & Hv & [= -> -> ->]).
  unfold QVPN_Socket.accept, NetAddr.get_addr_family in Hc. rewrite Hl in Hc. apply run_ret in Hc as [-> ->].
  apply accept_client_fds in Hv as [-> Hv]. split; [done|]. intros ->. by rewrite Hv, Hk.
Qed.

End Accepting.

(** * The life of a server *)

Section Serving.
Context {K : SysSockets} {L : SysLaws K} {R : Randomness}.
Context (init : filter_key.t) (T : QVPNVerboser.tables).
Context (arrange : list (Z * PacketBuilder.t) -> list (Z * PacketBuilder.t)).

(** A response sends on the client's socket, and does nothing else to the kernel. *)
Lemma send_parts_fds sp n : forall i (s : QVPN_Socket.t) k r s' k',
  TunnelDriver.send_parts (H := server_socket) sp i n (s, k) = Some (r, (s', k')) -> fds k' = fds k.
Proof.
  induction n as [|n IH]; intros i s k r s' k' E; cbn [TunnelDriver.send_parts] in E; [by injection E as _ _ ->|].
  apply bind_Some in E as ([b e] & _ & E). apply bind_Some in E as (part & _ & E).
  pose proof (send_fds s k part) as Hs. destruct (@sock_send server_socket (s, k) part) as [res [s1 k1]].
  destruct Hs as [-> Hs]. destruct res; [apply IH in E; congruence|]. by injection E as _ _ <-.
Qed.

Lemma response_turn_fds s key resp_sock raw_socket k s' k' :
  response_turn T s key resp_sock raw_socket k = Some (s', k') -> fds k' = fds k.
Proof.
  unfold response_turn. intros (rd & k1 & E1%receive_run_fds & E)%run_bind_inv. rewrite <- E1. clear E1.
  destruct (success _); [|by apply run_ret in E as [_ ->]].
  destruct (QVPNServer.vpn_response_loop_iteration _ _ _ _ _ _ _) as [[s1 [sk k2]]|] eqn:Ei; [|done].
  injection E as <- <-. unfold QVPNServer.vpn_response_loop_iteration in Ei.
  apply bind_Some in Ei as (response & _ & Ei). apply bind_Some in Ei as (text & _ & Ei).
  apply bind_Some in Ei as ([px [db de]] & _ & Ei). apply bind_Some in Ei as ([d [sk1 k3]] & Ee & Ei).
  assert (Hk : fds k3 = fds k1).
  { unfold QVPNServerDriver.encode_and_send in Ee. apply bind_Some in Ee as ([sp d1] & _ & Ee).
    apply bind_Some in Ee as ([r [sk4 k4]] & Es & [= _ _ <-]). by apply send_parts_fds in Es. }
  apply bind_Some in Ei as (reset & _ & Ei). destruct reset; by injection Ei as _ _ <-.
Qed.

(** The server, the clients whose loops run with their tables, and the kernel. *)
Abbreviation tunnels := (gmap nat (QVPN_Socket.t * gmap QVPNServerSocketData.t PackedSocket)).
Record state := mk_state { server : QVPNServer.t; clients : tunnels; host : kernel }.

(** What the threads of the server do, a turn of a loop at a time: the accepting loop of a
    listener at an IPv4 address, the loop of a client, and the loop of the responses for any
    two sockets.  The number counts the objects whose raw socket was looked for and found. *)
Inductive serving_step : nat * state -> nat * state -> Prop :=
  | serve_accept n s ts k c check_user d listener r k' :
      msize (QVPN_Socket.get_local_addr listener) = 4 -> ts !! c = None ->
      listen_iteration check_user d listener k = Some (r, k') ->
      serving_step (n, mk_state s ts k)
        (n, mk_state s
              (match r with
               | Some (ServerAuth.Accepted _, client) => <[c := (client, ∅)]> ts
               | _ => ts
               end) k')
  | serve_request n s ts k c client socks fuel calls found s' rest k' :
      ts !! c = Some (client, socks) ->
      process_turn init T arrange fuel calls s c client socks k = Some ((found, s', rest), k') ->
      serving_step (n, mk_state s ts k)
        ((n + found)%nat, mk_state s'
              (match rest with Some socks' => <[c := (client, socks')]> ts | None => delete c ts end) k')
  | serve_response n s ts k key resp_sock raw_socket s' k' :
      response_turn T s key resp_sock raw_socket k = Some (s', k') ->
      serving_step (n, mk_state s ts k) (n, mk_state s' ts k').

(** The descriptors that the counted objects have left open: there are as many, none is a
    client's, and the clients have one each. *)
Record accounted (left : gset Z) (n : nat) (st : state) : Prop := {
  left_count : (n <= size left)%nat;
  left_open : left ⊆ fds (host st);
  left_limit : (n <= limit)%nat;
  client_open c client socks : clients st !! c = Some (client, socks) ->
    addressed socks /\ QVPN_Socket.socket_ client ∈ fds (host st) /\ (QVPN_Socket.socket_ client ∉ left);
  client_own c1 c2 p1 p2 : clients st !! c1 = Some p1 -> clients st !! c2 = Some p2 ->
    QVPN_Socket.socket_ (fst p1) = QVPN_Socket.socket_ (fst p2) -> c1 = c2 }.

Lemma accounted_kernel left n s s' ts k k' :
  accounted left n (mk_state s ts k) -> fds k' = fds k -> accounted left n (mk_state s' ts k').
Proof.
  intros [N O Li C W] E. cbn in *. by split; cbn; rewrite ?E.
Qed.

Lemma accounted_accept left n s ts k c client k' :
  accounted left n (mk_state s ts k) ->
  (QVPN_Socket.socket_ client ∉ fds k) -> fds k' = {[QVPN_Socket.socket_ client]} ∪ fds k ->
  accounted left n (mk_state s (<[c := (client, ∅)]> ts) k').
Proof.
  intros [N O Li C W] Hn E. cbn in *. split; cbn; rewrite ?E; [done|by apply union_subseteq_r'|done| |].
  - intros c' client' socks [[-> [= <- <-]]|[_ H]]%lookup_insert_Some.
    + split_and!; [by intros key [? ?]|by apply elem_of_union_l, elem_of_singleton|]. intros Hl. by apply Hn, O.
    + destruct (C _ _ _ H) as (? & ? & ?). split_and!; [done|by apply elem_of_union_r|done].
  - intros c1 c2 p1 p2 [[-> <-]|[H1 E1]]%lookup_insert_Some [[-> <-]|[H2 E2]]%lookup_insert_Some Es; try done.
    + exfalso. destruct p2 as [cl so], (C _ _ _ E2) as (_ & Hi & _). apply Hn. cbn in Es. by rewrite Es.
    + exfalso. destruct p1 as [cl so], (C _ _ _ E1) as (_ & Hi & _). apply Hn. cbn in Es. by rewrite <- Es.
    + by apply (W c1 c2 p1 p2).
Qed.

(** A turn of a client's loop before its end. *)
Lemma accounted_turn left n s s' ts k c client socks socks' found k' :
  accounted left n (mk_state s ts k) -> ts !! c = Some (client, socks) -> counted found k k' -> addressed socks' ->
  accounted (left ∪ (fds k' ∖ fds k)) (n + found) (mk_state s' (<[c := (client, socks')]> ts) k').
Proof.
  intros [N O Li C W] Hc ([Hg _] & Hn & Hl) Ha. cbn in *.
  assert (Hd : left ## fds k' ∖ fds k).
  { apply elem_of_disjoint. by intros x Hx%O [_ ?]%elem_of_difference. }
  assert (Hs : (n + found <= size (left ∪ (fds k' ∖ fds k)))%nat) by (rewrite size_union by done; lia).
  assert (Ho : left ∪ (fds k' ∖ fds k) ⊆ fds k').
  { intros x [Hx%O|[Hx _]%elem_of_difference]%elem_of_union; [by apply Hg|done]. }
  assert (Hold : forall c0 cl so, ts !! c0 = Some (cl, so) ->
    QVPN_Socket.socket_ cl ∈ fds k' /\ (QVPN_Socket.socket_ cl ∉ left ∪ (fds k' ∖ fds k))).
  { intros c0 cl so H. destruct (C _ _ _ H) as (_ & Hi & Hf). split; [by apply Hg|].
    by intros [?|[_ ?]%elem_of_difference]%elem_of_union. }
  split; cbn; [done|done| | |].
  - destruct (decide (0 < found)%nat) as [Hp|]; [|by replace (n + found)%nat with n by lia].
    apply subseteq_size in Ho. specialize (Hl Hp). lia.
  - intros c0 cl so [[-> [= <- <-]]|[_ H]]%lookup_insert_Some; (split; [|by eapply Hold]); [done|by eapply C].
  - intros c1 c2 p1 p2 [[-> <-]|[H1 E1]]%lookup_insert_Some [[-> <-]|[H2 E2]]%lookup_insert_Some Es; try done.
    + by apply (W c1 c2 (client, socks) p2).
    + by apply (W c1 c2 p1 (client, socks)).
    + by apply (W c1 c2 p1 p2).
Qed.

(** The end of a client's loop: the one descriptor that is closed is the client's. *)
Lemma accounted_close left n s ts k c client socks k' :
  accounted left n (mk_state s ts k) -> ts !! c = Some (client, socks) ->
  fds k' = fds k ∖ {[QVPN_Socket.socket_ client]} -> accounted left n (mk_state s (delete c ts) k').
Proof.
  intros [N O Li C W] Hc E. cbn in *. destruct (C _ _ _ Hc) as (_ & _ & Hf). split; cbn; [done| |done| |].
  - rewrite E. intros x Hx. apply elem_of_difference. split; [by apply O|]. intros ->%elem_of_singleton. done.
  - intros c0 cl so [Hne H]%lookup_delete_Some. destruct (C _ _ _ H) as (? & Hi & ?). split_and!; [done| |done].
    rewrite E. apply elem_of_difference. split; [done|]. intros Es%elem_of_singleton.
    apply Hne. by apply (W c c0 (client, socks) (cl, so)).
  - intros c1 c2 p1 p2 [_ E1]%lookup_delete_Some [_ E2]%lookup_delete_Some. by apply W.
Qed.

Lemma step_accounted p p' : serving_step p p' ->
  (exists left, accounted left (fst p) (snd p)) -> exists left, accounted left (fst p') (snd p').
Proof.
  intros [n s ts k c check_user d listener r k' Hl Hc E|n s ts k c client socks fuel calls found s' rest k' Hc E
    |n s ts k key resp_sock raw_socket s' k' E] [left A]; cbn [fst snd] in *.
  - apply listen_descriptors in E; [|by left]. exists left.
    destruct r as [[[|u] client]|]; [by eapply accounted_kernel| |by eapply accounted_kernel].
    by eapply accounted_accept; [|apply E..].
  - destruct (client_open _ _ _ A _ _ _ Hc) as (Ha & _). apply turn_counts in E as (k1 & Hn & Hr); [|done].
    exists (left ∪ (fds k1 ∖ fds k)). destruct rest as [socks'|].
    + destruct Hr as [-> Hs]. by eapply accounted_turn.
    + pose proof (accounted_turn left n s s' ts k c client socks socks found k1 A Hc Hn Ha) as A1.
      pose proof (accounted_close _ _ _ _ _ c client socks k' A1 (lookup_insert_eq _ _ _) Hr) as A2.
      by rewrite delete_insert_eq in A2.
  - apply response_turn_fds in E. exists left. by eapply accounted_kernel.
Qed.

(** C16: Every object that the server forwards costs it a descriptor that it never closes, even
    when the connection has its raw socket already: whatever the clients send and however
    the loops take turns, from its start on it forwards at most as many objects as a process
    may have descriptors, also when the clients and their tables are long gone. *)
Theorem objects_bounded_by_descriptors s k n st :
  rtc serving_step (0%nat, mk_state s ∅ k) (n, st) -> (n <= limit)%nat.
Proof.
  intros Hr.
  assert (A : exists left, accounted left 0 (mk_state s ∅ k)).
  { exists ∅. split; cbn; [lia|apply empty_subseteq|lia|done|done]. }
  destruct (rtc_keeps serving_step (fun p => exists left, accounted left (fst p) (snd p)) _ _ step_accounted Hr A)
    as [left Hn].
  exact (left_limit _ _ _ Hn).
Qed.

End Serving.

(** * Witnesses *)

Section Witnesses.

(** A client's packet to 10.0.0.9, and the tables after the first one of its connection. *)
Definition sample_proxy : QTunnelProxy.t :=
  QTunnelProxy.mk IPv4 TCP [10; 0; 0; 2] 50000 [10; 0; 0; 9] 443 [].
Definition sample_filter : filter_key.t := filter_key.mk 0 0 0 0 0 0.
Definition sample_server : QVPNServer.t :=
  QVPNServer.mk (TunnelDriver.mk default_layers QVPNPacketManager.initial)
    (IPv4DefaultGenStrategy.mk 0) ∅.
Definition sample_key : QVPNServerSocketData.t :=
  set_server_local_addr (connection_key sample_proxy) [10; 0; 0; 1].
Definition sample_table : gmap QVPNServerSocketData.t PackedSocket :=
  {[ sample_key := mk QVPN_Socket.default QVPN_Socket.default ]}.

Existing Instance sample_kernel.
Existing Instance sample_laws.

(** The sample kernel with what arrives on its sockets, one input for each [recv]. *)
Definition scripted_kernel : SysSockets := {|
  kernel := gset Z * list mem;
  errno _ := 24;
  sys_socket d t p '(X, ms) := let '(r, X) := sys_socket d t p X in (r, (X, ms));
  sys_connect _ _ k := (0, k);
  sys_bind _ _ k := (0, k);
  sys_listen _ _ k := (0, k);
  sys_accept fd '(X, ms) := let '(r, name, X) := sys_accept fd X in (r, name, (X, ms));
  sys_getsockname _ k := (Some sample_name, k);
  sys_getpeername _ k := (Some sample_name, k);
  sys_send _ m _ k := (msize m, k);
  sys_recv fd _ _ '(X, ms) :=
    match ms with
    | m :: ms => if decide (fd ∈ live X) then (msize m, m, (X, ms)) else (-1, [], (X, m :: ms))
    | [] => (-1, [], (X, []))
    end;
  sys_sendto _ m _ _ k := (msize m, k);
  sys_shutdown _ k := (0, k);
  sys_close fd '(X, ms) := (0, (X ∖ {[fd]}, ms));
  sys_setsockopt _ _ k := (0, k);
  load_filter _ k := (3, k) |}.
Existing Instance scripted_kernel.

Definition scripted_laws : SysLaws scripted_kernel.
Proof.
  unshelve refine (@Build_SysLaws scripted_kernel 8 (fun k => live (fst k)) _ _ _ _ _ _ _ _ _ _ _ _ _ _ _); cbn; try (by intros; simplify_eq).
  - by intros [X ms] fd [? _]%elem_of_filter.
  - intros _ _ _ [X ms] r [Y ms']. destruct (open_fd X) as [r0 X0] eqn:E. intros [= <- <- <-]. by apply open_fd_law.
  - intros _ [X ms] r name [Y ms']. destruct (open_fd X) as [r0 X0] eqn:E. intros [= <- <- <- <-].
    by apply open_fd_law.
  - intros fd [X ms] r [Y ms'] [= <- <- <-]. apply live_close.
  - intros fd _ _ [X [|m ms]] r [Y ms'] E; [by simplify_eq|]. case_decide; by simplify_eq.
  - intros fd _ _ [X [|m ms]] Hfd; [done|]. by rewrite decide_False.
Defined.

(** A client that the server knows says who it is, and sends a packet. *)
Definition sample_inputs : list mem :=
  [request (H := counting) example_settings example_draws; SafeReceiveData.data example_received].
Definition sample_start : kernel (SysSockets := scripted_kernel) := ({[1]}, sample_inputs).
Definition sample_listener : QVPN_Socket.t := QVPN_Socket.make 1 [10; 0; 0; 9] 443 [10; 0; 0; 1] 443 TCP.

(** The server accepts the client, forwards the packet, and has a descriptor more than the
    client's and the listener's for each socket of the connection. *)
Lemma objects_bounded_by_descriptors_witness :
  exists st,
    rtc (serving_step (R := counting) sample_filter QVPNVerboser.initial_tables (fun l => l))
      (0%nat, mk_state sample_server ∅ sample_start) (1%nat, st) /\
    fds (SysLaws := scripted_laws) (host st) = list_to_set [1; 2; 3; 4] /\
    (1 <= limit (SysLaws := scripted_laws))%nat.
Proof.
  assert (T : match listen_iteration (H0 := counting) known example_draws sample_listener sample_start with
    | Some (Some (ServerAuth.Accepted _, cl), k1) =>
        match process_turn sample_filter QVPNVerboser.initial_tables (fun l => l) 5 1 sample_server 0 cl ∅ k1 with
        | Some ((1%nat, _, Some _), k2) => fst k2
        | _ => ∅ end
    | _ => ∅ end = list_to_set [1; 2; 3; 4]) by (vm_compute; reflexivity).
  destruct (listen_iteration (H0 := counting) known example_draws sample_listener sample_start)
    as [[[[[|u] cl]|] k1]|] eqn:E1; try discriminate T.
  destruct (process_turn sample_filter QVPNVerboser.initial_tables (fun l => l) 5 1 sample_server 0 cl ∅ k1)
    as [[[[[|[|n]] s2] [socks|]] k2]|] eqn:E2; try discriminate T.
  assert (R : rtc (serving_step (R := counting) sample_filter QVPNVerboser.initial_tables (fun l => l))
    (0%nat, mk_state sample_server ∅ sample_start) (1%nat, mk_state s2 (<[0%nat := (cl, socks)]> {[0%nat := (cl, ∅)]}) k2)).
  { eapply rtc_l; [exact (serve_accept _ _ _ 0 _ ∅ sample_start 0 known example_draws sample_listener _ _
      eq_refl eq_refl E1)|].
    eapply rtc_once, (serve_request _ _ _ 0 _ _ k1 0 cl ∅ 5 1 1 s2 (Some socks) k2); [reflexivity|exact E2]. }
  eexists. split; [exact R|]. split; [by cbn in *; rewrite T|].
  exact (objects_bounded_by_descriptors (L := scripted_laws) _ _ _ _ _ _ _ R).
Defined.

(** The first packet of a connection: the raw socket is descriptor 2, and the connection is
    in both tables. *)
Lemma connect_refines_witness :
  exists s' key' socks' k' a,
    connect_to_server_impl_ sample_filter sample_server 0 (connection_key sample_proxy) ∅ sample_start =
      Some ((s', key', socks'), k') /\
    raws socks' = {[sample_key := 2%nat]} /\
    QVPNServer.is_valid a = true /\ QVPNServer.new_socket a = 2%nat.
Proof.
  destruct (connect_refines (L := scripted_laws) sample_filter sample_server 0 (connection_key sample_proxy) ∅ sample_start)
    as (s' & key' & socks' & k' & a & E & A & _).
  exists s', key', socks', k', a. split; [exact E|].
  assert (T : match connect_to_server_impl_ sample_filter sample_server 0 (connection_key sample_proxy) ∅ sample_start with
    | Some ((_, _, socks'), _) => raws socks' | None => ∅ end = {[sample_key := 2%nat]}) by (vm_compute; reflexivity).
  rewrite E in T. split; [exact T|].
  destruct A as (raw & k1 & shadow & k2 & u & k3 & E1 & E2 & E3 & Ev & A).
  vm_compute in E1. injection E1 as <- <-. vm_compute in E2. injection E2 as <- <-.
  vm_compute in E3. injection E3 as <- <-.
  assert (V : QVPNServer.is_valid a = true) by (rewrite Ev; reflexivity). split; [exact V|].
  destruct (A V) as (b & raw1 & k4 & E4 & Eb & A'). vm_compute in E4. injection E4 as <- <- <-.
  destruct (A' Eb) as (res & raw2 & k5 & E5 & _ & -> & _). vm_compute in E5. by injection E5 as <- <- <-.
Defined.

Lemma accepting_keeps_descriptors_witness :
  let listener := QVPN_Socket.make 1 [10; 0; 0; 9] 443 [10; 0; 0; 1] 443 TCP in
  exists client k',
    listen_iteration (H := sample_kernel) (H0 := counting) known example_draws listener {[1]} =
      Some (Some (ServerAuth.Rejected, client), k') /\
    fds (SysLaws := sample_laws) k' = fds (SysLaws := sample_laws) {[1]}.
Proof.
  intros listener. eexists _, _.
  assert (E : listen_iteration (H := sample_kernel) (H0 := counting) known example_draws listener {[1]} =
    Some (Some (ServerAuth.Rejected, QVPN_Socket.make 2 [10; 0; 0; 1] (htons 4444) [10; 0; 0; 1] 4444 TCP),
      {[1]})) by (vm_compute; reflexivity).
  split; [exact E|].
  exact (accepting_keeps_descriptors (L := sample_laws) known example_draws listener {[1]} _ _
    (or_introl eq_refl) E).
Defined.

End Witnesses.
