(* ===== verification/Database.v ===== *)
(** The server's database: [SQLiteDatabase] of src/QVPN/QVPN Server App/src/database.cpp, and
    the user statistics of src/QVPN/QVPN Lib/include/qvpn_driver.hpp that it stores.

    A method builds the text of a query and gives it to [sqlite3_exec], which is the class
    [Sqlite]: it answers a code and the rows for which it calls the callback.  [None] is
    undefined behaviour or an exception that leaves the method. *)
From S2P Require Import Prelude Addr Http TlsHello SafeReceive Settings Driver Handshake.

(** The columns of a row; a NULL is [None]. *)
Definition row : Type := list (option string).

Class Sqlite := {
  database : Type;
  sqlite3_exec : database -> string -> Z * list row * database }.

Definition SQLITE_OK : Z := 0.

(** [c_str] of a string: what is behind a zero byte is not seen. *)
Fixpoint c_str (s : string) : string :=
  match s with
  | EmptyString => EmptyString
  | String c s' => if char_code c =? 0 then EmptyString else String c (c_str s')
  end.

(** [TrafficType]. *)
Definition TRAFFIC_INCOMING : Z := 0.
Definition TRAFFIC_OUTGOING : Z := 1.
Definition TRAFFIC_ERROR_TYPE : Z := 99.

Module UserStatisticData.

Record t := mk { user_ : string; socket_data_ : QVPNSocketData.t; traffic_size_ : Z; traffic_type_ : Z }.

Definition default : t :=
  mk "Anonymous" (QVPNSocketData.mk 0 0 NetAddr.default 0 NetAddr.default 0) 0 TRAFFIC_ERROR_TYPE.
Definition make (user : string) (socket_data : QVPNSocketData.t) (traffic_size traffic_type : Z) : t :=
  mk user socket_data traffic_size traffic_type.
Definition set_data (d : t) (user : string) (socket_data : QVPNSocketData.t)
    (traffic_size traffic_type : Z) : t := mk user socket_data traffic_size traffic_type.
Definition get_user (d : t) : string := user_ d.
Definition get_connection_data (d : t) : QVPNSocketData.t := socket_data_ d.
Definition get_net_proto (d : t) : Z := QVPNSocketData.net_proto (socket_data_ d).
Definition get_transport_proto (d : t) : Z := QVPNSocketData.transport_proto (socket_data_ d).
Definition get_traffic_size (d : t) : Z := traffic_size_ d.
Definition get_traffic_type (d : t) : Z := traffic_type_ d.

End UserStatisticData.

(** The adapters that do nothing. *)
Module NoDatabaseAdapter.
Definition check_user (data : string) : bool := true.
End NoDatabaseAdapter.

Module NoStatisticAdapter.
Definition get_user_stats (user : string) : list UserStatisticData.t := [].
End NoStatisticAdapter.

Module SQLiteDatabase.

(** The texts of the queries. *)
Definition stats_insert (user : string) (sock_data : QVPNSocketData.t) (traffic_size traffic_type : Z) :
    string :=
  ("INSERT INTO stats VALUES(NULL, '" +:+ NetAddr.to_string (QVPNSocketData.local_addr sock_data)
   +:+ "', " +:+ dec (QVPNSocketData.local_port sock_data) +:+ ", '"
   +:+ NetAddr.to_string (QVPNSocketData.remote_addr sock_data) +:+ "', "
   +:+ dec (QVPNSocketData.remote_port sock_data) +:+ ", "
   +:+ dec (u16 (QVPNSocketData.net_proto sock_data)) +:+ ", "
   +:+ dec (u16 (QVPNSocketData.transport_proto sock_data)) +:+ ", " +:+ dec traffic_size +:+ ", '"
   +:+ user +:+ "'" +:+ ", " +:+ dec (u32 traffic_type) +:+ ");")%string.

Definition stats_query (user : string) : string :=
  ("SELECT stats.user, stats.src_addr, stats.src_port, stats.dst_addr, stats.dst_port, stats.net_proto, stats.transport_proto, SUM(stats.traffic_size) FROM stats JOIN users ON stats.user = users.key WHERE stats.user LIKE '"
   +:+ user +:+ "'" +:+ "GROUP BY stats.src_addr, stats.src_port, stats.dst_addr, stats.dst_port;")%string.

Definition user_query (user : string) : string :=
  ("SELECT * FROM users WHERE key LIKE '" +:+ user +:+ "'")%string.

(** [argv[i]] as text: undefined behind the columns and for a NULL. *)
Definition argv (r : row) (i : nat) : option string := mjoin (r !! i).

(** [res->at(i).set_data(...)] for every column. *)
Fixpoint set_columns (n i : nat) (res : list UserStatisticData.t) (user : string)
    (socket_data : QVPNSocketData.t) (traffic_size traffic_type : Z) : option (list UserStatisticData.t) :=
  match n with
  | O => Some res
  | S n =>
      d ← res !! i;
      set_columns n (S i)
        (<[i := UserStatisticData.set_data d user socket_data traffic_size traffic_type]> res)
        user socket_data traffic_size traffic_type
  end.

Definition get_user_stats_callback (res : list UserStatisticData.t) (r : row) :
    option (list UserStatisticData.t) :=
  a1 ← argv r 1; src ← NetAddr.of_string a1;
  a3 ← argv r 3; dst ← NetAddr.of_string a3;
  a2 ← argv r 2; src_port ← stoi a2;
  a4 ← argv r 4; dst_port ← stoi a4;
  a5 ← argv r 5; net ← stoi a5;
  a6 ← argv r 6; transport ← stoi a6;
  let socket_data := QVPNSocketData.mk (u8 net) (u8 transport) src (u16 src_port) dst (u16 dst_port) in
  a7 ← argv r 7; traffic_size ← stoi a7;
  a8 ← argv r 8; traffic_type ← stoi a8;
  user ← argv r 0;
  set_columns (length r) 0 res user socket_data (traffic_size mod 2 ^ 64) traffic_type.

(** [check_user_callback]. *)
Definition check_user_callback (res : bool) (r : row) : bool := negb (Nat.eqb (length r) 0).

Section Methods.
Context `{Sqlite}.

(** A failure of the statement is only printed. *)
Definition add_statistic_data (db : database) (user : string) (sock_data : QVPNSocketData.t)
    (traffic_size traffic_type : Z) : database :=
  let '(_, _, db) := sqlite3_exec db (c_str (stats_insert user sock_data traffic_size traffic_type)) in db.

(** The vector is empty when the callback gets it. *)
Definition get_user_stats (db : database) (user : string) :
    option (list UserStatisticData.t * database) :=
  let '(_, rows, db) := sqlite3_exec db (c_str (stats_query user)) in
  res ← foldl (fun res r => res ← res; get_user_stats_callback res r) (Some []) rows;
  Some (res, db).

Definition check_user (db : database) (user : string) : bool * database :=
  let '(exit, rows, db) := sqlite3_exec db (c_str (user_query user)) in
  let b := foldl check_user_callback false rows in
  (if negb (exit =? SQLITE_OK) then false else b, db).

End Methods.
End SQLiteDatabase.

(** The adapters of the server, [ServerDatabaseAdapter] and [ServerStatsAdatper]. *)
Module ServerDatabaseAdapter.
Definition check_user `{Sqlite} (db : database) (user : string) : bool * database :=
  SQLiteDatabase.check_user db user.
End ServerDatabaseAdapter.

Module ServerStatsAdatper.
Definition add_user_stats `{Sqlite} (db : database) (data : UserStatisticData.t) : database :=
  SQLiteDatabase.add_statistic_data db (UserStatisticData.get_user data)
    (UserStatisticData.get_connection_data data) (UserStatisticData.get_traffic_size data)
    (UserStatisticData.get_traffic_type data).
Definition get_user_stats `{Sqlite} (db : database) (user : string) :
    option (list UserStatisticData.t * database) := SQLiteDatabase.get_user_stats db user.
End ServerStatsAdatper.

(** * Which users there are *)

(** The documented meaning of [LIKE]: a percent sign stands for any text, an underscore for one
    character, and letters are compared without their case. *)
Definition fold_case (c : Ascii.ascii) : Z :=
  let n := char_code c in if (65 <=? n) && (n <=? 90) then n + 32 else n.

Fixpoint like (p s : string) : bool :=
  match p with
  | EmptyString => match s with EmptyString => true | _ => false end
  | String c p =>
      if char_code c =? 37 then
        (fix any (s : string) : bool :=
           like p s || match s with EmptyString => false | String _ s => any s end) s
      else
        match s with
        | EmptyString => false
        | String d s => ((char_code c =? 95) || (fold_case c =? fold_case d)) && like p s
        end
  end.

Definition is_ascii (c : Ascii.ascii) : bool := (0 <? char_code c) && (char_code c <? 128).
(** Text that can stand between quotes. *)
Definition plain (c : Ascii.ascii) : bool := is_ascii c && negb (char_code c =? 39).

(** What SQLite does with the query for a name of plain characters, when the names in the
    table are ASCII: it answers the rows whose key matches, and each has columns. *)
Class SqliteLaws (S : Sqlite) := {
  users : database -> list string;
  select_like_law db pattern :
    all_chars plain pattern = true -> Forall (fun k => all_chars is_ascii k = true) (users db) ->
    exists rows,
      sqlite3_exec db ("SELECT * FROM users WHERE key LIKE '" +:+ pattern +:+ "'")%string =
        (SQLITE_OK, rows, db) /\
      length rows = length (filter (fun k => like pattern k = true) (users db)) /\
      Forall (fun r : row => r <> []) rows }.

#[local] Arguments String.append !_ _ /.

Lemma c_str_plain s : all_chars is_ascii s = true -> c_str s = s.
Proof.
  induction s as [|c s IH]; [done|]. cbn. intros [Hc Hs]%andb_true_iff. unfold is_ascii in Hc.
  apply andb_true_iff in Hc as [Hc _]. rewrite (proj2 (Z.eqb_neq _ _)) by lia. by rewrite IH.
Qed.

Lemma plain_ascii s : all_chars plain s = true -> all_chars is_ascii s = true.
Proof.
  induction s as [|c s IH]; [done|]. cbn. intros [Hc Hs]%andb_true_iff.
  unfold plain in Hc. apply andb_true_iff in Hc as [-> _]. by apply IH.
Qed.

Lemma rows_found b rows :
  Forall (fun r : row => r <> []) rows ->
  foldl SQLiteDatabase.check_user_callback b rows = negb (Nat.eqb (length rows) 0) || (b && Nat.eqb (length rows) 0).
Proof.
  intros Hr. revert b. induction Hr as [|r rows Hr _ IH]; intros b; [by destruct b|].
  cbn [foldl length]. rewrite IH. unfold SQLiteDatabase.check_user_callback.
  destruct r; [done|]. cbn. by destruct (length rows).
Qed.

Section Users.
Context {S : Sqlite} {L : SqliteLaws S}.
Context (db : database).
Context (Hkeys : Forall (fun k => all_chars is_ascii k = true) (users db)).

(** A name of plain characters is taken for a user exactly if some registered name is [LIKE] it:
    the name the client sends is the pattern. *)
Lemma check_user_like user :
  all_chars plain user = true ->
  fst (ServerDatabaseAdapter.check_user db user) = true <-> exists k, k ∈ users db /\ like user k = true.
Proof.
  intros Hu. unfold ServerDatabaseAdapter.check_user, SQLiteDatabase.check_user, SQLiteDatabase.user_query.
  rewrite c_str_plain by (rewrite !all_chars_append, (plain_ascii user Hu); reflexivity).
  destruct (select_like_law db user Hu Hkeys) as (rows & -> & Hl & Hr). cbn [fst negb SQLITE_OK Z.eqb].
  rewrite (rows_found false rows Hr), Hl, andb_false_l, orb_false_r, negb_true_iff, Nat.eqb_neq.
  split.
  - intros Hn. destruct (filter _ (users db)) as [|k ks] eqn:E; [done|]. exists k.
    assert (Hk : k ∈ filter (fun k => like user k = true) (users db)) by (rewrite E; apply list_elem_of_here).
    by apply list_elem_of_filter in Hk as [? ?].
  - intros (k & Hk & Hlike) Hz. apply length_zero_iff_nil in Hz.
    assert (Hin : k ∈ filter (fun k => like user k = true) (users db)) by by apply list_elem_of_filter.
    rewrite Hz in Hin. by apply elem_of_nil in Hin.
Qed.

Lemma like_percent k : like "%" k = true.
Proof. induction k as [|c k IH]; [done|]. cbn in *. exact IH. Qed.

Section Authorization.
Context `{Randomness} `{AuthSocket}.

(** The database as the authorization asks it. *)
Definition registered (user : mem) : bool := fst (ServerDatabaseAdapter.check_user db (string_of user)).

(** C31: A client whose name is plain text is authorized exactly if some registered name is [LIKE] its
    name; otherwise it is turned away.  The name need not be registered. *)
Theorem authorized_like_users st d d' rest z s s1 s2 :
  fits st -> all_chars plain (string_of (ClientAuth.auth_data st)) = true ->
  sock_receive s = (mkReceive (mkStatus true z) (msize (request st d)) (request st d ++ rest), s1) ->
  sock_send s1 (reply d') = (true, s2) ->
  let name := string_of (ClientAuth.auth_data st) in
  ((exists k, k ∈ users db /\ like name k = true) ->
     ServerAuth.accept_client registered d' s = Some (ServerAuth.Accepted (ClientAuth.auth_data st), s2)) /\
  ((forall k, k ∈ users db -> like name k = false) ->
     ServerAuth.accept_client registered d' s = Some (ServerAuth.reject s1)).
Proof.
  intros Hst Hp Hr Hs name. rewrite (server_answers registered st d d' rest z s s1 Hst Hr).
  unfold answer, registered. fold name. split.
  - intros Hk%(check_user_like name Hp). rewrite Hk. by rewrite Hs.
  - intros Hn. destruct (fst (ServerDatabaseAdapter.check_user db name)) eqn:E; [|done].
    apply (check_user_like name Hp) in E as (k & Hk & Hl). by rewrite Hn in Hl.
Qed.

(** C6: With a single user in the table, whoever that is, a client that calls itself by a percent sign
    is authorized: the server answers its hello and starts the thread of its tunnel. *)
Theorem wildcard_authorized st d d' rest z s s1 s2 :
  users db <> [] -> fits st -> ClientAuth.auth_data st = [37] ->
  sock_receive s = (mkReceive (mkStatus true z) (msize (request st d)) (request st d ++ rest), s1) ->
  sock_send s1 (reply d') = (true, s2) ->
  ServerAuth.accept_client registered d' s = Some (ServerAuth.Accepted [37], s2).
Proof.
  intros Hne Hst Ha Hr Hs. rewrite (server_answers registered st d d' rest z s s1 Hst Hr).
  assert (Hk : registered [37] = true).
  { apply (check_user_like "%"); [done|]. destruct (users db) as [|k ks]; [done|].
    exists k. split; [apply list_elem_of_here|apply like_percent]. }
  unfold answer. rewrite Ha, Hk. by rewrite Hs.
Qed.

End Authorization.
End Users.

(** A row of the statistics has the eight columns of the query, and the callback reads a ninth. *)
Lemma stats_callback_fails res r : length r = 8%nat -> SQLiteDatabase.get_user_stats_callback res r = None.
Proof.
  intros Hl. unfold SQLiteDatabase.get_user_stats_callback.
  assert (H8 : SQLiteDatabase.argv r 8 = None).
  { unfold SQLiteDatabase.argv. pose proof (lookup_ge_None_2 r 8 ltac:(lia)) as E.
    exact (f_equal mjoin E). }
  cbv zeta. rewrite H8.
  repeat match goal with |- (?o ≫= _) = None => destruct o; [|done]; cbn [mbind option_bind] end.
  done.
Qed.

Lemma stats_never_read `{Sqlite} db user z r rows db' :
  sqlite3_exec db (c_str (SQLiteDatabase.stats_query user)) = (z, r :: rows, db') -> length r = 8%nat ->
  ServerStatsAdatper.get_user_stats db user = None.
Proof.
  intros He Hr. unfold ServerStatsAdatper.get_user_stats, SQLiteDatabase.get_user_stats. rewrite He.
  cbn [foldl mbind option_bind]. rewrite stats_callback_fails by done.
  assert (Hn : foldl (fun res r => res ← res; SQLiteDatabase.get_user_stats_callback res r) None rows = None)
    by (clear; induction rows; done).
  by rewrite Hn.
Qed.

(** * A database: the names of its users *)

Fixpoint strip_prefix (pre s : string) : option string :=
  match pre, s with
  | EmptyString, _ => Some s
  | String c pre, String d s => if Ascii.eqb c d then strip_prefix pre s else None
  | _, EmptyString => None
  end.

#[local] Instance sample_sqlite : Sqlite := {|
  database := list string;
  sqlite3_exec db sql :=
    match strip_prefix "SELECT * FROM users WHERE key LIKE '" sql with
    | Some rest =>
        let pattern := String.substring 0 (String.length rest - 1) rest in
        (SQLITE_OK, (fun k => [Some k]) <$> filter (fun k => like pattern k = true) db, db)
    | None => (1, [], db)
    end |}.

Lemma strip_prefix_app pre s : strip_prefix pre (pre +:+ s) = Some s.
Proof. induction pre as [|c pre IH]; cbn; [done|]. by rewrite Ascii.eqb_refl. Qed.

#[local] Program Instance sample_sqlite_laws : SqliteLaws sample_sqlite := {| users db := db |}.
Next Obligation.
  intros db pattern _ _. eexists. cbn [sqlite3_exec sample_sqlite]. rewrite strip_prefix_app.
  replace (String.length (pattern +:+ "'") - 1)%nat with (String.length pattern)
    by (rewrite length_app_string; cbn; lia).
  rewrite substring_prefix. split_and!; [reflexivity|by rewrite length_fmap|].
  apply Forall_fmap, Forall_true. done.
Qed.

Definition wildcard_settings : ClientAuth.settings := ClientAuth.mk_settings [37] 1 [107; 101] [121; 97].

Lemma wildcard_authorized_witness :
  exists req : mem,
    ServerAuth.accept_client (H := counting) (H1 := loopback_auth)
      (registered (S := sample_sqlite) ["alice"]) example_draws (req, []) =
      Some (ServerAuth.Accepted [37], (req, reply (H := counting) example_draws)).
Proof.
  exists (request (H := counting) wildcard_settings example_draws).
  apply (wildcard_authorized (S := sample_sqlite) (L := sample_sqlite_laws) ["alice"%string] ltac:(cbn; by repeat constructor) (H := counting)
    (H1 := loopback_auth) wildcard_settings example_draws example_draws [] 0 _
    (request (H := counting) wildcard_settings example_draws, [])); [done|split; concrete|done| |done].
  by rewrite app_nil_r.
Defined.

Lemma authorized_like_users_witness :
  exists req : mem,
    ServerAuth.accept_client (H := counting) (H1 := loopback_auth)
      (registered (S := sample_sqlite) ["u"; "alice"]) example_draws (req, []) =
      Some (ServerAuth.Accepted [117], (req, reply (H := counting) example_draws)).
Proof.
  exists (request (H := counting) example_settings example_draws).
  eapply (authorized_like_users (S := sample_sqlite) (L := sample_sqlite_laws) ["u"; "alice"]%string ltac:(cbn; by repeat constructor) (H := counting)
    (H1 := loopback_auth) example_settings example_draws example_draws [] 0 _
    (request (H := counting) example_settings example_draws, []));
    [apply example_fits|done|by rewrite app_nil_r|done|].
  exists "u"%string. split; [apply list_elem_of_here|done].
Defined.
