(* ===== verification/Filters.v ===== *)
(** What the Windows client captures: the filters of
    src/QVPN/QVPN Lib/include/Windows/windivert_ext.hpp and
    src/QVPN/QVPN Lib/src/Windows/windivert_ext.cpp, their texts, and the packets that WinDivert
    gives to a handle that was opened with such a text; the speed meter of the loops
    (src/QVPN/QVPN Lib/src/qvpn_tools.cpp). *)
From S2P Require Import Prelude Addr Settings.

#[local] Arguments String.append !_ _ /.

(** [std::string::insert] of a text at a position inside the string. *)
Definition insert_at (s : string) (pos : nat) (what : string) : string :=
  (String.substring 0 pos s +:+ what +:+ String.substring pos (String.length s - pos) s)%string.

Definition is_empty (s : string) : bool := match s with EmptyString => true | _ => false end.

(** The operators change their left operand and answer it. *)
Module WinDivertTrafficFilterType.

Definition t : Type := string.
Definition default : t := EmptyString.
Definition make (filter : string) : t := filter.
Definition assign (filter_ filter : t) : t := filter.
(** The moves swap the two texts. *)
Definition move (filter : t) : t * t := (filter, default).
Definition move_assign (filter_ filter : t) : t * t := (filter, filter_).
Definition convert (filter_ : t) : string := filter_.

Definition and_ (filter_ other : t) : t :=
  if is_empty other then filter_
  else if is_empty filter_ then other
  else (filter_ +:+ " and " +:+ other)%string.

Definition or_ (filter_ other : t) : t :=
  if is_empty filter_ then filter_
  else if is_empty other then other
  else (filter_ +:+ " or " +:+ other)%string.

Definition not_ (filter_ : t) : t :=
  match String.index 0 "=" filter_ with
  | Some eq_pos => insert_at filter_ eq_pos "!"
  | None => insert_at filter_ 0 "!"
  end.

End WinDivertTrafficFilterType.

Module WinDivertTrafficFilter.
Import WinDivertTrafficFilterType.

Definition ipv4 : t := make "ip".
Definition ipv6 : t := make "ipv6".
Definition tcp : t := make "tcp".
Definition udp : t := make "udp".
Definition source_ipv4 (addr : list Z) : option t :=
  text ← IPv4Address.to_string addr; Some (make ("ip.SrcAddr = " +:+ text)).
Definition source (addr : list Z) : t :=
  let family := NetAddr.get_addr_family addr in
  if family =? IPv4 then make ("ip.SrcAddr = " +:+ NetAddr.to_string addr)
  else if family =? IPv6 then make ("ip6.SrcAddr = " +:+ NetAddr.to_string addr)
  else make "Address type not supported".
Definition dest_ipv4 (addr : list Z) : option t :=
  text ← IPv4Address.to_string addr; Some (make ("ip.DstAddr = " +:+ text)).
Definition dest (addr : list Z) : t :=
  let family := NetAddr.get_addr_family addr in
  if family =? IPv4 then make ("ip.DstAddr = " +:+ NetAddr.to_string addr)
  else if family =? IPv6 then make ("ip6.DstAddr = " +:+ NetAddr.to_string addr)
  else make "Address type not supported".
Definition src_port (port : Z) : t :=
  make ("tcp.SrcPort = " +:+ dec port +:+ " || udp.SrcPort = " +:+ dec port).
Definition dst_port (port : Z) : t :=
  make ("tcp.DstPort = " +:+ dec port +:+ " || udp.DstPort = " +:+ dec port).
Definition tcp_src_port (port : Z) : t := make ("tcp.SrcPort = " +:+ dec port).
Definition tcp_dst_port (port : Z) : t := make ("tcp.DstPort = " +:+ dec port).
Definition udp_src_port (port : Z) : t := make ("udp.SrcPort = " +:+ dec port).
Definition udp_dst_port (port : Z) : t := make ("udp.DstPort = " +:+ dec port).
Definition custom_protocol (protocol : Z) : t := make ("protocol = " +:+ dec protocol).
Definition outgoing_traffic : t := make "outbound".
Definition incoming_traffic : t := make "inbound".
Definition local_traffic : t := make "loopback".

End WinDivertTrafficFilter.

(** The filters of [WinDivertClientVPNNetDriver_]; [vpn_address] is what [get_vpn_address] of its
    driver answers. *)
Module CaptureFilters.
Import WinDivertTrafficFilterType WinDivertTrafficFilter.

Record t := mk {
  filters_out_ : list WinDivertTrafficFilterType.t; filters_in_ : list WinDivertTrafficFilterType.t;
  outgoing_filters_data : string; incoming_filters_data : string }.

Definition initial : t := mk [] [] EmptyString EmptyString.

Definition with_out (s : t) (filters : list WinDivertTrafficFilterType.t) : t :=
  mk filters (filters_in_ s) (outgoing_filters_data s) (incoming_filters_data s).
Definition with_in (s : t) (filters : list WinDivertTrafficFilterType.t) : t :=
  mk (filters_out_ s) filters (outgoing_filters_data s) (incoming_filters_data s).

(** [temp = temp && filter] for every filter. *)
Definition join_filters (filters : list WinDivertTrafficFilterType.t) : string :=
  convert (foldl (fun temp filter => assign temp (and_ temp filter)) (make "") filters).

Definition clear_outgoing_filters (s : t) : t :=
  mk [] (filters_in_ s) EmptyString (incoming_filters_data s).
Definition calculate_outgoing_filters (s : t) : t :=
  mk (filters_out_ s) (filters_in_ s) (join_filters (filters_out_ s)) (incoming_filters_data s).
Definition clear_incoming_filters (s : t) : t :=
  mk (filters_out_ s) [] (outgoing_filters_data s) EmptyString.
Definition calculate_incoming_filters (s : t) : t :=
  mk (filters_out_ s) (filters_in_ s) (outgoing_filters_data s) (join_filters (filters_in_ s)).

Definition apply_default_outgoing_filter (vpn_address : list Z) (s : t) : option t :=
  addr ← NetAddr.of_string "195.82.146.78";
  Some (with_out s (filters_out_ s ++
    [not_ (source vpn_address); outgoing_traffic; not_ (tcp_dst_port 22); not_ local_traffic;
     dest addr; tcp_dst_port 8080])).

Definition apply_default_incoming_filter (vpn_address : list Z) (s : t) : option t :=
  addr ← NetAddr.of_string "195.82.146.78";
  Some (with_in s (filters_in_ s ++
    [incoming_traffic; source vpn_address; not_ (tcp_src_port 22); not_ local_traffic; source addr])).

Definition add_outgoing_traffic_filter (s : t) (filter : WinDivertTrafficFilterType.t) : t :=
  calculate_outgoing_filters (with_out s (filters_out_ s ++ [filter])).
Definition add_incoming_traffic_filter (s : t) (filter : WinDivertTrafficFilterType.t) : t :=
  calculate_incoming_filters (with_in s (filters_in_ s ++ [filter])).

(** The text that the started thread gives to [WinDivertOpen] is the one that is calculated. *)
Definition start_capture_outgoing_traffic (vpn_address : list Z) (s : t) : option t :=
  s ← apply_default_outgoing_filter vpn_address s; Some (calculate_outgoing_filters s).
Definition start_capture_incoming_traffic (vpn_address : list Z) (s : t) : option t :=
  s ← apply_default_incoming_filter vpn_address s; Some (calculate_incoming_filters s).

(** [main] of QVPN Client App after [init_vpn]: its two filters, and [start_vpn_client]. *)
Definition start_vpn_client (vpn_address : list Z) (s : t) : option t :=
  s ← start_capture_outgoing_traffic vpn_address s; start_capture_incoming_traffic vpn_address s.
Definition client_main (vpn_address : list Z) : option t :=
  let s := add_outgoing_traffic_filter initial (and_ ipv4 tcp) in
  let s := add_incoming_traffic_filter s (and_ ipv4 tcp) in
  start_vpn_client vpn_address s.

End CaptureFilters.

(** The speed meter of the loops.  A time point is a number of nanoseconds; [now] is what the clock
    answers. *)
Module QVPNSpeedMeter.

Record t := mk {
  recv_last_fixation_ : Z; send_last_fixation_ : Z; recv_first_fixation_ : Z; send_first_fixation_ : Z;
  recv_total_bytes_ : Z; send_total_bytes_ : Z; recv_last_bytes_ : Z; send_last_bytes_ : Z }.

Definition initial : t := mk 0 0 0 0 0 0 0 0.

Definition recv_meter_start (s : t) (now : Z) : t :=
  mk 0 (send_last_fixation_ s) now (send_first_fixation_ s) (recv_total_bytes_ s) (send_total_bytes_ s)
    (recv_last_bytes_ s) (send_last_bytes_ s).
Definition send_meter_start (s : t) (now : Z) : t :=
  mk (recv_last_fixation_ s) 0 (recv_first_fixation_ s) now (recv_total_bytes_ s) (send_total_bytes_ s)
    (recv_last_bytes_ s) (send_last_bytes_ s).
Definition add_receive_size (s : t) (bytes fix_time : Z) : t :=
  mk fix_time (send_last_fixation_ s) (recv_first_fixation_ s) (send_first_fixation_ s)
    (u64 (recv_total_bytes_ s + bytes)) (send_total_bytes_ s) bytes (send_last_bytes_ s).
Definition add_send_size (s : t) (bytes fix_time : Z) : t :=
  mk (recv_last_fixation_ s) fix_time (recv_first_fixation_ s) (send_first_fixation_ s)
    (recv_total_bytes_ s) (u64 (send_total_bytes_ s + bytes)) (recv_last_bytes_ s) bytes.

(** Whole seconds, at least one. *)
Definition delta (now fixation : Z) : Z := Z.max (u32 (Z.quot (now - fixation) 1000000000)) 1.
Definition get_last_recv_speed (s : t) (now : Z) : Z := recv_last_bytes_ s / delta now (recv_last_fixation_ s).
Definition get_last_send_speed (s : t) (now : Z) : Z := send_last_bytes_ s / delta now (send_last_fixation_ s).
Definition get_average_recv_speed (s : t) (now : Z) : Z := recv_total_bytes_ s / delta now (recv_first_fixation_ s).
Definition get_average_send_speed (s : t) (now : Z) : Z := send_total_bytes_ s / delta now (send_first_fixation_ s).

(** The average speed is the number of bytes in the whole seconds since the start. *)
Lemma average_recv_speed packets start now :
  Forall (fun p => 0 <= fst p) packets -> foldr Z.add 0 (fst <$> packets) < 2 ^ 64 ->
  1 <= (now - start) / 1000000000 < 2 ^ 32 -> start <= now ->
  get_average_recv_speed
    (foldl (fun s p => add_receive_size s (fst p) (snd p)) (recv_meter_start initial start) packets) now =
  foldr Z.add 0 (fst <$> packets) / ((now - start) / 1000000000).
Proof.
  intros Hp Hs Ht Hn.
  assert (H : forall l s, Forall (fun p : Z * Z => 0 <= fst p) l -> 0 <= recv_total_bytes_ s ->
    recv_total_bytes_ s + foldr Z.add 0 (fst <$> l) < 2 ^ 64 ->
    let s' := foldl (fun s p => add_receive_size s (fst p) (snd p)) s l in
    recv_total_bytes_ s' = recv_total_bytes_ s + foldr Z.add 0 (fst <$> l) /\
    recv_first_fixation_ s' = recv_first_fixation_ s).
  { induction l as [|[b f] l IH]; intros s Hl H0 Hb; cbn in *; [split; [lia|done]|].
    apply Forall_cons in Hl as [Hb0 Hl]. cbn in Hb0.
    assert (Hf : 0 <= foldr Z.add 0 (fst <$> l)) by (clear -Hl; induction Hl; cbn; lia).
    assert (E : recv_total_bytes_ (add_receive_size s b f) = recv_total_bytes_ s + b)
      by (cbn; unfold u64; apply Z.mod_small; lia).
    destruct (IH (add_receive_size s b f) Hl) as [-> ->]; rewrite ?E; [lia|lia|]. split; [lia|done]. }
  destruct (H packets (recv_meter_start initial start) Hp) as [H1 H2]; [cbn; lia|cbn; lia|].
  unfold get_average_recv_speed, delta. rewrite H1, H2. cbn [recv_total_bytes_ recv_first_fixation_ recv_meter_start initial].
  rewrite Z.quot_div_nonneg by lia. unfold u32. rewrite Z.mod_small by lia. f_equal. lia.
Qed.

End QVPNSpeedMeter.

(** * What WinDivert makes of a text *)

(** A test, a clause of tests, and alternatives of clauses, each behind ["or"] or ["||"]. *)
Inductive test : Type :=
  | Flag (field : string)
  | NoFlag (field : string)
  | Is (field value : string)
  | IsNot (field value : string).

Record clause : Type := mkClause { first_test : test; more_tests : list test }.
Record filter_expr : Type := mkFilter { first_clause : clause; more_clauses : list (bool * clause) }.

Definition test_text (x : test) : string :=
  match x with
  | Flag f => f
  | NoFlag f => "!" +:+ f
  | Is f v => f +:+ " = " +:+ v
  | IsNot f v => f +:+ " != " +:+ v
  end%string.
Fixpoint tests_text (l : list test) : string :=
  match l with [] => EmptyString | x :: l => (" and " +:+ test_text x +:+ tests_text l)%string end.
Definition clause_text (c : clause) : string := (test_text (first_test c) +:+ tests_text (more_tests c))%string.
Definition or_text (bar : bool) : string := if bar then " || " else " or ".
Fixpoint clauses_text (l : list (bool * clause)) : string :=
  match l with
  | [] => EmptyString
  | (bar, c) :: l => (or_text bar +:+ clause_text c +:+ clauses_text l)%string
  end.
Definition filter_text (e : filter_expr) : string :=
  (clause_text (first_clause e) +:+ clauses_text (more_clauses e))%string.

Definition flag_fields : list string := ["ip"; "ipv6"; "tcp"; "udp"; "outbound"; "inbound"; "loopback"]%string.
Definition value_fields : list string :=
  ["ip.SrcAddr"; "ip.DstAddr"; "tcp.SrcPort"; "tcp.DstPort"; "udp.SrcPort"; "udp.DstPort"]%string.

(** A number or a dotted address. *)
Definition literal_char (c : Ascii.ascii) : bool := is_digit c || (char_code c =? 46).
Definition literal_text (v : string) : bool := negb (is_empty v) && all_chars literal_char v.

Definition test_ok (x : test) : bool :=
  match x with
  | Flag f | NoFlag f => bool_decide (f ∈ flag_fields)
  | Is f v | IsNot f v => bool_decide (f ∈ value_fields) && literal_text v
  end.
Definition clause_ok (c : clause) : bool := test_ok (first_test c) && forallb test_ok (more_tests c).
Definition filter_ok (e : filter_expr) : bool :=
  clause_ok (first_clause e) && forallb (fun p => clause_ok (snd p)) (more_clauses e).

(** [matches]: whether a handle opened with the text gets the packet; no packet if the text is
    not a filter.  [flag] and [value_of] are the packet's fields, [literal] the value of a text. *)
Class WinDivert := {
  packet : Type;
  matches : string -> packet -> bool;
  flag : packet -> string -> bool;
  value_of : packet -> string -> option Z;
  literal : string -> option Z }.

Definition test_holds `{WinDivert} (p : packet) (x : test) : bool :=
  match x with
  | Flag f => flag p f
  | NoFlag f => negb (flag p f)
  | Is f v => match value_of p f, literal v with Some a, Some b => a =? b | _, _ => false end
  | IsNot f v => match value_of p f, literal v with Some a, Some b => negb (a =? b) | _, _ => false end
  end.
Definition clause_holds `{WinDivert} (p : packet) (c : clause) : bool :=
  test_holds p (first_test c) && forallb (test_holds p) (more_tests c).
Definition filter_holds `{WinDivert} (p : packet) (e : filter_expr) : bool :=
  clause_holds p (first_clause e) || existsb (fun x => clause_holds p (snd x)) (more_clauses e).

(** The documented filter language: ["and"] binds more strongly than ["or"], and a test of a
    field that the packet does not have fails; the values of numbers and IPv4 addresses. *)
Class WinDivertLaws (W : WinDivert) := {
  matches_law e p : filter_ok e = true -> matches (filter_text e) p = filter_holds p e;
  literal_number n : is_u16 n -> literal (dec n) = Some n;
  literal_address a : bytes a -> msize a = 4 -> literal (NetAddr.to_string a) = load32 a 0 }.

(** * The operators *)

Lemma append_not_empty (a b : string) : a <> EmptyString -> is_empty (a +:+ b) = false.
Proof. by destruct a. Qed.

Lemma test_text_not_empty x : test_ok x = true -> exists c s, test_text x = String c s.
Proof.
  destruct x as [f|f|f v|f v]; cbn; [| |intros [Hf _]%andb_true_iff; revert Hf..].
  1: intros Hf%bool_decide_eq_true_1. 2: intros _; by eexists _, _.
  2-3: intros Hf%bool_decide_eq_true_1.
  all: unfold flag_fields, value_fields in Hf; repeat (apply elem_of_cons in Hf as [->|Hf]; [by eexists _, _|]);
    by apply elem_of_nil in Hf.
Qed.

Lemma filter_text_not_empty e : filter_ok e = true -> is_empty (filter_text e) = false.
Proof.
  intros He. apply andb_true_iff in He as [Hc _]. apply andb_true_iff in Hc as [Ht _].
  destruct (test_text_not_empty _ Ht) as (c & s & E). unfold filter_text, clause_text. by rewrite E.
Qed.

(** [a or b] and [c or d] without parentheses: the last clause of the left and the first of the
    right become one. *)
Definition glue (c d : clause) : clause :=
  mkClause (first_test c) (more_tests c ++ first_test d :: more_tests d).
Fixpoint glue_last (c : clause) (l : list (bool * clause)) (d : clause) : clause * list (bool * clause) :=
  match l with
  | [] => (glue c d, [])
  | (bar, c') :: l => let '(c', l) := glue_last c' l d in (c, (bar, c') :: l)
  end.
Definition and_filters (e f : filter_expr) : filter_expr :=
  let '(c, l) := glue_last (first_clause e) (more_clauses e) (first_clause f) in
  mkFilter c (l ++ more_clauses f).
Definition or_filters (e f : filter_expr) : filter_expr :=
  mkFilter (first_clause e) (more_clauses e ++ (false, first_clause f) :: more_clauses f).

Lemma tests_text_app l x l' : tests_text (l ++ x :: l') = (tests_text l +:+ " and " +:+ test_text x +:+ tests_text l')%string.
Proof. induction l as [|y l IH]; cbn; [done|]. rewrite IH. by rewrite !app_assoc_string. Qed.

Lemma glue_text c d : clause_text (glue c d) = (clause_text c +:+ " and " +:+ clause_text d)%string.
Proof. unfold clause_text. cbn [glue first_test more_tests]. rewrite tests_text_app. by rewrite !app_assoc_string. Qed.

Lemma clauses_text_app l l' : clauses_text (l ++ l') = (clauses_text l +:+ clauses_text l')%string.
Proof.
  induction l as [|[bar c] l IH]; cbn [app clauses_text]; [done|]. rewrite IH. by rewrite !app_assoc_string.
Qed.

Lemma glue_last_text c l d :
  let '(c', l') := glue_last c l d in
  (clause_text c' +:+ clauses_text l' = (clause_text c +:+ clauses_text l) +:+ " and " +:+ clause_text d)%string.
Proof.
  revert c. induction l as [|[bar c'] l IH]; intros c; cbn [glue_last clauses_text].
  - by rewrite !app_nil_string, glue_text.
  - specialize (IH c'). destruct (glue_last c' l d) as [c1 l1]. cbn [clauses_text].
    rewrite IH. by rewrite !app_assoc_string.
Qed.

Lemma and_text e f :
  filter_ok e = true -> filter_ok f = true ->
  WinDivertTrafficFilterType.and_ (filter_text e) (filter_text f) = filter_text (and_filters e f).
Proof.
  intros He Hf. unfold WinDivertTrafficFilterType.and_. rewrite !filter_text_not_empty by done.
  unfold filter_text, and_filters.
  pose proof (glue_last_text (first_clause e) (more_clauses e) (first_clause f)) as H.
  destruct (glue_last _ _ _) as [c l]. cbn [first_clause more_clauses].
  rewrite clauses_text_app, <- (app_assoc_string (clause_text c)), H. by rewrite !app_assoc_string.
Qed.

Lemma or_filters_text e f :
  filter_ok e = true -> filter_ok f = true ->
  WinDivertTrafficFilterType.or_ (filter_text e) (filter_text f) = filter_text (or_filters e f).
Proof.
  intros He Hf. unfold WinDivertTrafficFilterType.or_. rewrite !filter_text_not_empty by done.
  unfold filter_text, or_filters. cbn [first_clause more_clauses].
  rewrite clauses_text_app. cbn [clauses_text or_text]. by rewrite !app_assoc_string.
Qed.

Lemma forallb_more {A} (p : A -> bool) l x l' : forallb p (l ++ x :: l') = forallb p l && (p x && forallb p l').
Proof. by rewrite forallb_app. Qed.

Lemma glue_last_ok c l d :
  clause_ok c = true -> forallb (fun p => clause_ok (snd p)) l = true -> clause_ok d = true ->
  clause_ok (fst (glue_last c l d)) && forallb (fun p : bool * clause => clause_ok (snd p)) (snd (glue_last c l d)) = true.
Proof.
  intros Hc Hl Hd. revert c Hc Hl. induction l as [|[bar c'] l IH]; intros c Hc Hl; cbn [glue_last].
  - cbn. unfold clause_ok, glue in *. cbn [first_test more_tests]. rewrite forallb_more.
    apply andb_true_iff in Hc as [-> ->]. apply andb_true_iff in Hd as [-> ->]. done.
  - cbn [forallb snd] in Hl. apply andb_true_iff in Hl as [Hc' Hl]. specialize (IH c' Hc' Hl).
    destruct (glue_last c' l d) as [c1 l1]. cbn [fst snd forallb] in *. by rewrite Hc, IH.
Qed.

Lemma and_filters_ok e f : filter_ok e = true -> filter_ok f = true -> filter_ok (and_filters e f) = true.
Proof.
  unfold filter_ok. intros [Hc Hl]%andb_true_iff [Hd Hm]%andb_true_iff.
  pose proof (glue_last_ok _ _ _ Hc Hl Hd) as H. unfold and_filters.
  destruct (glue_last _ _ _) as [c l]. cbn [fst snd first_clause more_clauses] in *.
  apply andb_true_iff in H as [-> H]. by rewrite forallb_app, H, Hm.
Qed.

Lemma or_filters_ok e f : filter_ok e = true -> filter_ok f = true -> filter_ok (or_filters e f) = true.
Proof.
  unfold filter_ok. intros [Hc Hl]%andb_true_iff [Hd Hm]%andb_true_iff.
  cbn [or_filters first_clause more_clauses]. rewrite forallb_more. cbn [snd]. by rewrite Hc, Hl, Hd, Hm.
Qed.

(** [!] turns the first comparison of a text; without a comparison, the first test. *)
Definition equals_sign : Ascii.ascii := Ascii.ascii_of_nat 61.
Definition negate (x : test) : test :=
  match x with
  | Flag f => NoFlag f | NoFlag f => Flag f
  | Is f v => IsNot f v | IsNot f v => Is f v
  end.

Lemma insert_at_app a b what :
  insert_at (a +:+ b) (String.length a) what = (a +:+ what +:+ b)%string.
Proof.
  unfold insert_at. rewrite substring_prefix, substring_app_shift, length_app_string.
  replace (String.length a + String.length b - String.length a)%nat with (String.length b) by lia.
  pose proof (substring_prefix b "") as E. rewrite app_nil_string in E. by rewrite E.
Qed.

Lemma not_comparison a b :
  avoids equals_sign a = true ->
  WinDivertTrafficFilterType.not_ (a +:+ String equals_sign b)%string = (a +:+ "!" +:+ String equals_sign b)%string.
Proof.
  intros Ha. unfold WinDivertTrafficFilterType.not_.
  change "="%string with (String equals_sign ""). rewrite index_char by done. apply insert_at_app.
Qed.

Lemma not_flags a : avoids equals_sign a = true -> WinDivertTrafficFilterType.not_ a = ("!" +:+ a)%string.
Proof.
  intros Ha. unfold WinDivertTrafficFilterType.not_.
  change "="%string with (String equals_sign ""). rewrite index_no_char by done. apply (insert_at_app "").
Qed.

Lemma avoids_app c a b : avoids c (a +:+ b) = avoids c a && avoids c b.
Proof. induction a as [|x a IH]; cbn; [done|]. by rewrite IH, andb_assoc. Qed.

Lemma value_field_avoids f : f ∈ value_fields -> avoids equals_sign f = true.
Proof.
  unfold value_fields. intros Hf.
  repeat (apply elem_of_cons in Hf as [->|Hf]; [done|]). by apply elem_of_nil in Hf.
Qed.

Lemma flag_field_avoids f : f ∈ flag_fields -> avoids equals_sign f = true.
Proof.
  unfold flag_fields. intros Hf.
  repeat (apply elem_of_cons in Hf as [->|Hf]; [done|]). by apply elem_of_nil in Hf.
Qed.

(** A text that begins with a comparison: only this comparison is turned. *)
Lemma not_first f v ts l :
  filter_ok (mkFilter (mkClause (Is f v) ts) l) = true ->
  WinDivertTrafficFilterType.not_ (filter_text (mkFilter (mkClause (Is f v) ts) l)) =
    filter_text (mkFilter (mkClause (IsNot f v) ts) l).
Proof.
  intros [[Hf _]%andb_true_iff _]%andb_true_iff. apply andb_true_iff in Hf as [Hf%bool_decide_eq_true_1 _].
  apply value_field_avoids in Hf. unfold filter_text, clause_text. cbn [first_clause more_clauses first_test more_tests test_text].
  rewrite !app_assoc_string. set (rest := (v +:+ _)%string).
  change (f +:+ " = " +:+ rest)%string with (f +:+ " " +:+ String equals_sign (" " +:+ rest))%string.
  rewrite <- (app_assoc_string f " "), not_comparison; [by rewrite !app_assoc_string|].
  by rewrite avoids_app, Hf.
Qed.

Lemma not_flag f :
  f ∈ flag_fields -> WinDivertTrafficFilterType.not_ (test_text (Flag f)) = test_text (NoFlag f).
Proof. intros Hf. by apply not_flags, flag_field_avoids. Qed.

Definition alternatives (e : filter_expr) : list clause := first_clause e :: (snd <$> more_clauses e).

Lemma holds_alternatives `{WinDivert} p e : filter_holds p e = existsb (clause_holds p) (alternatives e).
Proof.
  unfold filter_holds, alternatives. cbn [existsb]. f_equal.
  induction (more_clauses e) as [|x l IH]; cbn; [done|]. by rewrite IH.
Qed.

Lemma alternatives_glue c0 l d es c :
  c0 :: (snd <$> l) = es ++ [c] ->
  fst (glue_last c0 l d) :: (snd <$> snd (glue_last c0 l d)) = es ++ [glue c d].
Proof.
  revert c0 es. induction l as [|[bar c1] l IH]; intros c0 es E; cbn [glue_last].
  - destruct es as [|e1 [|e2 es]]; [|done|done]. injection E as ->. done.
  - destruct es as [|e1 es]; [done|]. injection E as <- E. specialize (IH c1 es E).
    destruct (glue_last c1 l d) as [c2 l2]. cbn [fst snd fmap list_fmap] in *. by rewrite IH.
Qed.

Lemma and_alternatives e f es c d ds :
  alternatives e = es ++ [c] -> alternatives f = d :: ds ->
  alternatives (and_filters e f) = es ++ glue c d :: ds.
Proof.
  intros He [= Hd Hds]. unfold and_filters, alternatives.
  pose proof (alternatives_glue _ _ (first_clause f) _ _ He) as H.
  destruct (glue_last _ _ _) as [c' l']. cbn [first_clause more_clauses fst snd] in *.
  rewrite fmap_app, app_comm_cons, H, <- app_assoc. by subst.
Qed.

Lemma or_alternatives e f : alternatives (or_filters e f) = alternatives e ++ alternatives f.
Proof. unfold alternatives, or_filters. cbn [first_clause more_clauses]. by rewrite fmap_app. Qed.

Section Denotation.
Context {W : WinDivert} {L : WinDivertLaws W}.

Lemma glue_holds p c d : clause_holds p (glue c d) = clause_holds p c && clause_holds p d.
Proof. unfold clause_holds. cbn [glue first_test more_tests]. by rewrite forallb_more, andb_assoc. Qed.

Lemma matches_filter e p : filter_ok e = true -> matches (filter_text e) p = existsb (clause_holds p) (alternatives e).
Proof. intros He. by rewrite matches_law, holds_alternatives. Qed.

(** C30: What the operators mean.  [||] is the union of what its operands match.  [&&] writes no
    parentheses: the last alternative of the left operand and the first of the right one are
    joined, and every other alternative stays an alternative of the whole. *)
Theorem operators_denote e f es c d ds p :
  filter_ok e = true -> filter_ok f = true -> alternatives e = es ++ [c] -> alternatives f = d :: ds ->
  matches (WinDivertTrafficFilterType.or_ (filter_text e) (filter_text f)) p =
    matches (filter_text e) p || matches (filter_text f) p /\
  matches (WinDivertTrafficFilterType.and_ (filter_text e) (filter_text f)) p =
    existsb (clause_holds p) es || (clause_holds p c && clause_holds p d) || existsb (clause_holds p) ds.
Proof.
  intros He Hf Hes Hds. rewrite or_filters_text, and_text, !matches_filter by (done || by apply or_filters_ok || by apply and_filters_ok).
  split.
  - by rewrite or_alternatives, existsb_app.
  - rewrite (and_alternatives _ _ _ _ _ _ Hes Hds), existsb_app. cbn [existsb].
    by rewrite glue_holds, orb_assoc.
Qed.

(** [!] of one test is its negation, for a packet that has the field. *)
Lemma not_denotes x p :
  test_ok x = true -> match x with IsNot _ _ | NoFlag _ => False | _ => True end ->
  (forall f v, x = Is f v -> is_Some (value_of p f) /\ is_Some (literal v)) ->
  matches (WinDivertTrafficFilterType.not_ (test_text x)) p = negb (matches (test_text x) p).
Proof.
  intros Hx Hp Hv.
  assert (Ht : forall y, filter_text (mkFilter (mkClause y []) []) = test_text y)
    by (intros y; unfold filter_text, clause_text; by rewrite !app_nil_string).
  assert (Hok : forall y, test_ok y = true -> filter_ok (mkFilter (mkClause y []) []) = true)
    by (intros y Hy; unfold filter_ok, clause_ok; cbn [first_clause first_test]; by rewrite Hy).
  assert (Hm : forall y, test_ok y = true -> matches (test_text y) p = test_holds p y).
  { intros y Hy. rewrite <- Ht, matches_filter by by apply Hok. unfold clause_holds. cbn.
    by rewrite andb_true_r, orb_false_r. }
  destruct x as [f| |f v|]; [|done| |done].
  - rewrite not_flag by by apply bool_decide_eq_true_1 in Hx. by rewrite !Hm.
  - rewrite <- (Ht (Is f v)), not_first, !Ht, !Hm by (done || by apply Hok). cbn.
    destruct (Hv f v eq_refl) as [[a ->] [b ->]]. done.
Qed.

End Denotation.

(** * What the client captures *)

(** Filters that are clauses are joined to their conjunction. *)
Lemma clause_text_not_empty c : clause_ok c = true -> is_empty (clause_text c) = false.
Proof.
  intros [Ht _]%andb_true_iff. destruct (test_text_not_empty _ Ht) as (a & s & E).
  unfold clause_text. by rewrite E.
Qed.

Lemma glue_ok c d : clause_ok c = true -> clause_ok d = true -> clause_ok (glue c d) = true.
Proof. intros Hc Hd. apply (glue_last_ok c [] d) in Hc; [|done|done]. by apply andb_true_iff in Hc as [Hc _]. Qed.

Lemma and_clauses c d :
  clause_ok c = true -> clause_ok d = true ->
  WinDivertTrafficFilterType.and_ (clause_text c) (clause_text d) = clause_text (glue c d).
Proof.
  intros Hc Hd. unfold WinDivertTrafficFilterType.and_. rewrite !clause_text_not_empty by done.
  by rewrite glue_text.
Qed.

Lemma join_clauses c cs :
  forallb clause_ok (c :: cs) = true ->
  clause_ok (foldl glue c cs) = true /\
  CaptureFilters.join_filters (clause_text <$> c :: cs) = clause_text (foldl glue c cs).
Proof.
  intros [Hc Hcs]%andb_true_iff. unfold CaptureFilters.join_filters. cbn [fmap list_fmap foldl].
  unfold WinDivertTrafficFilterType.convert, WinDivertTrafficFilterType.assign.
  replace (WinDivertTrafficFilterType.and_ (WinDivertTrafficFilterType.make "") (clause_text c)) with (clause_text c)
    by (unfold WinDivertTrafficFilterType.and_; by rewrite clause_text_not_empty).
  revert c Hc. induction cs as [|d cs IH]; intros c Hc; [done|].
  cbn [forallb] in Hcs. apply andb_true_iff in Hcs as [Hd Hcs]. cbn [fmap list_fmap foldl].
  rewrite and_clauses by done. by apply IH, glue_ok.
Qed.

Section Captured.
Context {W : WinDivert} {L : WinDivertLaws W}.

Lemma glued_holds p c cs : clause_holds p (foldl glue c cs) = forallb (clause_holds p) (c :: cs).
Proof.
  revert c. induction cs as [|d cs IH]; intros c; cbn [foldl forallb]; [by rewrite andb_true_r|].
  rewrite IH. cbn [forallb]. by rewrite glue_holds, andb_assoc.
Qed.

Lemma joined_captures c cs p :
  forallb clause_ok (c :: cs) = true ->
  matches (CaptureFilters.join_filters (clause_text <$> c :: cs)) p = forallb (clause_holds p) (c :: cs).
Proof.
  intros Hok. destruct (join_clauses _ _ Hok) as [Hc ->].
  assert (E : forall d, clause_text d = filter_text (mkFilter d []))
    by (intros d; unfold filter_text; by rewrite app_nil_string).
  rewrite E, matches_filter by (unfold filter_ok; cbn [first_clause]; by rewrite Hc).
  cbn [alternatives first_clause more_clauses fmap list_fmap existsb]. by rewrite orb_false_r, glued_holds.
Qed.

End Captured.

Lemma dec_literal b : is_u8 b -> all_chars literal_char (dec b) = true.
Proof. revert b. apply forall_u8. by vm_compute. Qed.

Lemma drop_last_dot s : drop_last 1 (s +:+ ".")%string = s.
Proof.
  unfold drop_last. rewrite length_app_string. cbn [String.length].
  destruct (Nat.ltb_spec (String.length s + 1) 1); [lia|].
  replace (String.length s + 1 - 1)%nat with (String.length s) by lia. apply substring_prefix.
Qed.

Lemma address_text a b c d :
  NetAddr.to_string [a; b; c; d] = (dec a +:+ "." +:+ dec b +:+ "." +:+ dec c +:+ "." +:+ dec d)%string.
Proof. unfold NetAddr.to_string. cbn [dotted]. rewrite <- drop_last_dot. by rewrite !app_assoc_string. Qed.

Lemma address_literal addr : bytes addr -> msize addr = 4 -> literal_text (NetAddr.to_string addr) = true.
Proof.
  intros Hb Hs. destruct addr as [|a [|b [|c [|d [|]]]]]; try (unfold msize in Hs; cbn in Hs; lia).
  rewrite address_text. apply Forall_cons in Hb as [Ha Hb]. apply Forall_cons in Hb as [Hb Hc].
  apply Forall_cons in Hc as [Hc Hd]. apply Forall_cons in Hd as [Hd _]. unfold literal_text.
  rewrite !all_chars_append, !dec_literal by done. pose proof (dec_not_empty a Ha) as Hne.
  by destruct (dec a).
Qed.

(** The filters of [main], as clauses. *)
Definition address_test (field : string) (addr : list Z) : test := Is field (NetAddr.to_string addr).
Definition one (x : test) : clause := mkClause x [].
Definition forum : list Z := [195; 82; 146; 78].

Definition outgoing_clauses (vpn_address : list Z) : list clause :=
  mkClause (Flag "ip") [Flag "tcp"] ::
  (one <$> [negate (address_test "ip.SrcAddr" vpn_address); Flag "outbound"; IsNot "tcp.DstPort" "22";
            NoFlag "loopback"; address_test "ip.DstAddr" forum; Is "tcp.DstPort" "8080"]).
Definition incoming_clauses (vpn_address : list Z) : list clause :=
  mkClause (Flag "ip") [Flag "tcp"] ::
  (one <$> [Flag "inbound"; address_test "ip.SrcAddr" vpn_address; IsNot "tcp.SrcPort" "22";
            NoFlag "loopback"; address_test "ip.SrcAddr" forum]).

Lemma one_text x : clause_text (one x) = test_text x.
Proof. apply app_nil_string. Qed.

Lemma source_text addr :
  msize addr = 4 -> WinDivertTrafficFilter.source addr = test_text (address_test "ip.SrcAddr" addr).
Proof. intros Hs. unfold WinDivertTrafficFilter.source, NetAddr.get_addr_family. by rewrite Hs. Qed.

Lemma not_source addr :
  bytes addr -> msize addr = 4 ->
  WinDivertTrafficFilterType.not_ (WinDivertTrafficFilter.source addr) =
    clause_text (one (negate (address_test "ip.SrcAddr" addr))).
Proof.
  intros Hb Hs. rewrite source_text by done.
  pose proof (not_first "ip.SrcAddr" (NetAddr.to_string addr) [] []) as H.
  unfold filter_text, clause_text in H. cbn [first_clause more_clauses first_test more_tests clauses_text tests_text] in H.
  rewrite !app_nil_string in H. rewrite one_text. apply H.
  unfold filter_ok, clause_ok. cbn. by rewrite address_literal.
Qed.

Lemma clauses_ok addr :
  bytes addr -> msize addr = 4 ->
  forallb clause_ok (outgoing_clauses addr) = true /\ forallb clause_ok (incoming_clauses addr) = true.
Proof.
  intros Hb Hs. unfold outgoing_clauses, incoming_clauses, address_test, clause_ok. cbn.
  by rewrite address_literal.
Qed.

Lemma client_texts addr :
  bytes addr -> msize addr = 4 ->
  exists s, CaptureFilters.client_main addr = Some s /\
    CaptureFilters.outgoing_filters_data s = CaptureFilters.join_filters (clause_text <$> outgoing_clauses addr) /\
    CaptureFilters.incoming_filters_data s = CaptureFilters.join_filters (clause_text <$> incoming_clauses addr).
Proof.
  intros Hb Hs. unfold CaptureFilters.client_main, CaptureFilters.start_vpn_client,
    CaptureFilters.start_capture_outgoing_traffic, CaptureFilters.start_capture_incoming_traffic,
    CaptureFilters.apply_default_outgoing_filter, CaptureFilters.apply_default_incoming_filter.
  assert (Ha : NetAddr.of_string "195.82.146.78" = Some forum) by (vm_compute; reflexivity).
  rewrite Ha. cbn [mbind option_bind]. rewrite (not_source addr Hb Hs).
  eexists. split; [reflexivity|].
  cbn -[CaptureFilters.join_filters WinDivertTrafficFilter.source WinDivertTrafficFilterType.not_ clause_text].
  unfold outgoing_clauses, incoming_clauses. cbn [fmap list_fmap]. rewrite !one_text.
  by rewrite source_text.
Qed.

Section Client.
Context {W : WinDivert} {L : WinDivertLaws W}.

Lemma address_value a : bytes a -> msize a = 4 -> exists n, literal (NetAddr.to_string a) = Some n /\ load32 a 0 = Some n.
Proof.
  intros Hb Hs. rewrite literal_address by done. destruct (list4 a Hs) as (a1 & b & c & d & ->). by eexists.
Qed.

Lemma same_value a b n :
  bytes a -> bytes b -> msize a = 4 -> msize b = 4 -> load32 a 0 = Some n -> load32 b 0 = Some n -> a = b.
Proof.
  intros Ha Hb Hsa Hsb. destruct (list4 a Hsa) as (a0 & a1 & a2 & a3 & ->), (list4 b Hsb) as (b0 & b1 & b2 & b3 & ->).
  intros [= <-] [= E]. apply cat32_inj in E as (-> & -> & -> & ->); done.
Qed.

Lemma forum_bytes : bytes forum /\ msize forum = 4.
Proof. split; [repeat constructor; done|done]. Qed.

(** The value of a field, and what a comparison with it says. *)
Lemma is_holds p f v n : literal v = Some n -> test_holds p (Is f v) = true <-> value_of p f = Some n.
Proof.
  intros Hv. cbn. rewrite Hv. destruct (value_of p f) as [a|]; [|done].
  rewrite Z.eqb_eq. split; [by intros ->|by intros [= ->]].
Qed.

Lemma is_not_holds p f v n :
  literal v = Some n -> test_holds p (IsNot f v) = true <-> exists a, value_of p f = Some a /\ a <> n.
Proof.
  intros Hv. cbn. rewrite Hv. destruct (value_of p f) as [a|]; [|by split; [|intros (? & ? & _)]].
  rewrite negb_true_iff, Z.eqb_neq. split; [by exists a|]. by intros (b & [= ->] & ?).
Qed.

Lemma one_holds p x : clause_holds p (one x) = test_holds p x.
Proof. unfold clause_holds. cbn. by rewrite andb_true_r. Qed.

(** C28: The handle of the outgoing loop gets exactly the TCP packets to port 8080 of one address,
    195.82.146.78, that do not come from the address of the server: nothing else of the
    client's traffic enters the tunnel. *)
Theorem outgoing_captured addr s p :
  bytes addr -> msize addr = 4 -> CaptureFilters.client_main addr = Some s ->
  matches (CaptureFilters.outgoing_filters_data s) p = true <->
    flag p "ip" = true /\ flag p "tcp" = true /\ flag p "outbound" = true /\ flag p "loopback" = false /\
    (exists src, value_of p "ip.SrcAddr" = Some src /\ load32 addr 0 <> Some src) /\
    value_of p "ip.DstAddr" = load32 [195; 82; 146; 78] 0 /\ value_of p "tcp.DstPort" = Some 8080.
Proof.
  intros Hb Hs Hm. destruct (client_texts addr Hb Hs) as (s' & E & Ho & _).
  rewrite Hm in E. injection E as <-. rewrite Ho. unfold outgoing_clauses. rewrite joined_captures by by apply clauses_ok.
  destruct (address_value addr Hb Hs) as (n & Hn & ->).
  destruct (address_value forum) as (k & Hk & Ek); [apply forum_bytes..|]. change [195; 82; 146; 78] with forum. rewrite Ek.
  unfold address_test. cbn [fmap list_fmap forallb negate]. rewrite !andb_true_iff, !one_holds.
  rewrite (is_not_holds _ _ _ _ Hn), (is_holds _ _ _ _ Hk), (is_holds _ _ _ 8080) by (apply (literal_number 8080); concrete).
  rewrite (is_not_holds _ _ _ 22) by (apply (literal_number 22); concrete).
  unfold clause_holds. cbn [first_test more_tests forallb test_holds]. rewrite !andb_true_iff, negb_true_iff.
  split.
  - intros ((? & ? & _) & (a & Ha & ?) & ? & _ & ? & ? & ? & _). split_and!; try done.
    exists a. split; [done|]. congruence.
  - intros (? & ? & ? & ? & (a & Ha & Hne) & ? & Hp). split_and!; try done.
    + exists a. split; [done|]. congruence.
    + exists 8080. split; [done|lia].
Qed.

(** C7: The handle of the incoming loop asks for packets that come from the server and from
    195.82.146.78: with a server of any other address in the settings file, no packet is
    captured, and nothing the server sends back is ever decoded. *)
Theorem responses_never_captured `{Json} open_file st0 settings st addr s p :
  QVPNClientSettings.parse_settings open_file st0 (Some settings) = Some st ->
  member_text settings "addr" = Some (NetAddr.to_string addr) -> bytes addr -> msize addr = 4 ->
  addr <> [195; 82; 146; 78] ->
  CaptureFilters.client_main
    (QVPNClientConnectionSettings.get_ip_address (QVPNClientSettings.connection st)) = Some s ->
  matches (CaptureFilters.incoming_filters_data s) p = false.
Proof.
  intros Hp Ht Hb Hs Hne Hm.
  rewrite (client_address_parsed _ _ _ _ _ addr Hp Ht) in Hm by (apply parse_net_addr_to_string; [done|lia]).
  destruct (client_texts addr Hb Hs) as (s' & E & _ & Hi). rewrite Hm in E. injection E as <-. rewrite Hi.
  unfold incoming_clauses. rewrite joined_captures by by apply clauses_ok. apply not_true_is_false. intros Hc.
  destruct (address_value addr Hb Hs) as (n & Hn & En).
  destruct (address_value forum) as (k & Hk & Ek); [apply forum_bytes..|].
  unfold address_test in Hc. cbn [fmap list_fmap forallb] in Hc. rewrite !andb_true_iff, !one_holds in Hc.
  rewrite (is_holds _ _ _ _ Hn), (is_holds _ _ _ _ Hk) in Hc. destruct Hc as (_ & _ & Ha & _ & _ & Hf & _).
  rewrite Ha in Hf. injection Hf as ->.
  exact (Hne (same_value addr forum k Hb (proj1 forum_bytes) Hs (proj2 forum_bytes) En Ek)).
Qed.

End Client.

(** * A WinDivert for the witnesses *)

(** It reads a text word by word. *)
Fixpoint split_blank (s : string) : list string :=
  match s with
  | EmptyString => [EmptyString]
  | String c s =>
      if Ascii.eqb c blank then EmptyString :: split_blank s
      else match split_blank s with w :: ws => String c w :: ws | [] => [String c EmptyString] end
  end.

Definition flag_of (w : string) : test :=
  match w with String c f => if char_code c =? 33 then NoFlag f else Flag w | _ => Flag w end.

Definition read_test (ws : list string) : option (test * list string) :=
  match ws with
  | [] => None
  | f :: op :: v :: rest =>
      if String.eqb op "=" then Some (Is f v, rest)
      else if String.eqb op "!=" then Some (IsNot f v, rest)
      else Some (flag_of f, op :: v :: rest)
  | f :: rest => Some (flag_of f, rest)
  end.

Definition is_or (sep : string) : bool := String.eqb sep "or" || String.eqb sep "||".

Fixpoint read_filter (holds : test -> bool) (fuel : nat) (cl any : bool) (ws : list string) : bool :=
  match fuel with
  | O => false
  | S fuel =>
      match read_test ws with
      | None => false
      | Some (x, rest) =>
          let cl := cl && holds x in
          match rest with
          | [] => any || cl
          | sep :: rest =>
              if String.eqb sep "and" then read_filter holds fuel cl any rest
              else if is_or sep then read_filter holds fuel true (any || cl) rest
              else false
          end
      end
  end.

Record sample_packet : Type := mkSample { flags_on : list string; field_values : list (string * Z) }.
Definition sample_value (p : sample_packet) (f : string) : option Z :=
  snd <$> find (fun x => String.eqb (fst x) f) (field_values p).
Definition sample_literal (v : string) : option Z :=
  if avoids dot v then stoi v else a ← NetAddr.of_string v; load32 a 0.
Definition sample_holds (p : sample_packet) (x : test) : bool :=
  match x with
  | Flag f => bool_decide (f ∈ flags_on p)
  | NoFlag f => negb (bool_decide (f ∈ flags_on p))
  | Is f v => match sample_value p f, sample_literal v with Some a, Some b => a =? b | _, _ => false end
  | IsNot f v => match sample_value p f, sample_literal v with Some a, Some b => negb (a =? b) | _, _ => false end
  end.

#[local] Instance sample_windivert : WinDivert := {|
  packet := sample_packet;
  matches s p := let ws := split_blank s in read_filter (sample_holds p) (length ws) true false ws;
  flag p f := bool_decide (f ∈ flags_on p);
  value_of := sample_value;
  literal := sample_literal |}.

Lemma split_append a b : split_blank (a +:+ String blank b) = split_blank a ++ split_blank b.
Proof.
  induction a as [|c a IH]; [done|]. cbn [String.append split_blank]. rewrite IH.
  destruct (Ascii.eqb c blank); [done|].
  destruct (split_blank a) eqn:E; [|done]. by destruct a as [|d a]; cbn in E; repeat case_match.
Qed.

Lemma split_literal v : literal_text v = true -> split_blank v = [v].
Proof.
  intros [Hn Hv]%andb_true_iff. clear Hn. induction v as [|c v IH]; [done|].
  cbn in Hv. apply andb_true_iff in Hv as [Hc Hv]. cbn [split_blank]. rewrite IH by done.
  destruct (Ascii.eqb_spec c blank) as [->|]; done.
Qed.

Definition test_words (x : test) : list string :=
  match x with
  | Flag f => [f] | NoFlag f => [("!" +:+ f)%string]
  | Is f v => [f; "="; v]%string | IsNot f v => [f; "!="; v]%string
  end.
Definition tests_words (l : list test) : list string := mjoin ((fun x => "and"%string :: test_words x) <$> l).
Definition clause_words (c : clause) : list string := test_words (first_test c) ++ tests_words (more_tests c).
Definition clauses_words (l : list (bool * clause)) : list string :=
  mjoin ((fun x : bool * clause => (if fst x then "||" else "or")%string :: clause_words (snd x)) <$> l).

Lemma test_split x : test_ok x = true -> split_blank (test_text x) = test_words x.
Proof.
  destruct x as [f|f|f v|f v]; cbn [test_ok test_text test_words]; [| |intros [Hf Hv]%andb_true_iff; revert Hf..];
    intros Hf%bool_decide_eq_true_1; unfold flag_fields, value_fields in Hf.
  1-2: repeat (apply elem_of_cons in Hf as [->|Hf]; [done|]); by apply elem_of_nil in Hf.
  - change (" = " +:+ v)%string with (String blank ("=" +:+ String blank v)).
    rewrite !split_append, (split_literal v Hv).
    repeat (apply elem_of_cons in Hf as [->|Hf]; [done|]); by apply elem_of_nil in Hf.
  - change (" != " +:+ v)%string with (String blank ("!=" +:+ String blank v)).
    rewrite !split_append, (split_literal v Hv).
    repeat (apply elem_of_cons in Hf as [->|Hf]; [done|]); by apply elem_of_nil in Hf.
Qed.

Lemma tests_split a l :
  forallb test_ok l = true -> split_blank (a +:+ tests_text l) = split_blank a ++ tests_words l.
Proof.
  revert a. induction l as [|x l IH]; intros a Hl; cbn [tests_text].
  - by rewrite app_nil_string, app_nil_r.
  - cbn [forallb] in Hl. apply andb_true_iff in Hl as [Hx Hl].
    change (" and " +:+ test_text x +:+ tests_text l)%string
      with (String blank ("and" +:+ String blank (test_text x +:+ tests_text l))).
    rewrite !split_append, IH, test_split by done. done.
Qed.

Lemma clause_split c : clause_ok c = true -> split_blank (clause_text c) = clause_words c.
Proof. intros [Ht Hm]%andb_true_iff. unfold clause_text. by rewrite tests_split, test_split. Qed.

Lemma clauses_split a l :
  forallb (fun x : bool * clause => clause_ok (snd x)) l = true ->
  split_blank (a +:+ clauses_text l) = split_blank a ++ clauses_words l.
Proof.
  revert a. induction l as [|[bar c] l IH]; intros a Hl; cbn [clauses_text].
  - by rewrite app_nil_string, app_nil_r.
  - cbn [forallb snd] in Hl. apply andb_true_iff in Hl as [Hc Hl].
    assert (E : (or_text bar +:+ clause_text c +:+ clauses_text l =
      String blank ((if bar then "||" else "or") +:+ String blank (clause_text c +:+ clauses_text l)))%string)
      by (by destruct bar).
    rewrite E, !split_append, IH, clause_split by done. by destruct bar.
Qed.

Lemma read_test_words x rest :
  test_ok x = true ->
  match rest with [] => True | sep :: _ => sep = "and"%string \/ is_or sep = true end ->
  read_test (test_words x ++ rest) = Some (x, rest).
Proof.
  intros Hx Hr.
  assert (Hf : forall w, read_test (w :: rest) = Some (flag_of w, rest)).
  { intros w. destruct rest as [|sep [|v rest]]; [done|done|]. cbn [read_test]. unfold is_or in Hr.
    destruct (String.eqb_spec sep "=") as [->|]; [by destruct Hr|].
    destruct (String.eqb_spec sep "!=") as [->|]; [by destruct Hr|]. done. }
  destruct x as [f|f|f v|f v]; [|by cbn [test_words app]; rewrite Hf|done..].
  cbn [test_words app]. rewrite Hf. apply bool_decide_eq_true_1 in Hx. unfold flag_fields in Hx.
  repeat (apply elem_of_cons in Hx as [->|Hx]; [done|]); by apply elem_of_nil in Hx.
Qed.

Lemma read_clause holds x l rest n cl any :
  test_ok x = true -> forallb test_ok l = true ->
  match rest with [] => True | sep :: _ => is_or sep = true end ->
  read_filter holds (length l + S n) cl any (test_words x ++ tests_words l ++ rest) =
    let b := cl && holds x && forallb holds l in
    match rest with [] => any || b | _ :: rest => read_filter holds n true (any || b) rest end.
Proof.
  revert x cl. induction l as [|y l IH]; intros x cl Hx Hl Hr.
  - cbn [length Nat.add read_filter tests_words fmap list_fmap mjoin list_join app forallb].
    rewrite read_test_words by (done || (destruct rest; [done|by right])). rewrite andb_true_r.
    destruct rest as [|sep rest]; [done|]. rewrite Hr.
    destruct (String.eqb_spec sep "and") as [->|]; done.
  - cbn [forallb] in Hl. apply andb_true_iff in Hl as [Hy Hl].
    cbn [length Nat.add read_filter]. rewrite read_test_words by (done || by left).
    cbn [tests_words fmap list_fmap mjoin list_join app String.eqb Ascii.eqb Bool.eqb].
    change (mjoin _) with (tests_words l). rewrite <- app_assoc. rewrite IH by done.
    cbn [forallb]. by rewrite !andb_assoc.
Qed.

Lemma test_words_length x : (1 <= length (test_words x))%nat.
Proof. destruct x; cbn; lia. Qed.

Lemma tests_words_length l : (2 * length l <= length (tests_words l))%nat.
Proof.
  induction l as [|x l IH]; [done|].
  change (tests_words (x :: l)) with (("and"%string :: test_words x) ++ tests_words l).
  rewrite length_app. cbn [length]. pose proof (test_words_length x). lia.
Qed.

Lemma read_clauses holds c l fuel any :
  clause_ok c = true -> forallb (fun x : bool * clause => clause_ok (snd x)) l = true ->
  (length (clause_words c ++ clauses_words l) <= fuel)%nat ->
  read_filter holds fuel true any (clause_words c ++ clauses_words l) =
    any || existsb (fun d => holds (first_test d) && forallb holds (more_tests d)) (c :: (snd <$> l)).
Proof.
  revert c fuel any. induction l as [|[bar d] l IH]; intros c fuel any Hc Hl Hf;
    pose proof (test_words_length (first_test c)) as H1; pose proof (tests_words_length (more_tests c)) as H2;
    unfold clause_words in Hf at 1; rewrite !length_app in Hf;
    apply andb_true_iff in Hc as [Ht Hm]; unfold clause_words at 1; rewrite <- app_assoc;
    replace fuel with (length (more_tests c) + S (fuel - length (more_tests c) - 1))%nat by lia;
    rewrite read_clause by (done || (destruct bar; done)); cbn [existsb].
  - cbn [clauses_words fmap list_fmap mjoin list_join]. cbv zeta. cbn [andb]. by rewrite orb_false_r.
  - cbn [forallb snd] in Hl. apply andb_true_iff in Hl as [Hd Hl].
    cbn [clauses_words fmap list_fmap mjoin list_join fst snd app andb]. change (mjoin _) with (clauses_words l).
    rewrite IH; [cbn [existsb fmap list_fmap snd]; by rewrite !orb_assoc|done|done|].
    cbn [clauses_words fmap list_fmap mjoin list_join fst snd app length] in Hf.
    change (mjoin _) with (clauses_words l) in Hf. lia.
Qed.

Lemma sample_number n : is_u16 n -> sample_literal (dec n) = Some n.
Proof.
  intros Hn. destruct (dec_digits n) as (Ha & Hd & c & s & E & Hc); [unfold is_u16 in Hn; lia|].
  unfold sample_literal.
  assert (Hv : forall t, all_chars is_digit t = true -> avoids dot t = true).
  { induction t as [|a t IH]; [done|]. cbn. intros [Hda Ht]%andb_true_iff. rewrite IH by done.
    destruct (Ascii.eqb_spec a dot) as [->|]; done. }
  rewrite Hv by done. destruct (digit_not_space c Hc) as (Hs & H45 & H43). unfold stoi. rewrite E in *.
  cbn [skip_space]. rewrite Hs, (proj2 (Z.eqb_neq _ _) H45), (proj2 (Z.eqb_neq _ _) H43), Hd.
  cbn [mbind option_bind]. unfold is_u16 in Hn. case_decide; [done|lia].
Qed.

Lemma sample_address a : bytes a -> msize a = 4 -> sample_literal (NetAddr.to_string a) = load32 a 0.
Proof.
  intros Hb Hs. unfold sample_literal. rewrite parse_net_addr_to_string by (done || lia).
  destruct (list4 a Hs) as (b0 & b1 & b2 & b3 & ->). rewrite address_text.
  rewrite !avoids_app, andb_false_r. done.
Qed.

#[local] Instance sample_windivert_laws : WinDivertLaws sample_windivert.
Proof.
  split; [|apply sample_number|apply sample_address].
  intros e p He. rewrite holds_alternatives. apply andb_true_iff in He as [Hc Hl].
  unfold filter_text, matches, sample_windivert. cbv zeta. rewrite clauses_split, clause_split by done.
  by rewrite read_clauses.
Qed.

Definition vpn_server : list Z := [10; 0; 0; 7].
Definition forum_request : @packet sample_windivert :=
  mkSample ["ip"; "tcp"; "outbound"]
    [("ip.SrcAddr", 167772161); ("ip.DstAddr", 3276968526); ("tcp.DstPort", 8080)]%string.
Definition server_answer : @packet sample_windivert :=
  mkSample ["ip"; "tcp"; "inbound"]
    [("ip.SrcAddr", 167772167); ("ip.DstAddr", 167772161); ("tcp.SrcPort", 443)]%string.

Lemma operators_denote_witness :
  let port := mkFilter (one (Is "tcp.SrcPort" "80")) [(true, one (Is "udp.SrcPort" "80"))] in
  let ip := mkFilter (one (Flag "ip")) [] in
  filter_text port = WinDivertTrafficFilter.src_port 80 /\
  matches (WinDivertTrafficFilterType.or_ (filter_text port) (filter_text ip)) server_answer =
    matches (filter_text port) server_answer || matches (filter_text ip) server_answer /\
  matches (WinDivertTrafficFilterType.and_ (filter_text port) (filter_text ip)) server_answer =
    existsb (clause_holds server_answer) [one (Is "tcp.SrcPort" "80")] ||
      (clause_holds server_answer (one (Is "udp.SrcPort" "80")) && clause_holds server_answer (one (Flag "ip"))) ||
      existsb (clause_holds server_answer) [].
Proof.
  intros port ip. split; [vm_compute; reflexivity|].
  apply (operators_denote port ip [one (Is "tcp.SrcPort" "80")] (one (Is "udp.SrcPort" "80")) (one (Flag "ip")) []
    server_answer); vm_compute; reflexivity.
Defined.

(** Without parentheses, a packet of IPv6 passes a filter that ends in [&& ipv4]. *)
Lemma parentheses_lost :
  let p : @packet sample_windivert := mkSample ["ipv6"; "tcp"] [("tcp.SrcPort", 80)]%string in
  matches WinDivertTrafficFilter.ipv4 p = false /\
  matches (WinDivertTrafficFilterType.and_ (WinDivertTrafficFilter.src_port 80) WinDivertTrafficFilter.ipv4) p = true.
Proof. split; vm_compute; reflexivity. Qed.

(** A negated pair of ports still matches the packets of the second comparison. *)
Lemma negated_ports :
  let p : @packet sample_windivert := mkSample ["ip"; "udp"] [("udp.SrcPort", 53)]%string in
  matches (WinDivertTrafficFilter.src_port 53) p = true /\
  matches (WinDivertTrafficFilterType.not_ (WinDivertTrafficFilter.src_port 53)) p = true.
Proof. split; vm_compute; reflexivity. Qed.

(** [||] with an empty operand is empty. *)
Lemma or_empty f :
  WinDivertTrafficFilterType.or_ f EmptyString = EmptyString /\ WinDivertTrafficFilterType.or_ EmptyString f = EmptyString.
Proof. split; [by destruct f|done]. Qed.

Lemma outgoing_captured_witness :
  exists s, CaptureFilters.client_main vpn_server = Some s /\
    matches (CaptureFilters.outgoing_filters_data s) forum_request = true.
Proof.
  destruct (client_texts vpn_server ltac:(concrete) eq_refl) as (s & Hs & _).
  exists s. split; [exact Hs|].
  apply (outgoing_captured vpn_server s forum_request); [concrete|reflexivity|exact Hs|].
  split_and!; try reflexivity. exists 167772161. split; [reflexivity|discriminate].
Defined.

Definition example_client_file : value :=
  Member "addr_type" (Number 4) (Member "addr" (Text "10.0.0.7") (Member "port" (Number 5151)
    (Member "proto" (Number 6) (Member "mode" (Number 0) (Member "crypto_method" (Number 0)
      (Member "key" (Text "key") (Member "auth_data" (Text "user") (Member "whitelists" Null Null)))))))).
Definition no_client_settings : QVPNClientSettings.t :=
  QVPNClientSettings.mk [] (QVPNClientConnectionSettings.of_ipv4 [0; 0; 0; 0] 0 TCP 0)
    (QVPNClientCryptoSettings.make 0 "") (QVPNClientAuthSettings.make "") [].

Definition example_client : QVPNClientSettings.t :=
  QVPNClientSettings.mk [] (QVPNClientConnectionSettings.mk (QVPNConnectionEntity.mk vpn_server 5151 TCP 0))
    (QVPNClientCryptoSettings.make 0 "key") (QVPNClientAuthSettings.mk "user") [].

Lemma responses_never_captured_witness :
  exists s,
    QVPNClientSettings.parse_settings (H := sample_json) (fun _ => None) no_client_settings
      (Some example_client_file) = Some example_client /\
    CaptureFilters.client_main vpn_server = Some s /\
    matches (CaptureFilters.incoming_filters_data s) server_answer = false.
Proof.
  assert (E : QVPNClientSettings.parse_settings (H := sample_json) (fun _ => None) no_client_settings
    (Some example_client_file) = Some example_client) by (vm_compute; reflexivity).
  destruct (client_texts vpn_server ltac:(concrete) eq_refl) as (s & Hs & _).
  exists s. split; [exact E|]. split; [exact Hs|].
  apply (responses_never_captured (H := sample_json) (fun _ => None) no_client_settings example_client_file
    example_client vpn_server s server_answer E); [reflexivity|concrete|reflexivity|discriminate|exact Hs].
Defined.
