(* ===== verification/Startup.v ===== *)
(** Starting client and server: what the constructors of the two drivers print of the settings
    and which sockets they make (src/QVPN/QVPN Lib/include/qvpn_driver.hpp), the names of modes
    and protocols they print, and the version of the library
    (src/QVPN/QVPN Lib/include/qvpn_lib.hpp, src/QVPN/QVPN Lib/src/qvpn_lib.cpp).

    [None] is undefined behaviour, here the access behind the end of an array of names. *)
From S2P Require Import Prelude Addr Transport Layers Settings Installer Driver Sockets Connections.

(** * Names *)

(** [QVPNVerboser]: the table of network protocols, and the arrays that a mode indexes. *)
Module ModeVerboser.

Definition net_names : Type := gmap Z string.
Definition initial_net_names : net_names := list_to_map [(IPv4, "IPv4"%string); (IPv6, "IPv6"%string)].
Definition net_verbose (net_verbose_ : net_names) (net : Z) : string := default EmptyString (net_verbose_ !! net).
Definition register_net_verbose (net_verbose_ : net_names) (net : Z) (verbose : string) : net_names :=
  <[net := verbose]> net_verbose_.

Definition client_work_modes_ : list string :=
  ["VPN Client"; "Proxy client"; "Anti DPI + server"; "Anti DPI"; "DPI Terror"]%string.
Definition server_work_modes_ : list string :=
  ["VPN Server"; "Server Proxy Node"; "Anti DPI Server"; "DPI Terror Server"]%string.
Definition crypto_modes_ : list string := ["No crypto"]%string.

Definition at_ (names : list string) (i : Z) : option string :=
  if decide (0 <= i) then names !! Z.to_nat i else None.
Definition client_mode_verbose (mode : Z) : option string := at_ client_work_modes_ mode.
Definition server_mode_verbose (mode : Z) : option string := at_ server_work_modes_ mode.
Definition work_mode_verbose (mode : Z) : option string :=
  c ← client_mode_verbose mode; s ← server_mode_verbose mode; Some (c +:+ "/" +:+ s)%string.
Definition crypto_mode_verbose (crypto : Z) : option string := at_ crypto_modes_ crypto.

End ModeVerboser.

(** [QVPNModeVerbose]: [operator[]] puts an empty name, or the mode 0, for what it does not know. *)
Module QVPNModeVerbose.

Definition CLIENT_VPN : Z := 0.
Definition CLIENT_PROXY_NODE : Z := 1.
Definition CLIENT_ANTI_DPI_NODE : Z := 2.
Definition CLIENT_ANTI_DPI : Z := 3.
Definition CLIENT_DPI_TERROR : Z := 99.
Definition SERVER_VPN : Z := 0.
Definition SERVER_PROXY_NODE : Z := 1.
Definition SERVER_ANTI_DPI_NODE : Z := 2.
Definition SERVER_DPI_TERROR : Z := 99.

Definition client_verboses_ : gmap Z string :=
  list_to_map [(CLIENT_VPN, "QVPN Mode"%string); (CLIENT_PROXY_NODE, "Proxy Mode"%string);
    (CLIENT_ANTI_DPI_NODE, "Anti DPI through server Mode"%string); (CLIENT_ANTI_DPI, "Anti DPI Mode"%string);
    (CLIENT_DPI_TERROR, "DPI Terror Mode"%string)].
Definition client_modes_ : gmap string Z :=
  list_to_map [("QVPN Mode"%string, CLIENT_VPN); ("Proxy Mode"%string, CLIENT_PROXY_NODE);
    ("Anti DPI through server Mode"%string, CLIENT_ANTI_DPI_NODE); ("Anti DPI Mode"%string, CLIENT_ANTI_DPI);
    ("DPI Terror Mode"%string, CLIENT_DPI_TERROR)].
Definition server_verboses_ : gmap Z string :=
  list_to_map [(SERVER_VPN, "QVPN Mode"%string); (SERVER_PROXY_NODE, "Proxy Mode"%string);
    (SERVER_ANTI_DPI_NODE, "Anti DPI server Mode"%string); (SERVER_DPI_TERROR, "DPI Terror Mode"%string)].
Definition server_modes_ : gmap string Z :=
  list_to_map [("QVPN Mode"%string, SERVER_VPN); ("Proxy Mode"%string, SERVER_PROXY_NODE);
    ("Anti DPI server Mode"%string, SERVER_ANTI_DPI_NODE); ("DPI Terror Mode"%string, SERVER_DPI_TERROR)].

Definition subscript {K V} `{Countable K} (empty : V) (m : gmap K V) (k : K) : V * gmap K V :=
  match m !! k with Some v => (v, m) | None => (empty, <[k := empty]> m) end.
Definition get_client_mode_verbose : gmap Z string -> Z -> string * gmap Z string := subscript EmptyString.
Definition get_server_mode_verbose : gmap Z string -> Z -> string * gmap Z string := subscript EmptyString.
Definition get_client_mode_by_verbose : gmap string Z -> string -> Z * gmap string Z := subscript 0.
Definition get_server_mode_by_verbose : gmap string Z -> string -> Z * gmap string Z := subscript 0.

(** The name of every mode leads back to it. *)
Lemma modes_roundtrip :
  (forall mode name, client_verboses_ !! mode = Some name -> fst (get_client_mode_by_verbose client_modes_ name) = mode) /\
  (forall mode name, server_verboses_ !! mode = Some name -> fst (get_server_mode_by_verbose server_modes_ name) = mode).
Proof.
  assert (H : map_Forall (fun mode name => fst (get_client_mode_by_verbose client_modes_ name) = mode) client_verboses_)
    by (apply (bool_decide_unpack _); vm_compute; done).
  assert (H' : map_Forall (fun mode name => fst (get_server_mode_by_verbose server_modes_ name) = mode) server_verboses_)
    by (apply (bool_decide_unpack _); vm_compute; done).
  split; [exact H|exact H'].
Qed.

End QVPNModeVerbose.

(** * The version of the library *)

Module QVPNLib.

Definition lib_name_ : string := "QVPN Library/Framework".
Definition short_lib_name_ : string := "QVPN Lib".
Definition major_ver_ : Z := 0.
Definition minor_ver_ : Z := 5.
Definition patch_ver_ : Z := 5.
Definition last_compatible_major_ver_ : Z := 0.
Definition last_compatible_minor_ver_ : Z := 5.
Definition last_compatible_patch_ver_ : Z := 0.

(** The loop appends the remainder as a character, lowest digit first. *)
Fixpoint number_loop (fuel : nat) (temp : Z) (result : string) : string :=
  match fuel with
  | O => result
  | S fuel =>
      if temp =? 0 then result
      else number_loop fuel (temp / 10)
             (result +:+ String (Ascii.ascii_of_N (Z.to_N (temp mod 10))) EmptyString)%string
  end.
(** Ten turns are enough for a [UInt]. *)
Definition u_number_to_string (value : Z) : string :=
  if value =? 0 then "0" else number_loop 11 value EmptyString.

Definition get_short_library_name : string := short_lib_name_.
Definition get_library_name : string := lib_name_.
Definition get_major_version : Z := major_ver_.
Definition get_minor_version : Z := minor_ver_.
Definition get_patch_version : Z := patch_ver_.
Definition get_library_version : string :=
  (u_number_to_string major_ver_ +:+ "." +:+ u_number_to_string minor_ver_ +:+ "." +:+
   u_number_to_string patch_ver_)%string.
Definition get_full_library_name : string :=
  (lib_name_ +:+ " v" +:+ u_number_to_string major_ver_ +:+ "." +:+ u_number_to_string minor_ver_ +:+ "." +:+
   u_number_to_string patch_ver_)%string.
Definition is_compatible (major minor patch : Z) : bool :=
  if major <? last_compatible_major_ver_ then false
  else if minor <? last_compatible_minor_ver_ then false
  else if patch <? last_compatible_patch_ver_ then false
  else true.

Lemma number_loop_total n temp result :
  0 <= temp < 10 ^ Z.of_nat n -> forall m, (n <= m)%nat -> number_loop m temp result = number_loop n temp result.
Proof.
  revert temp result. induction n as [|n IH]; intros temp result Ht m Hm.
  - assert (temp = 0) as -> by (cbn in Ht; lia). by destruct m.
  - destruct m as [|m]; [lia|]. cbn [number_loop]. destruct (temp =? 0); [done|]. apply IH; [|lia].
    rewrite Nat2Z.inj_succ, Z.pow_succ_r in Ht by lia. split; [apply Z.div_pos; lia|].
    apply Z.div_lt_upper_bound; lia.
Qed.

(** The version is not printed in digits, and the number of a later version is taken for an incompatible one. *)
Lemma version_text :
  get_library_version = ("0." +:+ String (Ascii.ascii_of_nat 5) "." +:+ String (Ascii.ascii_of_nat 5) "")%string /\
  is_compatible 1 0 0 = false.
Proof. by split. Qed.

End QVPNLib.

(** * The texts of the settings *)

Module SettingsInfo.
Import ModeVerboser.

(** What the texts of client and server share: a line, the frame, and the tables of names. *)
Definition line (s : string) : string := (s +:+ endl)%string.
Definition stars : string :=
  line "*******************************************************************************************************************".

Section Texts.
Context (N : net_names) (T : QVPNVerboser.tables).

Definition get_connection_info (s : QVPNClientConnectionSettings.t) : option string :=
  let e := QVPNClientConnectionSettings.data_ s in
  let addr_ := QVPNConnectionEntity.get_ip_address e in
  mode ← client_mode_verbose (QVPNConnectionEntity.get_work_mode e);
  Some (line "Connection info:" +:+ line ("Work mode: " +:+ mode) +:+
    line ("Net protocol: " +:+ net_verbose N (NetAddr.get_addr_family addr_) +:+ " Transport protocol: " +:+
          QVPNVerboser.transport_verbose T (QVPNConnectionEntity.get_transport_proto e)) +:+
    line ("Server addr: " +:+ NetAddr.to_string addr_ +:+ ":" +:+ dec (QVPNConnectionEntity.get_port e)))%string.

Definition get_crypto_info (s : QVPNClientCryptoSettings.t) : option string :=
  name ← crypto_mode_verbose (QVPNClientCryptoSettings.crypto_method_ s);
  Some (line "Crypto info:" +:+ line name)%string.

Definition get_auth_info (s : QVPNClientAuthSettings.t) : string :=
  (line "Authentication data:" +:+ line (QVPNClientAuthSettings.auth_data_ s))%string.

Definition get_client_settings_info (s : QVPNClientSettings.t) : option string :=
  layers ← QVPNLayersSettings.get_layers_info (QVPNClientSettings.layers_ s);
  connection ← get_connection_info (QVPNClientSettings.connection s);
  crypto ← get_crypto_info (QVPNClientSettings.crypto s);
  Some (stars +:+ stars +:+ line "QVPN Client App Info" +:+ line layers +:+ line connection +:+ line crypto +:+
        line (get_auth_info (QVPNClientSettings.auth s)) +:+ stars +:+ stars)%string.

Fixpoint addrs_lines (data_ : QVPNServerConnectionSettings.t) : string :=
  match data_ with
  | [] => EmptyString
  | e :: data_ =>
      (line (net_verbose N (QVPNConnectionEntity.get_net_proto e) +:+ " " +:+
             QVPNVerboser.transport_verbose T (QVPNConnectionEntity.get_transport_proto e) +:+ " " +:+
             QVPNConnectionEntity.to_string e) +:+ addrs_lines data_)%string
  end.
Definition get_addrs_info (data_ : QVPNServerConnectionSettings.t) : string :=
  (line "Listens on:" +:+ addrs_lines data_)%string.

Fixpoint crypto_lines (data_ : QVPNServerCryptoSettings.t) : option string :=
  match data_ with
  | [] => Some EmptyString
  | c :: data_ => name ← crypto_mode_verbose c; rest ← crypto_lines data_; Some (line name +:+ rest)%string
  end.
Definition get_supported_crypto_info (data_ : QVPNServerCryptoSettings.t) : option string :=
  rest ← crypto_lines data_; Some (line "Supported crypto methods: " +:+ rest)%string.

Definition get_server_settings_info (s : QVPNServerSettings.t) : option string :=
  layers ← QVPNLayersSettings.get_layers_info (QVPNServerSettings.layers_ s);
  crypto ← get_supported_crypto_info (QVPNServerSettings.crypto s);
  Some (stars +:+ stars +:+ line "QVPN Server App Info:" +:+ line layers +:+ line crypto +:+
        line (get_addrs_info (QVPNServerSettings.connection s)) +:+ stars +:+ stars)%string.

End Texts.
End SettingsInfo.

(** * The constructors of the drivers, and the settings [main] gives them *)

Module Mains.
Import SettingsInfo.

(** [QVPNClientSettings settings{}] and [QVPNServerSettings settings{}]: scalars are zero. *)
Definition client_settings : QVPNClientSettings.t :=
  QVPNClientSettings.mk QVPNLayersSettings.default
    (QVPNClientConnectionSettings.mk (QVPNConnectionEntity.mk NetAddr.default 0 0 0))
    (QVPNClientCryptoSettings.mk EmptyString 0) (QVPNClientAuthSettings.mk EmptyString) [].
Definition server_settings : QVPNServerSettings.t :=
  QVPNServerSettings.mk QVPNLayersSettings.default [] []
    (QVPNDatabaseSettings.mk EmptyString EmptyString EmptyString EmptyString 0).

Definition client_with_layers (s : QVPNClientSettings.t) : QVPNClientSettings.t :=
  QVPNClientSettings.mk (QVPNLayersSettings.apply_strategy (QVPNClientSettings.layers_ s) DefaultLayersStrategy.make)
    (QVPNClientSettings.connection s) (QVPNClientSettings.crypto s) (QVPNClientSettings.auth s)
    (QVPNClientSettings.whitelists_ s).
Definition server_with_layers (s : QVPNServerSettings.t) : QVPNServerSettings.t :=
  QVPNServerSettings.mk (QVPNLayersSettings.apply_strategy (QVPNServerSettings.layers_ s) DefaultLayersStrategy.make)
    (QVPNServerSettings.connection s) (QVPNServerSettings.crypto s) (QVPNServerSettings.database s).

Section Constructors.
Context `{Json} `{SysSockets} (N : ModeVerboser.net_names) (T : QVPNVerboser.tables).
Context (open_file : string -> option string).

(** The text it prints, and its socket. *)
Definition client_driver (settings_ : QVPNClientSettings.t) : io (string * QVPN_Socket.t) :=
  text ← lift (get_client_settings_info N T settings_);
  let net_proto := QVPNClientConnectionSettings.get_net_proto (QVPNClientSettings.connection settings_) in
  let t_proto := QVPNClientConnectionSettings.get_transport_proto (QVPNClientSettings.connection settings_) in
  socket_ ← QVPNNetTools.create_socket net_proto t_proto;
  mret (text, socket_).

Definition server_driver (settings_ : QVPNServerSettings.t) : io (string * list QVPN_Socket.t) :=
  text ← lift (get_server_settings_info N T settings_);
  sockets ← ServerConnections.make_vpn_sockets
    (QVPNServerConnectionSettings.get_addrs (QVPNServerSettings.connection settings_));
  mret (text, sockets).

(** [main] of QVPN Client App and of QVPN Server App up to the driver. *)
Definition client_start (file : option json) : io (string * QVPN_Socket.t) :=
  settings ← lift (QVPNClientSettings.parse_settings open_file client_settings file);
  client_driver (client_with_layers settings).
Definition server_start (file : option json) : io (string * list QVPN_Socket.t) :=
  settings ← lift (QVPNServerSettings.parse_settings server_settings file);
  server_driver (server_with_layers settings).

End Constructors.
End Mains.

(** * Which settings start *)

Import Mains SettingsInfo.

(** The crypto method of the client is the one of its file; its work mode and layers are those it had. *)
Lemma client_settings_kept `{Json} open_file s settings st crypto :
  QVPNClientSettings.parse_settings open_file s (Some settings) = Some st ->
  member_number settings "crypto_method" = Some crypto ->
  QVPNClientCryptoSettings.crypto_method_ (QVPNClientSettings.crypto st) = u16 (u32 crypto) /\
  QVPNClientSettings.layers_ st = QVPNClientSettings.layers_ s /\
  QVPNConnectionEntity.mode_ (QVPNClientConnectionSettings.data_ (QVPNClientSettings.connection st)) =
    QVPNConnectionEntity.mode_ (QVPNClientConnectionSettings.data_ (QVPNClientSettings.connection s)).
Proof.
  intros E Hc. unfold QVPNClientSettings.parse_settings in E. rewrite Hc in E.
  apply bind_Some in E as (ty & _ & E). apply bind_Some in E as (addr & _ & E).
  apply bind_Some in E as (port & _ & E). apply bind_Some in E as (proto & _ & E).
  apply bind_Some in E as (mode & _ & E). apply bind_Some in E as (c & Hconn & E).
  cbn [mbind option_bind] in E. apply bind_Some in E as (key & _ & E).
  apply bind_Some in E as (auth & _ & E). apply bind_Some in E as (wl & _ & E).
  apply bind_Some in E as (ws & _ & [= <-]). apply bind_Some in Hconn as (e & He & [= <-]).
  apply bind_Some in He as (a & _ & [= <-]). done.
Qed.

Lemma crypto_name crypto :
  is_Some (ModeVerboser.crypto_mode_verbose (u16 crypto)) <-> u16 crypto = 0.
Proof.
  pose proof (Z.mod_pos_bound crypto 65536 ltac:(lia)) as Hb. unfold u16 in *.
  unfold ModeVerboser.crypto_mode_verbose, ModeVerboser.at_. rewrite decide_True by lia.
  split; [|intros ->; by eexists].
  intros [x Hx]. apply lookup_lt_Some in Hx. cbn in Hx. lia.
Qed.

Section Starts.
Context `{Json} `{SysSockets} (N : ModeVerboser.net_names) (T : QVPNVerboser.tables).

Lemma client_info_defined s :
  is_Some (get_client_settings_info N T s) <->
    is_Some (QVPNLayersSettings.get_layers_info (QVPNClientSettings.layers_ s)) /\
    is_Some (ModeVerboser.client_mode_verbose
      (QVPNConnectionEntity.mode_ (QVPNClientConnectionSettings.data_ (QVPNClientSettings.connection s)))) /\
    is_Some (ModeVerboser.crypto_mode_verbose (QVPNClientCryptoSettings.crypto_method_ (QVPNClientSettings.crypto s))).
Proof.
  unfold get_client_settings_info, get_connection_info, get_crypto_info, QVPNConnectionEntity.get_work_mode.
  destruct (QVPNLayersSettings.get_layers_info _); [|by split; [intros [? ?]|intros ([? ?] & _)]].
  destruct (ModeVerboser.client_mode_verbose _); [|by split; [intros [? ?]|intros (_ & [? ?] & _)]].
  destruct (ModeVerboser.crypto_mode_verbose _); [|by split; [intros [? ?]|intros (_ & _ & [? ?])]].
  split; intros _; [split_and!|]; by eexists.
Qed.

Lemma client_driver_defined s k :
  is_Some (client_driver N T s k) <-> is_Some (get_client_settings_info N T s).
Proof.
  unfold client_driver. destruct (get_client_settings_info N T s) as [text|];
    [|by split; intros [? ?]].
  split; [intros _; by eexists|]. intros _.
  unfold mbind, io_bind, lift, QVPNNetTools.create_socket, QVPN_Socket.create, call, mbind, io_bind.
  destruct (sys_socket _ _ _ k). by eexists.
Qed.

(** C29: The client of a file that parses: it prints its settings before anything else, and the print
    is defined exactly if the crypto method is 0 in sixteen bits.  For every other method it
    reads behind its only name, and no socket is ever made.  The work mode that it prints is
    that of a VPN client, whatever the file says. *)
Theorem client_starts_without_crypto open_file settings st crypto k :
  QVPNClientSettings.parse_settings open_file client_settings (Some settings) = Some st ->
  member_number settings "crypto_method" = Some crypto ->
  (is_Some (client_start N T open_file (Some settings) k) <-> crypto mod 65536 = 0) /\
  ModeVerboser.client_mode_verbose
    (QVPNConnectionEntity.mode_ (QVPNClientConnectionSettings.data_ (QVPNClientSettings.connection st))) =
    Some "VPN Client"%string.
Proof.
  intros Hp Hc. destruct (client_settings_kept _ _ _ _ _ Hp Hc) as (Hm & Hl & Hw). rewrite Hw. split; [|done].
  replace (crypto mod 65536) with (u16 (u32 crypto))
    by (unfold u16, u32; apply Z.mod_mod_divide; by exists 65536).
  rewrite <- crypto_name, <- Hm. unfold client_start. rewrite Hp.
  change ((lift (Some st) ≫= _) k) with (client_driver N T (client_with_layers st) k).
  rewrite client_driver_defined, client_info_defined.
  cbn [client_with_layers QVPNClientSettings.layers_ QVPNClientSettings.connection QVPNClientSettings.crypto].
  rewrite Hl, Hw. split; [by intros (_ & _ & ?)|]. intros ?. split_and!; [by eexists|by eexists|done].
Qed.

(** The server that lists a crypto method other than 0 does not get to its sockets. *)
Lemma server_crypto_undefined settings st k :
  QVPNServerSettings.parse_settings server_settings (Some settings) = Some st ->
  Exists (fun c => u16 c <> 0) (QVPNServerSettings.crypto st) -> Forall is_u16 (QVPNServerSettings.crypto st) ->
  server_start N T (Some settings) k = None.
Proof.
  intros Hp He Hu. unfold server_start. rewrite Hp.
  change ((lift (Some st) ≫= _) k) with (server_driver N T (server_with_layers st) k).
  unfold server_driver, get_server_settings_info, get_supported_crypto_info. cbn [server_with_layers QVPNServerSettings.crypto].
  assert (E : crypto_lines (QVPNServerSettings.crypto st) = None).
  { induction He as [c cs Hc|c cs He IH]; apply Forall_cons in Hu as [Hc' Hu]; cbn [crypto_lines].
    - destruct (ModeVerboser.crypto_mode_verbose c) eqn:E; [|done]. exfalso. apply Hc, crypto_name.
      rewrite u16_id, E by done. by eexists.
    - destruct (ModeVerboser.crypto_mode_verbose c); [|done]. cbn [mbind option_bind]. by rewrite IH. }
  rewrite E. destruct (QVPNLayersSettings.get_layers_info _); done.
Qed.

End Starts.

(** src/data/client_settings_example.json, with another crypto method. *)
Definition crypto_file (crypto : Z) : value :=
  Member "mode" (Number 0) (Member "addr_type" (Number 4) (Member "addr" (Text "127.0.0.1") (Member "port" (Number 5151)
    (Member "proto" (Number 6) (Member "crypto_method" (Number crypto) (Member "key" (Text "crypto_key")
      (Member "auth_data" (Text "test_user") (Member "whitelists" (Element (Text "./RU_whitelist.qwlist") Null) Null)))))))).

Lemma client_starts_without_crypto_witness :
  is_Some (client_start (H := sample_json) (H0 := sample_kernel) ModeVerboser.initial_net_names
    QVPNVerboser.initial_tables (fun _ => None) (Some (crypto_file 0)) {[1]}) /\
  ~ is_Some (client_start (H := sample_json) (H0 := sample_kernel) ModeVerboser.initial_net_names
    QVPNVerboser.initial_tables (fun _ => None) (Some (crypto_file 1)) {[1]}).
Proof.
  split.
  - apply (proj1 (client_starts_without_crypto (H := sample_json) (H0 := sample_kernel) ModeVerboser.initial_net_names
      QVPNVerboser.initial_tables (fun _ => None) (crypto_file 0) _ 0 {[1]} eq_refl eq_refl)). reflexivity.
  - intros Hs. apply (proj1 (client_starts_without_crypto (H := sample_json) (H0 := sample_kernel) ModeVerboser.initial_net_names
      QVPNVerboser.initial_tables (fun _ => None) (crypto_file 1) _ 1 {[1]} eq_refl eq_refl)) in Hs. discriminate Hs.
Defined.
