(* ===== verification/WinClient.v ===== *)
(** The client app on Windows, from its settings file to the two capture filters:
    [WinDivertClientVPNNetDriver_::init_driver] (include/Windows/windivert_ext.hpp),
    [VPNClient] (include/qvpn_driver.hpp) and [main] (src/QVPN/QVPN Client App/src/main.cpp),
    over the sockets of [WinSockets]. *)
From S2P Require Import Prelude Addr SafeReceive TlsHello Installer Driver Handshake Settings Transport Sockets Connections Filters Startup WinSockets.

(** The client's socket as the authorization asks for it; the other three calls are not made by the
    client.  [receive] is defined when no more is written than was allowed. *)
#[local] Instance client_auth `{Winsock} (behind : mem) (addr : list Z) (port : Z) :
    AuthSocket (H := Win_ClientSocket.windows_socket behind addr port) := {|
  sock_receive := fun p : @socket (Win_ClientSocket.windows_socket behind addr port) => let '(s, k) := p in
    match Win_Socket.receive s 0 k with
    | Some (rd, k) => (rd, (s, k)) | None => (mkReceive (mkStatus false 0) (-1) [], (s, k)) end;
  sock_shutdown := fun p => p;
  sock_disconnect := fun p => p;
  sock_close := fun p => p |}.

Module VPNClient.
Section Client.
Context `{Winsock} `{Randomness} (behind : mem).

(** [driver_.init()]; its answer is not looked at. *)
Definition init (addr : list Z) (port : Z) (st : ClientAuth.settings) (d : draws)
    (p : QVPN_Socket.t * kernel) : option (QVPN_Socket.t * kernel) :=
  snd <$> ClientAuth.init (H0 := Win_ClientSocket.windows_socket behind addr port)
    (H1 := client_auth behind addr port) st d p.

Definition init_driver (addr : list Z) (port : Z) (st : ClientAuth.settings) (d : draws) (s : QVPN_Socket.t) :
    io QVPN_Socket.t :=
  '((success, s) : bool * QVPN_Socket.t) ← Win_ClientSocket.connect behind addr port s;
  if success then (fun k => init addr port st d (s, k)) : io QVPN_Socket.t
  else fun k =>
    let '(success, p) := QVPNClientDriver.try_reconnect
      (H := Win_ClientSocket.windows_socket behind addr port) 20 (s, k) in
    if (success : bool) then init addr port st d p else Some p.

Definition init_vpn := init_driver.

End Client.
End VPNClient.

Module ClientApp.
Section Main.
Context `{Json} `{Winsock} `{Randomness} (N : ModeVerboser.net_names) (T : QVPNVerboser.tables).
Context (open_file : string -> option string) (behind : mem).

(** What [init] of the driver reads from the settings; [host] is what the whitelist picks. *)
Definition auth_settings (s : QVPNClientSettings.t) (auth key host : mem) : ClientAuth.settings :=
  ClientAuth.mk_settings auth (QVPNClientCryptoSettings.crypto_method_ (QVPNClientSettings.crypto s)) key host.

(** [main]: [auth], [key] and [host] are the bytes of the texts of the settings, [init] the
    indeterminate descriptor of a new socket. *)
Definition main (auth key host : mem) (d : draws) (init : Z) (file : option json) :
    io (string * QVPN_Socket.t * CaptureFilters.t) :=
  settings ← lift (QVPNClientSettings.parse_settings open_file Mains.client_settings file);
  let settings := Mains.client_with_layers settings in
  text ← lift (SettingsInfo.get_client_settings_info N T settings);
  let connection := QVPNClientSettings.connection settings in
  let addr := QVPNClientConnectionSettings.get_ip_address connection in
  let port := QVPNClientConnectionSettings.get_port connection in
  socket_ ← Win_NetTools.create_socket init (QVPNClientConnectionSettings.get_net_proto connection)
              (QVPNClientConnectionSettings.get_transport_proto connection);
  socket_ ← VPNClient.init_vpn behind addr port (auth_settings settings auth key host) d socket_;
  filters ← lift (CaptureFilters.client_main addr);
  mret (text, socket_, filters).

End Main.
End ClientApp.

Section App.
Context `{Json} {W : Winsock} {L : WinsockLaws W} `{Randomness} (N : ModeVerboser.net_names) (T : QVPNVerboser.tables).
Context (open_file : string -> option string).

Lemma init_driver_undefined behind addr port st d s k :
  msize addr = 4 -> msize behind < 4 -> VPNClient.init_driver behind addr port st d s k = None.
Proof.
  intros Ha Hb. unfold VPNClient.init_driver, Win_ClientSocket.connect, mbind, io_bind.
  by rewrite (connect_undefined behind s addr port k Ha Hb).
Qed.

(** With an IPv4 address in its settings file, the client app has no defined run: it does
    not get past its first connection. *)
Lemma client_app_undefined behind auth key host d init settings addr k :
  bytes addr -> msize addr = 4 -> msize behind < 4 ->
  member_text settings "addr" = Some (NetAddr.to_string addr) ->
  ClientApp.main N T open_file behind auth key host d init (Some settings) k = None.
Proof.
  intros Hb Ha Hn Ht. unfold ClientApp.main.
  destruct (QVPNClientSettings.parse_settings open_file Mains.client_settings (Some settings)) as [st|] eqn:E; [|done].
  assert (Haddr : QVPNClientConnectionSettings.get_ip_address
    (QVPNClientSettings.connection (Mains.client_with_layers st)) = addr).
  { apply (client_address_parsed open_file Mains.client_settings settings st _ addr E Ht).
    by apply parse_net_addr_to_string; [|lia]. }
  unfold mbind, io_bind, lift at 1. destruct (SettingsInfo.get_client_settings_info N T _) as [text|]; [|done].
  cbn [lift]. rewrite Haddr. destruct (Win_NetTools.create_socket _ _ _ k) as [[s k1]|]; [|done].
  unfold VPNClient.init_vpn. by rewrite init_driver_undefined.
Qed.

End App.
